(* ===== verification/_CoqProject ===== *)
-Q . S2P
Prelude.v
JsMap.v
JsValue.v
JsonStore.v
JsArray.v
AnalysisCache.v
TaskQueue.v
Scheduler.v
PostProcess.v
Pipeline.v
StorageCache.v
ImageCache.v
ImageLoader.v
EventManager.v
ModelLoader.v
GallerySearch.v
GalleryPaging.v
Gallery.v
GalleryEvents.v
GalleryPrefs.v
AdminSecurity.v
AdminSession.v
AdminStats.v
ObjectUtils.v
SpecializedStorage.v
Utils.v
Timers.v
UIOverlays.v
UIManager.v
App.v
ArrayUtils.v
JsNumber.v
ImageMetadata.v
ImageManager.v
Timing.v
EventBus.v
AIEngine.v
GalleryStats.v
SearchDebounce.v
