(* ===== verification/Prelude.v ===== *)
(** * Verification of isLinXu/ai-images-galley

    The repository is a browser photo gallery written in JavaScript: ES
    modules under [src/src/js/] and a bundle [src/dist/bundle.js].  The
    modules and how they interact:

    - [aiEngine.js]: [EnhancedAIEngine] analyses images.  [analyzeImage]
      looks the image up in [analysisCache] (a JS [Map]), otherwise queues
      a task by priority and kicks the drain loop [_processQueue], which
      runs at most [workers] tasks per batch ([_processTask]: the models,
      [_postProcessResult], [_cacheResult]).  [TensorFlowModelManager]
      loads the models with a retry counter ([loadModels], and the
      uncalled [_loadModelsInternal] with its progress reports) and wraps
      the libraries' [classify] and [detect].
    - [storageManager.js]: [StorageManager], a time-limited read cache in
      front of storage adapters, and [SpecializedStorageManager], the typed
      stores (admin log, notes, tags, AI cache, preferences, theme) the
      other modules were written against.  The default export is the
      [StorageManager] instance, which has no [specializedStorage]
      property: every module that reads [storageManager.specializedStorage]
      meets [undefined].
    - [imageManager.js]: [ImageMetadataManager] (metadata of a [File]),
      [ImageCacheManager] (image and thumbnail caches with LRU eviction),
      [ImageProcessor] (compression and filter sizes) and [ImageManager]
      ([loadImage] deduplicating loads in flight, validation, removal).
    - [eventManager.js]: the publish/subscribe bus every manager emits on.
    - [galleryManager.js]: [GalleryManager] composing [SearchEngine],
      [FilterManager], [SortManager], [PaginationManager], [ViewManager].
    - [adminManager.js]: login throttling, session tokens and timers, the
      activity log and permissions.
    - [uiManager.js]: the overlays ([ModalManager], [TooltipManager],
      [ProgressManager], [LoadingManager]), [ThemeManager],
      [ResponsiveManager] and [UIManager] that builds them.
    - [app.js]: [AIGalleryApp] with [AppStateManager],
      [KeyboardShortcutManager], [DragDropManager], [PerformanceMonitor];
      it initializes the other managers and drives the loading overlay.
    - [utils.js] and [config.js]: helpers and configuration constants.

    ** Files of the development (in dependency order)

    - [Prelude] (this file): JS strings as lists of UTF-16 code units,
      JS errors, the scope [gallery_scope], the hint databases, the
      tactics and the list lemmas shared by the components.
    - [JsMap]: the insertion-ordered JS [Map] (an association list) with
      its no-duplicate-key invariant, and the counters of a plain object
      [{}] ([obj_incr]: keys inherited from [Object.prototype] count into
      strings).  [JsValue]: JS values as trees, with [deepClone] and the
      JSON round trip.  [JsonStore]: parsed JSON values and the key-value
      store interface [KVStore] with its laws (a stdpp [gmap] instance),
      behind which the gallery and admin managers persist their state.
      [JsArray]: stable
      [Array.prototype.sort], [slice], [<] on rationals.
    - [AnalysisCache], [TaskQueue], [Scheduler], [PostProcess], [Pipeline],
      [ModelLoader]: the analysis engine of [aiEngine.js] ([TaskQueue]
      refines an abstract tiered queue given by a [Module Type];
      [Scheduler] is the drain loop as a step relation with the worker
      bound proved by rule induction; [ModelLoader] holds the
      [TensorFlowModelManager] with both loading paths and the two
      inference wrappers).  [AIEngine] (last in the list, as it needs
      [Utils]) puts the engine's fields together, models [getStats],
      [clearCache], [setConfidenceThreshold], [dispose] and the
      [beforeunload] listener, and gives the model environment [Pipeline]
      takes as input from the manager's wrappers ([env_of]).
    - [StorageCache] (adapters behind a typeclass, the TTL read cache),
      [ObjectUtils], [SpecializedStorage] (the typed stores, with the
      aliasing of cache entries the accessors mutate).
    - [ImageCache], [ImageLoader] (loads as a step relation of calls and
      settlements), [JsNumber] (finite numbers, infinities and [NaN]),
      [ImageMetadata] ([ImageMetadataManager], [ImageProcessor]),
      [ImageManager] (validation, removal and clear).
    - [EventManager] (registration, [off], [emit]) and [EventBus]
      ([emitAsync] as a run settled listener by listener, a listener's
      call returning, throwing or returning a rejecting promise, [waitFor],
      [namespace], the typed wrappers of [TypedEventManager]);
      [GallerySearch], [GalleryPaging], [Gallery], [GalleryEvents] (the
      listeners of [GalleryManager._bindEvents] in an event loop holding
      the gallery, [imageManager.loadedImages] and the refreshes in
      flight, [initialize], getters), [GalleryPrefs] (the managers' saved
      preferences as JSON under their keys, over an absent or a working
      store),
      and [GalleryStats]
      ([FilterManager.getFilterStats] and [getGalleryStats], last in the
      list as its ranges are [JsNumber]s);
      [AdminSecurity], [AdminSession], [AdminStats] (the statistics
      getters, and the loads and saves of [adminData] as JSON under their
      keys over a store that is absent, as in the repository, or
      working).
    - [Utils] ([TimeUtils], [ValidationUtils], [StringUtils],
      [FileUtils], [MathUtils]), [ArrayUtils], [Timing] ([throttle],
      [delay], [retry]).
    - [Timers]: the browser's [setTimeout] and [requestAnimationFrame]
      queue, generic in the callbacks; [UIOverlays] (the four overlay
      managers, their deferred callbacks run by [Timers]), [UIManager]
      ([ThemeManager], [ResponsiveManager], [UIManager]) and [App];
      [SearchDebounce] (the search box's 300 ms debounce, last in the
      list).

    ** What the theorems show

    Invariants of every reachable state (cache bounds, the worker bound,
    single flight of image loads, the modal stack, the app history bound),
    functional specifications of operations on every branch, refinement of
    the priority queue, termination (the drain loop, [chunk], [retry]) and
    non-termination ([chunk] with a size of zero or less), the agreement
    of the gallery and activity-log statistics with the filters, the
    search box's debounce against the quiet-period specification (each
    search 300 ms after an input no other input followed within 300 ms),
    liveness of the
    tooltip timers, round trips (storage [set]/[get], base-36 ids, state
    undo, the gallery preferences and the lockout data through their JSON
    and their keys), the agreement of [emitAsync] with [emit] when no
    listener rejects asynchronously, and the failures the repository has: the constructors that
    throw ([UIManager], [GalleryManager], [ResponsiveManager]), the code
    paths that call methods that do not exist, and the interleavings that
    leave overlays hidden, orphaned or shown, the newly loaded image that
    the refreshes of its own [image:loaded] never show (the event is
    emitted before [loadImage] stores the image), the activity and file-type
    counters that turn into strings for a key named [constructor], the queued
    analyses [dispose] abandons on every reachable state, and the
    persisted admin session that no page load can restore.  Each claim is a theorem
    whose doc comment names its id [C<n>]; a theorem with hypotheses has
    a witness applying it to a concrete input.

    ** Modelling conventions

    - JS strings are lists of UTF-16 code units ([jsstring := list Z]);
      non-ASCII literals are written as their code units.
    - Counts are [nat]; timestamps ([Date.now()]) are [Z] milliseconds
      passed as the [now] of each operation; confidences, sizes and ratios
      are [Q], or [JsNumber.number] where a division may reach [Infinity]
      or [NaN]; [Math.exp] is over [R].  Exact rationals agree with the
      doubles on every comparison the code makes for integer sizes below
      2^26.
    - JS [Map]s are association lists in insertion order, since eviction
      reads [keys().next()].
    - Asynchrony is a step relation or a step function over the events of
      the event loop (a call, a promise settling, a timer firing, a frame),
      so every interleaving the browser may produce is a path.  The queue
      of [Timers] orders timeouts by due time and then by scheduling.
    - A method that throws returns [inl] of its exception; [undefined]
      configuration values are [None] or [JsNumber.undefined], with the JS
      comparisons against them written out.
    - Loops that need not terminate ([chunk], [retry], the drain loop,
      [batch_loop]) take fuel; the theorems give the fuel that is enough
      ([length + 1] rounds for [chunk], [retries + 1] calls for [retry],
      [maxRetries - retryCount + 1] attempts or passes for the two model
      loaders,
      twice the pending timers for the tooltip drain) and prove the result
      is reached with it.

    ** Not modelled

    The DOM and rendering (elements are records of the classes and styles
    the code sets), canvas pixels and trigonometry ([rotateImage],
    [applyFilter]), the models' inference (their outputs are inputs), the
    GitHub upload and fetch calls (their outcomes are inputs), locale
    formatting, the text [JSON.stringify] produces ([exportGalleryData],
    [exportLogs], [_exportToCSV], [StorageManager.getSize] and [getUsage],
    which measure it; the development keeps only what [JSON.parse] gives
    back), browser fingerprints ([_getClientIdentifier]),
    [StringUtils.stripHtml], [ArrayUtils.sortBy], [debounce] and
    [timeout] (no caller), [ImageManager._cleanupMemory] and its
    memory-polling [_bindEvents] (they sort by the [loadedAt] date an
    image object gets when its load starts, a time the load model does
    not record), the [PerformanceObserver] and [performance.memory]
    readings of [PerformanceMonitor], the initialization flags of
    [StorageManager.initialize] and [ImageManager.initialize] (no state
    of the model depends on them), the [userAgent], [ip] and [details]
    of log entries and failed attempts (no theorem reads them), values
    in the preference and admin stores of a shape the code never writes
    (their loads keep the current state), the order in which an object
    enumerates integer-like keys (the keys involved are names), and
    [src/dist/bundle.js], a build of an earlier version of the sources. *)

From Stdlib Require Export ZArith.
From Stdlib Require String Ascii.
Export String.StringSyntax.
From stdpp Require Export base list decidable option sets.

Declare Scope gallery_scope.
Delimit Scope gallery_scope with gallery.
Open Scope gallery_scope.

(** ** JS strings *)

(** A JS string value: its sequence of UTF-16 code units. *)
Definition jsstring := list Z.

(** The code units of an ASCII literal, to write the program's constant
    strings. *)
Fixpoint js (s : String.string) : jsstring :=
  match s with
  | String.EmptyString => []
  | String.String c s' => Z.of_N (Ascii.N_of_ascii c) :: js s'
  end.

Arguments js s%_string_scope.

(** JS string concatenation [a + b]. *)
Notation "a +s+ b" := (@app Z a b) (at level 60, right associativity) : gallery_scope.

(** [s.startsWith(p)]. *)
Fixpoint prefixb (p s : jsstring) : bool :=
  match p, s with
  | [], _ => true
  | _ :: _, [] => false
  | a :: p', b :: s' => Z.eqb a b && prefixb p' s'
  end.

(** [str.startsWith(p) ? str.slice(p.length) : undefined]. *)
Fixpoint stripPrefix (p s : jsstring) : option jsstring :=
  match p, s with
  | [], _ => Some s
  | _ :: _, [] => None
  | a :: p', b :: s' => if Z.eqb a b then stripPrefix p' s' else None
  end.

(** [str.includes(sub)]: [sub] occurs as a contiguous factor of [str]. *)
Fixpoint includes (s sub : jsstring) : bool :=
  prefixb sub s ||
  match s with
  | [] => false
  | _ :: s' => includes s' sub
  end.

(** The decimal rendering of a non-negative integer JS number
    ([String(n)] / template literal [`${n}`]): digits, most significant
    first, code units 48..57. *)
Fixpoint digits_rev_fuel (fuel n : nat) : jsstring :=
  match fuel with
  | 0 => []
  | S f =>
      Z.of_nat (48 + n mod 10) ::
      (if n <? 10 then [] else digits_rev_fuel f (n / 10))
  end.

Definition nat_to_jsstring (n : nat) : jsstring := rev (digits_rev_fuel (S n) n).

(** ** Whitespace and case *)

(** The class [\s] of JS regular expressions, which is also the set
    [String.prototype.trim] strips (WhiteSpace and LineTerminator). *)
Definition is_js_whitespace (c : Z) : bool :=
  (((9 <=? c) && (c <=? 13)) || (c =? 32) || (c =? 0xa0) || (c =? 0x1680) ||
   ((0x2000 <=? c) && (c <=? 0x200a)) || (c =? 0x2028) || (c =? 0x2029) ||
   (c =? 0x202f) || (c =? 0x205f) || (c =? 0x3000) || (c =? 0xfeff))%Z.

(** The ASCII part of [toLowerCase] on one code unit: capitals A..Z to
    a..z.  It is the whole mapping on the strings [_cleanLabel] lowers,
    which hold only ASCII letters, CJK ideographs and whitespace. *)
Definition lower_char (c : Z) : Z := (if (65 <=? c) && (c <=? 90) then c + 32 else c)%Z.

Fixpoint drop_ws (s : jsstring) : jsstring :=
  match s with
  | c :: s' => if is_js_whitespace c then drop_ws s' else s
  | [] => []
  end.

(** [String.prototype.trim]. *)
Definition trim (s : jsstring) : jsstring := rev (drop_ws (rev (drop_ws s))).


(** ** JS exceptions *)

(** The exceptions the modelled code throws or catches: a [TypeError]
    raised by the runtime (reading a property of [undefined], calling a
    missing method) or an [Error] built by the code, each with its
    message. *)
Inductive js_error :=
  | TypeError (msg : jsstring)
  | Error (msg : jsstring).

#[export] Instance js_error_eq_dec : EqDecision js_error.
Proof. solve_decision. Defined.

(** [error.message]. *)
Definition message (e : js_error) : jsstring :=
  match e with TypeError m | Error m => m end.

(** ** Tactics and hints shared by the components *)

Create HintDb gallery.
Create Rewrite HintDb gallery_rw.

Ltac invc H := inversion H; subst; clear H.

(** Split every boolean test of a goal or hypothesis into its Prop. *)
Ltac bool_to_prop :=
  repeat match goal with
  | H : (_ <=? _) = true |- _ => apply Nat.leb_le in H
  | H : (_ <=? _) = false |- _ => apply Nat.leb_gt in H
  | H : (_ <? _) = true |- _ => apply Nat.ltb_lt in H
  | H : (_ <? _) = false |- _ => apply Nat.ltb_ge in H
  | H : (_ =? _) = true |- _ => apply Nat.eqb_eq in H
  | H : (_ =? _) = false |- _ => apply Nat.eqb_neq in H
  | H : (_ && _) = true |- _ => apply andb_prop in H as [? ?]
  end.

(** ** Generic list lemmas *)

Section ListFacts.
Context {A : Type}.

Lemma length_filter_le (f : A -> bool) (l : list A) :
  length (List.filter f l) <= length l.
Proof.
  induction l as [|x l IH]; simpl; [lia|].
  destruct (f x); simpl; lia.
Qed.

Lemma Forall_filter_true (f : A -> bool) (l : list A) :
  Forall (fun x => f x = true) (List.filter f l).
Proof.
  induction l as [|x l IH]; simpl; [constructor|].
  destruct (f x) eqn:E; [constructor|]; auto.
Qed.

Lemma length_take_le (n : nat) (l : list A) : length (take n l) <= n.
Proof. rewrite length_take. lia. Qed.

Lemma take_drop_app (n : nat) (l : list A) : take n l ++ drop n l = l.
Proof. apply take_drop. Qed.

Lemma elem_of_insert_inv (l : list A) (i : nat) (x y : A) : y ∈ <[i:=x]> l -> y = x \/ y ∈ l.
Proof.
  revert i. induction l as [|z l IH]; intros [|i]; simpl; rewrite ?elem_of_cons; auto.
  - intros [|]; auto.
  - intros [|Hy]; auto. destruct (IH i Hy); auto.
Qed.

Lemma elem_of_take_drop_inv (n : nat) (l : list A) (x : A) :
  x ∈ take n l \/ x ∈ drop n l -> x ∈ l.
Proof. intros [H|H]; [by apply (subseteq_take n)|by apply (subseteq_drop n)]. Qed.
(** [Array.prototype.filter] is [List.filter]; its membership, order and
  [Forall] facts. *)
Lemma elem_of_List_filter (f : A -> bool) (l : list A) (x : A) :
  x ∈ List.filter f l <-> f x = true /\ x ∈ l.
Proof. rewrite !list_elem_of_In, filter_In. tauto. Qed.

Lemma sublist_List_filter (f : A -> bool) (l : list A) : sublist (List.filter f l) l.
Proof.
  induction l as [|x l IH]; simpl; [constructor|].
  destruct (f x); by constructor.
Qed.

Lemma Forall_List_filter (P : A -> Prop) (f : A -> bool) (l : list A) :
  Forall P l -> Forall P (List.filter f l).
Proof. induction 1 as [|x l Hx _ IH]; simpl; [constructor|]. destruct (f x); auto. Qed.

Lemma sublist_map {B} (f : A -> B) (l1 l2 : list A) : sublist l1 l2 -> sublist (map f l1) (map f l2).
Proof. induction 1; simpl; by constructor. Qed.

Lemma List_filter_all (f : A -> bool) (l : list A) : (forall x, f x = true) -> List.filter f l = l.
Proof. intros Hf. induction l as [|x l IH]; simpl; [done|]. by rewrite Hf, IH. Qed.

Lemma List_filter_all_in (f : A -> bool) (l : list A) : (forall x, x ∈ l -> f x = true) -> List.filter f l = l.
Proof.
  induction l as [|x l IH]; intros Hf; simpl; [done|].
  rewrite Hf by (by left). rewrite IH; [done|]. intros y Hy. apply Hf. by right.
Qed.
End ListFacts.

#[export] Hint Resolve length_filter_le length_take_le Forall_filter_true : gallery.
#[export] Hint Rewrite @take_drop_app : gallery_rw.

(** ** Decimal rendering *)

Lemma digits_rev_fuel_digits (fuel n : nat) :
  Forall (fun c => (48 <= c <= 57)%Z) (digits_rev_fuel fuel n).
Proof.
  revert n; induction fuel as [|f IH]; intros n; simpl; [constructor|].
  constructor.
  - pose proof (Nat.mod_upper_bound n 10 ltac:(lia)). lia.
  - destruct (n <? 10); [constructor|apply IH].
Qed.

(** The rendering of a number is made of digit code units only; in
    particular it never contains the separator [:] (code unit 58). *)
Lemma nat_to_jsstring_digits (n : nat) :
  Forall (fun c => (48 <= c <= 57)%Z) (nat_to_jsstring n).
Proof.
  unfold nat_to_jsstring. apply Forall_rev, digits_rev_fuel_digits.
Qed.

Lemma prefixb_app (p s : jsstring) : prefixb p (p ++ s) = true.
Proof. induction p as [|a p IH]; simpl; [done|]. by rewrite Z.eqb_refl. Qed.

Lemma prefixb_spec (p s : jsstring) : prefixb p s = true <-> exists r, s = p ++ r.
Proof.
  revert s. induction p as [|a p IH]; intros [|b s]; simpl; split; try done; eauto.
  - by intros [r ?].
  - intros [->%Z.eqb_eq H]%andb_prop. apply IH in H as [r ->]. eauto.
  - intros [r [= -> ->]]. rewrite Z.eqb_refl. simpl. apply IH. eauto.
Qed.

Lemma stripPrefix_app (p s : jsstring) : stripPrefix p (p ++ s) = Some s.
Proof. induction p as [|a p IH]; simpl; [done|]. by rewrite Z.eqb_refl. Qed.

Lemma digit_back (k : nat) : Z.to_nat (Z.of_nat (48 + k) - 48) = k.
Proof.
  rewrite Nat2Z.inj_add. replace (Z.of_nat 48 + Z.of_nat k - 48)%Z with (Z.of_nat k) by lia.
  apply Nat2Z.id.
Qed.

(** Reading the digits back, least significant first, gives the number. *)
Lemma digits_rev_fuel_value (f n : nat) :
  n < f -> fold_right (fun d acc => Z.to_nat (d - 48) + 10 * acc) 0 (digits_rev_fuel f n) = n.
Proof.
  revert n. induction f as [|f IH]; intros n Hn; [lia|]. cbn [digits_rev_fuel fold_right].
  rewrite digit_back. destruct (Nat.ltb_spec n 10).
  - cbn [fold_right]. rewrite Nat.mod_small by assumption. lia.
  - rewrite IH.
    + pose proof (Nat.div_mod_eq n 10). lia.
    + assert (n / 10 < n) by (apply Nat.div_lt; lia). lia.
Qed.

Lemma nat_to_jsstring_nonempty (n : nat) : nat_to_jsstring n <> [].
Proof. unfold nat_to_jsstring. simpl. intros H. by apply app_eq_nil in H as [_ ?]. Qed.

#[export] Hint Resolve nat_to_jsstring_digits : gallery.
