(* ===== verification/JsMap.v ===== *)
(** * The JS [Map] of the ECMAScript runtime

    Every cache of the program ([analysisCache], [StorageManager.cache],
    [ImageCacheManager.cache] and [thumbnailCache], [loadedImages],
    [loadingPromises]) is a JS [Map].  A [Map] iterates in insertion order,
    [set] on a present key replaces the value in place (the key keeps its
    position), and the code's FIFO eviction reads [keys().next().value],
    the oldest inserted key.  This file gives those semantics as an
    association list in insertion order, its invariant (no duplicate key),
    and the interface lemmas the components use.  It models the runtime,
    not code of the repository. *)

From S2P Require Import Prelude.

Module JsMap.
Section JsMap.
Context {K V : Type} `{EqDecision K}.

(** Entries in insertion order. *)
Definition t := list (K * V).

Definition empty : t := [].

(** [map.get(k)]: [None] stands for [undefined]. *)
Fixpoint get (k : K) (m : t) : option V :=
match m with
| [] => None
| (k', v) :: m' => if decide (k = k') then Some v else get k m'
end.

(** [map.has(k)]. *)
Definition has (k : K) (m : t) : bool :=
match get k m with Some _ => true | None => false end.

(** [map.set(k, v)]: in place for a present key, appended otherwise. *)
Fixpoint set (k : K) (v : V) (m : t) : t :=
match m with
| [] => [(k, v)]
| (k', v') :: m' =>
    if decide (k = k') then (k, v) :: m' else (k', v') :: set k v m'
end.

(** [map.delete(k)]. *)
Fixpoint delete (k : K) (m : t) : t :=
match m with
| [] => []
| (k', v') :: m' => if decide (k = k') then m' else (k', v') :: delete k m'
end.

(** [map.delete(undefined)] is a no-op on a map whose keys are never
  [undefined]; [delete_opt None] models it. *)
Definition delete_opt (k : option K) (m : t) : t :=
match k with Some k => delete k m | None => m end.

Definition keys (m : t) : list K := map fst m.

Definition size (m : t) : nat := length m.

(** [map.keys().next().value]: the oldest key, [undefined] when empty. *)
Definition first_key (m : t) : option K :=
match m with [] => None | (k, _) :: _ => Some k end.

(** Well-formedness: a key occurs at most once. *)
Definition wf (m : t) : Prop := NoDup (keys m).

(** ** Lemmas *)

Lemma get_Some_in (k : K) (v : V) (m : t) : get k m = Some v -> k ∈ keys m.
Proof.
induction m as [|[k' v'] m IH]; simpl; [discriminate|].
case_decide; subst; intros; [left|right; auto].
Qed.

Lemma get_None_notin (k : K) (m : t) : k ∉ keys m -> get k m = None.
Proof.
induction m as [|[k' v'] m IH]; simpl; [done|].
intros Hn. rewrite not_elem_of_cons in Hn. destruct Hn as [Hne Hn].
case_decide; [congruence|auto].
Qed.

Lemma get_in_Some (k : K) (m : t) : k ∈ keys m -> is_Some (get k m).
Proof.
induction m as [|[k' v'] m IH]; simpl; intros Hin; [inversion Hin|].
case_decide; [eauto|]. rewrite elem_of_cons in Hin.
destruct Hin; [congruence|auto].
Qed.

Lemma has_spec (k : K) (m : t) : has k m = true <-> k ∈ keys m.
Proof.
unfold has. split.
- destruct (get k m) eqn:E; [|discriminate]. intros _. by eapply get_Some_in.
- intros Hin. destruct (get_in_Some k m Hin) as [v ->]. done.
Qed.

Lemma get_set_eq (k : K) (v : V) (m : t) : get k (set k v m) = Some v.
Proof.
induction m as [|[k' v'] m IH]; simpl; [by case_decide|].
repeat (case_decide; simpl); congruence.
Qed.

Lemma get_set_ne (k j : K) (v : V) (m : t) : j <> k -> get j (set k v m) = get j m.
Proof.
intros Hne. induction m as [|[k' v'] m IH]; simpl.
- by case_decide.
- repeat (case_decide; simpl); subst; congruence.
Qed.

Lemma keys_set_in (k : K) (v : V) (m : t) : k ∈ keys m -> keys (set k v m) = keys m.
Proof.
induction m as [|[k' v'] m IH]; simpl; intros Hin; [inversion Hin|].
case_decide; simpl; subst; [done|].
rewrite elem_of_cons in Hin. destruct Hin; [congruence|]. f_equal; auto.
Qed.

Lemma keys_set_notin (k : K) (v : V) (m : t) : k ∉ keys m -> keys (set k v m) = keys m ++ [k].
Proof.
induction m as [|[k' v'] m IH]; simpl; intros Hn; [done|].
rewrite not_elem_of_cons in Hn. destruct Hn as [Hne Hn].
case_decide; [congruence|]. simpl. f_equal; auto.
Qed.

Lemma size_set_in (k : K) (v : V) (m : t) : k ∈ keys m -> size (set k v m) = size m.
Proof.
intros Hin. unfold size. rewrite <- (length_map fst (set k v m)), <- (length_map fst m).
fold (keys (set k v m)) (keys m). by rewrite keys_set_in.
Qed.

Lemma size_set_notin (k : K) (v : V) (m : t) : k ∉ keys m -> size (set k v m) = S (size m).
Proof.
intros Hn. unfold size. rewrite <- (length_map fst (set k v m)), <- (length_map fst m).
fold (keys (set k v m)) (keys m).
rewrite keys_set_notin by done. rewrite length_app. simpl. lia.
Qed.

Lemma size_set_le (k : K) (v : V) (m : t) : size (set k v m) <= S (size m).
Proof.
destruct (decide (k ∈ keys m)).
- rewrite size_set_in by done. lia.
- rewrite size_set_notin by done. lia.
Qed.

Lemma wf_set (k : K) (v : V) (m : t) : wf m -> wf (set k v m).
Proof.
unfold wf. intros Hwf. destruct (decide (k ∈ keys m)).
- by rewrite keys_set_in.
- rewrite keys_set_notin by done. apply list.NoDup_app. repeat split; [done| |].
  + intros x Hx Hx'. rewrite list_elem_of_singleton in Hx'. subst. done.
  + apply list.NoDup_singleton.
Qed.

Lemma keys_delete_notin (k : K) (m : t) : k ∉ keys m -> delete k m = m.
Proof.
induction m as [|[k' v'] m IH]; simpl; intros Hn; [done|].
rewrite not_elem_of_cons in Hn. destruct Hn as [Hne Hn].
case_decide; [congruence|]. f_equal; auto.
Qed.

Lemma size_delete_in (k : K) (m : t) : k ∈ keys m -> size (delete k m) = pred (size m).
Proof.
induction m as [|[k' v'] m IH]; simpl; intros Hin; [inversion Hin|].
case_decide; [done|]. rewrite elem_of_cons in Hin. destruct Hin as [|Hin]; [congruence|].
unfold size in *. simpl. rewrite IH by done.
destruct m; [inversion Hin|]. simpl. lia.
Qed.

Lemma keys_delete_sub (k : K) (m : t) : keys (delete k m) ⊆ keys m.
Proof.
induction m as [|[k' v'] m IH]; simpl; [done|].
intros x Hx. rewrite elem_of_cons. case_decide; [by right|].
simpl in Hx. rewrite elem_of_cons in Hx. destruct Hx; [by left|right; by apply IH].
Qed.

Lemma wf_delete (k : K) (m : t) : wf m -> wf (delete k m).
Proof.
unfold wf. induction m as [|[k' v'] m IH]; simpl; intros Hwf; [done|].
apply list.NoDup_cons in Hwf as [Hn Hwf]. case_decide; [done|]. simpl.
apply list.NoDup_cons. split; [|auto]. intros Hin. apply Hn. by apply keys_delete_sub in Hin.
Qed.

Lemma get_delete_eq (k : K) (m : t) : wf m -> get k (delete k m) = None.
Proof.
unfold wf. induction m as [|[k' v'] m IH]; simpl; intros Hwf; [done|].
apply list.NoDup_cons in Hwf as [Hn Hwf]. case_decide; subst.
- by apply get_None_notin.
- simpl. case_decide; [congruence|auto].
Qed.

Lemma get_delete_ne (k j : K) (m : t) : j <> k -> get j (delete k m) = get j m.
Proof.
intros Hne. induction m as [|[k' v'] m IH]; simpl; [done|].
repeat (case_decide; simpl); subst; congruence.
Qed.

(** Deleting the oldest key drops the first entry. *)
Lemma delete_first_key (m : t) : delete_opt (first_key m) m = tail m.
Proof. destruct m as [|[k v] m]; simpl; [done|]. by case_decide. Qed.

Lemma size_tail (m : t) : size (tail m) = pred (size m).
Proof. destruct m; done. Qed.

Lemma wf_tail (m : t) : wf m -> wf (tail m).
Proof. unfold wf. destruct m as [|[k v] m]; simpl; [done|]. by intros [? ?]%list.NoDup_cons. Qed.

Lemma keys_tail (m : t) : keys (tail m) = tail (keys m).
Proof. by destruct m. Qed.

(** The FIFO eviction step both bounded caches perform before a [set]
  keeps them within their bound. *)
Lemma evict_set_size (max : nat) (k : K) (v : V) (m : t) :
1 <= max -> size m <= max ->
size (set k v (if max <=? size m then delete_opt (first_key m) m else m)) <= max.
Proof.
intros Hpos Hsz. pose proof (size_set_le k v (if max <=? size m then delete_opt (first_key m) m else m)).
destruct (Nat.leb_spec max (size m)); [|lia].
rewrite delete_first_key, size_tail in *. lia.
Qed.

Lemma evict_set_wf (max : nat) (k : K) (v : V) (m : t) :
wf m -> wf (set k v (if max <=? size m then delete_opt (first_key m) m else m)).
Proof. intros Hwf. apply wf_set. case_match; [rewrite delete_first_key; by apply wf_tail|done]. Qed.

Lemma keys_filter_sublist (p : K * V -> bool) (m : t) : sublist (keys (List.filter p m)) (keys m).
Proof.
induction m as [|[k v] m IH]; simpl; [done|].
destruct (p (k, v)); simpl; [by apply sublist_skip|by apply sublist_cons].
Qed.

Lemma wf_filter (p : K * V -> bool) (m : t) : wf m -> wf (List.filter p m).
Proof. unfold wf. intros Hwf. eapply sublist_NoDup; eauto using keys_filter_sublist. Qed.

Lemma size_filter_le (p : K * V -> bool) (m : t) : size (List.filter p m) <= size m.
Proof. apply length_filter_le. Qed.

Lemma get_filter (p : K * V -> bool) (k : K) (m : t) :
wf m -> get k (List.filter p m) = match get k m with Some v => if p (k, v) then Some v else None | None => None end.
Proof.
unfold wf. induction m as [|[k' v'] m IH]; simpl; [done|]. intros [Hn Hwf]%list.NoDup_cons.
destruct (p (k', v')) eqn:Hp; simpl; case_decide; subst; rewrite ?Hp; auto.
rewrite IH by done. rewrite get_None_notin by done. done.
Qed.

Lemma get_elem_of (k : K) (v : V) (m : t) : wf m -> (k, v) ∈ m -> get k m = Some v.
Proof.
unfold wf. induction m as [|[k' v'] m IH]; simpl; intros Hwf Hin; [inversion Hin|].
apply list.NoDup_cons in Hwf as [Hn Hwf]. apply elem_of_cons in Hin as [[= -> ->]|Hin].
- by case_decide.
- case_decide; [subst|auto]. exfalso. apply Hn. apply list_elem_of_fmap. by exists (k', v).
Qed.

Lemma get_Some_elem_of (k : K) (v : V) (m : t) : get k m = Some v -> (k, v) ∈ m.
Proof.
induction m as [|[k' v'] m IH]; simpl; [discriminate|].
case_decide; [intros [= <-]; subst; left|intros; right; auto].
Qed.

Lemma elem_of_keys_set (k j : K) (v : V) (m : t) : j ∈ keys (set k v m) <-> j = k \/ j ∈ keys m.
Proof.
split.
- intros Hj. destruct (decide (j = k)) as [->|Hne]; [by left|right].
  destruct (get_in_Some _ _ Hj) as [w Hw]. rewrite get_set_ne in Hw by done. by eapply get_Some_in.
- intros [->|Hj]; [apply (get_Some_in _ v), get_set_eq|].
  destruct (decide (j = k)) as [->|Hne]; [apply (get_Some_in _ v), get_set_eq|].
  destruct (get_in_Some _ _ Hj) as [w Hw]. apply (get_Some_in _ w). by rewrite get_set_ne.
Qed.

(** Setting a new key and deleting it again gives the map back. *)
Lemma delete_set_notin (k : K) (v : V) (m : t) : k ∉ keys m -> delete k (set k v m) = m.
Proof.
  induction m as [|[k' v'] m IH]; intros Hk; cbn; [by rewrite decide_True|].
  rewrite decide_False; [|intros ->; apply Hk; by left]. cbn.
  rewrite decide_False; [|intros ->; apply Hk; by left]. f_equal. apply IH. intros ?; apply Hk; by right.
Qed.
End JsMap.

Arguments t : clear implicits.
Arguments empty {K V}.

(** ** Maps built from entries, and counters *)

Section Entries.
Context {K V : Type} `{EqDecision K}.

(** [new Map(entries)]: each entry set in turn. *)
Definition of_entries (l : list (K * V)) : t K V := fold_left (fun m e => set e.1 e.2 m) l empty.

Lemma set_notin_app (k : K) (v : V) (m : t K V) : k ∉ keys m -> set k v m = m ++ [(k, v)].
Proof.
  induction m as [|[k' v'] m IH]; intros Hk; [done|]. cbn.
  rewrite decide_False by (intros ->; apply Hk; by left). f_equal. apply IH. intros ?; apply Hk; by right.
Qed.

(** A map rebuilt from its own entries ([new Map(map.entries())], as the
  JSON round trip of [Array.from(map.entries())] gives it back) is the map. *)
Lemma of_entries_wf (m : t K V) : wf m -> of_entries m = m.
Proof.
  induction m as [|[k v] m IH] using rev_ind; intros Hwf; [done|].
  unfold wf, keys in Hwf. rewrite map_app in Hwf. apply NoDup_app in Hwf as (Hl & Hk & _).
  unfold of_entries in *. rewrite fold_left_app. cbn [fold_left fst snd]. rewrite IH by done.
  apply set_notin_app. intros Hin. apply (Hk k Hin). by left.
Qed.
End Entries.

(** ** Counters in a plain object

    [obj[k] = (obj[k] || 0) + 1] on an object literal [{}] is not a [Map]
    update: the read [obj[k]] also finds the properties [{}] inherits from
    [Object.prototype].  For [k = 'constructor'] or the name of one of its
    methods it reads a function, and [function + 1] is the string of the
    function's source text followed by ['1']; the assignment then creates
    an own property holding that string, which later increments extend
    with ['1'].  For [k = '__proto__'] the read gives [Object.prototype]
    and the assignment, which goes to the [__proto__] setter with a
    string, does nothing.  The function texts are V8's.  The object's own
    properties are kept in insertion order; lookups do not depend on the
    order. *)
Section PlainCounters.

Inductive counter := CNum (n : nat) | CStr (s : jsstring).

Definition PROTO : jsstring := js "__proto__".

(** The methods of [Object.prototype]. *)
Definition proto_methods : list jsstring :=
  [js "hasOwnProperty"; js "isPrototypeOf"; js "propertyIsEnumerable"; js "toLocaleString";
   js "toString"; js "valueOf"; js "__defineGetter__"; js "__defineSetter__";
   js "__lookupGetter__"; js "__lookupSetter__"].

(** [String(Object.prototype[k])] for an inherited function property. *)
Definition proto_text (k : jsstring) : option jsstring :=
  if bool_decide (k = js "constructor") then Some (js "function Object() { [native code] }")
  else if bool_decide (k ∈ proto_methods) then Some (js "function " ++ k ++ js "() { [native code] }")
  else None.

(** [(obj[k] || 0) + 1] for a key other than [__proto__], from its own
  property if any ([49] is the code unit of ['1']). *)
Definition counter_bump (k : jsstring) (c : option counter) : counter :=
  match c with
  | Some (CNum n) => CNum (S n)
  | Some (CStr []) => CNum 1
  | Some (CStr s) => CStr (s ++ [49%Z])
  | None => match proto_text k with Some txt => CStr (txt ++ [49%Z]) | None => CNum 1 end
  end.

(** [obj[k] = (obj[k] || 0) + 1]. *)
Definition obj_incr (k : jsstring) (m : t jsstring counter) : t jsstring counter :=
  if bool_decide (k = PROTO) then m else set k (counter_bump k (get k m)) m.

(** The own property [k] after [n] increments of [k] from [{}]. *)
Definition obj_count (k : jsstring) (n : nat) : option counter :=
  if bool_decide (k = PROTO) then None else
  match n with
  | 0 => None
  | _ => Some (match proto_text k with None => CNum n | Some txt => CStr (txt ++ replicate n 49%Z) end)
  end.

Lemma get_obj_incr (k j : jsstring) (m : t jsstring counter) :
  get j (obj_incr k m) = if bool_decide (j = k /\ k <> PROTO) then Some (counter_bump k (get k m)) else get j m.
Proof.
  unfold obj_incr. destruct (decide (k = PROTO)) as [Hk|Hk].
  - rewrite bool_decide_eq_true_2 by done. rewrite bool_decide_eq_false_2; [done|tauto].
  - rewrite bool_decide_eq_false_2 by done. destruct (decide (j = k)) as [->|Hj].
    + rewrite bool_decide_eq_true_2 by done. apply get_set_eq.
    + rewrite bool_decide_eq_false_2 by tauto. by apply get_set_ne.
Qed.

Lemma obj_count_S (j : jsstring) (n : nat) :
  j <> PROTO -> obj_count j (S n) = Some (counter_bump j (obj_count j n)).
Proof.
  intros Hj. unfold obj_count. rewrite !bool_decide_eq_false_2 by done.
  destruct n as [|n]; [unfold counter_bump; by destruct (proto_text j)|].
  destruct (proto_text j) as [txt|]; [|done]. unfold counter_bump.
  destruct (txt ++ replicate (S n) 49%Z) as [|c s'] eqn:E.
  - apply app_nil in E as [_ E]. discriminate E.
  - rewrite <- E, <- app_assoc. do 3 f_equal. by rewrite (replicate_S_end (S n)).
Qed.

(** Counting over a list: the own property of [j] is the one of
  [obj_count] for the number of elements whose key is [j]. *)
Lemma get_fold_obj_incr {A} (f : A -> jsstring) (l : list A) (m : t jsstring counter) (j : jsstring) (c : nat) :
  get j m = obj_count j c ->
  get j (fold_left (fun m x => obj_incr (f x) m) l m) =
    obj_count j (c + length (List.filter (fun x => bool_decide (f x = j)) l)).
Proof.
  revert m c. induction l as [|x l IH]; intros m c Hm; cbn [fold_left List.filter length];
    [by rewrite Nat.add_0_r|].
  destruct (decide (f x = j)) as [Hx|Hx].
  - rewrite bool_decide_eq_true_2 by done. cbn [length]. rewrite <- Nat.add_succ_comm. apply IH.
    rewrite get_obj_incr, Hx. destruct (decide (j = PROTO)) as [->|Hp].
    + rewrite bool_decide_eq_false_2 by tauto. rewrite Hm. unfold obj_count. by rewrite !bool_decide_eq_true_2.
    + rewrite bool_decide_eq_true_2 by done. rewrite Hm. by rewrite obj_count_S.
  - rewrite bool_decide_eq_false_2 by done. apply IH. rewrite get_obj_incr, bool_decide_eq_false_2; [done|].
    intros [? _]; congruence.
Qed.

End PlainCounters.


#[export] Hint Resolve wf_set wf_delete wf_tail size_set_le : gallery.
End JsMap.
