(* ===== verification/JsValue.v ===== *)
(** * JavaScript values as the storage layer handles them

    The values [StorageManager] stores and caches: primitives, arrays,
    plain objects (own enumerable string keys in insertion order) and [Map]
    instances.  Numbers are integers ([Z]): the stored data are counters,
    timestamps and sizes.  This file gives their truthiness, the
    [ObjectUtils.deepClone] of [src/src/js/utils.js] and the value
    [JSON.parse(JSON.stringify(v))] that a [localStorage] round trip
    yields, with a nested induction principle for the proofs. *)

From S2P Require Import Prelude.

Module JsValue.

#[local] Set Warnings "-register-all".

Inductive jsval :=
| JUndefined
| JNull
| JBool (b : bool)
| JNum (n : Z)
| JStr (s : jsstring)
| JArr (xs : list jsval)
| JObj (fields : list (jsstring * jsval))
| JMap (entries : list (jsval * jsval)).

(** Induction with hypotheses on the elements of arrays, objects and maps. *)
Section jsval_ind_nested.
Variable P : jsval -> Prop.
Hypothesis HUndefined : P JUndefined.
Hypothesis HNull : P JNull.
Hypothesis HBool : forall b, P (JBool b).
Hypothesis HNum : forall n, P (JNum n).
Hypothesis HStr : forall s, P (JStr s).
Hypothesis HArr : forall xs, Forall P xs -> P (JArr xs).
Hypothesis HObj : forall fs, Forall (fun f => P (snd f)) fs -> P (JObj fs).
Hypothesis HMap : forall es, P (JMap es).

Fixpoint jsval_ind' (v : jsval) : P v :=
  match v with
  | JUndefined => HUndefined
  | JNull => HNull
  | JBool b => HBool b
  | JNum n => HNum n
  | JStr s => HStr s
  | JArr xs => HArr xs ((fix go (xs : list jsval) : Forall P xs :=
                          match xs with
                          | [] => Forall_nil_2 _
                          | x :: xs' => Forall_cons_2 _ _ _ (jsval_ind' x) (go xs')
                          end) xs)
  | JObj fs => HObj fs ((fix go (fs : list (jsstring * jsval)) : Forall (fun f => P (snd f)) fs :=
                          match fs with
                          | [] => Forall_nil_2 _
                          | f :: fs' => Forall_cons_2 _ _ _ (jsval_ind' (snd f)) (go fs')
                          end) fs)
  | JMap es => HMap es
  end.
End jsval_ind_nested.

(** [!v]: [undefined], [null], [false], [0] and [''] are falsy. *)
Definition falsy (v : jsval) : bool :=
  match v with
  | JUndefined | JNull | JBool false | JNum 0 | JStr [] => true
  | _ => false
  end.

(** [v === undefined]. *)
Definition is_undefined (v : jsval) : bool :=
  match v with JUndefined => true | _ => false end.

(** [v !== null]. *)
Definition not_null (v : jsval) : bool :=
  match v with JNull => false | _ => true end.

(** [ObjectUtils.deepClone(obj)]: primitives and [null] are returned as
  they are, arrays are mapped, objects get a fresh copy of their own
  enumerable properties; a [Map] has none, so it becomes [{}]. *)
Fixpoint deepClone (v : jsval) : jsval :=
  match v with
  | JArr xs => JArr (map deepClone xs)
  | JObj fs => JObj (map (fun f => (fst f, deepClone (snd f))) fs)
  | JMap _ => JObj []
  | _ => v
  end.

(** The properties an object keeps through [JSON.stringify]: those whose
  value serialises. *)
Fixpoint obj_fields_rt (rt : jsval -> option jsval) (fs : list (jsstring * jsval))
    : list (jsstring * jsval) :=
  match fs with
  | [] => []
  | f :: fs' => match rt (snd f) with
                | Some y => (fst f, y) :: obj_fields_rt rt fs'
                | None => obj_fields_rt rt fs'
                end
  end.

(** [JSON.parse(JSON.stringify(v))] for a value nested in an array or
  object; [None] when [JSON.stringify] yields [undefined] (the value
  [undefined]): such a property is dropped, such an array element becomes
  [null].  A [Map] serialises as [{}]. *)
Fixpoint json_rt (v : jsval) : option jsval :=
  match v with
  | JUndefined => None
  | JArr xs => Some (JArr (map (fun x => default JNull (json_rt x)) xs))
  | JObj fs => Some (JObj (obj_fields_rt json_rt fs))
  | JMap _ => Some (JObj [])
  | _ => Some v
  end.

(** A value that both [deepClone] and a JSON round trip leave unchanged:
  no [undefined] inside an array or object and no [Map]. *)
Fixpoint json_clean (v : jsval) : bool :=
  match v with
  | JUndefined => true
  | JArr xs => forallb (fun x => json_clean x && negb (is_undefined x)) xs
  | JObj fs => forallb (fun f => json_clean (snd f) && negb (is_undefined (snd f))) fs
  | JMap _ => false
  | _ => true
  end.

(** ** Lemmas *)

Lemma deepClone_idempotent (v : jsval) : deepClone (deepClone v) = deepClone v.
Proof.
  induction v using jsval_ind'; simpl; try done.
  - f_equal. induction H; simpl; [done|]. by rewrite H, IHForall.
  - f_equal. induction H; simpl; [done|]. rewrite H. f_equal. exact IHForall.
Qed.

(** A JSON round trip does not see the difference [deepClone] makes. *)
Lemma json_rt_deepClone (v : jsval) : json_rt (deepClone v) = json_rt v.
Proof.
  induction v using jsval_ind'; try done.
  - simpl. f_equal. f_equal. rewrite map_map. induction H; simpl; [done|]. by rewrite H, IHForall.
  - simpl. do 2 f_equal. induction H; simpl; [done|].
    rewrite H. by destruct (json_rt (snd x)); rewrite IHForall.
Qed.

Lemma deepClone_clean (v : jsval) : json_clean v = true -> deepClone v = v.
Proof.
  induction v using jsval_ind'; simpl; try done; intros Hc.
  - f_equal. induction H; simpl; [done|].
    apply andb_prop in Hc as [[Hx _]%andb_prop Hc]. by rewrite H, IHForall.
  - f_equal. induction H as [|[k x] fs]; simpl; [done|].
    apply andb_prop in Hc as [[Hx _]%andb_prop Hc]. simpl in *. by rewrite H, IHForall.
Qed.

Lemma json_rt_clean (v : jsval) :
  json_clean v = true -> is_undefined v = false -> json_rt v = Some v.
Proof.
  induction v using jsval_ind'; simpl; try done; intros Hc _.
  - do 2 f_equal. induction H; simpl; [done|].
    apply andb_prop in Hc as [[Hx Hu]%andb_prop Hc]. apply negb_true_iff in Hu.
    by rewrite H, IHForall.
  - do 2 f_equal. induction H as [|[k x] fs]; simpl; [done|].
    apply andb_prop in Hc as [[Hx Hu]%andb_prop Hc]. simpl in *. apply negb_true_iff in Hu.
    by rewrite H, IHForall.
Qed.

#[export] Hint Resolve deepClone_clean json_rt_clean : gallery.
#[export] Hint Rewrite deepClone_idempotent json_rt_deepClone : gallery_rw.

End JsValue.
