(* ===== verification/JsonStore.v ===== *)
(** * JSON values and the key-value stores the managers persist to

    The gallery and admin managers persist their state with
    [storageManager.specializedStorage.userPreferences.get(key)] /
    [.set(key, value)] and [specializedStorage.adminData.get/set/remove]
    ([src/src/js/galleryManager.js], [src/src/js/adminManager.js]).  In
    the repository [storageManager] has no [specializedStorage] property,
    so every such call throws; the components model that wiring as the
    store [None].  A working store ([Some s]) is any store behind the
    interface [KVStore] whose laws ([KVStoreLaws]) say that a read returns
    what the last write under the same key stored and that keys are
    independent: what a Web Storage area does with [JSON.stringify] on
    [set] and [JSON.parse] on [get].  The values are therefore JSON
    values ([json], as [JSON.parse] builds them): [obj] is what
    [JSON.stringify] makes of an object literal, dropping the properties
    whose value is [undefined]; numbers are exact rationals.  [gmap_store]
    is an instance of the interface over stdpp's [gmap], with its laws.

    The readers [prop], [truthy], [as_str] and [as_Z] are the property
    reads, the truthiness tests and the type expectations of the loading
    code. *)

From Stdlib Require Import QArith.
From stdpp Require Import gmap.
From S2P Require Import Prelude JsMap.

Module JsonStore.

#[local] Set Warnings "-register-all".

Inductive json :=
  | JNull
  | JBool (b : bool)
  | JNum (q : Q)
  | JStr (s : jsstring)
  | JArr (xs : list json)
  | JObj (fields : list (jsstring * json)).

(** [JSON.stringify] of an object literal whose properties are [fs]
  ([None] for [undefined]), as [JSON.parse] gives it back. *)
Definition obj (fs : list (jsstring * option json)) : json :=
  JObj (omap (fun kv => (fun j => (kv.1, j)) <$> kv.2) fs).

(** [v[k]] on a parsed value; [None] is [undefined]. *)
Definition prop (k : jsstring) (v : json) : option json :=
  match v with JObj fs => JsMap.get k fs | _ => None end.

(** [!!v] for a value read ([None] is [undefined]). *)
Definition truthy (v : option json) : bool :=
  match v with
  | None | Some JNull | Some (JBool false) | Some (JStr []) => false
  | Some (JNum q) => negb (Qeq_bool q 0)
  | _ => true
  end.

Definition num_Z (z : Z) : json := JNum (inject_Z z).

(** A string property. *)
Definition as_str (v : option json) : option jsstring :=
  match v with Some (JStr s) => Some s | _ => None end.

(** An integer property. *)
Definition as_Z (v : option json) : option Z :=
  match v with Some (JNum q) => if (Qden q =? 1)%positive then Some (Qnum q) else None | _ => None end.

(** An array property. *)
Definition as_arr (v : option json) : option (list json) :=
  match v with Some (JArr xs) => Some xs | _ => None end.

(** The operations of a store. *)
Class KVStore (S : Type) := {
  kv_get : jsstring -> S -> option json;
  kv_set : jsstring -> json -> S -> S;
  kv_remove : jsstring -> S -> S
}.

(** A working store: a read sees the last write of its key. *)
Class KVStoreLaws (S : Type) `{KVStore S} := {
  kv_get_set_eq (k : jsstring) (v : json) (s : S) : kv_get k (kv_set k v s) = Some v;
  kv_get_set_ne (k j : jsstring) (v : json) (s : S) : j <> k -> kv_get j (kv_set k v s) = kv_get j s;
  kv_get_remove_eq (k : jsstring) (s : S) : kv_get k (kv_remove k s) = None;
  kv_get_remove_ne (k j : jsstring) (s : S) : j <> k -> kv_get j (kv_remove k s) = kv_get j s
}.

(** A store as a finite map from keys to parsed values. *)
#[export] Instance gmap_store : KVStore (gmap jsstring json) :=
  {| kv_get k m := m !! k; kv_set k v m := <[k := v]> m; kv_remove k m := delete k m |}.

#[export] Instance gmap_store_laws : KVStoreLaws (gmap jsstring json).
Proof.
  split; cbn; intros.
  - apply lookup_insert_eq.
  - by apply lookup_insert_ne.
  - apply lookup_delete_eq.
  - by apply lookup_delete_ne.
Qed.

(** ** Lemmas *)

Lemma as_Z_num (z : Z) : as_Z (Some (num_Z z)) = Some z.
Proof. done. Qed.

Lemma truthy_num (z : Z) : truthy (Some (num_Z z)) = negb (z =? 0)%Z.
Proof. unfold truthy, num_Z. destruct z; done. Qed.

Lemma truthy_str (s : jsstring) : truthy (Some (JStr s)) = bool_decide (s <> []).
Proof. destruct s; done. Qed.

Lemma truthy_obj (fs : list (jsstring * option json)) : truthy (Some (obj fs)) = true.
Proof. done. Qed.

(** Reading the properties of an object literal through JSON. *)
Lemma prop_obj_hd (k : jsstring) (v : json) (fs : list (jsstring * option json)) :
  prop k (obj ((k, Some v) :: fs)) = Some v.
Proof. unfold prop, obj. cbn. by rewrite decide_True. Qed.

Lemma prop_obj_tl (k k' : jsstring) (o : option json) (fs : list (jsstring * option json)) :
  k <> k' -> prop k (obj ((k', o) :: fs)) = prop k (obj fs).
Proof. intros Hk. unfold prop, obj. destruct o; cbn; [by rewrite decide_False|done]. Qed.

(** Property reads and truthiness of encoded object literals. *)
Ltac json_t :=
  repeat first [rewrite prop_obj_hd | rewrite prop_obj_tl by (vm_compute; discriminate)
               | rewrite as_Z_num | rewrite truthy_obj];
  cbn [mbind option_bind as_str as_arr].

End JsonStore.
