(* ===== verification/JsArray.v ===== *)
(** * JS array and number primitives shared by the components

    [Array.prototype.sort] with a comparator, as the stable sort the
    language prescribes (ES2019): a stable insertion sort, which for a
    consistent comparator yields the one stable ordering the standard
    allows; [Array.prototype.slice] with its clamping of negative and
    out-of-range indices; [a < b] on numbers held as [Q]. *)

From Stdlib Require Import QArith Qminmax Lqa Sorted.
From S2P Require Import Prelude.

(** [a < b] on numbers. *)
Definition Qlt_bool (a b : Q) : bool := negb (Qle_bool b a).

Lemma Qlt_bool_spec (a b : Q) : Qlt_bool a b = true <-> (a < b)%Q.
Proof.
  unfold Qlt_bool. rewrite negb_true_iff, <- not_true_iff_false, Qle_bool_iff.
  split; [apply Qnot_le_lt|apply Qlt_not_le].
Qed.

Lemma Qlt_bool_false (a b : Q) : Qlt_bool a b = false <-> (b <= a)%Q.
Proof. unfold Qlt_bool. rewrite negb_false_iff. apply Qle_bool_iff. Qed.

(** ** [Array.prototype.slice(start, end)] *)

Section Slice.
Context {A : Type}.

(** The clamping of a [slice] argument: a negative index counts from the
  end, the result lies in [0, len]. *)
Definition rel_index (len i : Z) : Z := if (i <? 0)%Z then Z.max (len + i) 0 else Z.min i len.

Definition js_slice (l : list A) (start end_ : Z) : list A :=
  let len := Z.of_nat (length l) in
  let s := rel_index len start in
  let e := rel_index len end_ in
  take (Z.to_nat (e - s)) (drop (Z.to_nat s) l).

(** On non-negative arguments [slice] is [take] after [drop]. *)
Lemma js_slice_nonneg (l : list A) (s e : Z) :
  (0 <= s)%Z -> (s <= e)%Z ->
  js_slice l s e = take (Z.to_nat e - Z.to_nat s) (drop (Z.to_nat s) l).
Proof.
  intros Hs He. unfold js_slice, rel_index.
  destruct (Z.ltb_spec s 0), (Z.ltb_spec e 0); try lia.
  destruct (Z.le_ge_cases s (Z.of_nat (length l))) as [Hsl|Hsl];
  destruct (Z.le_ge_cases e (Z.of_nat (length l))) as [Hel|Hel].
  - rewrite Z.min_l, Z.min_l by lia. f_equal. lia.
  - rewrite (Z.min_l s), (Z.min_r e) by lia.
    rewrite !take_ge by (rewrite length_drop; lia). done.
  - rewrite (Z.min_r s), (Z.min_l e) by lia. rewrite !drop_ge by lia. by rewrite !take_nil.
  - rewrite Z.min_r, Z.min_r by lia. rewrite !drop_ge by lia. by rewrite !take_nil.
Qed.

Lemma length_js_slice_le (l : list A) (s e : Z) :
  (0 <= s)%Z -> (s <= e)%Z -> length (js_slice l s e) <= Z.to_nat e - Z.to_nat s.
Proof. intros. rewrite js_slice_nonneg by done. apply length_take_le. Qed.

(** Consecutive windows of width [n] cover the list. *)
Lemma js_slice_windows (l : list A) (n : nat) (k : nat) :
  js_slice l (Z.of_nat (k * n)) (Z.of_nat (k * n + n)) ++
    drop (k * n + n) l = drop (k * n) l.
Proof.
  rewrite js_slice_nonneg by lia. rewrite !Nat2Z.id.
  replace (k * n + n - k * n) with n by lia.
  rewrite <- (take_drop n (drop (k * n) l)) at 2. by rewrite drop_drop.
Qed.
End Slice.

(** ** [Array.prototype.sort(compareFn)] *)

Section Sort.
Context {A : Type} (cmp : A -> A -> Q).

(** Insertion of [x] into the sorted prefix: after every [y] with
  [compareFn(y, x) <= 0], before the first [y] that compares greater. *)
Fixpoint sort_insert (x : A) (l : list A) : list A :=
  match l with
  | [] => [x]
  | y :: l' => if Qlt_bool 0 (cmp y x) then x :: l else y :: sort_insert x l'
  end.

Definition sort_by (l : list A) : list A := fold_left (fun acc x => sort_insert x acc) l [].

Lemma sort_insert_perm (x : A) (l : list A) : sort_insert x l ≡ₚ x :: l.
Proof.
  induction l as [|y l IH]; simpl; [done|].
  case_match; [done|]. rewrite IH. apply perm_swap.
Qed.

Lemma sort_by_perm (l : list A) : sort_by l ≡ₚ l.
Proof.
  unfold sort_by. cut (forall acc, fold_left (fun acc x => sort_insert x acc) l acc ≡ₚ acc ++ l).
  { intros H. apply H. }
  induction l as [|x l IH]; intros acc; simpl; [by rewrite app_nil_r|].
  rewrite IH, sort_insert_perm. simpl. apply Permutation_middle.
Qed.

(** The comparator of a numeric key, [compareFn(a, b) = key(a) - key(b)]. *)
Context (key : A -> Q) (Hcmp : forall a b, cmp a b == key a - key b).

Local Definition key_le (a b : A) : Prop := (key a <= key b)%Q.

Lemma cmp_pos_iff (a b : A) : Qlt_bool 0 (cmp a b) = true <-> (key b < key a)%Q.
Proof. rewrite Qlt_bool_spec, Hcmp. split; intros; lra. Qed.

Lemma sort_insert_hd (y x : A) (l : list A) :
  HdRel key_le y l -> key_le y x -> HdRel key_le y (sort_insert x l).
Proof.
  destruct l as [|z l]; simpl; intros Hhd Hyx; [by constructor|].
  case_match; constructor; [done|]. by inversion Hhd.
Qed.

Lemma sort_insert_sorted (x : A) (l : list A) :
  Sorted key_le l -> Sorted key_le (sort_insert x l).
Proof.
  induction 1 as [|y l Hl IH Hhd]; simpl; [by repeat constructor|].
  destruct (Qlt_bool 0 (cmp y x)) eqn:E.
  - apply cmp_pos_iff in E. constructor; [by constructor|]. constructor. unfold key_le. lra.
  - constructor; [done|]. apply sort_insert_hd; [done|].
    apply not_true_iff_false in E. rewrite cmp_pos_iff in E. unfold key_le. lra.
Qed.

(** The result of [sort] is ordered by the key. *)
Lemma sort_by_sorted (l : list A) : Sorted (fun a b => (key a <= key b)%Q) (sort_by l).
Proof.
  unfold sort_by. cut (forall acc, Sorted key_le acc -> Sorted key_le (fold_left (fun acc x => sort_insert x acc) l acc)).
  { intros H. apply H. constructor. }
  induction l as [|x l IH]; intros acc Hacc; simpl; [done|].
  by apply IH, sort_insert_sorted.
Qed.

Lemma key_le_trans : Transitive key_le.
Proof. intros a b c; unfold key_le; lra. Qed.

(** Every element of a sorted list headed by a key above [key x] is above it. *)
Lemma sorted_above (x y : A) (l : list A) :
  Sorted key_le (y :: l) -> (key x < key y)%Q -> Forall (fun z => (key x < key z)%Q) (y :: l).
Proof.
  intros Hs Hxy. apply Sorted_StronglySorted in Hs; [|apply key_le_trans].
  inversion Hs as [|? ? _ Hall]; subst. constructor; [done|].
  eapply Forall_impl; [done|]. unfold key_le. intros z Hz. lra.
Qed.

Lemma filter_key_above (q : Q) (x : A) (l : list A) :
  Forall (fun z => (key x < key z)%Q) l -> Qeq_bool (key x) q = true ->
  List.filter (fun z => Qeq_bool (key z) q) l = [].
Proof.
  intros Hall Hx. apply Qeq_bool_iff in Hx. induction Hall as [|z l Hz _ IH]; simpl; [done|].
  rewrite IH. destruct (Qeq_bool (key z) q) eqn:E; [|done].
  apply Qeq_bool_iff in E. lra.
Qed.

(** Stability: the elements of one key keep their order. *)
Lemma sort_insert_filter (q : Q) (x : A) (l : list A) :
  Sorted key_le l ->
  List.filter (fun z => Qeq_bool (key z) q) (sort_insert x l) =
    List.filter (fun z => Qeq_bool (key z) q) l ++ (if Qeq_bool (key x) q then [x] else []).
Proof.
  intros Hs. induction l as [|y l IH]; simpl; [by destruct (Qeq_bool (key x) q)|].
  destruct (Qlt_bool 0 (cmp y x)) eqn:E.
  - apply cmp_pos_iff in E. pose proof (sorted_above x y l Hs E) as Hall.
    destruct (Qeq_bool (key x) q) eqn:Hx.
    + change (y :: l) with ([y] ++ l) in Hall. simpl.
      rewrite Hx. pose proof (filter_key_above q x (y :: l) Hall Hx) as H0. simpl in H0. by rewrite H0.
    + simpl. rewrite Hx, app_nil_r. done.
  - simpl. rewrite IH by (by apply Sorted_inv in Hs as []). by destruct (Qeq_bool (key y) q).
Qed.

Lemma sort_by_stable (q : Q) (l : list A) :
  List.filter (fun z => Qeq_bool (key z) q) (sort_by l) = List.filter (fun z => Qeq_bool (key z) q) l.
Proof.
  unfold sort_by.
  cut (forall acc, Sorted key_le acc ->
         List.filter (fun z => Qeq_bool (key z) q) (fold_left (fun acc x => sort_insert x acc) l acc) =
         List.filter (fun z => Qeq_bool (key z) q) acc ++ List.filter (fun z => Qeq_bool (key z) q) l).
  { intros H. apply H. constructor. }
  induction l as [|x l IH]; intros acc Hacc; simpl; [by rewrite app_nil_r|].
  rewrite IH by (by apply sort_insert_sorted). rewrite sort_insert_filter by done.
  rewrite <- app_assoc. by destruct (Qeq_bool (key x) q).
Qed.
End Sort.

(** The comparator [(a, b) => score(b) - score(a)] sorts by decreasing
  score, stably. *)
Section SortDesc.
Context {A : Type} (cmp : A -> A -> Q) (score : A -> Q).
Context (Hcmp : forall a b, cmp a b == score b - score a).

Lemma cmp_desc_key (a b : A) : cmp a b == (fun z => - score z) a - (fun z => - score z) b.
Proof. rewrite Hcmp. ring. Qed.

Lemma sort_by_sorted_desc (l : list A) : Sorted (fun a b => (score b <= score a)%Q) (sort_by cmp l).
Proof.
  pose proof (sort_by_sorted cmp (fun z => - score z) cmp_desc_key l) as Hs.
  induction Hs as [|x l' _ IH Hhd]; constructor; [done|].
  destruct Hhd; constructor. simpl in *. lra.
Qed.

Lemma sort_by_stable_desc (q : Q) (l : list A) :
  List.filter (fun z => Qeq_bool (score z) q) (sort_by cmp l) = List.filter (fun z => Qeq_bool (score z) q) l.
Proof.
  assert (Hf : forall l', List.filter (fun z => Qeq_bool (score z) q) l' =
                          List.filter (fun z => Qeq_bool ((fun z => - score z) z) (- q)) l').
  { intros l'. apply List.filter_ext. intros z. apply eq_true_iff_eq.
    rewrite !Qeq_bool_iff. split; intros; lra. }
  rewrite !Hf. apply (sort_by_stable cmp (fun z => - score z) cmp_desc_key).
Qed.
End SortDesc.
