(* ===== verification/AnalysisCache.v ===== *)
(** * The analysis-result cache of [EnhancedAIEngine]

    [src/src/js/aiEngine.js]: the engine keeps [this.analysisCache], a JS
    [Map] from cache keys to results, bounded by [this.maxCacheSize]
    ([CONFIG.AI.MAX_CACHE_SIZE = 100]).  [_cacheResult] evicts the oldest
    inserted key when the map is full, inserts the result, then writes it
    to the durable tier through [storageManager.specializedStorage.aiCache];
    [analyzeImage] answers from the map on a hit; [clearCache] and
    [dispose] empty it.

    The durable tier is reached through the default export of
    [storageManager.js], the [StorageManager] instance, which has no
    [specializedStorage] property ([specializedStorage] is a separate named
    export).  The access therefore throws a [TypeError] after the in-memory
    write; [durable_tier] makes this a parameter so that both wirings can
    be stated, and [engine_durable_tier] is the repository's.

    The theorems show the size bound and FIFO order of eviction, and the
    ways the cache departs from the spec's LRU contract: a hit does not
    refresh the entry, and overwriting a present key in a full cache
    evicts another key. *)

From S2P Require Import Prelude JsMap.

Module AnalysisCache.

(** How [storageManager.specializedStorage] resolves inside [aiEngine.js]. *)
Inductive durable_tier :=
| DurableAbsent    (** the property is [undefined]: [.aiCache] throws *)
| DurablePresent.  (** a [SpecializedStorageManager] is reachable *)

(** [import storageManager from './storageManager.js'] binds the
  [StorageManager] instance, which has no [specializedStorage] field. *)
Definition engine_durable_tier : durable_tier := DurableAbsent.

(** The message V8 gives the [TypeError] of reading [aiCache] on
  [undefined]. *)
Definition aiCache_type_error : js_error :=
TypeError (js "Cannot read properties of undefined (reading 'aiCache')").

Section Cache.
Context {V : Type}.

(** The fields of [EnhancedAIEngine] this component reads and writes. *)
Record state := mkState {
analysisCache : JsMap.t jsstring V;
maxCacheSize : nat
}.

(** [constructor]: an empty map and [CONFIG.AI.MAX_CACHE_SIZE]. *)
Definition init (max : nat) : state := mkState JsMap.empty max.

(** The cache test of [analyzeImage]:
  [if (this.analysisCache.has(cacheKey)) return this.analysisCache.get(cacheKey)]. *)
Definition lookupCached (cacheKey : jsstring) (st : state) : option V :=
if JsMap.has cacheKey (analysisCache st) then JsMap.get cacheKey (analysisCache st) else None.

(** The eviction step of [_cacheResult]: when [size >= maxCacheSize],
  delete [keys().next().value]. *)
Definition evictOldest (st : state) : JsMap.t jsstring V :=
let c := analysisCache st in
if maxCacheSize st <=? JsMap.size c then JsMap.delete_opt (JsMap.first_key c) c else c.

(** [_cacheResult(key, result)]: evict, insert, then write the durable
  tier; the second component is the exception it throws, if any. *)
Definition _cacheResult (tier : durable_tier) (key : jsstring) (result : V) (st : state)
  : state * option js_error :=
let st' := mkState (JsMap.set key result (evictOldest st)) (maxCacheSize st) in
match tier with
| DurableAbsent => (st', Some aiCache_type_error)
| DurablePresent => (st', None)
end.

(** [clearCache()]: clear the map, then the durable tier. *)
Definition clearCache (tier : durable_tier) (st : state) : state * option js_error :=
let st' := mkState JsMap.empty (maxCacheSize st) in
match tier with
| DurableAbsent => (st', Some aiCache_type_error)
| DurablePresent => (st', None)
end.

(** The cache part of [dispose()]: [this.analysisCache.clear()]. *)
Definition dispose (st : state) : state := mkState JsMap.empty (maxCacheSize st).

(** The invariant: no duplicate key, at most [maxCacheSize] entries. *)
Definition inv (st : state) : Prop :=
JsMap.wf (analysisCache st) /\ JsMap.size (analysisCache st) <= maxCacheSize st.

(** ** Lemmas *)

Lemma lookupCached_get (k : jsstring) (st : state) :
lookupCached k st = JsMap.get k (analysisCache st).
Proof. unfold lookupCached, JsMap.has. by destruct (JsMap.get k _). Qed.

Lemma evictOldest_full (st : state) :
maxCacheSize st <= JsMap.size (analysisCache st) ->
evictOldest st = tail (analysisCache st).
Proof.
intros H. unfold evictOldest. apply Nat.leb_le in H. rewrite H.
apply JsMap.delete_first_key.
Qed.

Lemma evictOldest_not_full (st : state) :
JsMap.size (analysisCache st) < maxCacheSize st -> evictOldest st = analysisCache st.
Proof.
intros H. unfold evictOldest. destruct (Nat.leb_spec (maxCacheSize st) (JsMap.size (analysisCache st))); [lia|done].
Qed.

Lemma evictOldest_wf (st : state) : JsMap.wf (analysisCache st) -> JsMap.wf (evictOldest st).
Proof.
intros Hwf. unfold evictOldest. case_match; [|done].
rewrite JsMap.delete_first_key. by apply JsMap.wf_tail.
Qed.

Lemma _cacheResult_state (tier : durable_tier) (k : jsstring) (v : V) (st : state) :
fst (_cacheResult tier k v st) = mkState (JsMap.set k v (evictOldest st)) (maxCacheSize st).
Proof. by destruct tier. Qed.

(** A full cache loses exactly its oldest entry to a new key. *)
Lemma size_evictOldest (st : state) :
JsMap.size (evictOldest st) =
  if maxCacheSize st <=? JsMap.size (analysisCache st)
  then pred (JsMap.size (analysisCache st)) else JsMap.size (analysisCache st).
Proof.
unfold evictOldest. case_match; [|done].
by rewrite JsMap.delete_first_key, JsMap.size_tail.
Qed.
End Cache.

#[export] Hint Resolve evictOldest_wf : gallery.
#[export] Hint Rewrite @lookupCached_get @_cacheResult_state : gallery_rw.

Arguments state : clear implicits.

(** ** Properties *)

(** C1: [_cacheResult] preserves the cache invariant: with a positive
  [maxCacheSize], the map never holds more than [maxCacheSize] entries
  and never a duplicate key, whatever key is written. *)
Theorem cacheResult_preserves_inv {V} (tier : durable_tier) (k : jsstring) (v : V) (st : state V) :
1 <= maxCacheSize st -> inv st -> inv (fst (_cacheResult tier k v st)).
Proof.
intros Hpos [Hwf Hsz]. rewrite _cacheResult_state. split; simpl.
- by apply JsMap.wf_set, evictOldest_wf.
- pose proof (JsMap.size_set_le k v (evictOldest st)) as Hle.
  rewrite size_evictOldest in Hle.
  destruct (Nat.leb_spec (maxCacheSize st) (JsMap.size (analysisCache st))); [lia|].
  lia.
Qed.

Lemma cacheResult_preserves_inv_witness :
  inv (fst (_cacheResult engine_durable_tier (js "c") 3 (mkState [(js "a", 1); (js "b", 2)] 2))).
Proof.
  apply cacheResult_preserves_inv; [simpl; lia|]. split; [|simpl; lia].
  vm_compute. constructor; [intros H%list_elem_of_singleton; discriminate H|].
  constructor; [apply not_elem_of_nil|constructor].
Defined.

(** writing a result makes it the cached answer for its key: the
  [analyzeImage] cache test then returns exactly that result. *)
Theorem cacheResult_then_lookup {V} (tier : durable_tier) (k : jsstring) (v : V) (st : state V) :
lookupCached k (fst (_cacheResult tier k v st)) = Some v.
Proof. autorewrite with gallery_rw. apply JsMap.get_set_eq. Qed.

(** eviction is FIFO by insertion: a new key written into a full
  cache removes the oldest inserted key and is appended last. *)
Theorem cacheResult_evicts_oldest {V} (tier : durable_tier) (k : jsstring) (v : V) (st : state V) :
1 <= maxCacheSize st ->
JsMap.size (analysisCache st) = maxCacheSize st ->
k ∉ tail (JsMap.keys (analysisCache st)) ->
JsMap.keys (analysisCache (fst (_cacheResult tier k v st))) =
  tail (JsMap.keys (analysisCache st)) ++ [k].
Proof.
intros Hpos Hfull Hk. rewrite _cacheResult_state. simpl.
rewrite evictOldest_full by lia.
rewrite JsMap.keys_set_notin; rewrite JsMap.keys_tail; done.
Qed.

Lemma cacheResult_evicts_oldest_witness :
let st := mkState [(js "a", 1); (js "b", 2)] 2 in
JsMap.keys (analysisCache (fst (_cacheResult DurablePresent (js "c") 3 st))) = [js "b"; js "c"].
Proof.
apply (cacheResult_evicts_oldest DurablePresent (js "c") 3 (mkState [(js "a", 1); (js "b", 2)] 2)).
- simpl; lia.
- reflexivity.
- vm_compute. intros H%list_elem_of_singleton. discriminate H.
Defined.

(** overwriting a key already present in a full cache still evicts the
  oldest entry, another key, so the cache shrinks: the spec's "overwrite
  without affecting capacity accounting" does not hold. *)
Theorem cacheResult_overwrite_full_evicts_other {V} (tier : durable_tier) (k k0 : jsstring) (v v0 : V)
  (rest : JsMap.t jsstring V) (max : nat) :
let st := mkState ((k0, v0) :: rest) max in
JsMap.wf ((k0, v0) :: rest) -> k <> k0 -> k ∈ JsMap.keys rest ->
max <= JsMap.size ((k0, v0) :: rest) ->
JsMap.get k0 (analysisCache (fst (_cacheResult tier k v st))) = None /\
JsMap.size (analysisCache (fst (_cacheResult tier k v st))) = JsMap.size rest.
Proof.
intros st Hwf Hne Hin Hfull. rewrite _cacheResult_state. simpl.
rewrite evictOldest_full by done. simpl.
apply list.NoDup_cons in Hwf as [Hk0 _].
split.
- rewrite JsMap.get_set_ne by congruence. by apply JsMap.get_None_notin.
- by apply JsMap.size_set_in.
Qed.

Lemma cacheResult_overwrite_full_evicts_other_witness :
JsMap.get (js "a") (analysisCache (fst (_cacheResult DurablePresent (js "b") 9
    (mkState [(js "a", 1); (js "b", 2)] 2)))) = None /\
JsMap.size (analysisCache (fst (_cacheResult DurablePresent (js "b") 9
    (mkState [(js "a", 1); (js "b", 2)] 2)))) = 1.
Proof.
apply (cacheResult_overwrite_full_evicts_other DurablePresent (js "b") (js "a") 9 1 [(js "b", 2)] 2).
- vm_compute. constructor; [intros H%list_elem_of_singleton; discriminate H|].
  constructor; [apply not_elem_of_nil|constructor].
- discriminate.
- left.
- simpl; lia.
Defined.

End AnalysisCache.
