(* ===== verification/TaskQueue.v ===== *)
(** * The priority-ordered analysis queue of [EnhancedAIEngine]

    [src/src/js/aiEngine.js]: [analyzeImage] builds a task
    [{imageFile, imageElement, cacheKey, priority, resolve, reject,
    timestamp}] and [_insertTaskByPriority] splices it into
    [this.analysisQueue] before the first queued task of strictly lower
    rank ([priorityOrder = {high: 3, normal: 2, low: 1}], any other value
    ranked 2 by [|| 2]); [_processQueue] takes its batches with
    [analysisQueue.splice(0, this.workers)].

    [Spec] states what the queue promises: it is the submitted tasks grouped
    by rank, highest first, each group in submission order.  [Impl] is the
    code, and [queue_refines_spec] proves that inserting the submissions one
    by one yields exactly the specification's queue. *)

From S2P Require Import Prelude.

Module TaskQueue.

(** The [priority] argument of [analyzeImage]: its three documented values
  and any other value a caller may pass. *)
Inductive Priority := High | Normal | Low | Other.

#[export] Instance priority_eq_dec : EqDecision Priority.
Proof. solve_decision. Defined.

(** The queued task object; [task_id] stands for the identity of its
  [resolve]/[reject] pair, the image payload is not inspected by the
  queue. *)
Record Task := mkTask {
task_id : nat;
cacheKey : jsstring;
priority : Priority;
timestamp : Z
}.

(** [priorityOrder[task.priority] || 2]. *)
Definition priorityOrder (p : Priority) : nat :=
match p with High => 3 | Normal => 2 | Low => 1 | Other => 2 end.

Definition rank (t : Task) : nat := priorityOrder (priority t).

Module Spec.
(** The tasks of rank [r], in submission order. *)
Definition tier (r : nat) (subs : list Task) : list Task :=
List.filter (fun t => rank t =? r) subs.

(** The queue after the submissions [subs]. *)
Definition queue (subs : list Task) : list Task :=
tier 3 subs ++ tier 2 subs ++ tier 1 subs.
End Spec.

Module Impl.
(** The loop of [_insertTaskByPriority]: the first index whose task has
  a rank strictly below [taskPriority], [length] if none. *)
Fixpoint insertIndex (taskPriority : nat) (q : list Task) : nat :=
match q with
| [] => 0
| t :: q' => if rank t <? taskPriority then 0 else S (insertIndex taskPriority q')
end.

(** [_insertTaskByPriority(task)]: [analysisQueue.splice(insertIndex, 0, task)]. *)
Definition _insertTaskByPriority (task : Task) (q : list Task) : list Task :=
let i := insertIndex (rank task) q in
take i q ++ task :: drop i q.

(** The queue after submitting [subs] in order with no batch taken. *)
Definition enqueueAll (subs : list Task) (q : list Task) : list Task :=
fold_left (fun q t => _insertTaskByPriority t q) subs q.

(** [analysisQueue.splice(0, this.workers)]: the batch and the rest. *)
Definition spliceBatch (workers : nat) (q : list Task) : list Task * list Task :=
(take workers q, drop workers q).
End Impl.

(** ** Lemmas *)

Lemma rank_range (t : Task) : 1 <= rank t <= 3.
Proof. unfold rank. destruct (priority t); simpl; lia. Qed.

Lemma insertIndex_app_ge (r : nat) (A B : list Task) :
Forall (fun t => r <= rank t) A ->
Impl.insertIndex r (A ++ B) = length A + Impl.insertIndex r B.
Proof.
induction 1 as [|t A Ht HA IH]; simpl; [done|].
destruct (Nat.ltb_spec (rank t) r); [lia|]. by rewrite IH.
Qed.

Lemma insertIndex_lt (r : nat) (B : list Task) :
Forall (fun t => rank t < r) B -> Impl.insertIndex r B = 0.
Proof.
destruct 1 as [|t B Ht _]; simpl; [done|].
destruct (Nat.ltb_spec (rank t) r); [done|lia].
Qed.

(** Insertion into a queue split at the task's rank. *)
Lemma insert_split (task : Task) (A B : list Task) :
Forall (fun t => rank task <= rank t) A -> Forall (fun t => rank t < rank task) B ->
Impl._insertTaskByPriority task (A ++ B) = A ++ task :: B.
Proof.
intros HA HB. unfold Impl._insertTaskByPriority.
rewrite insertIndex_app_ge, insertIndex_lt by done. rewrite Nat.add_0_r.
by rewrite take_app_length, drop_app_length.
Qed.

Lemma tier_rank (r : nat) (subs : list Task) : Forall (fun t => rank t = r) (Spec.tier r subs).
Proof.
unfold Spec.tier. eapply Forall_impl; [apply Forall_filter_true|].
intros t Ht. by apply Nat.eqb_eq.
Qed.

Lemma tier_snoc (r : nat) (subs : list Task) (t : Task) :
Spec.tier r (subs ++ [t]) = Spec.tier r subs ++ (if rank t =? r then [t] else []).
Proof. unfold Spec.tier. rewrite List.filter_app. simpl. by destruct (rank t =? r). Qed.

Lemma Forall_rank_eq_le (r r' : nat) (l : list Task) :
r' <= r -> Forall (fun t => rank t = r) l -> Forall (fun t => r' <= rank t) l.
Proof. intros Hle H. eapply Forall_impl; [exact H|]. simpl; lia. Qed.

Lemma Forall_rank_eq_lt (r r' : nat) (l : list Task) :
r < r' -> Forall (fun t => rank t = r) l -> Forall (fun t => rank t < r') l.
Proof. intros Hlt H. eapply Forall_impl; [exact H|]. simpl; lia. Qed.

#[export] Hint Resolve tier_rank Forall_rank_eq_le Forall_rank_eq_lt : gallery.

(** One submission refines one step of the specification. *)
Lemma insert_spec (subs : list Task) (t : Task) :
Impl._insertTaskByPriority t (Spec.queue subs) = Spec.queue (subs ++ [t]).
Proof.
unfold Spec.queue. rewrite !tier_snoc.
pose proof (rank_range t) as Hr. pose proof (tier_rank 3 subs).
pose proof (tier_rank 2 subs). pose proof (tier_rank 1 subs).
destruct (decide (rank t = 3)) as [E|N3]; [|destruct (decide (rank t = 2)) as [E|N2]].
- rewrite E. simpl. rewrite !app_nil_r.
  rewrite (insert_split t (Spec.tier 3 subs)); rewrite ?E.
  + by rewrite <- app_assoc.
  + eauto with gallery.
  + apply Forall_app; split; eauto with gallery.
- rewrite E. simpl. rewrite !app_nil_r.
  rewrite app_assoc, (insert_split t (Spec.tier 3 subs ++ Spec.tier 2 subs)); rewrite ?E.
  + by rewrite <- !app_assoc.
  + apply Forall_app; split; eauto with gallery.
  + eauto with gallery.
- assert (E : rank t = 1) by lia. rewrite E. simpl. rewrite !app_nil_r.
  rewrite <- (app_nil_r (Spec.tier 3 subs ++ Spec.tier 2 subs ++ Spec.tier 1 subs)) at 1.
  rewrite insert_split; [by rewrite <- !app_assoc| |constructor].
  rewrite E. apply Forall_app; split; [eauto with gallery|].
  apply Forall_app; split; eauto with gallery.
Qed.

(** ** Properties *)

(** C2: refinement of the queue: submitting the tasks [subs] one after the
  other into an empty queue with [_insertTaskByPriority] yields the
  specification's queue, all high-rank tasks first, then normal (and
  unrecognised) ones, then low ones, each group in submission order. *)
Theorem queue_refines_spec (subs : list Task) :
Impl.enqueueAll subs [] = Spec.queue subs.
Proof.
induction subs as [|t subs IH] using rev_ind; [done|].
unfold Impl.enqueueAll in *. rewrite fold_left_app. simpl. rewrite IH. apply insert_spec.
Qed.

End TaskQueue.
