(* ===== verification/Scheduler.v ===== *)
(** * The drain loop of [EnhancedAIEngine]

    [src/src/js/aiEngine.js], [analyzeImage] (cache miss path),
    [_processQueue] and [dispose].  The loop is asynchronous: a call of
    [_processQueue] that finds the engine idle and the queue non-empty sets
    [isProcessing], splices a batch of at most [workers] tasks and starts
    them all (each [_processTask] runs until its first [await]); when the
    whole batch has settled ([Promise.allSettled]) the continuation either
    arms a 100 ms timer (tasks remain) or clears [isProcessing]; the timer
    clears [isProcessing] and calls [_processQueue] again.

    The state keeps what the JS heap and event loop hold: the queue, the
    flag, the pending [allSettled] continuations with the tasks of their
    batch not yet settled, the number of armed timers, and (as ghost
    history) the tasks in the order they were started and settled.  [step]
    is one event of the event loop, executable; [reachable] closes it.

    The theorems: the worker bound holds on every reachable state of the
    loop without [dispose] (rule induction on [reachable]); [dispose] breaks
    it and abandons queued tasks; [drain] runs the loop to quiescence and
    settles every queued task in queue order when given enough fuel; and
    the first task submitted to an idle engine starts at once whatever its
    priority. *)

From S2P Require Import Prelude TaskQueue.
Import TaskQueue.

Module Scheduler.

Record SchedState := mkSched {
  analysisQueue : list Task;
  isProcessing : bool;
  batches : list (list Task);  (** pending [allSettled]: unsettled tasks *)
  timers : nat;                (** armed [setTimeout] callbacks *)
  started : list Task;         (** history: tasks in start order *)
  settled : list Task          (** history: tasks in settle order *)
}.

(** The constructor's state: empty queue, not processing. *)
Definition init : SchedState := mkSched [] false [] 0 [] [].

(** The events of the event loop that touch the scheduler. *)
Inductive event :=
  | ESubmit (t : Task)          (** [analyzeImage] on a cache miss *)
  | ETaskSettle (i j : nat)     (** task [j] of pending batch [i] settles *)
  | EBatchSettle (i : nat)      (** the [allSettled] of batch [i] resumes *)
  | ETimer                      (** an armed 100 ms timer fires *)
  | EDispose.                   (** [dispose()] *)

(** Reduce the projections of a literal [mkSched] and nothing else. *)
Ltac simpl_sched := cbn [analysisQueue isProcessing batches timers started settled] in *.

Section Loop.
Variable workers : nat.

(** The synchronous part of [_processQueue()]. *)
Definition _processQueue (st : SchedState) : SchedState :=
  if isProcessing st then st else
  match analysisQueue st with
  | [] => st
  | q =>
      let '(batch, rest) := Impl.spliceBatch workers q in
      mkSched rest true (batches st ++ [batch]) (timers st)
        (started st ++ batch) (settled st)
  end.

(** The continuation after [await Promise.allSettled(promises)]. *)
Definition afterBatch (st : SchedState) : SchedState :=
  match analysisQueue st with
  | [] => mkSched [] false (batches st) (timers st) (started st) (settled st)
  | q => mkSched q (isProcessing st) (batches st) (S (timers st)) (started st) (settled st)
  end.

(** [analyzeImage] after a cache miss: insert the task, call [_processQueue]. *)
Definition submit (t : Task) (st : SchedState) : SchedState :=
  _processQueue
    (mkSched (Impl._insertTaskByPriority t (analysisQueue st)) (isProcessing st)
       (batches st) (timers st) (started st) (settled st)).

(** The timer callback: [this.isProcessing = false; this._processQueue()]. *)
Definition fireTimer (st : SchedState) : SchedState :=
  _processQueue (mkSched (analysisQueue st) false (batches st) (pred (timers st))
                   (started st) (settled st)).

(** The scheduler part of [dispose()]: [analysisQueue.length = 0;
    isProcessing = false]. *)
Definition dispose (st : SchedState) : SchedState :=
  mkSched [] false (batches st) (timers st) (started st) (settled st).

(** One event; [None] when the event is not enabled in [st]. *)
Definition step (e : event) (st : SchedState) : option SchedState :=
  match e with
  | ESubmit t => Some (submit t st)
  | ETaskSettle i j =>
      b ← batches st !! i; t ← b !! j;
      Some (mkSched (analysisQueue st) (isProcessing st) (<[i := delete j b]> (batches st))
              (timers st) (started st) (settled st ++ [t]))
  | EBatchSettle i =>
      b ← batches st !! i;
      match b with
      | [] => Some (afterBatch (mkSched (analysisQueue st) (isProcessing st)
                                  (delete i (batches st)) (timers st) (started st) (settled st)))
      | _ => None
      end
  | ETimer => match timers st with 0 => None | S _ => Some (fireTimer st) end
  | EDispose => Some (dispose st)
  end.

(** A sequence of events from [st]. *)
Fixpoint run (es : list event) (st : SchedState) : option SchedState :=
  match es with
  | [] => Some st
  | e :: es' => st' ← step e st; run es' st'
  end.

(** The tasks started and not yet settled. *)
Definition running (st : SchedState) : list Task := concat (batches st).

Definition isDispose (e : event) : bool := match e with EDispose => true | _ => false end.

(** States reachable from [init], and those reachable without [dispose]. *)
Inductive reachable : SchedState -> Prop :=
  | reach_init : reachable init
  | reach_step e st st' : reachable st -> step e st = Some st' -> reachable st'.

Inductive reachable_nd : SchedState -> Prop :=
  | reachnd_init : reachable_nd init
  | reachnd_step e st st' :
      reachable_nd st -> isDispose e = false -> step e st = Some st' -> reachable_nd st'.

(** The loop invariant: idle with an empty queue and nothing pending, or
    processing with exactly one pending batch of at most [workers] tasks
    and no timer, or processing with one armed timer, no batch and a
    non-empty queue. *)
Definition loop_inv (st : SchedState) : Prop :=
  (isProcessing st = false /\ analysisQueue st = [] /\ batches st = [] /\ timers st = 0) \/
  (isProcessing st = true /\ timers st = 0 /\
     exists b, batches st = [b] /\ length b <= workers) \/
  (isProcessing st = true /\ batches st = [] /\ timers st = 1 /\ analysisQueue st <> []).

(** ** Lemmas on the operations *)

Lemma processQueue_busy (st : SchedState) : isProcessing st = true -> _processQueue st = st.
Proof. unfold _processQueue. by intros ->. Qed.

Lemma processQueue_empty (st : SchedState) : analysisQueue st = [] -> _processQueue st = st.
Proof. unfold _processQueue. intros ->. by destruct (isProcessing st). Qed.

Lemma processQueue_start (st : SchedState) :
  isProcessing st = false -> analysisQueue st <> [] ->
  _processQueue st =
    mkSched (drop workers (analysisQueue st)) true (batches st ++ [take workers (analysisQueue st)])
      (timers st) (started st ++ take workers (analysisQueue st)) (settled st).
Proof.
  unfold _processQueue. intros -> Hq. by destruct (analysisQueue st).
Qed.

Lemma insert_nonempty (t : Task) (q : list Task) : Impl._insertTaskByPriority t q <> [].
Proof. unfold Impl._insertTaskByPriority. by destruct (take _ q). Qed.

#[local] Hint Resolve insert_nonempty : gallery.

(** Starting from an idle state with a non-empty queue establishes the
    "one batch" case of the invariant. *)
Lemma processQueue_inv_idle (st : SchedState) :
  isProcessing st = false -> batches st = [] -> timers st = 0 ->
  analysisQueue st <> [] -> loop_inv (_processQueue st).
Proof.
  intros Hp Hb Ht Hq. rewrite processQueue_start by done.
  right; left. simpl. rewrite Hb, Ht. split; [done|split; [done|]].
  eexists; split; [done|apply length_take_le].
Qed.

(** ** Preservation of the loop invariant, event by event *)

Lemma submit_inv (t : Task) (st : SchedState) : loop_inv st -> loop_inv (submit t st).
Proof.
  unfold submit. intros [(Hp & Hq & Hb & Ht) | [(Hp & Ht & b & Hb & Hlen) | (Hp & Hb & Ht & Hq)]].
  - apply processQueue_inv_idle; simpl_sched; auto with gallery.
  - rewrite processQueue_busy by done. right; left. simpl_sched. eauto.
  - rewrite processQueue_busy by done. right; right. simpl_sched. auto with gallery.
Qed.

Lemma taskSettle_inv (i j : nat) (st st' : SchedState) :
  loop_inv st -> step (ETaskSettle i j) st = Some st' -> loop_inv st'.
Proof.
  simpl. intros [(Hp & Hq & Hb & Ht) | [(Hp & Ht & b & Hb & Hlen) | (Hp & Hb & Ht & Hq)]];
    rewrite ?Hb; simpl; [discriminate|..|discriminate].
  destruct i as [|i]; simpl; [|discriminate].
  destruct (b !! j) as [t|] eqn:Ej; simpl; [|done]. intros [= <-].
  right; left. simpl. split; [done|split; [done|]].
  eexists; split; [done|]. rewrite length_delete by eauto. lia.
Qed.

Lemma batchSettle_inv (i : nat) (st st' : SchedState) :
  loop_inv st -> step (EBatchSettle i) st = Some st' -> loop_inv st'.
Proof.
  simpl. intros [(Hp & Hq & Hb & Ht) | [(Hp & Ht & b & Hb & Hlen) | (Hp & Hb & Ht & Hq)]];
    rewrite ?Hb; simpl; [discriminate|..|discriminate].
  destruct i as [|i]; simpl; [|discriminate].
  destruct b; [|done]. intros [= <-]. unfold afterBatch. simpl.
  destruct (analysisQueue st) eqn:Eq.
  - left. simpl. auto.
  - right; right. simpl. rewrite Ht. auto.
Qed.

Lemma timer_inv (st st' : SchedState) :
  loop_inv st -> step ETimer st = Some st' -> loop_inv st'.
Proof.
  simpl. intros [(Hp & Hq & Hb & Ht) | [(Hp & Ht & b & Hb & Hlen) | (Hp & Hb & Ht & Hq)]];
    rewrite Ht; [done|done|]. intros [= <-].
  unfold fireTimer. rewrite Ht. apply processQueue_inv_idle; simpl; done.
Qed.

Lemma step_inv (e : event) (st st' : SchedState) :
  isDispose e = false -> loop_inv st -> step e st = Some st' -> loop_inv st'.
Proof.
  destruct e as [t|i j|i| |]; simpl; intros Hd Hinv Hstep.
  - injection Hstep as <-. by apply submit_inv.
  - by eapply taskSettle_inv.
  - by eapply batchSettle_inv.
  - by eapply timer_inv.
  - discriminate.
Qed.

Lemma reachable_nd_inv (st : SchedState) : reachable_nd st -> loop_inv st.
Proof.
  induction 1 as [|e st st' _ IH Hd Hstep].
  - left. simpl. auto.
  - by eapply step_inv.
Qed.

(** ** Running the loop to quiescence *)

(** Let the loop run with no new submission: settle the pending batch in
    its order and resume its [allSettled], or fire the armed timer.  Each
    iteration is a sequence of [step]s ([drain_run]). *)
Fixpoint drain (fuel : nat) (st : SchedState) : SchedState :=
  match fuel with
  | 0 => st
  | S f =>
      match batches st with
      | b :: bs =>
          drain f (afterBatch (mkSched (analysisQueue st) (isProcessing st) bs (timers st)
                                 (started st) (settled st ++ b)))
      | [] => match timers st with 0 => st | S _ => drain f (fireTimer st) end
      end
  end.

(** The quiescent state [drain] reaches from a state whose pending batch
    is [b]: everything queued has started, in queue order, and settled. *)
Definition quiescent_from (st : SchedState) (b : list Task) : SchedState :=
  mkSched [] false [] 0 (started st ++ analysisQueue st) (settled st ++ b ++ analysisQueue st).

Lemma drain_idle (f : nat) (st : SchedState) :
  batches st = [] -> timers st = 0 -> drain f st = st.
Proof. destruct f; simpl; [done|]. by intros -> ->. Qed.

Lemma drain_batch (n : nat) :
  1 <= workers ->
  forall (st : SchedState) (b : list Task) (f : nat),
  length (analysisQueue st) = n -> isProcessing st = true -> timers st = 0 ->
  batches st = [b] -> 2 * n + 2 <= f ->
  drain f st = quiescent_from st b.
Proof.
  intros Hw. induction n as [n IH] using lt_wf_ind.
  intros st b f Hn Hp Ht Hb Hf. destruct f as [|f1]; [lia|]. simpl. rewrite Hb.
  unfold afterBatch. simpl_sched. destruct (analysisQueue st) as [|x q] eqn:Eq.
  - rewrite drain_idle by done. unfold quiescent_from. by rewrite Eq, Ht, !app_nil_r.
  - destruct f1 as [|f2]; [lia|]. simpl. rewrite Ht.
    unfold fireTimer. simpl_sched. rewrite processQueue_start; simpl_sched; [|done|done].
    erewrite (IH (length (drop workers (x :: q)))); [| |reflexivity|reflexivity|reflexivity
      |reflexivity|]; [|rewrite length_drop; simpl in *; lia|rewrite length_drop; simpl in *; lia].
    unfold quiescent_from. simpl_sched. rewrite Eq.
    by rewrite <- !app_assoc, take_drop.
Qed.

Lemma run_app (es1 es2 : list event) (st : SchedState) :
  run (es1 ++ es2) st = run es1 st ≫= run es2.
Proof.
  revert st. induction es1 as [|e es1 IH]; intros st; simpl; [done|].
  destruct (step e st); simpl; [apply IH|done].
Qed.

(** Settling a whole batch, task after task, in its order. *)
Lemma settle_batch (b : list Task) (bs : list (list Task)) (st : SchedState) :
  batches st = b :: bs ->
  run (replicate (length b) (ETaskSettle 0 0)) st =
    Some (mkSched (analysisQueue st) (isProcessing st) ([] :: bs) (timers st) (started st)
            (settled st ++ b)).
Proof.
  revert st. induction b as [|x b IH]; intros st Hb; simpl.
  - rewrite app_nil_r. by destruct st; simpl in *; subst.
  - rewrite Hb. simpl. rewrite IH by done. simpl_sched. by rewrite <- app_assoc.
Qed.

Lemma drain_run (f : nat) (st : SchedState) :
  exists es, Forall (fun e => isDispose e = false) es /\ run es st = Some (drain f st).
Proof.
  revert st. induction f as [|f IH]; intros st; simpl.
  - by exists [].
  - destruct (batches st) as [|b bs] eqn:Hb.
    + destruct (timers st) as [|n] eqn:Ht; [by exists []|].
      destruct (IH (fireTimer st)) as (es & Hnd & Hrun).
      exists (ETimer :: es). split; [by constructor|]. simpl. by rewrite Ht.
    + destruct (IH (afterBatch (mkSched (analysisQueue st) (isProcessing st) bs (timers st)
                                  (started st) (settled st ++ b)))) as (es & Hnd & Hrun).
      exists (replicate (length b) (ETaskSettle 0 0) ++ EBatchSettle 0 :: es). split.
      * apply Forall_app; split; [apply Forall_replicate; done|by constructor].
      * rewrite run_app, (settle_batch b bs) by done. simpl. done.
Qed.

Lemma run_reachable_nd (es : list event) (st st' : SchedState) :
  Forall (fun e => isDispose e = false) es -> reachable_nd st -> run es st = Some st' ->
  reachable_nd st'.
Proof.
  revert st. induction es as [|e es IH]; intros st Hnd Hr Hrun; simpl in Hrun.
  - by injection Hrun as <-.
  - apply Forall_cons in Hnd as [He Hnd].
    destruct (step e st) as [s1|] eqn:Hs; [|discriminate].
    eapply IH; [done| |done]. by eapply reachnd_step.
Qed.

Lemma run_reachable (es : list event) (st st' : SchedState) :
  reachable st -> run es st = Some st' -> reachable st'.
Proof.
  revert st. induction es as [|e es IH]; intros st Hr Hrun; simpl in Hrun.
  - by injection Hrun as <-.
  - destruct (step e st) as [s1|] eqn:Hs; [|discriminate].
    eapply IH; [|done]. by eapply reach_step.
Qed.

(** ** Where a task can be *)

(** [x] is queued, pending in a batch, started or settled. *)
Definition in_sched (x : Task) (st : SchedState) : Prop :=
  x ∈ analysisQueue st \/ (exists b, b ∈ batches st /\ x ∈ b) \/ x ∈ started st \/ x ∈ settled st.

Lemma processQueue_in (x : Task) (st : SchedState) :
  in_sched x (_processQueue st) -> in_sched x st.
Proof.
  unfold _processQueue. destruct (isProcessing st); [done|].
  destruct (analysisQueue st) as [|y q] eqn:Eq; [done|]. unfold in_sched. simpl. rewrite Eq.
  intros [Hx|[(b & Hb & Hx)|[Hx|Hx]]].
  - left. apply (elem_of_take_drop_inv workers). auto.
  - apply elem_of_app in Hb as [Hb|Hb]; [right; left; eauto|].
    apply list_elem_of_singleton in Hb as ->. left. apply (elem_of_take_drop_inv workers). auto.
  - apply elem_of_app in Hx as [Hx|Hx]; [auto|]. left. apply (elem_of_take_drop_inv workers). auto.
  - auto.
Qed.

Lemma afterBatch_in (x : Task) (st : SchedState) :
  in_sched x (afterBatch st) -> in_sched x st.
Proof.
  unfold afterBatch, in_sched. destruct (analysisQueue st) eqn:E; simpl; rewrite ?E; tauto.
Qed.

Lemma insert_in (t x : Task) (q : list Task) :
  x ∈ Impl._insertTaskByPriority t q -> x = t \/ x ∈ q.
Proof.
  unfold Impl._insertTaskByPriority. rewrite elem_of_app, elem_of_cons.
  intros [Hx|[Hx|Hx]]; auto; right; apply (elem_of_take_drop_inv (Impl.insertIndex (rank t) q)); auto.
Qed.

(** No event but the submission of [x] brings [x] into the scheduler. *)
Lemma step_in (e : event) (x : Task) (st st' : SchedState) :
  step e st = Some st' -> in_sched x st' -> in_sched x st \/ e = ESubmit x.
Proof.
  destruct e as [t|i j|i| |]; simpl.
  - intros [= <-] Hx%processQueue_in. unfold in_sched in Hx. simpl in Hx.
    destruct Hx as [Hx|Hx]; [apply insert_in in Hx as [->|Hx]; [by right|left; by left]|].
    left. unfold in_sched. auto.
  - destruct (batches st !! i) as [b|] eqn:Eb; [|done]. simpl.
    destruct (b !! j) as [t|] eqn:Ej; [|done]. simpl. intros [= <-].
    left. unfold in_sched in *. simpl in *.
    destruct H as [Hx|[(b' & Hb' & Hx)|[Hx|Hx]]]; auto.
    + apply elem_of_insert_inv in Hb' as [->|Hb']; [|eauto].
      right; left. exists b. split; [by eapply list_elem_of_lookup_2|].
      by eapply list_elem_of_delete_inv.
    + apply elem_of_app in Hx as [Hx|Hx]; auto. apply list_elem_of_singleton in Hx as ->.
      right; left. exists b. split; eapply list_elem_of_lookup_2; eauto.
  - destruct (batches st !! i) as [b|] eqn:Eb; [|done]. simpl.
    destruct b; [|done]. intros [= <-] Hx%afterBatch_in. left.
    unfold in_sched in *. simpl in *.
    destruct Hx as [?|[(b' & Hb' & ?)|?]]; [auto|right; left; eauto using list_elem_of_delete_inv|auto].
  - destruct (timers st); [done|]. intros [= <-] Hx%processQueue_in. left.
    unfold in_sched in *. simpl in *. done.
  - intros [= <-] Hx. left. unfold in_sched in *. simpl in *.
    destruct Hx as [Hx|Hx]; [by apply not_elem_of_nil in Hx|auto].
Qed.

Lemma run_in (es : list event) (x : Task) (st st' : SchedState) :
  Forall (fun e => e <> ESubmit x) es -> run es st = Some st' -> in_sched x st' -> in_sched x st.
Proof.
  revert st. induction es as [|e es IH]; intros st Hes Hrun Hx; simpl in Hrun.
  - by injection Hrun as <-.
  - apply Forall_cons in Hes as [He Hes].
    destruct (step e st) as [s1|] eqn:Hs; [|discriminate].
    assert (Hx1 : in_sched x s1) by (eapply IH; eauto).
    by destruct (step_in e x st s1 Hs Hx1).
Qed.

(** ** Started tasks cover the running and settled ones *)

Lemma elem_of_running (y : Task) (st : SchedState) :
  y ∈ running st <-> exists b, b ∈ batches st /\ y ∈ b.
Proof.
  unfold running. rewrite list_elem_of_In, in_concat.
  setoid_rewrite list_elem_of_In. done.
Qed.

(** Every task pending in a batch or settled was started. *)
Definition covered (st : SchedState) : Prop :=
  forall y, y ∈ running st \/ y ∈ settled st -> y ∈ started st.

Lemma processQueue_covered (st : SchedState) : covered st -> covered (_processQueue st).
Proof.
  intros Hc. destruct (isProcessing st) eqn:Hp; [by rewrite processQueue_busy|].
  destruct (decide (analysisQueue st = [])) as [Hq|Hq]; [by rewrite processQueue_empty|].
  rewrite processQueue_start by done. intros y. unfold running in *. simpl_sched.
  rewrite concat_app, !elem_of_app. cbn [concat]. rewrite app_nil_r. specialize (Hc y). tauto.
Qed.

Lemma step_covered (e : event) (st st' : SchedState) :
  covered st -> step e st = Some st' -> covered st'.
Proof.
  intros Hc. destruct e as [t|i j|i| |]; simpl.
  - intros [= <-]. by apply processQueue_covered.
  - destruct (batches st !! i) as [b|] eqn:Eb; [|done]. simpl.
    destruct (b !! j) as [t|] eqn:Ej; [|done]. simpl. intros [= <-] y.
    cbn [settled started]. rewrite elem_of_running, elem_of_app, list_elem_of_singleton. simpl_sched.
    intros Hy. apply Hc. rewrite elem_of_running.
    assert (Hb : b ∈ batches st) by (eapply list_elem_of_lookup_2; eauto).
    destruct Hy as [(b' & Hb' & Hy)|[Hy| ->]]; [|auto|left; exists b; split; [done|by eapply list_elem_of_lookup_2]].
    left. apply elem_of_insert_inv in Hb' as [->|Hb']; [|eauto].
    exists b. split; [done|by eapply list_elem_of_delete_inv].
  - destruct (batches st !! i) as [b|] eqn:Eb; [|done]. simpl.
    destruct b; [|done]. intros [= <-] y.
    unfold afterBatch. destruct (analysisQueue st); simpl_sched;
      rewrite elem_of_running; simpl_sched; intros Hy; apply Hc; rewrite elem_of_running;
      destruct Hy as [(b' & Hb' & Hy)|Hy]; eauto using list_elem_of_delete_inv.
  - destruct (timers st); [done|]. intros [= <-]. by apply processQueue_covered.
  - intros [= <-] y. unfold dispose. apply Hc.
Qed.

Lemma reachable_covered (st : SchedState) : reachable st -> covered st.
Proof.
  induction 1 as [|e st st' _ IH Hstep]; [|by eapply step_covered].
  intros y [Hy|Hy]; [|by apply not_elem_of_nil in Hy]. unfold running in Hy. simpl in Hy.
  by apply not_elem_of_nil in Hy.
Qed.

End Loop.

#[export] Hint Resolve insert_nonempty : gallery.

(** Sample tasks for the concrete scenarios below. *)
Definition sample_task (id : nat) (p : Priority) : Task := mkTask id (js "file:a.jpg:1") p 0.

(** ** Properties *)

(** C3: worker bound: on every state the loop reaches without [dispose],
    at most [workers] analysis tasks run concurrently. *)
Theorem running_within_workers (workers : nat) (st : SchedState) :
  reachable_nd workers st -> length (running st) <= workers.
Proof.
  intros Hr. unfold running.
  destruct (reachable_nd_inv workers st Hr) as [(_ & _ & -> & _)|[(_ & _ & b & -> & Hb)|(_ & -> & _)]];
    simpl; rewrite ?app_nil_r; lia.
Qed.

Lemma running_within_workers_witness :
  let st := submit 2 (sample_task 1 Normal) (submit 2 (sample_task 0 Low) init) in
  reachable_nd 2 st /\ length (running st) <= 2.
Proof.
  assert (H : reachable_nd 2 (submit 2 (sample_task 1 Normal) (submit 2 (sample_task 0 Low) init))).
  { eapply (reachnd_step 2 (ESubmit (sample_task 1 Normal))); [|reflexivity|reflexivity].
    eapply (reachnd_step 2 (ESubmit (sample_task 0 Low))); [constructor|reflexivity|reflexivity]. }
  split; [exact H|]. apply running_within_workers. exact H.
Defined.

(** [dispose] breaks the worker bound: it clears [isProcessing] while
    the batch it does not cancel keeps running, so the next submission
    starts a new batch beside it; with [workers = 2], three tasks run at
    once after submit, dispose, submit, dispose, submit. *)
Theorem dispose_exceeds_workers :
  exists st, reachable 2 st /\ 2 < length (running st).
Proof.
  eexists. split.
  - eapply (run_reachable 2
      [ESubmit (sample_task 1 Normal); EDispose; ESubmit (sample_task 2 Normal); EDispose;
       ESubmit (sample_task 3 Normal)] init); [constructor|vm_compute; reflexivity].
  - vm_compute. lia.
Qed.

(** C8: [dispose] abandons queued tasks: on any state the loop reaches
    (with or without earlier [dispose]s), a task still queued and not yet
    started when [dispose] runs is never started nor settled afterwards,
    whatever the event loop does, unless it is submitted again; its
    [analyzeImage] promise never settles. *)
Theorem dispose_abandons_queued (workers : nat) (st st' : SchedState) (x : Task) (es : list event) :
  reachable workers st -> x ∈ analysisQueue st -> x ∉ started st ->
  Forall (fun e => e <> ESubmit x) es ->
  run workers (EDispose :: es) st = Some st' ->
  (x ∉ started st') /\ (x ∉ settled st').
Proof.
  intros Hr _ Hs Hes Hrun. cbn [run step] in Hrun.
  assert (Hnot : ~ in_sched x st').
  { intros Hin. eapply run_in in Hin; [|exact Hes|exact Hrun].
    apply Hs, (reachable_covered workers st Hr).
    unfold in_sched, dispose in Hin. cbn [analysisQueue batches started settled] in Hin.
    rewrite elem_of_running.
    destruct Hin as [H|[H|[H|H]]]; [by apply not_elem_of_nil in H|auto|done|auto]. }
  split; intros H; apply Hnot; unfold in_sched; auto.
Qed.

Lemma dispose_abandons_queued_witness :
  let st := submit 1 (sample_task 2 Normal) (submit 1 (sample_task 1 Normal) init) in
  exists st', run 1 (EDispose :: [ETaskSettle 0 0; EBatchSettle 0; ESubmit (sample_task 3 Low)]) st = Some st' /\
    (sample_task 2 Normal ∉ started st') /\ (sample_task 2 Normal ∉ settled st').
Proof.
  cbv zeta. eexists. split; [vm_compute; reflexivity|].
  apply (dispose_abandons_queued 1 (submit 1 (sample_task 2 Normal) (submit 1 (sample_task 1 Normal) init)) _ _ [ETaskSettle 0 0; EBatchSettle 0; ESubmit (sample_task 3 Low)]).
  - eapply (reach_step 1 (ESubmit (sample_task 2 Normal))); [|reflexivity].
    eapply (reach_step 1 (ESubmit (sample_task 1 Normal))); [constructor|reflexivity].
  - vm_compute. left.
  - vm_compute. intros H. apply list_elem_of_singleton in H. discriminate H.
  - repeat constructor; discriminate.
  - vm_compute. reflexivity.
Defined.

(** C4: termination of the drain loop: from any state the loop reaches
    without [dispose], with at least one worker and no further submission,
    the event loop reaches (by [2 * |queue| + 2] iterations of [drain],
    each a sequence of [step]s) a quiescent state: nothing queued, pending
    or armed, [isProcessing] cleared, every queued task started in queue
    order and every running or queued task settled. *)
Theorem drain_settles_all (workers fuel : nat) (st : SchedState) :
  reachable_nd workers st -> 1 <= workers ->
  2 * length (analysisQueue st) + 2 <= fuel ->
  let st' := drain workers fuel st in
  reachable_nd workers st' /\ isProcessing st' = false /\ analysisQueue st' = [] /\
  running st' = [] /\ timers st' = 0 /\
  started st' = started st ++ analysisQueue st /\
  settled st' = settled st ++ running st ++ analysisQueue st.
Proof.
  intros Hr Hw Hf st'.
  assert (Hr' : reachable_nd workers st').
  { destruct (drain_run workers fuel st) as (es & Hnd & Hrun). by eapply run_reachable_nd. }
  assert (Hq : st' = quiescent_from st (running st)).
  { subst st'. unfold running.
    destruct (reachable_nd_inv workers st Hr)
      as [(Hp & Hq & Hb & Ht)|[(Hp & Ht & b & Hb & Hlen)|(Hp & Hb & Ht & Hq)]].
    - rewrite drain_idle by done. unfold quiescent_from. rewrite Hq, Hb. simpl.
      destruct st; simpl in *; subst. by rewrite !app_nil_r.
    - rewrite Hb. simpl. rewrite app_nil_r. by eapply drain_batch.
    - destruct fuel as [|f]; [lia|]. simpl. rewrite Hb, Ht.
      unfold fireTimer. simpl_sched. rewrite processQueue_start; simpl_sched; [|done|done].
      rewrite Hb, Ht. simpl.
      erewrite drain_batch; [|done|reflexivity|reflexivity|reflexivity|reflexivity|].
      + unfold quiescent_from. simpl_sched.
        by rewrite <- app_assoc, take_drop.
      + simpl_sched. rewrite length_drop. destruct (analysisQueue st); [done|]. simpl in *. lia. }
  rewrite Hq in Hr' |- *. unfold quiescent_from, running in *. simpl. by repeat split.
Qed.

Lemma drain_settles_all_witness :
  let st := submit 1 (sample_task 2 High) (submit 1 (sample_task 1 Low) init) in
  reachable_nd 1 st /\ started (drain 1 4 st) = [sample_task 1 Low; sample_task 2 High].
Proof.
  assert (H : reachable_nd 1 (submit 1 (sample_task 2 High) (submit 1 (sample_task 1 Low) init))).
  { eapply (reachnd_step 1 (ESubmit (sample_task 2 High))); [|reflexivity|reflexivity].
    eapply (reachnd_step 1 (ESubmit (sample_task 1 Low))); [constructor|reflexivity|reflexivity]. }
  split; [exact H|].
  destruct (drain_settles_all 1 4 _ H ltac:(lia) ltac:(vm_compute; lia)) as (_ & _ & _ & _ & _ & ->  & _).
  vm_compute. reflexivity.
Defined.

(** the first task submitted to an idle engine starts at once,
    whatever its priority: submitting [low, high, normal, high] in that
    order with one worker runs [low] first, then the two high tasks in
    order, then [normal]; the spec's "priority dominates" order
    [high, high, normal, low] does not hold for the first task. *)
Theorem idle_engine_runs_first_submission :
  let subs := [sample_task 1 Low; sample_task 2 High; sample_task 3 Normal; sample_task 4 High] in
  started (drain 1 10 (fold_left (fun st t => submit 1 t st) subs init)) =
    [sample_task 1 Low; sample_task 2 High; sample_task 4 High; sample_task 3 Normal].
Proof. vm_compute. reflexivity. Qed.

End Scheduler.
