(* ===== verification/PostProcess.v ===== *)
(** * Post-processing of model output in [EnhancedAIEngine]

    [src/src/js/aiEngine.js], the pure helpers [_processTask] calls after
    the models ran: [_postProcessResult] filters the classifications and
    detections by [confidenceThreshold], then derives the tags
    ([_generateSmartTags] with [_cleanLabel] and [_generateCombinedTags]),
    the overall confidence ([_calculateOverallConfidence]), the description
    ([_generateDescription]) and the features ([_analyzeImageFeatures] with
    [_categorizeImage] and [_calculateComplexity]); [_createFallbackResult]
    is the result of a failed task.

    Labels are JS strings (UTF-16 code units); the Chinese constants of the
    code are written as their code units, with the characters in comments.
    Confidences and thresholds are [Q]; the overall confidence uses
    [Math.exp] and is a real number. *)

From Stdlib Require Import QArith Qminmax Reals Lra.
From S2P Require Import Prelude JsMap JsArray.

Module PostProcess.

(** ** Constant strings of the code *)

Definition zh_person : jsstring := [0x4eba; 0x7269]%Z.           (* 人物 *)
Definition zh_car : jsstring := [0x6c7d; 0x8f66]%Z.              (* 汽车 *)
Definition zh_dog : jsstring := [0x72d7]%Z.                      (* 狗 *)
Definition zh_cat : jsstring := [0x732b]%Z.                      (* 猫 *)
Definition zh_bird : jsstring := [0x9e1f]%Z.                     (* 鸟 *)
Definition zh_flower : jsstring := [0x82b1; 0x6735]%Z.           (* 花朵 *)
Definition zh_tree : jsstring := [0x6811; 0x6728]%Z.             (* 树木 *)
Definition zh_building : jsstring := [0x5efa; 0x7b51]%Z.         (* 建筑 *)
Definition zh_food : jsstring := [0x98df; 0x7269]%Z.             (* 食物 *)
Definition zh_animal : jsstring := [0x52a8; 0x7269]%Z.           (* 动物 *)
Definition zh_nature : jsstring := [0x81ea; 0x7136]%Z.           (* 自然 *)
Definition zh_landscape : jsstring := [0x98ce; 0x666f]%Z.        (* 风景 *)
Definition zh_portrait : jsstring := [0x8096; 0x50cf]%Z.         (* 肖像 *)
Definition zh_indoor : jsstring := [0x5ba4; 0x5185]%Z.           (* 室内 *)
Definition zh_outdoor : jsstring := [0x6237; 0x5916]%Z.          (* 户外 *)
Definition zh_outdoor_portrait : jsstring := [0x6237; 0x5916; 0x4eba; 0x50cf]%Z. (* 户外人像 *)
Definition zh_wildlife : jsstring := [0x91ce; 0x751f; 0x52a8; 0x7269]%Z.         (* 野生动物 *)
Definition zh_cityscape : jsstring := [0x57ce; 0x5e02; 0x98ce; 0x5149]%Z.        (* 城市风光 *)
Definition zh_other : jsstring := [0x5176; 0x4ed6]%Z.            (* 其他 *)

(** ** Model output *)

(** One prediction as [classifyImage] / [detectObjects] map it:
    [{label, confidence, category, source}] and, for detections, [bbox]. *)
Record Prediction := mkPrediction {
  label : jsstring;
  confidence : Q;
  source : jsstring;
  bbox : option (list Q)
}.

(** [items.filter(item => item.confidence >= this.confidenceThreshold)]. *)
Definition filterByThreshold (threshold : Q) (items : list Prediction) : list Prediction :=
  List.filter (fun it => Qle_bool threshold (confidence it)) items.

(** ** [_cleanLabel] *)

(** The code units kept by [label.replace(/[^a-zA-Z一-龥\s]/g, '')]. *)
Definition keep_label_char (c : Z) : bool :=
  (((97 <=? c) && (c <=? 122)) || ((65 <=? c) && (c <=? 90)) ||
   ((0x4e00 <=? c) && (c <=? 0x9fa5)) || is_js_whitespace c)%Z.

(** The [translations] object of [_cleanLabel], in its key order. *)
Definition translations : list (jsstring * jsstring) :=
  [(js "person", zh_person); (js "car", zh_car); (js "dog", zh_dog); (js "cat", zh_cat);
   (js "bird", zh_bird); (js "flower", zh_flower); (js "tree", zh_tree);
   (js "building", zh_building); (js "food", zh_food); (js "animal", zh_animal);
   (js "nature", zh_nature); (js "landscape", zh_landscape); (js "portrait", zh_portrait);
   (js "indoor", zh_indoor); (js "outdoor", zh_outdoor)].

(** The loop [for (const [en, zh] of Object.entries(translations))
    if (lowerLabel.includes(en)) return zh]. *)
Fixpoint firstTranslation (lowerLabel : jsstring) (tbl : list (jsstring * jsstring)) : option jsstring :=
  match tbl with
  | [] => None
  | (en, zh) :: tbl' => if includes lowerLabel en then Some zh else firstTranslation lowerLabel tbl'
  end.

Definition _cleanLabel (label : jsstring) : jsstring :=
  match label with
  | [] => []
  | _ =>
      let cleaned := List.filter keep_label_char label in
      match firstTranslation (map lower_char cleaned) translations with
      | Some zh => zh
      | None => trim cleaned
      end
  end.

(** ** Tags *)

(** [set.add(x)] on an insertion-ordered [Set]. *)
Definition set_add (x : jsstring) (s : list jsstring) : list jsstring :=
  if bool_decide (x ∈ s) then s else s ++ [x].

(** [items.forEach(item => { const c = this._cleanLabel(item.label); if (c) tags.add(c); })]. *)
Definition addCleanLabels (items : list Prediction) (tags : list jsstring) : list jsstring :=
  fold_left (fun tags it =>
    match _cleanLabel (label it) with [] => tags | c => set_add c tags end) items tags.

(** [tags.includes(x)] on an array. *)
Definition array_includes (tags : list jsstring) (x : jsstring) : bool := bool_decide (x ∈ tags).

Definition _generateCombinedTags (tags : list jsstring) : list jsstring :=
  (if array_includes tags zh_person && array_includes tags zh_outdoor then [zh_outdoor_portrait] else []) ++
  (if array_includes tags zh_animal && array_includes tags zh_nature then [zh_wildlife] else []) ++
  (if array_includes tags zh_building && array_includes tags zh_landscape then [zh_cityscape] else []).

Definition _generateSmartTags (classifications detections : list Prediction) : list jsstring :=
  let tags := addCleanLabels detections (addCleanLabels classifications []) in
  let tags' := fold_left (fun s t => set_add t s) (_generateCombinedTags tags) tags in
  take 10 tags'.

(** ** Overall confidence *)

(** [Array.prototype.reduce((acc, item, index) => ..., init)] from index [i]. *)
Fixpoint reduce_idx {A B : Type} (f : B -> A -> nat -> B) (acc : B) (i : nat) (l : list A) : B :=
  match l with
  | [] => acc
  | x :: l' => reduce_idx f (f acc x i) (S i) l'
  end.

(** [Math.exp(-index * 0.1)]. *)
Definition rankWeight (index : nat) : R := exp (- INR index * (1 / 10)).

Definition _calculateOverallConfidence (classifications detections : list Prediction) : R :=
  let allResults := classifications ++ detections in
  match allResults with
  | [] => 0%R
  | _ =>
      let weightedSum :=
        reduce_idx (fun sum item index => sum + Q2R (confidence item) * rankWeight index)%R 0%R 0 allResults in
      let totalWeight := reduce_idx (fun sum _ index => sum + rankWeight index)%R 0%R 0 allResults in
      if Rlt_dec 0 totalWeight then (weightedSum / totalWeight)%R else 0%R
  end.

(** The spec's formula: [sum c_i w_i / sum w_i] with [w_i = exp(-0.1 i)]. *)
Fixpoint weighted_sum (i : nat) (l : list Prediction) : R :=
  match l with [] => 0%R | x :: l' => (Q2R (confidence x) * rankWeight i + weighted_sum (S i) l')%R end.

Fixpoint weight_sum (i : nat) (l : list Prediction) : R :=
  match l with [] => 0%R | _ :: l' => (rankWeight i + weight_sum (S i) l')%R end.

Definition spec_confidence (l : list Prediction) : R :=
  match l with [] => 0%R | _ => (weighted_sum 0 l / weight_sum 0 l)%R end.

(** ** Description *)

Definition zh_about : jsstring := [0x8fd9; 0x662f; 0x4e00; 0x5f20; 0x5173; 0x4e8e]%Z. (* 这是一张关于 *)
Definition zh_of_image : jsstring := [0x7684; 0x56fe; 0x7247]%Z.                     (* 的图片 *)
Definition zh_ge : jsstring := [0x4e2a]%Z.                                           (* 个 *)
Definition zh_enum_comma : jsstring := [0x3001]%Z.                                   (* 、 *)
Definition zh_contains : jsstring := [0x56fe; 0x4e2d; 0x5305; 0x542b]%Z.             (* 图中包含 *)
Definition zh_comma : jsstring := [0xff0c]%Z.                                        (* ， *)
Definition zh_plain_image : jsstring := [0x8fd9; 0x662f; 0x4e00; 0x5f20; 0x56fe; 0x7247]%Z. (* 这是一张图片 *)
Definition zh_image : jsstring := [0x56fe; 0x7247]%Z.                                (* 图片 *)
Definition zh_cannot_analyze : jsstring := [0x65e0; 0x6cd5; 0x5206; 0x6790; 0x6b64; 0x56fe; 0x7247]%Z. (* 无法分析此图片 *)

(** [array.join(sep)]. *)
Definition join (sep : jsstring) (l : list jsstring) : jsstring :=
  match l with [] => [] | x :: l' => x ++ concat (map (fun y => sep ++ y) l') end.

(** [objectCounts[label] = (objectCounts[label] || 0) + 1] over the
    detections; the keys are cleaned labels (letters, CJK and spaces only),
    never array indices, so the object keeps insertion order like a [Map]. *)
Definition countLabel (counts : JsMap.t jsstring nat) (label : jsstring) : JsMap.t jsstring nat :=
  let n := match JsMap.get label counts with Some n => n | None => 0 end in
  JsMap.set label (S n) counts.

Definition objectCounts (detections : list Prediction) : JsMap.t jsstring nat :=
  fold_left (fun m d => countLabel m (_cleanLabel (label d))) detections [].

(** [([label, count]) => count > 1 ? `${count}个${label}` : label]. *)
Definition countEntry (e : jsstring * nat) : jsstring :=
  let '(label, count) := e in if 1 <? count then nat_to_jsstring count ++ zh_ge ++ label else label.

Definition _generateDescription (classifications detections : list Prediction) : jsstring :=
  let d1 := match classifications with
            | topClass :: _ => [zh_about ++ _cleanLabel (label topClass) ++ zh_of_image]
            | [] => []
            end in
  let d2 := match detections with
            | [] => []
            | _ => let objectList := join zh_enum_comma (take 3 (map countEntry (objectCounts detections))) in
                   match objectList with [] => [] | _ => [zh_contains ++ objectList] end
            end in
  match join zh_comma (d1 ++ d2) with [] => zh_plain_image | d => d end.

(** ** Features *)

(** A JS number produced by [width / height] on natural dimensions. *)
Inductive jsratio := RFin (q : Q) | RInf | RNaN.

Definition divide (width height : nat) : jsratio :=
  if height =? 0 then (if width =? 0 then RNaN else RInf)
  else RFin (inject_Z (Z.of_nat width) / inject_Z (Z.of_nat height)).

(** [aspectRatio > 1.2 ? 'landscape' : aspectRatio < 0.8 ? 'portrait' : 'square'];
    the comparisons are exact on [Q], which agrees with the doubles for
    dimensions below 2^48 (a ratio of such integers differs from 1.2 or 0.8
    by more than the rounding of either side). *)
Definition orientationOf (r : jsratio) : jsstring :=
  match r with
  | RFin q => if Qlt_bool (6 # 5) q then js "landscape" else if Qlt_bool q (4 # 5) then js "portrait" else js "square"
  | RInf => js "landscape"
  | RNaN => js "square"
  end.

(** The [categories] object of [_categorizeImage], in key order. *)
Definition categories : list (jsstring * list jsstring) :=
  [(zh_person, [zh_person; zh_portrait; zh_outdoor_portrait]);
   (zh_animal, [zh_animal; zh_dog; zh_cat; zh_bird; zh_wildlife]);
   (zh_landscape, [zh_landscape; zh_nature; zh_tree; zh_outdoor; zh_cityscape]);
   (zh_building, [zh_building; zh_cityscape]);
   (zh_food, [zh_food]);
   (zh_other, [])].

Fixpoint firstCategory (tags : list jsstring) (cats : list (jsstring * list jsstring)) : option jsstring :=
  match cats with
  | [] => None
  | (category, keywords) :: cats' =>
      if existsb (array_includes tags) keywords then Some category else firstCategory tags cats'
  end.

Definition _categorizeImage (tags : list jsstring) : jsstring :=
  match firstCategory tags categories with Some c => c | None => zh_other end.

(** [new Set(xs).size]. *)
Definition set_size (xs : list jsstring) : nat := length (fold_left (fun s t => set_add t s) xs []).

Definition _calculateComplexity (tags : list jsstring) : Q :=
  let tagCount := length tags in
  let uniqueCategories := set_size (map (fun tag => _categorizeImage [tag]) tags) in
  let countScore := Qmin (inject_Z (Z.of_nat tagCount) / 10) 1 in
  let diversityScore := Qmin (inject_Z (Z.of_nat uniqueCategories) / 5) 1 in
  (countScore + diversityScore) / 2.

Record Features := mkFeatures {
  aspectRatio : jsratio;
  orientation : jsstring;
  resolution : nat;
  category : jsstring;
  complexity : Q
}.

Definition _analyzeImageFeatures (width height : nat) (tags : list jsstring) : Features :=
  let r := divide width height in
  mkFeatures r (orientationOf r) (width * height) (_categorizeImage tags) (_calculateComplexity tags).

(** ** Results *)

(** The [imageFile] argument ([File]): [imageFile?.name], [imageFile?.size]. *)
Record ImageFile := mkImageFile { name : jsstring; size : nat }.

(** What [_performAnalysis] returns: the model outputs and
    [metadata: {timestamp, imageSize: {width, height}}]. *)
Record RawResult := mkRaw {
  raw_classifications : list Prediction;
  raw_detections : list Prediction;
  raw_timestamp : Z;
  naturalWidth : nat;
  naturalHeight : nat
}.

(** The [metadata] object of a result; [None] is a property that is
    absent ([undefined]). *)
Record Metadata := mkMetadata {
  md_timestamp : Z;
  md_imageSize : option (nat * nat);
  md_fileName : option jsstring;
  md_fileSize : option nat;
  md_processingVersion : option jsstring;
  md_error : option jsstring;
  md_fallback : option bool
}.

(** An analysis result object; [analysisTime] is the property
    [_processTask] adds after caching. *)
Record AnalysisResult := mkResult {
  res_confidence : R;
  smartTags : list jsstring;
  description : jsstring;
  features : Features;
  classifications : list Prediction;
  detections : list Prediction;
  metadata : Metadata;
  analysisTime : option Z
}.

Definition _postProcessResult (confidenceThreshold : Q) (raw : RawResult) (imageFile : option ImageFile)
    : AnalysisResult :=
  let filteredClassifications := filterByThreshold confidenceThreshold (raw_classifications raw) in
  let filteredDetections := filterByThreshold confidenceThreshold (raw_detections raw) in
  let tags := _generateSmartTags filteredClassifications filteredDetections in
  let overallConfidence := _calculateOverallConfidence filteredClassifications filteredDetections in
  let desc := _generateDescription filteredClassifications filteredDetections in
  let feats := _analyzeImageFeatures (naturalWidth raw) (naturalHeight raw) tags in
  mkResult overallConfidence tags desc feats filteredClassifications filteredDetections
    (mkMetadata (raw_timestamp raw) (Some (naturalWidth raw, naturalHeight raw))
       (name <$> imageFile) (size <$> imageFile) (Some (js "1.0.0")) None None)
    None.

Definition _createFallbackResult (imageFile : option ImageFile) (err : js_error) (now : Z) : AnalysisResult :=
  mkResult 0%R [zh_image] zh_cannot_analyze
    (mkFeatures (RFin 1) (js "unknown") 0 zh_other 0)
    [] []
    (mkMetadata now None (name <$> imageFile) (size <$> imageFile) None (Some (message err)) (Some true))
    None.

(** ** Lemmas on tags *)

(** A tag list as [Array.from(tags)] yields it: no duplicate, no empty tag. *)
Definition tags_wf (tags : list jsstring) : Prop := NoDup tags /\ [] ∉ tags.

Lemma set_add_elem (x y : jsstring) (s : list jsstring) : y ∈ set_add x s <-> y = x \/ y ∈ s.
Proof.
  unfold set_add. case_bool_decide.
  - split; [auto|]. intros [->|]; done.
  - rewrite elem_of_app, list_elem_of_singleton. tauto.
Qed.

Lemma set_add_wf (x : jsstring) (s : list jsstring) : x <> [] -> tags_wf s -> tags_wf (set_add x s).
Proof.
  intros Hx [Hnd Hne]. unfold set_add. case_bool_decide; [done|]. split.
  - apply list.NoDup_app. repeat split; [done| |apply list.NoDup_singleton].
    intros y Hy ->%list_elem_of_singleton. done.
  - rewrite elem_of_app, list_elem_of_singleton. intros [|]; [done|congruence].
Qed.

Lemma addCleanLabels_wf (items : list Prediction) (tags : list jsstring) :
  tags_wf tags -> tags_wf (addCleanLabels items tags).
Proof.
  revert tags. induction items as [|it items IH]; intros tags Hwf; simpl; [done|].
  apply IH. destruct (_cleanLabel (label it)) eqn:E; [done|]. by apply set_add_wf.
Qed.

Lemma combinedTags_nonempty (tags : list jsstring) : [] ∉ _generateCombinedTags tags.
Proof.
  unfold _generateCombinedTags.
  repeat case_match; simpl; apply (bool_decide_unpack _); vm_compute; reflexivity.
Qed.

Lemma fold_set_add_wf (xs tags : list jsstring) :
  [] ∉ xs -> tags_wf tags -> tags_wf (fold_left (fun s t => set_add t s) xs tags).
Proof.
  revert tags. induction xs as [|x xs IH]; intros tags Hxs Hwf; simpl; [done|].
  rewrite not_elem_of_cons in Hxs. destruct Hxs as [Hx Hxs].
  apply IH; [done|]. apply set_add_wf; [congruence|done].
Qed.

Lemma take_wf (n : nat) (tags : list jsstring) : tags_wf tags -> tags_wf (take n tags).
Proof.
  intros [Hnd Hne]. split.
  - eapply sublist_NoDup; [exact Hnd|apply sublist_take].
  - intros Hin. apply Hne. by apply (subseteq_take n).
Qed.

(** ** Lemmas on the confidence *)

Lemma rankWeight_pos (i : nat) : (0 < rankWeight i)%R.
Proof. apply exp_pos. Qed.

Lemma reduce_weighted (acc : R) (i : nat) (l : list Prediction) :
  reduce_idx (fun sum item index => sum + Q2R (confidence item) * rankWeight index)%R acc i l =
  (acc + weighted_sum i l)%R.
Proof. revert acc i. induction l as [|x l IH]; intros acc i; simpl; [lra|]. rewrite IH. lra. Qed.

Lemma reduce_weights (acc : R) (i : nat) (l : list Prediction) :
  reduce_idx (fun sum (_ : Prediction) index => sum + rankWeight index)%R acc i l = (acc + weight_sum i l)%R.
Proof. revert acc i. induction l as [|x l IH]; intros acc i; simpl; [lra|]. rewrite IH. lra. Qed.

Lemma weight_sum_pos (i : nat) (l : list Prediction) : l <> [] -> (0 < weight_sum i l)%R.
Proof.
  revert i. induction l as [|x l IH]; intros i Hl; [done|]. simpl.
  pose proof (rankWeight_pos i). destruct l as [|y l]; [simpl; lra|].
  pose proof (IH (S i) ltac:(discriminate)). lra.
Qed.

(** The weighted sum lies between [lo] and [hi] times the total weight. *)
Lemma weighted_sum_bounds (lo hi : R) (i : nat) (l : list Prediction) :
  Forall (fun it => lo <= Q2R (confidence it) <= hi)%R l ->
  (lo * weight_sum i l <= weighted_sum i l <= hi * weight_sum i l)%R.
Proof.
  revert i. induction l as [|x l IH]; intros i Hl; simpl; [lra|].
  apply Forall_cons in Hl as [[Hlo Hhi] Hl]. destruct (IH (S i) Hl) as [IH1 IH2].
  pose proof (rankWeight_pos i). split; nra.
Qed.

(** The reduction computes the weighted average of [spec_confidence]. *)
Lemma calculate_confidence_eq (classifications detections : list Prediction) :
  _calculateOverallConfidence classifications detections =
    spec_confidence (classifications ++ detections).
Proof.
  unfold _calculateOverallConfidence, spec_confidence.
  destruct (classifications ++ detections) as [|x l] eqn:E; [done|].
  rewrite reduce_weighted, reduce_weights, !Rplus_0_l.
  destruct (Rlt_dec 0 (weight_sum 0 (x :: l))) as [|Hn]; [done|].
  exfalso. apply Hn, weight_sum_pos. discriminate.
Qed.

(** A single surviving prediction gives exactly its own confidence. *)
Lemma overallConfidence_single (p : Prediction) :
  _calculateOverallConfidence [p] [] = Q2R (confidence p).
Proof.
  rewrite calculate_confidence_eq. unfold spec_confidence. simpl.
  pose proof (rankWeight_pos 0). field. lra.
Qed.

(** ** Properties *)

(** C33: the tags of a result are at most ten, pairwise distinct and never
    the empty string, whatever the models returned. *)
Theorem smartTags_wellformed (classifications detections : list Prediction) :
  let tags := _generateSmartTags classifications detections in
  length tags <= 10 /\ NoDup tags /\ [] ∉ tags.
Proof.
  unfold _generateSmartTags. simpl. split; [apply length_take_le|].
  apply take_wf, fold_set_add_wf; [apply combinedTags_nonempty|].
  apply addCleanLabels_wf, addCleanLabels_wf. split; [constructor|apply not_elem_of_nil].
Qed.

(** [_cleanLabel] maps a label to the first translation whose English
    key occurs anywhere in it, as a substring: [dog] becomes 狗 as intended,
    but ImageNet's [street sign] becomes 树木 (tree), [hotdog, hot dog, red
    hot] becomes 狗 (dog) and [carton] becomes 汽车 (car); a label with no
    key keeps its letters, trimmed. *)
Theorem cleanLabel_substring_match :
  _cleanLabel (js "dog") = zh_dog /\
  _cleanLabel (js "street sign") = zh_tree /\
  _cleanLabel (js "hotdog, hot dog, red hot") = zh_dog /\
  _cleanLabel (js "carton") = zh_car /\
  _cleanLabel (js " Golden retriever 2 ") = js "Golden retriever".
Proof. vm_compute. repeat split. Qed.

(** [_calculateOverallConfidence] computes the spec's rank-weighted
    average of the concatenated classifications and detections: the sum of
    [c_i * exp(-0.1 i)] over the sum of [exp(-0.1 i)], and [0] for no
    result. *)
Theorem overallConfidence_spec (classifications detections : list Prediction) :
  _calculateOverallConfidence classifications detections =
    spec_confidence (classifications ++ detections).
Proof. apply calculate_confidence_eq. Qed.

(** the overall confidence is a weighted average: when every filtered
    confidence lies in [[lo, hi]] with [lo <= 0 <= hi] (for the case with no
    result), so does the overall confidence; with confidences in [[0, 1]]
    it is in [[0, 1]]. *)
Theorem overallConfidence_bounds (lo hi : R) (classifications detections : list Prediction) :
  (lo <= 0 <= hi)%R ->
  Forall (fun it => lo <= Q2R (confidence it) <= hi)%R (classifications ++ detections) ->
  (lo <= _calculateOverallConfidence classifications detections <= hi)%R.
Proof.
  intros H0 Hall. rewrite calculate_confidence_eq. unfold spec_confidence.
  destruct (classifications ++ detections) as [|x l] eqn:E; [lra|].
  pose proof (weight_sum_pos 0 (x :: l) ltac:(discriminate)) as Hpos.
  destruct (weighted_sum_bounds lo hi 0 (x :: l) Hall) as [Hl Hh].
  split.
  - apply Rmult_le_reg_r with (weight_sum 0 (x :: l)); [lra|].
    unfold Rdiv. rewrite Rmult_assoc, Rinv_l, Rmult_1_r; lra.
  - apply Rmult_le_reg_r with (weight_sum 0 (x :: l)); [lra|].
    unfold Rdiv. rewrite Rmult_assoc, Rinv_l, Rmult_1_r; lra.
Qed.

Lemma overallConfidence_bounds_witness :
  let p := mkPrediction (js "dog") (4 # 5) (js "mobilenet") None in
  (0 <= _calculateOverallConfidence [p] [p] <= 1)%R.
Proof.
  apply overallConfidence_bounds; [lra|].
  simpl. apply Forall_cons; split; [|apply Forall_cons; split; [|apply Forall_nil]];
    unfold Q2R; simpl; lra.
Defined.

(** the description lists the first three distinct detected labels
    in order of first appearance, not the three most frequent ones as the
    spec says: with detections [cat, dog, dog, bird, person, person,
    person], the description is 图中包含猫、2个狗、鸟 and the most frequent
    label, [person], is left out. *)
Theorem description_first_three_not_most_frequent :
  let d l := mkPrediction l (9 # 10) (js "coco-ssd") (Some []) in
  _generateDescription []
    [d (js "cat"); d (js "dog"); d (js "dog"); d (js "bird"); d (js "person"); d (js "person");
     d (js "person")] =
  zh_contains ++ zh_cat ++ zh_enum_comma ++ js "2" ++ zh_ge ++ zh_dog ++ zh_enum_comma ++ zh_bird.
Proof. vm_compute. reflexivity. Qed.

Lemma Qmin_unit (a : Q) : (0 <= a -> 0 <= Qmin a 1 <= 1)%Q.
Proof.
  intros Ha. destruct (Q.min_spec a 1) as [[H E]|[H E]]; rewrite E.
  - split; [done|by apply Qlt_le_weak].
  - split; discriminate.
Qed.

Lemma nat_div_nonneg (n : nat) (d : Z) : (0 < d)%Z -> (0 <= inject_Z (Z.of_nat n) / inject_Z d)%Q.
Proof.
  intros Hd. apply Qle_shift_div_l; [unfold Qlt; simpl; lia|].
  rewrite Qmult_0_l. unfold Qle; simpl. lia.
Qed.

(** the complexity score of any tag list is in [[0, 1]]. *)
Theorem complexity_bounds (tags : list jsstring) :
  (0 <= _calculateComplexity tags <= 1)%Q.
Proof.
  unfold _calculateComplexity.
  pose proof (Qmin_unit _ (nat_div_nonneg (length tags) 10 ltac:(lia))) as [H1 H2].
  pose proof (Qmin_unit _ (nat_div_nonneg (set_size (map (fun tag => _categorizeImage [tag]) tags)) 5
                ltac:(lia))) as [H3 H4].
  split.
  - apply Qle_shift_div_l; [reflexivity|]. rewrite Qmult_0_l.
    apply (Qle_trans _ (0 + 0)); [discriminate|]. by apply Qplus_le_compat.
  - apply Qle_shift_div_r; [reflexivity|].
    apply (Qle_trans _ (1 + 1)); [by apply Qplus_le_compat|discriminate].
Qed.

Lemma divide_pos (w h : nat) :
  0 < h -> divide w h = RFin (inject_Z (Z.of_nat w) / inject_Z (Z.of_nat h)).
Proof. intros Hh. unfold divide. destruct h; [lia|done]. Qed.

Lemma ratio_gt_iff (w h : nat) :
  0 < h -> ((6 # 5) < inject_Z (Z.of_nat w) / inject_Z (Z.of_nat h))%Q <-> 6 * h < 5 * w.
Proof.
  intros Hh. destruct h as [|h]; [lia|].
  assert (E : Z.of_nat (S h) = Z.pos (Pos.of_succ_nat h)) by (rewrite Zpos_P_of_succ_nat; lia).
  unfold Qlt, Qdiv, Qinv, Qmult, inject_Z. rewrite E. simpl. lia.
Qed.

Lemma ratio_lt_iff (w h : nat) :
  0 < h -> (inject_Z (Z.of_nat w) / inject_Z (Z.of_nat h) < (4 # 5))%Q <-> 5 * w < 4 * h.
Proof.
  intros Hh. destruct h as [|h]; [lia|].
  assert (E : Z.of_nat (S h) = Z.pos (Pos.of_succ_nat h)) by (rewrite Zpos_P_of_succ_nat; lia).
  unfold Qlt, Qdiv, Qinv, Qmult, inject_Z. rewrite E. simpl. lia.
Qed.

(** for a non-empty height, [_analyzeImageFeatures] classifies the
    orientation by integer comparisons: landscape when [5 w > 6 h],
    portrait when [5 w < 4 h], square otherwise. *)
Theorem orientation_thresholds (width height : nat) (tags : list jsstring) :
  0 < height ->
  orientation (_analyzeImageFeatures width height tags) =
    if 6 * height <? 5 * width then js "landscape"
    else if 5 * width <? 4 * height then js "portrait" else js "square".
Proof.
  intros Hh. unfold _analyzeImageFeatures. cbn [orientation]. rewrite divide_pos by done.
  unfold orientationOf.
  destruct (Qlt_bool (6 # 5) _) eqn:E1; [apply Qlt_bool_spec, ratio_gt_iff in E1; [|done]|].
  - by rewrite (proj2 (Nat.ltb_lt _ _) E1).
  - assert (N1 : ~ 6 * height < 5 * width).
    { rewrite <- ratio_gt_iff by done. rewrite <- Qlt_bool_spec. congruence. }
    replace (6 * height <? 5 * width) with false by (symmetry; apply Nat.ltb_ge; lia).
    destruct (Qlt_bool _ (4 # 5)) eqn:E2; [apply Qlt_bool_spec, ratio_lt_iff in E2; [|done]|].
    + by rewrite (proj2 (Nat.ltb_lt _ _) E2).
    + assert (N2 : ~ 5 * width < 4 * height).
      { rewrite <- ratio_lt_iff by done. rewrite <- Qlt_bool_spec. congruence. }
      by replace (5 * width <? 4 * height) with false by (symmetry; apply Nat.ltb_ge; lia).
Qed.

Lemma orientation_thresholds_witness :
  orientation (_analyzeImageFeatures 1920 1080 []) = js "landscape".
Proof. rewrite orientation_thresholds; [reflexivity|lia]. Defined.

End PostProcess.
