(* ===== verification/Pipeline.v ===== *)
(** * The analysis pipeline of [EnhancedAIEngine]

    [src/src/js/aiEngine.js]: [analyzeImage] computes a cache key
    ([_generateCacheKey]), answers from [analysisCache] on a hit, and
    otherwise queues a task that [_processTask] runs: [_performAnalysis]
    calls the loaded models (a model that throws contributes nothing),
    [_postProcessResult] builds the result, [_cacheResult] stores it, the
    task sets [analysisTime] on the stored object and resolves the caller;
    any exception on the way resolves the caller with
    [_createFallbackResult] instead.

    The models are outside the program: [ModelEnv] gives, for one task,
    which models are loaded and what each call returns or throws.  A task
    is run here in isolation (the interleaving of tasks is [Scheduler]'s
    subject); [analyzeSequential] is [analyzeImage] when no other task for
    the same key is in flight.

    The theorems: named files get distinct cache keys (a parse of the key
    recovers name and size); with the repository's wiring every fresh
    analysis resolves to the fallback result while the cache keeps the
    real one, so the same image yields different results on a first and a
    second call; and with a working durable tier the spec's end-to-end
    scenario holds but its "all models throw" case does not flag the
    result as a fallback. *)

From Stdlib Require Import QArith Reals Lra.
From S2P Require Import Prelude JsMap AnalysisCache PostProcess.
Import PostProcess.

Module Pipeline.

(** ** Cache keys *)

(** [`file:${imageFile.name}:${imageFile.size}`] for a file with a
    non-empty name, [`url:${StringUtils.generateId()}`] otherwise; the
    random id is an input ([freshId]).  Sizes render in decimal (JS uses
    no exponent below 10^21). *)
Definition _generateCacheKey (imageFile : option ImageFile) (freshId : jsstring) : jsstring :=
  match imageFile with
  | Some f =>
      match name f with
      | [] => js "url:" ++ freshId
      | n => js "file:" ++ n ++ js ":" ++ nat_to_jsstring (size f)
      end
  | None => js "url:" ++ freshId
  end.

(** Reading a key back: the name is what lies between [file:] and the last
    [:], the size the decimal number after it. *)
Fixpoint split_at_colon (r : jsstring) : jsstring * option jsstring :=
  match r with
  | [] => ([], None)
  | c :: r' =>
      if Z.eqb c 58 then ([], Some r')
      else let '(d, rest) := split_at_colon r' in (c :: d, rest)
  end.

Fixpoint lsb_value (ds : jsstring) : option nat :=
  match ds with
  | [] => Some 0
  | d :: ds' =>
      if (48 <=? d)%Z && (d <=? 57)%Z
      then n ← lsb_value ds'; Some (Z.to_nat (d - 48) + 10 * n)
      else None
  end.

Definition parseFileKey (key : jsstring) : option (jsstring * nat) :=
  match stripPrefix (js "file:") key with
  | None => None
  | Some rest =>
      let '(digits_rev, name_rev) := split_at_colon (rev rest) in
      match name_rev, digits_rev with
      | Some nr, _ :: _ => n ← lsb_value digits_rev; Some (rev nr, n)
      | _, _ => None
      end
  end.

(** ** Running one task *)

(** What the models do for one task: which are loaded
    ([this.tensorflowManager.models.mobilenet] / [.cocoSsd]) and what
    [classifyImage] / [detectObjects] return ([inr]) or throw ([inl]). *)
Record ModelEnv := mkModelEnv {
  mobilenetLoaded : bool;
  cocoSsdLoaded : bool;
  classifyOutcome : js_error + list Prediction;
  detectOutcome : js_error + list Prediction
}.

(** The [imageElement] of a task: its natural size, or [None] when the
    caller passed no element. *)
Definition ImageElement := option (nat * nat).

(** The contribution of one model: nothing when it is not loaded or when
    its call throws ([.catch] only logs). *)
Definition modelContribution (loaded : bool) (outcome : js_error + list Prediction) : list Prediction :=
  if loaded then match outcome with inr l => l | inl _ => [] end else [].

Definition naturalWidth_error : js_error :=
  TypeError (js "Cannot read properties of undefined (reading 'naturalWidth')").

(** [_performAnalysis(imageElement)]: reading [imageElement.naturalWidth]
    throws on a missing element; otherwise never throws. *)
Definition _performAnalysis (env : ModelEnv) (imageElement : ImageElement) (now : Z)
    : js_error + RawResult :=
  match imageElement with
  | None => inl naturalWidth_error
  | Some (w, h) =>
      inr (mkRaw (modelContribution (mobilenetLoaded env) (classifyOutcome env))
                 (modelContribution (cocoSsdLoaded env) (detectOutcome env)) now w h)
  end.

(** [processedResult.analysisTime = analysisTime] on the object the cache
    also holds. *)
Definition withAnalysisTime (r : AnalysisResult) (t : Z) : AnalysisResult :=
  mkResult (res_confidence r) (smartTags r) (description r) (features r)
    (classifications r) (detections r) (metadata r) (Some t).

(** [_processTask(task)]: the cache after the task and the value passed
    to [resolve].  On the success path the cached entry and the resolved
    value are one object, so the [analysisTime] written after caching
    shows in the cache too. *)
Definition _processTask (tier : AnalysisCache.durable_tier) (confidenceThreshold : Q) (env : ModelEnv)
    (imageFile : option ImageFile) (imageElement : ImageElement) (cacheKey : jsstring)
    (st : AnalysisCache.state AnalysisResult) (now elapsed : Z)
    : AnalysisCache.state AnalysisResult * AnalysisResult :=
  match _performAnalysis env imageElement now with
  | inl err => (st, _createFallbackResult imageFile err now)
  | inr raw =>
      let processed := _postProcessResult confidenceThreshold raw imageFile in
      match AnalysisCache._cacheResult tier cacheKey processed st with
      | (st', Some err) => (st', _createFallbackResult imageFile err now)
      | (st', None) =>
          let final := withAnalysisTime processed elapsed in
          (AnalysisCache.mkState (JsMap.set cacheKey final (AnalysisCache.analysisCache st'))
             (AnalysisCache.maxCacheSize st'), final)
      end
  end.

(** [analyzeImage] when no other task for the key is in flight: a cache
    hit answers at once, a miss runs the task. *)
Definition analyzeSequential (tier : AnalysisCache.durable_tier) (confidenceThreshold : Q)
    (env : ModelEnv) (imageFile : option ImageFile) (imageElement : ImageElement) (freshId : jsstring)
    (st : AnalysisCache.state AnalysisResult) (now elapsed : Z)
    : AnalysisCache.state AnalysisResult * AnalysisResult :=
  let cacheKey := _generateCacheKey imageFile freshId in
  match AnalysisCache.lookupCached cacheKey st with
  | Some cached => (st, cached)
  | None => _processTask tier confidenceThreshold env imageFile imageElement cacheKey st now elapsed
  end.

(** ** Lemmas on keys *)

Lemma split_at_colon_app (D R : jsstring) :
  Forall (fun c => c <> 58%Z) D -> split_at_colon (D ++ 58%Z :: R) = (D, Some R).
Proof.
  induction 1 as [|c D Hc HD IH]; simpl; [done|].
  rewrite IH. by destruct (Z.eqb_spec c 58).
Qed.

Lemma lsb_value_digits (ds : jsstring) :
  Forall (fun c => (48 <= c <= 57)%Z) ds ->
  lsb_value ds = Some (fold_right (fun d acc => Z.to_nat (d - 48) + 10 * acc) 0 ds).
Proof.
  induction 1 as [|d ds Hd HD IH]; simpl; [done|].
  replace ((48 <=? d)%Z && (d <=? 57)%Z) with true by (symmetry; apply andb_true_iff; lia).
  by rewrite IH.
Qed.

Lemma fileKey_shape (f : ImageFile) (freshId : jsstring) :
  name f <> [] ->
  _generateCacheKey (Some f) freshId = js "file:" ++ name f ++ [58%Z] ++ nat_to_jsstring (size f).
Proof. unfold _generateCacheKey. by destruct (name f). Qed.

(** ** Lemmas on tasks *)

Lemma processTask_raw (tier : AnalysisCache.durable_tier) (thr : Q) (env : ModelEnv)
    (file : option ImageFile) (w h : nat) (key : jsstring) (st : AnalysisCache.state AnalysisResult)
    (now el : Z) :
  let raw := mkRaw (modelContribution (mobilenetLoaded env) (classifyOutcome env))
                   (modelContribution (cocoSsdLoaded env) (detectOutcome env)) now w h in
  let processed := _postProcessResult thr raw file in
  let st' := fst (AnalysisCache._cacheResult tier key processed st) in
  _processTask tier thr env file (Some (w, h)) key st now el =
    match tier with
    | AnalysisCache.DurableAbsent => (st', _createFallbackResult file AnalysisCache.aiCache_type_error now)
    | AnalysisCache.DurablePresent =>
        (AnalysisCache.mkState (JsMap.set key (withAnalysisTime processed el) (AnalysisCache.analysisCache st'))
           (AnalysisCache.maxCacheSize st'), withAnalysisTime processed el)
    end.
Proof. by destruct tier. Qed.

Lemma cached_after_absent_task (thr : Q) (env : ModelEnv) (file : option ImageFile) (w h : nat)
    (key : jsstring) (st : AnalysisCache.state AnalysisResult) (now el : Z) :
  AnalysisCache.lookupCached key (fst (_processTask AnalysisCache.engine_durable_tier thr env file (Some (w, h)) key st now el)) =
    Some (_postProcessResult thr (mkRaw (modelContribution (mobilenetLoaded env) (classifyOutcome env))
            (modelContribution (cocoSsdLoaded env) (detectOutcome env)) now w h) file).
Proof.
  rewrite processTask_raw. simpl. rewrite AnalysisCache.lookupCached_get. apply JsMap.get_set_eq.
Qed.

(** ** Properties *)

(** round trip of the analysis cache key: the key of a file with a
    non-empty name reads back as that name and size, even when the name
    contains [:]; so two files share a key only if they have the same
    name and size. *)
Theorem cacheKey_roundtrip (f : ImageFile) (freshId : jsstring) :
  name f <> [] -> parseFileKey (_generateCacheKey (Some f) freshId) = Some (name f, size f).
Proof.
  intros Hn. rewrite fileKey_shape by done. unfold parseFileKey.
  rewrite stripPrefix_app. rewrite !rev_app_distr. simpl. rewrite <- app_assoc. simpl.
  pose proof (nat_to_jsstring_digits (size f)) as Hd.
  rewrite split_at_colon_app.
  2:{ apply Forall_rev. eapply Forall_impl; [exact Hd|]. simpl. lia. }
  destruct (rev (nat_to_jsstring (size f))) as [|c cs] eqn:E.
  - exfalso. apply (nat_to_jsstring_nonempty (size f)).
    apply (f_equal (@rev Z)) in E. by rewrite rev_involutive in E.
  - rewrite <- E, lsb_value_digits by (by apply Forall_rev).
    unfold nat_to_jsstring. rewrite !rev_involutive, digits_rev_fuel_value by lia.
    reflexivity.
Qed.

Lemma cacheKey_roundtrip_witness :
  parseFileKey (_generateCacheKey (Some (mkImageFile (js "a:b.jpg") 2048)) []) =
    Some (js "a:b.jpg", 2048).
Proof. apply cacheKey_roundtrip. discriminate. Defined.

(** C5: with the repository's wiring ([storageManager]'s default export
    has no [specializedStorage]), every task whose image element exists
    stores its real result in [analysisCache] and then resolves the caller
    with the fallback result (fallback flag set, confidence 0), whatever
    the models returned. *)
Theorem processTask_repository_resolves_fallback (thr : Q) (env : ModelEnv) (file : option ImageFile)
    (w h : nat) (key : jsstring) (st : AnalysisCache.state AnalysisResult) (now el : Z) :
  let '(st', r) := _processTask AnalysisCache.engine_durable_tier thr env file (Some (w, h)) key st now el in
  md_fallback (metadata r) = Some true /\ res_confidence r = 0%R /\
  md_error (metadata r) = Some (message AnalysisCache.aiCache_type_error) /\
  AnalysisCache.lookupCached key st' =
    Some (_postProcessResult thr (mkRaw (modelContribution (mobilenetLoaded env) (classifyOutcome env))
            (modelContribution (cocoSsdLoaded env) (detectOutcome env)) now w h) file).
Proof.
  pose proof (cached_after_absent_task thr env file w h key st now el) as Hc.
  rewrite processTask_raw in Hc |- *. simpl in *. auto.
Qed.

(** consequently the same named image analysed twice in a row gets
    two different answers: the first call resolves the fallback result, the
    second is a cache hit and resolves the real post-processed result. *)
Theorem analyze_twice_differs (thr : Q) (env : ModelEnv) (f : ImageFile) (w h : nat)
    (id1 id2 : jsstring) (st : AnalysisCache.state AnalysisResult) (now1 now2 el1 el2 : Z) :
  name f <> [] -> AnalysisCache.lookupCached (_generateCacheKey (Some f) id1) st = None ->
  let '(st1, r1) := analyzeSequential AnalysisCache.engine_durable_tier thr env (Some f) (Some (w, h)) id1 st now1 el1 in
  let '(_, r2) := analyzeSequential AnalysisCache.engine_durable_tier thr env (Some f) (Some (w, h)) id2 st1 now2 el2 in
  md_fallback (metadata r1) = Some true /\ md_fallback (metadata r2) = None /\
  r2 = _postProcessResult thr (mkRaw (modelContribution (mobilenetLoaded env) (classifyOutcome env))
          (modelContribution (cocoSsdLoaded env) (detectOutcome env)) now1 w h) (Some f).
Proof.
  intros Hn Hmiss. unfold analyzeSequential. rewrite Hmiss. cbv beta iota zeta.
  assert (Hk : _generateCacheKey (Some f) id2 = _generateCacheKey (Some f) id1)
    by (rewrite !fileKey_shape by done; reflexivity).
  pose proof (cached_after_absent_task thr env (Some f) w h (_generateCacheKey (Some f) id1) st now1 el1) as Hc.
  destruct (_processTask _ _ _ _ _ _ _ _ _) as [st1 r1] eqn:E.
  cbn [fst] in Hc. rewrite Hk, Hc.
  pose proof (processTask_raw AnalysisCache.engine_durable_tier thr env (Some f) w h
                (_generateCacheKey (Some f) id1) st now1 el1) as Hr.
  rewrite E in Hr. injection Hr as _ ->. auto.
Qed.

Lemma analyze_twice_differs_witness :
  let env := mkModelEnv true false (inr [mkPrediction (js "dog") (4 # 5) (js "mobilenet") None]) (inr []) in
  let f := mkImageFile (js "dog.jpg") 1000 in
  let '(st1, r1) := analyzeSequential AnalysisCache.engine_durable_tier (3 # 10) env (Some f) (Some (800, 600)) [] (AnalysisCache.init 100) 0 5 in
  let '(_, r2) := analyzeSequential AnalysisCache.engine_durable_tier (3 # 10) env (Some f) (Some (800, 600)) [] st1 1 5 in
  md_fallback (metadata r1) = Some true /\ md_fallback (metadata r2) = None /\
  r2 = _postProcessResult (3 # 10) (mkRaw (modelContribution (mobilenetLoaded env) (classifyOutcome env))
          (modelContribution (cocoSsdLoaded env) (detectOutcome env)) 0 800 600) (Some f).
Proof. apply analyze_twice_differs; [discriminate|reflexivity]. Defined.

(** with a working durable tier, a task on which every model is
    missing or throws resolves a result with confidence 0, no tag and the
    plain description, but it is not flagged as a fallback
    ([metadata.fallback] is absent), unlike the result of
    [_createFallbackResult]. *)
Theorem all_models_fail_not_flagged (thr : Q) (env : ModelEnv) (file : option ImageFile)
    (w h : nat) (key : jsstring) (st : AnalysisCache.state AnalysisResult) (now el : Z) :
  modelContribution (mobilenetLoaded env) (classifyOutcome env) = [] ->
  modelContribution (cocoSsdLoaded env) (detectOutcome env) = [] ->
  let r := snd (_processTask AnalysisCache.DurablePresent thr env file (Some (w, h)) key st now el) in
  res_confidence r = 0%R /\ smartTags r = [] /\ description r = zh_plain_image /\
  md_fallback (metadata r) = None /\ md_error (metadata r) = None.
Proof.
  intros H1 H2. cbv zeta. rewrite processTask_raw, H1, H2. cbn [snd].
  unfold withAnalysisTime, _postProcessResult. cbn. unfold _calculateOverallConfidence. cbn.
  repeat split.
Qed.

Lemma all_models_fail_not_flagged_witness :
  let env := mkModelEnv true true (inl (Error (js "classify failed"))) (inl (Error (js "detect failed"))) in
  modelContribution (mobilenetLoaded env) (classifyOutcome env) = [] /\
  modelContribution (cocoSsdLoaded env) (detectOutcome env) = [] /\
  let r := snd (_processTask AnalysisCache.DurablePresent (3 # 10) env None (Some (640, 480)) (js "url:x")
                  (AnalysisCache.init 100) 0 7) in
  res_confidence r = 0%R /\ smartTags r = [] /\ description r = zh_plain_image /\
  md_fallback (metadata r) = None /\ md_error (metadata r) = None.
Proof.
  split; [reflexivity|]. split; [reflexivity|].
  apply (all_models_fail_not_flagged (3 # 10)); reflexivity.
Defined.

(** the spec's end-to-end scenario with a working durable tier: one
    classification [dog] at 0.8 above the 0.3 threshold and no detection
    give the single tag 狗, overall confidence 0.8, no fallback flag, and
    the cache holds exactly the resolved object (analysis time included). *)
Theorem dog_scenario_durable_present (file : option ImageFile) (w h : nat) (key : jsstring)
    (st : AnalysisCache.state AnalysisResult) (now el : Z) :
  let env := mkModelEnv true true (inr [mkPrediction (js "dog") (4 # 5) (js "mobilenet") None]) (inr []) in
  let '(st', r) := _processTask AnalysisCache.DurablePresent (3 # 10) env file (Some (w, h)) key st now el in
  smartTags r = [zh_dog] /\ res_confidence r = Q2R (4 # 5) /\ md_fallback (metadata r) = None /\
  analysisTime r = Some el /\ AnalysisCache.lookupCached key st' = Some r.
Proof.
  cbv zeta. rewrite processTask_raw. cbv beta iota zeta.
  rewrite AnalysisCache.lookupCached_get. cbn [AnalysisCache.analysisCache].
  rewrite JsMap.get_set_eq. unfold withAnalysisTime, _postProcessResult.
  cbn [res_confidence smartTags metadata md_fallback analysisTime].
  split; [vm_compute; reflexivity|]. split; [|repeat split].
  cbn [modelContribution mobilenetLoaded classifyOutcome cocoSsdLoaded detectOutcome raw_classifications raw_detections].
  replace (filterByThreshold (3 # 10) [mkPrediction (js "dog") (4 # 5) (js "mobilenet") None])
    with [mkPrediction (js "dog") (4 # 5) (js "mobilenet") None] by reflexivity.
  replace (filterByThreshold (3 # 10) []) with (@nil Prediction) by reflexivity.
  rewrite (overallConfidence_single (mkPrediction (js "dog") (4 # 5) (js "mobilenet") None)). reflexivity.
Qed.

End Pipeline.
