(* ===== verification/StorageCache.v ===== *)
(** * The storage layer: adapters and the [StorageManager] read cache

    [src/src/js/storageManager.js]: [StorageAdapter] is the interface of
    the three adapters ([LocalStorageAdapter] and [SessionStorageAdapter]
    over a Web Storage area, [MemoryStorageAdapter] over a [Map]);
    [StorageManager] dispatches [get]/[set]/[remove]/[clear]/[has]/[keys]
    to an adapter by name and keeps a read cache [this.cache] of at most
    [maxCacheSize] entries, each [{value: deepClone(v), timestamp}],
    evicted in insertion order and expired after [cacheTimeout]
    ([CONFIG.STORAGE.CACHE_EXPIRY], 24 h) by [get] and by [_cleanupCache].

    The interface is the class [StorageAdapter]; each adapter is an
    [Instance].  A Web Storage area stores the string [JSON.stringify(v)];
    it is modelled by what [JSON.parse] gives back ([JsValue.json_rt]),
    [None] standing for the text ["undefined"] that [setItem] stores for
    [undefined] and that [JSON.parse] rejects.  The manager's operations
    take the time [Date.now()] as an argument [now] and record the
    ['storage:changed'] events they emit. *)

From S2P Require Import Prelude JsMap JsValue.
Import JsValue.

Module StorageCache.

(** [TimeUtils.isExpired(timestamp, expiry)]: [Date.now() - timestamp > expiry]. *)
Definition isExpired (now timestamp expiry : Z) : bool := (expiry <? now - timestamp)%Z.

(** [CONFIG.STORAGE.CACHE_EXPIRY]. *)
Definition CACHE_EXPIRY : Z := (24 * 60 * 60 * 1000)%Z.

(** ** The adapter interface *)

Class StorageAdapter (A : Type) := {
  adapter_get : jsstring -> A -> jsval;
  adapter_set : jsstring -> jsval -> A -> A * bool;
  adapter_remove : jsstring -> A -> A * bool;
  adapter_clear : A -> A * bool;
  adapter_keys : A -> list jsstring
}.

(** A Web Storage area behind [LocalStorageAdapter] (and
  [SessionStorageAdapter], which only changes the area): [available] is
  the result of [_checkAvailability()]. *)
Record WebStore := mkWeb {
  available : bool;
  items : JsMap.t jsstring (option jsval)
}.

Definition web_get (key : jsstring) (w : WebStore) : jsval :=
  if available w then
    match JsMap.get key (items w) with
    | Some (Some v) => v
    | _ => JNull
    end
  else JNull.

Definition web_set (key : jsstring) (value : jsval) (w : WebStore) : WebStore * bool :=
  if available w then (mkWeb true (JsMap.set key (json_rt value) (items w)), true) else (w, false).

Definition web_remove (key : jsstring) (w : WebStore) : WebStore * bool :=
  if available w then (mkWeb true (JsMap.delete key (items w)), true) else (w, false).

Definition web_clear (w : WebStore) : WebStore * bool :=
  if available w then (mkWeb true JsMap.empty, true) else (w, false).

Definition web_keys (w : WebStore) : list jsstring :=
  if available w then JsMap.keys (items w) else [].

#[export] Instance LocalStorageAdapter : StorageAdapter WebStore :=
  {| adapter_get := web_get; adapter_set := web_set; adapter_remove := web_remove;
     adapter_clear := web_clear; adapter_keys := web_keys |}.

(** [MemoryStorageAdapter]: [this.data], a [Map]. *)
Definition MemStore := JsMap.t jsstring jsval.

(** [this.data.get(key) || null]. *)
Definition mem_get (key : jsstring) (m : MemStore) : jsval :=
  let v := default JUndefined (JsMap.get key m) in
  if falsy v then JNull else v.

Definition mem_set (key : jsstring) (value : jsval) (m : MemStore) : MemStore * bool :=
  (JsMap.set key value m, true).

(** [this.data.delete(key)] returns whether the key was present. *)
Definition mem_remove (key : jsstring) (m : MemStore) : MemStore * bool :=
  (JsMap.delete key m, JsMap.has key m).

Definition mem_clear (m : MemStore) : MemStore * bool := (JsMap.empty, true).

Definition mem_keys (m : MemStore) : list jsstring := JsMap.keys m.

#[export] Instance MemoryStorageAdapter : StorageAdapter MemStore :=
  {| adapter_get := mem_get; adapter_set := mem_set; adapter_remove := mem_remove;
     adapter_clear := mem_clear; adapter_keys := mem_keys |}.

(** What the manager relies on from an adapter: a successful [clear]
  empties it, and a successful [set] makes the key listed by [keys]. *)
Class StorageAdapterLaws (A : Type) `{StorageAdapter A} := {
  adapter_clear_get : forall (x : A) (k : jsstring),
    snd (adapter_clear x) = true -> adapter_get k (fst (adapter_clear x)) = JNull;
  adapter_set_keys : forall (x : A) (k : jsstring) (v : jsval),
    snd (adapter_set k v x) = true -> k ∈ adapter_keys (fst (adapter_set k v x))
}.

#[export] Instance LocalStorageAdapter_laws : StorageAdapterLaws WebStore.
Proof.
  split.
  - intros [[] items] k; simpl; unfold web_clear, web_get; simpl; done.
  - intros [[] items] k v; simpl; unfold web_set, web_keys; simpl; [|done].
    intros _. apply JsMap.get_Some_in with (json_rt v). apply JsMap.get_set_eq.
Qed.

#[export] Instance MemoryStorageAdapter_laws : StorageAdapterLaws MemStore.
Proof.
  split.
  - done.
  - intros m k v _. simpl. unfold mem_keys. apply JsMap.get_Some_in with v. apply JsMap.get_set_eq.
Qed.

(** ** The manager *)

(** The adapter names callers pass (['local'] is [defaultAdapter]). *)
Inductive adapter_name := local | session | memory.

#[export] Instance adapter_name_eq_dec : EqDecision adapter_name.
Proof. solve_decision. Defined.

Definition adapter_str (a : adapter_name) : jsstring :=
  match a with local => js "local" | session => js "session" | memory => js "memory" end.

(** An entry of [this.cache]. *)
Record cached := mkCached { c_value : jsval; c_timestamp : Z }.

(** The payload of an [eventManager.emit('storage:changed', ...)]. *)
Record storage_event := mkEvent {
  ev_key : option jsstring;
  ev_value : option jsval;
  ev_adapter : adapter_name;
  ev_action : jsstring
}.

Record state := mkState {
  st_local : WebStore;
  st_session : WebStore;
  st_memory : MemStore;
  cache : JsMap.t jsstring cached;
  cacheTimeout : Z;
  maxCacheSize : nat;
  events : list storage_event
}.

(** [constructor()]: the three adapters, an empty cache of at most 100
  entries expiring after [CACHE_EXPIRY]. *)
Definition init (localAvailable sessionAvailable : bool) : state :=
  mkState (mkWeb localAvailable JsMap.empty) (mkWeb sessionAvailable JsMap.empty) JsMap.empty
    JsMap.empty CACHE_EXPIRY 100 [].

Definition set_cache (c : JsMap.t jsstring cached) (st : state) : state :=
  mkState (st_local st) (st_session st) (st_memory st) c (cacheTimeout st) (maxCacheSize st) (events st).

Definition emit (e : storage_event) (st : state) : state :=
  mkState (st_local st) (st_session st) (st_memory st) (cache st) (cacheTimeout st) (maxCacheSize st)
    (events st ++ [e]).

(** [this.adapters[adapter].op(...)] for an operation [f] every adapter
  implements. *)
Definition with_adapter {R : Type} (a : adapter_name)
    (f : forall A, StorageAdapter A -> A -> A * R) (st : state) : state * R :=
  match a with
  | local => let '(w, r) := f _ _ (st_local st) in
      (mkState w (st_session st) (st_memory st) (cache st) (cacheTimeout st) (maxCacheSize st) (events st), r)
  | session => let '(w, r) := f _ _ (st_session st) in
      (mkState (st_local st) w (st_memory st) (cache st) (cacheTimeout st) (maxCacheSize st) (events st), r)
  | memory => let '(m, r) := f _ _ (st_memory st) in
      (mkState (st_local st) (st_session st) m (cache st) (cacheTimeout st) (maxCacheSize st) (events st), r)
  end.

Definition ad_get (a : adapter_name) (key : jsstring) (st : state) : jsval :=
  match a with
  | local => adapter_get key (st_local st)
  | session => adapter_get key (st_session st)
  | memory => adapter_get key (st_memory st)
  end.

Definition ad_keys (a : adapter_name) (st : state) : list jsstring :=
  match a with
  | local => adapter_keys (st_local st)
  | session => adapter_keys (st_session st)
  | memory => adapter_keys (st_memory st)
  end.

(** [`${adapter}:${key}`]. *)
Definition cacheKey (a : adapter_name) (key : jsstring) : jsstring := adapter_str a ++ js ":" ++ key.

(** [_setCache(key, value)]: evict the oldest entry of a full cache, then
  store a deep clone stamped [now]. *)
Definition _setCache (key : jsstring) (value : jsval) (now : Z) (st : state) : state :=
  let c := cache st in
  let c' := if maxCacheSize st <=? JsMap.size c then JsMap.delete_opt (JsMap.first_key c) c else c in
  set_cache (JsMap.set key (mkCached (deepClone value) now) c') st.

(** The adapter read of [get] and the caching of its result. *)
Definition fetch (key : jsstring) (defaultValue : jsval) (a : adapter_name) (now : Z) (st : state)
    : state * jsval :=
  let value := ad_get a key st in
  let result := if not_null value then value else defaultValue in
  (if not_null result then _setCache (cacheKey a key) result now st else st, result).

(** [get(key, defaultValue, adapter)]. *)
Definition get (key : jsstring) (defaultValue : jsval) (a : adapter_name) (now : Z) (st : state)
    : state * jsval :=
  let ck := cacheKey a key in
  match JsMap.get ck (cache st) with
  | Some c =>
      if negb (isExpired now (c_timestamp c) (cacheTimeout st)) then (st, c_value c)
      else fetch key defaultValue a now (set_cache (JsMap.delete ck (cache st)) st)
  | None => fetch key defaultValue a now st
  end.

(** [set(key, value, adapter)]. *)
Definition set (key : jsstring) (value : jsval) (a : adapter_name) (now : Z) (st : state) : state * bool :=
  let '(st', success) := with_adapter a (fun A _ => adapter_set key value) st in
  if success then
    (emit (mkEvent (Some key) (Some value) a (js "set")) (_setCache (cacheKey a key) value now st'), true)
  else (st', false).

(** [remove(key, adapter)]. *)
Definition remove (key : jsstring) (a : adapter_name) (st : state) : state * bool :=
  let '(st', success) := with_adapter a (fun A _ => adapter_remove key) st in
  if success then
    (emit (mkEvent (Some key) None a (js "remove"))
       (set_cache (JsMap.delete (cacheKey a key) (cache st')) st'), true)
  else (st', false).

(** [clear(adapter)]: the cache entries whose key starts with
  [`${adapter}:`] are deleted while iterating [this.cache.keys()]. *)
Definition clear (a : adapter_name) (st : state) : state * bool :=
  let '(st', success) := with_adapter a (fun A _ => adapter_clear) st in
  if success then
    (emit (mkEvent None None a (js "clear"))
       (set_cache (List.filter (fun e => negb (prefixb (adapter_str a ++ js ":") (fst e))) (cache st')) st'),
     true)
  else (st', false).

(** [has(key, adapter)]: [this.get(key, undefined, adapter) !== null]. *)
Definition has (key : jsstring) (a : adapter_name) (now : Z) (st : state) : state * bool :=
  let '(st', v) := get key JUndefined a now st in (st', not_null v).

(** [_cleanupCache()]: delete every entry older than [cacheTimeout]. *)
Definition _cleanupCache (now : Z) (st : state) : state :=
  set_cache (List.filter (fun e => negb (now - c_timestamp (snd e) >? cacheTimeout st)%Z) (cache st)) st.

(** [keys(adapter)]. *)
Definition keys (a : adapter_name) (st : state) : list jsstring := ad_keys a st.

(** [namespace(namespace)]: keys are prefixed with [`${namespace}:`]. *)
Definition prefixKey (ns key : jsstring) : jsstring := ns ++ js ":" ++ key.

Definition ns_get (ns key : jsstring) (defaultValue : jsval) (a : adapter_name) (now : Z) (st : state) :=
  get (prefixKey ns key) defaultValue a now st.

Definition ns_set (ns key : jsstring) (value : jsval) (a : adapter_name) (now : Z) (st : state) :=
  set (prefixKey ns key) value a now st.

Definition ns_remove (ns key : jsstring) (a : adapter_name) (st : state) :=
  remove (prefixKey ns key) a st.

(** [keys(adapter).filter(key => key.startsWith(`${namespace}:`))
  .map(key => key.substring(namespace.length + 1))]. *)
Definition ns_keys (ns : jsstring) (a : adapter_name) (st : state) : list jsstring :=
  map (drop (length ns + 1)) (List.filter (prefixb (ns ++ js ":")) (keys a st)).

(** [clear()]: remove, through the default adapter, every key that starts
  with [`${namespace}:`]. *)
Definition ns_clear (ns : jsstring) (st : state) : state :=
  fold_left (fun st k => fst (remove k local st)) (List.filter (prefixb (ns ++ js ":")) (keys local st)) st.

(** The operations a caller can issue, each at a time [now]. *)
Inductive op :=
| OGet (key : jsstring) (defaultValue : jsval) (a : adapter_name)
| OSet (key : jsstring) (value : jsval) (a : adapter_name)
| ORemove (key : jsstring) (a : adapter_name)
| OClear (a : adapter_name)
| OHas (key : jsstring) (a : adapter_name)
| OCleanup.

Definition apply_op (o : op) (now : Z) (st : state) : state :=
  match o with
  | OGet k d a => fst (get k d a now st)
  | OSet k v a => fst (set k v a now st)
  | ORemove k a => fst (remove k a st)
  | OClear a => fst (clear a st)
  | OHas k a => fst (has k a now st)
  | OCleanup => _cleanupCache now st
  end.

(** A timed sequence of operations. *)
Fixpoint run_ops (ops : list (op * Z)) (st : state) : state :=
  match ops with
  | [] => st
  | (o, now) :: ops' => run_ops ops' (apply_op o now st)
  end.

(** The invariant of [this.cache]: no duplicate key, at most
  [maxCacheSize] entries, and a positive bound. *)
Definition inv (st : state) : Prop :=
  JsMap.wf (cache st) /\ JsMap.size (cache st) <= maxCacheSize st /\ 1 <= maxCacheSize st.

(** ** Lemmas *)

Ltac destruct_pairs :=
  repeat match goal with
  | |- context [let '(_, _) := ?p in _] => destruct p eqn:?
  end.

Lemma with_adapter_fields {R} (a : adapter_name) (f : forall A, StorageAdapter A -> A -> A * R) (st : state) :
  cache (fst (with_adapter a f st)) = cache st /\ maxCacheSize (fst (with_adapter a f st)) = maxCacheSize st /\
  cacheTimeout (fst (with_adapter a f st)) = cacheTimeout st.
Proof. destruct a; simpl; destruct_pairs; done. Qed.

Lemma with_adapter_inv {R} (a : adapter_name) (f : forall A, StorageAdapter A -> A -> A * R) (st : state) :
  inv st -> inv (fst (with_adapter a f st)).
Proof. unfold inv. destruct (with_adapter_fields a f st) as (-> & -> & _). done. Qed.

Lemma setCache_inv (key : jsstring) (value : jsval) (now : Z) (st : state) :
  inv st -> inv (_setCache key value now st).
Proof.
  intros (Hwf & Hsz & Hpos). unfold _setCache, inv. simpl.
  split; [by apply JsMap.evict_set_wf|]. split; [by apply JsMap.evict_set_size|done].
Qed.

Lemma set_cache_filter_inv (p : jsstring * cached -> bool) (st : state) :
  inv st -> inv (set_cache (List.filter p (cache st)) st).
Proof.
  intros (Hwf & Hsz & Hpos). unfold inv. simpl.
  split; [by apply JsMap.wf_filter|]. pose proof (JsMap.size_filter_le p (cache st)). lia.
Qed.

Lemma emit_inv (e : storage_event) (st : state) : inv st -> inv (emit e st).
Proof. done. Qed.

Lemma fetch_inv (key : jsstring) (d : jsval) (a : adapter_name) (now : Z) (st : state) :
  inv st -> inv (fst (fetch key d a now st)).
Proof. intros H. unfold fetch. simpl. case_match; [by apply setCache_inv|done]. Qed.

Lemma delete_cache_inv (k : jsstring) (st : state) :
  inv st -> inv (set_cache (JsMap.delete k (cache st)) st).
Proof.
  intros (Hwf & Hsz & Hpos). split; [by apply JsMap.wf_delete|]. split; [|done]. simpl.
  destruct (decide (k ∈ JsMap.keys (cache st))) as [Hin|Hn].
  - rewrite JsMap.size_delete_in by done. lia.
  - by rewrite JsMap.keys_delete_notin.
Qed.

Lemma get_inv (key : jsstring) (d : jsval) (a : adapter_name) (now : Z) (st : state) :
  inv st -> inv (fst (get key d a now st)).
Proof.
  intros H. unfold get. destruct (JsMap.get _ _) as [c|]; [|by apply fetch_inv].
  destruct (negb _); [done|]. by apply fetch_inv, delete_cache_inv.
Qed.

(** The three mutators: the adapter call, then the cache update and the
  event when it succeeded. *)
Lemma set_inv (key : jsstring) (v : jsval) (a : adapter_name) (now : Z) (st : state) :
  inv st -> inv (fst (set key v a now st)).
Proof.
  intros H. pose proof (with_adapter_inv a (fun A _ => adapter_set key v) st H) as H'.
  unfold set. destruct (with_adapter _ _ _) as [st' []]; simpl in *; [|done].
  apply emit_inv. by apply setCache_inv.
Qed.

Lemma remove_inv (key : jsstring) (a : adapter_name) (st : state) :
  inv st -> inv (fst (remove key a st)).
Proof.
  intros H. pose proof (with_adapter_inv a (fun A _ => adapter_remove key) st H) as H'.
  unfold remove. destruct (with_adapter _ _ _) as [st' []]; simpl in *; [|done].
  apply emit_inv. by apply delete_cache_inv.
Qed.

Lemma clear_inv (a : adapter_name) (st : state) : inv st -> inv (fst (clear a st)).
Proof.
  intros H. pose proof (with_adapter_inv a (fun A _ => adapter_clear) st H) as H'.
  unfold clear. destruct (with_adapter _ _ _) as [st' []]; simpl in *; [|done].
  apply emit_inv. by apply set_cache_filter_inv.
Qed.

Lemma has_inv (key : jsstring) (a : adapter_name) (now : Z) (st : state) :
  inv st -> inv (fst (has key a now st)).
Proof.
  intros H. pose proof (get_inv key JUndefined a now st H). unfold has.
  destruct (get _ _ _ _ _); done.
Qed.

Lemma apply_op_inv (o : op) (now : Z) (st : state) : inv st -> inv (apply_op o now st).
Proof.
  destruct o; simpl; eauto using get_inv, set_inv, remove_inv, clear_inv, has_inv, set_cache_filter_inv.
Qed.

Lemma run_ops_inv (ops : list (op * Z)) (st : state) : inv st -> inv (run_ops ops st).
Proof.
  revert st. induction ops as [|[o now] ops IH]; simpl; [done|]. intros st H. by apply IH, apply_op_inv.
Qed.

Lemma apply_op_max (o : op) (now : Z) (st : state) : maxCacheSize (apply_op o now st) = maxCacheSize st.
Proof.
  destruct o; simpl; unfold has, get, set, remove, clear, fetch, _setCache, with_adapter;
    repeat (case_match; simplify_eq/=); done.
Qed.

Lemma run_ops_max (ops : list (op * Z)) (st : state) : maxCacheSize (run_ops ops st) = maxCacheSize st.
Proof.
  revert st. induction ops as [|[o now] ops IH]; intros st; simpl; [done|]. by rewrite IH, apply_op_max.
Qed.

Lemma drop_prefixKey (ns r : jsstring) : drop (length ns + 1) (ns ++ js ":" ++ r) = r.
Proof. rewrite app_assoc, drop_app_length'; [done|]. rewrite length_app. simpl. lia. Qed.

Lemma ad_get_set_cache (a : adapter_name) (k : jsstring) (c : JsMap.t jsstring cached) (st : state) :
  ad_get a k (set_cache c st) = ad_get a k st.
Proof. by destruct a. Qed.

Lemma get_hit (key : jsstring) (d : jsval) (a : adapter_name) (now : Z) (st : state) (c : cached) :
  JsMap.get (cacheKey a key) (cache st) = Some c -> isExpired now (c_timestamp c) (cacheTimeout st) = false ->
  get key d a now st = (st, c_value c).
Proof. intros Hc He. unfold get. by rewrite Hc, He. Qed.

Lemma get_expired (key : jsstring) (d : jsval) (a : adapter_name) (now : Z) (st : state) (c : cached) :
  JsMap.get (cacheKey a key) (cache st) = Some c -> isExpired now (c_timestamp c) (cacheTimeout st) = true ->
  get key d a now st = fetch key d a now (set_cache (JsMap.delete (cacheKey a key) (cache st)) st).
Proof. intros Hc He. unfold get. by rewrite Hc, He. Qed.

Lemma get_miss (key : jsstring) (d : jsval) (a : adapter_name) (now : Z) (st : state) :
  JsMap.get (cacheKey a key) (cache st) = None -> get key d a now st = fetch key d a now st.
Proof. intros Hc. unfold get. by rewrite Hc. Qed.

Lemma fetch_result (key : jsstring) (d : jsval) (a : adapter_name) (now : Z) (st : state) :
  snd (fetch key d a now st) = if not_null (ad_get a key st) then ad_get a key st else d.
Proof. done. Qed.

Lemma fresh_not_expired (now now' timeout : Z) :
  (now' - now <= timeout)%Z -> isExpired now' now timeout = false.
Proof. intros H. unfold isExpired. apply Z.ltb_ge. lia. Qed.

(** A successful [set] leaves the clone of the value in the cache, stamped [now]. *)
Lemma set_success_cache (key : jsstring) (v : jsval) (a : adapter_name) (now : Z) (st : state) :
  snd (set key v a now st) = true ->
  JsMap.get (cacheKey a key) (cache (fst (set key v a now st))) = Some (mkCached (deepClone v) now) /\
  cacheTimeout (fst (set key v a now st)) = cacheTimeout st.
Proof.
  unfold set. destruct (with_adapter_fields a (fun A _ => adapter_set key v) st) as (_ & _ & Ht).
  destruct (with_adapter _ _ _) as [st' []]; simpl in *; [|discriminate].
  intros _. split; [apply JsMap.get_set_eq|done].
Qed.

(** A successful [clear] empties the adapter. *)
Lemma clear_adapter_null (a : adapter_name) (k : jsstring) (st : state) :
  snd (clear a st) = true -> ad_get a k (fst (clear a st)) = JNull.
Proof.
  unfold clear, with_adapter. destruct a;
    match goal with |- context [adapter_clear ?x] => pose proof (adapter_clear_get x k) as Hl;
      destruct (adapter_clear x) as [x' []] end; simpl in *; try discriminate; auto.
Qed.

Lemma clear_cache (a : adapter_name) (st : state) :
  snd (clear a st) = true ->
  cache (fst (clear a st)) = List.filter (fun e => negb (prefixb (adapter_str a ++ js ":") (fst e))) (cache st).
Proof.
  unfold clear. destruct (with_adapter_fields a (fun A _ => adapter_clear) st) as (Hc & _).
  destruct (with_adapter _ _ _) as [st' []]; simpl in *; [by rewrite Hc|discriminate].
Qed.

(** ** Properties *)

(** C9: the read cache of a [StorageManager] stays bounded: from the
  constructor, after any timed sequence of [get], [set], [remove],
  [clear], [has] and [_cleanupCache] calls on any adapters, [this.cache]
  holds at most [maxCacheSize] (100) entries and no key twice. *)
Theorem storage_cache_bounded (localAvailable sessionAvailable : bool) (ops : list (op * Z)) :
  inv (run_ops ops (init localAvailable sessionAvailable)) /\
  JsMap.size (cache (run_ops ops (init localAvailable sessionAvailable))) <= 100.
Proof.
  assert (H : inv (run_ops ops (init localAvailable sessionAvailable))).
  { apply run_ops_inv. split; [constructor|]. simpl. lia. }
  split; [done|]. destruct H as (_ & Hsz & _).
  by rewrite run_ops_max in Hsz.
Qed.

(** a successful [set] is read back by [get] on the same adapter
  within [cacheTimeout]: the caller gets the deep clone of the value
  stored, from the cache, whatever the adapter holds. *)
Theorem set_then_get (key : jsstring) (v d : jsval) (a : adapter_name) (now now' : Z) (st : state) :
  snd (set key v a now st) = true -> (now' - now <= cacheTimeout st)%Z ->
  snd (get key d a now' (fst (set key v a now st))) = deepClone v.
Proof.
  intros Hs Ht. destruct (set_success_cache key v a now st Hs) as [Hc Hto].
  rewrite (get_hit _ _ _ _ _ _ Hc); [done|]. simpl. rewrite Hto. by apply fresh_not_expired.
Qed.

Lemma set_then_get_witness :
  snd (set (js "theme") (JStr (js "dark")) local 0 (init true true)) = true /\
  (10 - 0 <= cacheTimeout (init true true))%Z /\
  snd (get (js "theme") JNull local 10 (fst (set (js "theme") (JStr (js "dark")) local 0 (init true true))))
    = deepClone (JStr (js "dark")).
Proof.
  split; [reflexivity|]. split; [vm_compute; discriminate|].
  apply set_then_get; [reflexivity|vm_compute; discriminate].
Defined.

(** C11: [get] caches the default value of a missing key: after
  [get(key, d1)], a [get(key, d2)] within [cacheTimeout] returns (a clone
  of) [d1], not [d2]. *)
Theorem default_value_sticky (key : jsstring) (d1 d2 : jsval) (a : adapter_name) (now now' : Z) (st : state) :
  JsMap.get (cacheKey a key) (cache st) = None -> ad_get a key st = JNull -> not_null d1 = true ->
  (now' - now <= cacheTimeout st)%Z ->
  snd (get key d2 a now' (fst (get key d1 a now st))) = deepClone d1.
Proof.
  intros Hm Ha Hd Ht. rewrite (get_miss key d1) by done. unfold fetch. rewrite Ha. cbn [not_null]. rewrite Hd. cbn [fst].
  rewrite (get_hit key d2 a now' _ (mkCached (deepClone d1) now));
    [reflexivity|apply JsMap.get_set_eq|by apply fresh_not_expired].
Qed.

Lemma default_value_sticky_witness :
  snd (get (js "theme") (JStr (js "dark")) local 5
         (fst (get (js "theme") (JStr (js "light")) local 0 (init true true)))) = JStr (js "light").
Proof.
  apply (default_value_sticky (js "theme") (JStr (js "light")) (JStr (js "dark")) local 0 5 (init true true));
    vm_compute; first [reflexivity|discriminate].
Defined.

(** [has(key)] is [get(key, undefined) !== null], and [get] returns
  [undefined] rather than [null] for a key the adapter lacks: [has] is
  false exactly when a fresh cache entry for the key holds [null] (a
  [set(key, null)] less than [cacheTimeout] ago), so it is true for every
  key that was never stored. *)
Theorem has_false_iff (key : jsstring) (a : adapter_name) (now : Z) (st : state) :
  snd (has key a now st) = false <->
  exists c, JsMap.get (cacheKey a key) (cache st) = Some c /\
            isExpired now (c_timestamp c) (cacheTimeout st) = false /\ c_value c = JNull.
Proof.
  assert (Hf : forall st', not_null (snd (fetch key JUndefined a now st')) = true).
  { intros st'. rewrite fetch_result. by destruct (ad_get a key st'). }
  unfold has. destruct (JsMap.get (cacheKey a key) (cache st)) as [c|] eqn:Hc.
  - destruct (isExpired now (c_timestamp c) (cacheTimeout st)) eqn:He.
    + rewrite (get_expired _ _ _ _ _ c) by done. specialize (Hf (set_cache (JsMap.delete (cacheKey a key) (cache st)) st)).
      destruct (fetch _ _ _ _ _). simpl in *. rewrite Hf. split; [discriminate|].
      intros (c' & [= <-] & He' & _). congruence.
    + rewrite (get_hit _ _ _ _ _ c) by done. simpl. split.
      * intros Hn. exists c. split; [done|]. split; [done|]. by destruct (c_value c).
      * intros (c' & [= <-] & _ & ->). done.
  - rewrite get_miss by done. specialize (Hf st). destruct (fetch _ _ _ _ _). simpl in *. rewrite Hf.
    split; [discriminate|]. by intros (c' & ? & _).
Qed.

(** with the memory adapter a falsy value ([0], [false], [''],
  [null], [undefined]) is read back as stored while its cache entry is
  fresh, but after [cacheTimeout] the adapter's [|| null] turns it into
  [null] and [get] returns the default instead. *)
Theorem memory_falsy_read_depends_on_age (key : jsstring) (v d : jsval) (now now' now'' : Z) (st : state) :
  falsy v = true -> (now' - now <= cacheTimeout st)%Z -> (cacheTimeout st < now'' - now)%Z ->
  snd (get key d memory now' (fst (set key v memory now st))) = v /\
  snd (get key d memory now'' (fst (set key v memory now st))) = d.
Proof.
  intros Hv Ht1 Ht2.
  assert (Hs : snd (set key v memory now st) = true) by (unfold set; simpl; done).
  destruct (set_success_cache key v memory now st Hs) as [Hc Hto].
  assert (Hdc : deepClone v = v) by (destruct v as [| |[]|[]|[]| | |]; done).
  split.
  - rewrite (get_hit _ _ _ _ _ _ Hc); [simpl; done|]. rewrite Hto. by apply fresh_not_expired.
  - rewrite (get_expired _ _ _ _ _ _ Hc).
    + rewrite fetch_result, ad_get_set_cache. unfold set. cbn. unfold mem_get. rewrite JsMap.get_set_eq. simpl.
      by rewrite Hv.
    + rewrite Hto. unfold isExpired. simpl. apply Z.ltb_lt. lia.
Qed.

Lemma memory_falsy_read_depends_on_age_witness :
  snd (get (js "count") (JNum 7) memory 10 (fst (set (js "count") (JNum 0) memory 0 (init true true)))) = JNum 0 /\
  snd (get (js "count") (JNum 7) memory (CACHE_EXPIRY + 1)
         (fst (set (js "count") (JNum 0) memory 0 (init true true)))) = JNum 7.
Proof.
  apply (memory_falsy_read_depends_on_age (js "count") (JNum 0) (JNum 7) 0 10 (CACHE_EXPIRY + 1) (init true true));
    [reflexivity|vm_compute; discriminate|vm_compute; reflexivity].
Defined.

(** after a successful [clear(adapter)] every [get] on that adapter
  returns its default value: the adapter is empty and no cache entry of
  the adapter survives, whatever key it had. *)
Theorem clear_then_get (key : jsstring) (d : jsval) (a : adapter_name) (now : Z) (st : state) :
  inv st -> snd (clear a st) = true -> snd (get key d a now (fst (clear a st))) = d.
Proof.
  intros (Hwf & _) Hs. rewrite get_miss.
  - by rewrite fetch_result, clear_adapter_null.
  - rewrite clear_cache, JsMap.get_filter by done.
    destruct (JsMap.get _ (cache st)); [|done]. unfold cacheKey. cbn [fst]. by rewrite app_assoc, prefixb_app.
Qed.

Lemma clear_then_get_witness :
  let st := fst (set (js "theme") (JStr (js "dark")) local 0 (init true true)) in
  inv st /\ snd (clear local st) = true /\ snd (get (js "theme") JNull local 1 (fst (clear local st))) = JNull.
Proof.
  assert (H : inv (fst (set (js "theme") (JStr (js "dark")) local 0 (init true true)))).
  { apply set_inv. split; [constructor|]. simpl. lia. }
  split; [exact H|]. split; [reflexivity|]. apply clear_then_get; [exact H|reflexivity].
Defined.

(** [_cleanupCache] deletes exactly the expired entries: afterwards
  a key maps to its former entry if that entry is not older than
  [cacheTimeout], and to nothing otherwise. *)
Theorem cleanup_spec (now : Z) (st : state) (k : jsstring) :
  inv st ->
  JsMap.get k (cache (_cleanupCache now st)) =
    match JsMap.get k (cache st) with
    | Some c => if isExpired now (c_timestamp c) (cacheTimeout st) then None else Some c
    | None => None
    end.
Proof.
  intros (Hwf & _). unfold _cleanupCache. simpl. rewrite JsMap.get_filter by done.
  destruct (JsMap.get k (cache st)) as [c|]; [|done]. simpl. unfold isExpired.
  by rewrite Z.gtb_ltb; destruct (cacheTimeout st <? now - c_timestamp c)%Z.
Qed.

Lemma cleanup_spec_witness :
  let st := set_cache [(js "local:a", mkCached JNull 0); (js "local:b", mkCached JNull 50)] (init true true) in
  inv st /\
  JsMap.get (js "local:a") (cache (_cleanupCache (CACHE_EXPIRY + 10) st)) = None /\
  JsMap.get (js "local:b") (cache (_cleanupCache (CACHE_EXPIRY + 10) st)) = Some (mkCached JNull 50).
Proof.
  assert (H : inv (set_cache [(js "local:a", mkCached JNull 0); (js "local:b", mkCached JNull 50)] (init true true))).
  { split; [|simpl; lia]. vm_compute. constructor; [|constructor; [apply not_elem_of_nil|constructor]].
    intros H0%list_elem_of_singleton. discriminate H0. }
  split; [exact H|]. split.
  - rewrite (cleanup_spec _ _ _ H). reflexivity.
  - rewrite (cleanup_spec _ _ _ H). reflexivity.
Defined.

(** namespaces are not isolated: a key stored through
  [namespace(`${ns}:${sub}`)] is listed by [namespace(ns).keys()] (as
  [`${sub}:${key}`]), so [namespace(ns).clear()] also removes it. *)
Theorem namespace_not_isolated (ns sub key : jsstring) (a : adapter_name) (st : state) :
  prefixKey (prefixKey ns sub) key ∈ keys a st -> prefixKey sub key ∈ ns_keys ns a st.
Proof.
  intros Hin. unfold ns_keys. apply list_elem_of_fmap.
  assert (E : prefixKey (prefixKey ns sub) key = ns ++ js ":" ++ prefixKey sub key)
    by (unfold prefixKey; by rewrite <- !app_assoc).
  exists (prefixKey (prefixKey ns sub) key). rewrite E in *. split.
  - by rewrite drop_prefixKey.
  - apply list_elem_of_In, filter_In. split; [by apply list_elem_of_In|].
    by rewrite app_assoc, prefixb_app.
Qed.

Lemma namespace_not_isolated_witness :
  let st := fst (ns_set (js "gallery:album") (js "cover") (JStr (js "x.jpg")) local 0 (init true true)) in
  prefixKey (prefixKey (js "gallery") (js "album")) (js "cover") ∈ keys local st /\
  js "album:cover" ∈ ns_keys (js "gallery") local st.
Proof.
  assert (H : prefixKey (prefixKey (js "gallery") (js "album")) (js "cover") ∈
              keys local (fst (ns_set (js "gallery:album") (js "cover") (JStr (js "x.jpg")) local 0 (init true true)))).
  { vm_compute. left. }
  split; [exact H|]. exact (namespace_not_isolated (js "gallery") (js "album") (js "cover") local _ H).
Defined.

End StorageCache.
