(* ===== verification/ImageCache.v ===== *)
(** * [ImageCacheManager]: the image and thumbnail caches

    [src/src/js/imageManager.js], class [ImageCacheManager]: two JS [Map]s,
    [cache] (key to [{url, metadata, createdAt, lastAccessed, size}]) and
    [thumbnailCache] (key to [{url, createdAt, lastAccessed}]), each
    bounded by a configured size and evicted by least recent access
    ([_evictLeastRecentlyUsed], [_evictLeastRecentlyUsedThumbnail]), which
    revokes the object URL of the evicted entry; [clear] revokes every URL.

    The state records the [URL.revokeObjectURL] calls in order
    ([revoked]).  The bounds are [option nat]: the repository's
    [config.js] defines neither [CONFIG.IMAGE.MAX_CACHE_SIZE] nor
    [CONFIG.IMAGE.MAX_THUMBNAIL_CACHE_SIZE], so they are [undefined]
    ([None]) and [size >= undefined] is [false]. *)

From Stdlib Require Import QArith.
From S2P Require Import Prelude JsMap JsValue.
Import JsValue.

Module ImageCache.

Record ImgItem := mkImg {
  url : jsstring;
  metadata : jsval;
  createdAt : Z;
  lastAccessed : Z;
  item_size : Q
}.

Record ThumbItem := mkThumb {
  t_url : jsstring;
  t_createdAt : Z;
  t_lastAccessed : Z
}.

Record state := mkState {
  cache : JsMap.t jsstring ImgItem;
  thumbnailCache : JsMap.t jsstring ThumbItem;
  maxCacheSize : option nat;
  maxThumbnailCacheSize : option nat;
  revoked : list jsstring
}.

(** [constructor()] with the configured bounds. *)
Definition init (maxCache maxThumb : option nat) : state :=
  mkState JsMap.empty JsMap.empty maxCache maxThumb [].

(** The repository's configuration: both bounds [undefined]. *)
Definition repository_init : state := init None None.

(** [n >= bound], [false] when the bound is [undefined]. *)
Definition ge_bound (n : nat) (bound : option nat) : bool :=
  match bound with Some m => m <=? n | None => false end.

(** [url.length * 0.75]. *)
Definition _estimateSize (u : jsstring) : Q := inject_Z (Z.of_nat (length u)) * (3 # 4).

(** The scan of both eviction methods: starting from [oldestKey = null]
  and [oldestTime = Date.now()], keep the first entry whose
  [lastAccessed] is strictly below the current minimum. *)
Fixpoint findOldest {A : Type} (acc : A -> Z) (entries : list (jsstring * A))
    (oldestKey : option jsstring) (oldestTime : Z) : option jsstring :=
  match entries with
  | [] => oldestKey
  | (k, it) :: rest =>
      if (acc it <? oldestTime)%Z then findOldest acc rest (Some k) (acc it)
      else findOldest acc rest oldestKey oldestTime
  end.

(** [if (oldestKey)]: [null] and the empty string are falsy. *)
Definition truthy_key (k : option jsstring) : option jsstring :=
  match k with Some (_ :: _) => k | _ => None end.

(** [_evictLeastRecentlyUsed()] at time [now]. *)
Definition _evictLeastRecentlyUsed (now : Z) (st : state) : state :=
  match truthy_key (findOldest lastAccessed (cache st) None now) with
  | Some k =>
      match JsMap.get k (cache st) with
      | Some it => mkState (JsMap.delete k (cache st)) (thumbnailCache st) (maxCacheSize st)
                     (maxThumbnailCacheSize st) (revoked st ++ [url it])
      | None => st
      end
  | None => st
  end.

(** [_evictLeastRecentlyUsedThumbnail()] at time [now]. *)
Definition _evictLeastRecentlyUsedThumbnail (now : Z) (st : state) : state :=
  match truthy_key (findOldest t_lastAccessed (thumbnailCache st) None now) with
  | Some k =>
      match JsMap.get k (thumbnailCache st) with
      | Some it => mkState (cache st) (JsMap.delete k (thumbnailCache st)) (maxCacheSize st)
                     (maxThumbnailCacheSize st) (revoked st ++ [t_url it])
      | None => st
      end
  | None => st
  end.

(** [get(key)]: a hit refreshes [lastAccessed] in place and returns the URL. *)
Definition get (key : jsstring) (now : Z) (st : state) : state * option jsstring :=
  match JsMap.get key (cache st) with
  | Some it =>
      (mkState (JsMap.set key (mkImg (url it) (metadata it) (createdAt it) now (item_size it)) (cache st))
         (thumbnailCache st) (maxCacheSize st) (maxThumbnailCacheSize st) (revoked st), Some (url it))
  | None => (st, None)
  end.

(** [set(key, url, metadata)]. *)
Definition set (key u : jsstring) (md : jsval) (now : Z) (st : state) : state :=
  let st' := if ge_bound (JsMap.size (cache st)) (maxCacheSize st) then _evictLeastRecentlyUsed now st else st in
  mkState (JsMap.set key (mkImg u md now now (_estimateSize u)) (cache st')) (thumbnailCache st')
    (maxCacheSize st') (maxThumbnailCacheSize st') (revoked st').

(** [getThumbnail(key)]. *)
Definition getThumbnail (key : jsstring) (now : Z) (st : state) : state * option jsstring :=
  match JsMap.get key (thumbnailCache st) with
  | Some it =>
      (mkState (cache st) (JsMap.set key (mkThumb (t_url it) (t_createdAt it) now) (thumbnailCache st))
         (maxCacheSize st) (maxThumbnailCacheSize st) (revoked st), Some (t_url it))
  | None => (st, None)
  end.

(** [setThumbnail(key, url)]. *)
Definition setThumbnail (key u : jsstring) (now : Z) (st : state) : state :=
  let st' := if ge_bound (JsMap.size (thumbnailCache st)) (maxThumbnailCacheSize st)
             then _evictLeastRecentlyUsedThumbnail now st else st in
  mkState (cache st') (JsMap.set key (mkThumb u now now) (thumbnailCache st'))
    (maxCacheSize st') (maxThumbnailCacheSize st') (revoked st').

(** [clear()]: revoke every image URL, then every thumbnail URL, then
  empty both maps. *)
Definition clear (st : state) : state :=
  mkState JsMap.empty JsMap.empty (maxCacheSize st) (maxThumbnailCacheSize st)
    (revoked st ++ map (fun e => url (snd e)) (cache st) ++ map (fun e => t_url (snd e)) (thumbnailCache st)).

(** [_calculateTotalMemoryUsage()]: the estimated sizes plus 10000 per
  thumbnail. *)
Definition _calculateTotalMemoryUsage (st : state) : Q :=
  (fold_left (fun total e => total + item_size (snd e)) (cache st) 0 +
   inject_Z (Z.of_nat (JsMap.size (thumbnailCache st))) * 10000)%Q.

(** [getStats()]. *)
Record Stats := mkStats {
  cacheSize : nat;
  thumbnailCacheSize : nat;
  stats_maxCacheSize : option nat;
  stats_maxThumbnailCacheSize : option nat;
  totalMemoryUsage : Q
}.

Definition getStats (st : state) : Stats :=
  mkStats (JsMap.size (cache st)) (JsMap.size (thumbnailCache st)) (maxCacheSize st)
    (maxThumbnailCacheSize st) (_calculateTotalMemoryUsage st).

(** ** Lemmas *)

(** The scan either keeps its start value, every entry being at least
  [oldestTime], or returns the key of an entry below [oldestTime] whose
  [lastAccessed] is minimal among all entries. *)
Lemma findOldest_spec {A : Type} (acc : A -> Z) (entries : list (jsstring * A)) (ok : option jsstring) (t : Z) :
  (findOldest acc entries ok t = ok /\ Forall (fun e => (t <= acc (snd e))%Z) entries) \/
  (exists k it, findOldest acc entries ok t = Some k /\ (k, it) ∈ entries /\ (acc it < t)%Z /\
     Forall (fun e => (acc it <= acc (snd e))%Z) entries).
Proof.
  revert ok t. induction entries as [|[k it] rest IH]; intros ok t; simpl; [by left|].
  destruct (Z.ltb_spec (acc it) t) as [Hlt|Hge].
  - right. destruct (IH (Some k) (acc it)) as [[-> Hall]|(k' & it' & -> & Hin & Hlt' & Hall)].
    + exists k, it. split; [done|]. split; [left|]. split; [done|]. constructor; [simpl; lia|done].
    + exists k', it'. split; [done|]. split; [by right|]. split; [lia|]. constructor; [simpl; lia|done].
  - destruct (IH ok t) as [[-> Hall]|(k' & it' & -> & Hin & Hlt' & Hall)].
    + left. split; [done|]. constructor; [simpl; lia|done].
    + right. exists k', it'. split; [done|]. split; [by right|]. split; [done|]. constructor; [simpl; lia|done].
Qed.

Lemma findOldest_none {A : Type} (acc : A -> Z) (entries : list (jsstring * A)) (t : Z) :
  Forall (fun e => (t <= acc (snd e))%Z) entries -> findOldest acc entries None t = None.
Proof.
  intros Hall. destruct (findOldest_spec acc entries None t) as [[-> _]|(k & it & _ & Hin & Hlt & _)]; [done|].
  rewrite Forall_forall in Hall. specialize (Hall _ Hin). simpl in Hall. lia.
Qed.

(** The eviction when some entry is older than [now] and keys are
  non-empty: the least recently accessed entry goes and its URL is
  revoked. *)
Lemma evict_lru (now : Z) (st : state) :
  JsMap.wf (cache st) -> Forall (fun e => fst e <> []) (cache st) ->
  Exists (fun e => (lastAccessed (snd e) < now)%Z) (cache st) ->
  exists k it, JsMap.get k (cache st) = Some it /\
    Forall (fun e => (lastAccessed it <= lastAccessed (snd e))%Z) (cache st) /\
    _evictLeastRecentlyUsed now st =
      mkState (JsMap.delete k (cache st)) (thumbnailCache st) (maxCacheSize st)
        (maxThumbnailCacheSize st) (revoked st ++ [url it]).
Proof.
  intros Hwf Hne Hex. unfold _evictLeastRecentlyUsed.
  destruct (findOldest_spec lastAccessed (cache st) None now) as [[_ Hall]|(k & it & Hf & Hin & _ & Hall)].
  - exfalso. apply Exists_exists in Hex as (e & He & Hlt). rewrite Forall_forall in Hall.
    specialize (Hall e He). lia.
  - rewrite Hf. rewrite Forall_forall in Hne. specialize (Hne _ Hin). simpl in Hne.
    assert (Hg : JsMap.get k (cache st) = Some it) by (by apply JsMap.get_elem_of).
    exists k, it. split; [done|]. split; [done|]. destruct k as [|c k]; [done|]. simpl. by rewrite Hg.
Qed.

Lemma evict_none (now : Z) (st : state) :
  Forall (fun e => (now <= lastAccessed (snd e))%Z) (cache st) -> _evictLeastRecentlyUsed now st = st.
Proof. intros Hall. unfold _evictLeastRecentlyUsed. by rewrite findOldest_none. Qed.

(** ** Properties *)

(** C22: with a configured bound [n], [set] of a new key into a full cache
  whose entries were all last accessed before [now] evicts an entry of
  minimal [lastAccessed] (least recently used), revokes its object URL,
  and appends the new entry. *)
Theorem set_evicts_least_recently_used (n : nat) (key u : jsstring) (md : jsval) (now : Z) (st : state) :
  maxCacheSize st = Some n -> JsMap.size (cache st) = n -> 1 <= n ->
  JsMap.wf (cache st) -> Forall (fun e => fst e <> []) (cache st) ->
  Forall (fun e => (lastAccessed (snd e) < now)%Z) (cache st) ->
  exists k it, JsMap.get k (cache st) = Some it /\
    Forall (fun e => (lastAccessed it <= lastAccessed (snd e))%Z) (cache st) /\
    cache (set key u md now st) = JsMap.set key (mkImg u md now now (_estimateSize u)) (JsMap.delete k (cache st)) /\
    revoked (set key u md now st) = revoked st ++ [url it].
Proof.
  intros Hmax Hsz Hn Hwf Hne Hold.
  assert (Hex : Exists (fun e => (lastAccessed (snd e) < now)%Z) (cache st)).
  { destruct (cache st) as [|e m] eqn:E; [unfold JsMap.size in Hsz; simpl in Hsz; lia|].
    inversion Hold. by left. }
  destruct (evict_lru now st Hwf Hne Hex) as (k & it & Hg & Hmin & Hev).
  exists k, it. unfold set, ge_bound. rewrite Hmax, Hsz, Nat.leb_refl, Hev. simpl. done.
Qed.

Lemma set_evicts_least_recently_used_witness :
  let it0 := mkImg (js "blob:a") JNull 0 1 0 in
  let it1 := mkImg (js "blob:b") JNull 0 0 0 in
  let st := mkState [(js "a", it0); (js "b", it1)] [] (Some 2) None [] in
  exists k it, JsMap.get k (cache st) = Some it /\
    Forall (fun e => (lastAccessed it <= lastAccessed (snd e))%Z) (cache st) /\
    cache (set (js "c") (js "blob:c") JNull 5 st) =
      JsMap.set (js "c") (mkImg (js "blob:c") JNull 5 5 (_estimateSize (js "blob:c"))) (JsMap.delete k (cache st)) /\
    revoked (set (js "c") (js "blob:c") JNull 5 st) = revoked st ++ [url it].
Proof.
  apply (set_evicts_least_recently_used 2); try reflexivity; [lia| | |].
  - vm_compute. constructor; [|constructor; [apply not_elem_of_nil|constructor]].
    intros H%list_elem_of_singleton. discriminate H.
  - repeat constructor; discriminate.
  - repeat constructor; simpl; lia.
Defined.

(** the size bound is not enforced: [set] of a new key grows the
  cache by one, whatever its size, when the bound is [undefined] (the
  repository's configuration) or when every entry was accessed no earlier
  than the current millisecond (the strict [lastAccessed < oldestTime]
  then selects no entry). *)
Theorem cache_bound_not_enforced (key u : jsstring) (md : jsval) (now : Z) (st : state) :
  key ∉ JsMap.keys (cache st) ->
  (maxCacheSize st = None \/ Forall (fun e => (now <= lastAccessed (snd e))%Z) (cache st)) ->
  JsMap.size (cache (set key u md now st)) = S (JsMap.size (cache st)).
Proof.
  intros Hk Hcase. unfold set.
  assert (Hst : (if ge_bound (JsMap.size (cache st)) (maxCacheSize st) then _evictLeastRecentlyUsed now st else st) = st).
  { destruct Hcase as [Hn|Hall]; [by rewrite Hn|]. case_match; [by apply evict_none|done]. }
  rewrite Hst. simpl. by apply JsMap.size_set_notin.
Qed.

Lemma cache_bound_not_enforced_witness :
  let st := mkState [(js "a", mkImg (js "blob:a") JNull 5 5 0)] [] (Some 1) None [] in
  (js "b" ∉ JsMap.keys (cache st)) /\
  JsMap.size (cache (set (js "b") (js "blob:b") JNull 5 st)) = 2.
Proof.
  assert (Hk : js "b" ∉ JsMap.keys (cache (mkState [(js "a", mkImg (js "blob:a") JNull 5 5 0)] [] (Some 1) None []))).
  { vm_compute. intros H%list_elem_of_singleton. discriminate H. }
  split; [exact Hk|]. apply (cache_bound_not_enforced _ _ _ _ _ Hk). right. repeat constructor. simpl. lia.
Defined.

(** overwriting a cached key ([set] on a present key of a cache that
  does not evict) replaces its entry in place and drops the previous
  object URL without revoking it: [revoked] is unchanged. *)
Theorem overwrite_leaks_url (key u : jsstring) (md : jsval) (now : Z) (st : state) (it : ImgItem) :
  JsMap.get key (cache st) = Some it -> ge_bound (JsMap.size (cache st)) (maxCacheSize st) = false ->
  revoked (set key u md now st) = revoked st /\
  JsMap.get key (cache (set key u md now st)) = Some (mkImg u md now now (_estimateSize u)) /\
  JsMap.keys (cache (set key u md now st)) = JsMap.keys (cache st).
Proof.
  intros Hg Hb. unfold set. rewrite Hb. simpl. split; [done|]. split; [apply JsMap.get_set_eq|].
  apply JsMap.keys_set_in. by eapply JsMap.get_Some_in.
Qed.

Lemma overwrite_leaks_url_witness :
  let it := mkImg (js "blob:old") JNull 0 0 0 in
  let st := mkState [(js "k", it)] [] None None [] in
  JsMap.get (js "k") (cache st) = Some it /\ ge_bound (JsMap.size (cache st)) (maxCacheSize st) = false /\
  revoked (set (js "k") (js "blob:new") JNull 1 st) = revoked st /\
  JsMap.get (js "k") (cache (set (js "k") (js "blob:new") JNull 1 st)) =
    Some (mkImg (js "blob:new") JNull 1 1 (_estimateSize (js "blob:new"))) /\
  JsMap.keys (cache (set (js "k") (js "blob:new") JNull 1 st)) = JsMap.keys (cache st).
Proof.
  split; [reflexivity|]. split; [reflexivity|].
  apply (overwrite_leaks_url _ _ _ _ _ (mkImg (js "blob:old") JNull 0 0 0)); reflexivity.
Defined.

End ImageCache.
