(* ===== verification/ImageLoader.v ===== *)
(** * [ImageManager.loadImage]: deduplicated image loading

    [src/src/js/imageManager.js], class [ImageManager]: [loadImage(source,
    options)] computes a cache key ([_generateCacheKey]), answers from
    [loadedImages] when [useCache] allows, joins the load in flight for the
    key ([loadingPromises]), or starts [_loadImageInternal] and records its
    promise.  When the internal load fulfils, the caller that started it
    stores the image in [loadedImages] (if [useCache]) and deletes the key
    from [loadingPromises]; when it rejects, the error is rethrown and the
    key is never deleted.  [_loadImageInternal] writes the thumbnail and
    the image URL into the [ImageCacheManager] ([ImageCache]) before it
    fulfils.

    The model is a step function over events of the event loop: a call of
    [loadImage], and the fulfilment or rejection of an internal load (its
    browser image load).  A fulfilment step also runs the continuations of
    the callers awaiting it, the starting caller's first, as the
    microtask queue does.  [loadImages] is modelled by its batch plan over
    the source array, the outcome of each [loadImage] being an input. *)

From Stdlib Require Import QArith.
From S2P Require Import Prelude JsMap JsValue ImageCache.
Import JsValue.

Module ImageLoader.

(** A [File] (name, size, lastModified) or a URL string. *)
Inductive Source :=
| SFile (name : jsstring) (size : nat) (lastModified : nat)
| SUrl (u : jsstring).

(** [StringUtils] has no [hash] method: the call throws. *)
Definition hash_type_error : js_error := TypeError (js "StringUtils.hash is not a function").

(** [_generateCacheKey(source)]. *)
Definition _generateCacheKey (source : Source) : js_error + jsstring :=
  match source with
  | SFile n sz lm => inr (js "file:" ++ n ++ js ":" ++ nat_to_jsstring sz ++ js ":" ++ nat_to_jsstring lm)
  | SUrl _ => inl hash_type_error
  end.

(** The [imageObj] of a fulfilled load. *)
Record ImageObj := mkImageObj {
  io_id : nat;
  io_cacheKey : jsstring;
  io_source : Source;
  io_url : jsstring;
  io_thumbnailUrl : option jsstring
}.

Inductive promise_state := Pending | Fulfilled (o : ImageObj) | Rejected (e : js_error).

(** An internal load: its key, source, and the state of its promise. *)
Record Load := mkLoad { ld_key : jsstring; ld_source : Source; ld_state : promise_state }.

(** A caller awaiting a load: its id, the load it awaits, whether it
  started that load, and its [useCache] option. *)
Record Waiter := mkWaiter { w_caller : nat; w_load : nat; w_owner : bool; w_useCache : bool }.

Record state := mkState {
  loadedImages : JsMap.t jsstring ImageObj;
  loadingPromises : JsMap.t jsstring nat;
  loads : list Load;
  waiters : list Waiter;
  results : list (nat * (js_error + ImageObj));
  cacheManager : ImageCache.state
}.

Definition init (cm : ImageCache.state) : state := mkState JsMap.empty JsMap.empty [] [] [] cm.

Definition settle_caller (caller : nat) (r : js_error + ImageObj) (st : state) : state :=
  mkState (loadedImages st) (loadingPromises st) (loads st) (waiters st) (results st ++ [(caller, r)])
    (cacheManager st).

(** [_loadImageInternal] first calls [eventManager.emitImageLoading(...)],
  outside its [try].  [TypedEventManager] defines no such method, so in
  the repository the call throws and the promise of the internal load is
  rejected as soon as it is created. *)
Definition emitImageLoading_error : js_error :=
  TypeError (js "eventManager.emitImageLoading is not a function").

Definition repository_emitImageLoading_defined : bool := false.

Section Loader.
(** Whether [eventManager.emitImageLoading] is a function. *)
Variable emitImageLoading_defined : bool.

(** [loadImage(source, {useCache})] called by [caller]. *)
Definition loadImage (caller : nat) (source : Source) (useCache : bool) (st : state) : state :=
  match _generateCacheKey source with
  | inl e => settle_caller caller (inl e) st
  | inr cacheKey =>
      match (if useCache then JsMap.get cacheKey (loadedImages st) else None) with
      | Some o => settle_caller caller (inr o) st
      | None =>
          match JsMap.get cacheKey (loadingPromises st) with
          | Some id =>
              match ld_state <$> loads st !! id with
              | Some (Fulfilled o) => settle_caller caller (inr o) st
              | Some (Rejected e) => settle_caller caller (inl e) st
              | _ => mkState (loadedImages st) (loadingPromises st) (loads st)
                       (waiters st ++ [mkWaiter caller id false useCache]) (results st) (cacheManager st)
              end
          | None =>
              let id := length (loads st) in
              if emitImageLoading_defined then
                mkState (loadedImages st) (JsMap.set cacheKey id (loadingPromises st))
                  (loads st ++ [mkLoad cacheKey source Pending])
                  (waiters st ++ [mkWaiter caller id true useCache]) (results st) (cacheManager st)
              else
                mkState (loadedImages st) (JsMap.set cacheKey id (loadingPromises st))
                  (loads st ++ [mkLoad cacheKey source (Rejected emitImageLoading_error)])
                  (waiters st) (results st ++ [(caller, inl emitImageLoading_error)]) (cacheManager st)
          end
      end
  end.

(** The continuations of the callers awaiting load [id] once it
  fulfilled with [o]: the starting caller stores the image (when
  [useCache]) and deletes the key from [loadingPromises]. *)
Definition resume_ok (id : nat) (key : jsstring) (o : ImageObj) (ws : list Waiter) (st : state) : state :=
  fold_left (fun st w =>
    if w_owner w then
      mkState (if w_useCache w then JsMap.set key o (loadedImages st) else loadedImages st)
        (JsMap.delete key (loadingPromises st)) (loads st) (waiters st)
        (results st ++ [(w_caller w, inr o)]) (cacheManager st)
    else settle_caller (w_caller w) (inr o) st) ws st.

Definition awaiting (id : nat) (ws : list Waiter) : list Waiter := List.filter (fun w => w_load w =? id) ws.
Definition not_awaiting (id : nat) (ws : list Waiter) : list Waiter := List.filter (fun w => negb (w_load w =? id)) ws.

Definition set_load (id : nat) (s : promise_state) (st : state) : state :=
  mkState (loadedImages st) (loadingPromises st)
    (alter (fun l => mkLoad (ld_key l) (ld_source l) s) id (loads st))
    (not_awaiting id (waiters st)) (results st) (cacheManager st).

(** The tail of [_loadImageInternal] when the image element loaded with
  object URL [u]: the thumbnail (if generated) and the image go into the
  [ImageCacheManager], then the promise fulfils. *)
Definition loadOk (id : nat) (u : jsstring) (thumb : option jsstring) (md : jsval) (now : Z) (st : state)
    : option state :=
  match loads st !! id with
  | Some (mkLoad key src Pending) =>
      let cm := match thumb with
                | Some t => ImageCache.setThumbnail key t now (cacheManager st)
                | None => cacheManager st
                end in
      let cm' := ImageCache.set key u md now cm in
      let o := mkImageObj id key src u thumb in
      let st' := set_load id (Fulfilled o) st in
      Some (resume_ok id key o (awaiting id (waiters st))
              (mkState (loadedImages st') (loadingPromises st') (loads st') (waiters st') (results st') cm'))
  | _ => None
  end.

(** The rejection of an internal load (the image element failed): every
  awaiting caller rethrows; [loadingPromises] keeps the key. *)
Definition loadFail (id : nat) (e : js_error) (st : state) : option state :=
  match loads st !! id with
  | Some (mkLoad key src Pending) =>
      let st' := set_load id (Rejected e) st in
      Some (fold_left (fun st w => settle_caller (w_caller w) (inl e) st) (awaiting id (waiters st)) st')
  | _ => None
  end.

Inductive event :=
| ECall (caller : nat) (source : Source) (useCache : bool)
| ELoadOk (id : nat) (u : jsstring) (thumb : option jsstring) (md : jsval) (now : Z)
| ELoadFail (id : nat) (e : js_error).

Definition step (ev : event) (st : state) : option state :=
  match ev with
  | ECall c s uc => Some (loadImage c s uc st)
  | ELoadOk id u t md now => loadOk id u t md now st
  | ELoadFail id e => loadFail id e st
  end.

Fixpoint run (evs : list event) (st : state) : option state :=
  match evs with
  | [] => Some st
  | ev :: evs' => st' ← step ev st; run evs' st'
  end.

Inductive reachable (cm : ImageCache.state) : state -> Prop :=
| reach_init : reachable cm (init cm)
| reach_step ev st st' : reachable cm st -> step ev st = Some st' -> reachable cm st'.

(** ** [loadImages] *)

Section LoadImages.
Context {A : Type}.

(** [for (let i = 0; i < sources.length; i += concurrency)] with
  [batch = sources.slice(i, i + concurrency)], for a number
  [concurrency]: the batches in order, [None] when [fuel] iterations do
  not finish the loop. *)
Fixpoint batch_loop (fuel i c : nat) (sources : list A) : option (list (list A)) :=
  match fuel with
  | 0 => None
  | S f =>
      if i <? length sources then
        bs ← batch_loop f (i + c) c sources; Some (take c (drop i sources) :: bs)
      else Some []
  end.

(** The batches for [concurrency] ([None] is [undefined], the default
  [CONFIG.IMAGE.CONCURRENT_LOADS]): [slice(0, 0 + undefined)] is empty and
  [i += undefined] makes [i] [NaN], which ends the loop. *)
Definition batches (concurrency : option nat) (sources : list A) (fuel : nat) : option (list (list A)) :=
  match concurrency with
  | Some c => batch_loop fuel 0 c sources
  | None => Some (if 0 <? length sources then [[]] else [])
  end.

(** [loadImages(sources, {concurrency})]: every source of every batch is
  passed to [loadImage], whose outcome ([None] for a failure caught as
  [null]) is an input; [results.filter(Boolean)] keeps the images. *)
Definition loadImages (outcome : A -> option ImageObj) (concurrency : option nat) (sources : list A) (fuel : nat)
    : option (list ImageObj) :=
  bs ← batches concurrency sources fuel; Some (omap outcome (concat bs)).
End LoadImages.

(** ** Invariants *)

(** Every pending load is the one [loadingPromises] records for its key. *)
Definition single_flight (st : state) : Prop :=
  forall id l, loads st !! id = Some l -> ld_state l = Pending ->
    JsMap.get (ld_key l) (loadingPromises st) = Some id.

(** Key [k] is stuck on the rejected load [i]. *)
Definition stuck (k : jsstring) (i : nat) (e : js_error) (st : state) : Prop :=
  JsMap.get k (loadingPromises st) = Some i /\ ld_state <$> loads st !! i = Some (Rejected e) /\
  JsMap.get k (loadedImages st) = None.

(** ** Lemmas *)

Lemma fold_settle_fields (r : nat -> js_error + ImageObj) (ws : list Waiter) (st : state) :
  let st' := fold_left (fun st w => settle_caller (w_caller w) (r (w_caller w)) st) ws st in
  loadedImages st' = loadedImages st /\ loadingPromises st' = loadingPromises st /\ loads st' = loads st.
Proof.
  revert st. induction ws as [|w ws IH]; intros st; simpl; [done|].
  by destruct (IH (settle_caller (w_caller w) (r (w_caller w)) st)) as (-> & -> & ->).
Qed.

Lemma resume_ok_fields (id : nat) (key : jsstring) (o : ImageObj) (ws : list Waiter) (st : state) :
  let st' := resume_ok id key o ws st in
  loads st' = loads st /\
  (forall k, k <> key -> JsMap.get k (loadingPromises st') = JsMap.get k (loadingPromises st)) /\
  (forall k, k <> key -> JsMap.get k (loadedImages st') = JsMap.get k (loadedImages st)).
Proof.
  unfold resume_ok. revert st. induction ws as [|w ws IH]; intros st; simpl; [done|].
  match goal with |- context [fold_left _ ws ?s] => destruct (IH s) as (Hl & Hp & Hi) end.
  split; [|split].
  - rewrite Hl. by destruct (w_owner w).
  - intros k Hk. rewrite Hp by done. destruct (w_owner w); simpl; [|done]. by apply JsMap.get_delete_ne.
  - intros k Hk. rewrite Hi by done. destruct (w_owner w); simpl; [|done].
    destruct (w_useCache w); [by apply JsMap.get_set_ne|done].
Qed.

Lemma lookup_set_load (id j : nat) (s : promise_state) (st : state) :
  loads (set_load id s st) !! j =
    if decide (id = j) then (fun l => mkLoad (ld_key l) (ld_source l) s) <$> loads st !! id else loads st !! j.
Proof. apply list_lookup_alter. Qed.

(** A call starts a load only for a key without one in flight; it then
  records the new load under the key. *)
Lemma loadImage_cases (c : nat) (src : Source) (uc : bool) (st : state) :
  (loads (loadImage c src uc st) = loads st /\ loadingPromises (loadImage c src uc st) = loadingPromises st /\
   loadedImages (loadImage c src uc st) = loadedImages st) \/
  (exists key, _generateCacheKey src = inr key /\ JsMap.get key (loadingPromises st) = None /\
     (exists s, loads (loadImage c src uc st) = loads st ++ [mkLoad key src s]) /\
     loadingPromises (loadImage c src uc st) = JsMap.set key (length (loads st)) (loadingPromises st) /\
     loadedImages (loadImage c src uc st) = loadedImages st).
Proof.
  unfold loadImage. destruct (_generateCacheKey src) as [e|key]; [by left|].
  destruct (if uc then _ else None); [by left|].
  destruct (JsMap.get key (loadingPromises st)) as [id|] eqn:E.
  - left. by destruct (ld_state <$> loads st !! id) as [[]|].
  - right. exists key. split; [done|]. split; [done|].
    split; [|by destruct emitImageLoading_defined]. by destruct emitImageLoading_defined; eexists.
Qed.

Lemma loadOk_shape (id : nat) (u : jsstring) (t : option jsstring) (md : jsval) (now : Z) (st st' : state) :
  loadOk id u t md now st = Some st' ->
  exists key src, loads st !! id = Some (mkLoad key src Pending) /\
    loads st' = loads (set_load id (Fulfilled (mkImageObj id key src u t)) st) /\
    (forall k, k <> key -> JsMap.get k (loadingPromises st') = JsMap.get k (loadingPromises st)) /\
    (forall k, k <> key -> JsMap.get k (loadedImages st') = JsMap.get k (loadedImages st)).
Proof.
  unfold loadOk. destruct (loads st !! id) as [[key src []]|] eqn:E; try discriminate.
  intros [= <-]. exists key, src. split; [done|].
  destruct (resume_ok_fields id key (mkImageObj id key src u t) (awaiting id (waiters st))
              (mkState (loadedImages (set_load id (Fulfilled (mkImageObj id key src u t)) st))
                 (loadingPromises (set_load id (Fulfilled (mkImageObj id key src u t)) st))
                 (loads (set_load id (Fulfilled (mkImageObj id key src u t)) st))
                 (waiters (set_load id (Fulfilled (mkImageObj id key src u t)) st))
                 (results (set_load id (Fulfilled (mkImageObj id key src u t)) st))
                 (ImageCache.set key u md now (match t with
                    | Some t0 => ImageCache.setThumbnail key t0 now (cacheManager st)
                    | None => cacheManager st end)))) as (Hl & Hp & Hi).
  split; [exact Hl|]. split; [exact Hp|exact Hi].
Qed.

Lemma loadFail_shape (id : nat) (e : js_error) (st st' : state) :
  loadFail id e st = Some st' ->
  exists key src, loads st !! id = Some (mkLoad key src Pending) /\
    loads st' = loads (set_load id (Rejected e) st) /\
    loadingPromises st' = loadingPromises st /\ loadedImages st' = loadedImages st.
Proof.
  unfold loadFail. destruct (loads st !! id) as [[key src []]|] eqn:E; try discriminate.
  intros [= <-]. exists key, src. split; [done|].
  destruct (fold_settle_fields (fun _ => inl e) (awaiting id (waiters st)) (set_load id (Rejected e) st))
    as (Hi & Hp & Hl).
  split; [exact Hl|]. split; [exact Hp|exact Hi].
Qed.

(** A settled load is no longer pending; the other loads are unchanged. *)
Lemma set_load_pending (id j : nat) (s : promise_state) (st : state) (l : Load) :
  s <> Pending -> loads (set_load id s st) !! j = Some l -> ld_state l = Pending ->
  id <> j /\ loads st !! j = Some l.
Proof.
  intros Hs. rewrite lookup_set_load. case_decide as Hij.
  - subst. destruct (loads st !! j); simpl; [|discriminate]. intros [= <-]. simpl. done.
  - by intros.
Qed.

Lemma step_single_flight (ev : event) (st st' : state) :
  single_flight st -> step ev st = Some st' -> single_flight st'.
Proof.
  intros Hsf Hstep. destruct ev as [c src uc|id u t md now|id e]; simpl in Hstep.
  - injection Hstep as <-. unfold single_flight in *. destruct (loadImage_cases c src uc st)
      as [(-> & -> & _)|(key & _ & Hnone & [s' ->] & -> & _)]; [done|].
    intros j l Hl Hp. apply lookup_snoc_Some in Hl as [[_ Hl]|[-> <-]].
    + specialize (Hsf j l Hl Hp). destruct (decide (ld_key l = key)) as [E|Hne]; [rewrite E in Hsf; congruence|].
      by rewrite JsMap.get_set_ne.
    + apply JsMap.get_set_eq.
  - destruct (loadOk_shape id u t md now st st' Hstep) as (key & src & Hid & Hl & Hp & _).
    intros j l Hj Hpj. rewrite Hl in Hj. apply set_load_pending in Hj as [Hij Hj]; [|discriminate|done].
    pose proof (Hsf j l Hj Hpj) as Hk. pose proof (Hsf id _ Hid eq_refl) as Hk'. simpl in Hk'.
    rewrite Hp; [done|]. intros Heq. rewrite Heq in Hk. congruence.
  - destruct (loadFail_shape id e st st' Hstep) as (key & src & Hid & Hl & Hp & _).
    intros j l Hj Hpj. rewrite Hl in Hj. apply set_load_pending in Hj as [_ Hj]; [|discriminate|done].
    rewrite Hp. by apply Hsf.
Qed.

Lemma reachable_single_flight (cm : ImageCache.state) (st : state) : reachable cm st -> single_flight st.
Proof.
  induction 1 as [|ev st st' _ IH Hstep]; [intros id l Hl; cbn [loads init] in Hl; by rewrite lookup_nil in Hl|].
  by eapply step_single_flight.
Qed.

Lemma step_stuck (k : jsstring) (i : nat) (e : js_error) (ev : event) (st st' : state) :
  single_flight st -> stuck k i e st -> step ev st = Some st' -> stuck k i e st'.
Proof.
  intros Hsf (Hk & Hi & Hl) Hstep. unfold stuck. destruct ev as [c src uc|id u t md now|id e']; simpl in Hstep.
  - injection Hstep as <-. destruct (loadImage_cases c src uc st)
      as [(-> & -> & ->)|(key & _ & Hnone & [s' ->] & -> & ->)]; [done|].
    assert (Hne : k <> key) by congruence.
    split; [by rewrite JsMap.get_set_ne|]. split; [|done].
    destruct (loads st !! i) eqn:E; [|discriminate]. by rewrite lookup_app_l, E by (eapply lookup_lt_Some; eauto).
  - destruct (loadOk_shape id u t md now st st' Hstep) as (key & src & Hid & Hls & Hp & Hli).
    pose proof (Hsf id _ Hid eq_refl) as Hkey. simpl in Hkey.
    assert (Hne : k <> key).
    { intros ->. rewrite Hk in Hkey. injection Hkey as ->. rewrite Hid in Hi. discriminate. }
    split; [by rewrite Hp|]. split; [|by rewrite Hli].
    rewrite Hls, lookup_set_load. case_decide; [subst; rewrite Hid in Hi; discriminate|done].
  - destruct (loadFail_shape id e' st st' Hstep) as (key & src & Hid & Hls & Hp & Hli).
    split; [by rewrite Hp|]. split; [|by rewrite Hli].
    rewrite Hls, lookup_set_load. case_decide; [subst; rewrite Hid in Hi; discriminate|done].
Qed.

Lemma batch_loop_spec (c : nat) (sources : list Source) (fuel i : nat) :
  0 < c -> i <= length sources -> length sources - i < fuel ->
  exists bs, batch_loop fuel i c sources = Some bs /\ concat bs = drop i sources /\
    Forall (fun b => length b <= c) bs.
Proof.
  intros Hc. revert i. induction fuel as [|f IH]; intros i Hi Hf; [lia|]. simpl.
  destruct (Nat.ltb_spec i (length sources)) as [Hlt|Hge].
  - destruct (decide (i + c <= length sources)) as [Hle|Hgt].
    + destruct (IH (i + c)) as (bs & -> & Hcat & Hall); [lia|lia|]. simpl.
      eexists. split; [reflexivity|]. split; [|constructor; [rewrite length_take; lia|done]].
      simpl. rewrite Hcat, <- drop_drop. apply take_drop.
    + destruct f as [|f']; [lia|]. simpl. rewrite (proj2 (Nat.ltb_ge _ _)) by lia. simpl.
      eexists. split; [reflexivity|]. split; [|constructor; [rewrite length_take; lia|done]].
      simpl. rewrite app_nil_r. apply take_ge. rewrite length_drop. lia.
  - eexists. split; [reflexivity|]. split; [|done]. simpl. symmetry. apply drop_ge. lia.
Qed.

End Loader.

(** The repository's invariant: every load is rejected, nothing is
  loaded, every settled call rejected, the image cache untouched. *)
Definition repository_inv (cm : ImageCache.state) (st : state) : Prop :=
  Forall (fun l => exists e, ld_state l = Rejected e) (loads st) /\ loadedImages st = [] /\
  (forall c r, (c, r) ∈ results st -> exists e, r = inl e) /\ cacheManager st = cm.

Lemma settle_caller_inv (cm : ImageCache.state) (st : state) (c : nat) (e : js_error) :
  repository_inv cm st -> repository_inv cm (settle_caller c (inl e) st).
Proof.
  intros (Hl & Hi & Hr & Hc). split; [done|]. split; [done|]. split; [|done].
  intros c' r Hin. apply elem_of_app in Hin as [Hin|Hin]; [by eapply Hr|].
  apply list_elem_of_singleton in Hin. injection Hin as -> ->. eauto.
Qed.

Lemma step_repository_inv (cm : ImageCache.state) (ev : event) (st st' : state) :
  repository_inv cm st -> step repository_emitImageLoading_defined ev st = Some st' -> repository_inv cm st'.
Proof.
  intros Hinv Hstep. destruct Hinv as (Hl & Hi & Hr & Hc) eqn:Hinv'. clear Hinv'.
  assert (Hnp : forall id l, loads st !! id = Some l -> ld_state l <> Pending).
  { intros id l Hid. rewrite Forall_lookup in Hl. destruct (Hl id l Hid) as [e ->]. discriminate. }
  destruct ev as [c src uc|id u t md now|id e']; simpl in Hstep.
  - injection Hstep as <-. unfold loadImage.
    destruct (_generateCacheKey src) as [e|key]; [by apply settle_caller_inv|].
    rewrite Hi. replace (if uc then JsMap.get key [] else None) with (@None ImageObj) by (by destruct uc).
    destruct (JsMap.get key (loadingPromises st)) as [id|].
    + destruct (loads st !! id) as [l|] eqn:E; simpl.
      * rewrite Forall_lookup in Hl. destruct (Hl id l E) as [e ->]. by apply settle_caller_inv.
      * split; [done|]. split; [done|]. split; [done|done].
    + split; [|split; [done|split; [|done]]].
      * apply Forall_app. split; [done|]. constructor; [eexists; reflexivity|constructor].
      * intros c' r Hin. apply elem_of_app in Hin as [Hin|Hin]; [by eapply Hr|].
        apply list_elem_of_singleton in Hin. injection Hin as -> ->. eauto.
  - unfold loadOk in Hstep. destruct (loads st !! id) as [[key src []]|] eqn:E; try discriminate.
    exfalso. by apply (Hnp id _ E).
  - unfold loadFail in Hstep. destruct (loads st !! id) as [[key src []]|] eqn:E; try discriminate.
    exfalso. by apply (Hnp id _ E).
Qed.


(** ** Properties *)

Definition sample_file : Source := SFile (js "cat.jpg") 2048 1700.

(** C13: single flight: in every state the event loop can reach, at most
  one internal load per cache key is in flight; concurrent [loadImage]
  calls for the same file share it. *)
Theorem at_most_one_load_in_flight (defined : bool) (cm : ImageCache.state) (st : state) :
  reachable defined cm st ->
  forall i j li lj, loads st !! i = Some li -> loads st !! j = Some lj ->
    ld_state li = Pending -> ld_state lj = Pending -> ld_key li = ld_key lj -> i = j.
Proof.
  intros Hr i j li lj Hi Hj Hpi Hpj Hk. pose proof (reachable_single_flight defined cm st Hr) as Hsf.
  pose proof (Hsf i li Hi Hpi) as E1. pose proof (Hsf j lj Hj Hpj) as E2. rewrite Hk in E1. congruence.
Qed.

Lemma at_most_one_load_in_flight_witness :
  let st := loadImage true 2 sample_file true (loadImage true 1 sample_file true (init ImageCache.repository_init)) in
  reachable true ImageCache.repository_init st /\ length (loads st) = 1 /\
  (forall li lj, loads st !! 0 = Some li -> loads st !! 0 = Some lj ->
     ld_state li = Pending -> ld_state lj = Pending -> ld_key li = ld_key lj -> 0 = 0).
Proof.
  assert (Hr : reachable true ImageCache.repository_init
                 (loadImage true 2 sample_file true (loadImage true 1 sample_file true (init ImageCache.repository_init)))).
  { eapply (reach_step _ _ (ECall 2 sample_file true)); [|reflexivity].
    eapply (reach_step _ _ (ECall 1 sample_file true)); [constructor|reflexivity]. }
  split; [exact Hr|]. split; [vm_compute; reflexivity|].
  intros li lj Hi Hj Hpi Hpj Hk. exact (at_most_one_load_in_flight _ _ _ Hr 0 0 li lj Hi Hj Hpi Hpj Hk).
Defined.

(** a failed load is never retried: once the load of key [k] has
  rejected with [e] (the entry stays in [loadingPromises]), whatever
  happens afterwards, every [loadImage] of a source with key [k] rejects
  with the same [e] at once and starts no load. *)
Theorem failed_load_never_retried (defined : bool) (cm : ImageCache.state) (st st' : state) (k : jsstring) (i : nat)
    (e : js_error) (evs : list event) :
  reachable defined cm st -> stuck k i e st -> run defined evs st = Some st' ->
  stuck k i e st' /\
  forall c src uc, _generateCacheKey src = inr k -> loadImage defined c src uc st' = settle_caller c (inl e) st'.
Proof.
  intros Hr Hs Hrun.
  assert (Hs' : stuck k i e st').
  { revert st Hr Hs Hrun. induction evs as [|ev evs IH]; intros st Hr Hs; simpl; [by intros [= <-]|].
    destruct (step defined ev st) as [s|] eqn:E; simpl; [|discriminate]. apply IH; [by econstructor|].
    eapply step_stuck; [by eapply reachable_single_flight|exact Hs|exact E]. }
  split; [done|]. intros c src uc Hkey. destruct Hs' as (Hk & Hi & Hl).
  unfold loadImage. rewrite Hkey, Hk, Hi. by destruct uc; [rewrite Hl|].
Qed.

Lemma failed_load_never_retried_witness :
  let err := Error (js "image load failed") in
  let st := loadImage true 1 sample_file true (init ImageCache.repository_init) in
  exists st', loadFail 0 err st = Some st' /\ reachable true ImageCache.repository_init st' /\
    stuck (js "file:cat.jpg:2048:1700") 0 err st' /\
    loadImage true 2 sample_file true st' = settle_caller 2 (inl err) st'.
Proof.
  eexists. split; [reflexivity|].
  assert (Hr : reachable true ImageCache.repository_init
                 (fold_left (fun st w => settle_caller (w_caller w) (inl (Error (js "image load failed"))) st)
                    (awaiting 0 (waiters (loadImage true 1 sample_file true (init ImageCache.repository_init))))
                    (set_load 0 (Rejected (Error (js "image load failed")))
                       (loadImage true 1 sample_file true (init ImageCache.repository_init))))).
  { eapply (reach_step _ _ (ELoadFail 0 (Error (js "image load failed")))
              (loadImage true 1 sample_file true (init ImageCache.repository_init))); [|reflexivity].
    eapply (reach_step _ _ (ECall 1 sample_file true)); [constructor|reflexivity]. }
  assert (Hs : stuck (js "file:cat.jpg:2048:1700") 0 (Error (js "image load failed"))
                 (fold_left (fun st w => settle_caller (w_caller w) (inl (Error (js "image load failed"))) st)
                    (awaiting 0 (waiters (loadImage true 1 sample_file true (init ImageCache.repository_init))))
                    (set_load 0 (Rejected (Error (js "image load failed")))
                       (loadImage true 1 sample_file true (init ImageCache.repository_init))))).
  { split; [vm_compute; reflexivity|]. split; vm_compute; reflexivity. }
  split; [exact Hr|]. split; [exact Hs|].
  apply (proj2 (failed_load_never_retried _ _ _ _ _ _ _ [] Hr Hs eq_refl)). vm_compute. reflexivity.
Defined.

(** the batch plan of [loadImages]: with a positive [concurrency]
  the loop terminates and its batches, each of at most [concurrency]
  sources, are the sources in order, each exactly once; with the default
  [concurrency] ([CONFIG.IMAGE.CONCURRENT_LOADS], which is [undefined])
  no source is loaded and the result is empty; with [concurrency = 0] the
  loop never terminates on a non-empty array. *)
Theorem loadImages_batch_plan (sources : list Source) (c fuel : nat) (outcome : Source -> option ImageObj) :
  (0 < c -> length sources < fuel ->
   exists bs, batches (Some c) sources fuel = Some bs /\ concat bs = sources /\
     Forall (fun b => length b <= c) bs) /\
  loadImages outcome None sources fuel = Some [] /\
  (sources <> [] -> batches (Some 0) sources fuel = None).
Proof.
  split; [|split].
  - intros Hc Hf. destruct (batch_loop_spec c sources fuel 0 Hc) as (bs & H1 & H2 & H3); [lia|lia|].
    exists bs. split; [done|]. split; [done|done].
  - unfold loadImages, batches. simpl. by destruct (0 <? length sources).
  - intros Hne. unfold batches. induction fuel as [|f IH]; simpl; [done|].
    destruct sources as [|x xs]; [done|]. simpl. by rewrite IH.
Qed.

Lemma loadImages_batch_plan_witness :
  let srcs := [sample_file; SFile (js "dog.jpg") 10 0; SFile (js "owl.jpg") 20 0] in
  (0 < 2 /\ length srcs < 4 /\
   exists bs, batches (Some 2) srcs 4 = Some bs /\ concat bs = srcs /\ Forall (fun b => length b <= 2) bs) /\
  loadImages (fun _ => None) None srcs 4 = Some [] /\
  (srcs <> [] /\ batches (Some 0) srcs 4 = None).
Proof.
  destruct (loadImages_batch_plan [sample_file; SFile (js "dog.jpg") 10 0; SFile (js "owl.jpg") 20 0] 2 4
              (fun _ => None)) as (H1 & H2 & H3).
  split; [split; [lia|split; [simpl; lia|apply H1; simpl; lia]]|].
  split; [exact H2|]. split; [discriminate|apply H3; discriminate].
Defined.

(** C6: in the repository no image ever loads: [_loadImageInternal]
  throws at its first statement ([eventManager.emitImageLoading] is not
  defined) and URL sources fail on the missing [StringUtils.hash], so in
  every reachable state [loadedImages] is empty, every settled
  [loadImage] call was rejected, and the [ImageCacheManager] was never
  written. *)
Theorem repository_no_image_loads (cm : ImageCache.state) (st : state) :
  reachable repository_emitImageLoading_defined cm st ->
  loadedImages st = [] /\ (forall c r, (c, r) ∈ results st -> exists e, r = inl e) /\ cacheManager st = cm.
Proof.
  intros Hr. assert (H : repository_inv cm st).
  { induction Hr as [|ev st st' _ IH Hstep]; [|by eapply step_repository_inv].
    split; [constructor|]. split; [done|]. split; [|done]. intros c r Hin. by apply not_elem_of_nil in Hin. }
  destruct H as (_ & Hi & Hres & Hc). done.
Qed.

Lemma repository_no_image_loads_witness :
  let st := loadImage false 2 sample_file true (loadImage false 1 sample_file true (init ImageCache.repository_init)) in
  reachable repository_emitImageLoading_defined ImageCache.repository_init st /\
  results st = [(1, inl emitImageLoading_error); (2, inl emitImageLoading_error)] /\
  loadedImages st = [] /\ cacheManager st = ImageCache.repository_init.
Proof.
  assert (Hr : reachable repository_emitImageLoading_defined ImageCache.repository_init
                 (loadImage false 2 sample_file true (loadImage false 1 sample_file true (init ImageCache.repository_init)))).
  { eapply (reach_step _ _ (ECall 2 sample_file true)); [|reflexivity].
    eapply (reach_step _ _ (ECall 1 sample_file true)); [constructor|reflexivity]. }
  split; [exact Hr|]. split; [vm_compute; reflexivity|].
  destruct (repository_no_image_loads _ _ Hr) as (H1 & _ & H3). done.
Defined.

End ImageLoader.
