(* ===== verification/EventManager.v ===== *)
(** * [EventManager]: prioritised publish/subscribe

    [src/src/js/eventManager.js], class [EventManager]: [this.events] maps
    an event name to its array of listener wrappers
    [{listener, once, priority, context, id}], kept in decreasing
    priority and, within a priority, in registration order ([on] inserts a
    new wrapper before the first one of strictly lower priority).  [emit]
    calls a snapshot of the array in order, catches each listener's
    exception, removes a [once] wrapper after its call returns, and
    reports whether some listener returned normally; [off] removes one
    wrapper by id or by function and drops the event when its array
    becomes empty.

    Listeners are opaque: a listener is a function identity [nat] and its
    behaviour on a call is an input ([throws]: whether it throws).  The
    ids of [_generateId()] (time and [Math.random] in base 36) are modelled
    as distinct numbers from a counter.  Listeners that call back into the
    manager during [emit] are not modelled. *)

From Stdlib Require Import Sorted.
From S2P Require Import Prelude JsMap.

Module EventManager.

Record ListenerWrapper := mkWrapper {
  listener : nat;
  once : bool;
  priority : Z;
  id : nat
}.

Record state := mkState {
  events : JsMap.t jsstring (list ListenerWrapper);
  maxListeners : nat;
  next_id : nat;
  warnings : list jsstring
}.

(** [constructor()]: no events, [maxListeners = 10]. *)
Definition init : state := mkState JsMap.empty 10 0 [].

(** The options of [on]: [options.once || false], [options.priority || 0]. *)
Record Options := mkOptions { opt_once : bool; opt_priority : option Z }.

Definition default_options : Options := mkOptions false None.

(** [listeners.findIndex(l => l.priority < p)], [None] for [-1]. *)
Fixpoint findLower (p : Z) (ls : list ListenerWrapper) : option nat :=
  match ls with
  | [] => None
  | l :: ls' => if (priority l <? p)%Z then Some 0 else S <$> findLower p ls'
  end.

(** The insertion of [on]: [splice(insertIndex, 0, w)] or [push(w)]. *)
Definition insertByPriority (w : ListenerWrapper) (ls : list ListenerWrapper) : list ListenerWrapper :=
  match findLower (priority w) ls with
  | Some i => take i ls ++ w :: drop i ls
  | None => ls ++ [w]
  end.

(** [on(eventName, listener, options)]: the new state and the id its
  unsubscribe function removes. *)
Definition on (eventName : jsstring) (f : nat) (options : Options) (st : state) : state * nat :=
  let listeners := default [] (JsMap.get eventName (events st)) in
  let warn := if maxListeners st <=? length listeners then [eventName] else [] in
  let w := mkWrapper f (opt_once options) (default 0%Z (opt_priority options)) (next_id st) in
  (mkState (JsMap.set eventName (insertByPriority w listeners) (events st)) (maxListeners st)
     (S (next_id st)) (warnings st ++ warn), next_id st).

(** [once(eventName, listener, options)]. *)
Definition once_ (eventName : jsstring) (f : nat) (options : Options) (st : state) : state * nat :=
  on eventName f (mkOptions true (opt_priority options)) st.

(** The argument of [off]: a wrapper id (a string) or a function. *)
Inductive listenerOrId := ById (i : nat) | ByFunction (f : nat).

Definition matches (x : listenerOrId) (l : ListenerWrapper) : bool :=
  match x with ById i => id l =? i | ByFunction f => listener l =? f end.

(** [listeners.findIndex(...)] and [splice(index, 1)]: drop the first match. *)
Fixpoint removeFirst (x : listenerOrId) (ls : list ListenerWrapper) : list ListenerWrapper :=
  match ls with
  | [] => []
  | l :: ls' => if matches x l then ls' else l :: removeFirst x ls'
  end.

(** [off(eventName, listenerOrId)]. *)
Definition off (eventName : jsstring) (x : listenerOrId) (st : state) : state :=
  match JsMap.get eventName (events st) with
  | None => st
  | Some ls =>
      let ls' := removeFirst x ls in
      mkState (match ls' with
               | [] => JsMap.delete eventName (events st)
               | _ => JsMap.set eventName ls' (events st)
               end) (maxListeners st) (next_id st) (warnings st)
  end.

(** [emit(eventName, ...args)] where [throws f] tells whether listener [f]
  throws on this call: the new state, the result, and the listeners
  called in order. *)
Definition emit (eventName : jsstring) (throws : nat -> bool) (st : state) : state * bool * list nat :=
  match JsMap.get eventName (events st) with
  | None => (st, false, [])
  | Some snapshot =>
      fold_left (fun acc w =>
        let '(st, hasListeners, called) := acc in
        if throws (listener w) then (st, hasListeners, called ++ [listener w])
        else ((if once w then off eventName (ById (id w)) st else st), true, called ++ [listener w]))
        snapshot (st, false, [])
  end.

(** [listenerCount(eventName)]. *)
Definition listenerCount (eventName : jsstring) (st : state) : nat :=
  length (default [] (JsMap.get eventName (events st))).

(** [removeAllListeners(eventName)]. *)
Definition removeAllListeners (eventName : option jsstring) (st : state) : state :=
  mkState (match eventName with Some n => JsMap.delete n (events st) | None => JsMap.empty end)
    (maxListeners st) (next_id st) (warnings st).

(** [namespace(ns)]: event names prefixed with [`${ns}:`]. *)
Definition prefixEvent (ns eventName : jsstring) : jsstring := ns ++ js ":" ++ eventName.

(** Registering [(listener, options)] pairs in order on one event. *)
Fixpoint onAll (eventName : jsstring) (regs : list (nat * Options)) (st : state) : state :=
  match regs with
  | [] => st
  | (f, o) :: regs' => onAll eventName regs' (fst (on eventName f o st))
  end.

(** The wrappers those registrations create, ids from [n] on. *)
Fixpoint wrappersOf (regs : list (nat * Options)) (n : nat) : list ListenerWrapper :=
  match regs with
  | [] => []
  | (f, o) :: regs' => mkWrapper f (opt_once o) (default 0%Z (opt_priority o)) n :: wrappersOf regs' (S n)
  end.

(** Decreasing priority. *)
Definition by_priority (a b : ListenerWrapper) : Prop := (priority b <= priority a)%Z.

(** The listeners of priority [p], in order. *)
Definition of_priority (p : Z) (ls : list ListenerWrapper) : list ListenerWrapper :=
  List.filter (fun l => (priority l =? p)%Z) ls.

(** ** Lemmas *)

Lemma insert_cons (w l : ListenerWrapper) (ls : list ListenerWrapper) :
  insertByPriority w (l :: ls) =
    if (priority l <? priority w)%Z then w :: l :: ls else l :: insertByPriority w ls.
Proof.
  unfold insertByPriority. simpl. destruct (priority l <? priority w)%Z; [done|].
  by destruct (findLower (priority w) ls).
Qed.

Lemma insert_hd (a w : ListenerWrapper) (ls : list ListenerWrapper) :
  by_priority a w -> HdRel by_priority a ls -> HdRel by_priority a (insertByPriority w ls).
Proof.
  intros Haw Hhd. destruct ls as [|l ls]; [by constructor|]. rewrite insert_cons.
  inversion Hhd; subst. destruct (priority l <? priority w)%Z; by constructor.
Qed.

Lemma insert_sorted (w : ListenerWrapper) (ls : list ListenerWrapper) :
  Sorted by_priority ls -> Sorted by_priority (insertByPriority w ls).
Proof.
  induction 1 as [|l ls Hs IH Hhd]; [by repeat constructor|]. rewrite insert_cons.
  destruct (Z.ltb_spec (priority l) (priority w)) as [Hlt|Hge].
  - constructor; [by constructor|]. constructor. unfold by_priority. lia.
  - constructor; [done|]. apply insert_hd; [unfold by_priority; lia|done].
Qed.

(** In a list sorted by decreasing priority below [priority w], no
  listener has the priority of [w]. *)
Lemma of_priority_below (w l : ListenerWrapper) (ls : list ListenerWrapper) :
  Sorted by_priority (l :: ls) -> (priority l < priority w)%Z -> of_priority (priority w) (l :: ls) = [].
Proof.
  intros Hs Hlt. apply Sorted_StronglySorted in Hs; [|intros ???; unfold by_priority; lia].
  unfold of_priority. apply StronglySorted_inv in Hs as [_ Hall]. simpl.
  rewrite (proj2 (Z.eqb_neq _ _)) by lia.
  induction ls as [|x ls IH]; [done|]. simpl. inversion Hall as [|? ? Hx Hall']; subst.
  unfold by_priority in Hx. rewrite (proj2 (Z.eqb_neq _ _)) by lia. by apply IH.
Qed.

(** Insertion is stable: [w] comes after every listener of its priority. *)
Lemma insert_of_priority (w : ListenerWrapper) (ls : list ListenerWrapper) (p : Z) :
  Sorted by_priority ls ->
  of_priority p (insertByPriority w ls) = of_priority p ls ++ (if (priority w =? p)%Z then [w] else []).
Proof.
  induction 1 as [|l ls Hs IH Hhd].
  - unfold insertByPriority, of_priority. simpl. by destruct (priority w =? p)%Z.
  - rewrite insert_cons. destruct (Z.ltb_spec (priority l) (priority w)) as [Hlt|Hge].
    + destruct (Z.eqb_spec (priority w) p) as [<-|Hne].
      * assert (E := of_priority_below w l ls (Sorted_cons Hs Hhd) Hlt).
        unfold of_priority in *. simpl in *. rewrite Z.eqb_refl, E. done.
      * unfold of_priority. simpl. rewrite (proj2 (Z.eqb_neq _ _) Hne). by rewrite app_nil_r.
    + unfold of_priority in *. simpl. rewrite IH. by destruct (priority l =? p)%Z.
Qed.

Lemma on_listeners (eventName : jsstring) (f : nat) (o : Options) (st : state) :
  JsMap.get eventName (events (fst (on eventName f o st))) =
    Some (insertByPriority (mkWrapper f (opt_once o) (default 0%Z (opt_priority o)) (next_id st))
            (default [] (JsMap.get eventName (events st)))).
Proof. apply JsMap.get_set_eq. Qed.

Lemma onAll_spec (eventName : jsstring) (regs : list (nat * Options)) (st : state) :
  Sorted by_priority (default [] (JsMap.get eventName (events st))) ->
  let ls := default [] (JsMap.get eventName (events (onAll eventName regs st))) in
  Sorted by_priority ls /\
  forall p, of_priority p ls =
    of_priority p (default [] (JsMap.get eventName (events st))) ++ of_priority p (wrappersOf regs (next_id st)).
Proof.
  revert st. induction regs as [|[f o] regs IH]; intros st Hs; simpl.
  - split; [done|]. intros p. by rewrite app_nil_r.
  - destruct (IH (fst (on eventName f o st))) as [Hs' Hp].
    { rewrite on_listeners. simpl. by apply insert_sorted. }
    split; [done|]. intros p. rewrite Hp, on_listeners. simpl.
    rewrite insert_of_priority by done. rewrite <- app_assoc. f_equal.
    unfold of_priority. simpl. by destruct (default 0%Z (opt_priority o) =? p)%Z.
Qed.

Lemma removeFirst_keeps (i : nat) (w : ListenerWrapper) (ls : list ListenerWrapper) :
  id w <> i -> w ∈ ls -> w ∈ removeFirst (ById i) ls.
Proof.
  intros Hne. induction ls as [|l ls IH]; simpl; intros Hin; [by apply not_elem_of_nil in Hin|].
  apply elem_of_cons in Hin as [->|Hin].
  - rewrite (proj2 (Nat.eqb_neq _ _) Hne). left.
  - destruct (id l =? i); [done|]. right. by apply IH.
Qed.

Lemma off_keeps (eventName : jsstring) (i : nat) (w : ListenerWrapper) (st : state) :
  id w <> i -> w ∈ default [] (JsMap.get eventName (events st)) ->
  w ∈ default [] (JsMap.get eventName (events (off eventName (ById i) st))).
Proof.
  intros Hne Hin. unfold off. destruct (JsMap.get eventName (events st)) as [ls|]; simpl in *;
    [|by apply not_elem_of_nil in Hin].
  pose proof (removeFirst_keeps i w ls Hne Hin) as Hk.
  destruct (removeFirst (ById i) ls) as [|x xs]; [by apply not_elem_of_nil in Hk|].
  simpl. by rewrite JsMap.get_set_eq.
Qed.

Lemma NoDup_map_inj {A B : Type} (f : A -> B) (l : list A) (x y : A) :
  NoDup (map f l) -> x ∈ l -> y ∈ l -> f x = f y -> x = y.
Proof.
  induction l as [|a l IH]; simpl; intros Hnd Hx Hy Hf; [by apply not_elem_of_nil in Hx|].
  apply list.NoDup_cons in Hnd as [Hn Hnd].
  apply elem_of_cons in Hx as [->|Hx]; apply elem_of_cons in Hy as [->|Hy]; try done.
  - exfalso. apply Hn. rewrite Hf. apply list_elem_of_In, in_map, list_elem_of_In, Hy.
  - exfalso. apply Hn. rewrite <- Hf. apply list_elem_of_In, in_map, list_elem_of_In, Hx.
  - by apply IH.
Qed.

(** The listeners [emit] calls keep [w] registered as long as [w] itself
  throws and no other listener has its id. *)
Lemma emit_fold_keeps (eventName : jsstring) (throws : nat -> bool) (w : ListenerWrapper)
    (rest : list ListenerWrapper) (st : state) (b : bool) (called : list nat) :
  throws (listener w) = true -> Forall (fun w' => w' = w \/ id w' <> id w) rest ->
  w ∈ default [] (JsMap.get eventName (events st)) ->
  w ∈ default [] (JsMap.get eventName (events (fst (fst (fold_left (fun acc w =>
        let '(st, hasListeners, called) := acc in
        if throws (listener w) then (st, hasListeners, called ++ [listener w])
        else ((if once w then off eventName (ById (id w)) st else st), true, called ++ [listener w]))
        rest (st, b, called)))))).
Proof.
  intros Ht. revert st b called. induction rest as [|w' rest IH]; intros st b called Hall Hin; [done|].
  rewrite Forall_cons in Hall. destruct Hall as [Hw' Hall']. simpl.
  destruct (throws (listener w')) eqn:Ht'; apply IH; try done.
  destruct (once w'); [|done]. apply off_keeps; [|done]. destruct Hw' as [->|Hne]; [congruence|auto].
Qed.

(** ** Properties *)

(** C25: refinement of the listener order: registering listeners with [on]
  on an event that has none yields an array sorted by decreasing
  priority in which the listeners of each priority appear in
  registration order: [emit] calls them as a stable sort of the
  registrations by priority. *)
Theorem on_orders_listeners (eventName : jsstring) (regs : list (nat * Options)) (st : state) :
  JsMap.get eventName (events st) = None ->
  let ls := default [] (JsMap.get eventName (events (onAll eventName regs st))) in
  Sorted by_priority ls /\ forall p, of_priority p ls = of_priority p (wrappersOf regs (next_id st)).
Proof.
  intros Hnone. destruct (onAll_spec eventName regs st) as [Hs Hp]; [rewrite Hnone; constructor|].
  split; [done|]. intros p. by rewrite Hp, Hnone.
Qed.

Lemma on_orders_listeners_witness :
  let regs := [(1, mkOptions false None); (2, mkOptions false (Some 5%Z)); (3, mkOptions true None)] in
  JsMap.get (js "image:loaded") (events init) = None /\
  default [] (JsMap.get (js "image:loaded") (events (onAll (js "image:loaded") regs init))) =
    [mkWrapper 2 false 5 1; mkWrapper 1 false 0 0; mkWrapper 3 true 0 2] /\
  (Sorted by_priority [mkWrapper 2 false 5 1; mkWrapper 1 false 0 0; mkWrapper 3 true 0 2] /\
   forall p, of_priority p [mkWrapper 2 false 5 1; mkWrapper 1 false 0 0; mkWrapper 3 true 0 2] =
             of_priority p (wrappersOf regs (next_id init))).
Proof.
  split; [reflexivity|]. split; [vm_compute; reflexivity|].
  exact (on_orders_listeners (js "image:loaded")
           [(1, mkOptions false None); (2, mkOptions false (Some 5%Z)); (3, mkOptions true None)] init eq_refl).
Defined.

(** a [once] listener that throws is never removed: [emit] catches
  the exception before reaching [this.off], so the listener stays
  registered and is called again by the next [emit]. *)
Theorem throwing_once_listener_kept (eventName : jsstring) (throws : nat -> bool) (st : state)
    (ls : list ListenerWrapper) (w : ListenerWrapper) :
  JsMap.get eventName (events st) = Some ls -> NoDup (map id ls) -> w ∈ ls -> throws (listener w) = true ->
  w ∈ default [] (JsMap.get eventName (events (fst (fst (emit eventName throws st))))).
Proof.
  intros Hg Hnd Hin Ht. unfold emit. rewrite Hg. apply emit_fold_keeps; [done| |by rewrite Hg].
  apply Forall_forall. intros w' Hw'. destruct (decide (id w' = id w)) as [E|Hne]; [|by right].
  left. by apply (NoDup_map_inj id ls).
Qed.

Lemma throwing_once_listener_kept_witness :
  let st := fst (once_ (js "session:timeout") 7 default_options init) in
  JsMap.get (js "session:timeout") (events st) = Some [mkWrapper 7 true 0 0] /\
  NoDup (map id [mkWrapper 7 true 0 0]) /\ mkWrapper 7 true 0 0 ∈ [mkWrapper 7 true 0 0] /\
  (fun _ => true) 7 = true /\
  mkWrapper 7 true 0 0 ∈ default [] (JsMap.get (js "session:timeout")
                                       (events (fst (fst (emit (js "session:timeout") (fun _ => true) st))))).
Proof.
  assert (Hg : JsMap.get (js "session:timeout") (events (fst (once_ (js "session:timeout") 7 default_options init)))
               = Some [mkWrapper 7 true 0 0]) by reflexivity.
  assert (Hnd : NoDup (map id [mkWrapper 7 true 0 0])) by (simpl; apply list.NoDup_singleton).
  assert (Hin : mkWrapper 7 true 0 0 ∈ [mkWrapper 7 true 0 0]) by left.
  split; [exact Hg|]. split; [exact Hnd|]. split; [exact Hin|]. split; [reflexivity|].
  exact (throwing_once_listener_kept _ (fun _ => true) _ _ _ Hg Hnd Hin eq_refl).
Defined.

End EventManager.
