(* ===== verification/ModelLoader.v ===== *)
(** * [TensorFlowModelManager] and [EnhancedAIEngine.initialize]

    [src/src/js/aiEngine.js]: [loadModels] runs [_loadMobileNet] and
    [_loadCocoSsd] under [Promise.all]; each loader returns [false] when its
    library is missing or its [load] rejects (the [catch] logs
    [error.message]), [true] when the model loaded.  The overall result is
    the disjunction.  The [catch] of [loadModels] (reset, event, retry
    after 2 s while [retryCount < maxRetries]) runs only when [Promise.all]
    rejects, that is when a loader's own [catch] throws: reading
    [error.message] of a rejection reason that is [null] or [undefined].

    [_loadModelsInternal] (no caller in the repository) runs the loaders
    one after the other between [updateProgress] reports, sets [isLoaded]
    and emits ['ai:models-loaded'] whatever they returned, and retries
    after any exception while [retryCount < maxRetries].  [updateProgress]
    writes the two progress elements of the page when present.
    [classifyImage] and [detectObjects] throw when their model is absent
    and otherwise map the library's predictions.

    The outcome of each library's [load] is an input ([library]); the
    successive attempts (passes) of a call are a list, so both loaders are
    structural recursions over the attempts supplied.  The progress
    counter of a [loadModels] attempt that fails is not modelled (it
    depends on when the surviving loader settles); the events are recorded
    by name, without their payloads. *)

From Stdlib Require Import QArith.
From S2P Require Import Prelude PostProcess.

Module ModelLoader.
Import PostProcess.

(** A rejection reason of a library's [load()]. *)
Inductive reason := RError (msg : jsstring) | RNull | RUndefined.

(** The library global ([typeof mobilenet === 'undefined'] or not) and the
  outcome of its [load()]. *)
Inductive library := LibMissing | LibRejects (r : reason) | LibLoads.

(** [error.message] on the reason, inside the loader's [catch]. *)
Definition message_read (r : reason) : js_error + jsstring :=
  match r with
  | RError m => inr m
  | RNull => inl (TypeError (js "Cannot read properties of null (reading 'message')"))
  | RUndefined => inl (TypeError (js "Cannot read properties of undefined (reading 'message')"))
  end.

(** Whether [load()] fulfils: the model is then stored in [this.models]. *)
Definition is_loads (lib : library) : bool := match lib with LibLoads => true | _ => false end.

(** [_loadMobileNet()] / [_loadCocoSsd()]: the promise fulfils with a
  boolean, or rejects when the [catch] itself throws. *)
Definition _loadModel (lib : library) : js_error + bool :=
  match lib with
  | LibMissing => inr false
  | LibLoads => inr true
  | LibRejects r => match message_read r with inl e => inl e | inr _ => inr false end
  end.

Record TFManager := mkTF {
  models : list jsstring;
  loadingProgress : nat;
  isLoaded : bool;
  isLoading : bool;
  retryCount : nat;
  maxRetries : nat;
  emitted : list jsstring
}.

(** [constructor()]: [maxRetries = CONFIG.GITHUB.RETRY_COUNT = 3]. *)
Definition tf_init : TFManager := mkTF [] 0 false false 0 3 [].

Definition modelKeys (mob coco : bool) : list jsstring :=
  (if mob then [js "mobilenet"] else []) ++ (if coco then [js "cocoSsd"] else []).

(** [this.models[k] = model]: a new key goes last, an existing key keeps
  its place ([Object.keys] is in insertion order). *)
Definition add_model (k : jsstring) (ms : list jsstring) : list jsstring :=
  if bool_decide (k ∈ ms) then ms else ms ++ [k].

Definition add_models (ks ms : list jsstring) : list jsstring := fold_left (fun ms k => add_model k ms) ks ms.

(** One pass through the body of [loadModels]: the state and either the
  boolean it returns or the exception its [catch] receives. *)
Definition attempt (mob coco : library) (st : TFManager) : TFManager * (js_error + bool) :=
  match _loadModel mob, _loadModel coco with
  | inr a, inr b =>
      let overall := a || b in
      (mkTF (add_models (modelKeys a b) (models st)) 100 (isLoaded st) false (retryCount st) (maxRetries st)
         (emitted st ++ [js "ai:model-progress"; js "ai:model-progress";
                         if overall then js "ai:models-loaded" else js "ai:models-error"]),
       inr overall)
  | inl e, _ | _, inl e =>
      (mkTF (add_models (modelKeys (is_loads mob) (is_loads coco)) (models st)) 0
         (isLoaded st) false (retryCount st) (maxRetries st) (emitted st ++ [js "ai:models-error"]),
       inl e)
  end.

(** [loadModels()] over the library outcomes of its successive attempts;
  [None] when the list runs out before the call returns. *)
Fixpoint loadModels (attempts : list (library * library)) (st : TFManager) : option (TFManager * bool) :=
  match attempts with
  | [] => None
  | (mob, coco) :: rest =>
      let '(st', r) := attempt mob coco st in
      match r with
      | inr ok => Some (st', ok)
      | inl _ =>
          if retryCount st' <? maxRetries st' then
            loadModels rest (mkTF (models st') (loadingProgress st') (isLoaded st') (isLoading st')
                               (S (retryCount st')) (maxRetries st') (emitted st'))
          else Some (st', false)
      end
  end.

(** [getModelInfo()]. *)
Record ModelInfo := mkInfo {
  info_isLoaded : bool;
  info_loadingProgress : nat;
  availableModels : list jsstring;
  info_retryCount : nat;
  info_maxRetries : nat
}.

Definition getModelInfo (st : TFManager) : ModelInfo :=
  mkInfo (isLoaded st) (loadingProgress st) (models st) (retryCount st) (maxRetries st).

(** [dispose()]: release the models and reset [isLoaded]. *)
Definition dispose (st : TFManager) : TFManager :=
  mkTF [] (loadingProgress st) false (isLoading st) (retryCount st) (maxRetries st) (emitted st).

(** Which promise of [Promise.race([loadModels(), timeoutPromise])] settles first. *)
Inductive race_winner := LoadFirst | TimeoutFirst.

(** [EnhancedAIEngine.initialize()]: its result and the engine events it
  emits, for a given availability of [tf], race winner and result of
  [loadModels]. *)
Definition initialize (tf_defined : bool) (winner : race_winner) (loadResult : bool) : bool * list jsstring :=
  if negb tf_defined then (false, [js "ai:engine-fallback"])
  else match winner with
       | LoadFirst => if loadResult then (true, [js "ai:engine-ready"]) else (false, [js "ai:engine-fallback"])
       | TimeoutFirst => (false, [js "ai:engine-fallback"])
       end.

(** A loader whose promise never rejects. *)
Definition nullish_free (lib : library) : bool :=
  match lib with LibRejects RNull | LibRejects RUndefined => false | _ => true end.

(** ** [_loadModelsInternal] and [updateProgress] *)

(** The progress elements of the page, [None] when absent: the
  [style.width] of [#progress-bar] and the [textContent] of
  [#model-loading-progress p]. *)
Record ProgressDom := mkDom { progressBar : option jsstring; progressText : option jsstring }.

(** [updateProgress(percentage, message)]: [loadingProgress], the two
  elements when present, and the event ['ai:loading-progress']. *)
Definition updateProgress (percentage : nat) (message : jsstring) (s : TFManager * ProgressDom)
    : TFManager * ProgressDom :=
  let '(m, d) := s in
  (mkTF (models m) percentage (isLoaded m) (isLoading m) (retryCount m) (maxRetries m)
     (emitted m ++ [js "ai:loading-progress"]),
   mkDom (option_map (fun _ => nat_to_jsstring percentage ++ js "%") (progressBar d))
         (option_map (fun _ => message) (progressText d))).

Definition zh_start : jsstring := [24320; 22987; 21152; 36733; 65; 73; 27169; 22411; 46; 46; 46]%Z.
Definition zh_tf_missing : jsstring :=
  [84; 101; 110; 115; 111; 114; 70; 108; 111; 119; 46; 106; 115; 26410; 21152; 36733]%Z.
Definition zh_loading_mobilenet : jsstring :=
  [27491; 22312; 21152; 36733; 77; 111; 98; 105; 108; 101; 78; 101; 116; 20998; 31867; 27169; 22411; 46; 46; 46]%Z.
Definition zh_loading_coco : jsstring :=
  [27491; 22312; 21152; 36733; 67; 79; 67; 79; 45; 83; 83; 68; 26816; 27979; 27169; 22411; 46; 46; 46]%Z.
Definition zh_all_loaded : jsstring := [25152; 26377; 27169; 22411; 21152; 36733; 23436; 25104; 65281]%Z.
Definition zh_retrying : jsstring := [21152; 36733; 22833; 36133; 65292; 27491; 22312; 37325; 35797; 32; 40]%Z.

(** [ERROR_MESSAGES.MODEL_LOAD_FAILED] of [src/src/js/config.js]. *)
Definition MODEL_LOAD_FAILED : jsstring :=
  [27169; 22411; 21152; 36733; 22833; 36133; 65292; 20351; 29992; 22522; 30784; 20998; 26512; 21151; 33021]%Z.

(** [_loadMobileNet()] / [_loadCocoSsd()] on the manager: the model is
  stored under [key] when [load()] fulfils. *)
Definition runLoader (key : jsstring) (lib : library) (m : TFManager) : TFManager * (js_error + bool) :=
  match _loadModel lib with
  | inr true =>
      (mkTF (add_model key (models m)) (loadingProgress m) (isLoaded m) (isLoading m) (retryCount m)
         (maxRetries m) (emitted m), inr true)
  | r => (m, r)
  end.

Definition emit_event (ev : jsstring) (m : TFManager) : TFManager :=
  mkTF (models m) (loadingProgress m) (isLoaded m) (isLoading m) (retryCount m) (maxRetries m) (emitted m ++ [ev]).

(** The [try] block of [_loadModelsInternal()], for whether [tf] is
  defined and the two libraries: the state and the exception the [catch]
  receives, if any.  The booleans of the loaders are not tested. *)
Definition internal_try (tfDefined : bool) (mob coco : library) (s : TFManager * ProgressDom)
    : (TFManager * ProgressDom) * option js_error :=
  let '(m, d) := updateProgress 0 zh_start s in
  if negb tfDefined then ((m, d), Some (Error zh_tf_missing)) else
  let '(m, d) := updateProgress 20 zh_loading_mobilenet (m, d) in
  match runLoader (js "mobilenet") mob m with
  | (m, inl e) => ((m, d), Some e)
  | (m, inr _) =>
      let '(m, d) := updateProgress 60 zh_loading_coco (m, d) in
      match runLoader (js "cocoSsd") coco m with
      | (m, inl e) => ((m, d), Some e)
      | (m, inr _) =>
          let '(m, d) := updateProgress 100 zh_all_loaded (m, d) in
          ((emit_event (js "ai:models-loaded")
              (mkTF (models m) (loadingProgress m) true (isLoading m) (retryCount m) (maxRetries m) (emitted m)), d),
           None)
      end
  end.

(** [_loadModelsInternal()] over the inputs of its successive passes
  ([tf] defined, the two libraries); the 2 s of [AsyncUtils.delay] between
  passes change no state.  [None] when the list runs out first. *)
Fixpoint _loadModelsInternal (passes : list (bool * library * library)) (s : TFManager * ProgressDom)
    : option ((TFManager * ProgressDom) * bool) :=
  match passes with
  | [] => None
  | (tfDefined, mob, coco) :: rest =>
      match internal_try tfDefined mob coco s with
      | (s', None) => Some (s', true)
      | ((m, d), Some _) =>
          if retryCount m <? maxRetries m then
            let m' := mkTF (models m) (loadingProgress m) (isLoaded m) (isLoading m) (S (retryCount m))
                        (maxRetries m) (emitted m) in
            _loadModelsInternal rest
              (updateProgress 0 (zh_retrying ++ nat_to_jsstring (S (retryCount m)) ++ js "/" ++
                                 nat_to_jsstring (maxRetries m) ++ js ")...") (m', d))
          else
            let '(m, d) := updateProgress 0 MODEL_LOAD_FAILED (m, d) in
            Some ((emit_event (js "ai:models-load-failed") m, d), false)
      end
  end.

(** ** [classifyImage] and [detectObjects] *)

(** What [mobilenet]'s [classify(img, 5)] and [cocoSsd]'s [detect(img, 10)]
  resolve with. *)
Record MobileNetPrediction := mkMobileNetPrediction { className : jsstring; probability : Q }.
Record CocoPrediction := mkCocoPrediction { class : jsstring; score : Q; pred_bbox : list Q }.

Definition zh_mobilenet_missing : jsstring :=
  [77; 111; 98; 105; 108; 101; 78; 101; 116; 27169; 22411; 26410; 21152; 36733]%Z.
Definition zh_coco_missing : jsstring := [67; 79; 67; 79; 45; 83; 83; 68; 27169; 22411; 26410; 21152; 36733]%Z.

(** The objects [classifyImage] and [detectObjects] map the predictions to. *)
Definition mobilenet_prediction (p : MobileNetPrediction) : Prediction :=
  mkPrediction (className p) (probability p) (js "mobilenet") None.
Definition coco_prediction (p : CocoPrediction) : Prediction :=
  mkPrediction (class p) (score p) (js "coco-ssd") (Some (pred_bbox p)).

(** [classifyImage(imageElement)], for the outcome of [classify]; the
  [category: 'classification'] field is never read and is left out. *)
Definition classifyImage (m : TFManager) (outcome : js_error + list MobileNetPrediction)
    : js_error + list Prediction :=
  if bool_decide (js "mobilenet" ∈ models m) then
    match outcome with
    | inl e => inl e
    | inr ps => inr (map mobilenet_prediction ps)
    end
  else inl (Error zh_mobilenet_missing).

(** [detectObjects(imageElement)], for the outcome of [detect]. *)
Definition detectObjects (m : TFManager) (outcome : js_error + list CocoPrediction)
    : js_error + list Prediction :=
  if bool_decide (js "cocoSsd" ∈ models m) then
    match outcome with
    | inl e => inl e
    | inr ps => inr (map coco_prediction ps)
    end
  else inl (Error zh_coco_missing).

(** ** Lemmas *)

Lemma loadModel_nullish_free (lib : library) :
  nullish_free lib = true -> _loadModel lib = inr (is_loads lib).
Proof. destruct lib as [| [] |]; done. Qed.

Lemma attempt_fields (mob coco : library) (st : TFManager) :
  isLoaded (fst (attempt mob coco st)) = isLoaded st /\ retryCount (fst (attempt mob coco st)) = retryCount st /\
  maxRetries (fst (attempt mob coco st)) = maxRetries st.
Proof. unfold attempt. by destruct (_loadModel mob) as [|[]], (_loadModel coco) as [|[]]. Qed.

(** ** Properties *)

(** C26: [loadModels] returns within [maxRetries - retryCount + 1]
  attempts, never sets [isLoaded] (only the unused
  [_loadModelsInternal] does), and retries only after a loader rejected
  with [null] or [undefined]: when neither does, it returns after one
  attempt the disjunction of the two loads, [false] when both fail,
  without touching [retryCount]. *)
Theorem loadModels_spec (attempts : list (library * library)) (st : TFManager) :
  maxRetries st - retryCount st < length attempts ->
  exists st' ok, loadModels attempts st = Some (st', ok) /\ isLoaded st' = isLoaded st /\
    (forall mob coco rest, attempts = (mob, coco) :: rest -> nullish_free mob = true -> nullish_free coco = true ->
       ok = is_loads mob || is_loads coco /\ retryCount st' = retryCount st).
Proof.
  revert st. induction attempts as [|[mob coco] rest IH]; intros st Hlen; simpl in Hlen; [lia|].
  destruct (attempt_fields mob coco st) as (Hl & Hr & Hm). simpl.
  destruct (attempt mob coco st) as [st1 [e|ok]] eqn:E; simpl in Hl, Hr, Hm.
  - destruct (Nat.ltb_spec (retryCount st1) (maxRetries st1)) as [Hlt|Hge].
    + destruct (IH (mkTF (models st1) (loadingProgress st1) (isLoaded st1) (isLoading st1)
                       (S (retryCount st1)) (maxRetries st1) (emitted st1))) as (st' & ok & Hrun & Hil & _).
      { simpl. lia. }
      exists st', ok. split; [done|]. split; [simpl in Hil; congruence|].
      intros m c r [= -> -> ->] Hm1 Hc1. exfalso. unfold attempt in E.
      rewrite !loadModel_nullish_free in E by done. discriminate.
    + exists st1, false. split; [done|]. split; [done|].
      intros m c r [= -> -> ->] Hm1 Hc1. exfalso. unfold attempt in E.
      rewrite !loadModel_nullish_free in E by done. discriminate.
  - exists st1, ok. split; [done|]. split; [done|].
    intros m c r [= -> -> ->] Hm1 Hc1. split; [|done].
    unfold attempt in E. rewrite !loadModel_nullish_free in E by done. by injection E as _ <-.
Qed.

(** ** [_loadModelsInternal] *)

Lemma runLoader_fields (k : jsstring) (lib : library) (m m' : TFManager) (r : js_error + bool) :
  runLoader k lib m = (m', r) ->
  isLoaded m' = isLoaded m /\ retryCount m' = retryCount m /\ maxRetries m' = maxRetries m /\ emitted m' = emitted m.
Proof. unfold runLoader. by destruct (_loadModel lib) as [|[]]; intros [= <- _]. Qed.

Lemma runLoader_nullish_free (k : jsstring) (lib : library) (m : TFManager) :
  nullish_free lib = true ->
  runLoader k lib m = (if is_loads lib then
      mkTF (add_model k (models m)) (loadingProgress m) (isLoaded m) (isLoading m) (retryCount m)
        (maxRetries m) (emitted m) else m, inr (is_loads lib)).
Proof. intros H. unfold runLoader. rewrite loadModel_nullish_free by done. by destruct (is_loads lib). Qed.

(** Case on the next loader of a pass, keeping what it preserves. *)
Local Ltac destruct_loader R M :=
  match goal with
  | |- context [runLoader ?k ?l ?m] =>
      let E := fresh "E" in
      destruct (runLoader k l m) as [? [?|?]] eqn:E;
      apply runLoader_fields in E as (_ & R & M & _); cbn -[js] in R, M |- *
  end.

(** One pass keeps the retry counters; a pass without exception leaves the
  models loaded, the progress at 100 and ['ai:models-loaded'] as the last
  event. *)
Lemma internal_try_fields (tfDefined : bool) (mob coco : library) (s : TFManager * ProgressDom) :
  let '((m, _), r) := internal_try tfDefined mob coco s in
  retryCount m = retryCount s.1 /\ maxRetries m = maxRetries s.1 /\
  (r = None -> isLoaded m = true /\ loadingProgress m = 100 /\ last (emitted m) = Some (js "ai:models-loaded")).
Proof.
  destruct s as [m0 d0]. unfold internal_try, updateProgress. destruct tfDefined; cbn [negb]; [|done].
  destruct_loader R1 M1; [by split_and!|]. destruct_loader R2 M2; [split_and!; congruence|].
  split_and!; [congruence..|]. intros _. by rewrite last_app.
Qed.

(** C19: [_loadModelsInternal] returns within
  [maxRetries - retryCount + 1] passes: [true] with [isLoaded] set, the
  progress at 100 and ['ai:models-loaded'] as the last event, or [false]
  with the progress back at 0, ['ai:models-load-failed'] as the last event
  and the retries used up; [retryCount] only grows and stays within
  [maxRetries]. *)
Theorem loadModelsInternal_terminates (passes : list (bool * library * library)) (s : TFManager * ProgressDom) :
  maxRetries s.1 - retryCount s.1 < length passes ->
  exists s' ok, _loadModelsInternal passes s = Some (s', ok) /\
    retryCount s.1 <= retryCount s'.1 <= Nat.max (retryCount s.1) (maxRetries s.1) /\
    if ok then isLoaded s'.1 = true /\ loadingProgress s'.1 = 100 /\ last (emitted s'.1) = Some (js "ai:models-loaded")
    else loadingProgress s'.1 = 0 /\ last (emitted s'.1) = Some (js "ai:models-load-failed") /\
         maxRetries s'.1 <= retryCount s'.1.
Proof.
  revert s. induction passes as [|[[tfd mob] coco] rest IH]; intros s Hlen; cbn [length] in Hlen; [lia|].
  pose proof (internal_try_fields tfd mob coco s) as F. cbn [_loadModelsInternal].
  destruct (internal_try tfd mob coco s) as [[m d] [e|]]; destruct F as (Fr & Fm & Fok).
  - destruct (Nat.ltb_spec (retryCount m) (maxRetries m)) as [Hlt|Hge].
    + edestruct IH as (s' & ok & Hrun & Hr & Hok); [|exists s', ok; split; [exact Hrun|]].
      { cbn. lia. }
      cbn in Hr. split; [lia|exact Hok].
    + eexists _, false. split; [reflexivity|]. cbn. rewrite last_app. split_and!; done || lia.
  - eexists _, true. split; [reflexivity|]. split; [cbn; lia|]. by apply Fok.
Qed.

(** C31: [_loadModelsInternal] ignores what the loaders return:
  with [tf] defined and neither [load()] rejecting with [null] or
  [undefined], the first pass returns [true], sets [isLoaded] and emits
  ['ai:models-loaded'] whether or not any model loaded; the models are
  those of before plus the ones that loaded, none when both libraries are
  missing. *)
Theorem loadModelsInternal_ignores_loader_results (mob coco : library) rest (s : TFManager * ProgressDom) :
  nullish_free mob = true -> nullish_free coco = true ->
  exists s', _loadModelsInternal ((true, mob, coco) :: rest) s = Some (s', true) /\
    isLoaded s'.1 = true /\ last (emitted s'.1) = Some (js "ai:models-loaded") /\
    models s'.1 = add_models (modelKeys (is_loads mob) (is_loads coco)) (models s.1).
Proof.
  intros Hm Hc. destruct s as [m d]. cbn [_loadModelsInternal internal_try updateProgress negb].
  rewrite runLoader_nullish_free by done. destruct (is_loads mob);
  (rewrite runLoader_nullish_free by done; destruct (is_loads coco));
  (eexists; split; [reflexivity|]); cbn -[js add_model]; by rewrite last_app.
Qed.

Definition sample_attempts : list (library * library) :=
  repeat (LibMissing, LibRejects (RError (js "404"))) 4.

Lemma loadModels_spec_witness :
  (3 - 0 < length sample_attempts) /\
  loadModels sample_attempts tf_init =
    Some (mkTF [] 100 false false 0 3 [js "ai:model-progress"; js "ai:model-progress"; js "ai:models-error"], false).
Proof.
  split; [simpl; lia|].
  destruct (loadModels_spec sample_attempts tf_init) as (st' & ok & Hrun & _ & Hok); [simpl; lia|].
  destruct (Hok LibMissing (LibRejects (RError (js "404"))) (repeat (LibMissing, LibRejects (RError (js "404"))) 3)
              eq_refl eq_refl eq_refl) as [-> _].
  rewrite Hrun. vm_compute in Hrun. injection Hrun as Hst. rewrite <- Hst. reflexivity.
Defined.

Definition sample_dom : ProgressDom := mkDom (Some (js "0%")) (Some []).

Lemma loadModelsInternal_terminates_witness :
  exists s' ok, _loadModelsInternal (repeat (false, LibMissing, LibMissing) 4) (tf_init, sample_dom) = Some (s', ok) /\
    retryCount tf_init <= retryCount s'.1 <= Nat.max (retryCount tf_init) (maxRetries tf_init) /\
    if ok then isLoaded s'.1 = true /\ loadingProgress s'.1 = 100 /\ last (emitted s'.1) = Some (js "ai:models-loaded")
    else loadingProgress s'.1 = 0 /\ last (emitted s'.1) = Some (js "ai:models-load-failed") /\
         maxRetries s'.1 <= retryCount s'.1.
Proof. apply (loadModelsInternal_terminates _ (tf_init, sample_dom)). cbn. lia. Defined.

Lemma loadModelsInternal_ignores_loader_results_witness :
  exists s', _loadModelsInternal [(true, LibMissing, LibMissing)] (tf_init, sample_dom) = Some (s', true) /\
    isLoaded s'.1 = true /\ models s'.1 = [] /\
    classifyImage s'.1 (inr []) = inl (Error zh_mobilenet_missing).
Proof.
  destruct (loadModelsInternal_ignores_loader_results LibMissing LibMissing [] (tf_init, sample_dom) eq_refl eq_refl)
    as (s' & Hrun & Hl & _ & Hm).
  exists s'. cbn in Hm. unfold classifyImage. rewrite Hm. split_and!; try done.
Defined.

End ModelLoader.
