(* ===== verification/GallerySearch.v ===== *)
(** * Search and filters of the gallery: [SearchEngine] and [FilterManager]

    [src/src/js/galleryManager.js].  [SearchEngine.search] scores every
    image against the terms of the query (quoted phrases, then the
    remaining words), keeps the images of positive score and sorts them by
    decreasing score; it records the query in a bounded, duplicate-free
    history.  [FilterManager] keeps the active filters in a [Map] from
    filter type to value and keeps the images that pass every one.

    Images are records of optional fields ([undefined] is [None]); their
    numbers (sizes, dimensions, dates, confidences) are [Q].  The
    [searchScore] property [search] adds to its copies is dropped: the
    score of an image is [_calculateSearchScore] of the image.  The case
    mapping of [toLowerCase] is a parameter of the section (it is the
    Unicode mapping of the engine).  The persistence of the history and of
    the filters ([_load*], [_save*]) reads
    [storageManager.specializedStorage], which is [undefined]: it throws
    inside its [try] and is skipped, so the model leaves it out.  The
    events emitted have no listener outside [GalleryManager] and are
    modelled there. *)

From Stdlib Require Import QArith Qminmax Lqa Sorted.
From S2P Require Import Prelude JsMap JsArray.

Module GallerySearch.

(** ** Images *)

Record AITag := mkAITag { label : jsstring; confidence : Q }.

Record Image := mkImage {
  id : jsstring;
  name : option jsstring;
  type_ : option jsstring;
  size : option Q;
  width : option Q;
  height : option Q;
  aiTags : option (list AITag);
  customTags : option (list jsstring);
  notes : option jsstring;
  aiDescription : option jsstring;
  (** [JSON.stringify(image.exifData)] when [image.exifData] is truthy. *)
  exifText : option jsstring;
  uploadTime : option Q;
  lastModified : option Q
}.

(** [a || d] on an optional number: [undefined] and [0] give [d]. *)
Definition orQ (a : option Q) (d : Q) : Q :=
  match a with Some x => if Qeq_bool x 0 then d else x | None => d end.

(** [a && ...] on an optional number: [Some x] when [a] is truthy. *)
Definition truthyQ (a : option Q) : option Q :=
  match a with Some x => if Qeq_bool x 0 then None else Some x | None => None end.

(** [a < b] where [a] may be [undefined] (then false). *)
Definition lt_opt (a b : option Q) : bool :=
  match a, b with Some x, Some y => Qlt_bool x y | _, _ => false end.

(** ** Search *)

Record Weights := mkWeights {
  w_filename : Q; w_aiTags : Q; w_customTags : Q; w_notes : Q; w_aiDescription : Q; w_exifData : Q
}.

(** [options.weights]: the weights it sets. *)
Record WeightOverrides := mkOverrides {
  o_filename : option Q; o_aiTags : option Q; o_customTags : option Q;
  o_notes : option Q; o_aiDescription : option Q; o_exifData : option Q
}.

Definition no_overrides : WeightOverrides := mkOverrides None None None None None None.

(** [{ ...this.searchWeights, ...options.weights }]. *)
Definition merge_weights (w : Weights) (o : WeightOverrides) : Weights :=
  mkWeights (default (w_filename w) (o_filename o)) (default (w_aiTags w) (o_aiTags o))
    (default (w_customTags w) (o_customTags o)) (default (w_notes w) (o_notes o))
    (default (w_aiDescription w) (o_aiDescription o)) (default (w_exifData w) (o_exifData o)).

Record HistoryItem := mkHist { query : jsstring; timestamp : Z; count : nat }.

Record SearchEngine := mkSE {
  searchHistory : list HistoryItem;
  maxHistorySize : nat;
  searchWeights : Weights
}.

(** [CONFIG.SEARCH]: absent from [src/src/js/config.js]. *)
Record SearchConfig := mkSearchConfig { MAX_HISTORY_SIZE : nat; WEIGHTS : Weights }.

(** [new SearchEngine()]: reads [CONFIG.SEARCH.MAX_HISTORY_SIZE]. *)
Definition new_SearchEngine (cfg : option SearchConfig) : js_error + SearchEngine :=
  match cfg with
  | None => inl (TypeError (js "Cannot read properties of undefined (reading 'MAX_HISTORY_SIZE')"))
  | Some c => inr (mkSE [] (MAX_HISTORY_SIZE c) (WEIGHTS c))
  end.

(** The double quote, code unit 34. *)
Definition dquote : Z := 34.

(** The contents of the matches of the phrase regex of [_extractSearchTerms] (a double quote, one or more other code units, a double quote; global), left to right.  [open]
  holds the reversed content after an opening quote; an empty content
  makes the closing quote the next opening one, as the regex retries at
  the next position. *)
Fixpoint scan_phrases (open : option jsstring) (s : jsstring) : list jsstring :=
  match s with
  | [] => []
  | c :: s' =>
      if (c =? dquote)%Z then
        match open with
        | Some ((_ :: _) as b) => rev b :: scan_phrases None s'
        | _ => scan_phrases (Some []) s'
        end
      else match open with
           | Some b => scan_phrases (Some (c :: b)) s'
           | None => scan_phrases None s'
           end
  end.

(** [query.match(phraseRegex) or []]: the matched phrases, quotes included. *)
Definition phrases_of (q : jsstring) : list jsstring :=
  map (fun b => dquote :: b ++ [dquote]) (scan_phrases None q).

(** [s.replace(pat, '')] with a string pattern: the first occurrence goes. *)
Fixpoint replace_first (pat s : jsstring) : jsstring :=
  if prefixb pat s then drop (length pat) s
  else match s with [] => [] | c :: s' => c :: replace_first pat s' end.

(** [s.split(/\s+/).filter(word => word.length > 0)]; [cur] is the
  reversed word being read. *)
Fixpoint words_acc (cur s : jsstring) : list jsstring :=
  match s with
  | [] => match cur with [] => [] | _ => [rev cur] end
  | c :: s' =>
      if is_js_whitespace c then
        match cur with [] => words_acc [] s' | _ => rev cur :: words_acc [] s' end
      else words_acc (c :: cur) s'
  end.

(** [_extractSearchTerms(query)]. *)
Definition _extractSearchTerms (query : jsstring) : list jsstring :=
  let phrases := phrases_of query in
  let phrasesContent := map (fun p => js_slice p 1 (-1)) phrases in
  let remainingQuery := fold_left (fun r p => replace_first p r) phrases query in
  phrasesContent ++ words_acc [] remainingQuery.

(** [_addToHistory(query)]. *)
Definition _addToHistory (now : Z) (q : jsstring) (st : SearchEngine) : SearchEngine :=
  let trimmedQuery := trim q in
  match trimmedQuery with
  | [] => st
  | _ =>
      let h := mkHist trimmedQuery now 1 ::
                 List.filter (fun it => negb (bool_decide (query it = trimmedQuery))) (searchHistory st) in
      let h' := if (maxHistorySize st <? length h)%nat then take (maxHistorySize st) h else h in
      mkSE h' (maxHistorySize st) (searchWeights st)
  end.

(** [clearHistory()]. *)
Definition clearHistory (st : SearchEngine) : SearchEngine :=
  mkSE [] (maxHistorySize st) (searchWeights st).

Section Search.
(** [String.prototype.toLowerCase]. *)
Variable toLowerCase : jsstring -> jsstring.
Local Open Scope Q_scope.

(** [s && s.toLowerCase().includes(term)]. *)
Definition lower_includes (o : option jsstring) (term : jsstring) : bool :=
  match o with Some ((_ :: _) as s) => includes (toLowerCase s) term | _ => false end.

(** One iteration of the [searchTerms.forEach] of [_calculateSearchScore]. *)
Definition addTermScore (w : Weights) (image : Image) (score : Q) (term : jsstring) : Q :=
  let s1 := if lower_includes (name image) term then score + w_filename w else score in
  let s2 := match aiTags image with
            | Some tags =>
                fold_left (fun s tag => s + w_aiTags w * confidence tag)
                  (List.filter (fun tag => includes (toLowerCase (label tag)) term) tags) s1
            | None => s1
            end in
  let s3 := match customTags image with
            | Some tags =>
                s2 + inject_Z (Z.of_nat (length (List.filter (fun t => includes (toLowerCase t) term) tags)))
                     * w_customTags w
            | None => s2
            end in
  let s4 := if lower_includes (notes image) term then s3 + w_notes w else s3 in
  let s5 := if lower_includes (aiDescription image) term then s4 + w_aiDescription w else s4 in
  match exifText image with
  | Some t => if includes (toLowerCase t) term then s5 + w_exifData w else s5
  | None => s5
  end.

(** [_calculateSearchScore(image, searchTerms, options)]. *)
Definition _calculateSearchScore (w : Weights) (image : Image) (terms : list jsstring) : Q :=
  fold_left (addTermScore w image) terms 0.

(** [_normalizeQuery(query)]. *)
Definition _normalizeQuery (q : jsstring) : jsstring := trim (toLowerCase q).

(** [search(query, images, options)]: the history and the result. *)
Definition search (now : Z) (q : jsstring) (images : list Image) (opts : WeightOverrides)
    (st : SearchEngine) : SearchEngine * list Image :=
  match trim q with
  | [] => (st, images)
  | _ =>
      let searchTerms := _extractSearchTerms (_normalizeQuery q) in
      let st' := _addToHistory now q st in
      let w := merge_weights (searchWeights st) opts in
      let score i := _calculateSearchScore w i searchTerms in
      (st', sort_by (fun a b => score b - score a) (List.filter (fun i => Qlt_bool 0 (score i)) images))
  end.

(** [getSuggestions(partial)]. *)
Definition getSuggestions (partial : jsstring) (st : SearchEngine) : list jsstring :=
  if (length partial <? 2)%nat then map query (take 5 (searchHistory st))
  else map query (take 5 (List.filter (fun it => includes (toLowerCase (query it)) (toLowerCase partial))
                            (searchHistory st))).
End Search.

(** ** Filters *)

(** The filter values the UI passes: plain objects of numbers (the ranges),
  strings, booleans and numbers. *)
Inductive filter_value :=
  | VObj (fields : list (jsstring * Q))
  | VStr (s : jsstring)
  | VBool (b : bool)
  | VNum (q : Q).

(** The truthiness of a filter value. *)
Definition truthy_value (v : filter_value) : bool :=
  match v with
  | VObj _ => true
  | VStr s => negb (bool_decide (s = []))
  | VBool b => b
  | VNum q => negb (Qeq_bool q 0)
  end.

(** [const { a, b } = value]: the own properties of an object; a
  primitive has none of the names read. *)
Definition prop (v : filter_value) (k : jsstring) : option Q :=
  match v with VObj fs => JsMap.get k fs | _ => None end.

Record FilterManager := mkFM { activeFilters : JsMap.t jsstring filter_value }.

(** [new FilterManager()]: the saved filters cannot be read. *)
Definition new_FilterManager : FilterManager := mkFM JsMap.empty.

(** [setFilter(filterType, value)]: [null], [undefined] and [''] delete. *)
Definition setFilter (filterType : jsstring) (value : option filter_value) (fm : FilterManager) : FilterManager :=
  match value with
  | None | Some (VStr []) => mkFM (JsMap.delete filterType (activeFilters fm))
  | Some v => mkFM (JsMap.set filterType v (activeFilters fm))
  end.

Definition getFilter (filterType : jsstring) (fm : FilterManager) : option filter_value :=
  JsMap.get filterType (activeFilters fm).

Definition clearAllFilters (fm : FilterManager) : FilterManager := mkFM JsMap.empty.

(** [if (lo && x < lo) return false; if (hi && x > hi) return false; return true]. *)
Definition within (lo hi : option Q) (x : Q) : bool :=
  match truthyQ lo with Some l => negb (Qlt_bool x l) | None => true end &&
  match truthyQ hi with Some h => negb (Qlt_bool h x) | None => true end.

Definition _filterByDateRange (image : Image) (range : filter_value) : bool :=
  within (prop range (js "start")) (prop range (js "end")) (orQ (uploadTime image) (orQ (lastModified image) 0)).

Definition toLowerCase_not_function : js_error :=
  TypeError (js "fileType.toLowerCase is not a function").

Section Filters.
Variable toLowerCase : jsstring -> jsstring.

Definition _filterByFileType (image : Image) (fileType : filter_value) : js_error + bool :=
  match fileType with
  | VStr s =>
      if bool_decide (s = js "all") then inr true
      else inr (includes (toLowerCase (default [] (type_ image))) (toLowerCase s))
  | _ => inl toLowerCase_not_function
  end.
End Filters.

Definition _filterByFileSize (image : Image) (sizeRange : filter_value) : bool :=
  within (prop sizeRange (js "min")) (prop sizeRange (js "max")) (orQ (size image) 0).

Definition has_items {A} (o : option (list A)) : bool :=
  match o with Some (_ :: _) => true | _ => false end.

Definition _filterByAITags (image : Image) (v : filter_value) : bool :=
  if truthy_value v then has_items (aiTags image) else negb (has_items (aiTags image)).

Definition _filterByCustomTags (image : Image) (v : filter_value) : bool :=
  if truthy_value v then has_items (customTags image) else negb (has_items (customTags image)).

Definition hasNote (image : Image) : bool :=
  match notes image with Some s => negb (bool_decide (trim s = [])) | None => false end.

Definition _filterByNotes (image : Image) (v : filter_value) : bool :=
  if truthy_value v then hasNote image else negb (hasNote image).

(** The mean confidence of a non-empty tag list. *)
Definition avgConfidence (tags : list AITag) : Q :=
  (fold_left (fun s tag => s + confidence tag) tags 0 / inject_Z (Z.of_nat (length tags)))%Q.

Definition _filterByConfidence (image : Image) (range : filter_value) : bool :=
  match aiTags image with
  | Some ((_ :: _) as tags) => within (prop range (js "min")) (prop range (js "max")) (avgConfidence tags)
  | _ => false
  end.

(** [minWidth && width < minWidth] with an [undefined] width: false. *)
Definition _filterByDimensions (image : Image) (r : filter_value) : bool :=
  let below lo x := match truthyQ lo with Some l => lt_opt x (Some l) | None => false end in
  let above hi x := match truthyQ hi with Some h => lt_opt (Some h) x | None => false end in
  negb (below (prop r (js "minWidth")) (width image) || above (prop r (js "maxWidth")) (width image) ||
        below (prop r (js "minHeight")) (height image) || above (prop r (js "maxHeight")) (height image)).

Definition imageOrientation (image : Image) : jsstring :=
  if lt_opt (height image) (width image) then js "landscape"
  else if lt_opt (width image) (height image) then js "portrait" else js "square".

Definition _filterByOrientation (image : Image) (v : filter_value) : bool :=
  match v with
  | VStr s => bool_decide (s = js "all") || bool_decide (imageOrientation image = s)
  | _ => false
  end.

Section Apply.
Variable toLowerCase : jsstring -> jsstring.

(** [_applyFilter(image, filterType, value)]. *)
Definition _applyFilter (image : Image) (filterType : jsstring) (value : filter_value) : js_error + bool :=
  if bool_decide (filterType = js "dateRange") then inr (_filterByDateRange image value)
  else if bool_decide (filterType = js "fileType") then _filterByFileType toLowerCase image value
  else if bool_decide (filterType = js "fileSize") then inr (_filterByFileSize image value)
  else if bool_decide (filterType = js "hasAITags") then inr (_filterByAITags image value)
  else if bool_decide (filterType = js "hasCustomTags") then inr (_filterByCustomTags image value)
  else if bool_decide (filterType = js "hasNotes") then inr (_filterByNotes image value)
  else if bool_decide (filterType = js "confidence") then inr (_filterByConfidence image value)
  else if bool_decide (filterType = js "dimensions") then inr (_filterByDimensions image value)
  else if bool_decide (filterType = js "orientation") then inr (_filterByOrientation image value)
  else inr true.

(** [Array.from(activeFilters.entries()).every(...)]: stops at the first
  filter that fails or throws. *)
Fixpoint every_filter (image : Image) (fs : list (jsstring * filter_value)) : js_error + bool :=
  match fs with
  | [] => inr true
  | (t, v) :: fs' =>
      match _applyFilter image t v with
      | inl e => inl e
      | inr false => inr false
      | inr true => every_filter image fs'
      end
  end.

(** [images.filter(...)]: the exception of the first image that throws. *)
Fixpoint filter_images (fs : list (jsstring * filter_value)) (images : list Image) : js_error + list Image :=
  match images with
  | [] => inr []
  | i :: rest =>
      match every_filter i fs with
      | inl e => inl e
      | inr keep =>
          match filter_images fs rest with
          | inl e => inl e
          | inr r => inr (if keep then i :: r else r)
          end
      end
  end.

(** [applyFilters(images)]. *)
Definition applyFilters (images : list Image) (fm : FilterManager) : js_error + list Image :=
  match activeFilters fm with
  | [] => inr images
  | fs => filter_images fs images
  end.
End Apply.

(** ** Lemmas *)

Lemma rev_cons_nonempty (x : Z) (b : jsstring) : rev (x :: b) <> [].
Proof. simpl. intros [_ H]%app_eq_nil. discriminate. Qed.

Lemma scan_phrases_nonempty (open : option jsstring) (s : jsstring) :
  Forall (fun t => t <> []) (scan_phrases open s).
Proof.
  revert open. induction s as [|c s IH]; intros open; simpl; [constructor|].
  destruct (c =? dquote)%Z; [destruct open as [[|x b]|]|destruct open]; auto.
  constructor; [apply (rev_cons_nonempty x b)|auto].
Qed.

Lemma words_acc_nonempty (cur s : jsstring) : Forall (fun t => t <> []) (words_acc cur s).
Proof.
  revert cur. induction s as [|c s IH]; intros cur; simpl.
  - destruct cur as [|x b]; repeat constructor. apply rev_cons_nonempty.
  - destruct (is_js_whitespace c); [destruct cur as [|x b]|]; auto.
    constructor; [apply (rev_cons_nonempty x b)|auto].
Qed.

(** [phrase.slice(1, -1)] strips the two quotes of a match. *)
Lemma slice_quoted (b : jsstring) : js_slice (dquote :: b ++ [dquote]) 1 (-1) = b.
Proof.
  unfold js_slice, rel_index. replace (-1 <? 0)%Z with true by reflexivity.
  replace (1 <? 0)%Z with false by reflexivity. cbv iota beta.
  cbn [length]. rewrite length_app. cbn [length].
  replace (Z.to_nat (Z.max (Z.of_nat (S (length b + 1)) + -1) 0 - Z.min 1 (Z.of_nat (S (length b + 1))))%Z)
    with (length b) by lia.
  replace (Z.to_nat (Z.min 1 (Z.of_nat (S (length b + 1))))%Z) with 1%nat by lia.
  cbn [drop]. by rewrite drop_0, take_app_length.
Qed.

Definition history_inv (st : SearchEngine) : Prop :=
  NoDup (map query (searchHistory st)) /\ length (searchHistory st) <= maxHistorySize st /\
  Forall (fun it => query it <> []) (searchHistory st).

Lemma addToHistory_cases (now : Z) (q : jsstring) (st : SearchEngine) :
  (trim q = [] /\ _addToHistory now q st = st) \/
  (trim q <> [] /\ maxHistorySize (_addToHistory now q st) = maxHistorySize st /\
   searchHistory (_addToHistory now q st) =
     let h := mkHist (trim q) now 1 :: List.filter (fun it => negb (bool_decide (query it = trim q))) (searchHistory st) in
     if (maxHistorySize st <? length h)%nat then take (maxHistorySize st) h else h).
Proof. unfold _addToHistory. destruct (trim q) eqn:E; [by left|right; by split]. Qed.

Lemma NoDup_map_filter_ne (t : jsstring) (h : list HistoryItem) :
  NoDup (map query h) ->
  NoDup (t :: map query (List.filter (fun it => negb (bool_decide (query it = t))) h)).
Proof.
  intros Hnd. constructor.
  - intros (it & Heq & Hin)%list_elem_of_fmap. apply elem_of_List_filter in Hin as [Hp _].
    rewrite Heq in Hp. by rewrite bool_decide_true in Hp.
  - eapply sublist_NoDup; [exact Hnd|]. apply sublist_map, sublist_List_filter.
Qed.

Lemma addToHistory_inv (now : Z) (q : jsstring) (st : SearchEngine) :
  history_inv st -> history_inv (_addToHistory now q st).
Proof.
  intros (Hnd & Hlen & Hne). destruct (addToHistory_cases now q st) as [[_ ->]|(Hq & Hmax & Hh)]; [done|].
  unfold history_inv. rewrite Hmax, Hh. cbv zeta.
  set (h := mkHist (trim q) now 1 :: _).
  assert (Hh1 : NoDup (map query h)) by (apply NoDup_map_filter_ne, Hnd).
  assert (Hh2 : Forall (fun it => query it <> []) h).
  { constructor; [done|]. by apply Forall_List_filter. }
  destruct (Nat.ltb_spec (maxHistorySize st) (length h)).
  - split; [|split].
    + rewrite <- firstn_map. eapply sublist_NoDup; [done|apply sublist_take].
    + apply length_take_le.
    + by apply Forall_take.
  - by repeat split.
Qed.

Section FilterLemmas.
Variable toLowerCase : jsstring -> jsstring.

Lemma every_filter_true (image : Image) (fs : list (jsstring * filter_value)) :
  every_filter toLowerCase image fs = inr true <->
  Forall (fun f => _applyFilter toLowerCase image f.1 f.2 = inr true) fs.
Proof.
  induction fs as [|[t v] fs IH]; simpl; [split; constructor|].
  rewrite Forall_cons. simpl.
  destruct (_applyFilter toLowerCase image t v) as [e|[]]; rewrite ?IH; intuition congruence.
Qed.

(** Only a [fileType] filter whose value is not a string throws. *)
Lemma applyFilter_total (image : Image) (t : jsstring) (v : filter_value) :
  (t = js "fileType" -> exists s, v = VStr s) -> exists b, _applyFilter toLowerCase image t v = inr b.
Proof.
  intros Hft. unfold _applyFilter.
  repeat (case_bool_decide; [subst; try (destruct (Hft eq_refl) as [s ->]; simpl; case_bool_decide); by eexists|]).
  by eexists.
Qed.

Lemma every_filter_total (image : Image) (fs : list (jsstring * filter_value)) :
  Forall (fun f => f.1 = js "fileType" -> exists s, f.2 = VStr s) fs ->
  exists b, every_filter toLowerCase image fs = inr b.
Proof.
  induction 1 as [|[t v] fs Hf _ IH]; simpl; [by eexists|].
  destruct (applyFilter_total image t v Hf) as [[] ->]; [done|by eexists].
Qed.

Lemma filter_images_total (fs : list (jsstring * filter_value)) (images : list Image) :
  Forall (fun f => f.1 = js "fileType" -> exists s, f.2 = VStr s) fs ->
  filter_images toLowerCase fs images =
    inr (List.filter (fun i => bool_decide (every_filter toLowerCase i fs = inr true)) images).
Proof.
  intros Hfs. induction images as [|i images IH]; simpl; [done|].
  destruct (every_filter_total i fs Hfs) as [b ->]. rewrite IH.
  by destruct b; rewrite ?bool_decide_true, ?bool_decide_false by congruence.
Qed.
End FilterLemmas.

(** ** Properties *)

(** every term [_extractSearchTerms] yields is non-empty: a quoted
  phrase contributes its content between the quotes, which the regex
  requires to be non-empty, and the split words are filtered; so no term
  is the empty string, which every field would include. *)
Theorem extractSearchTerms_nonempty (q : jsstring) : Forall (fun t => t <> []) (_extractSearchTerms q).
Proof.
  unfold _extractSearchTerms, phrases_of. apply Forall_app. split; [|apply words_acc_nonempty].
  rewrite map_map. apply Forall_map. eapply Forall_impl; [apply scan_phrases_nonempty|].
  intros b Hb. simpl. by rewrite slice_quoted.
Qed.

(** C15: [search] with a non-blank query returns exactly the images of
  positive score, each once, ordered by decreasing score, and images of
  equal score keep their order in the gallery. *)
Theorem search_ranks_by_score (toLowerCase : jsstring -> jsstring) (now : Z) (q : jsstring)
    (images : list Image) (opts : WeightOverrides) (st : SearchEngine) :
  trim q <> [] ->
  let score i := _calculateSearchScore toLowerCase (merge_weights (searchWeights st) opts) i
                   (_extractSearchTerms (_normalizeQuery toLowerCase q)) in
  let r := snd (search toLowerCase now q images opts st) in
  r ≡ₚ List.filter (fun i => Qlt_bool 0 (score i)) images /\
  Sorted (fun a b => (score b <= score a)%Q) r /\
  (forall x, List.filter (fun i => Qeq_bool (score i) x) r =
             List.filter (fun i => Qeq_bool (score i) x) (List.filter (fun i => Qlt_bool 0 (score i)) images)).
Proof.
  intros Hq score r. subst r. unfold search. destruct (trim q) eqn:E; [done|]. simpl.
  assert (Hcmp : forall a b, (score b - score a == score b - score a)%Q) by (intros; reflexivity).
  split; [apply sort_by_perm|split; [by apply sort_by_sorted_desc|intros x; by apply sort_by_stable_desc]].
Qed.

(** An ASCII instance of [toLowerCase], for the examples. *)
Definition ascii_lower (s : jsstring) : jsstring := map lower_char s.

Definition sample_weights : Weights := mkWeights 3 2 2 1 1 (1 # 2).

Definition sample_image (i : jsstring) (n : jsstring) (tags : list AITag) : Image :=
  mkImage i (Some n) None None (Some 800%Q) (Some 600%Q) (Some tags) None None None None None None.

Definition sample_images : list Image :=
  [sample_image (js "1") (js "beach.jpg") [mkAITag (js "Dog") (9 # 10)];
   sample_image (js "2") (js "dog.png") [];
   sample_image (js "3") (js "city.jpg") [mkAITag (js "car") (1 # 2)]].

Lemma search_ranks_by_score_witness :
  trim (js "dog") <> [] /\
  snd (search ascii_lower 0 (js "dog") sample_images no_overrides (mkSE [] 10 sample_weights)) =
    [sample_image (js "2") (js "dog.png") []; sample_image (js "1") (js "beach.jpg") [mkAITag (js "Dog") (9 # 10)]].
Proof.
  split; [vm_compute; discriminate|].
  pose proof (search_ranks_by_score ascii_lower 0 (js "dog") sample_images no_overrides (mkSE [] 10 sample_weights))
    as Hspec. vm_compute. reflexivity.
Defined.

(** the search history stays duplicate-free, non-empty-entried and
  within [maxHistorySize]; a non-blank search puts its trimmed query
  first when the bound is positive. *)
Theorem search_history_inv (toLowerCase : jsstring -> jsstring) (now : Z) (q : jsstring)
    (images : list Image) (opts : WeightOverrides) (st : SearchEngine) :
  history_inv st ->
  history_inv (fst (search toLowerCase now q images opts st)) /\
  (trim q <> [] -> 1 <= maxHistorySize st ->
   head (searchHistory (fst (search toLowerCase now q images opts st))) = Some (mkHist (trim q) now 1)).
Proof.
  intros Hinv. unfold search. destruct (trim q) as [|c t] eqn:E; simpl; [split; [done|congruence]|].
  split; [by apply addToHistory_inv|]. intros _ Hmax.
  destruct (addToHistory_cases now q st) as [[E' _]|(_ & _ & ->)]; [congruence|]. cbv zeta.
  rewrite E. case_match; [|done]. destruct (maxHistorySize st); [lia|done].
Qed.

Lemma search_history_inv_witness :
  history_inv (mkSE [mkHist (js "cat") 0 1] 2 sample_weights) /\
  searchHistory (fst (search ascii_lower 5 (js " dog ") [] no_overrides (mkSE [mkHist (js "cat") 0 1] 2 sample_weights)))
    = [mkHist (js "dog") 5 1; mkHist (js "cat") 0 1].
Proof.
  assert (Hinv : history_inv (mkSE [mkHist (js "cat") 0 1] 2 sample_weights)).
  { split; [|split]; simpl; [apply NoDup_singleton|lia|constructor; [discriminate|constructor]]. }
  split; [done|].
  destruct (search_history_inv ascii_lower 5 (js " dog ") [] no_overrides _ Hinv) as [_ Hhd].
  vm_compute. reflexivity.
Defined.

(** when no [fileType] filter holds a non-string value (the only
  filter that can throw), [applyFilters] returns exactly the images, in
  gallery order, for which every active filter returns [true]. *)
Theorem applyFilters_spec (toLowerCase : jsstring -> jsstring) (images : list Image) (fm : FilterManager) :
  Forall (fun f => f.1 = js "fileType" -> exists s, f.2 = VStr s) (activeFilters fm) ->
  applyFilters toLowerCase images fm =
    inr (List.filter (fun i => bool_decide (Forall (fun f => _applyFilter toLowerCase i f.1 f.2 = inr true)
                                                    (activeFilters fm))) images).
Proof.
  intros Hfs. unfold applyFilters. destruct (activeFilters fm) as [|f fs] eqn:E.
  - f_equal. symmetry. apply List_filter_all. intros i. apply bool_decide_true. constructor.
  - rewrite filter_images_total by done. f_equal. apply List.filter_ext. intros i.
    apply bool_decide_ext, every_filter_true.
Qed.

Lemma applyFilters_spec_witness :
  Forall (fun f => f.1 = js "fileType" -> exists s, f.2 = VStr s)
    (activeFilters (setFilter (js "orientation") (Some (VStr (js "landscape"))) new_FilterManager)) /\
  applyFilters ascii_lower
    (sample_images ++ [mkImage (js "4") None None None (Some 300%Q) (Some 900%Q) None None None None None None None])
    (setFilter (js "orientation") (Some (VStr (js "landscape"))) new_FilterManager) = inr sample_images.
Proof.
  assert (Hf : Forall (fun f => f.1 = js "fileType" -> exists s, f.2 = VStr s)
    (activeFilters (setFilter (js "orientation") (Some (VStr (js "landscape"))) new_FilterManager))).
  { repeat constructor. simpl. discriminate. }
  split; [done|]. rewrite applyFilters_spec by done. vm_compute. reflexivity.
Defined.

End GallerySearch.
