(* ===== verification/GalleryPaging.v ===== *)
(** * Sorting, pagination and view of the gallery: [SortManager],
    [PaginationManager], [ViewManager]

    [src/src/js/galleryManager.js].  [SortManager.applySort] sorts a copy
    of the images with [_compareImages] on the current field, negated
    unless the direction is ['asc'].  [PaginationManager] keeps the
    current page, the page size and the item count of the last
    [applyPagination], and clamps page changes to [1 .. getTotalPages()].
    [ViewManager] keeps the view mode among [viewOptions] and the grid
    column count in [1 .. 10].

    JS numbers here are integers ([Z]) except the sort keys ([Q]).
    [String.prototype.localeCompare] and the draws of [Math.random] (one
    per comparison of the ['random'] field) are parameters of the
    section.  Saving the state reads [storageManager.specializedStorage]
    ([undefined]) and is skipped by its [catch]; the events are modelled
    with [GalleryManager], which listens to them. *)

From Stdlib Require Import QArith Qminmax Lqa Sorted.
From S2P Require Import Prelude JsArray GallerySearch.

Module GalleryPaging.
Import GallerySearch.

(** ** [SortManager] *)

(** [currentSort]: field and direction ([undefined] is [None]). *)
Record SortManager := mkSort { field : option jsstring; direction : option jsstring }.

(** [new SortManager()]: [CONFIG.UI.DEFAULT_SORT_FIELD] and
  [DEFAULT_SORT_DIRECTION]. *)
Definition new_SortManager (defaultField defaultDirection : option jsstring) : SortManager :=
  mkSort defaultField defaultDirection.

(** [setSort(field, direction = 'desc')]. *)
Definition setSort (f : jsstring) (dir : option jsstring) (sm : SortManager) : SortManager :=
  mkSort (Some f) (Some (default (js "desc") dir)).

(** [toggleSort(field)]. *)
Definition toggleSort (f : jsstring) (sm : SortManager) : SortManager :=
  if bool_decide (field sm = Some f) then
    setSort f (Some (if bool_decide (direction sm = Some (js "asc")) then js "desc" else js "asc")) sm
  else setSort f (Some (js "desc")) sm.

(** [(a.aiTags || []).length] and the like. *)
Definition count_of {A} (o : option (list A)) : Q := inject_Z (Z.of_nat (length (default [] o))).

(** [_getAverageConfidence(image)]. *)
Definition _getAverageConfidence (image : Image) : Q :=
  match aiTags image with
  | Some ((_ :: _) as tags) => avgConfidence tags
  | _ => 0
  end.

(** The key of a numeric field of [_compareImages]. *)
Definition sortKey (f : jsstring) : option (Image -> Q) :=
  if bool_decide (f = js "uploadTime") then Some (fun i => orQ (uploadTime i) 0)
  else if bool_decide (f = js "lastModified") then Some (fun i => orQ (lastModified i) 0)
  else if bool_decide (f = js "size") then Some (fun i => orQ (size i) 0)
  else if bool_decide (f = js "dimensions") then Some (fun i => (orQ (width i) 0 * orQ (height i) 0)%Q)
  else if bool_decide (f = js "confidence") then Some _getAverageConfidence
  else if bool_decide (f = js "aiTagsCount") then Some (fun i => count_of (aiTags i))
  else if bool_decide (f = js "customTagsCount") then Some (fun i => count_of (customTags i))
  else None.

Section Sorting.
(** [a.localeCompare(b)] and the [Math.random()] draw of one comparison. *)
Variable localeCompare : jsstring -> jsstring -> Q.
Variable random : Image -> Image -> Q.

(** [_compareImages(a, b, field)]: [name] by [localeCompare], the
  numeric fields by difference, ['random'] by a draw minus 1/2, any other
  field [0]. *)
Definition _compareImages (a b : Image) (f : option jsstring) : Q :=
  match f with
  | None => 0
  | Some f =>
      if bool_decide (f = js "name") then localeCompare (default [] (name a)) (default [] (name b))
      else if bool_decide (f = js "random") then (random a b - (1 # 2))%Q
      else match sortKey f with Some k => (k a - k b)%Q | None => 0 end
  end.

(** [applySort(images)]. *)
Definition applySort (images : list Image) (sm : SortManager) : list Image :=
  sort_by (fun a b => let result := _compareImages a b (field sm) in
                      if bool_decide (direction sm = Some (js "asc")) then result else (- result)%Q)
    images.
End Sorting.

(** ** [PaginationManager] *)

Record Pagination := mkPag { currentPage : Z; itemsPerPage : Z; totalItems : Z }.

(** [new PaginationManager()]: [itemsPerPage = CONFIG.UI.DEFAULT_ITEMS_PER_PAGE]. *)
Definition new_PaginationManager (defaultItemsPerPage : Z) : Pagination :=
  mkPag 1 defaultItemsPerPage 0.

(** [Math.ceil(a / b)] for [b > 0]. *)
Definition ceil_div (a b : Z) : Z := (- (- a / b))%Z.

(** [getTotalPages()]. *)
Definition getTotalPages (p : Pagination) : Z := ceil_div (totalItems p) (itemsPerPage p).

(** [setItemsPerPage(n)]: back to the first page. *)
Definition setItemsPerPage (n : Z) (p : Pagination) : Pagination :=
  mkPag 1 (Z.max 1 n) (totalItems p).

(** [setCurrentPage(page)]. *)
Definition setCurrentPage (page : Z) (p : Pagination) : Pagination :=
  mkPag (Z.max 1 (Z.min page (getTotalPages p))) (itemsPerPage p) (totalItems p).

Definition nextPage (p : Pagination) : Pagination := setCurrentPage (currentPage p + 1) p.
Definition previousPage (p : Pagination) : Pagination := setCurrentPage (currentPage p - 1) p.
Definition firstPage (p : Pagination) : Pagination := setCurrentPage 1 p.
Definition lastPage (p : Pagination) : Pagination := setCurrentPage (getTotalPages p) p.

(** [applyPagination(items)]: records the count, returns the current page. *)
Definition applyPagination {A} (items : list A) (p : Pagination) : Pagination * list A :=
  let p' := mkPag (currentPage p) (itemsPerPage p) (Z.of_nat (length items)) in
  let startIndex := ((currentPage p - 1) * itemsPerPage p)%Z in
  let endIndex := (startIndex + itemsPerPage p)%Z in
  (p', js_slice items startIndex endIndex).

Record PaginationInfo := mkInfo {
  info_currentPage : Z; info_totalPages : Z; info_itemsPerPage : Z; info_totalItems : Z;
  startItem : Z; endItem : Z; hasNext : bool; hasPrevious : bool
}.

(** [getPaginationInfo()]. *)
Definition getPaginationInfo (p : Pagination) : PaginationInfo :=
  let totalPages := getTotalPages p in
  mkInfo (currentPage p) totalPages (itemsPerPage p) (totalItems p)
    ((currentPage p - 1) * itemsPerPage p + 1)%Z
    (Z.min (currentPage p * itemsPerPage p) (totalItems p))
    (currentPage p <? totalPages)%Z (1 <? currentPage p)%Z.

(** [Array.from({ length: n }, (_, i) => start + i)]. *)
Definition range_from (start n : Z) : list Z :=
  map (fun i => start + Z.of_nat i)%Z (seq 0 (Z.to_nat n)).

(** [getPageRange(maxVisible = 5)]. *)
Definition getPageRange (maxVisible : Z) (p : Pagination) : list Z :=
  let totalPages := getTotalPages p in
  let current := currentPage p in
  if (totalPages <=? maxVisible)%Z then range_from 1 totalPages
  else
    let half := (maxVisible / 2)%Z in
    let start := Z.max 1 (current - half) in
    let end_ := Z.min totalPages (start + maxVisible - 1) in
    let start' := if (end_ - start + 1 <? maxVisible)%Z then Z.max 1 (end_ - maxVisible + 1) else start in
    range_from start' (end_ - start' + 1).

(** ** [ViewManager] *)

Record ViewManager := mkView { currentView : jsstring; viewOptions : list jsstring; gridColumns : Z }.

(** [setViewMode(viewMode)]: an unknown mode only warns. *)
Definition setViewMode (viewMode : jsstring) (vm : ViewManager) : ViewManager :=
  if bool_decide (viewMode ∈ viewOptions vm) then mkView viewMode (viewOptions vm) (gridColumns vm) else vm.

(** [setGridColumns(columns)]. *)
Definition setGridColumns (columns : Z) (vm : ViewManager) : ViewManager :=
  mkView (currentView vm) (viewOptions vm) (Z.max 1 (Z.min columns 10)).

(** [array.indexOf(x)]: [-1] when absent. *)
Fixpoint indexOf (x : jsstring) (l : list jsstring) : Z :=
  match l with
  | [] => -1
  | y :: l' => if bool_decide (y = x) then 0 else match indexOf x l' with -1 => -1 | i => i + 1 end
  end%Z.

(** [nextViewMode()]: [viewOptions[(currentIndex + 1) % length]]; with no
  options the index is [NaN] and the mode [undefined], which
  [setViewMode] rejects. *)
Definition nextViewMode (vm : ViewManager) : ViewManager :=
  match viewOptions vm with
  | [] => vm
  | opts =>
      let nextIndex := ((indexOf (currentView vm) opts + 1) mod Z.of_nat (length opts))%Z in
      match opts !! Z.to_nat nextIndex with
      | Some m => setViewMode m vm
      | None => vm
      end
  end.

(** ** Lemmas *)

Definition pag_inv (p : Pagination) : Prop :=
  (1 <= currentPage p)%Z /\ (1 <= itemsPerPage p)%Z /\ (0 <= totalItems p)%Z.

(** [Math.ceil(t / n)] for [n >= 1] and [t >= 0]: the least [T] with
  [t <= T * n]. *)
Lemma ceil_div_spec (t n : Z) :
  (1 <= n)%Z -> (0 <= t)%Z ->
  (0 <= ceil_div t n)%Z /\ (t <= ceil_div t n * n)%Z /\ ((ceil_div t n - 1) * n < t \/ t = 0 /\ ceil_div t n = 0)%Z.
Proof.
  intros Hn Ht. unfold ceil_div.
  pose proof (Z.div_mod (- t) n ltac:(lia)) as Hdm. pose proof (Z.mod_pos_bound (- t) n ltac:(lia)) as Hb.
  destruct (Z.eq_dec t 0%Z) as [->|Hne]; [rewrite Z.div_0_l by lia; lia|].
  nia.
Qed.

Lemma getTotalPages_spec (p : Pagination) :
  pag_inv p ->
  (0 <= getTotalPages p)%Z /\ (totalItems p <= getTotalPages p * itemsPerPage p)%Z /\
  ((getTotalPages p - 1) * itemsPerPage p < totalItems p \/ totalItems p = 0 /\ getTotalPages p = 0)%Z.
Proof. intros (_ & Hn & Ht). by apply ceil_div_spec. Qed.

Lemma setCurrentPage_inv (page : Z) (p : Pagination) : pag_inv p -> pag_inv (setCurrentPage page p).
Proof. intros (H1 & H2 & H3). repeat split; simpl; lia. Qed.

Lemma setItemsPerPage_inv (n : Z) (p : Pagination) : pag_inv p -> pag_inv (setItemsPerPage n p).
Proof. intros (H1 & H2 & H3). repeat split; simpl; lia. Qed.

Lemma applyPagination_inv {A} (items : list A) (p : Pagination) : pag_inv p -> pag_inv (fst (applyPagination items p)).
Proof. intros (H1 & H2 & H3). repeat split; simpl; lia. Qed.

(** The page of [applyPagination] is the window [(k - 1) * n, k * n). *)
Lemma applyPagination_page {A} (items : list A) (p : Pagination) :
  pag_inv p ->
  snd (applyPagination items p) =
    take (Z.to_nat (itemsPerPage p)) (drop (Z.to_nat ((currentPage p - 1) * itemsPerPage p)) items).
Proof.
  intros (H1 & H2 & H3). simpl. rewrite js_slice_nonneg by nia. f_equal. rewrite Z2Nat.inj_add by nia. lia.
Qed.

Lemma setCurrentPage_in_range (k : Z) (p : Pagination) :
  (1 <= k <= getTotalPages p)%Z -> currentPage (setCurrentPage k p) = k.
Proof. intros Hk. simpl. lia. Qed.

(** The first [m] pages, concatenated, followed by the rest. *)
Lemma pages_prefix {A} (items : list A) (n : nat) (m : nat) :
  concat (map (fun k => take n (drop (k * n) items)) (seq 0 m)) ++ drop (m * n) items = items.
Proof.
  induction m as [|m IH]; [done|].
  rewrite seq_S, map_app, concat_app. simpl. rewrite app_nil_r, <- app_assoc.
  rewrite <- (take_drop n (drop (m * n) items)) in IH. rewrite drop_drop in IH.
  by replace (m * n + n) with (S m * n) in IH by lia.
Qed.


Lemma sortKey_not_name (f : jsstring) (k : Image -> Q) :
  sortKey f = Some k -> f <> js "name" /\ f <> js "random".
Proof. intros Hk. split; intros ->; vm_compute in Hk; discriminate. Qed.

Lemma compareImages_key (localeCompare : jsstring -> jsstring -> Q) (random : Image -> Image -> Q)
    (f : jsstring) (k : Image -> Q) (a b : Image) :
  sortKey f = Some k -> _compareImages localeCompare random a b (Some f) = (k a - k b)%Q.
Proof.
  intros Hk. destruct (sortKey_not_name f k Hk) as [Hn Hr]. simpl.
  rewrite !bool_decide_false by done. by rewrite Hk.
Qed.

(** ** Properties *)

(** the pagination invariant ([currentPage >= 1], [itemsPerPage >= 1],
  [totalItems >= 0]) holds after every page operation and
  [applyPagination]; under it the page shown holds at most
  [itemsPerPage] items and [setCurrentPage] lands on a page in
  [1 .. max(1, getTotalPages())]. *)
Theorem pagination_bounds {A} (page n : Z) (items : list A) (p : Pagination) :
  pag_inv p ->
  pag_inv (setCurrentPage page p) /\ pag_inv (setItemsPerPage n p) /\ pag_inv (fst (applyPagination items p)) /\
  (Z.of_nat (length (snd (applyPagination items p))) <= itemsPerPage p)%Z /\
  (currentPage (setCurrentPage page p) <= Z.max 1 (getTotalPages p))%Z.
Proof.
  intros Hinv. split; [by apply setCurrentPage_inv|]. split; [by apply setItemsPerPage_inv|].
  split; [by apply applyPagination_inv|]. destruct Hinv as (H1 & H2 & H3). split.
  - rewrite applyPagination_page by done. pose proof (length_take_le (Z.to_nat (itemsPerPage p))
      (drop (Z.to_nat ((currentPage p - 1) * itemsPerPage p)) items)). lia.
  - simpl. lia.
Qed.

Lemma pagination_bounds_witness :
  pag_inv (new_PaginationManager 20) /\
  currentPage (setCurrentPage 7 (fst (applyPagination (seq 0 45) (new_PaginationManager 20)))) = 3%Z.
Proof.
  assert (H : pag_inv (new_PaginationManager 20)) by (repeat split; simpl; lia).
  split; [done|].
  destruct (pagination_bounds 7 1 (seq 0 45) (new_PaginationManager 20) H) as (_ & _ & Hinv' & _).
  vm_compute. reflexivity.
Defined.

(** C27: the pages partition the items: after [applyPagination] has
  recorded the count, the pages [1 .. getTotalPages()] visited with
  [setCurrentPage], concatenated, are the items in order. *)
Theorem pages_partition_items {A} (items : list A) (p : Pagination) :
  pag_inv p ->
  let p1 := fst (applyPagination items p) in
  concat (map (fun k => snd (applyPagination items (setCurrentPage k p1))) (range_from 1 (getTotalPages p1))) = items.
Proof.
  intros Hinv p1. pose proof (applyPagination_inv items p Hinv) as Hinv1. fold p1 in Hinv1.
  destruct (getTotalPages_spec p1 Hinv1) as (HT0 & HT1 & _).
  set (n := Z.to_nat (itemsPerPage p1)). set (T := Z.to_nat (getTotalPages p1)).
  assert (Hmap : map (fun k => snd (applyPagination items (setCurrentPage k p1))) (range_from 1 (getTotalPages p1)) =
                 map (fun k => take n (drop (k * n) items)) (seq 0 T)).
  { unfold range_from. rewrite map_map. apply map_ext_in. intros k Hk%in_seq. cbv beta.
    rewrite applyPagination_page by (by apply setCurrentPage_inv).
    rewrite setCurrentPage_in_range by (subst T; lia). simpl. subst n. f_equal. f_equal. change (itemsPerPage p1) with (itemsPerPage p).
    replace (1 + Z.of_nat k - 1)%Z with (Z.of_nat k) by lia. by rewrite Z2Nat.inj_mul, Nat2Z.id by (destruct Hinv as (? & ? & ?); lia). }
  rewrite Hmap. rewrite <- (app_nil_r (concat _)).
  rewrite <- (drop_ge items (T * n)) at 1.
  - apply pages_prefix.
  - destruct Hinv1 as (_ & Hn & _). subst p1 T n. simpl in *. nia.
Qed.

Lemma pages_partition_items_witness :
  pag_inv (new_PaginationManager 2) /\
  map (fun k => snd (applyPagination [1; 2; 3; 4; 5] (setCurrentPage k (fst (applyPagination [1; 2; 3; 4; 5] (new_PaginationManager 2))))))
    (range_from 1 (getTotalPages (fst (applyPagination [1; 2; 3; 4; 5] (new_PaginationManager 2)))))
    = [[1; 2]; [3; 4]; [5]].
Proof.
  assert (H : pag_inv (new_PaginationManager 2)) by (repeat split; simpl; lia).
  split; [done|]. pose proof (pages_partition_items [1; 2; 3; 4; 5] _ H) as Hpart. vm_compute. reflexivity.
Defined.

(** sorting on a numeric field ([uploadTime], [lastModified],
  [size], [dimensions], [confidence], [aiTagsCount], [customTagsCount])
  returns a permutation of the images ordered by that field, ascending
  when the direction is ['asc'] and descending for any other direction,
  with images of equal key in their original order. *)
Theorem applySort_orders_numeric_fields (localeCompare : jsstring -> jsstring -> Q) (random : Image -> Image -> Q)
    (f : jsstring) (k : Image -> Q) (images : list Image) (sm : SortManager) :
  field sm = Some f -> sortKey f = Some k ->
  let r := applySort localeCompare random images sm in
  r ≡ₚ images /\
  (forall x, List.filter (fun i => Qeq_bool (k i) x) r = List.filter (fun i => Qeq_bool (k i) x) images) /\
  (direction sm = Some (js "asc") -> Sorted (fun a b => (k a <= k b)%Q) r) /\
  (direction sm <> Some (js "asc") -> Sorted (fun a b => (k b <= k a)%Q) r).
Proof.
  intros Hf Hk r. subst r. unfold applySort. rewrite Hf.
  split; [apply sort_by_perm|].
  case_bool_decide as Hdir.
  - assert (Hcmp : forall a b, (_compareImages localeCompare random a b (Some f) == k a - k b)%Q)
      by (intros; by rewrite (compareImages_key _ _ _ _ _ _ Hk)).
    split; [intros x; by apply sort_by_stable|]. split; [intros _; by apply sort_by_sorted|done].
  - assert (Hcmp : forall a b, (- _compareImages localeCompare random a b (Some f) == k b - k a)%Q)
      by (intros; rewrite (compareImages_key _ _ _ _ _ _ Hk); ring).
    split; [intros x; by apply sort_by_stable_desc|]. split; [done|intros _; by apply sort_by_sorted_desc].
Qed.

Definition sized (i : jsstring) (s : Q) : Image :=
  mkImage i None None (Some s) None None None None None None None None None.

Lemma applySort_orders_numeric_fields_witness :
  sortKey (js "size") = Some (fun i => orQ (size i) 0) /\
  applySort (fun _ _ => 0%Q) (fun _ _ => 0%Q) [sized (js "a") 30; sized (js "b") 10; sized (js "c") 20]
    (setSort (js "size") (Some (js "asc")) (new_SortManager None None)) =
    [sized (js "b") 10; sized (js "c") 20; sized (js "a") 30].
Proof.
  split; [reflexivity|].
  pose proof (applySort_orders_numeric_fields (fun _ _ => 0%Q) (fun _ _ => 0%Q) (js "size") _
    [sized (js "a") 30; sized (js "b") 10; sized (js "c") 20]
    (setSort (js "size") (Some (js "asc")) (new_SortManager None None)) eq_refl eq_refl) as Hsort.
  vm_compute. reflexivity.
Defined.

(** with a current page in [1 .. getTotalPages()] and a positive
  [maxVisible], [getPageRange] returns [min(totalPages, maxVisible)]
  consecutive page numbers, all in [1 .. totalPages], that include the
  current page. *)
Theorem getPageRange_window (maxVisible : Z) (p : Pagination) :
  (1 <= maxVisible)%Z -> (1 <= currentPage p <= getTotalPages p)%Z ->
  exists s, getPageRange maxVisible p = range_from s (Z.min (getTotalPages p) maxVisible) /\
    (1 <= s)%Z /\ (s + Z.min (getTotalPages p) maxVisible - 1 <= getTotalPages p)%Z /\
    (s <= currentPage p <= s + Z.min (getTotalPages p) maxVisible - 1)%Z.
Proof.
  intros Hmv Hc. unfold getPageRange.
  set (T := getTotalPages p) in *. set (c := currentPage p) in *. clearbody T c.
  destruct (Z.leb_spec T maxVisible) as [HT|HT].
  - exists 1%Z. rewrite Z.min_l by lia. repeat split; lia.
  - assert (Hh0 : (0 <= maxVisible / 2)%Z) by (apply Z.div_pos; lia).
    assert (Hh1 : (2 * (maxVisible / 2) <= maxVisible)%Z) by (apply Z.mul_div_le; lia).
    set (half := (maxVisible / 2)%Z) in *. clearbody half. rewrite (Z.min_r T maxVisible) by lia.
    set (S := Z.max 1 (c - half)). set (E := Z.min T (S + maxVisible - 1)).
    destruct (Z.ltb_spec (E - S + 1) maxVisible).
    + exists (Z.max 1 (E - maxVisible + 1)).
      replace (E - Z.max 1 (E - maxVisible + 1) + 1)%Z with maxVisible by (subst E S; lia).
      split; [done|]. subst E S. lia.
    + exists S. replace (E - S + 1)%Z with maxVisible by (subst E S; lia).
      split; [done|]. subst E S. lia.
Qed.

Lemma getPageRange_window_witness :
  currentPage (mkPag 7 10 200) = 7%Z /\ getTotalPages (mkPag 7 10 200) = 20%Z /\
  getPageRange 5 (mkPag 7 10 200) = [5; 6; 7; 8; 9]%Z.
Proof.
  split; [done|]. split; [reflexivity|].
  destruct (getPageRange_window 5 (mkPag 7 10 200) ltac:(lia) ltac:(vm_compute; split; discriminate)) as (s & Hr & _).
  vm_compute. reflexivity.
Defined.

End GalleryPaging.
