(* ===== verification/Gallery.v ===== *)
(** * [GalleryManager]: the gallery composed of its managers

    [src/src/js/galleryManager.js].  The gallery holds all images, the
    images of the last search and filtering ([filteredImages]) and the page
    on display ([displayedImages]).  Every change ends in
    [_updateDisplayedImages]: sort [filteredImages], or all images when
    [filteredImages] is empty, then cut the current page.  The managers'
    events are wired back to the gallery by [_bindEvents]
    ([gallery:filter-changed] re-filters, [gallery:sort-changed],
    [gallery:pagination-changed] and [gallery:page-changed] re-display);
    the operations below include these synchronous listener runs.

    [new GalleryManager()] builds a [SearchEngine] first, which reads
    [CONFIG.SEARCH.MAX_HISTORY_SIZE]; [CONFIG] has no [SEARCH], so the
    module's top-level [new GalleryManager()] throws.  The constructor is
    modelled with the search configuration as an option.

    [refreshGallery] awaits [imageManager.getAllImages()]: it is split into
    its start (the [isLoading] guard) and its completion, with the fetched
    images as input; the loading indicator is not modelled. *)

From Stdlib Require Import QArith Qminmax Lqa Sorted.
From S2P Require Import Prelude JsMap JsArray GallerySearch GalleryPaging.

Module Gallery.
Import GallerySearch GalleryPaging.

Record Gallery := mkGallery {
  searchEngine : SearchEngine;
  filterManager : FilterManager;
  sortManager : SortManager;
  paginationManager : Pagination;
  viewManager : ViewManager;
  images : list Image;
  filteredImages : list Image;
  displayedImages : list Image;
  isLoading : bool;
  lastRefreshTime : Z;
  isInitialized : bool
}.

(** The [CONFIG.UI] settings the managers read. *)
Record UIConfig := mkUIConfig {
  DEFAULT_SORT_FIELD : option jsstring;
  DEFAULT_SORT_DIRECTION : option jsstring;
  DEFAULT_ITEMS_PER_PAGE : Z;
  DEFAULT_VIEW_MODE : jsstring;
  VIEW_MODES : list jsstring;
  DEFAULT_GRID_COLUMNS : Z
}.

(** [new GalleryManager()]: the managers, the empty lists, then
  [_bindEvents()] (the listeners of [GalleryEvents]) and
  [_initializeGallery()], whose [refreshGallery({ force: true })] sets
  [isLoading] before its first [await]; [refreshGallery_done] completes
  it. *)
Definition new_GalleryManager (search : option SearchConfig) (ui : UIConfig) : js_error + Gallery :=
  match new_SearchEngine search with
  | inl e => inl e
  | inr se =>
      inr (mkGallery se new_FilterManager (new_SortManager (DEFAULT_SORT_FIELD ui) (DEFAULT_SORT_DIRECTION ui))
             (new_PaginationManager (DEFAULT_ITEMS_PER_PAGE ui))
             (mkView (DEFAULT_VIEW_MODE ui) (VIEW_MODES ui) (DEFAULT_GRID_COLUMNS ui))
             [] [] [] true 0 false)
  end.

(** [CONFIG.SEARCH] in [src/src/js/config.js]. *)
Definition repository_search_config : option SearchConfig := None.

Definition set_pagination (p : Pagination) (g : Gallery) : Gallery :=
  mkGallery (searchEngine g) (filterManager g) (sortManager g) p (viewManager g)
    (images g) (filteredImages g) (displayedImages g) (isLoading g) (lastRefreshTime g) (isInitialized g).

Definition set_images (l : list Image) (g : Gallery) : Gallery :=
  mkGallery (searchEngine g) (filterManager g) (sortManager g) (paginationManager g) (viewManager g)
    l (filteredImages g) (displayedImages g) (isLoading g) (lastRefreshTime g) (isInitialized g).

Definition set_filtered (se : SearchEngine) (fm : FilterManager) (l : list Image) (g : Gallery) : Gallery :=
  mkGallery se fm (sortManager g) (paginationManager g) (viewManager g)
    (images g) l (displayedImages g) (isLoading g) (lastRefreshTime g) (isInitialized g).

Definition set_sort (sm : SortManager) (g : Gallery) : Gallery :=
  mkGallery (searchEngine g) (filterManager g) sm (paginationManager g) (viewManager g)
    (images g) (filteredImages g) (displayedImages g) (isLoading g) (lastRefreshTime g) (isInitialized g).

Definition set_loading (b : bool) (g : Gallery) : Gallery :=
  mkGallery (searchEngine g) (filterManager g) (sortManager g) (paginationManager g) (viewManager g)
    (images g) (filteredImages g) (displayedImages g) b (lastRefreshTime g) (isInitialized g).

(** [array.findIndex(img => img.id === imageId)]. *)
Fixpoint findIndex (imageId : jsstring) (l : list Image) : option nat :=
  match l with
  | [] => None
  | i :: l' => if bool_decide (id i = imageId) then Some 0 else S <$> findIndex imageId l'
  end.

(** The properties an [updates] object sets. *)
Record ImagePatch := mkPatch {
  p_name : option (option jsstring); p_type : option (option jsstring); p_size : option (option Q);
  p_width : option (option Q); p_height : option (option Q); p_aiTags : option (option (list AITag));
  p_customTags : option (option (list jsstring)); p_notes : option (option jsstring);
  p_aiDescription : option (option jsstring); p_exifText : option (option jsstring);
  p_uploadTime : option (option Q); p_lastModified : option (option Q)
}.

(** [{ ...image, ...updates }]. *)
Definition merge_patch (i : Image) (u : ImagePatch) : Image :=
  mkImage (id i) (default (name i) (p_name u)) (default (type_ i) (p_type u)) (default (size i) (p_size u))
    (default (width i) (p_width u)) (default (height i) (p_height u)) (default (aiTags i) (p_aiTags u))
    (default (customTags i) (p_customTags u)) (default (notes i) (p_notes u))
    (default (aiDescription i) (p_aiDescription u)) (default (exifText i) (p_exifText u))
    (default (uploadTime i) (p_uploadTime u)) (default (lastModified i) (p_lastModified u)).

Section Operations.
Variable toLowerCase : jsstring -> jsstring.
Variable localeCompare : jsstring -> jsstring -> Q.
Variable random : Image -> Image -> Q.

(** [_updateDisplayedImages()]. *)
Definition _updateDisplayedImages (g : Gallery) : Gallery :=
  let workingImages := match filteredImages g with [] => images g | fs => fs end in
  let sorted := applySort localeCompare random workingImages (sortManager g) in
  let '(p, page) := applyPagination sorted (paginationManager g) in
  mkGallery (searchEngine g) (filterManager g) (sortManager g) p (viewManager g)
    (images g) (filteredImages g) page (isLoading g) (lastRefreshTime g) (isInitialized g).

(** [paginationManager.setCurrentPage(page)] and the
  [gallery:page-changed] listener. *)
Definition goToPage (page : Z) (g : Gallery) : Gallery :=
  _updateDisplayedImages (set_pagination (setCurrentPage page (paginationManager g)) g).

(** [searchImages(query, options)]: the exception of [applyFilters], if
  any, escapes after the history was updated. *)
Definition searchImages (now : Z) (q : jsstring) (opts : WeightOverrides) (g : Gallery) : Gallery * option js_error :=
  let '(se, searchResults) := search toLowerCase now q (images g) opts (searchEngine g) in
  match applyFilters toLowerCase searchResults (filterManager g) with
  | inl e => (set_filtered se (filterManager g) (filteredImages g) g, Some e)
  | inr fs => (_updateDisplayedImages (goToPage 1 (set_filtered se (filterManager g) fs g)), None)
  end.

(** [applyFilters()]: re-runs the most recent search of the history. *)
Definition applyFilters_gm (now : Z) (g : Gallery) : Gallery * option js_error :=
  let '(se, baseImages) :=
    match searchHistory (searchEngine g) with
    | [] => (searchEngine g, images g)
    | h :: _ => search toLowerCase now (query h) (images g) no_overrides (searchEngine g)
    end in
  match applyFilters toLowerCase baseImages (filterManager g) with
  | inl e => (set_filtered se (filterManager g) (filteredImages g) g, Some e)
  | inr fs => (_updateDisplayedImages (goToPage 1 (set_filtered se (filterManager g) fs g)), None)
  end.

(** [filterManager.setFilter(type, value)] and the
  [gallery:filter-changed] listener ([applyFilters], [saveFiltersState]). *)
Definition setFilter_gm (now : Z) (filterType : jsstring) (value : option filter_value) (g : Gallery)
    : Gallery * option js_error :=
  applyFilters_gm now (set_filtered (searchEngine g) (setFilter filterType value (filterManager g)) (filteredImages g) g).

(** [sortManager.setSort(field, direction)] and the
  [gallery:sort-changed] listener. *)
Definition setSort_gm (f : jsstring) (dir : option jsstring) (g : Gallery) : Gallery :=
  _updateDisplayedImages (set_sort (setSort f dir (sortManager g)) g).

(** [paginationManager.setItemsPerPage(n)] and the
  [gallery:pagination-changed] listener. *)
Definition setItemsPerPage_gm (n : Z) (g : Gallery) : Gallery :=
  _updateDisplayedImages (set_pagination (setItemsPerPage n (paginationManager g)) g).

(** [addImage(imageData)]. *)
Definition addImage (img : Image) (g : Gallery) : Gallery :=
  _updateDisplayedImages (set_images (img :: images g) g).

(** [removeImage(imageId)]. *)
Definition removeImage (imageId : jsstring) (g : Gallery) : Gallery :=
  match findIndex imageId (images g) with
  | Some i => _updateDisplayedImages (set_images (delete i (images g)) g)
  | None => g
  end.

(** [updateImage(imageId, updates)]. *)
Definition updateImage (imageId : jsstring) (u : ImagePatch) (g : Gallery) : Gallery :=
  match findIndex imageId (images g) with
  | Some i => _updateDisplayedImages (set_images (alter (fun img => merge_patch img u) i (images g)) g)
  | None => g
  end.

(** [getImage(imageId)]. *)
Definition getImage (imageId : jsstring) (g : Gallery) : option Image :=
  List.find (fun img => bool_decide (id img = imageId)) (images g).

(** [clearAllFilters()]. *)
Definition clearAllFilters_gm (g : Gallery) : Gallery :=
  _updateDisplayedImages (goToPage 1 (set_filtered (clearHistory (searchEngine g)) (clearAllFilters (filterManager g))
                                        (images g) g)).

(** The start of [refreshGallery({ force })]: [None] when a refresh is
  already running and [force] is false. *)
Definition refreshGallery_start (force : bool) (g : Gallery) : option Gallery :=
  if isLoading g && negb force then None else Some (set_loading true g).

(** The completion of [refreshGallery]: the fetched images, the display,
  the time; the [finally] clears [isLoading]. *)
Definition refreshGallery_done (fetched : list Image) (now : Z) (g : Gallery) : Gallery :=
  let g' := _updateDisplayedImages (set_images fetched g) in
  mkGallery (searchEngine g') (filterManager g') (sortManager g') (paginationManager g') (viewManager g')
    (images g') (filteredImages g') (displayedImages g') false now (isInitialized g').
End Operations.

(** ** Lemmas *)

Section GalleryLemmas.
Variable toLowerCase : jsstring -> jsstring.
Variable localeCompare : jsstring -> jsstring -> Q.
Variable random : Image -> Image -> Q.

(** [_updateDisplayedImages] as a record: the pagination state and the
  page of [applyPagination] on the sorted working list. *)
Lemma update_unfold (g : Gallery) :
  _updateDisplayedImages localeCompare random g =
  let sorted := applySort localeCompare random (match filteredImages g with [] => images g | fs => fs end)
                  (sortManager g) in
  mkGallery (searchEngine g) (filterManager g) (sortManager g) (fst (applyPagination sorted (paginationManager g)))
    (viewManager g) (images g) (filteredImages g) (snd (applyPagination sorted (paginationManager g)))
    (isLoading g) (lastRefreshTime g) (isInitialized g).
Proof.
  unfold _updateDisplayedImages. cbv zeta.
  by destruct (applyPagination (applySort localeCompare random _ (sortManager g)) (paginationManager g)).
Qed.

(** With a non-empty [filteredImages], the display ignores [images]. *)
Lemma update_set_images_filtered (l : list Image) (g : Gallery) :
  filteredImages g <> [] ->
  displayedImages (_updateDisplayedImages localeCompare random (set_images l g)) =
  displayedImages (_updateDisplayedImages localeCompare random g).
Proof. intros Hf. rewrite !update_unfold. simpl. by destruct (filteredImages g). Qed.

Lemma findIndex_length (imageId : jsstring) (l : list Image) (i : nat) :
  findIndex imageId l = Some i -> i < length l.
Proof.
  revert i. induction l as [|x l IH]; intros i; simpl; [done|].
  case_bool_decide; [intros [= <-]; lia|].
  destruct (findIndex imageId l) as [j|] eqn:E; simpl; [intros [= <-]|done]. specialize (IH j eq_refl). lia.
Qed.

(** [goToPage 1] lands on the first page, whatever the page count. *)
Lemma goToPage_1_current (g : Gallery) :
  currentPage (paginationManager (goToPage localeCompare random 1 g)) = 1%Z.
Proof. unfold goToPage. rewrite update_unfold. simpl. lia. Qed.

Lemma goToPage_fields (page : Z) (g : Gallery) :
  images (goToPage localeCompare random page g) = images g /\
  filteredImages (goToPage localeCompare random page g) = filteredImages g /\
  sortManager (goToPage localeCompare random page g) = sortManager g /\
  itemsPerPage (paginationManager (goToPage localeCompare random page g)) = itemsPerPage (paginationManager g).
Proof. unfold goToPage. rewrite update_unfold. by simpl. Qed.
End GalleryLemmas.

(** ** Properties *)

(** [new GalleryManager()] throws a [TypeError] whatever the UI
  settings, because [CONFIG] has no [SEARCH] section: the module's
  top-level [const galleryManager = new GalleryManager()] fails, and with
  it the evaluation of [galleryManager.js] and of every module importing
  it. *)
Theorem gallery_construction_throws (ui : UIConfig) :
  new_GalleryManager repository_search_config ui =
    inl (TypeError (js "Cannot read properties of undefined (reading 'MAX_HISTORY_SIZE')")).
Proof. reflexivity. Qed.

(** a search that matches no image, with no active filter, does not
  show an empty result: [filteredImages] becomes empty and
  [_updateDisplayedImages] falls back to all images, so the first page of
  the whole gallery is displayed. *)
Theorem empty_search_shows_all (toLowerCase : jsstring -> jsstring) (localeCompare : jsstring -> jsstring -> Q)
    (random : Image -> Image -> Q) (now : Z) (q : jsstring) (opts : WeightOverrides) (g : Gallery) :
  activeFilters (filterManager g) = [] -> pag_inv (paginationManager g) ->
  snd (search toLowerCase now q (images g) opts (searchEngine g)) = [] ->
  snd (searchImages toLowerCase localeCompare random now q opts g) = None /\
  displayedImages (fst (searchImages toLowerCase localeCompare random now q opts g)) =
    take (Z.to_nat (itemsPerPage (paginationManager g))) (applySort localeCompare random (images g) (sortManager g)).
Proof.
  intros Hf Hinv Hs. unfold searchImages.
  destruct (search toLowerCase now q (images g) opts (searchEngine g)) as [se r]. simpl in Hs. subst r.
  unfold applyFilters. rewrite Hf. cbv beta iota. split; [reflexivity|]. cbn [fst].
  set (g1 := set_filtered se (filterManager g) [] g).
  destruct (goToPage_fields localeCompare random 1 g1) as (Hi & Hfi & Hso & Hn).
  pose proof (goToPage_1_current localeCompare random g1) as Hc.
  set (g2 := goToPage localeCompare random 1 g1) in *.
  assert (Hinv2 : pag_inv (paginationManager g2)).
  { subst g2. unfold goToPage. rewrite update_unfold. destruct Hinv as (? & ? & ?). repeat split; simpl; lia. }
  change (filteredImages g1) with (@nil Image) in Hfi. change (images g1) with (images g) in Hi.
  change (sortManager g1) with (sortManager g) in Hso.
  change (itemsPerPage (paginationManager g1)) with (itemsPerPage (paginationManager g)) in Hn.
  rewrite update_unfold. cbv zeta. cbn [displayedImages]. rewrite Hfi, applyPagination_page by done.
  rewrite Hc, Hn, Hi, Hso. by rewrite Z.sub_diag, Z.mul_0_l, drop_0.
Qed.

Definition sample_ui : UIConfig :=
  mkUIConfig (Some (js "size")) (Some (js "desc")) 20 (js "grid") [js "grid"; js "list"] 4.

Definition sample_gallery : Gallery :=
  match new_GalleryManager (Some (mkSearchConfig 10 sample_weights)) sample_ui with
  | inr g => fold_right (addImage (fun _ _ => 0%Q) (fun _ _ => 0%Q)) g sample_images
  | inl _ => mkGallery (mkSE [] 10 sample_weights) new_FilterManager (mkSort None None) (mkPag 1 20 0)
               (mkView (js "grid") [] 4) [] [] [] false 0 false
  end.

Lemma empty_search_shows_all_witness :
  displayedImages (fst (searchImages ascii_lower (fun _ _ => 0%Q) (fun _ _ => 0%Q) 0 (js "zebra") no_overrides sample_gallery))
    = sample_images.
Proof.
  destruct (empty_search_shows_all ascii_lower (fun _ _ => 0%Q) (fun _ _ => 0%Q) 0 (js "zebra") no_overrides sample_gallery)
    as [_ ->]; [reflexivity|vm_compute; repeat split; discriminate|vm_compute; reflexivity|].
  vm_compute. reflexivity.
Defined.

(** while a search or filter result is shown ([filteredImages]
  non-empty), [addImage], [removeImage] and [updateImage] change
  [images] but not what is displayed: a removed image stays on display,
  an added one does not appear, an updated one shows its old data. *)
Theorem stale_display_while_filtered (localeCompare : jsstring -> jsstring -> Q) (random : Image -> Image -> Q)
    (img : Image) (imageId : jsstring) (u : ImagePatch) (g : Gallery) :
  filteredImages g <> [] ->
  displayedImages (addImage localeCompare random img g) = displayedImages (_updateDisplayedImages localeCompare random g) /\
  displayedImages (removeImage localeCompare random imageId g) = displayedImages (_updateDisplayedImages localeCompare random g) /\
  displayedImages (updateImage localeCompare random imageId u g) = displayedImages (_updateDisplayedImages localeCompare random g) \/
  findIndex imageId (images g) = None.
Proof.
  intros Hf. destruct (findIndex imageId (images g)) as [i|] eqn:E; [left|by right].
  unfold addImage, removeImage, updateImage. rewrite E. by rewrite !update_set_images_filtered.
Qed.

Lemma stale_display_while_filtered_witness :
  let g := fst (searchImages ascii_lower (fun _ _ => 0%Q) (fun _ _ => 0%Q) 0 (js "dog") no_overrides sample_gallery) in
  filteredImages g <> [] /\
  images (removeImage (fun _ _ => 0%Q) (fun _ _ => 0%Q) (js "2") g) = [nth 0 sample_images (sample_image [] [] []); nth 2 sample_images (sample_image [] [] [])] /\
  displayedImages (removeImage (fun _ _ => 0%Q) (fun _ _ => 0%Q) (js "2") g) = displayedImages g /\
  In (nth 1 sample_images (sample_image [] [] [])) (displayedImages g).
Proof.
  intros g. assert (Hf : filteredImages g <> []) by (vm_compute; discriminate).
  destruct (stale_display_while_filtered (fun _ _ => 0%Q) (fun _ _ => 0%Q) (sample_image [] [] []) (js "2")
              (mkPatch None None None None None None None None None None None None) g Hf) as [H|H].
  - split; [done|]. vm_compute. split; [reflexivity|]. split; [reflexivity|]. left; reflexivity.
  - vm_compute in H. discriminate.
Defined.

(** [removeImage] does not clamp the current page: with no search or
  filter shown, removing an image while the current page starts at the
  last image leaves that page past the end, so nothing is displayed
  although images remain. *)
Theorem remove_leaves_empty_page (localeCompare : jsstring -> jsstring -> Q) (random : Image -> Image -> Q)
    (imageId : jsstring) (i : nat) (g : Gallery) :
  filteredImages g = [] -> pag_inv (paginationManager g) -> findIndex imageId (images g) = Some i ->
  (Z.of_nat (length (images g)) <= (currentPage (paginationManager g) - 1) * itemsPerPage (paginationManager g) + 1)%Z ->
  displayedImages (removeImage localeCompare random imageId g) = [] /\
  length (images (removeImage localeCompare random imageId g)) = pred (length (images g)).
Proof.
  intros Hf Hinv Hi Hlen. pose proof (findIndex_length imageId (images g) i Hi) as Hlt.
  unfold removeImage. rewrite Hi, update_unfold. cbv zeta. cbn [displayedImages images filteredImages set_images].
  rewrite Hf. rewrite length_delete by (apply lookup_lt_is_Some_2; lia).
  split; [|lia].
  rewrite applyPagination_page by done. rewrite drop_ge; [apply take_nil|].
  unfold applySort. rewrite (Permutation_length (sort_by_perm _ _)), length_delete by (apply lookup_lt_is_Some_2; lia).
  cbn [paginationManager set_images]. destruct Hinv as (H1 & H2 & H3).
  assert (0 <= (currentPage (paginationManager g) - 1) * itemsPerPage (paginationManager g))%Z by nia. lia.
Qed.

Lemma remove_leaves_empty_page_witness :
  let g := goToPage (fun _ _ => 0%Q) (fun _ _ => 0%Q) 3
             (setItemsPerPage_gm (fun _ _ => 0%Q) (fun _ _ => 0%Q) 1 sample_gallery) in
  currentPage (paginationManager g) = 3%Z /\
  displayedImages (removeImage (fun _ _ => 0%Q) (fun _ _ => 0%Q) (js "1") g) = [] /\
  length (images (removeImage (fun _ _ => 0%Q) (fun _ _ => 0%Q) (js "1") g)) = 2.
Proof.
  intros g. split; [vm_compute; reflexivity|].
  apply (remove_leaves_empty_page _ _ (js "1") 0 g); [vm_compute; reflexivity|vm_compute; repeat split; discriminate
    |vm_compute; reflexivity|vm_compute; discriminate].
Defined.

End Gallery.
