(* ===== verification/GalleryEvents.v ===== *)
(** * The listeners of [GalleryManager._bindEvents], the refreshes they
    start, and the remaining methods ([src/src/js/galleryManager.js])

    [_bindEvents] subscribes the gallery to nine events of [eventManager];
    [handle] is what one emission does: the synchronous part of the
    listener, the exception it throws (which [emit] catches and logs) and
    the [gallery:render-required] requests it emits.  The [image:loaded]
    listener calls [refreshGallery()], an [async] method, so the gallery
    lives in a [Loop]: the gallery, the [loadedImages] map of
    [imageManager] and the refreshes in flight.  A call of
    [refreshGallery] ([refreshGallery_call]) passes the [isLoading] guard
    or returns; past it, it sets [isLoading] and calls
    [imageManager.getAllImages()], whose body runs at once and copies
    [loadedImages.values()]: that snapshot is what the refresh installs
    when it resumes after its [await] ([refreshGallery_resume], oldest
    first).  An image load that completes runs, in this order, the
    [emitImageLoaded] at the end of [ImageManager._loadImageInternal]
    (imageManager.js, line 860) and the [loadedImages.set] that
    [loadImage] performs after [await loadingPromise] (line 772):
    [loadImage_completion].  [loop_step] is one event of the event loop
    and [reachable] closes it from a freshly built gallery, whose
    constructor's forced refresh is in flight.  The [saveFiltersState()]
    that the [gallery:filter-changed] listener runs after [applyFilters()]
    writes to [userPreferences], which throws and is caught in the
    repository ([GalleryPrefs] models it over a working store); [handle]
    leaves it out.  [applySort] and [applyPagination] re-display;
    [initialize] sets [isInitialized]; the getters copy the lists.

    The theorem: a newly loaded image is never shown by the refreshes its
    own [image:loaded] triggers or finds in flight: each of them holds a
    snapshot taken before [loadImage] stored the image, so once they have
    all completed the gallery is idle, [imageManager] holds the image and
    the gallery does not. *)

From Stdlib Require Import QArith.
From S2P Require Import Prelude JsMap JsArray GallerySearch GalleryPaging Gallery.

Module GalleryEvents.
Import GallerySearch GalleryPaging Gallery.

(** The events [_bindEvents] listens to, with the data the listeners read. *)
Inductive gallery_event :=
  | ImageLoaded
  | ImageRemoved (imageId : jsstring)
  | ImageUpdated (imageId : jsstring) (updates : ImagePatch)
  | FilterChanged
  | SortChanged
  | PaginationChanged
  | PageChanged
  | ViewChanged
  | GridColumnsChanged.

(** The payloads of [gallery:render-required]. *)
Inductive render_request :=
  | RenderView (viewMode : jsstring) (timestamp : Z)
  | RenderGrid (gridColumns : Z) (timestamp : Z).

(** The events of the event loop that touch the gallery: an emission of
  an event it listens to, the store of a loaded image into
  [imageManager.loadedImages], another caller's [refreshGallery({ force })],
  and the resumption of the oldest refresh in flight. *)
Inductive loop_event :=
  | LEmit (now : Z) (ev : gallery_event)
  | LStore (cacheKey : jsstring) (x : Image)
  | LRefresh (force : bool)
  | LResume (now : Z).

(** The end of a load of [imageManager.loadImage(source, { useCache })]:
  [_loadImageInternal] emits [image:loaded] before it returns, then
  [loadImage] resumes and stores the image. *)
Definition loadImage_completion (useCache : bool) (cacheKey : jsstring) (x : Image) (now : Z) : list loop_event :=
  LEmit now ImageLoaded :: (if useCache then [LStore cacheKey x] else []).

Section Events.
Variable toLowerCase : jsstring -> jsstring.
Variable localeCompare : jsstring -> jsstring -> Q.
Variable random : Image -> Image -> Q.

(** [applySort()] and [applyPagination()]. *)
Definition applySort_gm (g : Gallery) : Gallery := _updateDisplayedImages localeCompare random g.
Definition applyPagination_gm (g : Gallery) : Gallery := _updateDisplayedImages localeCompare random g.

(** [initialize()]: nothing to do beyond the flag. *)
Definition initialize (g : Gallery) : Gallery :=
  if isInitialized g then g
  else mkGallery (searchEngine g) (filterManager g) (sortManager g) (paginationManager g) (viewManager g)
         (images g) (filteredImages g) (displayedImages g) (isLoading g) (lastRefreshTime g) true.

(** [getAllImages()], [getDisplayedImages()], [getFilteredImages()]:
  copies of the lists. *)
Definition getAllImages (g : Gallery) : list Image := images g.
Definition getDisplayedImages (g : Gallery) : list Image := displayedImages g.
Definition getFilteredImages (g : Gallery) : list Image := filteredImages g.

(** The gallery, [imageManager.loadedImages] and the snapshots of the
  refreshes in flight, oldest first. *)
Record Loop := mkLoop {
  gallery : Gallery;
  loadedImages : JsMap.t jsstring Image;
  inflight : list (list Image)
}.

Definition set_gallery (g : Gallery) (lp : Loop) : Loop := mkLoop g (loadedImages lp) (inflight lp).

(** [imageManager.getAllImages()]: [Array.from(this.loadedImages.values())],
  computed before its promise is returned. *)
Definition getAllImages_im (lp : Loop) : list Image := map snd (loadedImages lp).

(** A call of [refreshGallery({ force })] up to its [await]. *)
Definition refreshGallery_call (force : bool) (lp : Loop) : Loop :=
  match refreshGallery_start force (gallery lp) with
  | None => lp
  | Some g => mkLoop g (loadedImages lp) (inflight lp ++ [getAllImages_im lp])
  end.

(** The oldest refresh in flight resumes after its [await] and runs to
  its [finally]. *)
Definition refreshGallery_resume (now : Z) (lp : Loop) : Loop :=
  match inflight lp with
  | [] => lp
  | L :: rest => mkLoop (refreshGallery_done localeCompare random L now (gallery lp)) (loadedImages lp) rest
  end.

(** One emission of an event the gallery listens to, at time [now]. *)
Definition handle (now : Z) (ev : gallery_event) (lp : Loop) : Loop * option js_error * list render_request :=
  let g := gallery lp in
  match ev with
  | ImageLoaded => (refreshGallery_call false lp, None, [])
  | ImageRemoved i => (set_gallery (removeImage localeCompare random i g) lp, None, [])
  | ImageUpdated i u => (set_gallery (updateImage localeCompare random i u g) lp, None, [])
  | FilterChanged => let '(g', e) := applyFilters_gm toLowerCase localeCompare random now g in (set_gallery g' lp, e, [])
  | SortChanged => (set_gallery (applySort_gm g) lp, None, [])
  | PaginationChanged | PageChanged => (set_gallery (applyPagination_gm g) lp, None, [])
  | ViewChanged => (lp, None, [RenderView (currentView (viewManager g)) now])
  | GridColumnsChanged => (lp, None, [RenderGrid (gridColumns (viewManager g)) now])
  end.

(** The [loadedImages.set(cacheKey, result)] of [loadImage], when [useCache]. *)
Definition storeImage (cacheKey : jsstring) (x : Image) (lp : Loop) : Loop :=
  mkLoop (gallery lp) (JsMap.set cacheKey x (loadedImages lp)) (inflight lp).

(** One event of the event loop. *)
Definition loop_step (e : loop_event) (lp : Loop) : Loop :=
  match e with
  | LEmit now ev => fst (fst (handle now ev lp))
  | LStore cacheKey x => storeImage cacheKey x lp
  | LRefresh force => refreshGallery_call force lp
  | LResume now => refreshGallery_resume now lp
  end.

Definition run_loop (es : list loop_event) (lp : Loop) : Loop := fold_left (fun lp e => loop_step e lp) es lp.

(** The loop states of a gallery built by [new GalleryManager()], with
  [imageManager] holding [L] at that time. *)
Inductive reachable : Loop -> Prop :=
  | reach_new cfg ui g L : new_GalleryManager cfg ui = inr g -> reachable (mkLoop g L [map snd L])
  | reach_step e lp : reachable lp -> reachable (loop_step e lp).

(** ** Lemmas *)

(** A refresh in flight whenever [isLoading] is set. *)
Definition loop_wf (lp : Loop) : Prop := isLoading (gallery lp) = true -> inflight lp <> [].

Lemma update_loading (g : Gallery) : isLoading (_updateDisplayedImages localeCompare random g) = isLoading g.
Proof. by rewrite update_unfold. Qed.

Local Ltac loading_t :=
  unfold removeImage, updateImage, applyFilters_gm, applySort_gm, applyPagination_gm, goToPage;
  repeat case_match; intros; simplify_eq/=; rewrite ?update_loading; done.

(** The listeners other than [image:loaded] neither touch [isLoading] nor
  start a refresh. *)
Lemma handle_other (now : Z) (ev : gallery_event) (lp : Loop) :
  ev <> ImageLoaded ->
  isLoading (gallery (loop_step (LEmit now ev) lp)) = isLoading (gallery lp) /\
  inflight (loop_step (LEmit now ev) lp) = inflight lp.
Proof.
  intros Hev. destruct ev; cbn [loop_step handle fst]; try done;
    try (split; [cbn [gallery set_gallery]; loading_t|done]).
  destruct (applyFilters_gm _ _ _ _ _) as [g' e] eqn:Ea. cbn. split; [|done].
  revert Ea. loading_t.
Qed.

(** A call of [refreshGallery] keeps [loadedImages] and either starts a
  refresh with the current snapshot or finds one in flight. *)
Lemma call_inflight (force : bool) (lp : Loop) :
  loop_wf lp ->
  loadedImages (refreshGallery_call force lp) = loadedImages lp /\
  (inflight (refreshGallery_call force lp) = inflight lp ++ [getAllImages_im lp] \/
   (inflight (refreshGallery_call force lp) = inflight lp /\ inflight lp <> [])).
Proof.
  intros Hwf. unfold refreshGallery_call, refreshGallery_start.
  destruct (isLoading (gallery lp) && negb force) eqn:E; cbn; [|auto].
  apply andb_prop in E as [E _]. split; [done|]. right. split; [done|]. by apply Hwf.
Qed.

Lemma step_wf (e : loop_event) (lp : Loop) : loop_wf lp -> loop_wf (loop_step e lp).
Proof.
  intros Hwf. destruct e as [now ev|k x|force|now].
  - assert (Hev : ev = ImageLoaded \/ ev <> ImageLoaded) by (destruct ev; [left|right..]; done).
    destruct Hev as [->|Hev].
    + cbn [loop_step handle fst]. unfold refreshGallery_call, refreshGallery_start.
      destruct (_ && _); [done|]. intros _. cbn. by destruct (inflight lp).
    + destruct (handle_other now ev lp Hev) as [Hl Hi]. unfold loop_wf. rewrite Hl, Hi. done.
  - done.
  - cbn [loop_step]. unfold refreshGallery_call, refreshGallery_start.
    destruct (_ && _); [done|]. intros _. cbn. by destruct (inflight lp).
  - cbn [loop_step]. unfold refreshGallery_resume. destruct (inflight lp); [done|].
    unfold loop_wf, refreshGallery_done. by rewrite update_unfold.
Qed.

Lemma reachable_wf (lp : Loop) : reachable lp -> loop_wf lp.
Proof. induction 1; [done|by apply step_wf]. Qed.

(** A completed refresh shows its snapshot and clears [isLoading]. *)
Lemma refresh_done_fields (L : list Image) (now : Z) (g : Gallery) :
  images (refreshGallery_done localeCompare random L now g) = L /\
  isLoading (refreshGallery_done localeCompare random L now g) = false.
Proof. unfold refreshGallery_done. by rewrite update_unfold. Qed.

Lemma run_loop_app (es1 es2 : list loop_event) (lp : Loop) :
  run_loop (es1 ++ es2) lp = run_loop es2 (run_loop es1 lp).
Proof. apply fold_left_app. Qed.

Lemma run_loop_cons (e : loop_event) (es : list loop_event) (lp : Loop) :
  run_loop (e :: es) lp = run_loop es (loop_step e lp).
Proof. done. Qed.

Lemma resume_idle (n : nat) (now : Z) (lp : Loop) :
  inflight lp = [] -> run_loop (replicate n (LResume now)) lp = lp.
Proof.
  intros Hi. induction n as [|n IH]; [done|]. cbn [replicate]. rewrite run_loop_cons. cbn [loop_step].
  unfold refreshGallery_resume. rewrite Hi. exact IH.
Qed.

(** Resuming every refresh in flight leaves the gallery idle, showing the
  last snapshot. *)
Lemma resume_all (x : Image) (now : Z) (n : nat) :
  forall lp, length (inflight lp) <= n -> inflight lp <> [] -> Forall (fun L => x ∉ L) (inflight lp) ->
  let lp' := run_loop (replicate n (LResume now)) lp in
  inflight lp' = [] /\ isLoading (gallery lp') = false /\ (x ∉ images (gallery lp')) /\
  loadedImages lp' = loadedImages lp.
Proof.
  induction n as [|n IH]; intros lp Hn Hne Hx; [destruct (inflight lp); cbn in *; [done|lia]|].
  cbv zeta. cbn [replicate]. rewrite run_loop_cons. cbn [loop_step]. unfold refreshGallery_resume.
  destruct (inflight lp) as [|L rest] eqn:Ei; [done|]. apply Forall_cons in Hx as [HL Hx].
  destruct (refresh_done_fields L now (gallery lp)) as [Him Hld].
  destruct rest as [|L' rest].
  - rewrite resume_idle by done. cbn [inflight gallery loadedImages]. by rewrite Him, Hld.
  - apply (IH (mkLoop _ (loadedImages lp) (L' :: rest))); cbn in *; [lia|done|done].
Qed.

(** ** Theorems *)

(** C12: a newly loaded image is never shown by the refreshes of its own
  load: on every state the loop reaches, when a load of an image [x] that
  neither [imageManager] nor any refresh in flight holds completes,
  [_loadImageInternal] emits [image:loaded] before [loadImage] stores [x],
  so the listener's [refreshGallery()] either finds a refresh in flight
  or starts one whose snapshot lacks [x]; once every refresh in flight
  has resumed, the gallery is idle ([isLoading] cleared, nothing in
  flight), [imageManager.getAllImages()] holds [x] and the gallery does
  not, until some later refresh. *)
Theorem image_loaded_not_shown (lp : Loop) (cacheKey : jsstring) (x : Image) (now now' : Z) :
  reachable lp -> x ∉ getAllImages_im lp -> Forall (fun L => x ∉ L) (inflight lp) ->
  let lp' := run_loop (loadImage_completion true cacheKey x now ++
                       replicate (S (length (inflight lp))) (LResume now')) lp in
  (x ∈ getAllImages_im lp') /\ inflight lp' = [] /\ isLoading (gallery lp') = false /\
  (x ∉ images (gallery lp')).
Proof.
  intros Hr Hx Hfl. cbv zeta. rewrite run_loop_app. unfold loadImage_completion.
  rewrite !run_loop_cons. change (run_loop [] ?l) with l. cbn [loop_step handle fst].
  destruct (call_inflight false lp (reachable_wf lp Hr)) as [Hld Hin].
  set (lp1 := refreshGallery_call false lp) in *.
  assert (Hne : inflight (storeImage cacheKey x lp1) <> [] /\
                Forall (fun L => x ∉ L) (inflight (storeImage cacheKey x lp1)) /\
                length (inflight (storeImage cacheKey x lp1)) <= S (length (inflight lp))).
  { cbn [inflight storeImage]. destruct Hin as [-> | [-> Hne]].
    - rewrite length_app. cbn. split; [by destruct (inflight lp)|]. split; [|lia].
      apply Forall_app. auto.
    - split_and!; [done|done|lia]. }
  destruct Hne as (Hne & Hfl1 & Hlen).
  destruct (resume_all x now' _ _ Hlen Hne Hfl1) as (Hi & Hl & Him & Hlo).
  split_and!; [|done|done|done].
  unfold getAllImages_im. rewrite Hlo. cbn [loadedImages storeImage].
  apply (list_elem_of_fmap_2' snd _ (cacheKey, x)); [|done]. apply JsMap.get_Some_elem_of, JsMap.get_set_eq.
Qed.

End Events.

(** A gallery built with a search configuration, its initial refresh in
  flight. *)
Definition sample_new : Gallery :=
  match new_GalleryManager (Some (mkSearchConfig 10 sample_weights)) sample_ui with
  | inr g => g
  | inl _ => sample_gallery
  end.

Lemma image_loaded_not_shown_witness :
  let x := mkImage (js "new") None None None None None None None None None None None None in
  let lp := mkLoop sample_new [] [[]] in
  let lp' := run_loop (fun s => s) (fun _ _ => 0%Q) (fun _ _ => 0%Q)
               (loadImage_completion true (js "file:new.jpg") x 10 ++
                replicate (S (length (inflight lp))) (LResume 20)) lp in
  (x ∈ getAllImages_im lp') /\ inflight lp' = [] /\ isLoading (gallery lp') = false /\
  (x ∉ images (gallery lp')).
Proof.
  cbv zeta. apply image_loaded_not_shown.
  - apply (reach_new _ _ _ (Some (mkSearchConfig 10 sample_weights)) sample_ui sample_new []).
    vm_compute. reflexivity.
  - apply not_elem_of_nil.
  - repeat constructor. apply not_elem_of_nil.
Defined.

End GalleryEvents.
