(* ===== verification/GalleryPrefs.v ===== *)
(** * The saved preferences of the gallery managers
    ([src/src/js/galleryManager.js])

    Each manager of the gallery restores its state in its constructor and
    saves it after a change, through
    [storageManager.specializedStorage.userPreferences.get(key)] and
    [.set(key, value)]: [SearchEngine] under ['searchHistory']
    ([_loadSearchHistory], [_saveSearchHistory]), [FilterManager] under
    ['activeFilters'] ([_initializeFilters], [saveFiltersState]),
    [SortManager] under ['sortState'] ([_loadSortState],
    [_saveSortState]), [PaginationManager] under ['paginationState']
    ([_loadPaginationState], [_savePaginationState]) and [ViewManager]
    under ['viewState'] ([_loadViewState], [_saveViewState]); the getters
    [getCurrentSort], [getCurrentView], [getGridColumns] and
    [getViewOptions] read the state.

    The store is [option S] for a store [S] of [JsonStore.KVStore]:
    [None] is the repository's wiring, in which [specializedStorage] is
    [undefined], every access throws inside a [try] and the [catch] only
    logs, so loads and saves change nothing; [Some s] is a working store.
    A save writes the JSON of the value the code passes ([enc_hist],
    [enc_filter] and the object literals of [JsonStore.obj], with their
    property names); a load reads the key back and applies the code's
    tests: [history && Array.isArray(history)],
    [new Map(Object.entries(savedFilters))], the spread
    [{ ...this.currentSort, ...savedSort }] and the fallbacks
    [savedPagination.itemsPerPage || this.itemsPerPage],
    [savedView.viewMode || this.currentView] and
    [savedView.gridColumns || this.gridColumns].

    The state types hold what the code writes: history entries
    [{ query, timestamp, count }], filter values that are strings,
    booleans, numbers or objects of numbers, sort fields that are strings.
    A stored value of another shape, which no code of the repository
    writes, cannot be represented in them; its load keeps the current
    value.  The order of the properties of [Object.fromEntries] (integer
    keys first) is not modelled: the filter types are names.

    The theorem: with a working store every manager built after the saves
    reads the saved state back, with the [||] fallbacks for a page size or
    a column count of [0] and an empty view mode, and the spread's
    defaults for undefined sort fields; the current page always restarts
    at 1.  In the repository the constructors build the defaults whatever
    was saved. *)

From Stdlib Require Import QArith.
From stdpp Require Import gmap.
From S2P Require Import Prelude JsMap JsonStore JsArray GallerySearch GalleryPaging.

Module GalleryPrefs.
Import GallerySearch GalleryPaging JsonStore.

(** ** Encodings *)

(** A history entry [{ query, timestamp, count }] through JSON. *)
Definition enc_hist (h : HistoryItem) : json :=
  obj [(js "query", Some (JStr (query h))); (js "timestamp", Some (num_Z (timestamp h)));
       (js "count", Some (num_Z (Z.of_nat (count h))))].

Definition dec_hist (v : json) : option HistoryItem :=
  q ← as_str (prop (js "query") v);
  t ← as_Z (prop (js "timestamp") v);
  c ← as_Z (prop (js "count") v);
  if (0 <=? c)%Z then Some (mkHist q t (Z.to_nat c)) else None.

(** A filter value through JSON. *)
Definition enc_filter (v : filter_value) : json :=
  match v with
  | VObj fs => JObj ((fun kq => (kq.1, JNum kq.2)) <$> fs)
  | VStr s => JStr s
  | VBool b => JBool b
  | VNum q => JNum q
  end.

Definition dec_filter (v : json) : option filter_value :=
  match v with
  | JObj fs => VObj <$> mapM (fun kv => match kv.2 with JNum q => Some (kv.1, q) | _ => None end) fs
  | JStr s => Some (VStr s)
  | JBool b => Some (VBool b)
  | JNum q => Some (VNum q)
  | _ => None
  end.

Section Prefs.
Context {S : Type} `{KVStore S}.

(** [userPreferences.get(key)]. *)
Definition get_pref (k : jsstring) (store : option S) : option json := store ≫= kv_get k.

(** ** Loads *)

(** [_loadSearchHistory()]: a saved array replaces the history. *)
Definition _loadSearchHistory (store : option S) (se : SearchEngine) : SearchEngine :=
  match get_pref (js "searchHistory") store with
  | Some (JArr xs) =>
      match mapM dec_hist xs with
      | Some h => mkSE h (maxHistorySize se) (searchWeights se)
      | None => se
      end
  | _ => se
  end.

(** [_initializeFilters()]: [new Map(Object.entries(savedFilters))]. *)
Definition _initializeFilters (store : option S) (fm : FilterManager) : FilterManager :=
  match get_pref (js "activeFilters") store with
  | Some (JObj fs) =>
      match mapM (fun kv => (fun v => (kv.1, v)) <$> dec_filter kv.2) fs with
      | Some es => mkFM (JsMap.of_entries es)
      | None => fm
      end
  | _ => fm
  end.

(** A property of [{ ...current, ...saved }]. *)
Definition spread_str (saved : option json) (current : option jsstring) : option jsstring :=
  match saved with Some (JStr s) => Some s | _ => current end.

(** [_loadSortState()]: [{ ...this.currentSort, ...savedSort }]. *)
Definition _loadSortState (store : option S) (sm : SortManager) : SortManager :=
  let v := get_pref (js "sortState") store in
  match v with
  | Some sv => if truthy v then mkSort (spread_str (prop (js "field") sv) (field sm))
                                        (spread_str (prop (js "direction") sv) (direction sm))
               else sm
  | None => sm
  end.

(** [a || b] for an integer property. *)
Definition or_Z (a : option json) (b : Z) : Z := if truthy a then default b (as_Z a) else b.

(** [a || b] for a string property. *)
Definition or_str (a : option json) (b : jsstring) : jsstring := if truthy a then default b (as_str a) else b.

(** [_loadPaginationState()]: [savedPagination.itemsPerPage ||
  this.itemsPerPage]; the current page is not restored. *)
Definition _loadPaginationState (store : option S) (p : Pagination) : Pagination :=
  let v := get_pref (js "paginationState") store in
  match v with
  | Some pv => if truthy v then mkPag (currentPage p) (or_Z (prop (js "itemsPerPage") pv) (itemsPerPage p)) (totalItems p)
               else p
  | None => p
  end.

(** [_loadViewState()]: [savedView.viewMode || this.currentView] and
  [savedView.gridColumns || this.gridColumns]. *)
Definition _loadViewState (store : option S) (vm : ViewManager) : ViewManager :=
  let v := get_pref (js "viewState") store in
  match v with
  | Some sv => if truthy v then mkView (or_str (prop (js "viewMode") sv) (currentView vm)) (viewOptions vm)
                                        (or_Z (prop (js "gridColumns") sv) (gridColumns vm))
               else vm
  | None => vm
  end.

(** ** Saves *)

(** [userPreferences.set(key, value)]. *)
Definition set_pref (k : jsstring) (v : json) (store : option S) : option S := kv_set k v <$> store.

(** [_saveSearchHistory()]. *)
Definition _saveSearchHistory (se : SearchEngine) : option S -> option S :=
  set_pref (js "searchHistory") (JArr (enc_hist <$> searchHistory se)).

(** [saveFiltersState()]: [Object.fromEntries(this.activeFilters)]. *)
Definition saveFiltersState (fm : FilterManager) : option S -> option S :=
  set_pref (js "activeFilters") (JObj ((fun kv => (kv.1, enc_filter kv.2)) <$> activeFilters fm)).

(** [_saveSortState()]: [this.currentSort]. *)
Definition _saveSortState (sm : SortManager) : option S -> option S :=
  set_pref (js "sortState") (obj [(js "field", JStr <$> field sm); (js "direction", JStr <$> direction sm)]).

(** [_savePaginationState()]: only [itemsPerPage]. *)
Definition _savePaginationState (pg : Pagination) : option S -> option S :=
  set_pref (js "paginationState") (obj [(js "itemsPerPage", Some (num_Z (itemsPerPage pg)))]).

(** [_saveViewState()]. *)
Definition _saveViewState (vm : ViewManager) : option S -> option S :=
  set_pref (js "viewState") (obj [(js "viewMode", Some (JStr (currentView vm)));
                                  (js "gridColumns", Some (num_Z (gridColumns vm)))]).

(** ** Constructors over the store, and getters *)

Definition new_SearchEngine_store (cfg : option SearchConfig) (store : option S) : js_error + SearchEngine :=
  match new_SearchEngine cfg with inl e => inl e | inr se => inr (_loadSearchHistory store se) end.
Definition new_FilterManager_store (store : option S) : FilterManager := _initializeFilters store new_FilterManager.
Definition new_SortManager_store (f d : option jsstring) (store : option S) : SortManager :=
  _loadSortState store (new_SortManager f d).
Definition new_PaginationManager_store (n : Z) (store : option S) : Pagination :=
  _loadPaginationState store (new_PaginationManager n).
Definition new_ViewManager_store (mode : jsstring) (modes : list jsstring) (cols : Z) (store : option S) : ViewManager :=
  _loadViewState store (mkView mode modes cols).

End Prefs.

(** [getCurrentSort()], [getCurrentView()], [getGridColumns()], [getViewOptions()]. *)
Definition getCurrentSort (sm : SortManager) : SortManager := mkSort (field sm) (direction sm).
Definition getCurrentView (vm : ViewManager) : jsstring := currentView vm.
Definition getGridColumns (vm : ViewManager) : Z := gridColumns vm.
Definition getViewOptions (vm : ViewManager) : list jsstring := viewOptions vm.

(** ** Lemmas *)

Lemma dec_enc_hist (h : HistoryItem) : dec_hist (enc_hist h) = Some h.
Proof.
  destruct h as [q t c]. unfold dec_hist, enc_hist. cbn [query timestamp count].
  cbv -[Z.leb Z.to_nat Z.of_nat].
  rewrite (proj2 (Z.leb_le 0 (Z.of_nat c))) by lia. by rewrite Nat2Z.id.
Qed.

Lemma mapM_dec_hist (l : list HistoryItem) : mapM dec_hist (enc_hist <$> l) = Some l.
Proof. apply mapM_fmap_Some, dec_enc_hist. Qed.

Lemma dec_enc_filter (v : filter_value) : dec_filter (enc_filter v) = Some v.
Proof.
  destruct v as [fs|s|b|q]; [|done..]. cbn [enc_filter dec_filter].
  rewrite mapM_fmap_Some; [done|]. by intros [k q].
Qed.

Lemma mapM_dec_filters (m : JsMap.t jsstring filter_value) :
  mapM (fun kv => (fun v => (kv.1, v)) <$> dec_filter kv.2) ((fun kv => (kv.1, enc_filter kv.2)) <$> m) = Some m.
Proof.
  apply mapM_fmap_Some. intros [k v]. cbn [fst snd]. by rewrite dec_enc_filter.
Qed.

Lemma or_Z_num (z b : Z) : or_Z (Some (num_Z z)) b = if (z =? 0)%Z then b else z.
Proof. unfold or_Z. rewrite truthy_num. by destruct (z =? 0)%Z. Qed.

Lemma or_str_str (s b : jsstring) : or_str (Some (JStr s)) b = match s with [] => b | _ => s end.
Proof. by destruct s. Qed.

Lemma spread_str_enc (o : option jsstring) (cur : option jsstring) :
  spread_str (JStr <$> o) cur = match o with Some s => Some s | None => cur end.
Proof. by destruct o. Qed.

(** ** Theorems *)

Section Roundtrip.
Context {S : Type} `{KVStoreLaws S}.

(** Reads through the saves: a key reads what its save wrote, the saves
  of the other keys do not touch it. *)
Local Ltac prefs_lookup :=
  cbn [get_pref set_pref fmap option_fmap option_map mbind option_bind];
  repeat first [rewrite kv_get_set_eq | rewrite kv_get_set_ne by (vm_compute; discriminate)];
  rewrite ?truthy_obj;
  repeat first [rewrite prop_obj_hd | rewrite prop_obj_tl by (vm_compute; discriminate)].

(** C23: with a working store, the managers a page load builds after the
  saves read the saved state back under the keys the saves wrote: the
  history, the filters, a sort whose field and direction were defined
  (the constructor's defaults for undefined ones, by the spread), the
  page size and the view mode and grid columns, each with the [||]
  fallback to the constructor's value for [0] or [''], and the page
  itself restarts at 1. *)
Theorem prefs_roundtrip (s : S) (cfg : SearchConfig) (se : SearchEngine) (fm : FilterManager)
    (sm : SortManager) (pg : Pagination) (vm : ViewManager)
    (df dd : option jsstring) (n : Z) (mode : jsstring) (modes : list jsstring) (cols : Z) :
  JsMap.wf (activeFilters fm) ->
  let store := _saveViewState vm (_savePaginationState pg (_saveSortState sm
                 (saveFiltersState fm (_saveSearchHistory se (Some s))))) in
  new_SearchEngine_store (Some cfg) store = inr (mkSE (searchHistory se) (MAX_HISTORY_SIZE cfg) (WEIGHTS cfg)) /\
  new_FilterManager_store store = fm /\
  new_SortManager_store df dd store =
    mkSort (match field sm with Some f => Some f | None => df end)
           (match direction sm with Some d => Some d | None => dd end) /\
  new_PaginationManager_store n store = mkPag 1 (if (itemsPerPage pg =? 0)%Z then n else itemsPerPage pg) 0 /\
  new_ViewManager_store mode modes cols store =
    mkView (match currentView vm with [] => mode | m => m end) modes
           (if (gridColumns vm =? 0)%Z then cols else gridColumns vm).
Proof.
  intros Hwf. cbv zeta.
  unfold _saveViewState, _savePaginationState, _saveSortState, saveFiltersState, _saveSearchHistory.
  split_and!.
  - unfold new_SearchEngine_store, _loadSearchHistory. cbn [new_SearchEngine].
    prefs_lookup. cbn. by rewrite mapM_dec_hist.
  - unfold new_FilterManager_store, _initializeFilters. prefs_lookup. cbn.
    rewrite mapM_dec_filters, JsMap.of_entries_wf by done. by destruct fm.
  - unfold new_SortManager_store, _loadSortState. prefs_lookup.
    destruct sm as [[f|] [d|]]; vm_compute; reflexivity.
  - unfold new_PaginationManager_store, _loadPaginationState. prefs_lookup.
    by rewrite or_Z_num.
  - unfold new_ViewManager_store, _loadViewState. prefs_lookup.
    rewrite or_Z_num, or_str_str. cbn [currentView viewOptions gridColumns]. by destruct (currentView vm).
Qed.

End Roundtrip.

(** In the repository the saves do nothing and every constructor builds
  its defaults. *)
Theorem repository_prefs_defaults {S : Type} `{KVStore S} (cfg : option SearchConfig) (df dd : option jsstring)
    (n : Z) (mode : jsstring) (modes : list jsstring) (cols : Z) :
  new_SearchEngine_store cfg (@None S) = new_SearchEngine cfg /\ new_FilterManager_store (@None S) = new_FilterManager /\
  new_SortManager_store df dd (@None S) = new_SortManager df dd /\
  new_PaginationManager_store n (@None S) = new_PaginationManager n /\
  new_ViewManager_store mode modes cols (@None S) = mkView mode modes cols.
Proof. unfold new_SearchEngine_store. split_and!; try done. by destruct (new_SearchEngine cfg). Qed.

Lemma prefs_roundtrip_witness :
  let se := mkSE [mkHist (js "cat") 100 2] 10 (mkWeights 1 1 1 1 1 1) in
  let fm := mkFM [(js "orientation", VStr (js "landscape")); (js "size", VObj [(js "min", 1%Q); (js "max", (5#2)%Q)])] in
  let pg := mkPag 3 24 100 in
  let vm := mkView (js "list") [js "grid"; js "list"] 0 in
  let store := _saveViewState vm (_savePaginationState pg (_saveSortState (mkSort (Some (js "size")) None)
                 (saveFiltersState fm (_saveSearchHistory se (Some (∅ : gmap jsstring json)))))) in
  new_SearchEngine_store (Some (mkSearchConfig 10 (mkWeights 1 1 1 1 1 1))) store =
    inr (mkSE (searchHistory se) 10 (mkWeights 1 1 1 1 1 1)) /\
  new_FilterManager_store store = fm /\
  new_SortManager_store (Some (js "date")) (Some (js "desc")) store = mkSort (Some (js "size")) (Some (js "desc")) /\
  new_PaginationManager_store 20 store = mkPag 1 24 0 /\
  new_ViewManager_store (js "grid") [js "grid"; js "list"] 4 store = mkView (js "list") [js "grid"; js "list"] 4.
Proof.
  cbv zeta. apply (prefs_roundtrip (∅ : gmap jsstring json) (mkSearchConfig 10 (mkWeights 1 1 1 1 1 1))).
  vm_compute. repeat constructor; vm_compute; intros Hin; repeat (apply elem_of_cons in Hin as [Hin|Hin]; [discriminate|]);
    by apply not_elem_of_nil in Hin.
Defined.

End GalleryPrefs.
