(* ===== verification/AdminSecurity.v ===== *)
(** * Login throttling, session tokens, activity log and permissions:
    [SecurityManager], [ActivityLogManager], [PermissionManager]

    [src/src/js/adminManager.js].  [SecurityManager] counts failed logins
    per client identifier and refuses a login for [cooldownPeriod] after
    the [maxFailedAttempts]-th failure; it issues session tokens that
    expire [sessionTimeout] after their creation.  [ActivityLogManager]
    keeps the most recent [maxLogs] entries, newest first.
    [PermissionManager] keeps a permission list per user, ['admin']
    implying every permission.

    Times are milliseconds ([Z]).  Random identifiers
    ([StringUtils.generateId]) are inputs.  The user agent, URL and
    referrer recorded with attempts and log entries are not modelled.
    Persistence ([_load*], [_save*]) reads
    [storageManager.specializedStorage], which is [undefined]; the
    [try]/[catch] around it skips it, so it is left out.  Two library
    calls do not exist: [TimeUtils.formatDuration] (reached when a login
    is refused) and [TimeUtils.formatDateTime] (CSV export); the model
    throws the [TypeError] of the first. *)

From S2P Require Import Prelude JsMap JsArray.

Module AdminSecurity.

(** ** [SecurityManager] *)

Record Attempts := mkAttempts { count : nat; lastAttempt : Z; attempts : list Z }.

Record Session := mkSession { token : jsstring; user : jsstring; createdAt : Z; lastActivity : Z; expiresAt : Z }.

Record Security := mkSec {
  failedAttempts : JsMap.t jsstring Attempts;
  blockedIPs : list jsstring;
  sessionTokens : JsMap.t jsstring Session;
  maxFailedAttempts : nat;
  cooldownPeriod : Z;
  sessionTimeout : Z
}.

(** [new SecurityManager()]: [CONFIG.SECURITY] gives 5 attempts, a
  5-minute cooldown and a one-hour session. *)
Definition new_SecurityManager : Security := mkSec [] [] [] 5 300000 3600000.

(** [set.add(x)]: appended when absent. *)
Definition set_add_js (x : jsstring) (s : list jsstring) : list jsstring :=
  if bool_decide (x ∈ s) then s else s ++ [x].

Definition formatDuration_error : js_error :=
  TypeError (js "TimeUtils.formatDuration is not a function").

Record Cooldown := mkCooldown { allowed : bool; remainingTime : Z }.

(** [checkLoginCooldown(identifier)]: an expired lockout is deleted; a
  running one throws, as [TimeUtils.formatDuration] does not exist. *)
Definition checkLoginCooldown (identifier : jsstring) (now : Z) (st : Security) : js_error + (Security * Cooldown) :=
  match JsMap.get identifier (failedAttempts st) with
  | None => inr (st, mkCooldown true 0)
  | Some a =>
      if count a <? maxFailedAttempts st then inr (st, mkCooldown true 0)
      else
        let remaining := (cooldownPeriod st - (now - lastAttempt a))%Z in
        if (remaining <=? 0)%Z then
          inr (mkSec (JsMap.delete identifier (failedAttempts st)) (blockedIPs st) (sessionTokens st)
                 (maxFailedAttempts st) (cooldownPeriod st) (sessionTimeout st), mkCooldown true 0)
        else inl formatDuration_error
  end.

(** [recordFailedLogin(identifier)]: count, time, the last ten attempt
  times; the identifier is blocked from the [maxFailedAttempts]-th. *)
Definition recordFailedLogin (identifier : jsstring) (now : Z) (st : Security) : Security :=
  let current := default (mkAttempts 0 0 []) (JsMap.get identifier (failedAttempts st)) in
  let atts := attempts current ++ [now] in
  let atts' := if 10 <? length atts then drop (length atts - 10) atts else atts in
  let current' := mkAttempts (S (count current)) now atts' in
  let blocked := if maxFailedAttempts st <=? count current' then set_add_js identifier (blockedIPs st)
                 else blockedIPs st in
  mkSec (JsMap.set identifier current' (failedAttempts st)) blocked (sessionTokens st)
    (maxFailedAttempts st) (cooldownPeriod st) (sessionTimeout st).

(** [clearLoginAttempts(identifier)]. *)
Definition clearLoginAttempts (identifier : jsstring) (st : Security) : Security :=
  mkSec (JsMap.delete identifier (failedAttempts st)) (List.filter (fun x => negb (bool_decide (x = identifier))) (blockedIPs st))
    (sessionTokens st) (maxFailedAttempts st) (cooldownPeriod st) (sessionTimeout st).

Definition set_sessions (m : JsMap.t jsstring Session) (st : Security) : Security :=
  mkSec (failedAttempts st) (blockedIPs st) m (maxFailedAttempts st) (cooldownPeriod st) (sessionTimeout st).

(** [generateSessionToken(userData)] with the generated token [tok]. *)
Definition generateSessionToken (tok u : jsstring) (now : Z) (st : Security) : Security :=
  set_sessions (JsMap.set tok (mkSession tok u now now (now + sessionTimeout st)) (sessionTokens st)) st.

(** [validateSessionToken(token)]: an expired session is deleted; a live
  one has its [lastActivity] refreshed, its [expiresAt] unchanged. *)
Definition validateSessionToken (tok : jsstring) (now : Z) (st : Security) : Security * option Session :=
  match JsMap.get tok (sessionTokens st) with
  | None => (st, None)
  | Some s =>
      if (expiresAt s <? now)%Z then (set_sessions (JsMap.delete tok (sessionTokens st)) st, None)
      else
        let s' := mkSession (token s) (user s) (createdAt s) now (expiresAt s) in
        (set_sessions (JsMap.set tok s' (sessionTokens st)) st, Some s')
  end.

(** [revokeSessionToken(token)]. *)
Definition revokeSessionToken (tok : jsstring) (st : Security) : Security :=
  set_sessions (JsMap.delete tok (sessionTokens st)) st.

(** [_cleanupExpiredSessions()], run every minute. *)
Definition _cleanupExpiredSessions (now : Z) (st : Security) : Security :=
  set_sessions (List.filter (fun e => negb (expiresAt e.2 <? now)%Z) (sessionTokens st)) st.

(** ** [ActivityLogManager] *)

Record LogEntry := mkLog { log_id : jsstring; timestamp : Z; action : jsstring; log_user : jsstring }.

Record ActivityLog := mkAL { logs : list LogEntry; maxLogs : nat }.

(** [CONFIG.ADMIN]: absent from [src/src/js/config.js]. *)
Record AdminConfig := mkAdminConfig { MAX_ACTIVITY_LOGS : nat; PERMISSIONS : list jsstring }.

(** [new ActivityLogManager()]: reads [CONFIG.ADMIN.MAX_ACTIVITY_LOGS]. *)
Definition new_ActivityLogManager (cfg : option AdminConfig) : js_error + ActivityLog :=
  match cfg with
  | None => inl (TypeError (js "Cannot read properties of undefined (reading 'MAX_ACTIVITY_LOGS')"))
  | Some c => inr (mkAL [] (MAX_ACTIVITY_LOGS c))
  end.

(** [logActivity(action, details)]: [details.user || 'system']. *)
Definition logActivity (logId action : jsstring) (u : option jsstring) (now : Z) (al : ActivityLog) : ActivityLog :=
  let entry := mkLog logId now action (match u with Some ((_ :: _) as s) => s | _ => js "system" end) in
  let l := entry :: logs al in
  mkAL (if maxLogs al <? length l then take (maxLogs al) l else l) (maxLogs al).

Record LogFilters := mkFilters {
  f_action : option jsstring; f_user : option jsstring;
  f_startTime : option Z; f_endTime : option Z; f_page : option Z; f_pageSize : option Z
}.

(** [filters.x] when truthy. *)
Definition truthy_str (o : option jsstring) : option jsstring :=
  match o with Some ((_ :: _) as s) => Some s | _ => None end.
Definition truthy_num (o : option Z) : option Z :=
  match o with Some z => if (z =? 0)%Z then None else Some z | None => None end.

(** [getLogs(filters)]. *)
Definition getLogs (fl : LogFilters) (al : ActivityLog) : list LogEntry :=
  let l0 := logs al in
  let l1 := match truthy_str (f_action fl) with Some a => List.filter (fun e => bool_decide (action e = a)) l0 | None => l0 end in
  let l2 := match truthy_str (f_user fl) with Some u => List.filter (fun e => bool_decide (log_user e = u)) l1 | None => l1 end in
  let l3 := match truthy_num (f_startTime fl) with Some t => List.filter (fun e => (t <=? timestamp e)%Z) l2 | None => l2 end in
  let l4 := match truthy_num (f_endTime fl) with Some t => List.filter (fun e => (timestamp e <=? t)%Z) l3 | None => l3 end in
  match truthy_num (f_page fl), truthy_num (f_pageSize fl) with
  | Some p, Some n => js_slice l4 ((p - 1) * n) ((p - 1) * n + n)
  | _, _ => l4
  end.

Record ClearOptions := mkClear { olderThan : option Z; c_action : option jsstring; c_user : option jsstring }.

(** [clearLogs(options)]: the first truthy option decides. *)
Definition clearLogs (o : ClearOptions) (al : ActivityLog) : ActivityLog :=
  let l := match truthy_num (olderThan o), truthy_str (c_action o), truthy_str (c_user o) with
           | Some t, _, _ => List.filter (fun e => (t <? timestamp e)%Z) (logs al)
           | None, Some a, _ => List.filter (fun e => negb (bool_decide (action e = a))) (logs al)
           | None, None, Some u => List.filter (fun e => negb (bool_decide (log_user e = u))) (logs al)
           | None, None, None => []
           end in
  mkAL l (maxLogs al).

(** ** [PermissionManager] *)

Record Permissions := mkPerm { permissions : list jsstring; userPermissions : JsMap.t jsstring (list jsstring) }.

(** [new PermissionManager()]: reads [CONFIG.ADMIN.PERMISSIONS]. *)
Definition new_PermissionManager (cfg : option AdminConfig) : js_error + Permissions :=
  match cfg with
  | None => inl (TypeError (js "Cannot read properties of undefined (reading 'PERMISSIONS')"))
  | Some c => inr (mkPerm (PERMISSIONS c) JsMap.empty)
  end.

Definition userPerms (u : jsstring) (pm : Permissions) : list jsstring :=
  default [] (JsMap.get u (userPermissions pm)).

(** [hasPermission(user, permission)]. *)
Definition hasPermission (u perm : jsstring) (pm : Permissions) : bool :=
  bool_decide (perm ∈ userPerms u pm) || bool_decide (js "admin" ∈ userPerms u pm).

(** 未知权限 ("unknown permission"). *)
Definition zh_unknown_permission : jsstring := [0x672a; 0x77e5; 0x6743; 0x9650]%Z.

(** [grantPermission(user, permission)]: an unknown permission throws. *)
Definition grantPermission (u perm : jsstring) (pm : Permissions) : js_error + Permissions :=
  if negb (bool_decide (perm ∈ permissions pm)) then inl (Error (zh_unknown_permission ++ js ": " ++ perm))
  else if bool_decide (perm ∈ userPerms u pm) then inr pm
  else inr (mkPerm (permissions pm) (JsMap.set u (userPerms u pm ++ [perm]) (userPermissions pm))).

(** [userPerms.splice(userPerms.indexOf(permission), 1)]. *)
Fixpoint remove_first (x : jsstring) (l : list jsstring) : list jsstring :=
  match l with
  | [] => []
  | y :: l' => if bool_decide (y = x) then l' else y :: remove_first x l'
  end.

(** [revokePermission(user, permission)]. *)
Definition revokePermission (u perm : jsstring) (pm : Permissions) : Permissions :=
  if bool_decide (perm ∈ userPerms u pm)
  then mkPerm (permissions pm) (JsMap.set u (remove_first perm (userPerms u pm)) (userPermissions pm))
  else pm.

(** ** Lemmas *)

(** The attempt records form a map and no identifier has more than
  [maxFailedAttempts] counted failures. *)
Definition attempts_inv (st : Security) : Prop :=
  JsMap.wf (failedAttempts st) /\ 1 <= maxFailedAttempts st /\
  forall i a, JsMap.get i (failedAttempts st) = Some a -> count a <= maxFailedAttempts st.

(** A cooldown check that passes leaves the identifier below the limit
  (or forgotten), and every other record as it was. *)
Lemma checkLoginCooldown_inr (identifier : jsstring) (now : Z) (st st' : Security) (cd : Cooldown) :
  JsMap.wf (failedAttempts st) ->
  checkLoginCooldown identifier now st = inr (st', cd) ->
  maxFailedAttempts st' = maxFailedAttempts st /\ JsMap.wf (failedAttempts st') /\
  (forall a, JsMap.get identifier (failedAttempts st') = Some a -> count a < maxFailedAttempts st) /\
  (forall j, j <> identifier -> JsMap.get j (failedAttempts st') = JsMap.get j (failedAttempts st)).
Proof.
  intros Hwf. unfold checkLoginCooldown. destruct (JsMap.get identifier (failedAttempts st)) as [a|] eqn:E.
  - destruct (Nat.ltb_spec (count a) (maxFailedAttempts st)).
    + intros [= <- _]. split; [done|]. split; [done|]. split; [|done]. intros a' Ha'. rewrite E in Ha'. by simplify_eq.
    + case_match; [|done]. intros [= <- _]. simpl. split; [done|]. split; [by apply JsMap.wf_delete|]. split.
      * intros a'. by rewrite JsMap.get_delete_eq.
      * intros j Hj. by apply JsMap.get_delete_ne.
  - intros [= <- _]. split; [done|]. split; [done|]. split; [|done]. intros a' Ha'. by rewrite E in Ha'.
Qed.

Lemma recordFailedLogin_get (identifier : jsstring) (now : Z) (st : Security) :
  exists a, JsMap.get identifier (failedAttempts (recordFailedLogin identifier now st)) = Some a /\
    count a = S (count (default (mkAttempts 0 0 []) (JsMap.get identifier (failedAttempts st)))).
Proof. eexists. split; [apply JsMap.get_set_eq|done]. Qed.

Lemma recordFailedLogin_other (identifier j : jsstring) (now : Z) (st : Security) :
  j <> identifier ->
  JsMap.get j (failedAttempts (recordFailedLogin identifier now st)) = JsMap.get j (failedAttempts st).
Proof. intros Hj. by apply JsMap.get_set_ne. Qed.

Lemma userPerms_set_eq (u : jsstring) (l : list jsstring) (ps : list jsstring) (m : JsMap.t jsstring (list jsstring)) :
  userPerms u (mkPerm ps (JsMap.set u l m)) = l.
Proof. unfold userPerms. simpl. by rewrite JsMap.get_set_eq. Qed.

Lemma userPerms_set_ne (u v : jsstring) (l : list jsstring) (ps : list jsstring) (m : JsMap.t jsstring (list jsstring)) :
  v <> u -> userPerms v (mkPerm ps (JsMap.set u l m)) = userPerms v (mkPerm ps m).
Proof. intros Hv. unfold userPerms. simpl. by rewrite JsMap.get_set_ne. Qed.

(** Each user's permission list is duplicate-free, in a map. *)
Definition perm_inv (pm : Permissions) : Prop :=
  JsMap.wf (userPermissions pm) /\ forall u l, JsMap.get u (userPermissions pm) = Some l -> NoDup l.

Lemma userPerms_NoDup (u : jsstring) (pm : Permissions) : perm_inv pm -> NoDup (userPerms u pm).
Proof.
  intros [_ Hnd]. unfold userPerms. destruct (JsMap.get u (userPermissions pm)) as [l|] eqn:E; simpl; [by eapply Hnd|].
  constructor.
Qed.

Lemma remove_first_NoDup (x : jsstring) (l : list jsstring) :
  NoDup l -> NoDup (remove_first x l) /\ (x ∉ remove_first x l) /\ (forall y, y <> x -> y ∈ remove_first x l <-> y ∈ l).
Proof.
  induction 1 as [|y l Hy Hnd IH]; simpl; [split; [constructor|split; [apply not_elem_of_nil|done]]|].
  destruct IH as (IH1 & IH2 & IH3). case_bool_decide as Heq; subst.
  - split; [done|]. split; [done|]. intros z Hz. rewrite elem_of_cons. split; [auto|]. by intros [->|?].
  - split; [constructor; [rewrite IH3 by done; done|done]|]. split.
    + rewrite elem_of_cons. intros [->|?]; [done|done].
    + intros z Hz. rewrite !elem_of_cons, IH3 by done. done.
Qed.

Lemma perm_inv_set (u : jsstring) (l : list jsstring) (pm : Permissions) :
  perm_inv pm -> NoDup l -> perm_inv (mkPerm (permissions pm) (JsMap.set u l (userPermissions pm))).
Proof.
  intros [Hwf Hnd] Hl. split; simpl; [by apply JsMap.wf_set|]. intros v l' Hv.
  destruct (decide (v = u)) as [->|Hne].
  - rewrite JsMap.get_set_eq in Hv. by simplify_eq.
  - rewrite JsMap.get_set_ne in Hv by done. by eapply Hnd.
Qed.

Lemma perm_inv_single (ps : list jsstring) (u : jsstring) (l : list jsstring) :
  NoDup l -> perm_inv (mkPerm ps [(u, l)]).
Proof.
  intros Hl. split; simpl; [apply NoDup_singleton|]. intros v l'. simpl. case_decide; [|done]. by intros [= <-].
Qed.

(** ** Properties *)

(** permission lists stay duplicate-free maps; granting a known
  permission makes [hasPermission] true, and revoking a permission other
  than ['admin'] removes it, so that [hasPermission] then holds only
  through ['admin']; other users' permissions are untouched. *)
Theorem grant_revoke_spec (u perm : jsstring) (pm : Permissions) :
  perm_inv pm -> perm ∈ permissions pm -> perm <> js "admin" ->
  (exists pm', grantPermission u perm pm = inr pm' /\ perm_inv pm' /\ hasPermission u perm pm' = true) /\
  perm_inv (revokePermission u perm pm) /\
  hasPermission u perm (revokePermission u perm pm) = bool_decide (js "admin" ∈ userPerms u pm) /\
  (forall v, v <> u -> userPerms v (revokePermission u perm pm) = userPerms v pm).
Proof.
  intros Hinv Hknown Hadm. pose proof (userPerms_NoDup u pm Hinv) as Hnd.
  destruct (remove_first_NoDup perm (userPerms u pm) Hnd) as (Hnd' & Hout & Hkeep).
  split; [|split; [|split]].
  - unfold grantPermission. rewrite bool_decide_true by done. simpl. case_bool_decide as Hin.
    + eexists. split; [done|]. split; [done|]. unfold hasPermission. by rewrite bool_decide_true.
    + eexists. split; [done|]. split.
      * apply perm_inv_set; [done|]. apply NoDup_app. split; [done|]. split; [|apply NoDup_singleton].
        intros x Hx ->%list_elem_of_singleton. done.
      * unfold hasPermission. rewrite userPerms_set_eq.
        rewrite bool_decide_true; [done|]. apply elem_of_app. right. by apply list_elem_of_singleton.
  - unfold revokePermission. case_bool_decide; [|done]. by apply perm_inv_set.
  - unfold revokePermission. case_bool_decide as Hin.
    + unfold hasPermission. rewrite userPerms_set_eq.
      rewrite bool_decide_false by done. simpl. apply bool_decide_ext. by apply Hkeep.
    + unfold hasPermission. by rewrite bool_decide_false.
  - intros v Hv. unfold revokePermission. case_bool_decide; [|done].
    rewrite userPerms_set_ne by done. by destruct pm.
Qed.

Definition sample_permissions : Permissions :=
  mkPerm [js "upload"; js "delete"; js "admin"] [(js "alice", [js "upload"; js "delete"])].

Lemma grant_revoke_spec_witness :
  perm_inv sample_permissions /\
  hasPermission (js "alice") (js "delete") (revokePermission (js "alice") (js "delete") sample_permissions) = false.
Proof.
  assert (Hinv : perm_inv sample_permissions).
  { apply perm_inv_single. apply (bool_decide_unpack _). vm_compute. reflexivity. }
  split; [done|].
  destruct (grant_revoke_spec (js "alice") (js "delete") sample_permissions Hinv ltac:(apply (bool_decide_unpack _); vm_compute; reflexivity)
              ltac:(vm_compute; congruence)) as (_ & _ & Hrev & _).
  rewrite Hrev. vm_compute. reflexivity.
Defined.

End AdminSecurity.
