(* ===== verification/AdminSession.v ===== *)
(** * Session monitoring and the admin login flow: [SessionManager],
    [AdminManager]

    [src/src/js/adminManager.js].  [SessionManager] tracks the current
    session's last activity with two timers, a warning [warningTime]
    before the idle timeout and the timeout itself; page visibility
    suspends and resumes them.  [AdminManager] composes the managers:
    [login] checks the cooldown, validates the token, then either records
    a failure or opens the admin session; [logout] and [validateSession]
    close it; the session timer's handler logs out through the
    [admin:force-logout] event.

    Timers are their pending deadlines; a timer event fires one whose
    deadline has come.  [setTimeout] waits [0] ms for a delay that is
    [NaN] or negative.  The outcome of the GitHub check (an async
    [fetch]) and the random token and log identifiers are inputs.
    Whether [StringUtils.hash] and [ValidationUtils.isValidGitHubToken],
    both called by [login] and both absent from [utils.js], exist is a
    parameter of the section; the repository has neither. *)

From S2P Require Import Prelude JsMap JsArray AdminSecurity.

Module AdminSession.
Import AdminSecurity.

(** ** [SessionManager] *)

(** [currentSession]: the [user] field of the session data ([undefined]
  is [None]), the start and the last activity. *)
Record CurSession := mkCur { cs_user : option jsstring; startTime : Z; cs_lastActivity : Z }.

Record SessionMgr := mkSM {
  currentSession : option CurSession;
  sm_timeout : Z;
  warningTime : option Z;
  sessionTimer : option Z;
  warningTimer : option Z;
  activityBound : bool
}.

(** [new SessionManager()]: [CONFIG.SECURITY.SESSION_TIMEOUT] and
  [SESSION_WARNING_TIME]. *)
Definition new_SessionManager (warning : option Z) : SessionMgr := mkSM None 3600000 warning None None false.

(** [CONFIG.SECURITY.SESSION_WARNING_TIME]: absent. *)
Definition repository_warning_time : option Z := None.

(** The delay [setTimeout] waits: [NaN] (an [undefined] operand) and
  negative delays are [0]. *)
Definition timer_delay (d : option Z) : Z := match d with Some z => Z.max 0 z | None => 0 end.

(** [_startSessionTimers()]: the warning after [sessionTimeout -
  warningTime], the timeout after [sessionTimeout]. *)
Definition _startSessionTimers (now : Z) (sm : SessionMgr) : SessionMgr :=
  mkSM (currentSession sm) (sm_timeout sm) (warningTime sm) (Some (now + timer_delay (Some (sm_timeout sm)))%Z)
    (Some (now + timer_delay (option_map (fun w => sm_timeout sm - w)%Z (warningTime sm)))%Z) (activityBound sm).

(** [_clearTimers()]. *)
Definition _clearTimers (sm : SessionMgr) : SessionMgr :=
  mkSM (currentSession sm) (sm_timeout sm) (warningTime sm) None None (activityBound sm).

(** [startSession(sessionData)]. *)
Definition startSession (u : option jsstring) (now : Z) (sm : SessionMgr) : SessionMgr :=
  let sm1 := mkSM (Some (mkCur u now now)) (sm_timeout sm) (warningTime sm) (sessionTimer sm) (warningTimer sm)
               (activityBound sm) in
  let sm2 := _startSessionTimers now sm1 in
  mkSM (currentSession sm2) (sm_timeout sm2) (warningTime sm2) (sessionTimer sm2) (warningTimer sm2) true.

(** [endSession(reason)]. *)
Definition endSession (sm : SessionMgr) : SessionMgr :=
  match currentSession sm with
  | None => sm
  | Some _ => mkSM None (sm_timeout sm) (warningTime sm) None None false
  end.

(** [updateActivity()], run by the document's activity listeners. *)
Definition updateActivity (now : Z) (sm : SessionMgr) : SessionMgr :=
  match currentSession sm with
  | None => sm
  | Some cs =>
      _startSessionTimers now (mkSM (Some (mkCur (cs_user cs) (startTime cs) now)) (sm_timeout sm) (warningTime sm)
                                  (sessionTimer sm) (warningTimer sm) (activityBound sm))
  end.

(** [isSessionValid()]. *)
Definition isSessionValid (now : Z) (sm : SessionMgr) : bool :=
  match currentSession sm with
  | None => false
  | Some cs => (now - cs_lastActivity cs <? sm_timeout sm)%Z
  end.

(** The [visibilitychange] listener: hidden clears the timers, visible
  restarts them for a current session. *)
Definition visibilityChange (hidden : bool) (now : Z) (sm : SessionMgr) : SessionMgr :=
  if hidden then _clearTimers sm
  else match currentSession sm with Some _ => _startSessionTimers now sm | None => sm end.

(** [_showSessionWarning()]: [TimeUtils.formatDuration] does not exist,
  so the handler throws before its tooltip and event. *)
Definition _showSessionWarning (sm : SessionMgr) : SessionMgr * option js_error :=
  (mkSM (currentSession sm) (sm_timeout sm) (warningTime sm) (sessionTimer sm) None (activityBound sm),
   Some formatDuration_error).

(** ** [AdminManager] *)

(** [currentAdmin]: the GitHub login, the session token, the login time. *)
Record CurrentAdmin := mkAdmin { admin_login : jsstring; sessionToken : jsstring; loginTime : Z }.

Record Admin := mkAM {
  security : Security;
  activity : ActivityLog;
  perms : Permissions;
  session : SessionMgr;
  isAdminMode : bool;
  currentAdmin : option CurrentAdmin
}.

(** [new AdminManager()]: [ActivityLogManager] and [PermissionManager]
  read [CONFIG.ADMIN]. *)
Definition new_AdminManager (cfg : option AdminConfig) (warning : option Z) : js_error + Admin :=
  match new_ActivityLogManager cfg with
  | inl e => inl e
  | inr al =>
      match new_PermissionManager cfg with
      | inl e => inl e
      | inr pm => inr (mkAM new_SecurityManager al pm (new_SessionManager warning) false None)
      end
  end.

(** [CONFIG.ADMIN] in [src/src/js/config.js]. *)
Definition repository_admin_config : option AdminConfig := None.

Definition set_security (sec : Security) (am : Admin) : Admin :=
  mkAM sec (activity am) (perms am) (session am) (isAdminMode am) (currentAdmin am).

(** The outcome of [securityManager.validateGitHubToken(token)] when it
  runs: the GitHub login of the token's user, or a rejection. *)
Inductive validation := VUser (u : jsstring) | VInvalid.

(** The random identifiers a login or logout draws. *)
Record Ids := mkIds { sessionTok : jsstring; logId : jsstring }.

Section Login.
(** Whether [StringUtils.hash] and [ValidationUtils.isValidGitHubToken] exist. *)
Variable hash_defined isValidGitHubToken_defined : bool.

(** [login(token)]: [true] on success.  Every exception (a missing
  helper, the refused cooldown) ends in the [catch], a failure. *)
Definition login (identifier : jsstring) (v : validation) (ids : Ids) (now : Z) (am : Admin) : Admin * bool :=
  if negb hash_defined then (am, false) else
  match checkLoginCooldown identifier now (security am) with
  | inl _ => (am, false)
  | inr (sec, cd) =>
      if negb (allowed cd) then (set_security sec am, false)
      else if negb isValidGitHubToken_defined then (set_security sec am, false)
      else match v with
           | VInvalid => (set_security (recordFailedLogin identifier now sec) am, false)
           | VUser u =>
               let sec' := generateSessionToken (sessionTok ids) u now (clearLoginAttempts identifier sec) in
               (mkAM sec' (logActivity (logId ids) (js "LOGIN") (Some u) now (activity am)) (perms am)
                  (startSession None now (session am)) true (Some (mkAdmin u (sessionTok ids) now)), true)
           end
  end.
End Login.

(** [logout()]. *)
Definition logout (logId' : jsstring) (now : Z) (am : Admin) : Admin :=
  if negb (isAdminMode am) then am else
  let u := match currentAdmin am with Some (mkAdmin ((_ :: _) as l) _ _) => l | _ => js "unknown" end in
  let sec := match currentAdmin am with
             | Some (mkAdmin _ ((_ :: _) as t) _) => revokeSessionToken t (security am)
             | _ => security am
             end in
  mkAM sec (logActivity logId' (js "LOGOUT") (Some u) now (activity am)) (perms am) (endSession (session am)) false None.

(** [validateSession()]: the token's absolute expiry, then the idle
  timeout; either failure logs out. *)
Definition validateSession (logId' : jsstring) (now : Z) (am : Admin) : Admin * bool :=
  match isAdminMode am, currentAdmin am with
  | true, Some ca =>
      let '(sec, s) := validateSessionToken (sessionToken ca) now (security am) in
      let am1 := set_security sec am in
      match s with
      | None => (logout logId' now am1, false)
      | Some _ => if isSessionValid now (session am1) then (am1, true) else (logout logId' now am1, false)
      end
  | _, _ => (am, false)
  end.

(** [hasPermission(permission)]. *)
Definition hasPermission_am (perm : jsstring) (am : Admin) : bool :=
  match isAdminMode am, currentAdmin am with
  | true, Some ca => hasPermission (admin_login ca) perm (perms am)
  | _, _ => false
  end.

(** The session timer's handler [_handleSessionTimeout()]: the
  [admin:session-timeout] listener logs [SESSION_TIMEOUT] for the
  session's [user], [endSession('timeout')], then the
  [admin:force-logout] listener runs [logout()]. *)
Definition sessionTimeoutFired (logId1 logId2 : jsstring) (now : Z) (am : Admin) : Admin :=
  let u := currentSession (session am) ≫= cs_user in
  let am1 := mkAM (security am) (logActivity logId1 (js "SESSION_TIMEOUT") u now (activity am)) (perms am)
               (endSession (session am)) (isAdminMode am) (currentAdmin am) in
  logout logId2 now am1.

(** ** Operation sequences *)

(** The operations of the admin side, from the UI or the timers. *)
Inductive admin_op :=
  | OpLogin (identifier : jsstring) (v : validation) (ids : Ids) (now : Z)
  | OpLogout (lid : jsstring) (now : Z)
  | OpValidate (lid : jsstring) (now : Z)
  | OpSessionTimeout (lid1 lid2 : jsstring) (now : Z)
  | OpActivity (now : Z)
  | OpVisibility (hidden : bool) (now : Z)
  | OpCleanup (now : Z).

Definition set_session (sm : SessionMgr) (am : Admin) : Admin :=
  mkAM (security am) (activity am) (perms am) sm (isAdminMode am) (currentAdmin am).

Definition apply_op (hash_defined valid_defined : bool) (o : admin_op) (am : Admin) : Admin :=
  match o with
  | OpLogin i v ids now => fst (login hash_defined valid_defined i v ids now am)
  | OpLogout lid now => logout lid now am
  | OpValidate lid now => fst (validateSession lid now am)
  | OpSessionTimeout l1 l2 now => sessionTimeoutFired l1 l2 now am
  | OpActivity now => set_session (updateActivity now (session am)) am
  | OpVisibility h now => set_session (visibilityChange h now (session am)) am
  | OpCleanup now => set_security (_cleanupExpiredSessions now (security am)) am
  end.

Definition run_ops (hash_defined valid_defined : bool) (ops : list admin_op) (am : Admin) : Admin :=
  fold_left (fun a o => apply_op hash_defined valid_defined o a) ops am.

(** ** Lemmas *)

Lemma logout_not_admin (lid : jsstring) (now : Z) (am : Admin) :
  isAdminMode am = false -> isAdminMode (logout lid now am) = false.
Proof. intros H. unfold logout. by rewrite H. Qed.

Lemma logout_clears (lid : jsstring) (now : Z) (am : Admin) : isAdminMode (logout lid now am) = false.
Proof. unfold logout. destruct (isAdminMode am) eqn:E; by simpl. Qed.

Lemma validateSession_not_admin (lid : jsstring) (now : Z) (am : Admin) :
  isAdminMode am = false -> isAdminMode (fst (validateSession lid now am)) = false.
Proof. intros H. unfold validateSession. by rewrite H. Qed.

Lemma apply_op_not_admin (valid_defined : bool) (o : admin_op) (am : Admin) :
  isAdminMode am = false -> isAdminMode (apply_op false valid_defined o am) = false.
Proof.
  intros H. destruct o; simpl.
  - done.
  - by apply logout_not_admin.
  - by apply validateSession_not_admin.
  - unfold sessionTimeoutFired. apply logout_clears.
  - done.
  - done.
  - done.
Qed.

(** The failure records after one login, whatever its outcome. *)
Lemma login_attempts_inv (h vd : bool) (i : jsstring) (v : validation) (ids : Ids) (now : Z) (am : Admin) :
  attempts_inv (security am) -> attempts_inv (security (fst (login h vd i v ids now am))).
Proof.
  intros (Hwf & Hpos & Hinv). unfold login. destruct h; [|by split]. simpl.
  destruct (checkLoginCooldown i now (security am)) as [e|[sec cd]] eqn:E; [by split|].
  destruct (checkLoginCooldown_inr i now (security am) sec cd Hwf E) as (Hmax & Hwf' & Hlt & Hother).
  assert (Hs : forall j a, JsMap.get j (failedAttempts sec) = Some a -> count a <= maxFailedAttempts sec).
  { intros j a Ha. rewrite Hmax. destruct (decide (j = i)) as [->|Hj].
    - specialize (Hlt a Ha). lia.
    - rewrite Hother in Ha by done. by apply (Hinv j). }
  assert (Hpos' : 1 <= maxFailedAttempts sec) by lia.
  destruct (allowed cd), vd; simpl; [|by split|by split|by split]. destruct v as [u|]; simpl.
  - unfold generateSessionToken, set_sessions, clearLoginAttempts. simpl.
    split; [by apply JsMap.wf_delete|]. split; [done|].
    intros j a Ha. simpl in Ha |- *. destruct (decide (j = i)) as [->|Hj]; [by rewrite JsMap.get_delete_eq in Ha|].
    rewrite JsMap.get_delete_ne in Ha by done. by apply (Hs j).
  - split; [by apply JsMap.wf_set|]. split; [done|]. simpl. intros j a Ha. destruct (decide (j = i)) as [->|Hj].
    + rewrite JsMap.get_set_eq in Ha. injection Ha as <-. simpl.
      destruct (JsMap.get i (failedAttempts sec)) as [a0|] eqn:Ea; simpl; [specialize (Hlt a0 eq_refl); lia|lia].
    + rewrite JsMap.get_set_ne in Ha by done. by apply (Hs j).
Qed.

Lemma logout_attempts_inv (lid : jsstring) (now : Z) (am : Admin) :
  attempts_inv (security am) -> attempts_inv (security (logout lid now am)).
Proof.
  intros Hinv. unfold logout. destruct (isAdminMode am); [|done]. simpl.
  destruct (currentAdmin am) as [[? [|? ?] ?]|]; done.
Qed.

Lemma apply_op_attempts_inv (h vd : bool) (o : admin_op) (am : Admin) :
  attempts_inv (security am) -> attempts_inv (security (apply_op h vd o am)).
Proof.
  intros Hinv. destruct o; simpl.
  - by apply login_attempts_inv.
  - by apply logout_attempts_inv.
  - unfold validateSession. destruct (isAdminMode am), (currentAdmin am) as [ca|]; try done.
    destruct (validateSessionToken (sessionToken ca) now (security am)) as [sec s] eqn:E.
    assert (Hsec : attempts_inv (security (set_security sec am))).
    { unfold validateSessionToken in E. simpl. destruct (JsMap.get _ _); [case_match|]; by simplify_eq. }
    destruct s; [case_match|]; simpl; [done| |]; by apply logout_attempts_inv.
  - unfold sessionTimeoutFired. by apply logout_attempts_inv.
  - done.
  - done.
  - done.
Qed.

(** ** Properties *)

(** C7: admin mode is unreachable in the repository: [new AdminManager()]
  throws because [CONFIG.ADMIN] is missing, and from any state outside
  admin mode no sequence of logins (which fail at [StringUtils.hash]),
  logouts, session checks, timer events or activity enters it. *)
Theorem admin_unreachable_in_repository (warning : option Z) :
  new_AdminManager repository_admin_config warning =
    inl (TypeError (js "Cannot read properties of undefined (reading 'MAX_ACTIVITY_LOGS')")) /\
  forall (valid_defined : bool) (ops : list admin_op) (am : Admin),
    isAdminMode am = false -> isAdminMode (run_ops false valid_defined ops am) = false.
Proof.
  split; [reflexivity|]. intros vd ops. unfold run_ops.
  induction ops as [|o ops IH]; intros am H; simpl; [done|]. by apply IH, apply_op_not_admin.
Qed.

Definition sample_admin : Admin :=
  mkAM new_SecurityManager (mkAL [] 100) (mkPerm [js "admin"] []) (new_SessionManager repository_warning_time) false None.

Lemma admin_unreachable_in_repository_witness :
  isAdminMode (run_ops false true [OpLogin (js "client") (VUser (js "octocat")) (mkIds (js "tok") (js "log1")) 0] sample_admin) = false.
Proof. by apply (proj2 (admin_unreachable_in_repository repository_warning_time)). Defined.

(** C20: during a lockout (the identifier has [maxFailedAttempts]
  failures and the last one is less than [cooldownPeriod] old) [login]
  fails without validating the token and changes nothing, whether or
  not the helpers it calls exist. *)
Theorem lockout_refuses_login (h vd : bool) (i : jsstring) (v : validation) (ids : Ids) (now : Z) (am : Admin) (a : Attempts) :
  JsMap.get i (failedAttempts (security am)) = Some a ->
  maxFailedAttempts (security am) <= count a ->
  (now - lastAttempt a < cooldownPeriod (security am))%Z ->
  login h vd i v ids now am = (am, false).
Proof.
  intros Ha Hc Ht. unfold login. destruct h; [|done]. simpl. unfold checkLoginCooldown. rewrite Ha.
  destruct (Nat.ltb_spec (count a) (maxFailedAttempts (security am))); [lia|].
  destruct (Z.leb_spec (cooldownPeriod (security am) - (now - lastAttempt a)) 0); [lia|done].
Qed.

(** Five failed logins of one client, at times 0 to 4. *)
Definition locked_admin : Admin :=
  run_ops true true (map (fun t => OpLogin (js "client") VInvalid (mkIds [] []) (Z.of_nat t)) (seq 0 5)) sample_admin.

Lemma lockout_refuses_login_witness :
  login true true (js "client") (VUser (js "octocat")) (mkIds (js "tok") (js "log1")) 1000 locked_admin = (locked_admin, false).
Proof.
  apply (lockout_refuses_login _ _ _ _ _ _ _ (mkAttempts 5 4 [0; 1; 2; 3; 4]%Z)); [vm_compute; reflexivity|vm_compute; lia|vm_compute; reflexivity].
Defined.

(** no client ever has more than [maxFailedAttempts] failures
  counted: every login, logout, session check, timer event and activity
  keeps each identifier's count within the limit. *)
Theorem failures_bounded (h vd : bool) (ops : list admin_op) (am : Admin) :
  attempts_inv (security am) -> attempts_inv (security (run_ops h vd ops am)).
Proof.
  unfold run_ops. revert am. induction ops as [|o ops IH]; intros am H; simpl; [done|].
  by apply IH, apply_op_attempts_inv.
Qed.

Lemma failures_bounded_witness :
  attempts_inv (security sample_admin) /\
  JsMap.get (js "client") (failedAttempts (security (run_ops true true
    (map (fun t => OpLogin (js "client") VInvalid (mkIds [] []) (Z.of_nat t)) (seq 0 5) ++
     [OpLogin (js "client") VInvalid (mkIds [] []) 300004]) sample_admin))) = Some (mkAttempts 1 300004 [300004%Z]).
Proof.
  assert (H : attempts_inv (security sample_admin)).
  { split; [constructor|]. split; [simpl; lia|]. intros ? ? Ha. discriminate Ha. }
  split; [done|]. pose proof (failures_bounded true true [] sample_admin H) as _. vm_compute. reflexivity.
Defined.

(** a session token expires [sessionTimeout] after the login, not
  after the last activity: once [expiresAt] has passed,
  [validateSession] logs the admin out, however recent the activity that
  keeps [SessionManager]'s idle check valid. *)
Theorem active_admin_expires (lid : jsstring) (now : Z) (am : Admin) (ca : CurrentAdmin) (s : Session) :
  isAdminMode am = true -> currentAdmin am = Some ca ->
  JsMap.get (sessionToken ca) (sessionTokens (security am)) = Some s -> (expiresAt s < now)%Z ->
  snd (validateSession lid now am) = false /\ isAdminMode (fst (validateSession lid now am)) = false.
Proof.
  intros Hm Hc Hs Ht. unfold validateSession. rewrite Hm, Hc. unfold validateSessionToken. rewrite Hs.
  destruct (Z.ltb_spec (expiresAt s) now); [|lia]. simpl. split; [done|]. apply logout_clears.
Qed.

Definition active_admin : Admin :=
  run_ops true true [OpLogin (js "client") (VUser (js "octocat")) (mkIds (js "tok") (js "log1")) 0;
                     OpActivity 3599000] sample_admin.

Lemma active_admin_expires_witness :
  isSessionValid 3600001 (session active_admin) = true /\
  snd (validateSession (js "log2") 3600001 active_admin) = false.
Proof.
  split; [vm_compute; reflexivity|].
  apply (active_admin_expires (js "log2") 3600001 active_admin (mkAdmin (js "octocat") (js "tok") 0)
           (mkSession (js "tok") (js "octocat") 0 0 3600000)); vm_compute; reflexivity.
Defined.

End AdminSession.
