(* ===== verification/AdminStats.v ===== *)
(** * Statistics, information and persistence of the admin side

    [src/src/js/adminManager.js]: [SecurityManager.getSecurityStats],
    [ActivityLogManager.getStats], [PermissionManager.getUserPermissions],
    [SessionManager.getSessionInfo], [AdminManager.getAdminInfo] and
    [getSystemStats]; and the persistence every manager attempts through
    [storageManager.specializedStorage.adminData]: [_load/_saveSecurityData],
    [_loadLogs], [_loadPermissions], [_save/_load/_clearAdminState].

    The store is [option AdminData]: [None] is the repository's wiring,
    where [specializedStorage] is [undefined] and every access throws
    inside a [try] whose [catch] only logs, so each operation leaves the
    state as it was; [Some d] is a working store holding the four entries
    the admin code reads and writes, each [None] when absent.  Values go
    through [JSON.stringify]/[JSON.parse] on the way; the records stored
    here are made of strings, numbers, booleans and arrays, which the round
    trip keeps.  The counter objects [actionCounts] and [userCounts] are
    plain objects ([JsMap.obj_incr]): a key named after an
    [Object.prototype] member counts into a string, and [__proto__] is
    never counted.

    The theorems: the counters of [getStats] count the logs of each action
    and user and add up to [totalLogs]; with a working store the lockout
    data survives a reload; and no reload ever restores an admin session,
    since [_loadAdminState] validates the saved token against the session
    map of a [SecurityManager] just constructed, which
    [_loadSecurityData] never fills. *)

From stdpp Require Import gmap.
From S2P Require Import Prelude JsMap JsonStore JsArray AdminSecurity AdminSession.

Module AdminStats.
Import AdminSecurity AdminSession JsonStore.

(** ** Statistics and information *)

Record SecurityStats := mkSecStats {
  ss_failedAttempts : nat; ss_blockedIPs : nat; activeSessions : nat;
  ss_maxFailedAttempts : nat; ss_cooldownPeriod : Z; ss_sessionTimeout : Z
}.

(** [SecurityManager.getSecurityStats()]. *)
Definition getSecurityStats (st : Security) : SecurityStats :=
  mkSecStats (JsMap.size (failedAttempts st)) (length (blockedIPs st)) (JsMap.size (sessionTokens st))
    (maxFailedAttempts st) (cooldownPeriod st) (sessionTimeout st).

Record LogStats := mkLogStats {
  totalLogs : nat;
  actionCounts : JsMap.t jsstring JsMap.counter;
  userCounts : JsMap.t jsstring JsMap.counter;
  recentActivity : list LogEntry
}.

(** [ActivityLogManager.getStats()]: one [forEach] counting both into
  the plain objects [actionCounts: {}] and [userCounts: {}], then
  [this.logs.slice(0, 10)] (the log is newest first). *)
Definition getStats (al : ActivityLog) : LogStats :=
  let '(ac, uc) := fold_left (fun '(ac, uc) e => (JsMap.obj_incr (action e) ac, JsMap.obj_incr (log_user e) uc))
                     (logs al) (JsMap.empty, JsMap.empty) in
  mkLogStats (length (logs al)) ac uc (firstn 10 (logs al)).

(** [PermissionManager.getUserPermissions(user)]. *)
Definition getUserPermissions (u : jsstring) (pm : Permissions) : list jsstring := userPerms u pm.

Record SessionInfo := mkSessionInfo {
  si_session : CurSession; timeSinceActivity : Z; remainingTime : Z; isValid : bool
}.

(** [SessionManager.getSessionInfo()]. *)
Definition getSessionInfo (now : Z) (sm : SessionMgr) : option SessionInfo :=
  match currentSession sm with
  | None => None
  | Some cs =>
      let since := (now - cs_lastActivity cs)%Z in
      Some (mkSessionInfo cs since (sm_timeout sm - since)%Z (isSessionValid now sm))
  end.

Record AdminInfo := mkAdminInfo {
  ai_admin : CurrentAdmin; sessionInfo : option SessionInfo; ai_permissions : list jsstring
}.

(** [AdminManager.getAdminInfo()]. *)
Definition getAdminInfo (now : Z) (am : Admin) : option AdminInfo :=
  match isAdminMode am, currentAdmin am with
  | true, Some ca =>
      Some (mkAdminInfo ca (getSessionInfo now (session am)) (getUserPermissions (admin_login ca) (perms am)))
  | _, _ => None
  end.

Record SystemStats := mkSystemStats {
  sys_security : SecurityStats; sys_activity : LogStats; sys_session : option SessionInfo;
  sys_isAdminMode : bool; sys_currentAdmin : option jsstring; sys_loginTime : option Z
}.

(** [AdminManager.getSystemStats()]: [this.currentAdmin?.login || null]
  and [this.currentAdmin?.loginTime || null]. *)
Definition getSystemStats (now : Z) (am : Admin) : SystemStats :=
  mkSystemStats (getSecurityStats (security am)) (getStats (activity am)) (getSessionInfo now (session am))
    (isAdminMode am)
    (match currentAdmin am with Some (mkAdmin ((_ :: _) as l) _ _) => Some l | _ => None end)
    (match currentAdmin am with Some ca => if (loginTime ca =? 0)%Z then None else Some (loginTime ca) | None => None end).

(** ** Persistence *)

(** The JSON of the modelled fields of a failed-attempts record
  [{ count, attempts: [{ timestamp, ... }], lastAttempt }]; the
  [userAgent] and details of each attempt are not modelled. *)
Definition enc_attempts (a : Attempts) : json :=
  obj [(js "count", Some (num_Z (Z.of_nat (count a))));
       (js "attempts", Some (JArr ((fun t => obj [(js "timestamp", Some (num_Z t))]) <$> attempts a)));
       (js "lastAttempt", Some (num_Z (lastAttempt a)))].

Definition dec_attempts (v : json) : option Attempts :=
  c ← as_Z (prop (js "count") v);
  xs ← as_arr (prop (js "attempts") v);
  ts ← mapM (fun x => as_Z (prop (js "timestamp") x)) xs;
  l ← as_Z (prop (js "lastAttempt") v);
  if (0 <=? c)%Z then Some (mkAttempts (Z.to_nat c) l ts) else None.

(** An entry [[key, value]] of [Array.from(map.entries())]. *)
Definition enc_entry {A} (enc : A -> json) (kv : jsstring * A) : json := JArr [JStr kv.1; enc kv.2].

Definition dec_entry {A} (dec : json -> option A) (e : json) : option (jsstring * A) :=
  match e with JArr [JStr k; v] => (fun a => (k, a)) <$> dec v | _ => None end.

(** The modelled fields of a log entry [{ id, timestamp, action, user,
  ... }]; [userAgent], [ip] and [details] are not modelled. *)
Definition enc_log (e : LogEntry) : json :=
  obj [(js "id", Some (JStr (log_id e))); (js "timestamp", Some (num_Z (timestamp e)));
       (js "action", Some (JStr (action e))); (js "user", Some (JStr (log_user e)))].

Definition dec_log (v : json) : option LogEntry :=
  i ← as_str (prop (js "id") v); t ← as_Z (prop (js "timestamp") v);
  a ← as_str (prop (js "action") v); u ← as_str (prop (js "user") v);
  Some (mkLog i t a u).

(** [this.currentAdmin]: [{ ...validation.user, sessionToken, loginTime }]
  with the login as the modelled user field. *)
Definition enc_admin (ca : CurrentAdmin) : json :=
  obj [(js "login", Some (JStr (admin_login ca))); (js "sessionToken", Some (JStr (sessionToken ca)));
       (js "loginTime", Some (num_Z (loginTime ca)))].

Definition dec_admin (v : json) : option CurrentAdmin :=
  l ← as_str (prop (js "login") v); t ← as_str (prop (js "sessionToken") v);
  lt ← as_Z (prop (js "loginTime") v); Some (mkAdmin l t lt).

(** [x || []] for an array property. *)
Definition or_arr (v : option json) : option (list json) := if truthy v then as_arr v else Some [].

(** [new Set(array)]: each value added in turn. *)
Definition set_of_list (l : list jsstring) : list jsstring := fold_left (fun s x => set_add_js x s) l [].

Section Persist.
Context {S : Type} `{KVStore S}.

(** [adminData.get(key)], [adminData.set(key, value)] and
  [adminData.remove(key)]. *)
Definition get_admin (k : jsstring) (store : option S) : option json := store ≫= kv_get k.
Definition set_admin (k : jsstring) (v : json) (store : option S) : option S := kv_set k v <$> store.
Definition remove_admin (k : jsstring) (store : option S) : option S := kv_remove k <$> store.

(** [_saveSecurityData()]. *)
Definition _saveSecurityData (now : Z) (st : Security) (store : option S) : option S :=
  set_admin (js "securityData")
    (obj [(js "failedAttempts", Some (JArr (enc_entry enc_attempts <$> failedAttempts st)));
          (js "blockedIPs", Some (JArr (JStr <$> blockedIPs st)));
          (js "lastUpdated", Some (num_Z now))]) store.

(** [_loadSecurityData()]: [new Map(data.failedAttempts || [])] and
  [new Set(data.blockedIPs || [])]; the session tokens are not part of
  the saved data. *)
Definition _loadSecurityData (store : option S) (st : Security) : Security :=
  let data := get_admin (js "securityData") store in
  match data with
  | Some d =>
      if truthy data then
        match or_arr (prop (js "failedAttempts") d) ≫= mapM (dec_entry dec_attempts),
              or_arr (prop (js "blockedIPs") d) ≫= mapM (fun x => as_str (Some x)) with
        | Some fa, Some bi =>
            mkSec (JsMap.of_entries fa) (set_of_list bi) (sessionTokens st) (maxFailedAttempts st)
              (cooldownPeriod st) (sessionTimeout st)
        | _, _ => st
        end
      else st
  | None => st
  end.

(** [_saveLogs()]. *)
Definition _saveLogs (al : ActivityLog) (store : option S) : option S :=
  set_admin (js "activityLogs") (JArr (enc_log <$> logs al)) store.

(** [_loadLogs()]: [savedLogs && Array.isArray(savedLogs)]. *)
Definition _loadLogs (store : option S) (al : ActivityLog) : ActivityLog :=
  match get_admin (js "activityLogs") store with
  | Some (JArr xs) => match mapM dec_log xs with Some l => mkAL l (maxLogs al) | None => al end
  | _ => al
  end.

(** [_savePermissions()]: [Array.from(this.userPermissions.entries())]. *)
Definition _savePermissions (pm : Permissions) (store : option S) : option S :=
  set_admin (js "userPermissions")
    (JArr (enc_entry (fun ps => JArr (JStr <$> ps)) <$> userPermissions pm)) store.

(** [_loadPermissions()]: [new Map(savedPerms)]. *)
Definition _loadPermissions (store : option S) (pm : Permissions) : Permissions :=
  let v := get_admin (js "userPermissions") store in
  if truthy v then
    match as_arr v ≫= mapM (dec_entry (fun x => as_arr (Some x) ≫= mapM (fun y => as_str (Some y)))) with
    | Some es => mkPerm (permissions pm) (JsMap.of_entries es)
    | None => pm
    end
  else pm.

(** [_saveAdminState()]. *)
Definition _saveAdminState (now : Z) (am : Admin) (store : option S) : option S :=
  set_admin (js "adminState")
    (obj [(js "isAdminMode", Some (JBool (isAdminMode am)));
          (js "currentAdmin", Some (match currentAdmin am with Some ca => enc_admin ca | None => JNull end));
          (js "timestamp", Some (num_Z now))]) store.

(** [_clearAdminState()]: [adminData.remove('adminState')]. *)
Definition _clearAdminState (store : option S) : option S := remove_admin (js "adminState") store.

(** [_loadAdminState()]: a saved admin state whose [isAdminMode] and
  [currentAdmin] are truthy is restored when [currentAdmin.sessionToken]
  validates (a token that is not a string is no key of the session map),
  and removed otherwise.  Without a store the [get] throws and the
  [catch]'s [_clearAdminState] throws too. *)
Definition _loadAdminState (now : Z) (am : Admin) (store : option S) : Admin * option S :=
  let state := get_admin (js "adminState") store in
  match state with
  | Some sv =>
      if truthy state && truthy (prop (js "isAdminMode") sv) && truthy (prop (js "currentAdmin") sv) then
        let ca := default JNull (prop (js "currentAdmin") sv) in
        match as_str (prop (js "sessionToken") ca) with
        | Some tok =>
            let '(sec, s) := validateSessionToken tok now (security am) in
            match s, dec_admin ca with
            | Some _, Some a =>
                (mkAM sec (activity am) (perms am) (startSession None now (session am)) true (Some a), store)
            | Some _, None => (am, store)
            | None, _ => (set_security sec am, _clearAdminState store)
            end
        | None => (am, _clearAdminState store)
        end
      else (am, store)
  | None => (am, store)
  end.

(** [new AdminManager()] over a store: each manager's constructor loads
  its entry, then [_loadAdminState()] runs. *)
Definition new_AdminManager_store (cfg : option AdminConfig) (warning : option Z) (now : Z)
    (store : option S) : js_error + (Admin * option S) :=
  match new_AdminManager cfg warning with
  | inl e => inl e
  | inr am =>
      inr (_loadAdminState now
             (mkAM (_loadSecurityData store (security am)) (_loadLogs store (activity am))
                (_loadPermissions store (perms am)) (session am) (isAdminMode am) (currentAdmin am))
             store)
  end.

End Persist.

(** ** Lemmas *)

Lemma getStats_fold (l : list LogEntry) (ac uc : JsMap.t jsstring JsMap.counter) :
  fold_left (fun '(ac, uc) e => (JsMap.obj_incr (action e) ac, JsMap.obj_incr (log_user e) uc)) l (ac, uc) =
  (fold_left (fun m e => JsMap.obj_incr (action e) m) l ac, fold_left (fun m e => JsMap.obj_incr (log_user e) m) l uc).
Proof. revert ac uc. induction l as [|e l IH]; intros ac uc; [done|]. apply IH. Qed.

Lemma set_of_list_NoDup (l : list jsstring) : NoDup l -> set_of_list l = l.
Proof.
  induction l as [|x l IH] using rev_ind; intros Hnd; [done|].
  apply NoDup_app in Hnd as (Hl & Hx & _). unfold set_of_list in *. rewrite fold_left_app. cbn [fold_left].
  rewrite IH by done. unfold set_add_js. rewrite bool_decide_eq_false_2; [done|]. intros Hin. apply (Hx x Hin). by left.
Qed.

(** ** Properties *)

(** C32: the counter objects of [ActivityLogManager.getStats] agree
  with [getLogs]: the own property of a non-empty action is [obj_count]
  of the number of logs [getLogs({action})] returns, the one of a user
  [obj_count] of the number of that user's logs: that number for an
  ordinary name, absent for a name without logs, the text of an inherited
  [Object.prototype] function followed by one ['1'] per log for
  ['constructor'], ['toString'] and the like, and never a property for
  ['__proto__']; [totalLogs] is the number of logs and [recentActivity]
  the (at most 10) newest logs. *)
Theorem logStats_counts (al : ActivityLog) :
  let s := getStats al in
  totalLogs s = length (logs al) /\
  (forall a, a <> [] -> JsMap.get a (actionCounts s) =
                        JsMap.obj_count a (length (getLogs (mkFilters (Some a) None None None None None) al))) /\
  (forall u, JsMap.get u (userCounts s) =
             JsMap.obj_count u (length (List.filter (fun e => bool_decide (log_user e = u)) (logs al)))) /\
  recentActivity s = firstn 10 (logs al) /\ length (recentActivity s) <= 10.
Proof.
  unfold getStats. rewrite getStats_fold. cbn [totalLogs actionCounts userCounts recentActivity].
  split_and!; [done| | |done|rewrite length_firstn; lia].
  - intros a Ha. rewrite (JsMap.get_fold_obj_incr _ _ _ _ 0) by (unfold JsMap.obj_count; by case_bool_decide).
    unfold getLogs. cbn [f_action f_user f_startTime f_endTime f_page f_pageSize].
    destruct a as [|c a]; [done|]. done.
  - intros u. apply (JsMap.get_fold_obj_incr _ _ _ _ 0). unfold JsMap.obj_count. by case_bool_decide.
Qed.

(** A user named [constructor] (a valid GitHub login) with two logs is
  counted as the string ['function Object() { [native code] }11']. *)
Example logStats_constructor_user :
  let e := mkLog (js "log1") 0 (js "login") (js "constructor") in
  JsMap.get (js "constructor") (userCounts (getStats (mkAL [e; e] 1000))) =
    Some (JsMap.CStr (js "function Object() { [native code] }11")).
Proof. vm_compute. reflexivity. Qed.

Lemma dec_enc_attempts (a : Attempts) : dec_attempts (enc_attempts a) = Some a.
Proof.
  destruct a as [c l ts]. unfold dec_attempts, enc_attempts. cbn [count lastAttempt attempts]. json_t.
  rewrite mapM_fmap_Some by (intros t; json_t; done). cbn [mbind option_bind].
  rewrite (proj2 (Z.leb_le 0 (Z.of_nat c))) by lia. by rewrite Nat2Z.id.
Qed.

Lemma mapM_dec_entries {A} (enc : A -> json) (dec : json -> option A) (m : list (jsstring * A)) :
  (forall a, dec (enc a) = Some a) -> mapM (dec_entry dec) (enc_entry enc <$> m) = Some m.
Proof. intros Hd. apply mapM_fmap_Some. intros [k a]. cbn. by rewrite Hd. Qed.

Lemma mapM_strings (l : list jsstring) : mapM (fun x => as_str (Some x)) (JStr <$> l) = Some l.
Proof. by apply mapM_fmap_Some. Qed.

Section Reload.
Context {S : Type} `{KVStoreLaws S}.

Lemma clear_admin_gone (store : option S) :
  get_admin (js "adminState") (_clearAdminState store) = (None : option json).
Proof. destruct store as [s|]; [apply kv_get_remove_eq|done]. Qed.

(** The constructor's security manager never holds a session, whatever
  the store. *)
Lemma load_security_sessions (store : option S) :
  sessionTokens (_loadSecurityData store new_SecurityManager) = [].
Proof. unfold _loadSecurityData. by repeat case_match. Qed.

(** C28: no reload restores an admin session: whatever the store holds,
  the [AdminManager] a page load constructs is not in admin mode, and a
  saved admin state with a truthy [isAdminMode] and [currentAdmin] found
  in a working store is removed from it, because the saved session token
  is validated against the empty session map of the [SecurityManager]
  just constructed ([_loadSecurityData] restores only the failed attempts
  and the blocked addresses). *)
Theorem reload_never_restores_admin (cfg : option AdminConfig) (warning : option Z) (now : Z)
    (store : option S) (am : Admin) (store' : option S) :
  new_AdminManager_store cfg warning now store = inr (am, store') ->
  isAdminMode am = false /\ currentAdmin am = None /\
  (forall v, get_admin (js "adminState") store = Some v ->
     truthy (prop (js "isAdminMode") v) = true -> truthy (prop (js "currentAdmin") v) = true ->
     get_admin (js "adminState") store' = None).
Proof.
  unfold new_AdminManager_store, new_AdminManager.
  destruct (new_ActivityLogManager cfg) as [e|al]; [discriminate|].
  destruct (new_PermissionManager cfg) as [e|pm]; [discriminate|]. intros [= Hl].
  pose proof (load_security_sessions store) as Hs.
  revert Hl. unfold _loadAdminState. cbn [security isAdminMode currentAdmin].
  destruct (get_admin (js "adminState") store) as [sv|] eqn:Ea;
    [|intros [= <- <-]; split_and!; [done|done|by intros ? ?]].
  destruct (truthy (Some sv) && _ && _) eqn:Et.
  - destruct (as_str _) as [tok|].
    + unfold validateSessionToken. rewrite Hs. cbn [JsMap.get]. intros [= <- <-].
      split_and!; [done|done|]. intros _ _ _ _. apply clear_admin_gone.
    + intros [= <- <-]. split_and!; [done|done|]. intros _ _ _ _. apply clear_admin_gone.
  - intros [= <- <-]. split_and!; [done|done|]. intros v [= <-] Hi Hc.
    rewrite Hi, Hc, !andb_true_r in Et. destruct sv; cbn in Hi, Et; discriminate.
Qed.

(** C36: with a working store, the lockout data survives a reload: the
  [SecurityManager] of the next page load, built by the constructor and
  [_loadSecurityData], reads back under ['securityData'] the failed
  attempts and the blocked addresses [_saveSecurityData] wrote (through
  [Array.from(map.entries())] and [new Map(...)], [Array.from(set)] and
  [new Set(...)]), and no session. *)
Theorem security_data_roundtrip (s : S) (st : Security) (now : Z) :
  JsMap.wf (failedAttempts st) -> NoDup (blockedIPs st) ->
  _loadSecurityData (_saveSecurityData now st (Some s)) new_SecurityManager =
    mkSec (failedAttempts st) (blockedIPs st) [] 5 300000 3600000.
Proof.
  intros Hwf Hnd. unfold _loadSecurityData, _saveSecurityData, get_admin, set_admin.
  cbn [fmap option_fmap option_map mbind option_bind]. rewrite kv_get_set_eq. json_t.
  unfold or_arr. cbn [truthy as_arr mbind option_bind].
  rewrite (mapM_dec_entries enc_attempts dec_attempts) by apply dec_enc_attempts.
  rewrite mapM_strings. cbn. by rewrite JsMap.of_entries_wf, set_of_list_NoDup.
Qed.

End Reload.

Definition sample_admin : CurrentAdmin := mkAdmin (js "octocat") (js "tok-1") 1000.

(** A store holding the admin state a login saved. *)
Definition sample_store : gmap jsstring json :=
  <[js "adminState" := obj [(js "isAdminMode", Some (JBool true)); (js "currentAdmin", Some (enc_admin sample_admin));
                            (js "timestamp", Some (num_Z 1000))]]> ∅.

Definition sample_config : AdminConfig := mkAdminConfig 100 [js "admin"; js "upload"].

Lemma reload_never_restores_admin_witness :
  exists am store', new_AdminManager_store (Some sample_config) None 2000 (Some sample_store) = inr (am, store') /\
    isAdminMode am = false /\ currentAdmin am = None /\
    (forall v, get_admin (js "adminState") (Some sample_store) = Some v ->
       truthy (prop (js "isAdminMode") v) = true -> truthy (prop (js "currentAdmin") v) = true ->
       get_admin (js "adminState") store' = None).
Proof.
  destruct (new_AdminManager_store (Some sample_config) None 2000 (Some sample_store)) as [e|[am st']] eqn:E;
    [vm_compute in E; discriminate|].
  exists am, st'. split; [done|]. exact (reload_never_restores_admin _ _ _ _ _ _ E).
Defined.

Lemma security_data_roundtrip_witness :
  _loadSecurityData
    (_saveSecurityData 5000 (mkSec [(js "client-1", mkAttempts 2 4000 [3000; 4000]%Z)] [js "10.0.0.1"] [] 5 300000 3600000)
       (Some sample_store)) new_SecurityManager =
  mkSec [(js "client-1", mkAttempts 2 4000 [3000; 4000]%Z)] [js "10.0.0.1"] [] 5 300000 3600000.
Proof.
  apply (security_data_roundtrip sample_store
           (mkSec [(js "client-1", mkAttempts 2 4000 [3000; 4000]%Z)] [js "10.0.0.1"] [] 5 300000 3600000)).
  - apply NoDup_singleton.
  - apply NoDup_singleton.
Defined.

End AdminStats.
