(* ===== verification/ObjectUtils.v ===== *)
(** * Nested properties of JS values: [ObjectUtils]

    [src/src/js/utils.js], object [ObjectUtils]: [get(obj, path,
    defaultValue)] follows a dotted path and falls back to the default on
    a missing step; [set(obj, path, value)] writes along a dotted path,
    creating [{}] where a step is missing or not an object; [isObject]
    tells plain objects (and maps) from arrays and primitives;
    [deepMerge(target, ...sources)] copies the sources' properties into
    [target], recursively for object-valued ones.  [deepClone] is in
    [JsValue].  [SpecializedStorageManager.preferences] reads and writes
    the user preferences through [get] and [set].

    Values are the trees of [JsValue]: an object is its own enumerable
    properties in insertion order.  [set] and [deepMerge] mutate their
    argument in place; on a tree that shares no sub-object with another
    value the mutation is the new tree they return here.  A property
    access [v[k]] ([prop_get]) reads an object's own property, an array's
    index or [length], a map's [size]; the members of the prototypes
    (functions) are not values of the model and read as [undefined].  A
    write the trees cannot hold (a property of a [Map] object, an array
    property other than an index up to its length) is [None]. *)

From S2P Require Import Prelude JsMap JsValue.

Module ObjectUtils.
Import JsValue.

(** ** Paths *)

(** [path.split('.')]; [cur] is the current segment, reversed. *)
Fixpoint split_dot_go (cur s : jsstring) : list jsstring :=
  match s with
  | [] => [rev cur]
  | c :: s' => if (c =? 46)%Z then rev cur :: split_dot_go [] s' else split_dot_go (c :: cur) s'
  end.

Definition split_dot (s : jsstring) : list jsstring := split_dot_go [] s.

(** [keys.join('.')]. *)
Fixpoint join_dot (ks : list jsstring) : jsstring :=
  match ks with
  | [] => []
  | [k] => k
  | k :: ks' => k ++ [46%Z] ++ join_dot ks'
  end.

(** ** Property access *)

(** The value of a string of decimal digits. *)
Fixpoint digits_value (acc : Z) (s : jsstring) : option Z :=
  match s with
  | [] => Some acc
  | c :: s' => if (48 <=? c)%Z && (c <=? 57)%Z then digits_value (acc * 10 + (c - 48))%Z s' else None
  end.

(** A canonical array index: the decimal form, without leading zero, of
  an integer below [2^32 - 1]. *)
Definition array_index (k : jsstring) : option Z :=
  match k with
  | [] => None
  | c :: rest =>
      if (c =? 48)%Z then match rest with [] => Some 0%Z | _ => None end
      else match digits_value 0 k with
           | Some n => if (n <? 4294967295)%Z then Some n else None
           | None => None
           end
  end.

(** [typeof v === 'object']: [null], arrays, objects, maps. *)
Definition typeof_object (v : jsval) : bool :=
  match v with JNull | JArr _ | JObj _ | JMap _ => true | _ => false end.

(** [v == null]. *)
Definition nullish (v : jsval) : bool :=
  match v with JUndefined | JNull => true | _ => false end.

(** [v[k]] for an object-typed [v]. *)
Definition prop_get (v : jsval) (k : jsstring) : jsval :=
  match v with
  | JObj fs => default JUndefined (JsMap.get k fs)
  | JArr xs =>
      if bool_decide (k = js "length") then JNum (Z.of_nat (length xs))
      else match array_index k with
           | Some i => if (i <? Z.of_nat (length xs))%Z then default JUndefined (xs !! Z.to_nat i) else JUndefined
           | None => JUndefined
           end
  | JMap es => if bool_decide (k = js "size") then JNum (Z.of_nat (length es)) else JUndefined
  | _ => JUndefined
  end.

(** [current[k] = value] in strict mode (the file is an ES module). *)
Definition assign (current : jsval) (k : jsstring) (value : jsval) : option (js_error + jsval) :=
  match current with
  | JObj fs => Some (inr (JObj (JsMap.set k value fs)))
  | JArr xs =>
      match array_index k with
      | Some i =>
          if (i <? Z.of_nat (length xs))%Z then Some (inr (JArr (<[Z.to_nat i := value]> xs)))
          else if (i =? Z.of_nat (length xs))%Z then Some (inr (JArr (xs ++ [value])))
          else None
      | None => None
      end
  | JMap _ => None
  | JNull => Some (inl (TypeError (js "Cannot set properties of null (setting '" ++ k ++ js "')")))
  | JUndefined => Some (inl (TypeError (js "Cannot set properties of undefined (setting '" ++ k ++ js "')")))
  | _ => Some (inl (TypeError (js "Cannot create property '" ++ k ++ js "' on a primitive")))
  end.

(** ** [get] and [set] *)

(** The loop of [get]: [None] is the early [return defaultValue]. *)
Fixpoint get_go (keys : list jsstring) (result : jsval) : option jsval :=
  match keys with
  | [] => Some result
  | k :: ks => if nullish result || negb (typeof_object result) then None else get_go ks (prop_get result k)
  end.

(** [ObjectUtils.get(obj, path, defaultValue)]. *)
Definition get (obj : jsval) (path : jsstring) (defaultValue : jsval) : jsval :=
  match get_go (split_dot path) obj with
  | Some r => if is_undefined r then defaultValue else r
  | None => defaultValue
  end.

(** The loop of [set] and its final write.  [k in current] throws on
  [null] and on primitives.  A step that is absent or not an object is
  replaced by [{}] before the walk goes on; an object step is walked into
  and mutated in place.  The exception, if any, comes before any write:
  a replaced step is a fresh [{}], where nothing throws. *)
Fixpoint set_go (keys : list jsstring) (lastKey : jsstring) (value current : jsval)
    : option (js_error + jsval) :=
  match keys with
  | [] => assign current lastKey value
  | k :: ks =>
      if negb (typeof_object current && not_null current) then
        Some (inl (TypeError (js "Cannot use 'in' operator to search for '" ++ k ++ js "'")))
      else
        let child := prop_get current k in
        let child := if typeof_object child then child else JObj [] in
        match set_go ks lastKey value child with
        | Some (inr child') => assign current k child'
        | r => r
        end
  end.

(** [ObjectUtils.set(obj, path, value)]: [keys.pop()] is the last segment. *)
Definition set (obj : jsval) (path : jsstring) (value : jsval) : option (js_error + jsval) :=
  let keys := split_dot path in
  set_go (removelast keys) (List.last keys []) value obj.

(** ** [isObject] and [deepMerge] *)

(** [isObject(item)]: [item && typeof item === 'object' && !Array.isArray(item)]. *)
Definition isObject (v : jsval) : bool :=
  match v with JObj _ | JMap _ => true | _ => false end.

(** One source of [deepMerge]: for each own enumerable key of a plain
  object source (a [Map] has none), an object value is merged into
  [target[key]] (set to [{}] first when falsy), any other value is
  assigned.  [deepMerge] of a [target[key]] that is not an object returns
  it untouched. *)
Fixpoint merge_one (target source : jsval) {struct source} : option jsval :=
  match source with
  | JObj sfs =>
      if isObject target then
        (fix go (t : jsval) (fs : list (jsstring * jsval)) : option jsval :=
           match fs with
           | [] => Some t
           | (k, sv) :: fs' =>
               let step :=
                 if isObject sv then
                   let child := prop_get t k in
                   let '(t1, child1) := if falsy child then (assign t k (JObj []), JObj [])
                                        else (Some (inr t), child) in
                   match t1 with
                   | Some (inr t1) =>
                       if isObject child1 then
                         match merge_one child1 sv with
                         | Some child2 => assign t1 k child2
                         | None => None
                         end
                       else Some (inr t1)
                   | _ => None
                   end
                 else assign t k sv in
               match step with
               | Some (inr t') => go t' fs'
               | _ => None
               end
           end) target sfs
      else Some target
  | _ => Some target
  end.

(** [deepMerge(target, ...sources)]: the sources one after the other. *)
Fixpoint deepMerge (target : jsval) (sources : list jsval) : option jsval :=
  match sources with
  | [] => Some target
  | s :: ss => match merge_one target s with Some t => deepMerge t ss | None => None end
  end.

(** ** Lemmas *)

Lemma split_dot_go_nonempty (cur s : jsstring) : split_dot_go cur s <> [].
Proof. revert cur; induction s as [|c s IH]; intros cur; simpl; [done|]. by case_match. Qed.

Lemma join_dot_cons (k : jsstring) (ks : list jsstring) :
  ks <> [] -> join_dot (k :: ks) = k ++ [46%Z] ++ join_dot ks.
Proof. by destruct ks. Qed.

Lemma join_split_go (cur s : jsstring) : join_dot (split_dot_go cur s) = rev cur ++ s.
Proof.
  revert cur; induction s as [|c s IH]; intros cur; simpl.
  - by rewrite app_nil_r.
  - destruct (Z.eqb_spec c 46) as [->|_].
    + rewrite join_dot_cons by apply split_dot_go_nonempty. by rewrite IH.
    + rewrite IH. simpl. by rewrite <- app_assoc.
Qed.

(** A path is the segments [split('.')] cuts, joined by ['.']. *)
Lemma join_split_dot (s : jsstring) : join_dot (split_dot s) = s.
Proof. apply join_split_go. Qed.

Lemma split_dot_go_app (cur k s : jsstring) :
  (46%Z) ∉ k -> split_dot_go cur (k ++ s) = split_dot_go (rev k ++ cur) s.
Proof.
  revert cur; induction k as [|c k IH]; intros cur Hk; simpl; [done|].
  apply not_elem_of_cons in Hk as [Hc Hk].
  rewrite (proj2 (Z.eqb_neq c 46) (not_eq_sym Hc)), IH by done. by rewrite <- app_assoc.
Qed.

(** [split('.')] of [k + '.' + rest] for a segment [k] without a dot. *)
Lemma split_dot_seg (k rest : jsstring) :
  (46%Z) ∉ k -> split_dot (k ++ [46%Z] ++ rest) = k :: split_dot rest.
Proof.
  intros Hk. unfold split_dot. rewrite split_dot_go_app by done. simpl.
  by rewrite app_nil_r, rev_involutive.
Qed.

Lemma array_index_length : array_index (js "length") = None.
Proof. reflexivity. Qed.

Lemma digits_value_nonneg (acc n : Z) (s : jsstring) :
  (0 <= acc)%Z -> digits_value acc s = Some n -> (0 <= n)%Z.
Proof.
  revert acc; induction s as [|c s IH]; intros acc Hacc; simpl; [by intros [= <-]|].
  destruct ((48 <=? c)%Z && (c <=? 57)%Z) eqn:Hc; [|discriminate].
  apply andb_prop in Hc as [Hc _]. apply Z.leb_le in Hc. apply IH. lia.
Qed.

Lemma array_index_nonneg (k : jsstring) (i : Z) : array_index k = Some i -> (0 <= i)%Z.
Proof.
  unfold array_index. destruct k as [|c rest]; [discriminate|].
  destruct (c =? 48)%Z; [destruct rest; [by intros [= <-]|discriminate]|].
  destruct (digits_value 0 (c :: rest)) as [n|] eqn:Hd; [|discriminate].
  destruct (n <? 4294967295)%Z; [|discriminate]. intros [= <-].
  by apply (digits_value_nonneg 0 n (c :: rest)).
Qed.

(** A write that succeeds leaves an object whose property [k] is the
  value written. *)
Lemma assign_prop (cur cur' v : jsval) (k : jsstring) :
  assign cur k v = Some (inr cur') ->
  typeof_object cur' = true /\ not_null cur' = true /\ prop_get cur' k = v.
Proof.
  destruct cur as [| | | | |xs|fs|es]; simpl; try discriminate.
  - destruct (array_index k) as [i|] eqn:Hi; [|discriminate].
    assert (Hk : k <> js "length") by (intros ->; by rewrite array_index_length in Hi).
    pose proof (array_index_nonneg _ _ Hi).
    destruct (Z.ltb_spec i (Z.of_nat (length xs))).
    + intros [= <-]. simpl. rewrite bool_decide_false, Hi, length_insert by done.
      destruct (Z.ltb_spec i (Z.of_nat (length xs))); [|lia].
      rewrite list_lookup_insert_eq; [done|lia].
    + destruct (Z.eqb_spec i (Z.of_nat (length xs))); [|discriminate].
      intros [= <-]. simpl. rewrite bool_decide_false, Hi, length_app by done. simpl.
      destruct (Z.ltb_spec i (Z.of_nat (length xs + 1))); [|lia].
      rewrite list_lookup_middle; [done|lia].
  - intros [= <-]. simpl. by rewrite JsMap.get_set_eq.
Qed.

Lemma set_go_get (ks : list jsstring) (lk : jsstring) (v cur cur' : jsval) :
  set_go ks lk v cur = Some (inr cur') -> get_go (ks ++ [lk]) cur' = Some v.
Proof.
  revert cur cur'; induction ks as [|k ks IH]; intros cur cur'; simpl.
  - intros (Ho & Hn & Hp)%assign_prop. destruct cur'; simpl in *; by subst.
  - case_match; [discriminate|].
    destruct (set_go ks lk v _) as [[e|child']|] eqn:Hc; try discriminate.
    intros Ha. pose proof (assign_prop _ _ _ _ Ha) as (Ho & Hn & Hp).
    apply IH in Hc. destruct cur'; simpl in *; try discriminate; by rewrite Hp.
Qed.

Lemma lookup_map_list {A B} (f : A -> B) (xs : list A) (i : nat) : map f xs !! i = f <$> xs !! i.
Proof. revert i; induction xs as [|x xs IH]; intros [|i]; simpl; auto. Qed.

Lemma get_map_deepClone (k : jsstring) (fs : list (jsstring * jsval)) :
  JsMap.get k (map (fun f => (fst f, deepClone (snd f))) fs) = deepClone <$> JsMap.get k fs.
Proof. induction fs as [|[k' x] fs IH]; simpl; [done|]. by case_decide. Qed.

(** Reading a property of a clone is cloning the property read ([Map]s
  aside, which clone to [{}]). *)
Lemma prop_get_deepClone (v : jsval) (k : jsstring) :
  (forall es, v <> JMap es) -> prop_get (deepClone v) k = deepClone (prop_get v k).
Proof.
  intros Hm. destruct v as [| | | | |xs|fs|es]; simpl; try done.
  - rewrite length_map. case_bool_decide; [done|].
    destruct (array_index k) as [i|]; [|done]. case_match; [|done].
    rewrite lookup_map_list. by destruct (xs !! Z.to_nat i).
  - rewrite get_map_deepClone. by destruct (JsMap.get k fs).
  - by destruct (Hm es).
Qed.

Lemma assign_not_map (cur cur' v : jsval) (k : jsstring) :
  assign cur k v = Some (inr cur') -> forall es, cur' <> JMap es.
Proof.
  destruct cur; simpl; try discriminate.
  - repeat case_match; intros; simplify_eq; discriminate.
  - intros [= <-]; discriminate.
Qed.

(** What [set] wrote is read back from a deep clone of the result. *)
Lemma set_go_get_clone (ks : list jsstring) (lk : jsstring) (v cur cur' : jsval) :
  set_go ks lk v cur = Some (inr cur') -> get_go (ks ++ [lk]) (deepClone cur') = Some (deepClone v).
Proof.
  revert cur cur'; induction ks as [|k ks IH]; intros cur cur'; simpl.
  - intros Ha. pose proof (assign_not_map _ _ _ _ Ha) as Hm. apply assign_prop in Ha as (Ho & Hn & Hp).
    rewrite prop_get_deepClone, Hp by done.
    destruct cur'; simpl in *; try discriminate; [done|done|by destruct (Hm entries)].
  - case_match; [discriminate|].
    destruct (set_go ks lk v _) as [[e|child']|] eqn:Hc; try discriminate.
    intros Ha. pose proof (assign_not_map _ _ _ _ Ha) as Hm. pose proof (assign_prop _ _ _ _ Ha) as (Ho & Hn & Hp).
    apply IH in Hc. rewrite prop_get_deepClone, Hp by done.
    destruct cur'; simpl in *; try discriminate; [done|done|by destruct (Hm entries)].
Qed.

Lemma is_undefined_deepClone (v : jsval) : is_undefined (deepClone v) = is_undefined v.
Proof. by destruct v. Qed.

Lemma removelast_last_split (s : jsstring) :
  removelast (split_dot s) ++ [List.last (split_dot s) []] = split_dot s.
Proof. symmetry. apply app_removelast_last, split_dot_go_nonempty. Qed.

Lemma set_seg_null (fs : list (jsstring * jsval)) (k lk : jsstring) (v : jsval) :
  JsMap.get k fs = Some JNull -> forall ks,
  exists msg, set_go (k :: ks) lk v (JObj fs) = Some (inl (TypeError msg)).
Proof.
  intros Hk ks. simpl. rewrite Hk. simpl.
  destruct ks as [|k2 ks]; simpl; eauto.
Qed.

Lemma removelast_last_cons (k : jsstring) (ks : list jsstring) :
  ks <> [] -> removelast (k :: ks) = k :: removelast ks /\ List.last (k :: ks) [] = List.last ks [].
Proof. by destruct ks. Qed.

(** [merge_one] of a plain object source, one key at a time. *)
Lemma merge_one_cons (target : jsval) (tfs : list (jsstring * jsval)) (k : jsstring) (sv : jsval)
    (sfs : list (jsstring * jsval)) :
  target = JObj tfs -> isObject sv = false ->
  merge_one target (JObj ((k, sv) :: sfs)) = merge_one (JObj (JsMap.set k sv tfs)) (JObj sfs).
Proof. intros -> Hsv. simpl. by rewrite Hsv. Qed.

(** [get] on a deep clone of what [set] returned reads the clone of the
  value written. *)
Lemma get_deepClone_after_set (obj obj' v d : jsval) (path : jsstring) :
  set obj path v = Some (inr obj') -> is_undefined v = false -> get (deepClone obj') path d = deepClone v.
Proof.
  unfold set, get. intros Hs Hu. apply set_go_get_clone in Hs.
  rewrite removelast_last_split in Hs. by rewrite Hs, is_undefined_deepClone, Hu.
Qed.

(** ** Properties *)

(** After [ObjectUtils.set(obj, path, value)] returns, reading the same
  path with [ObjectUtils.get] gives [value] back (unless [value] is
  [undefined], which [get] replaces by the default), whatever the object
  and the path. *)
Theorem get_after_set (obj obj' v d : jsval) (path : jsstring) :
  set obj path v = Some (inr obj') -> is_undefined v = false -> get obj' path d = v.
Proof.
  unfold set, get. intros Hs Hu. apply set_go_get in Hs.
  rewrite removelast_last_split in Hs. by rewrite Hs, Hu.
Qed.

Lemma get_after_set_witness :
  set (JObj []) (js "theme.color") (JNum 1) = Some (inr (JObj [(js "theme", JObj [(js "color", JNum 1)])])) /\
  get (JObj [(js "theme", JObj [(js "color", JNum 1)])]) (js "theme.color") JNull = JNum 1.
Proof.
  split; [reflexivity|]. apply (get_after_set (JObj []) _ _ JNull (js "theme.color")); reflexivity.
Defined.

(** [ObjectUtils.set] throws a [TypeError] when the path goes through
  a property whose value is [null] ([typeof null] is ['object'], so the
  walk steps into it and [key in null] or the final write throws). *)
Theorem set_through_null_throws (fs : list (jsstring * jsval)) (k rest : jsstring) (v : jsval) :
  JsMap.get k fs = Some JNull -> (46%Z) ∉ k ->
  exists msg, set (JObj fs) (k ++ [46%Z] ++ rest) v = Some (inl (TypeError msg)).
Proof.
  intros Hk Hd. unfold set. rewrite split_dot_seg by done.
  destruct (removelast_last_cons k (split_dot rest)) as [-> ->]; [apply split_dot_go_nonempty|].
  by apply set_seg_null.
Qed.

Lemma set_through_null_throws_witness :
  exists msg, set (JObj [(js "ui", JNull)]) (js "ui.theme") (JNum 1) = Some (inl (TypeError msg)).
Proof.
  apply (set_through_null_throws [(js "ui", JNull)] (js "ui") (js "theme") (JNum 1));
    [reflexivity | apply (bool_decide_unpack _); vm_compute; reflexivity].
Defined.

(** [deepMerge(target, source)] with a plain object target and a
  source none of whose values is an object is [Object.assign(target,
  source)]: each source key in order is written into [target]. *)
Theorem deepMerge_flat (tfs sfs : list (jsstring * jsval)) :
  Forall (fun f => isObject (snd f) = false) sfs ->
  deepMerge (JObj tfs) [JObj sfs] = Some (JObj (fold_left (fun m f => JsMap.set (fst f) (snd f) m) sfs tfs)).
Proof.
  revert tfs; induction sfs as [|[k sv] sfs IH]; intros tfs Hf; [done|].
  apply Forall_cons in Hf as [Hsv Hf]. simpl in Hsv.
  unfold deepMerge. rewrite (merge_one_cons _ tfs) by done. apply IH, Hf.
Qed.

Lemma deepMerge_flat_witness :
  Forall (fun f => isObject (snd f) = false) [(js "a", JNum 2); (js "b", JBool true)] /\
  deepMerge (JObj [(js "a", JNum 1)]) [JObj [(js "a", JNum 2); (js "b", JBool true)]] =
    Some (JObj [(js "a", JNum 2); (js "b", JBool true)]).
Proof.
  split; [repeat constructor|].
  apply (deepMerge_flat [(js "a", JNum 1)] [(js "a", JNum 2); (js "b", JBool true)]).
  repeat constructor.
Defined.

(** [deepMerge] drops a nested source object whose key holds a truthy
  primitive in the target: [deepMerge(target[key], source[key])] returns
  the primitive untouched, so [target] is unchanged. *)
Theorem deepMerge_drops_into_primitive (tfs sub : list (jsstring * jsval)) (k : jsstring) (n : Z) :
  JsMap.get k tfs = Some (JNum n) -> n <> 0%Z ->
  deepMerge (JObj tfs) [JObj [(k, JObj sub)]] = Some (JObj tfs).
Proof.
  intros Hk Hn. simpl. rewrite Hk. simpl. by destruct n.
Qed.

Lemma deepMerge_drops_into_primitive_witness :
  deepMerge (JObj [(js "size", JNum 3)]) [JObj [(js "size", JObj [(js "w", JNum 4)])]] =
    Some (JObj [(js "size", JNum 3)]).
Proof. apply (deepMerge_drops_into_primitive _ _ (js "size") 3); [reflexivity|lia]. Defined.

End ObjectUtils.
