(* ===== verification/SpecializedStorage.v ===== *)
(** * The typed stores over [StorageManager]: [SpecializedStorageManager],
    [export] and [import]

    [src/src/js/storageManager.js].  [SpecializedStorageManager] wraps the
    global [StorageManager] with one accessor object per kind of data:
    [admin] (the user and the activity log, at most [MAX_LOGS] entries),
    [images] (notes and custom tags per image URL, in a [Map] by default),
    [aiCache] (analysis results stamped with their time), [preferences]
    (a nested object read and written by dotted paths through
    [ObjectUtils.get] and [ObjectUtils.set]) and [theme].  Every call goes
    to the default adapter ['local'].  [StorageManager.export] and
    [import] copy an adapter's contents out and back.

    [storage.get] returns the very object of its cache entry on a hit (a
    fresh value otherwise), and several accessors mutate what it returned
    before writing it back with [storage.set]: [addLog] ([unshift]),
    [setNote], [setImageTags], [preferences.set], [preferences.remove].
    The model keeps that aliasing: [get_for_update] records whether the
    value read is the cache entry, and [write_through] applies the
    in-place mutation to the entry.  When the following [storage.set]
    succeeds it replaces the entry by a clone of the same value; when it
    fails (storage unavailable) the mutated entry is what later reads see.

    A call's outcome is [Some (st, inr r)] when it returns [r],
    [Some (st, inl e)] when it throws [e] (after the reads that preceded
    the throw), and [None] when it writes a property the value model
    cannot hold (see [ObjectUtils]).  All the reads and writes of one call
    happen at the same time [now]. *)

From S2P Require Import Prelude JsMap JsValue StorageCache ObjectUtils.

Module SpecializedStorage.
Import JsValue StorageCache.

(** ** Keys and limits ([src/src/js/config.js]) *)

Definition ADMIN_USER : jsstring := js "admin_user".
Definition ADMIN_LOGS : jsstring := js "admin_logs".
Definition IMAGE_NOTES : jsstring := js "image_notes".
Definition CUSTOM_TAGS : jsstring := js "custom_tags".
Definition THEME : jsstring := js "theme".
Definition AI_CACHE : jsstring := js "ai_analysis_cache".
Definition USER_PREFERENCES : jsstring := js "user_preferences".

(** [CONFIG.STORAGE.MAX_LOGS]. *)
Definition MAX_LOGS : nat := 50.

(** The outcome of a call. *)
Definition outcome (A : Type) : Type := option (state * (js_error + A)).

(** ** Reads for update *)

(** Whether [storage.get(key, ...)] on ['local'] returns the object of
  its cache entry. *)
Definition cache_hit (key : jsstring) (now : Z) (st : state) : bool :=
  match JsMap.get (cacheKey local key) (cache st) with
  | Some c => negb (isExpired now (c_timestamp c) (cacheTimeout st))
  | None => false
  end.

(** [const x = this.storage.get(key, d)], with whether [x] is the cache
  entry's object. *)
Definition get_for_update (key : jsstring) (d : jsval) (now : Z) (st : state) : state * jsval * bool :=
  let hit := cache_hit key now st in
  let '(st1, v) := StorageCache.get key d local now st in
  (st1, v, hit).

(** The in-place mutation of [x] into [v']: on a hit, the cache entry now
  holds [v'] (same position, same time stamp). *)
Definition write_through (key : jsstring) (hit : bool) (v' : jsval) (st : state) : state :=
  if hit then
    match JsMap.get (cacheKey local key) (cache st) with
    | Some c => set_cache (JsMap.set (cacheKey local key) (mkCached v' (c_timestamp c)) (cache st)) st
    | None => st
    end
  else st.

(** ** Members and [Map] entries *)

(** The [TypeError] of calling a missing method [m] on [v]. *)
Definition no_method (v : jsval) (m : jsstring) : js_error :=
  match v with
  | JUndefined => TypeError (js "Cannot read properties of undefined (reading '" ++ m ++ js "')")
  | JNull => TypeError (js "Cannot read properties of null (reading '" ++ m ++ js "')")
  | _ => TypeError (m ++ js " is not a function")
  end.

(** [v.m] as a test ([v.m ? ... : ...]) for a [Map] method [m]: a [Map]
  has it; a plain object has it when its own property [m] is truthy;
  reading it off [null] or [undefined] throws. *)
Definition member_test (v : jsval) (m : jsstring) : js_error + bool :=
  match v with
  | JMap _ => inr true
  | JUndefined | JNull => inl (no_method v m)
  | JObj fs => inr (negb (falsy (default JUndefined (JsMap.get m fs))))
  | _ => inr false
  end.

(** [map.get(url)] for a string key ([SameValueZero]). *)
Fixpoint map_get_str (u : jsstring) (es : list (jsval * jsval)) : option jsval :=
  match es with
  | [] => None
  | (JStr u', v) :: es' => if bool_decide (u' = u) then Some v else map_get_str u es'
  | _ :: es' => map_get_str u es'
  end.

(** [map.set(url, v)]: in place for a present key, appended otherwise. *)
Fixpoint map_set_str (u : jsstring) (v : jsval) (es : list (jsval * jsval)) : list (jsval * jsval) :=
  match es with
  | [] => [(JStr u, v)]
  | (JStr u', w) :: es' => if bool_decide (u' = u) then (JStr u, v) :: es' else (JStr u', w) :: map_set_str u v es'
  | e :: es' => e :: map_set_str u v es'
  end.

(** [map.delete(url)]. *)
Fixpoint map_delete_str (u : jsstring) (es : list (jsval * jsval)) : list (jsval * jsval) :=
  match es with
  | [] => []
  | (JStr u', w) :: es' => if bool_decide (u' = u) then es' else (JStr u', w) :: map_delete_str u es'
  | e :: es' => e :: map_delete_str u es'
  end.

(** [delete v[k]] in strict mode. *)
Definition delete_prop (v : jsval) (k : jsstring) : option (js_error + jsval) :=
  match v with
  | JObj fs => Some (inr (JObj (JsMap.delete k fs)))
  | JArr xs =>
      if bool_decide (k = js "length") then Some (inl (TypeError (js "Cannot delete property 'length' of [object Array]")))
      else match ObjectUtils.array_index k with
           | Some i => if (i <? Z.of_nat (length xs))%Z then None else Some (inr v)
           | None => Some (inr v)
           end
  | JUndefined | JNull => Some (inl (TypeError (js "Cannot convert undefined or null to object")))
  | _ => Some (inr v)
  end.

(** [k in v] for an object-typed [v]: own properties, array indexes and
  [length], a map's [size]. *)
Definition has_prop (v : jsval) (k : jsstring) : bool :=
  match v with
  | JObj fs => JsMap.has k fs
  | JArr xs =>
      bool_decide (k = js "length") ||
      match ObjectUtils.array_index k with Some i => (i <? Z.of_nat (length xs))%Z | None => false end
  | JMap _ => bool_decide (k = js "size")
  | _ => false
  end.

(** ** [admin] *)

Definition getUser (now : Z) (st : state) : state * jsval := StorageCache.get ADMIN_USER JNull local now st.

Definition setUser (userData : jsval) (now : Z) (st : state) : state * bool :=
  StorageCache.set ADMIN_USER userData local now st.

Definition removeUser (st : state) : state * bool := StorageCache.remove ADMIN_USER local st.

Definition getLogs (now : Z) (st : state) : state * jsval := StorageCache.get ADMIN_LOGS (JArr []) local now st.

Definition setLogs (logs : jsval) (now : Z) (st : state) : state * bool :=
  StorageCache.set ADMIN_LOGS logs local now st.

(** [addLog(log)]: [logs.unshift(log)], [logs.splice(MAX_LOGS)] past the
  limit, both in place, then [setLogs(logs)]. *)
Definition addLog (log : jsval) (now : Z) (st : state) : state * option js_error :=
  let '(st1, logs, hit) := get_for_update ADMIN_LOGS (JArr []) now st in
  match logs with
  | JArr xs =>
      let l := log :: xs in
      let l' := if MAX_LOGS <? length l then take MAX_LOGS l else l in
      (fst (setLogs (JArr l') now (write_through ADMIN_LOGS hit (JArr l') st1)), None)
  | _ => (st1, Some (no_method logs (js "unshift")))
  end.

Definition clearLogs (st : state) : state * bool := StorageCache.remove ADMIN_LOGS local st.

(** ** [images]: notes *)

Definition getNotes (now : Z) (st : state) : state * jsval := StorageCache.get IMAGE_NOTES (JMap []) local now st.

Definition setNotes (notes : jsval) (now : Z) (st : state) : state * bool :=
  StorageCache.set IMAGE_NOTES notes local now st.

(** [notes.get ? notes.get(imageUrl) : notes[imageUrl]]. *)
Definition getNote (imageUrl : jsstring) (now : Z) (st : state) : state * (js_error + jsval) :=
  let '(st1, notes) := getNotes now st in
  (st1, match member_test notes (js "get") with
        | inl e => inl e
        | inr true =>
            match notes with
            | JMap es => inr (default JUndefined (map_get_str imageUrl es))
            | _ => inl (no_method notes (js "notes.get"))
            end
        | inr false => inr (ObjectUtils.prop_get notes imageUrl)
        end).

(** The write of [setNote] and [setImageTags]: [m.set(url, v)] on a [Map],
  [m[url] = v] otherwise. *)
Definition map_or_object_set (m : jsval) (url : jsstring) (v : jsval) : option (js_error + jsval) :=
  match member_test m (js "set") with
  | inl e => Some (inl e)
  | inr true =>
      match m with
      | JMap es => Some (inr (JMap (map_set_str url v es)))
      | _ => Some (inl (no_method m (js "set")))
      end
  | inr false => ObjectUtils.assign m url v
  end.

(** [getX()], the in-place write [w] of what it returned, then [setX(x)]. *)
Definition update_with (key : jsstring) (d : jsval) (w : jsval -> option (js_error + jsval)) (now : Z) (st : state)
    : outcome unit :=
  let '(st1, x, hit) := get_for_update key d now st in
  match w x with
  | Some (inr x') => Some (fst (StorageCache.set key x' local now (write_through key hit x' st1)), inr tt)
  | Some (inl e) => Some (st1, inl e)
  | None => None
  end.

(** [setNote(imageUrl, note)]. *)
Definition setNote (imageUrl : jsstring) (note : jsval) (now : Z) (st : state) : outcome unit :=
  update_with IMAGE_NOTES (JMap []) (fun notes => map_or_object_set notes imageUrl note) now st.

(** [removeNote(imageUrl)]: [notes.delete(url)] or [delete notes[url]]. *)
Definition removeNote (imageUrl : jsstring) (now : Z) (st : state) : outcome unit :=
  update_with IMAGE_NOTES (JMap [])
    (fun notes =>
       match member_test notes (js "delete") with
       | inl e => Some (inl e)
       | inr true =>
           match notes with
           | JMap es => Some (inr (JMap (map_delete_str imageUrl es)))
           | _ => Some (inl (no_method notes (js "delete")))
           end
       | inr false => delete_prop notes imageUrl
       end) now st.

(** ** [images]: custom tags *)

Definition getTags (now : Z) (st : state) : state * jsval := StorageCache.get CUSTOM_TAGS (JMap []) local now st.

Definition setTags (tags : jsval) (now : Z) (st : state) : state * bool :=
  StorageCache.set CUSTOM_TAGS tags local now st.

(** [tags.get ? tags.get(imageUrl) : tags[imageUrl] || []]. *)
Definition image_tags_of (imageUrl : jsstring) (tags : jsval) : js_error + jsval :=
  match member_test tags (js "get") with
  | inl e => inl e
  | inr true =>
      match tags with
      | JMap es => inr (default JUndefined (map_get_str imageUrl es))
      | _ => inl (no_method tags (js "get"))
      end
  | inr false => let v := ObjectUtils.prop_get tags imageUrl in inr (if falsy v then JArr [] else v)
  end.

Definition getImageTags (imageUrl : jsstring) (now : Z) (st : state) : state * (js_error + jsval) :=
  let '(st1, tags) := getTags now st in (st1, image_tags_of imageUrl tags).

(** [setImageTags(imageUrl, imageTags)]. *)
Definition setImageTags (imageUrl : jsstring) (imageTags : jsval) (now : Z) (st : state) : outcome unit :=
  update_with CUSTOM_TAGS (JMap []) (fun tags => map_or_object_set tags imageUrl imageTags) now st.

(** [x === JStr t] ([includes] and [indexOf] use [SameValueZero] and
  strict equality, the same on strings). *)
Definition is_str (t : jsstring) (x : jsval) : bool :=
  match x with JStr t' => bool_decide (t' = t) | _ => false end.

(** [addImageTag(imageUrl, tag)]: [imageTags.includes(tag)], then
  [imageTags.push(tag)] and [setImageTags].  The pushed array is
  [tags[imageUrl]] (the cache entry's on a hit) or a fresh [[]];
  [setImageTags] reads [tags] again at the same time and writes the same
  array into it, which covers the in-place push. *)
Definition addImageTag (imageUrl tag : jsstring) (now : Z) (st : state) : outcome unit :=
  let '(st1, r) := getImageTags imageUrl now st in
  match r with
  | inl e => Some (st1, inl e)
  | inr (JArr xs) =>
      if existsb (is_str tag) xs then Some (st1, inr tt)
      else setImageTags imageUrl (JArr (xs ++ [JStr tag])) now st1
  | inr (JStr s) =>
      if includes s tag then Some (st1, inr tt) else Some (st1, inl (no_method (JStr s) (js "imageTags.push")))
  | inr v => Some (st1, inl (no_method v (js "includes")))
  end.

(** The index [indexOf] returns, [None] for [-1]. *)
Fixpoint index_of_str (t : jsstring) (xs : list jsval) : option nat :=
  match xs with
  | [] => None
  | x :: xs' => if is_str t x then Some 0 else S <$> index_of_str t xs'
  end.

(** [removeImageTag(imageUrl, tag)]: [imageTags.splice(index, 1)], then
  [setImageTags]. *)
Definition removeImageTag (imageUrl tag : jsstring) (now : Z) (st : state) : outcome unit :=
  let '(st1, r) := getImageTags imageUrl now st in
  match r with
  | inl e => Some (st1, inl e)
  | inr (JArr xs) =>
      match index_of_str tag xs with
      | Some i => setImageTags imageUrl (JArr (take i xs ++ drop (S i) xs)) now st1
      | None => Some (st1, inr tt)
      end
  | inr v => Some (st1, inl (no_method v (js "indexOf")))
  end.

(** ** [aiCache] *)

(** [`${STORAGE_KEYS.AI_CACHE}:${key}`]. *)
Definition aiKey (key : jsstring) : jsstring := AI_CACHE ++ js ":" ++ key.

Definition aiCache_get (key : jsstring) (now : Z) (st : state) : state * jsval :=
  StorageCache.get (aiKey key) JNull local now st.

(** [set(key, value)]: [{value, timestamp: Date.now()}]. *)
Definition aiCache_set (key : jsstring) (value : jsval) (now : Z) (st : state) : state * bool :=
  StorageCache.set (aiKey key) (JObj [(js "value", value); (js "timestamp", JNum now)]) local now st.

Definition aiCache_remove (key : jsstring) (st : state) : state * bool := StorageCache.remove (aiKey key) local st.

(** The keys of ['local'] that start with [STORAGE_KEYS.AI_CACHE] (no
  colon: [ai_analysis_cache_x] matches too). *)
Definition ai_keys (st : state) : list jsstring := List.filter (prefixb AI_CACHE) (StorageCache.keys local st).

Definition aiCache_clear (st : state) : state :=
  fold_left (fun st k => fst (StorageCache.remove k local st)) (ai_keys st) st.

(** [new Date(t).getTime()] for the values a time stamp can be: a number,
  [null] (0), a boolean; other values give [NaN] (date strings are not
  parsed by the model). *)
Definition date_time (v : jsval) : option Z :=
  match v with
  | JNum t => Some t
  | JNull => Some 0%Z
  | JBool b => Some (if b then 1%Z else 0%Z)
  | _ => None
  end.

(** [cached && TimeUtils.isExpired(cached.timestamp)] with the default
  expiry [CONFIG.STORAGE.CACHE_EXPIRY]; [NaN] compares false. *)
Definition entry_expired (now : Z) (cached : jsval) : bool :=
  negb (falsy cached) &&
  match cached with
  | JObj fs => match date_time (default JUndefined (JsMap.get (js "timestamp") fs)) with
               | Some t => isExpired now t CACHE_EXPIRY
               | None => false
               end
  | _ => false
  end.

(** [cleanup()]: read each key through the manager (which may cache it),
  remove the expired ones. *)
Definition aiCache_cleanup (now : Z) (st : state) : state :=
  fold_left (fun st k => let '(st1, cached) := StorageCache.get k JNull local now st in
                         if entry_expired now cached then fst (StorageCache.remove k local st1) else st1)
    (ai_keys st) st.

(** ** [preferences] *)

(** [get(key, defaultValue)]. *)
Definition preferences_get (key : jsstring) (defaultValue : jsval) (now : Z) (st : state) : state * jsval :=
  let '(st1, prefs) := StorageCache.get USER_PREFERENCES (JObj []) local now st in
  (st1, ObjectUtils.get prefs key defaultValue).

(** [set(key, value)]: [ObjectUtils.set(prefs, key, value)], in place, then
  [storage.set]. *)
Definition preferences_set (key : jsstring) (value : jsval) (now : Z) (st : state) : outcome unit :=
  update_with USER_PREFERENCES (JObj []) (fun prefs => ObjectUtils.set prefs key value) now st.

(** The loop of [remove(key)] and its [delete current[lastKey]]: [inr None]
  is the early [return] on a missing step; [k in current] throws on
  [null] and on primitives. *)
Fixpoint remove_walk (keys : list jsstring) (lastKey : jsstring) (current : jsval)
    : option (js_error + option jsval) :=
  match keys with
  | [] => match delete_prop current lastKey with
          | Some (inr v) => Some (inr (Some v))
          | Some (inl e) => Some (inl e)
          | None => None
          end
  | k :: ks =>
      if negb (ObjectUtils.typeof_object current && not_null current) then
        Some (inl (TypeError (js "Cannot use 'in' operator to search for '" ++ k ++ js "'")))
      else if negb (has_prop current k) then Some (inr None)
      else match remove_walk ks lastKey (ObjectUtils.prop_get current k) with
           | Some (inr (Some child')) =>
               match ObjectUtils.assign current k child' with
               | Some (inr v) => Some (inr (Some v))
               | Some (inl e) => Some (inl e)
               | None => None
               end
           | r => r
           end
  end.

(** [remove(key)]: nothing is written back after the early [return]. *)
Definition preferences_remove (key : jsstring) (now : Z) (st : state) : outcome unit :=
  let '(st1, prefs, hit) := get_for_update USER_PREFERENCES (JObj []) now st in
  let keys := ObjectUtils.split_dot key in
  match remove_walk (removelast keys) (List.last keys []) prefs with
  | Some (inr (Some prefs')) =>
      Some (fst (StorageCache.set USER_PREFERENCES prefs' local now (write_through USER_PREFERENCES hit prefs' st1)),
            inr tt)
  | Some (inr None) => Some (st1, inr tt)
  | Some (inl e) => Some (st1, inl e)
  | None => None
  end.

Definition preferences_clear (st : state) : state * bool := StorageCache.remove USER_PREFERENCES local st.

(** ** [theme] *)

Definition theme_get (now : Z) (st : state) : state * jsval := StorageCache.get THEME JNull local now st.

Definition theme_set (themeData : jsval) (now : Z) (st : state) : state * bool :=
  StorageCache.set THEME themeData local now st.

Definition theme_remove (st : state) : state * bool := StorageCache.remove THEME local st.

(** ** [StorageManager.export] and [import] *)

(** [export(adapter)]: [data[key] = this.get(key, null, adapter)] for each
  key (the reads fill the cache); [iso] is [new Date().toISOString()]. *)
Definition export (a : adapter_name) (iso : jsstring) (now : Z) (st : state) : state * jsval :=
  let '(st', data) :=
    fold_left (fun '(st, data) key => let '(st1, v) := StorageCache.get key JNull a now st in
                                      (st1, JsMap.set key v data))
      (StorageCache.keys a st) (st, []) in
  (st', JObj [(js "adapter", JStr (adapter_str a)); (js "timestamp", JStr iso); (js "data", JObj data)]).

(** The adapter an [exportData.adapter] names: [undefined] takes the
  default parameter ['local']; an unknown name makes
  [this.adapters[adapter]] [undefined]. *)
Definition adapter_of (v : jsval) : option adapter_name :=
  match v with
  | JUndefined => Some local
  | JStr s => if bool_decide (s = js "local") then Some local
              else if bool_decide (s = js "session") then Some session
              else if bool_decide (s = js "memory") then Some memory else None
  | _ => None
  end.

(** [Object.entries(data)] for the values [data] can be: an object's
  properties, an array's indexes; a primitive or a map has none;
  [null] and [undefined] throw. *)
Definition entries (v : jsval) : option (list (jsstring * jsval)) :=
  match v with
  | JObj fs => Some fs
  | JArr xs => Some (imap (fun i x => (nat_to_jsstring i, x)) xs)
  | JUndefined | JNull => None
  | JStr s => Some (imap (fun i c => (nat_to_jsstring i, JStr [c])) s)
  | _ => Some []
  end.

(** [import(exportData, merge)]: every exception is caught into [false];
  the writes done before it stay. *)
Definition import (exportData : jsval) (merge : bool) (now : Z) (st : state) : state * bool :=
  match exportData with
  | JUndefined | JNull => (st, false)
  | _ =>
      let a := adapter_of (ObjectUtils.prop_get exportData (js "adapter")) in
      let data := ObjectUtils.prop_get exportData (js "data") in
      match a with
      | None =>
          (* [this.adapters[adapter]] is [undefined]: [clear()] throws, and so
             does the first [set()]; an empty [data] sets nothing *)
          if merge then match entries data with Some [] => (st, true) | _ => (st, false) end
          else (st, false)
      | Some a =>
          let st1 := if merge then st else fst (StorageCache.clear a st) in
          match entries data with
          | None => (st1, false)
          | Some es => (fold_left (fun st kv => fst (StorageCache.set kv.1 kv.2 a now st)) es st1, true)
          end
      end
  end.

(** ** Lemmas *)

(** [storage.get] changes only the cache. *)
Lemma get_fields (key : jsstring) (d : jsval) (a : adapter_name) (now : Z) (st : state) :
  st_local (fst (StorageCache.get key d a now st)) = st_local st /\
  cacheTimeout (fst (StorageCache.get key d a now st)) = cacheTimeout st.
Proof. unfold StorageCache.get, fetch, _setCache. repeat case_match; simpl; auto. Qed.

Lemma write_through_fields (key : jsstring) (hit : bool) (v : jsval) (st : state) :
  st_local (write_through key hit v st) = st_local st /\ cacheTimeout (write_through key hit v st) = cacheTimeout st.
Proof. unfold write_through. repeat case_match; simpl; auto. Qed.

(** [storage.set] on an available ['local'] succeeds. *)
Lemma set_local_success (key : jsstring) (v : jsval) (now : Z) (st : state) :
  available (st_local st) = true -> snd (StorageCache.set key v local now st) = true.
Proof.
  intros H. unfold StorageCache.set, with_adapter. destruct st as [[av items] ? ? ? ? ? ?]. simpl in *.
  unfold web_set. by rewrite H.
Qed.

(** The read of an [update_with] that does not throw, the write-through
  and the [storage.set] of the written value. *)
Lemma update_with_some (key : jsstring) (d : jsval) (w : jsval -> option (js_error + jsval)) (now : Z)
    (st st' : state) :
  update_with key d w now st = Some (st', inr tt) ->
  exists x', w (snd (StorageCache.get key d local now st)) = Some (inr x') /\
    st' = fst (StorageCache.set key x' local now
                 (write_through key (cache_hit key now st) x' (fst (StorageCache.get key d local now st)))).
Proof.
  unfold update_with, get_for_update. destruct (StorageCache.get key d local now st) as [st1 x]. simpl.
  destruct (w x) as [[e|x']|]; intros; simplify_eq; eauto.
Qed.

(** After [update_with] on an available ['local'], the cache holds a clone
  of the value written, stamped [now]. *)
Lemma update_with_cache (key : jsstring) (d : jsval) (w : jsval -> option (js_error + jsval)) (now : Z)
    (st st' : state) :
  available (st_local st) = true -> update_with key d w now st = Some (st', inr tt) ->
  exists x', w (snd (StorageCache.get key d local now st)) = Some (inr x') /\
    JsMap.get (cacheKey local key) (cache st') = Some (mkCached (deepClone x') now) /\
    cacheTimeout st' = cacheTimeout st.
Proof.
  intros Hav (x' & Hw & ->)%update_with_some. exists x'. split; [done|].
  destruct (get_fields key d local now st) as [Hl Hto].
  destruct (write_through_fields key (cache_hit key now st) x' (fst (StorageCache.get key d local now st))) as [Hl2 Hto2].
  destruct (set_success_cache key x' local now
              (write_through key (cache_hit key now st) x' (fst (StorageCache.get key d local now st)))) as [Hc Hto3].
  { apply set_local_success. by rewrite Hl2, Hl. }
  split; [done|]. by rewrite Hto3, Hto2, Hto.
Qed.

Lemma cache_hit_true (key : jsstring) (now : Z) (st : state) (c : cached) :
  JsMap.get (cacheKey local key) (cache st) = Some c -> isExpired now (c_timestamp c) (cacheTimeout st) = false ->
  cache_hit key now st = true.
Proof. intros Hc He. unfold cache_hit. by rewrite Hc, He. Qed.

(** [storage.set] on an unavailable ['local'] changes nothing. *)
Lemma set_local_fail (key : jsstring) (v : jsval) (now : Z) (st : state) :
  available (st_local st) = false -> StorageCache.set key v local now st = (st, false).
Proof.
  intros H. unfold StorageCache.set, with_adapter. destruct st as [[av items] ? ? ? ? ? ?]. simpl in *.
  unfold web_set. simpl. rewrite H. reflexivity.
Qed.

(** A key whose cache entry and stored value agree reads that value,
  expired or not. *)
Lemma get_cached_stored (key : jsstring) (d v : jsval) (t now : Z) (st : state) :
  JsMap.get (cacheKey local key) (cache st) = Some (mkCached v t) ->
  available (st_local st) = true -> JsMap.get key (items (st_local st)) = Some (Some v) -> not_null v = true ->
  snd (StorageCache.get key d local now st) = v.
Proof.
  intros Hc Ha Hi Hn. unfold StorageCache.get. rewrite Hc.
  destruct (isExpired _ _ _); [|done]. unfold fetch. rewrite ad_get_set_cache. cbn [ad_get].
  destruct st as [[av its] ? ? ? ? ? ?]; simpl in *. unfold web_get. simpl. rewrite Ha, Hi, Hn. done.
Qed.

(** [getNote] on notes read as a plain object without a truthy [get]. *)
Lemma getNote_value (url : jsstring) (now : Z) (st : state) (fs : list (jsstring * jsval)) :
  snd (getNotes now st) = JObj fs -> falsy (default JUndefined (JsMap.get (js "get") fs)) = true ->
  snd (getNote url now st) = inr (default JUndefined (JsMap.get url fs)).
Proof.
  intros Hn Hg. unfold getNote. destruct (getNotes now st) as [st1 notes]. simpl in Hn. subst notes.
  cbn [snd member_test]. by rewrite Hg.
Qed.

(** [addLog] on a cached array, [localStorage] unavailable: the array of
  the cache entry grows in place and nothing else changes. *)
Lemma addLog_unavailable_hit (log : jsval) (xs : list jsval) (t now : Z) (st : state) :
  available (st_local st) = false ->
  JsMap.get (cacheKey local ADMIN_LOGS) (cache st) = Some (mkCached (JArr xs) t) ->
  isExpired now t (cacheTimeout st) = false -> length xs < MAX_LOGS ->
  fst (addLog log now st) = set_cache (JsMap.set (cacheKey local ADMIN_LOGS) (mkCached (JArr (log :: xs)) t) (cache st)) st.
Proof.
  intros Ha Hc He Hl. unfold addLog, get_for_update. rewrite (cache_hit_true _ _ _ _ Hc He), (get_hit _ _ _ _ _ _ Hc He).
  cbn [c_value fst snd]. replace (MAX_LOGS <? length (log :: xs)) with false by (symmetry; apply Nat.ltb_ge; simpl; lia).
  unfold write_through. rewrite Hc. unfold setLogs. rewrite set_local_fail; [done|]. by destruct st.
Qed.

Lemma length_trim_logs (l : list jsval) :
  length (if MAX_LOGS <? length l then take MAX_LOGS l else l) <= MAX_LOGS.
Proof. destruct (Nat.ltb_spec MAX_LOGS (length l)); [rewrite length_take|]; lia. Qed.

(** ** Properties *)

(** a preference written with [preferences.set(key, value)] on an
  available [localStorage] is what [preferences.get(key, d)] reads back
  within the cache lifetime: [ObjectUtils.set] writes it, [storage.set]
  caches a clone, [ObjectUtils.get] reads the clone (a JSON-clean value is
  its own clone). *)
Theorem preferences_set_then_get (key : jsstring) (v d : jsval) (now now' : Z) (st st' : state) :
  available (st_local st) = true -> json_clean v = true -> is_undefined v = false ->
  preferences_set key v now st = Some (st', inr tt) -> (now' - now <= cacheTimeout st)%Z ->
  snd (preferences_get key d now' st') = v.
Proof.
  intros Hav Hc Hu Hs Ht. destruct (update_with_cache _ _ _ _ _ _ Hav Hs) as (prefs' & Hset & Hce & Hto).
  unfold preferences_get. rewrite (get_hit _ _ _ _ _ _ Hce).
  - simpl. rewrite (ObjectUtils.get_deepClone_after_set _ _ _ _ _ Hset Hu). by apply deepClone_clean.
  - simpl. rewrite Hto. by apply fresh_not_expired.
Qed.

Lemma preferences_set_then_get_witness :
  exists st', preferences_set (js "ui.theme") (JStr (js "dark")) 0 (init true true) = Some (st', inr tt) /\
    snd (preferences_get (js "ui.theme") JNull 10 st') = JStr (js "dark").
Proof.
  eexists. split; [reflexivity|].
  apply (preferences_set_then_get (js "ui.theme") (JStr (js "dark")) JNull 0 10 (init true true));
    [reflexivity | reflexivity | reflexivity | reflexivity | vm_compute; discriminate].
Defined.

(** on a fresh store the first note saved is lost: [getNotes()]
  returns the default [new Map()], whose deep clone (cached) and JSON
  form (stored) are [{}]; [setNote] puts the note in the [Map], which
  [setNotes] turns into [{}] again, so [getNote] reads [undefined].  A
  second [setNote] finds the plain object [{}], writes [notes[url]] and
  is kept. *)
Theorem first_note_lost (url : jsstring) (note : jsval) (now now' : Z) :
  url <> js "get" -> json_clean note = true ->
  exists st1 st2,
    setNote url note now (init true true) = Some (st1, inr tt) /\
    snd (getNote url now' st1) = inr JUndefined /\
    setNote url note now' st1 = Some (st2, inr tt) /\
    snd (getNote url now' st2) = inr note.
Proof.
  intros Hu Hc.
  pose (st1 := fst (StorageCache.set IMAGE_NOTES (JMap [(JStr url, note)]) local now
                (fst (StorageCache.get IMAGE_NOTES (JMap []) local now (init true true))))).
  assert (Hg : forall d t, snd (StorageCache.get IMAGE_NOTES d local t st1) = JObj []).
  { intros d t. apply (get_cached_stored _ _ _ now); vm_compute; reflexivity. }
  assert (H3 : setNote url note now' st1 =
    Some (fst (StorageCache.set IMAGE_NOTES (JObj (JsMap.set url note [])) local now'
           (write_through IMAGE_NOTES (cache_hit IMAGE_NOTES now' st1) (JObj (JsMap.set url note []))
              (fst (StorageCache.get IMAGE_NOTES (JMap []) local now' st1)))), inr tt)).
  { unfold setNote, update_with, get_for_update. specialize (Hg (JMap []) now').
    destruct (StorageCache.get IMAGE_NOTES (JMap []) local now' st1) as [a b]. simpl in Hg. by subst b. }
  eexists st1, _. split; [reflexivity|].
  split; [by rewrite (getNote_value _ _ _ []) by first [reflexivity | apply Hg]|].
  split; [exact H3|].
  destruct (update_with_cache IMAGE_NOTES (JMap []) (fun notes => map_or_object_set notes url note) now' st1 _
              ltac:(reflexivity) H3) as (x' & Hw & Hce & Hto).
  rewrite Hg in Hw. cbn in Hw. injection Hw as <-.
  rewrite (getNote_value _ _ _ (map (fun f => (fst f, deepClone (snd f))) (JsMap.set url note []))).
  - rewrite ObjectUtils.get_map_deepClone, JsMap.get_set_eq. simpl. by rewrite deepClone_clean.
  - unfold getNotes. rewrite (get_hit _ _ _ _ _ _ Hce); [reflexivity|]. rewrite Hto.
    apply fresh_not_expired. rewrite Z.sub_diag. vm_compute. discriminate.
  - rewrite ObjectUtils.get_map_deepClone, JsMap.get_set_ne by done. reflexivity.
Qed.

Lemma first_note_lost_witness :
  exists st1 st2,
    setNote (js "img1.png") (JStr (js "sunset")) 0 (init true true) = Some (st1, inr tt) /\
    snd (getNote (js "img1.png") 5 st1) = inr JUndefined /\
    setNote (js "img1.png") (JStr (js "sunset")) 5 st1 = Some (st2, inr tt) /\
    snd (getNote (js "img1.png") 5 st2) = inr (JStr (js "sunset")).
Proof. apply first_note_lost; [discriminate | reflexivity]. Defined.

(** with [localStorage] unavailable, [addLog] keeps entries only in
  the read cache, through the aliasing of [storage.get]'s result: the
  first call mutates a fresh [[]] (its clone is cached), the second
  mutates the cached array itself.  After [addLog(l1)], [addLog(l2)] at
  the same time, [getLogs()] returns [[l2]]: the first entry is lost, the
  second is visible though nothing was stored. *)
Theorem logs_kept_only_in_cache (l1 l2 : jsval) (now : Z) :
  snd (getLogs now (fst (addLog l2 now (fst (addLog l1 now (init false false)))))) = JArr [l2] /\
  items (st_local (fst (addLog l2 now (fst (addLog l1 now (init false false)))))) = [].
Proof.
  assert (Hexp : isExpired now now CACHE_EXPIRY = false)
    by (apply fresh_not_expired; rewrite Z.sub_diag; vm_compute; discriminate).
  assert (H1 : JsMap.get (cacheKey local ADMIN_LOGS) (cache (fst (addLog l1 now (init false false))))
                 = Some (mkCached (JArr []) now)) by (vm_compute; reflexivity).
  rewrite (addLog_unavailable_hit l2 [] now now); [| reflexivity | exact H1 | exact Hexp | vm_compute; lia].
  split; [|reflexivity].
  unfold getLogs. rewrite (get_hit _ _ _ _ _ (mkCached (JArr [l2]) now)); [reflexivity| |exact Hexp].
  apply JsMap.get_set_eq.
Qed.

(** the stored activity log is bounded: after an [addLog] that does
  not throw on an available [localStorage], [getLogs()] within the cache
  lifetime returns an array of at most [MAX_LOGS] (50) entries. *)
Theorem addLog_bounded (log : jsval) (now now' : Z) (st : state) :
  available (st_local st) = true -> snd (addLog log now st) = None -> (now' - now <= cacheTimeout st)%Z ->
  exists xs, snd (getLogs now' (fst (addLog log now st))) = JArr xs /\ length xs <= MAX_LOGS.
Proof.
  intros Hav Hok Ht. pose proof (get_fields ADMIN_LOGS (JArr []) local now st) as [Hl Hto].
  unfold addLog, get_for_update in *. destruct (StorageCache.get ADMIN_LOGS (JArr []) local now st) as [st1 logs].
  simpl in Hl, Hto. destruct logs as [| | | | |xs| |]; try discriminate. cbn [fst] in *.
  set (l' := if MAX_LOGS <? length (log :: xs) then take MAX_LOGS (log :: xs) else log :: xs).
  set (st2 := write_through ADMIN_LOGS (cache_hit ADMIN_LOGS now st) (JArr l') st1).
  destruct (write_through_fields ADMIN_LOGS (cache_hit ADMIN_LOGS now st) (JArr l') st1) as [Hl2 Hto2].
  destruct (set_success_cache ADMIN_LOGS (JArr l') local now st2) as [Hc Hto3].
  { apply set_local_success. unfold st2. by rewrite Hl2, Hl. }
  exists (map deepClone l'). unfold getLogs, setLogs. rewrite (get_hit _ _ _ _ _ _ Hc).
  - split; [done|]. rewrite length_map. apply length_trim_logs.
  - simpl. rewrite Hto3. unfold st2. rewrite Hto2, Hto. by apply fresh_not_expired.
Qed.

Lemma addLog_bounded_witness :
  snd (addLog (JStr (js "login")) 0 (init true true)) = None /\
  exists xs, snd (getLogs 1 (fst (addLog (JStr (js "login")) 0 (init true true)))) = JArr xs /\ length xs <= MAX_LOGS.
Proof.
  split; [reflexivity|].
  apply addLog_bounded; [reflexivity | reflexivity | vm_compute; discriminate].
Defined.

(** On a fresh store the first [addImageTag] throws: [getTags()] returns
  the default [new Map()], whose [get(imageUrl)] is [undefined], and
  [undefined.includes(tag)] throws a [TypeError]. *)
Lemma first_addImageTag_throws (url tag : jsstring) (now : Z) :
  exists st1 msg, addImageTag url tag now (init true true) = Some (st1, inl (TypeError msg)).
Proof. eexists _, _. reflexivity. Qed.

End SpecializedStorage.
