(* ===== verification/Utils.v ===== *)
(** * The helpers of [src/src/js/utils.js]: [TimeUtils], [ValidationUtils],
    [StringUtils], [FileUtils], [MathUtils]

    Pure functions over strings and numbers.  Strings are UTF-16 code
    units ([jsstring]); the three regular expressions of [PATTERNS]
    ([src/src/js/config.js]) are written as recognisers, with theorems
    that state the languages they accept.  [toUpperCase] and
    [toLowerCase] are section variables, the locale functions
    ([toLocaleDateString]) inputs.  Times are milliseconds ([Z]), the
    other numbers rationals ([Q]); a [NaN] or infinite result is [None].

    Not modelled: [TimeUtils.formatTimestamp] (locale formatting),
    [StringUtils.stripHtml] (an HTML parser), [FileUtils.readAsBase64],
    [readAsText] and [download] (file and DOM I/O).  [ObjectUtils] is in
    [ObjectUtils] and [JsValue], [ArrayUtils] in [ArrayUtils],
    [ThrottleUtils] and [AsyncUtils] in [Timing]. *)

From Stdlib Require Import QArith Qminmax Qround Lqa.
From S2P Require Import Prelude ObjectUtils.

(** ** [TimeUtils] *)

Module TimeUtils.

Definition zh_just_now : jsstring := [21018; 21018]%Z.
Definition zh_minutes_ago : jsstring := [20998; 38047; 21069]%Z.
Definition zh_hours_ago : jsstring := [23567; 26102; 21069]%Z.
Definition zh_days_ago : jsstring := [22825; 21069]%Z.

Section TimeAgo.
(** [targetDate.toLocaleDateString('zh-CN')]. *)
Variable toLocaleDateString : Z -> jsstring.

(** [getTimeAgo(date)] at time [now]: [Math.floor] of the elapsed minutes,
  hours and days; a date in the future is [刚刚] (just now). *)
Definition getTimeAgo (now target : Z) : jsstring :=
  let diffMs := (now - target)%Z in
  let diffMins := (diffMs / 60000)%Z in
  let diffHours := (diffMs / 3600000)%Z in
  let diffDays := (diffMs / 86400000)%Z in
  if (diffMins <? 1)%Z then zh_just_now
  else if (diffMins <? 60)%Z then nat_to_jsstring (Z.to_nat diffMins) ++ zh_minutes_ago
  else if (diffHours <? 24)%Z then nat_to_jsstring (Z.to_nat diffHours) ++ zh_hours_ago
  else if (diffDays <? 30)%Z then nat_to_jsstring (Z.to_nat diffDays) ++ zh_days_ago
  else toLocaleDateString target.

Lemma div_ltb (d c k : Z) : (0 < c)%Z -> (d / c <? k)%Z = (d <? c * k)%Z.
Proof.
  intros Hc. pose proof (Z.div_mod d c ltac:(lia)). pose proof (Z.mod_pos_bound d c Hc).
  destruct (Z.ltb_spec (d / c) k), (Z.ltb_spec d (c * k)); nia.
Qed.

(** [getTimeAgo] compares the elapsed time with a minute, an hour, a
  day and 30 days: the floor-divided counts it tests are the thresholds in
  milliseconds. *)
Theorem getTimeAgo_spec (now target : Z) :
  let d := (now - target)%Z in
  getTimeAgo now target =
    if (d <? 60000)%Z then zh_just_now
    else if (d <? 3600000)%Z then nat_to_jsstring (Z.to_nat (d / 60000)) ++ zh_minutes_ago
    else if (d <? 86400000)%Z then nat_to_jsstring (Z.to_nat (d / 3600000)) ++ zh_hours_ago
    else if (d <? 2592000000)%Z then nat_to_jsstring (Z.to_nat (d / 86400000)) ++ zh_days_ago
    else toLocaleDateString target.
Proof.
  cbn zeta. unfold getTimeAgo. rewrite !div_ltb by lia. reflexivity.
Qed.
End TimeAgo.

End TimeUtils.

(** ** [ValidationUtils] *)

Module ValidationUtils.

(** The messages of [ERROR_MESSAGES] the validators return, and the
  literal ['请选择文件'] (select a file). *)
Inductive message := TOKEN_TOO_SHORT | TOKEN_INVALID | FILE_TOO_LARGE | UNSUPPORTED_FORMAT | SELECT_FILE.

(** [{valid, message}]. *)
Record result := mkResult { valid : bool; msg : option message }.

Definition ok : result := mkResult true None.
Definition err (m : message) : result := mkResult false (Some m).

(** [CONFIG.SECURITY.TOKEN_MIN_LENGTH]. *)
Definition TOKEN_MIN_LENGTH : nat := 20.

Definition is_alnum (c : Z) : bool :=
  (((48 <=? c) && (c <=? 57)) || ((65 <=? c) && (c <=? 90)) || ((97 <=? c) && (c <=? 122)))%Z.

Definition is_lower_hex (c : Z) : bool := (((48 <=? c) && (c <=? 57)) || ((97 <=? c) && (c <=? 102)))%Z.

(** [PATTERNS.GITHUB_TOKEN]: [/^gh[ps]_[a-zA-Z0-9]{36,}$/]. *)
Definition GITHUB_TOKEN (s : jsstring) : bool :=
  match s with
  | g :: h :: p :: u :: rest =>
      (g =? 103)%Z && (h =? 104)%Z && ((p =? 112)%Z || (p =? 115)%Z) && (u =? 95)%Z &&
      (36 <=? length rest) && forallb is_alnum rest
  | _ => false
  end.

(** [PATTERNS.GITHUB_CLASSIC_TOKEN]: [/^[a-f0-9]{40}$/]. *)
Definition GITHUB_CLASSIC_TOKEN (s : jsstring) : bool := (length s =? 40) && forallb is_lower_hex s.

(** [validateGitHubToken(token)]; [None] is [undefined] or [null]. *)
Definition validateGitHubToken (token : option jsstring) : result :=
  match token with
  | None | Some [] => err TOKEN_TOO_SHORT
  | Some t =>
      if length t <? TOKEN_MIN_LENGTH then err TOKEN_TOO_SHORT
      else if negb (GITHUB_TOKEN t) && negb (GITHUB_CLASSIC_TOKEN t) then err TOKEN_INVALID
      else ok
  end.

(** The part of a string before its first [c] and the part after, if any. *)
Fixpoint split_first (c : Z) (s : jsstring) : option (jsstring * jsstring) :=
  match s with
  | [] => None
  | x :: s' => if (x =? c)%Z then Some ([], s') else
               match split_first c s' with Some (a, b) => Some (x :: a, b) | None => None end
  end.

(** [[^\s@]]. *)
Definition email_char (c : Z) : bool := negb (is_js_whitespace c) && negb (c =? 64)%Z.

(** [PATTERNS.EMAIL]: [/^[^\s@]+@[^\s@]+\.[^\s@]+$/]: one [@] after a
  non-empty local part; a domain with a dot neither first nor last. *)
Definition EMAIL (s : jsstring) : bool :=
  match split_first 64 s with
  | Some (local, domain) =>
      negb (bool_decide (local = [])) && forallb email_char local && forallb email_char domain &&
      match domain with
      | [] => false
      | _ :: d => bool_decide ((46%Z) ∈ removelast d)
      end
  | None => false
  end.

(** The line terminators, which [.] does not match. *)
Definition is_line_terminator (c : Z) : bool := ((c =? 10) || (c =? 13) || (c =? 0x2028) || (c =? 0x2029))%Z.

(** [PATTERNS.URL]: [/^https?:\/\/.+/]: the scheme, then one character
  that is not a line terminator (the pattern has no [$]). *)
Definition URL (s : jsstring) : bool :=
  match stripPrefix (js "http://") s, stripPrefix (js "https://") s with
  | Some (c :: _), _ => negb (is_line_terminator c)
  | _, Some (c :: _) => negb (is_line_terminator c)
  | _, _ => false
  end.

Definition validateEmail (email : jsstring) : bool := EMAIL email.

Definition validateURL (url : jsstring) : bool := URL url.

(** [CONFIG.IMAGE.MAX_FILE_SIZE] and [SUPPORTED_FORMATS]. *)
Definition MAX_FILE_SIZE : Z := (10 * 1024 * 1024)%Z.
Definition SUPPORTED_FORMATS : list jsstring := [js "jpg"; js "jpeg"; js "png"; js "gif"; js "webp"].

Record File := mkFile { file_name : jsstring; file_size : Z }.

Section ImageFile.
Variable toLowerCase : jsstring -> jsstring.

(** [validateImageFile(file)]: the extension is
  [file.name.split('.').pop().toLowerCase()]. *)
Definition validateImageFile (file : option File) : result :=
  match file with
  | None => err SELECT_FILE
  | Some f =>
      if (MAX_FILE_SIZE <? file_size f)%Z then err FILE_TOO_LARGE
      else
        let extension := toLowerCase (List.last (ObjectUtils.split_dot (file_name f)) []) in
        if negb (bool_decide (extension ∈ SUPPORTED_FORMATS)) then err UNSUPPORTED_FORMAT
        else ok
  end.

(** [validateImageFile] accepts exactly a file of at most
  [MAX_FILE_SIZE] bytes whose lower-cased last dot segment is one of
  [SUPPORTED_FORMATS]; a name without a dot is its own extension. *)
Theorem validateImageFile_ok (file : option File) :
  valid (validateImageFile file) = true <->
  exists f, file = Some f /\ (file_size f <= MAX_FILE_SIZE)%Z /\
    toLowerCase (List.last (ObjectUtils.split_dot (file_name f)) []) ∈ SUPPORTED_FORMATS.
Proof.
  unfold validateImageFile. destruct file as [f|]; simpl; [|split; [done|by intros (? & ? & _)]].
  destruct (Z.ltb_spec MAX_FILE_SIZE (file_size f)); simpl.
  - split; [done|]. intros (? & [= <-] & ? & _). lia.
  - case_bool_decide; simpl; split; try done; eauto; by intros (? & [= <-] & ? & ?).
Qed.
End ImageFile.

Lemma forallb_Forall {A} (f : A -> bool) (l : list A) : forallb f l = true <-> Forall (fun x => f x = true) l.
Proof.
  induction l as [|x l IH]; simpl; [split; auto|].
  rewrite andb_true_iff, IH. split; [intros [? ?]; by constructor|by intros ?%Forall_cons].
Qed.

Lemma GITHUB_TOKEN_spec (s : jsstring) :
  GITHUB_TOKEN s = true <->
  exists p rest, s = [103; 104; p; 95]%Z ++ rest /\ (p = 112 \/ p = 115)%Z /\ 36 <= length rest /\
    Forall (fun c => is_alnum c = true) rest.
Proof.
  split.
  - destruct s as [|g [|h [|p [|u rest]]]]; cbn [GITHUB_TOKEN]; try discriminate.
    rewrite !andb_true_iff, !orb_true_iff, !Z.eqb_eq, Nat.leb_le, forallb_Forall.
    intros (((((-> & ->) & Hp) & ->) & Hl) & Hf). exists p, rest. auto.
  - intros (p & rest & -> & Hp & Hl & Hf). cbn [GITHUB_TOKEN app].
    rewrite !andb_true_iff, !orb_true_iff, !Z.eqb_eq, Nat.leb_le, forallb_Forall. tauto.
Qed.

Lemma GITHUB_TOKEN_length (s : jsstring) : GITHUB_TOKEN s = true -> 40 <= length s.
Proof. intros (p & rest & -> & _ & Hl & _)%GITHUB_TOKEN_spec. simpl. lia. Qed.

Lemma GITHUB_CLASSIC_TOKEN_length (s : jsstring) : GITHUB_CLASSIC_TOKEN s = true -> length s = 40.
Proof. unfold GITHUB_CLASSIC_TOKEN. rewrite andb_true_iff, Nat.eqb_eq. tauto. Qed.

(** [validateGitHubToken] accepts exactly the strings matching
  [PATTERNS.GITHUB_TOKEN] or [PATTERNS.GITHUB_CLASSIC_TOKEN]; both
  patterns force at least 40 characters, so the [TOKEN_MIN_LENGTH] (20)
  test only chooses the message of a rejection. *)
Theorem validateGitHubToken_valid (t : jsstring) :
  valid (validateGitHubToken (Some t)) = GITHUB_TOKEN t || GITHUB_CLASSIC_TOKEN t.
Proof.
  unfold validateGitHubToken.
  destruct (GITHUB_TOKEN t) eqn:Hg; [apply GITHUB_TOKEN_length in Hg|];
  destruct (GITHUB_CLASSIC_TOKEN t) eqn:Hc; try apply GITHUB_CLASSIC_TOKEN_length in Hc;
  destruct t as [|c t]; simpl in *; try lia; try done;
  destruct (Nat.ltb_spec (S (length t)) TOKEN_MIN_LENGTH); unfold TOKEN_MIN_LENGTH in *; simpl; try lia; done.
Qed.

Lemma split_first_some (c : Z) (s a b : jsstring) :
  split_first c s = Some (a, b) -> s = a ++ [c] ++ b /\ c ∉ a.
Proof.
  revert a b; induction s as [|x s IH]; intros a b; simpl; [done|].
  destruct (Z.eqb_spec x c) as [->|Hx]; [intros [= <- <-]; split; [done|apply not_elem_of_nil]|].
  destruct (split_first c s) as [[a' b']|] eqn:E; [|done]. intros [= <- <-].
  destruct (IH a' b' eq_refl) as [-> Ha]. split; [done|]. apply not_elem_of_cons. auto.
Qed.

Lemma split_first_app (c : Z) (a b : jsstring) : c ∉ a -> split_first c (a ++ c :: b) = Some (a, b).
Proof.
  induction a as [|x a IH]; simpl; intros Ha; [by rewrite Z.eqb_refl|].
  apply not_elem_of_cons in Ha as [Hx Ha]. rewrite (proj2 (Z.eqb_neq x c) (not_eq_sym Hx)), IH by done. done.
Qed.

Lemma split_first_spec (c : Z) (s a b : jsstring) :
  split_first c s = Some (a, b) <-> s = a ++ [c] ++ b /\ c ∉ a.
Proof. split; [apply split_first_some|]. intros [-> Ha]. by apply split_first_app. Qed.

Lemma elem_of_removelast (x : Z) (d : jsstring) :
  x ∈ removelast d <-> exists u v, d = u ++ [x] ++ v /\ v <> [].
Proof.
  split.
  - intros Hx. destruct d as [|y d] using rev_ind; [by apply not_elem_of_nil in Hx|]. rewrite removelast_last in Hx.
    apply list_elem_of_split in Hx as (u & v & ->). exists u, (v ++ [y]). split; [by rewrite <- !app_assoc|].
    by destruct v.
  - intros (u & v & -> & Hv). destruct v as [|w v] using rev_ind; [done|].
    rewrite !app_assoc, removelast_last, <- app_assoc. apply elem_of_app. right. by left.
Qed.

(** [PATTERNS.EMAIL] accepts exactly a non-empty local part, [@], and
  a domain made of two non-empty parts around a dot, none of these
  containing whitespace or [@]. *)
Theorem EMAIL_spec (s : jsstring) :
  EMAIL s = true <->
  exists a b c, s = a ++ [64%Z] ++ b ++ [46%Z] ++ c /\ a <> [] /\ b <> [] /\ c <> [] /\
    Forall (fun x => email_char x = true) (a ++ b ++ [46%Z] ++ c).
Proof.
  unfold EMAIL. split.
  - destruct (split_first 64 s) as [[a dom]|] eqn:E; [|done]. apply split_first_spec in E as [-> Ha].
    rewrite !andb_true_iff, !forallb_Forall. intros [[[Hne Hfa] Hfd] Hdot].
    destruct dom as [|x d]; [done|]. apply bool_decide_eq_true in Hdot.
    apply elem_of_removelast in Hdot as (u & v & -> & Hv).
    exists a, (x :: u), v. split; [done|]. split; [by destruct a|]. split; [done|]. split; [done|].
    apply Forall_app; split; [done|]. exact Hfd.
  - intros (a & b & c & -> & Ha & Hb & Hc & Hf). apply Forall_app in Hf as [Hfa Hfd].
    assert (E : split_first 64 (a ++ [64%Z] ++ b ++ [46%Z] ++ c) = Some (a, b ++ [46%Z] ++ c)).
    { apply split_first_spec. split; [done|]. intros Hin. eapply Forall_forall in Hfa; [|exact Hin]. done. }
    rewrite E, !andb_true_iff, !forallb_Forall. destruct a; [done|]. split; [split; [split; [done|]|]|]; try done.
    destruct b as [|x u]; [done|]. apply bool_decide_eq_true. apply elem_of_removelast. exists u, c. done.
Qed.

End ValidationUtils.

(** ** [StringUtils] *)

Module StringUtils.

(** [str.substring(start, end)] for integer arguments: both clamped to
  [[0, length]], swapped when [start > end]. *)
Definition substring (s : jsstring) (a b : Z) : jsstring :=
  let len := Z.of_nat (length s) in
  let a' := Z.min (Z.max a 0) len in
  let b' := Z.min (Z.max b 0) len in
  take (Z.to_nat (Z.max a' b' - Z.min a' b')) (drop (Z.to_nat (Z.min a' b')) s).

(** [truncate(str, length = 50, suffix = '...')] for a string [str]. *)
Definition truncate (str : jsstring) (length : Z) (suffix : jsstring) : jsstring :=
  if bool_decide (str = []) || (Z.of_nat (List.length str) <=? length)%Z then str
  else substring str 0 (length - Z.of_nat (List.length suffix)) ++ suffix.

(** A base-36 digit: ['0'..'9'], ['a'..'z']. *)
Definition digit36 (d : Z) : Z := if (d <? 10)%Z then (48 + d)%Z else (87 + d)%Z.

(** The base-36 digits of [n], least significant first. *)
Fixpoint to_base36_rev (fuel : nat) (n : Z) : jsstring :=
  match fuel with
  | O => []
  | S f => digit36 (n mod 36) :: (if (n <? 36)%Z then [] else to_base36_rev f (n / 36))
  end.

(** [n.toString(36)] for an integer [n >= 0]: [log2 n + 1] digits are
  enough fuel. *)
Definition to_base36 (n : Z) : jsstring := rev (to_base36_rev (S (Z.to_nat (Z.log2 n))) n).

(** [generateId()]: [Date.now().toString(36) + Math.random().toString(36).substr(2)];
  [random36] is the string [Math.random().toString(36)] (["0."] and
  the digits). *)
Definition generateId (now : Z) (random36 : jsstring) : jsstring := to_base36 now ++ drop 2 random36.

Definition is_sep (c : Z) : bool := ((c =? 45) || (c =? 95))%Z || is_js_whitespace c.

Definition is_ascii_lower (c : Z) : bool := ((97 <=? c) && (c <=? 122))%Z.
Definition is_ascii_upper (c : Z) : bool := ((65 <=? c) && (c <=? 90))%Z.

Section Case.
Variable toUpperCase toLowerCase : jsstring -> jsstring.

(** The replacement loop of [str.replace(/[-_\s]+(.)?/g, (_, c) => c ?
  c.toUpperCase() : '')]: a run of separators is dropped, the character
  after it upper-cased.  Every line terminator is in [\s], so the
  character after a maximal run is never one [.] refuses. *)
Fixpoint camel_go (in_run : bool) (s : jsstring) : jsstring :=
  match s with
  | [] => []
  | c :: s' =>
      if is_sep c then camel_go true s'
      else if in_run then toUpperCase [c] ++ camel_go false s' else c :: camel_go false s'
  end.

(** [toCamelCase(str)]. *)
Definition toCamelCase (str : jsstring) : jsstring := camel_go false str.

(** [str.replace(/([a-z])([A-Z])/g, '$1-$2')]: matches do not overlap, the
  scan resumes after the upper-case letter. *)
Fixpoint kebab_go (s : jsstring) : jsstring :=
  match s with
  | a :: ((b :: r) as t) =>
      if is_ascii_lower a && is_ascii_upper b then a :: 45%Z :: b :: kebab_go r else a :: kebab_go t
  | _ => s
  end.

(** [toKebabCase(str)]. *)
Definition toKebabCase (str : jsstring) : jsstring := toLowerCase (kebab_go str).
End Case.

(** The substring from the start of [s] to a position inside it. *)
Lemma substring_prefix (s : jsstring) (k : Z) :
  (0 <= k <= Z.of_nat (length s))%Z -> substring s 0 k = take (Z.to_nat k) s.
Proof.
  intros Hk. unfold substring. rewrite (Z.min_l (Z.max 0 0)), (Z.max_l k 0), (Z.min_l k) by lia.
  rewrite Z.max_r, Z.min_l by lia. rewrite Z.sub_0_r. simpl. by rewrite drop_0.
Qed.

(** [truncate(str, length, suffix)] with a suffix that fits returns at
  most [length] code units: [str] itself, or its first
  [length - suffix.length] units followed by [suffix]. *)
Theorem truncate_fits (str suffix : jsstring) (length : Z) :
  (Z.of_nat (List.length suffix) <= length)%Z ->
  (Z.of_nat (List.length (truncate str length suffix)) <= length)%Z /\
  (truncate str length suffix = str \/
   truncate str length suffix = take (Z.to_nat (length - Z.of_nat (List.length suffix))) str ++ suffix).
Proof.
  intros Hs. unfold truncate.
  destruct (bool_decide (str = [])) eqn:He; simpl.
  - apply bool_decide_eq_true in He as ->. simpl. split; [lia|by left].
  - destruct (Z.leb_spec (Z.of_nat (List.length str)) length); [split; [lia|by left]|].
    rewrite substring_prefix by lia. rewrite length_app, length_take. split; [lia|by right].
Qed.

(** [truncate] with a [length] shorter than the suffix returns the whole
  suffix, longer than [length]: [truncate('abcdef', 2)] is ['...']. *)
Lemma truncate_short_limit (str suffix : jsstring) (length : Z) :
  (0 <= length < Z.of_nat (List.length suffix))%Z -> (length < Z.of_nat (List.length str))%Z ->
  truncate str length suffix = suffix.
Proof.
  intros Hs Hl. unfold truncate. rewrite bool_decide_false by (intros ->; simpl in Hl; lia).
  destruct (Z.leb_spec (Z.of_nat (List.length str)) length); [lia|]. simpl.
  unfold substring. cbv zeta.
  replace (Z.min (Z.max 0 0) (Z.of_nat (List.length str))) with 0%Z by lia.
  replace (Z.min (Z.max (length - Z.of_nat (List.length suffix)) 0) (Z.of_nat (List.length str))) with 0%Z by lia.
  done.
Qed.

(** The value of base-36 digits, as [parseInt(s, 36)] reads them. *)
Definition digit36_value (c : Z) : Z := if (c <=? 57)%Z then (c - 48)%Z else (c - 87)%Z.

Definition parseInt36 (s : jsstring) : Z := fold_left (fun acc c => acc * 36 + digit36_value c)%Z s 0%Z.

Lemma digit36_value_digit36 (d : Z) : (0 <= d < 36)%Z -> digit36_value (digit36 d) = d.
Proof.
  intros Hd. unfold digit36, digit36_value.
  destruct (Z.ltb_spec d 10); [destruct (Z.leb_spec (48 + d) 57)|destruct (Z.leb_spec (87 + d) 57)]; lia.
Qed.

Lemma to_base36_rev_S (f : nat) (n : Z) :
  to_base36_rev (S f) n = digit36 (n mod 36) :: (if (n <? 36)%Z then [] else to_base36_rev f (n / 36)).
Proof. reflexivity. Qed.

Lemma to_base36_rev_value (f : nat) (n : Z) :
  (0 <= n < 36 ^ Z.of_nat (S f))%Z ->
  fold_right (fun c acc => digit36_value c + 36 * acc)%Z 0%Z (to_base36_rev (S f) n) = n.
Proof.
  revert n; induction f as [|f IH]; intros n Hn; rewrite to_base36_rev_S; cbn [fold_right].
  - change (36 ^ Z.of_nat 1)%Z with 36%Z in Hn.
    rewrite Z.mod_small by lia. replace (n <? 36)%Z with true by (symmetry; apply Z.ltb_lt; lia).
    rewrite digit36_value_digit36 by lia. simpl. lia.
  - rewrite digit36_value_digit36 by (apply Z.mod_pos_bound; lia).
    destruct (Z.ltb_spec n 36); [rewrite Z.mod_small by lia; simpl; lia|].
    rewrite IH; [pose proof (Z.div_mod n 36 ltac:(lia)); lia|].
    split; [apply Z.div_pos; lia|]. apply Z.div_lt_upper_bound; [lia|].
    replace (Z.of_nat (S (S f))) with (1 + Z.of_nat (S f))%Z in Hn by lia. rewrite Z.pow_add_r in Hn by lia. lia.
Qed.

Lemma fold_left_base36 (s : jsstring) (acc : Z) :
  fold_left (fun acc c => acc * 36 + digit36_value c)%Z s acc =
  (acc * 36 ^ Z.of_nat (length s) + parseInt36 s)%Z.
Proof.
  unfold parseInt36. revert acc; induction s as [|c s IH] using rev_ind; intros acc; simpl; [lia|].
  rewrite !fold_left_app, length_app. simpl. rewrite IH, (IH 0%Z).
  replace (Z.of_nat (length s + 1)) with (Z.of_nat (length s) + 1)%Z by lia. rewrite Z.pow_add_r by lia. lia.
Qed.

Lemma parseInt36_rev (l : jsstring) :
  parseInt36 (rev l) = fold_right (fun c acc => digit36_value c + 36 * acc)%Z 0%Z l.
Proof.
  induction l as [|c l IH]; [done|]. simpl. unfold parseInt36 in *. rewrite fold_left_app. simpl. lia.
Qed.

(** [Number.prototype.toString(36)] and [parseInt(s, 36)] are inverse on
  the integers [>= 0]: the fuel [log2 n + 1] gives all the digits. *)
Lemma to_base36_roundtrip (n : Z) : (0 <= n)%Z -> parseInt36 (to_base36 n) = n.
Proof.
  intros Hn. unfold to_base36. rewrite parseInt36_rev. apply to_base36_rev_value. split; [done|].
  destruct (Z.eq_dec n 0%Z) as [->|Hn0]; [simpl; lia|].
  pose proof (Z.log2_spec n ltac:(lia)) as [_ Hlt].
  rewrite Nat2Z.inj_succ, Z2Nat.id by apply Z.log2_nonneg.
  eapply Z.lt_le_trans; [exact Hlt|]. apply Z.pow_le_mono_l. lia.
Qed.

(** [escapeHtml(str)]: [div.textContent = str; return div.innerHTML]; the
  serialisation of a text node escapes [&], U+00A0, [<] and [>]. *)
Fixpoint escapeHtml (str : jsstring) : jsstring :=
  match str with
  | [] => []
  | c :: s =>
      (if (c =? 38)%Z then js "&amp;" else if (c =? 160)%Z then js "&nbsp;"
       else if (c =? 60)%Z then js "&lt;" else if (c =? 62)%Z then js "&gt;" else [c]) ++ escapeHtml s
  end.

(** [escapeHtml] output holds no [<] and no [>]: inserted as HTML it
  creates no element. *)
Theorem escapeHtml_no_markup (str : jsstring) : ((60%Z) ∉ escapeHtml str) /\ ((62%Z) ∉ escapeHtml str).
Proof.
  induction str as [|c s [IH1 IH2]]; simpl; [split; apply not_elem_of_nil|].
  rewrite !elem_of_app. destruct (Z.eqb_spec c 38); [|destruct (Z.eqb_spec c 160);
    [|destruct (Z.eqb_spec c 60); [|destruct (Z.eqb_spec c 62)]]];
    (split; intros [Hc|?]; [|done| |done]); revert Hc;
    try (apply (bool_decide_unpack _); vm_compute; reflexivity);
    rewrite list_elem_of_singleton; lia.
Qed.

End StringUtils.

(** ** [FileUtils] *)

Module FileUtils.

Section Ext.
Variable toLowerCase : jsstring -> jsstring.

(** [getExtension(filename)]: [filename.split('.').pop().toLowerCase()]. *)
Definition getExtension (filename : jsstring) : jsstring :=
  toLowerCase (List.last (ObjectUtils.split_dot filename) []).
End Ext.

(** [Math.floor(Math.log(bytes) / Math.log(1024))] for [bytes >= 1],
  computed exactly; the quotient of the two doubles gives the same
  integer below [1024^5] (it rounds up to [5] just under [1024^5]). *)
Fixpoint log1024_go (fuel : nat) (b : Z) : Z :=
  match fuel with
  | O => 0
  | S f => if (b <? 1024)%Z then 0%Z else (1 + log1024_go f (b / 1024))%Z
  end.

Definition unit_index (bytes : Z) : Z := log1024_go (S (Z.to_nat (Z.log2 bytes))) bytes.

Definition sizes : list jsstring := [js "B"; js "KB"; js "MB"; js "GB"].

(** [n / 100] printed as [parseFloat(x.toFixed(2))] prints: no trailing
  zero, no point for an integer. *)
Definition fmt_hundredths (n : Z) : jsstring :=
  let ip := (n / 100)%Z in
  let fp := (n mod 100)%Z in
  nat_to_jsstring (Z.to_nat ip) ++
  (if (fp =? 0)%Z then []
   else if (fp mod 10 =? 0)%Z then [46%Z] ++ nat_to_jsstring (Z.to_nat (fp / 10))
   else [46%Z] ++ (if (fp <? 10)%Z then [48%Z] else []) ++ nat_to_jsstring (Z.to_nat fp)).

(** [formatSize(bytes)] for an integer [bytes >= 0]: [toFixed(2)] rounds
  half up the exact quotient [bytes / 1024^i] (a binary fraction);
  [sizes[i]] past ['GB'] is [undefined]. *)
Definition formatSize (bytes : Z) : jsstring :=
  if (bytes =? 0)%Z then js "0 B"
  else
    let i := unit_index bytes in
    let p := (1024 ^ i)%Z in
    let n := ((200 * bytes + p) / (2 * p))%Z in
    fmt_hundredths n ++ js " " ++ default (js "undefined") (sizes !! Z.to_nat i).

Lemma split_dot_nodot (s : jsstring) : (46%Z) ∉ s -> ObjectUtils.split_dot s = [s].
Proof.
  intros H. unfold ObjectUtils.split_dot.
  pose proof (ObjectUtils.split_dot_go_app [] s [] H) as E. rewrite app_nil_r in E. rewrite E.
  simpl. by rewrite app_nil_r, rev_involutive.
Qed.

(** A file name without a dot is its own extension ([README] gives
  [readme]). *)
Lemma getExtension_no_dot (toLowerCase : jsstring -> jsstring) (filename : jsstring) :
  (46%Z) ∉ filename -> getExtension toLowerCase filename = toLowerCase filename.
Proof. intros H. unfold getExtension. by rewrite split_dot_nodot. Qed.

Lemma log1024_go_spec (f : nat) (b : Z) :
  (1 <= b < 1024 ^ (Z.of_nat f + 1))%Z ->
  (0 <= log1024_go f b /\ 1024 ^ log1024_go f b <= b < 1024 ^ (log1024_go f b + 1))%Z.
Proof.
  revert b; induction f as [|f IH]; intros b Hb; simpl.
  - simpl in Hb. lia.
  - destruct (Z.ltb_spec b 1024); [simpl; lia|].
    assert (Hd : (1 <= b / 1024 < 1024 ^ (Z.of_nat f + 1))%Z).
    { split; [apply Z.div_le_lower_bound; lia|]. apply Z.div_lt_upper_bound; [lia|].
      replace (Z.of_nat (S f) + 1)%Z with (1 + (Z.of_nat f + 1))%Z in Hb by lia.
      rewrite Z.pow_add_r in Hb by lia. lia. }
    destruct (IH _ Hd) as (H0 & Hlo & Hhi). set (k := log1024_go f (b / 1024)) in *.
    pose proof (Z.div_mod b 1024 ltac:(lia)). pose proof (Z.mod_pos_bound b 1024 ltac:(lia)).
    replace (1 + k + 1)%Z with (k + 1 + 1)%Z by lia.
    rewrite !Z.pow_add_r by lia. rewrite Z.pow_add_r in Hhi by lia. change (1024 ^ 1)%Z with 1024%Z in *.
    split; [lia|]. nia.
Qed.

(** [i] is the exponent of the largest power of 1024 at most [bytes]. *)
Lemma unit_index_spec (bytes : Z) :
  (1 <= bytes)%Z -> (0 <= unit_index bytes /\ 1024 ^ unit_index bytes <= bytes < 1024 ^ (unit_index bytes + 1))%Z.
Proof.
  intros Hb. apply log1024_go_spec. split; [done|].
  pose proof (Z.log2_spec bytes ltac:(lia)) as [_ Hlt].
  rewrite Nat2Z.inj_succ, Z2Nat.id by apply Z.log2_nonneg.
  eapply Z.lt_le_trans; [exact Hlt|]. transitivity (2 ^ (Z.succ (Z.log2 bytes) + 1))%Z.
  - apply Z.pow_le_mono_r; lia.
  - apply Z.pow_le_mono_l. lia.
Qed.

(** [formatSize] has no unit past gigabytes: from one tebibyte on,
  [sizes[i]] is [undefined] and the text ends in ['undefined']. *)
Theorem formatSize_undefined_unit (bytes : Z) :
  (1024 ^ 4 <= bytes < 1024 ^ 5)%Z ->
  exists digits, formatSize bytes = digits ++ js " undefined".
Proof.
  intros Hb. unfold formatSize. rewrite (proj2 (Z.eqb_neq bytes 0)) by lia.
  destruct (unit_index_spec bytes ltac:(lia)) as (H0 & Hlo & Hhi).
  assert (Hi : unit_index bytes = 4%Z).
  { destruct (Z.lt_total (unit_index bytes) 4) as [Hl|[He|Hg]]; [|done|].
    - assert (1024 ^ (unit_index bytes + 1) <= 1024 ^ 4)%Z by (apply Z.pow_le_mono_r; lia). lia.
    - assert (1024 ^ 5 <= 1024 ^ unit_index bytes)%Z by (apply Z.pow_le_mono_r; lia). lia. }
  cbv zeta. rewrite Hi. exists (fmt_hundredths ((200 * bytes + 1024 ^ 4) / (2 * 1024 ^ 4))). reflexivity.
Qed.

Lemma formatSize_examples :
  formatSize 1536 = js "1.5 KB" /\ formatSize 1048576 = js "1 MB" /\ formatSize (1024 ^ 4) = js "1 undefined".
Proof. vm_compute. auto. Qed.

End FileUtils.

(** ** [MathUtils] *)

Module MathUtils.
Local Open Scope Q_scope.

(** [clamp(value, min, max)]: [Math.min(Math.max(value, min), max)]. *)
Definition clamp (value min max : Q) : Q := Qmin (Qmax value min) max.

(** [lerp(start, end, t)]. *)
Definition lerp (start end_ t : Q) : Q := start + (end_ - start) * t.

(** [random(min, max)] with the draw [r] of [Math.random()]. *)
Definition random (r min max : Q) : Q := r * (max - min) + min.

(** [randomInt(min, max)]: [Math.floor(this.random(min, max + 1))]. *)
Definition randomInt (r : Q) (min max : Z) : Z := Qfloor (random r (inject_Z min) (inject_Z max + 1)).

(** [map(value, inMin, inMax, outMin, outMax)]; [None] is the [NaN] or
  infinity of a division by [inMax - inMin = 0]. *)
Definition map (value inMin inMax outMin outMax : Q) : option Q :=
  if Qeq_bool inMax inMin then None
  else Some ((value - inMin) * (outMax - outMin) / (inMax - inMin) + outMin).

(** [clamp(value, min, max)] lies between [min] and [max] when
  [min <= max], and is [value] when [value] already does. *)
Theorem clamp_bounds (v mn mx : Q) :
  mn <= mx -> mn <= clamp v mn mx <= mx /\ (mn <= v <= mx -> clamp v mn mx == v).
Proof.
  intros H. unfold clamp.
  destruct (Q.max_spec v mn) as [[? ?]|[? ?]], (Q.min_spec (Qmax v mn) mx) as [[? ?]|[? ?]]; split; lra.
Qed.

(** With [min > max], [clamp] returns [max], below [min]. *)
Lemma clamp_inverted (v mn mx : Q) : mx < mn -> clamp v mn mx == mx.
Proof.
  intros H. unfold clamp.
  destruct (Q.max_spec v mn) as [[? ?]|[? ?]], (Q.min_spec (Qmax v mn) mx) as [[? ?]|[? ?]]; lra.
Qed.

(** [randomInt(min, max)] with a draw [0 <= r < 1] of [Math.random()]
  is an integer of [[min, max]]. *)
Theorem randomInt_bounds (r : Q) (mn mx : Z) :
  0 <= r < 1 -> (mn <= mx)%Z -> (mn <= randomInt r mn mx <= mx)%Z.
Proof.
  intros [Hr0 Hr1] Hm. unfold randomInt, random.
  set (x := r * (inject_Z mx + 1 - inject_Z mn) + inject_Z mn).
  assert (Hle : inject_Z mn <= inject_Z mx) by (rewrite <- Zle_Qle; lia).
  assert (Hd : 0 < inject_Z mx + 1 - inject_Z mn) by lra.
  assert (Hx0 : inject_Z mn <= x) by (unfold x; nra).
  assert (Hx1 : x < inject_Z (mx + 1)).
  { unfold x. rewrite inject_Z_plus. change (inject_Z 1) with 1. nra. }
  split.
  - rewrite <- (Qfloor_Z mn). by apply Qfloor_resp_le.
  - pose proof (Qfloor_le x). assert (inject_Z (Qfloor x) < inject_Z (mx + 1)) as Hf by lra.
    rewrite <- Zlt_Qlt in Hf. lia.
Qed.

(** [map] sends [inMin] to [outMin] and [inMax] to [outMax]. *)
Lemma map_endpoints (inMin inMax outMin outMax : Q) :
  ~ inMax == inMin ->
  (exists y, map inMin inMin inMax outMin outMax = Some y /\ y == outMin) /\
  (exists y, map inMax inMin inMax outMin outMax = Some y /\ y == outMax).
Proof.
  intros H. unfold map. destruct (Qeq_bool inMax inMin) eqn:E; [apply Qeq_bool_iff in E; contradiction|].
  split; eexists; split; try reflexivity; field; intros ?; apply H; lra.
Qed.

End MathUtils.
