(* ===== verification/Timers.v ===== *)
(** * The browser's task sources: [setTimeout] and [requestAnimationFrame]

    The overlays of [src/src/js/uiManager.js] defer their work: a
    [setTimeout(cb, delay)] callback runs once the clock has passed the
    call's time plus [delay], the callbacks due first running first and
    those due at the same time in the order they were scheduled; a
    [requestAnimationFrame(cb)] callback runs at the next frame, before
    any timeout the code schedules here (their delays are at least 300 ms).
    This file gives that queue over an arbitrary type of callbacks [T]:
    the callbacks are data (each component has an inductive of the
    closures it schedules) and the component runs them.  It models the
    runtime, not code of the repository. *)

From S2P Require Import Prelude.

Module Timers.
Section Timers.
Context {T : Type}.

Record t := mkTimers {
  clock : Z;                 (** [Date.now()] *)
  pending : list (Z * T);    (** armed timeouts: due time and callback, in scheduling order *)
  frames : list T            (** callbacks of the next animation frame *)
}.

Definition empty (now : Z) : t := mkTimers now [] [].

(** [setTimeout(cb, delay)]: a negative delay is [0]. *)
Definition setTimeout (delay : Z) (cb : T) (q : t) : t :=
  mkTimers (clock q) (pending q ++ [((clock q + Z.max 0 delay)%Z, cb)]) (frames q).

(** [requestAnimationFrame(cb)]. *)
Definition requestAnimationFrame (cb : T) (q : t) : t :=
  mkTimers (clock q) (pending q) (frames q ++ [cb]).

(** The earliest due time of the armed timeouts. *)
Fixpoint earliest (l : list (Z * T)) : option Z :=
  match l with
  | [] => None
  | (d, _) :: l' => match earliest l' with Some d' => Some (Z.min d d') | None => Some d end
  end.

(** The first timeout due at [d], and the others in their order. *)
Fixpoint take_due (d : Z) (l : list (Z * T)) : option (T * list (Z * T)) :=
  match l with
  | [] => None
  | (d', x) :: l' =>
      if (d' =? d)%Z then Some (x, l')
      else match take_due d l' with Some (y, r) => Some (y, (d', x) :: r) | None => None end
  end.

(** The next timeout to fire, with the queue without it; the clock
  advances to its due time. *)
Definition next (q : t) : option (T * t) :=
  match earliest (pending q) with
  | None => None
  | Some d =>
      match take_due d (pending q) with
      | Some (x, rest) => Some (x, mkTimers (Z.max (clock q) d) rest (frames q))
      | None => None
      end
  end.

(** The callbacks of the next frame, and the queue without them. *)
Definition take_frames (q : t) : list T * t := (frames q, mkTimers (clock q) (pending q) []).

(** ** Lemmas *)

Lemma earliest_in (l : list (Z * T)) (d : Z) : earliest l = Some d -> exists x, (d, x) ∈ l.
Proof.
  revert d. induction l as [|[d0 x0] l IH]; intros d; cbn; [done|].
  destruct (earliest l) as [d'|] eqn:E; intros [= <-].
  - destruct (Z.min_spec d0 d') as [[_ ->]|[_ ->]].
    + exists x0. by left.
    + destruct (IH d' eq_refl) as [x Hx]. exists x. by right.
  - exists x0. by left.
Qed.

Lemma earliest_None (l : list (Z * T)) : earliest l = None <-> l = [].
Proof.
  split; [|by intros ->]. destruct l as [|[d x] l]; cbn; [done|]. by destruct (earliest l).
Qed.

Lemma take_due_perm (d : Z) (l : list (Z * T)) (x : T) (r : list (Z * T)) :
  take_due d l = Some (x, r) -> l ≡ₚ (d, x) :: r.
Proof.
  revert r. induction l as [|[d' x'] l IH]; intros r; cbn; [done|].
  destruct (Z.eqb_spec d' d) as [->|].
  - by intros [= -> ->].
  - destruct (take_due d l) as [[y r']|] eqn:E; [|done]. intros [= -> <-].
    rewrite (IH r' eq_refl). by rewrite Permutation_swap.
Qed.

Lemma take_due_in (d : Z) (l : list (Z * T)) (x : T) :
  (d, x) ∈ l -> exists y r, take_due d l = Some (y, r).
Proof.
  induction l as [|[d' x'] l IH]; cbn; intros Hin; [by apply not_elem_of_nil in Hin|].
  destruct (Z.eqb_spec d' d) as [->|Hne]; [by eauto|].
  apply elem_of_cons in Hin as [[= -> _]|Hin]; [done|].
  destruct (IH Hin) as (y & r & ->). by eauto.
Qed.

(** A non-empty queue always has a next timeout, and firing it removes
  exactly that one and keeps the frames. *)
Lemma next_Some (q : t) :
  pending q <> [] ->
  exists x q', next q = Some (x, q') /\ (exists d, pending q ≡ₚ (d, x) :: pending q') /\ frames q' = frames q.
Proof.
  intros Hne. unfold next.
  destruct (earliest (pending q)) as [d|] eqn:E; [|by apply earliest_None in E].
  destruct (earliest_in _ _ E) as [x0 Hx0].
  destruct (take_due_in _ _ _ Hx0) as (x & r & Ht). rewrite Ht.
  exists x, (mkTimers (Z.max (clock q) d) r (frames q)). split; [done|]. split; [|done].
  exists d. by apply take_due_perm.
Qed.

Lemma next_None (q : t) : next q = None <-> pending q = [].
Proof.
  split.
  - intros Hn. destruct (decide (pending q = [])) as [|Hne]; [done|].
    destruct (next_Some q Hne) as (x & q' & Hq & _). congruence.
  - intros Hp. unfold next. by rewrite Hp.
Qed.

Lemma next_length (q q' : t) (x : T) : next q = Some (x, q') -> length (pending q) = S (length (pending q')).
Proof.
  unfold next. destruct (earliest (pending q)) as [d|]; [|done].
  destruct (take_due d (pending q)) as [[y r]|] eqn:E; [|done]. intros [= <- <-].
  cbn. by rewrite (take_due_perm _ _ _ _ E).
Qed.

Lemma next_single (c d : Z) (x : T) (fr : list T) :
  next (mkTimers c [(d, x)] fr) = Some (x, mkTimers (Z.max c d) [] fr).
Proof. unfold next. cbn. by rewrite Z.eqb_refl. Qed.

End Timers.
Arguments t : clear implicits.
End Timers.
