(* ===== verification/UIOverlays.v ===== *)
(** * The overlays of [src/src/js/uiManager.js]: [ModalManager],
    [TooltipManager], [ProgressManager] and [LoadingManager]

    Each manager is a record of its fields and of the DOM it drives (the
    classes and styles it sets, by element), one definition per method,
    and the deferred callbacks it schedules as data run by the queue of
    [Timers].  [eventManager.emit] calls are recorded in the order they
    happen in an [emitted] log.  What the DOM decides (which element
    [getElementById] finds, the first focusable element of a modal, the
    element an event targets) is an input. *)

From Stdlib Require Import QArith Qminmax Qround Lqa.
From stdpp Require Import relations list_numbers.
From S2P Require Import Prelude JsMap Timers Utils.

(** The JS [Set] of the managers, in insertion order. *)
Definition set_add (x : jsstring) (l : list jsstring) : list jsstring :=
  if bool_decide (x ∈ l) then l else l ++ [x].

Definition set_delete (x : jsstring) (l : list jsstring) : list jsstring :=
  List.filter (fun y => negb (bool_decide (y = x))) l.

(** [map.get(k)] and a change of the value found, as [element.classList]
  and [element.style] writes on an element held by the map. *)
Definition map_update {K V} `{EqDecision K} (k : K) (f : V -> V) (m : JsMap.t K V) : JsMap.t K V :=
  match JsMap.get k m with Some v => JsMap.set k (f v) m | None => m end.

Lemma elem_of_set_add (x y : jsstring) (l : list jsstring) : y ∈ set_add x l <-> y = x \/ y ∈ l.
Proof.
  unfold set_add. case_bool_decide; rewrite ?elem_of_app, ?list_elem_of_singleton; [split; [by right|intros [->|]]|]; tauto.
Qed.

Lemma elem_of_set_delete (x y : jsstring) (l : list jsstring) : y ∈ set_delete x l <-> y <> x /\ y ∈ l.
Proof.
  unfold set_delete. rewrite list_elem_of_In, filter_In, <-list_elem_of_In.
  rewrite negb_true_iff, bool_decide_eq_false. tauto.
Qed.

Lemma NoDup_set_add (x : jsstring) (l : list jsstring) : NoDup l -> NoDup (set_add x l).
Proof.
  unfold set_add. case_bool_decide; [done|]. intros Hl.
  apply NoDup_app. split; [done|]. split; [|apply NoDup_singleton].
  intros y Hy ->%list_elem_of_singleton. done.
Qed.

Lemma NoDup_set_delete (x : jsstring) (l : list jsstring) : NoDup l -> NoDup (set_delete x l).
Proof. intros Hl. apply NoDup_ListNoDup, List.NoDup_filter, NoDup_ListNoDup, Hl. Qed.

Lemma keys_update {K V} `{EqDecision K} (k : K) (f : V -> V) (m : JsMap.t K V) :
  JsMap.keys (map_update k f m) = JsMap.keys m.
Proof.
  unfold map_update. destruct (JsMap.get k m) eqn:E; [|done].
  apply JsMap.keys_set_in, (JsMap.get_Some_in _ _ _ E).
Qed.

Lemma get_update_eq {K V} `{EqDecision K} (k : K) (f : V -> V) (m : JsMap.t K V) :
  JsMap.get k (map_update k f m) = option_map f (JsMap.get k m).
Proof.
  unfold map_update. destruct (JsMap.get k m) eqn:E; [apply JsMap.get_set_eq|done].
Qed.

Lemma get_update_ne {K V} `{EqDecision K} (k j : K) (f : V -> V) (m : JsMap.t K V) :
  j <> k -> JsMap.get j (map_update k f m) = JsMap.get j m.
Proof. intros Hne. unfold map_update. destruct (JsMap.get k m); [by apply JsMap.get_set_ne|done]. Qed.

#[export] Hint Resolve NoDup_set_add NoDup_set_delete : gallery.
#[export] Hint Rewrite @keys_update : gallery_rw.

(** ** [ModalManager] *)

Module Modal.

(** The options [show] reads; [onShow] and [onHide] tell whether the
  callback is given. *)
Record options := mkOptions {
  closeOnEscape : bool; closeOnBackdrop : bool; focus : bool; onShow : bool; onHide : bool }.

(** [options = {}]. *)
Definition default_options : options := mkOptions true true true false false.

(** What [show] and [hide] set on a modal element: [style.display] is
  [flex], and the classes [active] and [show]. *)
Record element := mkElement { display_flex : bool; cls_active : bool; cls_show : bool }.

(** An entry of [modalStack]: [{id, options, previousFocus}]. *)
Record entry := mkEntry { id : jsstring; opts : options; previousFocus : option jsstring }.

Inductive event :=
  | ModalShow (m : jsstring)       (** [eventManager.emit('modal:show', ...)] *)
  | ModalHide (m : jsstring)       (** [eventManager.emit('modal:hide', ...)] *)
  | OnShowCalled (m : jsstring)
  | OnHideCalled (m : jsstring).

(** The callbacks [show] and [hide] defer. *)
Inductive task :=
  | AddShowClass (m : jsstring)                  (** [requestAnimationFrame] of [show] *)
  | FinishHide (m : jsstring) (info : option entry).  (** [setTimeout(..., 300)] of [hide] *)

Record state := mkState {
  activeModals : list jsstring;        (** [this.activeModals], a [Set] *)
  modalStack : list entry;             (** [this.modalStack] *)
  dom : JsMap.t jsstring element;      (** the modal elements by id *)
  activeElement : option jsstring;     (** [document.activeElement] *)
  overflowHidden : bool;               (** [document.body.style.overflow === 'hidden'] *)
  timers : Timers.t task;
  emitted : list event }.

(** The manager built on a page whose modal elements are [dom]. *)
Definition init (now : Z) (dom : JsMap.t jsstring element) : state :=
  mkState [] [] dom None false (Timers.empty now) [].

Section ModalManager.
(** The first element of [modal.querySelectorAll('button, [href], ...')]. *)
Variable first_focusable : jsstring -> option jsstring.

(** [show(modalId, options)]. *)
Definition show (modalId : jsstring) (o : options) (st : state) : state :=
  match JsMap.get modalId (dom st) with
  | None => st
  | Some el =>
      let prev := activeElement st in
      mkState (set_add modalId (activeModals st))
        (modalStack st ++ [mkEntry modalId o prev])
        (JsMap.set modalId (mkElement true true (cls_show el)) (dom st))
        (if focus o then match first_focusable modalId with Some f => Some f | None => prev end else prev)
        true
        (Timers.requestAnimationFrame (AddShowClass modalId) (timers st))
        (emitted st ++ (if onShow o then [OnShowCalled modalId] else []) ++ [ModalShow modalId])
  end.

(** [hide(modalId)]: the element loses [show] now and the rest of the
  work is deferred by 300 ms. *)
Definition hide (modalId : jsstring) (st : state) : state :=
  match JsMap.get modalId (dom st) with
  | Some el =>
      if bool_decide (modalId ∈ activeModals st) then
        let info := List.find (fun e => bool_decide (id e = modalId)) (modalStack st) in
        mkState (set_delete modalId (activeModals st))
          (List.filter (fun e => negb (bool_decide (id e = modalId))) (modalStack st))
          (JsMap.set modalId (mkElement (display_flex el) (cls_active el) false) (dom st))
          (activeElement st) (overflowHidden st)
          (Timers.setTimeout 300 (FinishHide modalId info) (timers st))
          (emitted st)
      else st
  | None => st
  end.

(** The deferred callbacks. *)
Definition run_task (tk : task) (st : state) : state :=
  match tk with
  | AddShowClass m =>
      mkState (activeModals st) (modalStack st)
        (map_update m (fun el => mkElement (display_flex el) (cls_active el) true) (dom st))
        (activeElement st) (overflowHidden st) (timers st) (emitted st)
  | FinishHide m info =>
      mkState (activeModals st) (modalStack st)
        (map_update m (fun el => mkElement false false (cls_show el)) (dom st))
        (match info with Some {| previousFocus := Some f |} => Some f | _ => activeElement st end)
        (if bool_decide (activeModals st = []) then false else overflowHidden st)
        (timers st)
        (emitted st ++ (match info with Some e => (if onHide (opts e) then [OnHideCalled m] else []) | None => [] end)
                    ++ [ModalHide m])
  end.

(** The next animation frame. *)
Definition run_frame (st : state) : state :=
  let '(fs, q) := Timers.take_frames (timers st) in
  fold_left (fun s tk => run_task tk s) fs
    (mkState (activeModals st) (modalStack st) (dom st) (activeElement st) (overflowHidden st) q (emitted st)).

(** The next timeout. *)
Definition run_timer (st : state) : state :=
  match Timers.next (timers st) with
  | Some (tk, q) =>
      run_task tk (mkState (activeModals st) (modalStack st) (dom st) (activeElement st) (overflowHidden st) q (emitted st))
  | None => st
  end.

(** [hideAll()]. *)
Definition hideAll (st : state) : state := fold_left (fun s m => hide m s) (activeModals st) st.

(** [_handleEscapeKey(event)] with [event.key]. *)
Definition _handleEscapeKey (key : jsstring) (st : state) : state :=
  if bool_decide (key = js "Escape") then
    match last (modalStack st) with
    | Some top => if closeOnEscape (opts top) then hide (id top) st else st
    | None => st
    end
  else st.

(** [_handleBackdropClick(event)]: [target] is the id of [event.target]. *)
Definition _handleBackdropClick (target : option jsstring) (st : state) : state :=
  match last (modalStack st) with
  | None => st
  | Some top =>
      if bool_decide (target = Some (id top)) && JsMap.has (id top) (dom st) && closeOnBackdrop (opts top)
      then hide (id top) st else st
  end.

(** [getActiveModals()]. *)
Definition getActiveModals (st : state) : list jsstring := activeModals st.

(** Every way the manager's state changes: a method called by the page
  or a deferred callback running. *)
Inductive step : state -> state -> Prop :=
  | step_show m o st : step st (show m o st)
  | step_hide m st : step st (hide m st)
  | step_hideAll st : step st (hideAll st)
  | step_escape k st : step st (_handleEscapeKey k st)
  | step_backdrop t st : step st (_handleBackdropClick t st)
  | step_frame st : step st (run_frame st)
  | step_timer st : step st (run_timer st).

(** The invariant: [activeModals] holds each id once, exactly the ids
  of [modalStack], each of them a modal of the page; while one is active
  the page does not scroll. *)
Definition inv (st : state) : Prop :=
  NoDup (activeModals st) /\
  (forall m, m ∈ activeModals st <-> m ∈ map id (modalStack st)) /\
  (forall m, m ∈ activeModals st -> m ∈ JsMap.keys (dom st)) /\
  (activeModals st <> [] -> overflowHidden st = true).

Lemma keys_set_found {V} (k : jsstring) (v v' : V) (m : JsMap.t jsstring V) :
  JsMap.get k m = Some v -> JsMap.keys (JsMap.set k v' m) = JsMap.keys m.
Proof. intros E. apply JsMap.keys_set_in, (JsMap.get_Some_in _ _ _ E). Qed.

Lemma elem_of_map_id_filter (m x : jsstring) (l : list entry) :
  x ∈ map id (List.filter (fun e => negb (bool_decide (id e = m))) l) <-> x <> m /\ x ∈ map id l.
Proof.
  rewrite !list_elem_of_In, !in_map_iff. setoid_rewrite filter_In.
  setoid_rewrite negb_true_iff. setoid_rewrite bool_decide_eq_false.
  split; [intros (e & <- & He & Hne)|intros (Hne & e & <- & He)]; eauto.
Qed.

Lemma set_delete_nil (x : jsstring) (l : list jsstring) : set_delete x l <> [] -> l <> [].
Proof. by intros H ->. Qed.

Lemma show_keys m o st : JsMap.keys (dom (show m o st)) = JsMap.keys (dom st).
Proof. unfold show. destruct (JsMap.get m (dom st)) eqn:E; [by eapply keys_set_found|done]. Qed.

Lemma hide_keys m st : JsMap.keys (dom (hide m st)) = JsMap.keys (dom st).
Proof.
  unfold hide. destruct (JsMap.get m (dom st)) eqn:E; [|done].
  case_bool_decide; [by eapply keys_set_found|done].
Qed.

Lemma run_task_keys tk st : JsMap.keys (dom (run_task tk st)) = JsMap.keys (dom st).
Proof. destruct tk; apply keys_update. Qed.

Lemma show_inv m o st : inv st -> inv (show m o st).
Proof.
  unfold show. destruct (JsMap.get m (dom st)) eqn:E; [|done].
  intros (Hnd & Hst & Hdom & Hov). unfold inv; cbn [activeModals modalStack dom overflowHidden]. repeat split; auto with gallery.
  - rewrite elem_of_set_add, Hst, map_app, elem_of_app. cbn [map id]. rewrite list_elem_of_singleton. tauto.
  - rewrite elem_of_set_add, Hst, map_app, elem_of_app. cbn [map id]. rewrite list_elem_of_singleton. tauto.
  - rewrite (keys_set_found _ _ _ _ E). intros x [->|Hx]%elem_of_set_add; [|by auto].
    apply (JsMap.get_Some_in _ _ _ E).
Qed.

Lemma hide_inv m st : inv st -> inv (hide m st).
Proof.
  unfold hide. destruct (JsMap.get m (dom st)) eqn:E; [|done]. case_bool_decide; [|done].
  intros (Hnd & Hst & Hdom & Hov). unfold inv; cbn [activeModals modalStack dom overflowHidden]. repeat split; auto with gallery.
  - rewrite elem_of_set_delete, elem_of_map_id_filter, Hst. tauto.
  - rewrite elem_of_set_delete, elem_of_map_id_filter, Hst. tauto.
  - rewrite (keys_set_found _ _ _ _ E). intros x [_ Hx]%elem_of_set_delete. by auto.
  - intros Hne. apply Hov, (set_delete_nil m), Hne.
Qed.

Lemma run_task_inv tk st : inv st -> inv (run_task tk st).
Proof.
  intros (Hnd & Hst & Hdom & Hov). unfold inv. rewrite run_task_keys.
  destruct tk; cbn [run_task activeModals modalStack overflowHidden]; do 3 (split; [done|]); [done|].
  case_bool_decide; auto.
Qed.

Lemma fold_run_task_inv fs st : inv st -> inv (fold_left (fun s tk => run_task tk s) fs st).
Proof. revert st. induction fs; intros st Hst; cbn; auto using run_task_inv. Qed.

Lemma fold_hide_inv ms st : inv st -> inv (fold_left (fun s m => hide m s) ms st).
Proof. revert st. induction ms; intros st Hst; cbn; auto using hide_inv. Qed.

#[local] Hint Resolve show_inv hide_inv run_task_inv fold_run_task_inv fold_hide_inv : core.

Lemma modal_step_inv st st' : inv st -> step st st' -> inv st'.
Proof.
  intros Hi Hs. destruct Hs; auto.
  - unfold hideAll. auto.
  - unfold _handleEscapeKey. case_bool_decide; [|done]. destruct (last _) as [[]|]; cbn; [|done].
    destruct (closeOnEscape _); auto.
  - unfold _handleBackdropClick. destruct (last _); [|done]. destruct (_ && _); auto.
  - unfold run_frame. cbn. apply fold_run_task_inv. destruct Hi as (H1 & H2 & H3 & H4). exact (conj H1 (conj H2 (conj H3 H4))).
  - unfold run_timer. destruct (Timers.next _) as [[]|]; [|done]. apply run_task_inv.
    destruct Hi as (H1 & H2 & H3 & H4). exact (conj H1 (conj H2 (conj H3 H4))).
Qed.

(** The states the manager reaches from [init] on a page. *)
Definition reachable (now : Z) (d : JsMap.t jsstring element) (st : state) : Prop :=
  rtc step (init now d) st.

Lemma rtc_step_inv st st' : rtc step st st' -> inv st -> inv st'.
Proof. induction 1; eauto using modal_step_inv. Qed.

(** C14: every state [ModalManager] reaches satisfies [inv]: [activeModals]
  and the ids of [modalStack] are the same set of modals of the page, and
  the page scroll is locked while a modal is active. *)
Theorem modal_inv_reachable (now : Z) (d : JsMap.t jsstring element) (st : state) :
  reachable now d st -> inv st.
Proof.
  intros Hr. apply (rtc_step_inv _ _ Hr). repeat split; cbn; try done; try constructor.
  all: intros ?; by rewrite elem_of_nil.
Qed.

Lemma last_in {A} (l : list A) (x : A) : last l = Some x -> x ∈ l.
Proof. intros H. apply last_Some in H as [l' ->]. apply elem_of_app. right. by left. Qed.

Lemma inv_top_found st top :
  inv st -> last (modalStack st) = Some top ->
  id top ∈ activeModals st /\ exists el, JsMap.get (id top) (dom st) = Some el.
Proof.
  intros (_ & Hst & Hdom & _) Hl. assert (Ha : id top ∈ activeModals st).
  { apply Hst, list_elem_of_fmap_2, last_in, Hl. }
  split; [done|]. apply JsMap.get_in_Some, Hdom, Ha.
Qed.

(** the Escape key hides exactly the modal on top of the stack when
  its options allow it: it leaves [activeModals] and every entry of
  [modalStack] with its id, and its [FinishHide] is armed for 300 ms. *)
Theorem escape_hides_top (st : state) (top : entry) :
  inv st -> last (modalStack st) = Some top -> closeOnEscape (opts top) = true ->
  let st' := _handleEscapeKey (js "Escape") st in
  activeModals st' = set_delete (id top) (activeModals st) /\
  modalStack st' = List.filter (fun e => negb (bool_decide (id e = id top))) (modalStack st) /\
  exists info, Timers.pending (timers st') =
    Timers.pending (timers st) ++ [((Timers.clock (timers st) + 300)%Z, FinishHide (id top) info)].
Proof.
  intros Hi Hl Hc. destruct (inv_top_found st top Hi Hl) as (Ha & el & He).
  unfold _handleEscapeKey. rewrite bool_decide_eq_true_2 by done. rewrite Hl, Hc.
  unfold hide. rewrite He, bool_decide_eq_true_2 by done. cbn. eauto.
Qed.

Lemma set_delete_add (x : jsstring) (l : list jsstring) : x ∉ l -> set_delete x (set_add x l) = l.
Proof.
  intros Hx. unfold set_add. rewrite bool_decide_eq_false_2 by done.
  unfold set_delete. rewrite List.filter_app. cbn. rewrite bool_decide_eq_true_2 by done. cbn.
  rewrite app_nil_r. apply List_filter_all_in. intros y Hy.
  apply negb_true_iff, bool_decide_eq_false_2. by intros ->.
Qed.

Lemma find_app_last (m : jsstring) (l : list entry) (e : entry) :
  m ∉ map id l -> id e = m -> List.find (fun e => bool_decide (id e = m)) (l ++ [e]) = Some e.
Proof.
  intros Hm He. induction l as [|e' l IH]; cbn; [by rewrite bool_decide_eq_true_2|].
  rewrite bool_decide_eq_false_2; [apply IH|]; intros Hin; apply Hm; cbn; rewrite elem_of_cons; auto.
Qed.

(** a modal shown on a quiet page and hidden again leaves the manager
  as it found it once the hide animation is over: the same active
  modals and stack, the focus back on the element that held it, the
  page scroll locked only if another modal is active, and the element
  no longer displayed. *)
Theorem show_hide_roundtrip (st : state) (m : jsstring) (o : options) (el : element) :
  inv st -> JsMap.get m (dom st) = Some el -> m ∉ activeModals st ->
  Timers.pending (timers st) = [] -> is_Some (activeElement st) ->
  let st' := run_timer (hide m (show m o st)) in
  activeModals st' = activeModals st /\ modalStack st' = modalStack st /\
  activeElement st' = activeElement st /\
  overflowHidden st' = negb (bool_decide (activeModals st = [])) /\
  exists c, JsMap.get m (dom st') = Some (mkElement false false c).
Proof.
  intros (_ & Hst & _ & _) He Hm Hp [f Hf]. unfold show. rewrite He. unfold hide.
  cbn [dom activeModals modalStack activeElement overflowHidden timers emitted].
  rewrite JsMap.get_set_eq, bool_decide_eq_true_2 by (apply elem_of_set_add; by left).
  assert (Hms : m ∉ map id (modalStack st)) by (by rewrite <- Hst).
  rewrite find_app_last by done. unfold run_timer, Timers.setTimeout, Timers.requestAnimationFrame.
  cbn [timers Timers.pending Timers.clock Timers.frames].
  rewrite Hp, app_nil_l, Timers.next_single.
  cbn [run_task dom activeModals modalStack activeElement overflowHidden timers emitted opts previousFocus].
  rewrite Hf, set_delete_add by done.
  rewrite List.filter_app. cbn [List.filter id]. rewrite bool_decide_eq_true_2 by done. cbn [negb].
  rewrite app_nil_r, List_filter_all_in.
  2:{ intros e He'. apply negb_true_iff, bool_decide_eq_false_2. intros <-.
      apply Hms, list_elem_of_fmap_2, He'. }
  split_and!; try done.
  eexists. rewrite get_update_eq, !JsMap.get_set_eq. reflexivity.
Qed.


(** A page with one modal element, not displayed. *)
Definition page : JsMap.t jsstring element := [(js "modal", mkElement false false false)].

(** a modal shown again while its hide animation runs is hidden by
  the stale [setTimeout] of that [hide]: it stays in [activeModals] (and
  keeps the page scroll locked) with [display: none] and without the
  class [active]. *)
Theorem reshow_during_hide_hidden :
  let m := js "modal" in
  let st := run_timer (run_frame (show m default_options (hide m (run_frame (show m default_options (init 0 page)))))) in
  getActiveModals st = [m] /\ JsMap.get m (dom st) = Some (mkElement false false true) /\ overflowHidden st = true.
Proof. cbv zeta. split_and!; vm_compute; reflexivity. Qed.

End ModalManager.

Lemma modal_inv_reachable_witness :
  getActiveModals (run_frame (show (fun _ => None) (js "modal") default_options (init 0 page))) = [js "modal"] /\
  inv (run_frame (show (fun _ => None) (js "modal") default_options (init 0 page))).
Proof.
  split; [vm_compute; reflexivity|].
  apply (modal_inv_reachable (fun _ => None) 0 page). eapply rtc_l; [apply step_show|].
  eapply rtc_l; [apply step_frame|]. apply rtc_refl.
Defined.
End Modal.

(** ** [TooltipManager] *)

Module Tooltip.

(** The options [show] reads; [None] is a missing option. *)
Record options := mkOptions {
  o_type : option jsstring; o_duration : option Z; o_closable : option bool; o_html : option bool }.

Definition no_options : options := mkOptions None None None None.

(** A tooltip element: [tooltip tooltip-${type}], its content, its close
  button, and the class [show]. *)
Record tooltip := mkTooltip {
  t_type : jsstring; t_message : jsstring; t_html : bool; t_closable : bool; t_show : bool }.

(** The callbacks [show] and [hide] defer. *)
Inductive task :=
  | AddShow (tid : jsstring)      (** [requestAnimationFrame] of [show] *)
  | AutoHide (tid : jsstring)     (** [setTimeout(() => this.hide(tooltipId), duration)] *)
  | Detach (tid : jsstring).      (** [setTimeout(..., 300)] of [hide] *)

Record state := mkState {
  activeTooltips : JsMap.t jsstring tooltip;   (** [this.activeTooltips] *)
  container : list jsstring;                   (** the children of [tooltipContainer] *)
  timers : Timers.t task }.

Definition init (now : Z) : state := mkState [] [] (Timers.empty now).

(** [show(message, options)]: the id is [StringUtils.generateId()] at the
  current time with the digits [random36] of [Math.random()]. *)
Definition show (message : jsstring) (o : options) (random36 : jsstring) (st : state) : jsstring * state :=
  let type := default (js "info") (o_type o) in
  let duration := default 3000%Z (o_duration o) in
  let closable := default true (o_closable o) in
  let html := default false (o_html o) in
  let tooltipId := StringUtils.generateId (Timers.clock (timers st)) random36 in
  let q := Timers.requestAnimationFrame (AddShow tooltipId) (timers st) in
  (tooltipId,
   mkState (JsMap.set tooltipId (mkTooltip type message html closable false) (activeTooltips st))
     (container st ++ [tooltipId])
     (if (0 <? duration)%Z then Timers.setTimeout duration (AutoHide tooltipId) q else q)).

(** [hide(tooltipId)]. *)
Definition hide (tooltipId : jsstring) (st : state) : state :=
  match JsMap.get tooltipId (activeTooltips st) with
  | None => st
  | Some t =>
      mkState (JsMap.set tooltipId (mkTooltip (t_type t) (t_message t) (t_html t) (t_closable t) false) (activeTooltips st))
        (container st) (Timers.setTimeout 300 (Detach tooltipId) (timers st))
  end.

(** [success], [error] and [warning]: [{...options, type, duration}]. *)
Definition success (message : jsstring) (o : options) : jsstring -> state -> jsstring * state :=
  show message (mkOptions (Some (js "success")) (o_duration o) (o_closable o) (o_html o)).

Definition error (message : jsstring) (o : options) : jsstring -> state -> jsstring * state :=
  show message (mkOptions (Some (js "error")) (Some 5000%Z) (o_closable o) (o_html o)).

Definition warning (message : jsstring) (o : options) : jsstring -> state -> jsstring * state :=
  show message (mkOptions (Some (js "warning")) (Some 4000%Z) (o_closable o) (o_html o)).

(** [clear()]. *)
Definition clear (st : state) : state := fold_left (fun s k => hide k s) (JsMap.keys (activeTooltips st)) st.

(** The deferred callbacks; [Detach] removes the element if it is still
  in the container ([tooltip.parentNode]). *)
Definition run_task (tk : task) (st : state) : state :=
  match tk with
  | AddShow k =>
      mkState (map_update k (fun t => mkTooltip (t_type t) (t_message t) (t_html t) (t_closable t) true) (activeTooltips st))
        (container st) (timers st)
  | AutoHide k => hide k st
  | Detach k =>
      mkState (JsMap.delete k (activeTooltips st)) (set_delete k (container st)) (timers st)
  end.

(** The next timeout. *)
Definition run_timer (st : state) : state :=
  match Timers.next (timers st) with
  | Some (tk, q) => run_task tk (mkState (activeTooltips st) (container st) q)
  | None => st
  end.

(** [n] timeouts in due order. *)
Fixpoint drain (n : nat) (st : state) : state :=
  match n with 0 => st | S n' => drain n' (run_timer st) end.

(** The timeouts that end with the removal of tooltip [k]. *)
Definition hides (k : jsstring) (tk : task) : Prop :=
  match tk with AutoHide j | Detach j => j = k | AddShow _ => False end.

(** Every active tooltip will be hidden by an armed timeout, and the
  container holds only active tooltips. *)
Definition covered (st : state) : Prop :=
  JsMap.wf (activeTooltips st) /\
  (forall k, k ∈ container st -> k ∈ JsMap.keys (activeTooltips st)) /\
  (forall k, k ∈ JsMap.keys (activeTooltips st) -> exists p, p ∈ Timers.pending (timers st) /\ hides k p.2).

(** An [AutoHide] still has a [Detach] to come. *)
Definition weight (p : Z * task) : nat := match p.2 with AutoHide _ => 2 | _ => 1 end.

Definition pending_weight (st : state) : nat := sum_list_with weight (Timers.pending (timers st)).

Lemma run_timer_spec (st : state) :
  Timers.pending (timers st) <> [] ->
  exists d x q', Timers.pending (timers st) ≡ₚ (d, x) :: Timers.pending q' /\
    run_timer st = run_task x (mkState (activeTooltips st) (container st) q').
Proof.
  intros Hne. destruct (Timers.next_Some _ Hne) as (x & q' & Hn & [d Hp] & _).
  exists d, x, q'. unfold run_timer. by rewrite Hn.
Qed.

Lemma keys_delete_elem (k j : jsstring) (m : JsMap.t jsstring tooltip) :
  JsMap.wf m -> j ∈ JsMap.keys (JsMap.delete k m) <-> j <> k /\ j ∈ JsMap.keys m.
Proof.
  intros Hwf. split.
  - intros Hj. split; [|by apply JsMap.keys_delete_sub in Hj].
    intros ->. destruct (JsMap.get_in_Some _ _ Hj) as [v Hv]. by rewrite JsMap.get_delete_eq in Hv.
  - intros [Hne Hj]. destruct (JsMap.get_in_Some _ _ Hj) as [v Hv].
    apply (JsMap.get_Some_in _ v). by rewrite JsMap.get_delete_ne.
Qed.

Lemma keys_hide (k : jsstring) (st : state) :
  JsMap.keys (activeTooltips (hide k st)) = JsMap.keys (activeTooltips st).
Proof.
  unfold hide. destruct (JsMap.get k _) eqn:E; [|done].
  apply JsMap.keys_set_in, (JsMap.get_Some_in _ _ _ E).
Qed.

Lemma run_timer_covered (st : state) : covered st -> covered (run_timer st).
Proof.
  intros Hc. destruct (decide (Timers.pending (timers st) = [])) as [Hnil|Hne].
  { unfold run_timer. by rewrite (proj2 (Timers.next_None _) Hnil). }
  destruct (run_timer_spec st Hne) as (d & x & q' & Hp & ->).
  destruct Hc as (Hwf & Hcont & Hcov).
  assert (Hold : forall j, j ∈ JsMap.keys (activeTooltips st) -> ~ hides j x ->
                 exists p, p ∈ Timers.pending q' /\ hides j p.2).
  { intros j Hj Hx. destruct (Hcov j Hj) as (p & Hin & Hh). rewrite Hp in Hin.
    apply elem_of_cons in Hin as [->|Hin]; [done|]. by exists p. }
  destruct x as [k|k|k]; cbn [run_task].
  - unfold covered; cbn [activeTooltips container timers]. unfold JsMap.wf. rewrite keys_update.
    split_and!; [done|done|]. intros j Hj. apply Hold; [done|]. cbn. tauto.
  - unfold hide. cbn [activeTooltips]. destruct (JsMap.get k _) eqn:E;
      unfold covered; cbn [activeTooltips container timers].
    + rewrite (JsMap.keys_set_in _ _ _ (JsMap.get_Some_in _ _ _ E)).
      split_and!; [by apply JsMap.wf_set|done|]. intros j Hj. unfold Timers.setTimeout. cbn [Timers.pending].
      destruct (decide (j = k)) as [->|Hjk].
      * eexists. split; [apply elem_of_app; right; by left|done].
      * destruct (Hold j Hj) as (p & Hin & Hh); [cbn; congruence|].
        exists p. split; [|done]. apply elem_of_app. by left.
    + split_and!; [done|done|]. intros j Hj.
      apply Hold; [done|]. cbn. intros <-. apply JsMap.get_in_Some in Hj as [v Hv]. congruence.
  - unfold covered; cbn [activeTooltips container timers]. split_and!.
    + by apply JsMap.wf_delete.
    + intros j [Hjk Hj]%elem_of_set_delete. apply keys_delete_elem; auto.
    + intros j [Hjk Hj]%keys_delete_elem; [|done]. apply Hold; [done|]. cbn. congruence.
Qed.

Lemma run_timer_weight (st : state) :
  Timers.pending (timers st) <> [] -> pending_weight (run_timer st) < pending_weight st.
Proof.
  intros Hne. destruct (run_timer_spec st Hne) as (d & x & q' & Hp & ->).
  unfold pending_weight. rewrite Hp. cbn [sum_list_with weight snd].
  destruct x as [k|k|k]; cbn [run_task timers weight snd].
  - lia.
  - unfold hide. cbn [activeTooltips]. destruct (JsMap.get k _); cbn [timers]; [|lia].
    cbn. rewrite sum_list_with_app. cbn. lia.
  - lia.
Qed.

Lemma drain_nil (n : nat) (st : state) :
  Timers.pending (timers st) = [] -> drain n st = st.
Proof.
  intros Hnil. induction n; cbn [drain]; [done|]. unfold run_timer at 1.
  rewrite (proj2 (Timers.next_None _) Hnil). apply IHn.
Qed.

Lemma drain_spec (n : nat) (st : state) :
  covered st -> pending_weight st <= n ->
  covered (drain n st) /\ Timers.pending (timers (drain n st)) = [].
Proof.
  revert st. induction n as [|n IH]; intros st Hc Hw; cbn [drain].
  - destruct (Timers.pending (timers st)) as [|p l] eqn:E; [done|].
    unfold pending_weight in Hw. rewrite E in Hw. cbn in Hw. unfold weight in Hw.
    destruct (snd p); lia.
  - destruct (decide (Timers.pending (timers st) = [])) as [Hnil|Hne].
    + unfold run_timer. rewrite (proj2 (Timers.next_None _) Hnil), drain_nil by done. done.
    + apply IH; [by apply run_timer_covered|]. pose proof (run_timer_weight st Hne). lia.
Qed.

Lemma pending_weight_le (st : state) : pending_weight st <= 2 * length (Timers.pending (timers st)).
Proof.
  unfold pending_weight. induction (Timers.pending (timers st)) as [|p l IH]; cbn; [lia|].
  unfold weight at 1. destruct (snd p); lia.
Qed.

Lemma init_covered (now : Z) : covered (init now).
Proof. split_and!; [constructor|intros ? []%not_elem_of_nil..]. Qed.

(** [show] with a positive duration and [hide] keep every tooltip
  covered. *)
Lemma show_covered (message : jsstring) (o : options) (r : jsstring) (st : state) :
  covered st -> (0 < default 3000 (o_duration o))%Z -> covered (show message o r st).2.
Proof.
  intros (Hwf & Hcont & Hcov) Hd. unfold show. cbn [snd]. rewrite (proj2 (Z.ltb_lt _ _) Hd).
  unfold covered. cbn [activeTooltips container timers]. unfold Timers.setTimeout. cbn [Timers.pending].
  split_and!.
  - by apply JsMap.wf_set.
  - intros j Hj. apply elem_of_app in Hj as [Hj|Hj%list_elem_of_singleton]; apply JsMap.elem_of_keys_set; auto.
  - intros j [->|Hj]%JsMap.elem_of_keys_set.
    + eexists. split; [apply elem_of_app; right; by left|done].
    + destruct (Hcov j Hj) as (p & Hin & Hh). exists p. split; [|done]. apply elem_of_app. by left.
Qed.

Lemma hide_covered (k : jsstring) (st : state) : covered st -> covered (hide k st).
Proof.
  intros (Hwf & Hcont & Hcov). unfold hide. destruct (JsMap.get k _) eqn:E; [|done].
  unfold covered. cbn [activeTooltips container timers]. unfold Timers.setTimeout. cbn [Timers.pending].
  rewrite (JsMap.keys_set_in _ _ _ (JsMap.get_Some_in _ _ _ E)).
  split_and!; [by apply JsMap.wf_set|done|]. intros j Hj.
  destruct (Hcov j Hj) as (p & Hin & Hh). exists p. split; [|done]. apply elem_of_app. by left.
Qed.

(** C16: every tooltip [TooltipManager] shows with an auto-hide timer (or
  closes) is removed: from a state where each active tooltip has an
  armed [AutoHide] or [Detach], firing the armed timeouts (at most two per
  timeout armed) empties [activeTooltips] and the container. *)
Theorem tooltips_removed (st : state) :
  covered st ->
  let st' := drain (2 * length (Timers.pending (timers st))) st in
  activeTooltips st' = [] /\ container st' = [] /\ Timers.pending (timers st') = [].
Proof.
  intros Hc. cbv zeta.
  destruct (drain_spec _ st Hc (pending_weight_le st)) as ((Hwf & Hcont & Hcov) & Hnil).
  set (st' := drain _ st) in *.
  assert (Hk : JsMap.keys (activeTooltips st') = []).
  { destruct (JsMap.keys _) as [|k ks] eqn:E; [done|].
    destruct (Hcov k) as (p & Hin & _); [by left|]. rewrite Hnil in Hin. by apply not_elem_of_nil in Hin. }
  split_and!; [by destruct (activeTooltips st')| |done].
  destruct (container st') as [|k ks] eqn:E; [done|].
  assert (k ∈ JsMap.keys (activeTooltips st')) as Hin by (apply Hcont; by left).
  rewrite Hk in Hin. by apply not_elem_of_nil in Hin.
Qed.

Lemma tooltips_removed_witness :
  let st := (show (js "saved") no_options (js "0.4fzyo82mvyr") (init 0)).2 in
  covered st /\
  activeTooltips (drain (2 * length (Timers.pending (timers st))) st) = [] /\
  container (drain (2 * length (Timers.pending (timers st))) st) = [] /\
  Timers.pending (timers (drain (2 * length (Timers.pending (timers st))) st)) = [].
Proof.
  cbv zeta. assert (Hc : covered (show (js "saved") no_options (js "0.4fzyo82mvyr") (init 0)).2).
  { apply show_covered; [apply init_covered|reflexivity]. }
  split; [exact Hc|]. exact (tooltips_removed _ Hc).
Defined.

End Tooltip.

(** ** [ProgressManager] *)

Module Progress.
Local Open Scope Q_scope.

(** The options [create] reads; [onCancel] tells whether a callback is
  given. *)
Record options := mkOptions {
  o_title : option jsstring; o_showPercentage : option bool; o_showCancel : option bool; o_onCancel : bool }.

(** A [progress-item] element: its title, whether it has the percentage
  and cancel children, the bar's width, the text, the percentage shown,
  and the class [show]. *)
Record element := mkElement {
  e_title : jsstring; e_percentage_el : bool; e_cancel : bool;
  e_width : Q; e_text : jsstring; e_percentage : Z; e_show : bool }.

(** An entry of [activeProgress]: [{element, options, value}]; elements
  are told apart by a handle. *)
Record progress := mkProgress { p_element : nat; p_options : options; value : Q }.

(** The callbacks [create], [complete] and [remove] defer. *)
Inductive task :=
  | AddShow (h : nat)                   (** [requestAnimationFrame] of [create] *)
  | CompleteRemove (pid : jsstring)     (** [setTimeout(() => this.remove(id), 1000)] *)
  | Detach (pid : jsstring) (h : nat).  (** [setTimeout(..., 300)] of [remove] *)

Record state := mkState {
  activeProgress : JsMap.t jsstring progress;   (** [this.activeProgress] *)
  elements : JsMap.t nat element;               (** the elements created, by handle *)
  container : list nat;                         (** the children of [progressContainer] *)
  next_handle : nat;
  timers : Timers.t task;
  emitted : list (jsstring * Q * jsstring) }.   (** ['progress:update'] events *)

Definition init (now : Z) : state := mkState [] [] [] 0 (Timers.empty now) [].

(** ['处理中...'] (processing). *)
Definition zh_processing : jsstring := [22788; 29702; 20013; 46; 46; 46]%Z.

(** [Math.round]. *)
Definition round (v : Q) : Z := Qfloor (v + (1 # 2)).

(** [create(id, options)]. *)
Definition create (pid : jsstring) (o : options) (st : state) : jsstring * state :=
  let h := next_handle st in
  let el := mkElement (default zh_processing (o_title o)) (default true (o_showPercentage o))
              (default false (o_showCancel o)) 0 [] 0 false in
  (pid, mkState (JsMap.set pid (mkProgress h o 0) (activeProgress st)) (JsMap.set h el (elements st))
          (container st ++ [h]) (S h) (Timers.requestAnimationFrame (AddShow h) (timers st)) (emitted st)).

(** [update(id, value, message)]: [Math.max(0, Math.min(100, value))]. *)
Definition update (pid : jsstring) (v : Q) (message : jsstring) (st : state) : state :=
  match JsMap.get pid (activeProgress st) with
  | None => st
  | Some p =>
      let value := Qmax 0 (Qmin 100 v) in
      mkState (JsMap.set pid (mkProgress (p_element p) (p_options p) value) (activeProgress st))
        (map_update (p_element p)
           (fun e => mkElement (e_title e) (e_percentage_el e) (e_cancel e) value
                       (if bool_decide (message = []) then e_text e else message)
                       (if e_percentage_el e then round value else e_percentage e) (e_show e))
           (elements st))
        (container st) (next_handle st) (timers st) (emitted st ++ [(pid, value, message)])
  end.

(** [remove(id)]: the element loses [show] now, and 300 ms later it is
  detached and [id] deleted from [activeProgress]. *)
Definition remove (pid : jsstring) (st : state) : state :=
  match JsMap.get pid (activeProgress st) with
  | None => st
  | Some p =>
      mkState (activeProgress st)
        (map_update (p_element p)
           (fun e => mkElement (e_title e) (e_percentage_el e) (e_cancel e) (e_width e) (e_text e) (e_percentage e) false)
           (elements st))
        (container st) (next_handle st) (Timers.setTimeout 300 (Detach pid (p_element p)) (timers st)) (emitted st)
  end.

(** ['完成'] (done). *)
Definition zh_done : jsstring := [23436; 25104]%Z.

(** [complete(id, message = '完成')]. *)
Definition complete (pid : jsstring) (message : option jsstring) (st : state) : state :=
  let st1 := update pid 100 (default zh_done message) st in
  mkState (activeProgress st1) (elements st1) (container st1) (next_handle st1)
    (Timers.setTimeout 1000 (CompleteRemove pid) (timers st1)) (emitted st1).

(** The deferred callbacks: [Detach] removes the element the closure
  holds, if still attached, and the entry now under [id]. *)
Definition run_task (tk : task) (st : state) : state :=
  match tk with
  | AddShow h =>
      mkState (activeProgress st)
        (map_update h (fun e => mkElement (e_title e) (e_percentage_el e) (e_cancel e) (e_width e) (e_text e) (e_percentage e) true)
           (elements st))
        (container st) (next_handle st) (timers st) (emitted st)
  | CompleteRemove pid => remove pid st
  | Detach pid h =>
      mkState (JsMap.delete pid (activeProgress st)) (elements st)
        (List.filter (fun h' => negb (h' =? h)%nat) (container st)) (next_handle st) (timers st) (emitted st)
  end.

Definition with_timers (q : Timers.t task) (st : state) : state :=
  mkState (activeProgress st) (elements st) (container st) (next_handle st) q (emitted st).

Definition run_frame (st : state) : state :=
  let '(fs, q) := Timers.take_frames (timers st) in fold_left (fun s tk => run_task tk s) fs (with_timers q st).

Definition run_timer (st : state) : state :=
  match Timers.next (timers st) with Some (tk, q) => run_task tk (with_timers q st) | None => st end.

(** [getActiveProgress()]. *)
Definition getActiveProgress (st : state) : list (jsstring * Q * options) :=
  map (fun '(pid, p) => (pid, value p, p_options p)) (activeProgress st).

(** [update] stores and shows the value clamped to [[0, 100]]: it is
  [MathUtils.clamp(value, 0, 100)], the bar's width, and the value of the
  ['progress:update'] event. *)
Theorem update_clamps (st : state) (pid : jsstring) (p : progress) (v : Q) (message : jsstring) :
  JsMap.get pid (activeProgress st) = Some p ->
  let st' := update pid v message st in
  exists p', JsMap.get pid (activeProgress st') = Some p' /\
    value p' == MathUtils.clamp v 0 100 /\ 0 <= value p' <= 100 /\
    last (emitted st') = Some (pid, value p', message) /\
    option_map e_width (JsMap.get (p_element p) (elements st')) =
      option_map (fun _ => value p') (JsMap.get (p_element p) (elements st)).
Proof.
  intros Hp. unfold update. rewrite Hp. cbv zeta. eexists. cbn [activeProgress emitted elements].
  rewrite JsMap.get_set_eq, get_update_eq, last_app. cbn [value last].
  split_and!; try reflexivity; cbn [value].
  - unfold MathUtils.clamp. destruct (Q.max_spec 0 (Qmin 100 v)) as [[? ?]|[? ?]],
      (Q.min_spec 100 v) as [[? ?]|[? ?]], (Q.max_spec v 0) as [[? ?]|[? ?]],
      (Q.min_spec (Qmax v 0) 100) as [[? ?]|[? ?]]; lra.
  - destruct (Q.max_spec 0 (Qmin 100 v)) as [[? Hx]|[? Hx]], (Q.min_spec 100 v) as [[? Hm]|[? Hm]]; lra.
  - destruct (Q.max_spec 0 (Qmin 100 v)) as [[? Hx]|[? Hx]], (Q.min_spec 100 v) as [[? Hm]|[? Hm]]; lra.
  - by destruct (JsMap.get _ (elements st)).
Qed.

Definition upload_options : options := mkOptions (Some (js "upload")) None None false.

Lemma update_clamps_witness :
  let st := (create (js "upload") upload_options (init 0)).2 in
  JsMap.get (js "upload") (activeProgress st) = Some (mkProgress 0 upload_options 0) /\
  exists p', JsMap.get (js "upload") (activeProgress (update (js "upload") (250 # 2) [] st)) = Some p' /\
    value p' == MathUtils.clamp (250 # 2) 0 100 /\ 0 <= value p' <= 100 /\
    last (emitted (update (js "upload") (250 # 2) [] st)) = Some (js "upload", value p', []) /\
    option_map e_width (JsMap.get 0%nat (elements (update (js "upload") (250 # 2) [] st))) =
      option_map (fun _ => value p') (JsMap.get 0%nat (elements st)).
Proof.
  cbv zeta. assert (H : JsMap.get (js "upload") (activeProgress (create (js "upload") upload_options (init 0)).2)
                        = Some (mkProgress 0 upload_options 0)) by reflexivity.
  split; [exact H|]. exact (update_clamps _ _ _ (250 # 2) [] H).
Defined.

(** a progress bar removed and created again under the same id
  before the 300 ms of [remove] are over is orphaned: the stale callback
  deletes the new entry from [activeProgress] while the new element stays
  in the container, shown, and [update] and [remove] no longer reach it. *)
Theorem recreate_during_remove_orphaned :
  let a := js "upload" in
  let st := run_timer (run_frame (create a upload_options (remove a (run_frame (create a upload_options (init 0)).2))).2) in
  JsMap.get a (activeProgress st) = None /\ container st = [1%nat] /\
  option_map e_show (JsMap.get 1%nat (elements st)) = Some true /\
  update a 50 (js "50%") st = st /\ remove a st = st.
Proof. cbv zeta. split_and!; vm_compute; reflexivity. Qed.

End Progress.

(** ** [LoadingManager] *)

Module Loading.

(** The options [show] reads; [o_target] is the id of the target element. *)
Record options := mkOptions {
  o_message : option jsstring; o_global : option bool; o_target : option jsstring; o_spinner : option bool }.

(** A [loadingState]. *)
Record loading := mkLoading {
  l_id : jsstring; l_message : jsstring; l_global : bool; l_target : option jsstring;
  l_spinner : bool; l_startTime : Z }.

(** The global overlay: [style.display] is [flex], the class [show], its
  message and whether its spinner is displayed. *)
Record overlay := mkOverlay { ov_flex : bool; ov_show : bool; ov_message : jsstring; ov_spinner : bool }.

Inductive event :=
  | LoadingShow (id : jsstring)                (** ['loading:show'] *)
  | LoadingHide (id : jsstring) (duration : Z). (** ['loading:hide'] *)

Inductive task :=
  | OverlayShow                          (** [requestAnimationFrame] of [_showGlobalLoading] *)
  | OverlayHidden                        (** [setTimeout(..., 300)] of [_hideGlobalLoading] *)
  | TargetShow (h : nat)                 (** [requestAnimationFrame] of [_showTargetLoading] *)
  | TargetRemove (t : jsstring) (h : nat). (** [setTimeout(..., 300)] of [_hideTargetLoading] *)

Record state := mkState {
  loadingStates : JsMap.t jsstring loading;     (** [this.loadingStates] *)
  globalLoading : bool;                         (** [this.globalLoading] *)
  loadingOverlay : overlay;
  targets : JsMap.t jsstring (list (nat * bool)); (** the [.target-loading] children of each target, with [show] *)
  next_handle : nat;
  timers : Timers.t task;
  emitted : list event }.

(** ['加载中...'] (loading). *)
Definition zh_loading : jsstring := [21152; 36733; 20013; 46; 46; 46]%Z.

Definition init (now : Z) : state :=
  mkState [] false (mkOverlay false false zh_loading true) [] 0 (Timers.empty now) [].

Definition with_timers (q : Timers.t task) (st : state) : state :=
  mkState (loadingStates st) (globalLoading st) (loadingOverlay st) (targets st) (next_handle st) q (emitted st).

(** [_showGlobalLoading(message, spinner)]. *)
Definition _showGlobalLoading (message : jsstring) (spinner : bool) (st : state) : state :=
  if globalLoading st then st
  else mkState (loadingStates st) true (mkOverlay true (ov_show (loadingOverlay st)) message spinner)
         (targets st) (next_handle st) (Timers.requestAnimationFrame OverlayShow (timers st)) (emitted st).

(** [_hideGlobalLoading()]. *)
Definition _hideGlobalLoading (st : state) : state :=
  if globalLoading st then
    let ov := loadingOverlay st in
    mkState (loadingStates st) false (mkOverlay (ov_flex ov) false (ov_message ov) (ov_spinner ov))
      (targets st) (next_handle st) (Timers.setTimeout 300 OverlayHidden (timers st)) (emitted st)
  else st.

(** [_showTargetLoading(target, message, spinner)]: a new element
  appended to the target. *)
Definition _showTargetLoading (t : jsstring) (st : state) : state :=
  let h := next_handle st in
  mkState (loadingStates st) (globalLoading st) (loadingOverlay st)
    (JsMap.set t (default [] (JsMap.get t (targets st)) ++ [(h, false)]) (targets st))
    (S h) (Timers.requestAnimationFrame (TargetShow h) (timers st)) (emitted st).

(** [_hideTargetLoading(target)]: [target.querySelector('.target-loading')]
  is the first such child still attached. *)
Definition _hideTargetLoading (t : jsstring) (st : state) : state :=
  match default [] (JsMap.get t (targets st)) with
  | (h, _) :: rest =>
      mkState (loadingStates st) (globalLoading st) (loadingOverlay st)
        (JsMap.set t ((h, false) :: rest) (targets st)) (next_handle st)
        (Timers.setTimeout 300 (TargetRemove t h) (timers st)) (emitted st)
  | [] => st
  end.

(** [show(id, options)] at the current time. *)
Definition show (lid : jsstring) (o : options) (st : state) : state :=
  let message := default zh_loading (o_message o) in
  let global := default false (o_global o) in
  let spinner := default true (o_spinner o) in
  let ls := mkLoading lid message global (o_target o) spinner (Timers.clock (timers st)) in
  let st1 := mkState (JsMap.set lid ls (loadingStates st)) (globalLoading st) (loadingOverlay st)
               (targets st) (next_handle st) (timers st) (emitted st) in
  let st2 := if global then _showGlobalLoading message spinner st1
             else match o_target o with Some t => _showTargetLoading t st1 | None => st1 end in
  mkState (loadingStates st2) (globalLoading st2) (loadingOverlay st2) (targets st2) (next_handle st2)
    (timers st2) (emitted st2 ++ [LoadingShow lid]).

(** [hide(id)]. *)
Definition hide (lid : jsstring) (st : state) : state :=
  match JsMap.get lid (loadingStates st) with
  | None => st
  | Some ls =>
      let duration := (Timers.clock (timers st) - l_startTime ls)%Z in
      let st1 := if l_global ls then _hideGlobalLoading st
                 else match l_target ls with Some t => _hideTargetLoading t st | None => st end in
      mkState (JsMap.delete lid (loadingStates st1)) (globalLoading st1) (loadingOverlay st1) (targets st1)
        (next_handle st1) (timers st1) (emitted st1 ++ [LoadingHide lid duration])
  end.

(** The deferred callbacks. *)
Definition run_task (tk : task) (st : state) : state :=
  let ov := loadingOverlay st in
  match tk with
  | OverlayShow =>
      mkState (loadingStates st) (globalLoading st) (mkOverlay (ov_flex ov) true (ov_message ov) (ov_spinner ov))
        (targets st) (next_handle st) (timers st) (emitted st)
  | OverlayHidden =>
      mkState (loadingStates st) (globalLoading st) (mkOverlay false (ov_show ov) (ov_message ov) (ov_spinner ov))
        (targets st) (next_handle st) (timers st) (emitted st)
  | TargetShow h =>
      mkState (loadingStates st) (globalLoading st) ov
        (map (fun '(t, els) => (t, map (fun '(h', s) => if (h' =? h)%nat then (h', true) else (h', s)) els)) (targets st))
        (next_handle st) (timers st) (emitted st)
  | TargetRemove t h =>
      mkState (loadingStates st) (globalLoading st) ov
        (map_update t (List.filter (fun '(h', _) => negb (h' =? h)%nat)) (targets st))
        (next_handle st) (timers st) (emitted st)
  end.

Definition run_frame (st : state) : state :=
  let '(fs, q) := Timers.take_frames (timers st) in fold_left (fun s tk => run_task tk s) fs (with_timers q st).

Definition run_timer (st : state) : state :=
  match Timers.next (timers st) with Some (tk, q) => run_task tk (with_timers q st) | None => st end.

(** [hasActiveLoading()] and [getLoadingStates()]. *)
Definition hasActiveLoading (st : state) : bool := negb (JsMap.size (loadingStates st) =? 0)%nat.

Definition getLoadingStates (st : state) : list loading := map snd (loadingStates st).

Definition global_options : options := mkOptions None (Some true) None None.

Definition target_options (t : jsstring) : options := mkOptions None None (Some t) None.

(** a global loading shown and hidden on a quiet page leaves the
  loading states as they were, reports a duration of the time between
  the two calls, and hides the overlay once its fade-out is over. *)
Theorem global_show_hide_roundtrip (st : state) (lid : jsstring) (dt : Z) :
  globalLoading st = false -> lid ∉ JsMap.keys (loadingStates st) ->
  Timers.pending (timers st) = [] -> (0 <= dt)%Z ->
  let st1 := show lid global_options st in
  let st2 := with_timers (Timers.mkTimers (Timers.clock (timers st1) + dt) (Timers.pending (timers st1)) (Timers.frames (timers st1))) st1 in
  let st' := run_timer (hide lid st2) in
  loadingStates st' = loadingStates st /\ globalLoading st' = false /\
  ov_flex (loadingOverlay st') = false /\ ov_show (loadingOverlay st') = false /\
  last (emitted st') = Some (LoadingHide lid dt).
Proof.
  intros Hg Hk Hp Hdt. unfold show, hide, _showGlobalLoading, global_options.
  cbn -[JsMap.get JsMap.set JsMap.delete js]. rewrite Hg.
  cbn -[JsMap.get JsMap.set JsMap.delete js]. rewrite JsMap.get_set_eq.
  cbn -[JsMap.get JsMap.set JsMap.delete js]. rewrite Hp.
  unfold run_timer, Timers.setTimeout. cbn -[JsMap.get JsMap.set JsMap.delete js Timers.next]. rewrite Timers.next_single.
  cbn -[JsMap.get JsMap.set JsMap.delete js].
  rewrite JsMap.delete_set_notin by done. split_and!; try done. rewrite last_app. cbn. do 2 f_equal. lia.
Qed.

Lemma global_show_hide_roundtrip_witness :
  let st := init 0 in
  globalLoading st = false /\ (js "app-loading" ∉ JsMap.keys (loadingStates st)) /\
  Timers.pending (timers st) = [] /\ (0 <= 1200)%Z /\
  (let st1 := show (js "app-loading") global_options st in
   let st2 := with_timers (Timers.mkTimers (Timers.clock (timers st1) + 1200) (Timers.pending (timers st1)) (Timers.frames (timers st1))) st1 in
   let st' := run_timer (hide (js "app-loading") st2) in
   loadingStates st' = loadingStates st /\ globalLoading st' = false /\
   ov_flex (loadingOverlay st') = false /\ ov_show (loadingOverlay st') = false /\
   last (emitted st') = Some (LoadingHide (js "app-loading") 1200)).
Proof.
  cbv zeta. assert (Hk : js "app-loading" ∉ JsMap.keys (loadingStates (init 0))) by apply not_elem_of_nil.
  split; [reflexivity|]. split; [exact Hk|]. split; [reflexivity|]. split; [lia|].
  exact (global_show_hide_roundtrip (init 0) (js "app-loading") 1200 eq_refl Hk eq_refl ltac:(lia)).
Defined.

(** [globalLoading] is a flag, not a count: with two global loadings
  shown, hiding the first hides the overlay while the second is still
  loading ([hasActiveLoading] is [true], its state is global). *)
Theorem nested_global_overlay_hidden :
  let st := run_timer (hide (js "a") (run_frame (show (js "b") global_options (show (js "a") global_options (init 0))))) in
  hasActiveLoading st = true /\ option_map l_global (JsMap.get (js "b") (loadingStates st)) = Some true /\
  globalLoading st = false /\ ov_flex (loadingOverlay st) = false /\ ov_show (loadingOverlay st) = false.
Proof. cbv zeta. split_and!; vm_compute; reflexivity. Qed.

(** two loadings on the same target hidden within 300 ms of each
  other both remove the first element: the second loading's element
  stays in the target after both are hidden. *)
Theorem target_second_element_left :
  let t := js "gallery" in
  let st := run_timer (run_timer (hide (js "b") (hide (js "a")
              (run_frame (show (js "b") (target_options t) (show (js "a") (target_options t) (init 0))))))) in
  hasActiveLoading st = false /\ JsMap.get t (targets st) = Some [(1%nat, true)].
Proof. cbv zeta. split_and!; vm_compute; reflexivity. Qed.

End Loading.
