(* ===== verification/UIManager.v ===== *)
(** * [ThemeManager], [ResponsiveManager] and [UIManager] of
    [src/src/js/uiManager.js]

    [ThemeManager] and [ResponsiveManager] read [CONFIG.THEMES] and
    [CONFIG.UI.BREAKPOINTS] ([src/src/js/config.js]) as JS values and look
    them up with [ObjectUtils.prop_get]; [ThemeManager] also goes through
    [storageManager.specializedStorage], a property the default export
    of [storageManager.js] (the [StorageManager] instance) does not have.
    A method that throws returns [inl] of its exception with the state
    reached when it threw.  [UIManager] holds the six managers; its
    constructor builds them in the order of the code. *)

From Stdlib Require Import QArith.
From S2P Require Import Prelude JsMap JsValue ObjectUtils Timers UIOverlays.
Import JsValue ObjectUtils.

(** [CONFIG.THEMES]: an array of objects. *)
Definition theme_obj (name primary secondary accent : String.string) : jsval :=
  JObj [(js "name", JStr (js name)); (js "primary", JStr (js primary));
        (js "secondary", JStr (js secondary)); (js "accent", JStr (js accent))].

Arguments theme_obj (name primary secondary accent)%_string_scope.

Definition CONFIG_THEMES : jsval :=
  JArr [theme_obj "default" "#3B82F6" "#10B981" "#F59E0B";
        theme_obj "dark" "#1E40AF" "#065F46" "#B45309";
        theme_obj "purple" "#7C3AED" "#059669" "#DC2626"].

(** [CONFIG.UI]: no [BREAKPOINTS]. *)
Definition CONFIG_UI : jsval :=
  JObj [(js "TOOLTIP_DURATION", JNum 3000); (js "ANIMATION_DURATION", JNum 300);
        (js "SEARCH_DEBOUNCE", JNum 300); (js "PRELOAD_COUNT", JNum 5)].

(** [storageManager.specializedStorage]: the [StorageManager] instance sets
  no such property. *)
Definition storageManager_specializedStorage : jsval := JUndefined.

(** [storageManager.specializedStorage.userPreferences]: reading a
  property of [undefined] throws. *)
Definition userPreferences : js_error + jsval :=
  if nullish storageManager_specializedStorage
  then inl (TypeError (js "Cannot read properties of undefined (reading 'userPreferences')"))
  else inr (prop_get storageManager_specializedStorage (js "userPreferences")).

(** [Object.entries(v)]; [undefined] and [null] throw. *)
Definition entries (v : jsval) : js_error + list (jsstring * jsval) :=
  match v with
  | JUndefined | JNull => inl (TypeError (js "Cannot convert undefined or null to object"))
  | JObj fs => inr fs
  | JArr xs => inr (zip (map nat_to_jsstring (seq 0 (length xs))) xs)
  | JStr s => inr (zip (map nat_to_jsstring (seq 0 (length s))) (map (fun c => JStr [c]) s))
  | _ => inr []
  end.

(** [Object.keys(v)] of an array. *)
Definition keys (v : jsval) : js_error + list jsstring :=
  match entries v with inl e => inl e | inr es => inr (map fst es) end.

(** ** [ThemeManager] *)

Module Theme.

Inductive event := ThemeChanged (oldTheme newTheme : jsstring).  (** [emitThemeChanged] *)

Record state := mkState {
  currentTheme : jsstring;
  bodyClasses : list jsstring;              (** [document.body.classList] *)
  bodyTransition : bool;                    (** [document.body.style.transition] is set *)
  cssVars : JsMap.t jsstring jsstring;      (** [document.documentElement.style] custom properties *)
  timers : Timers.t unit;                   (** the [setTimeout] clearing the transition *)
  emitted : list event }.

Definition themes : jsval := CONFIG_THEMES.

(** [root.style.setProperty(name, value)] for the string values:
  [_updateCSSVariables(themeData)] sets [--key] for a string and
  [--key-subKey] for each string entry of an object. *)
Definition set_vars (prefix : jsstring) (es : list (jsstring * jsval)) (vars : JsMap.t jsstring jsstring) :=
  fold_left (fun vs '(k, v) => match v with JStr s => JsMap.set (prefix ++ k) s vs | _ => vs end) es vars.

Definition _updateCSSVariables (themeData : jsval) (vars : JsMap.t jsstring jsstring)
    : js_error + JsMap.t jsstring jsstring :=
  match entries themeData with
  | inl e => inl e
  | inr es =>
      fold_left (fun acc '(k, v) =>
        match acc with
        | inl e => inl e
        | inr vs =>
            match v with
            | JStr s => inr (JsMap.set (js "--" ++ k) s vs)
            | JNull | JArr _ | JObj _ | JMap _ =>
                match entries v with
                | inl e => inl e
                | inr sub => inr (set_vars (js "--" ++ k ++ js "-") sub vs)
                end
            | _ => inr vs
            end
        end) es (inr vars)
  end.

(** [setTheme(themeName)]: an unknown name is reported and ignored; a
  known one changes the theme, then the call saving it throws. *)
Definition setTheme (themeName : jsstring) (st : state) : (js_error + unit) * state :=
  let data := prop_get themes themeName in
  if falsy data then (inr tt, st)
  else
    let oldTheme := currentTheme st in
    let classes := set_add (js "theme-" ++ themeName) (set_delete (js "theme-" ++ oldTheme) (bodyClasses st)) in
    match _updateCSSVariables data (cssVars st) with
    | inl e => (inl e, mkState themeName classes true (cssVars st) (timers st) (emitted st))
    | inr vars =>
        let st1 := mkState themeName classes true vars (timers st) (emitted st) in
        match userPreferences with
        | inl e => (inl e, st1)
        | inr _ =>
            (inr tt, mkState themeName classes true vars (Timers.setTimeout 300 tt (timers st))
                       (emitted st ++ [ThemeChanged oldTheme themeName]))
        end
  end.

(** [getThemeData(themeName)]: [this.themes[themeName] || null]. *)
Definition getThemeData (themeName : jsstring) : jsval :=
  let data := prop_get themes themeName in if falsy data then JNull else data.

(** The [prefers-color-scheme] listener of [_bindEvents()]: it reads the
  [autoTheme] preference first. *)
Definition onColorSchemeChange (matches : bool) (st : state) : (js_error + unit) * state :=
  match userPreferences with
  | inl e => (inl e, st)
  | inr _ => (inr tt, st)
  end.

(** [setAutoTheme(enabled)]: it saves the preference first. *)
Definition setAutoTheme (enabled prefersDark : bool) (st : state) : (js_error + unit) * state :=
  match userPreferences with
  | inl e => (inl e, st)
  | inr _ => if enabled then setTheme (if prefersDark then js "dark" else js "light") st else (inr tt, st)
  end.

(** [themeNames.indexOf(x)], [-1] when absent. *)
Fixpoint indexOf (x : jsstring) (l : list jsstring) : Z :=
  match l with
  | [] => (-1)%Z
  | y :: l' => if bool_decide (y = x) then 0%Z else match indexOf x l' with (-1)%Z => (-1)%Z | i => (i + 1)%Z end
  end.

(** [toggleTheme()]. *)
Definition toggleTheme (st : state) : (js_error + unit) * state :=
  match keys themes with
  | inl e => (inl e, st)
  | inr themeNames =>
      let nextIndex := ((indexOf (currentTheme st) themeNames + 1) mod Z.of_nat (length themeNames))%Z in
      setTheme (default (js "undefined") (themeNames !! Z.to_nat nextIndex)) st
  end.

(** [_loadSavedTheme()]: the first access to the preferences throws. *)
Definition _loadSavedTheme (prefersDark : bool) (st : state) : (js_error + unit) * state :=
  match userPreferences with
  | inl e => (inl e, st)
  | inr _ => setTheme (if prefersDark then js "dark" else js "light") st
  end.

(** [new ThemeManager()]: [currentTheme = 'light'], then
  [_loadSavedTheme()]; [_bindEvents] is not reached when it throws. *)
Definition new (now : Z) (bodyClasses : list jsstring) (prefersDark : bool) : js_error + state :=
  match _loadSavedTheme prefersDark (mkState (js "light") bodyClasses false [] (Timers.empty now) []) with
  | (inl e, _) => inl e
  | (inr _, st) => inr st
  end.

(** The exception of every access to [storageManager.specializedStorage]. *)
Definition userPreferences_error : js_error :=
  TypeError (js "Cannot read properties of undefined (reading 'userPreferences')").

Lemma userPreferences_throws : userPreferences = inl userPreferences_error.
Proof. reflexivity. Qed.

Lemma setTheme_falsy (themeName : jsstring) (st : state) :
  falsy (prop_get themes themeName) = true -> setTheme themeName st = (inr tt, st).
Proof. intros H. unfold setTheme. cbv zeta. by rewrite H. Qed.

(** [CONFIG.THEMES] is an array, so the names the constructor and
  the colour-scheme listener pass, ['light'] and ['dark'], are not
  themes: [setTheme] reports them and changes nothing. *)
Theorem light_dark_ignored (st : state) :
  setTheme (js "light") st = (inr tt, st) /\ setTheme (js "dark") st = (inr tt, st).
Proof. split; apply setTheme_falsy; reflexivity. Qed.

(** The theme names [Object.keys(this.themes)]: the array indices. *)
Lemma keys_themes : keys themes = inr [js "0"; js "1"; js "2"].
Proof. reflexivity. Qed.

(** A theme that exists is applied (name, class, transition) and then
  [setTheme] throws when it saves it: the event is not emitted and the
  transition is never cleared. *)
Lemma setTheme_index (i : nat) (st : state) :
  (i < 3)%nat ->
  exists vars, setTheme (nat_to_jsstring i) st =
    (inl userPreferences_error,
     mkState (nat_to_jsstring i)
       (set_add (js "theme-" ++ nat_to_jsstring i) (set_delete (js "theme-" ++ currentTheme st) (bodyClasses st)))
       true vars (timers st) (emitted st)).
Proof.
  intros Hi. destruct i as [|[|[|i]]]; [| | |lia]; eexists; reflexivity.
Qed.

Lemma lookup_theme_names (k : nat) :
  (k < 3)%nat -> [js "0"; js "1"; js "2"] !! k = Some (nat_to_jsstring k).
Proof. intros Hk. destruct k as [|[|[|k]]]; [done..|lia]. Qed.

(** [toggleTheme] moves to the next index of [CONFIG.THEMES] (from a
  name that is not an index, such as the initial ['light'], to ["0"]),
  applies it, and throws when saving it. *)
Theorem toggleTheme_next (st : state) :
  let k := Z.to_nat ((indexOf (currentTheme st) [js "0"; js "1"; js "2"] + 1) mod 3) in
  (toggleTheme st).1 = inl userPreferences_error /\
  currentTheme (toggleTheme st).2 = nat_to_jsstring k /\
  bodyTransition (toggleTheme st).2 = true /\ emitted (toggleTheme st).2 = emitted st.
Proof.
  cbv zeta. unfold toggleTheme. rewrite keys_themes. cbn [length Z.of_nat Pos.of_succ_nat].
  set (k := Z.to_nat _).
  assert (Hk : (k < 3)%nat).
  { pose proof (Z.mod_pos_bound (indexOf (currentTheme st) [js "0"; js "1"; js "2"] + 1) 3 ltac:(lia)). lia. }
  rewrite lookup_theme_names by done. cbn [default id].
  destruct (setTheme_index k st Hk) as [vars ->]. done.
Qed.

End Theme.

(** ** [ResponsiveManager] *)

Module Responsive.

(** [\w]. *)
Definition is_word (c : Z) : bool :=
  (((48 <=? c) && (c <=? 57)) || ((65 <=? c) && (c <=? 90)) || ((97 <=? c) && (c <=? 122)) || (c =? 95))%Z.

(** The rest of a string after its leading word characters. *)
Fixpoint skip_word (s : jsstring) : jsstring :=
  match s with c :: s' => if is_word c then skip_word s' else s | [] => [] end.

(** [className.replace(/\bbreakpoint-\w+\b/g, '')]: a match starts where
  the previous code unit is not a word character and takes the whole run
  of word characters after [breakpoint-] (the final [\b] then holds);
  [prev] is whether the previous code unit of the input is one. *)
Fixpoint strip_breakpoints (fuel : nat) (prev : bool) (s : jsstring) : jsstring :=
  match fuel with
  | 0 => s
  | S fuel' =>
      match s with
      | [] => []
      | c :: s' =>
          match (if prev then None else stripPrefix (js "breakpoint-") s) with
          | Some (w :: r) =>
              if is_word w then strip_breakpoints fuel' true (skip_word r)
              else c :: strip_breakpoints fuel' (is_word c) s'
          | _ => c :: strip_breakpoints fuel' (is_word c) s'
          end
      end
  end.

(** ASCII whitespace, which separates class names. *)
Definition is_ascii_ws (c : Z) : bool := ((c =? 9) || (c =? 10) || (c =? 12) || (c =? 13) || (c =? 32))%Z.

(** The class names of a [className]. *)
Fixpoint tokens_go (cur : jsstring) (s : jsstring) : list jsstring :=
  match s with
  | [] => if bool_decide (cur = []) then [] else [rev cur]
  | c :: s' =>
      if is_ascii_ws c then (if bool_decide (cur = []) then [] else [rev cur]) ++ tokens_go [] s'
      else tokens_go (c :: cur) s'
  end.

Fixpoint join_sp (ts : list jsstring) : jsstring :=
  match ts with [] => [] | [t] => t | t :: ts' => t ++ [32%Z] ++ join_sp ts' end.

(** [classList.add(token)]: the ordered set of class names with [token],
  serialized. *)
Definition classList_add (token : jsstring) (className : jsstring) : jsstring :=
  join_sp (set_add token (fold_left (fun acc t => set_add t acc) (tokens_go [] className) [])).

(** [width >= minWidth]; a threshold that is not a number never holds. *)
Definition ge (width : Z) (minWidth : jsval) : bool :=
  match minWidth with JNum n => (n <=? width)%Z | _ => false end.

Record state := mkState {
  breakpoints : jsval;                       (** [this.breakpoints] *)
  currentBreakpoint : option jsstring;       (** [null] at first *)
  className : jsstring;                      (** [document.body.className] *)
  emitted : list (option jsstring * option jsstring * Z) }. (** ['responsive:breakpoint-change'] *)

(** The loop of [_updateBreakpoint]. *)
Definition select (width : Z) (es : list (jsstring * jsval)) (cur : option jsstring) : option jsstring :=
  fold_left (fun c '(name, minWidth) => if ge width minWidth then Some name else c) es cur.

(** [_updateBreakpoint()] at [window.innerWidth = width]. *)
Definition _updateBreakpoint (width : Z) (st : state) : js_error + state :=
  match entries (breakpoints st) with
  | inl e => inl e
  | inr es =>
      let cur := select width es (currentBreakpoint st) in
      let cls := trim (strip_breakpoints (length (className st)) false (className st)) in
      inr (mkState (breakpoints st) cur
             (classList_add (js "breakpoint-" ++ default (js "null") cur) cls) (emitted st))
  end.

(** [_handleResize()]. *)
Definition _handleResize (width : Z) (st : state) : js_error + state :=
  match _updateBreakpoint width st with
  | inl e => inl e
  | inr st1 =>
      inr (if bool_decide (currentBreakpoint st = currentBreakpoint st1) then st1
           else mkState (breakpoints st1) (currentBreakpoint st1) (className st1)
                  (emitted st1 ++ [(currentBreakpoint st, currentBreakpoint st1, width)]))
  end.

(** [new ResponsiveManager()]: [this.breakpoints = CONFIG.UI.BREAKPOINTS],
  then [_init()] runs [_updateBreakpoint()]. *)
Definition new (width : Z) (className : jsstring) : js_error + state :=
  _updateBreakpoint width (mkState (prop_get CONFIG_UI (js "BREAKPOINTS")) None className []).

Definition isMobile (st : state) : bool :=
  bool_decide (currentBreakpoint st = Some (js "xs")) || bool_decide (currentBreakpoint st = Some (js "sm")).
Definition isTablet (st : state) : bool := bool_decide (currentBreakpoint st = Some (js "md")).
Definition isDesktop (st : state) : bool :=
  bool_decide (currentBreakpoint st = Some (js "lg")) || bool_decide (currentBreakpoint st = Some (js "xl")).

Lemma select_app (width : Z) (es : list (jsstring * jsval)) (e : jsstring * jsval) (cur : option jsstring) :
  select width (es ++ [e]) cur = if ge width e.2 then Some e.1 else select width es cur.
Proof. unfold select. rewrite fold_left_app. by destruct e. Qed.

(** the breakpoint [_updateBreakpoint] selects is the name of the
  last entry of [this.breakpoints] whose threshold the width reaches (the
  widest one when the thresholds ascend); when it reaches none the
  previous breakpoint stays. *)
Theorem select_last (width : Z) (es : list (jsstring * jsval)) (cur : option jsstring) :
  select width es cur =
    match last (List.filter (fun e => ge width e.2) es) with Some e => Some e.1 | None => cur end.
Proof.
  induction es as [|e es IH] using rev_ind; [done|].
  rewrite select_app, List.filter_app, IH. cbn [List.filter].
  destruct (ge width e.2); [by rewrite last_app|by rewrite app_nil_r].
Qed.

(** [CONFIG.UI] has no [BREAKPOINTS], so [new ResponsiveManager()]
  throws from [Object.entries(undefined)] in its first
  [_updateBreakpoint()]. *)
Theorem responsive_new_throws (width : Z) (className : jsstring) :
  new width className = inl (TypeError (js "Cannot convert undefined or null to object")).
Proof. reflexivity. Qed.

End Responsive.

(** ** [UIManager] *)

Module UI.

Inductive event := SearchShortcut | Initialized | Scroll (scrollTop : Z).

Record state := mkState {
  modalManager : Modal.state;
  tooltipManager : Tooltip.state;
  progressManager : Progress.state;
  loadingManager : Loading.state;
  themeManager : Theme.state;
  responsiveManager : Responsive.state;
  initialized : bool;
  listeners : list jsstring;          (** the [document] and [window] listeners added *)
  fullscreenRequests : list bool;     (** [requestFullscreen()] ([true]) and [exitFullscreen()] *)
  scrolled : bool;                    (** [document.body] has the class [scrolled] *)
  emitted : list event }.

(** [new UIManager()]: the six managers in the order of the code (the
  listeners of [ModalManager], of [ThemeManager._bindEvents] on the
  [prefers-color-scheme] query and of [ResponsiveManager._init]), then
  [_bindEvents()] (the [beforeunload] listener). *)
Definition new (now : Z) (dom : JsMap.t jsstring Modal.element) (bodyClasses : list jsstring)
    (prefersDark : bool) (width : Z) (className : jsstring) : js_error + state :=
  let modal := Modal.init now dom in
  let tooltip := Tooltip.init now in
  let progress := Progress.init now in
  let loading := Loading.init now in
  match Theme.new now bodyClasses prefersDark with
  | inl e => inl e
  | inr theme =>
      match Responsive.new width className with
      | inl e => inl e
      | inr resp =>
          inr (mkState modal tooltip progress loading theme resp false
                 [js "keydown"; js "click"; js "change"; js "resize"; js "beforeunload"] [] false [])
      end
  end.

Definition with_theme (th : Theme.state) (st : state) : state :=
  mkState (modalManager st) (tooltipManager st) (progressManager st) (loadingManager st) th
    (responsiveManager st) (initialized st) (listeners st) (fullscreenRequests st) (scrolled st) (emitted st).

Definition emit (e : event) (st : state) : state :=
  mkState (modalManager st) (tooltipManager st) (progressManager st) (loadingManager st) (themeManager st)
    (responsiveManager st) (initialized st) (listeners st) (fullscreenRequests st) (scrolled st) (emitted st ++ [e]).

(** [initialize()]: [_setupGlobalListeners()] adds the [keydown],
  [click] and [scroll] listeners. *)
Definition initialize (st : state) : state :=
  if initialized st then st
  else mkState (modalManager st) (tooltipManager st) (progressManager st) (loadingManager st) (themeManager st)
         (responsiveManager st) true (listeners st ++ [js "keydown"; js "click"; js "scroll"])
         (fullscreenRequests st) (scrolled st) (emitted st ++ [Initialized]).

(** [toggleFullscreen()] with [document.fullscreenElement] present or not. *)
Definition toggleFullscreen (isFullscreen : bool) (st : state) : state :=
  mkState (modalManager st) (tooltipManager st) (progressManager st) (loadingManager st) (themeManager st)
    (responsiveManager st) (initialized st) (listeners st) (fullscreenRequests st ++ [negb isFullscreen])
    (scrolled st) (emitted st).

(** [_handleGlobalKeydown(event)]: Ctrl/Cmd+K, Ctrl/Cmd+T and F11. *)
Definition _handleGlobalKeydown (ctrl meta : bool) (key : jsstring) (isFullscreen : bool) (st : state)
    : (js_error + unit) * state :=
  let modifier := ctrl || meta in
  let st1 := if modifier && bool_decide (key = js "k") then emit SearchShortcut st else st in
  let '(r, st2) :=
    if modifier && bool_decide (key = js "t") then
      let '(r, th) := Theme.toggleTheme (themeManager st1) in (r, with_theme th st1)
    else (inr tt, st1) in
  match r with
  | inl e => (inl e, st2)
  | inr _ => (inr tt, if bool_decide (key = js "F11") then toggleFullscreen isFullscreen st2 else st2)
  end.

(** [_handleGlobalScroll()] at [scrollTop]. *)
Definition _handleGlobalScroll (scrollTop : Z) (st : state) : state :=
  mkState (modalManager st) (tooltipManager st) (progressManager st) (loadingManager st) (themeManager st)
    (responsiveManager st) (initialized st) (listeners st) (fullscreenRequests st) (100 <? scrollTop)%Z
    (emitted st ++ [Scroll scrollTop]).

(** [_handleGlobalClick(event)]: the open dropdowns that do not contain
  [event.target] lose the class [open]; [contains] is
  [dropdown.contains(event.target)]. *)
Definition _handleGlobalClick (contains : jsstring -> bool) (openDropdowns : list jsstring) : list jsstring :=
  List.filter contains openDropdowns.

(** The dialog [confirm(message, options)] appends to the page. *)
Record dialog := mkDialog { d_className : jsstring; d_innerHTML : jsstring }.

Record confirm_options := mkConfirmOptions {
  o_title : option jsstring; o_confirmText : option jsstring; o_cancelText : option jsstring; o_type : option jsstring }.

Definition nl : jsstring := [10%Z].
Definition sp (n : nat) : jsstring := repeat 32%Z n.
Definition quoted (s : jsstring) : jsstring := [34%Z] ++ s ++ [34%Z].
Definition tag_open (t cls : String.string) : jsstring := js "<" ++ js t ++ js " class=" ++ quoted (js cls) ++ js ">".
Arguments tag_open (t cls)%_string_scope.

(** The template literal of [dialog.innerHTML], with its line breaks and
  indentation; the texts are inserted as they are. *)
Definition confirm_html (title message cancelText confirmText : jsstring) : jsstring :=
  nl ++ sp 16 ++ tag_open "div" "confirm-content" ++
  nl ++ sp 20 ++ tag_open "h3" "confirm-title" ++ title ++ js "</h3>" ++
  nl ++ sp 20 ++ tag_open "p" "confirm-message" ++ message ++ js "</p>" ++
  nl ++ sp 20 ++ tag_open "div" "confirm-actions" ++
  nl ++ sp 24 ++ tag_open "button" "btn btn-secondary confirm-cancel" ++ cancelText ++ js "</button>" ++
  nl ++ sp 24 ++ tag_open "button" "btn btn-primary confirm-ok" ++ confirmText ++ js "</button>" ++
  nl ++ sp 20 ++ js "</div>" ++ nl ++ sp 16 ++ js "</div>" ++ nl ++ sp 12.

(** ['确认'], ['确定'] and ['取消']. *)
Definition zh_confirm_title : jsstring := [30830; 35748]%Z.
Definition zh_ok : jsstring := [30830; 23450]%Z.
Definition zh_cancel : jsstring := [21462; 28040]%Z.

(** [confirm(message, options)]: the dialog, and the value the promise
  resolves to when the OK ([true]) or the cancel button is clicked, after
  the dialog is removed. *)
Definition confirm (message : jsstring) (o : confirm_options) : dialog :=
  mkDialog (js "confirm-dialog confirm-" ++ default (js "warning") (o_type o))
    (confirm_html (default zh_confirm_title (o_title o)) message
       (default zh_cancel (o_cancelText o)) (default zh_ok (o_confirmText o))).

Definition confirm_resolve (okClicked : bool) : bool := okClicked.

(** [cleanup()]: [tooltipManager.clear()], [modalManager.hideAll()] and
  the [resize] listener removed. *)
Definition cleanup (st : state) : state :=
  mkState (Modal.hideAll (modalManager st)) (Tooltip.clear (tooltipManager st)) (progressManager st)
    (loadingManager st) (themeManager st) (responsiveManager st) (initialized st)
    (set_delete (js "resize") (listeners st)) (fullscreenRequests st) (scrolled st) (emitted st).

(** [getStats()]. *)
Record stats := mkStats {
  s_initialized : bool; s_activeModals : list jsstring; s_activeTooltips : nat;
  s_activeProgress : list (jsstring * Q * Progress.options); s_loadingStates : list Loading.loading;
  s_currentTheme : jsstring; s_currentBreakpoint : option jsstring }.

Definition getStats (st : state) : stats :=
  mkStats (initialized st) (Modal.getActiveModals (modalManager st))
    (JsMap.size (Tooltip.activeTooltips (tooltipManager st)))
    (Progress.getActiveProgress (progressManager st)) (Loading.getLoadingStates (loadingManager st))
    (Theme.currentTheme (themeManager st)) (Responsive.currentBreakpoint (responsiveManager st)).

(** [new UIManager()] throws for every page: [ThemeManager]'s
  constructor reads [storageManager.specializedStorage.userPreferences]
  of a [StorageManager] that has no [specializedStorage]; the
  [uiManager] singleton, built when [uiManager.js] is loaded, is never
  created. *)
Theorem uimanager_new_throws (now : Z) (dom : JsMap.t jsstring Modal.element) (bodyClasses : list jsstring)
    (prefersDark : bool) (width : Z) (className : jsstring) :
  new now dom bodyClasses prefersDark width className = inl Theme.userPreferences_error.
Proof. reflexivity. Qed.



(** [confirm] builds its dialog with [innerHTML] from the message
  and the option texts as they are: the message is a piece of the
  markup, right after the opening [<p class="confirm-message">], so a
  message holding tags adds elements (and handlers) to the page;
  [StringUtils.escapeHtml] is not applied. *)
Theorem confirm_message_is_markup (message : jsstring) (o : confirm_options) :
  exists post, d_innerHTML (confirm message o) =
    (nl ++ sp 16 ++ tag_open "div" "confirm-content" ++ nl ++ sp 20 ++ tag_open "h3" "confirm-title" ++
     default zh_confirm_title (o_title o) ++ js "</h3>" ++ nl ++ sp 20 ++ tag_open "p" "confirm-message")
    ++ message ++ post.
Proof.
  eexists. unfold confirm, confirm_html. cbn [d_innerHTML]. rewrite <- !app_assoc. reflexivity.
Qed.

(** [initialize()] runs once: a second call changes nothing. *)
Lemma initialize_idempotent (st : state) : initialize (initialize st) = initialize st.
Proof. unfold initialize. destruct (initialized st) eqn:E; cbn [initialized]; rewrite ?E; reflexivity. Qed.

End UI.
