(* ===== verification/App.v ===== *)
(** * The application of [src/src/js/app.js]: [AppStateManager],
    [KeyboardShortcutManager], [DragDropManager], [PerformanceMonitor]
    and [App]

    [AppStateManager] keeps a flat state object, a bounded history of
    shallow copies and emits ['app:state-changed'] on every change;
    [App] listens to that event and drives the global loading overlay of
    [LoadingManager] ([UIOverlays]).  [KeyboardShortcutManager] keys its
    shortcuts by a normalized combination (lower-cased, blanks removed,
    split on [+], sorted by code units, joined); [DragDropManager]
    counts nested [dragenter]/[dragleave]; [PerformanceMonitor] keeps the
    last 100 samples of each array metric.  Date and timing values and
    the outcomes of the other managers' initialization are inputs. *)

From Stdlib Require Import QArith Qround.
From stdpp Require Import relations sorting.
From S2P Require Import Prelude JsMap Timers Utils UIOverlays UIManager.

(** The values the state object holds. *)
Inductive value :=
  | VUndefined
  | VBool (b : bool)
  | VStr (s : jsstring)
  | VSet (xs : list jsstring).   (** [selectedImages], a [Set] of image ids *)

#[export] Instance value_eq_dec : EqDecision value.
Proof. solve_decision. Defined.

(** ** [AppStateManager] *)

Module AppState.

Definition obj := JsMap.t jsstring value.

Inductive event :=
  | StateChanged (keys : list jsstring) (newState : obj)   (** ['app:state-changed'] *)
  | StateRestored (restoredState : obj).                  (** ['app:state-restored'] *)

Record state := mkState {
  values : obj;                    (** [this.state] *)
  stateHistory : list obj;         (** [this.stateHistory] *)
  emitted : list event }.

Definition maxHistorySize : nat := 50.

Definition initial_values : obj :=
  [(js "isInitialized", VBool false); (js "isLoading", VBool false); (js "currentView", VStr (js "gallery"));
   (js "selectedImages", VSet []); (js "dragDropActive", VBool false); (js "fullscreenMode", VBool false);
   (js "keyboardShortcutsEnabled", VBool true)].

(** [new AppStateManager()]. *)
Definition init : state := mkState initial_values [] [].

(** The argument of [setState]: one key, or an object merged with
  [Object.assign]. *)
Inductive update := One (k : jsstring) (v : value) | Many (kvs : list (jsstring * value)).

Definition update_keys (u : update) : list jsstring :=
  match u with One k _ => [k] | Many kvs => map fst kvs end.

Definition assign (u : update) (o : obj) : obj :=
  match u with
  | One k v => JsMap.set k v o
  | Many kvs => fold_left (fun acc '(k, v) => JsMap.set k v acc) kvs o
  end.

(** [_saveStateToHistory()]: push a copy, drop the oldest beyond 50. *)
Definition _saveStateToHistory (st : state) : list obj :=
  let h := stateHistory st ++ [values st] in
  if maxHistorySize <? length h then tail h else h.

(** [getState(key)]: [None] is [undefined]. *)
Definition getState (k : jsstring) (st : state) : option value := JsMap.get k (values st).

(** [setState(key, value)]. *)
Definition setState (u : update) (st : state) : state :=
  let h := _saveStateToHistory st in
  let v := assign u (values st) in
  mkState v h (emitted st ++ [StateChanged (update_keys u) v]).

(** [toggleState(key)]: only a boolean flips. *)
Definition toggleState (k : jsstring) (st : state) : state :=
  match getState k st with
  | Some (VBool b) => setState (One k (VBool (negb b))) st
  | _ => st
  end.

(** [resetState()]: the initial values, keeping [isInitialized]. *)
Definition resetState (st : state) : state :=
  setState (Many ((js "isInitialized", default VUndefined (getState (js "isInitialized") st)) :: tail initial_values)) st.

(** [undoState()]. *)
Definition undoState (st : state) : state :=
  match last (stateHistory st) with
  | None => st
  | Some prev => mkState prev (removelast (stateHistory st)) (emitted st ++ [StateRestored prev])
  end.

(** The listeners of [_bindEvents()]: [visibilitychange], [online] and
  [offline]. *)
Definition onVisibilityChange (hidden : bool) : state -> state := setState (One (js "isPageVisible") (VBool (negb hidden))).
Definition onOnline : state -> state := setState (One (js "isOnline") (VBool true)).
Definition onOffline : state -> state := setState (One (js "isOnline") (VBool false)).

(** Every change of the state. *)
Inductive step : state -> state -> Prop :=
  | step_set u st : step st (setState u st)
  | step_toggle k st : step st (toggleState k st)
  | step_reset st : step st (resetState st)
  | step_undo st : step st (undoState st).

Lemma save_bounded (st : state) :
  length (stateHistory st) <= maxHistorySize -> length (_saveStateToHistory st) <= maxHistorySize.
Proof.
  unfold _saveStateToHistory. intros H.
  destruct (Nat.ltb_spec maxHistorySize (length (stateHistory st ++ [values st]))) as [Hl|Hl];
    [|exact Hl].
  destruct (stateHistory st ++ [values st]) as [|x h] eqn:E; cbn in *; [lia|]. apply (f_equal length) in E. rewrite length_app in E. cbn in E. lia.
Qed.

Lemma step_bounded (st st' : state) :
  step st st' -> length (stateHistory st) <= maxHistorySize -> length (stateHistory st') <= maxHistorySize.
Proof.
  intros Hs H. destruct Hs.
  - by apply save_bounded.
  - unfold toggleState. destruct (getState k st) as [[]|]; try done. by apply save_bounded.
  - by apply save_bounded.
  - unfold undoState. destruct (last _) eqn:E; [|done]. apply last_Some in E as [l' E]. cbn. rewrite E, removelast_last. rewrite E, length_app in H. cbn in H. lia.
Qed.

(** C17: the undo history of [AppStateManager] never holds more than
  [maxHistorySize] (50) copies, whatever the sequence of [setState],
  [toggleState], [resetState] and [undoState] calls. *)
Theorem history_bounded (st : state) :
  rtc step init st -> length (stateHistory st) <= maxHistorySize.
Proof.
  intros Hr. cut (forall s s', rtc step s s' -> length (stateHistory s) <= maxHistorySize ->
                              length (stateHistory s') <= maxHistorySize).
  { intros Hc. apply (Hc _ _ Hr). cbn. lia. }
  induction 1; eauto using step_bounded.
Qed.

Lemma history_bounded_witness :
  rtc step init (undoState (setState (One (js "currentView") (VStr (js "list"))) init)) /\
  length (stateHistory (undoState (setState (One (js "currentView") (VStr (js "list"))) init))) <= maxHistorySize.
Proof.
  assert (Hr : rtc step init (undoState (setState (One (js "currentView") (VStr (js "list"))) init))).
  { eapply rtc_l; [apply step_set|]. eapply rtc_l; [apply step_undo|]. apply rtc_refl. }
  split; [exact Hr|]. exact (history_bounded _ Hr).
Defined.

(** [undoState()] right after [setState(...)] restores the state the
  call found, and the history loses at most its oldest copy (the one
  [setState] dropped when the history was full). *)
Theorem undo_setState (u : update) (st : state) :
  values (undoState (setState u st)) = values st /\
  stateHistory (undoState (setState u st)) =
    if length (stateHistory st) <? maxHistorySize then stateHistory st else tail (stateHistory st).
Proof.
  unfold undoState, setState, _saveStateToHistory. cbn [stateHistory values].
  rewrite length_app. cbn [length].
  destruct (Nat.ltb_spec maxHistorySize (length (stateHistory st) + 1)) as [Hfull|Hfree].
  - destruct (stateHistory st) as [|o h] eqn:E; [cbn in Hfull; unfold maxHistorySize in Hfull; lia|].
    cbn [app tail]. rewrite last_snoc, removelast_last. cbn [values stateHistory]. split; [done|].
    rewrite (proj2 (Nat.ltb_ge _ _)); [done|]. cbn in Hfull |- *. lia.
  - rewrite last_snoc, removelast_last. cbn [values stateHistory]. split; [done|].
    rewrite (proj2 (Nat.ltb_lt _ _)); [done|]. lia.
Qed.

End AppState.

(** ** The order of [Array.prototype.sort] on strings *)

(** [a <= b] on UTF-16 code units: the order [sort()] uses without a
  comparator. *)
Fixpoint lex_leb (a b : jsstring) : bool :=
  match a, b with
  | [], _ => true
  | _ :: _, [] => false
  | x :: a', y :: b' => (x <? y)%Z || ((x =? y)%Z && lex_leb a' b')
  end.

Definition lex_le (a b : jsstring) : Prop := lex_leb a b = true.

#[export] Instance lex_le_dec : RelDecision lex_le.
Proof. intros a b. unfold lex_le. apply _. Defined.

#[export] Instance lex_le_total : Total lex_le.
Proof.
  intros a. unfold lex_le. induction a as [|x a IH]; intros [|y b]; cbn; auto.
  destruct (Z.lt_trichotomy x y) as [Hl|[->|Hg]].
  - left. by apply orb_true_iff; left; apply Z.ltb_lt.
  - rewrite Z.ltb_irrefl, Z.eqb_refl. cbn. apply IH.
  - right. by apply orb_true_iff; left; apply Z.ltb_lt.
Qed.

#[export] Instance lex_le_trans : Transitive lex_le.
Proof.
  unfold lex_le. intros a. induction a as [|x a IH]; intros [|y b] [|z c]; cbn; auto; try done.
  rewrite !orb_true_iff, !andb_true_iff, !Z.ltb_lt, !Z.eqb_eq.
  intros [Hxy|[-> Hab]] [Hyz|[-> Hbc]]; [left; lia|left; lia|left; lia|right; eauto].
Qed.

#[export] Instance lex_le_antisymm : AntiSymm (=) lex_le.
Proof.
  unfold lex_le. intros a. induction a as [|x a IH]; intros [|y b]; cbn; auto; try done.
  rewrite !orb_true_iff, !andb_true_iff, !Z.ltb_lt, !Z.eqb_eq.
  intros [Hxy|[-> Hab]] [Hyx|[Hyx Hba]]; try lia. f_equal. auto.
Qed.

(** [array.sort()] of strings. *)
Definition sort_strings (l : list jsstring) : list jsstring := merge_sort lex_le l.

(** Sorting forgets the order: two arrangements of the same strings sort
  to the same array. *)
Lemma sort_strings_perm (l1 l2 : list jsstring) : l1 ≡ₚ l2 -> sort_strings l1 = sort_strings l2.
Proof.
  intros Hp. unfold sort_strings. apply (Sorted_unique lex_le); [apply Sorted_merge_sort; apply _..|].
  by rewrite !merge_sort_Permutation.
Qed.

(** [s.split(sep)]. *)
Fixpoint split_on_go (sep : Z) (cur s : jsstring) : list jsstring :=
  match s with
  | [] => [rev cur]
  | c :: s' => if (c =? sep)%Z then rev cur :: split_on_go sep [] s' else split_on_go sep (c :: cur) s'
  end.

Definition split_on (sep : Z) (s : jsstring) : list jsstring := split_on_go sep [] s.

(** [parts.join(sep)]. *)
Fixpoint join_on (sep : Z) (ps : list jsstring) : jsstring :=
  match ps with [] => [] | [p] => p | p :: ps' => p ++ [sep] ++ join_on sep ps' end.

(** ** [KeyboardShortcutManager] *)

Module Shortcuts.

(** The handlers of the default shortcuts, and the others by a number. *)
Inductive action :=
  | FocusSearch | SelectAll | CloseModalOrExitFullscreen | ToggleFullscreenMode
  | SetViewMode (mode : jsstring) | ToggleAdminPanel | ToggleTheme | RefreshGallery
  | Custom (n : nat).

Record shortcut := mkShortcut {
  handler : action; description : jsstring; category : jsstring; preventDefault : bool }.

Record options := mkOptions { o_description : option jsstring; o_category : option jsstring; o_preventDefault : option bool }.

Record state := mkState { shortcuts : JsMap.t jsstring shortcut; isEnabled : bool }.

(** A [keydown] event. *)
Record keyevent := mkKey { ctrlKey : bool; shiftKey : bool; altKey : bool; metaKey : bool; key : jsstring }.

Section Shortcuts.
(** [String.prototype.toLowerCase]. *)
Variable toLowerCase : jsstring -> jsstring.

(** [/\s+/g] replaced by [''] *)
Definition remove_ws (s : jsstring) : jsstring := List.filter (fun c => negb (is_js_whitespace c)) s.

(** [_normalizeShortcut(combination)]. *)
Definition _normalizeShortcut (combination : jsstring) : jsstring :=
  join_on 43 (sort_strings (split_on 43 (remove_ws (toLowerCase combination)))).

(** [register(combination, handler, options)]: [options.x || default]
  (an empty description or category is the default too). *)
Definition register (combination : jsstring) (h : action) (o : options) (st : state) : state :=
  let nonempty d v := match v with Some (_ :: _ as s) => s | _ => d end in
  mkState (JsMap.set (_normalizeShortcut combination)
             (mkShortcut h (nonempty [] (o_description o)) (nonempty (js "general") (o_category o))
                (negb (bool_decide (o_preventDefault o = Some false))))
             (shortcuts st))
    (isEnabled st).

(** [unregister(combination)]. *)
Definition unregister (combination : jsstring) (st : state) : state :=
  mkState (JsMap.delete (_normalizeShortcut combination) (shortcuts st)) (isEnabled st).

(** [getAllShortcuts()]. *)
Definition getAllShortcuts (st : state) : list (jsstring * shortcut) := shortcuts st.

(** The parts [_handleKeyDown] builds from the event. *)
Definition event_parts (ev : keyevent) : list jsstring :=
  (if ctrlKey ev then [js "ctrl"] else []) ++ (if shiftKey ev then [js "shift"] else []) ++
  (if altKey ev then [js "alt"] else []) ++ (if metaKey ev then [js "meta"] else []) ++
  (let k := toLowerCase (key ev) in
   if bool_decide (k ∈ [js "control"; js "shift"; js "alt"; js "meta"]) then [] else [k]).

(** [parts.sort().join('+')]. *)
Definition combination (ev : keyevent) : jsstring := join_on 43 (sort_strings (event_parts ev)).

(** [_handleKeyDown(event)]: the shortcut whose handler runs, if any, when
  shortcuts are enabled here and in the application state. *)
Definition _handleKeyDown (stateEnabled : bool) (ev : keyevent) (st : state) : option shortcut :=
  if isEnabled st && stateEnabled then JsMap.get (combination ev) (shortcuts st) else None.

Definition no_options : options := mkOptions None None None.
Definition opts (d : jsstring) (c : String.string) : options := mkOptions (Some d) (Some (js c)) None.
Arguments opts d c%_string_scope.

(** [_initializeShortcuts()]. *)
Definition _initializeShortcuts (st : state) : state :=
  let st := register (js "ctrl+f") FocusSearch (opts [32858; 28966; 25628; 32034; 26694]%Z "gallery") st in
  let st := register (js "ctrl+a") SelectAll (opts [20840; 36873; 22270; 29255]%Z "gallery") st in
  let st := register (js "escape") CloseModalOrExitFullscreen (opts [20851; 38381; 27169; 24577; 26694; 47; 36864; 20986; 20840; 23631]%Z "navigation") st in
  let st := register (js "f11") ToggleFullscreenMode (opts [20999; 25442; 20840; 23631; 27169; 24335]%Z "view") st in
  let st := register (js "ctrl+1") (SetViewMode (js "grid")) (opts [32593; 26684; 35270; 22270]%Z "view") st in
  let st := register (js "ctrl+2") (SetViewMode (js "list")) (opts [21015; 34920; 35270; 22270]%Z "view") st in
  let st := register (js "ctrl+3") (SetViewMode (js "masonry")) (opts [28689; 24067; 27969; 35270; 22270]%Z "view") st in
  let st := register (js "ctrl+shift+a") ToggleAdminPanel (opts [20999; 25442; 31649; 29702; 21592; 38754; 26495]%Z "admin") st in
  let st := register (js "ctrl+shift+t") ToggleTheme (opts [20999; 25442; 20027; 39064]%Z "ui") st in
  register (js "f5") RefreshGallery (opts [21047; 26032; 22270; 29255; 24211]%Z "gallery") st.

(** [new KeyboardShortcutManager(appStateManager)]. *)
Definition new : state := _initializeShortcuts (mkState [] true).

(** a registered shortcut is found whatever the order its
  combination lists the modifiers in: a key event whose parts (the
  pressed modifiers and the lower-cased key) are those of the
  lower-cased, blank-free combination, in any order, runs its handler. *)
Theorem keydown_finds_registered (c : jsstring) (h : action) (o : options) (st : state) (ev : keyevent) :
  isEnabled st = true -> event_parts ev ≡ₚ split_on 43 (remove_ws (toLowerCase c)) ->
  option_map handler (_handleKeyDown true ev (register c h o st)) = Some h.
Proof.
  intros He Hp. unfold _handleKeyDown, register. cbn [isEnabled shortcuts]. rewrite He. cbn [andb].
  unfold combination. rewrite (sort_strings_perm _ _ Hp). fold (_normalizeShortcut c).
  by rewrite JsMap.get_set_eq.
Qed.

End Shortcuts.
End Shortcuts.

(** The ASCII part of [toLowerCase], exact on the combinations and keys
  below. *)
Definition ascii_lower (s : jsstring) : jsstring := map lower_char s.

Lemma keydown_finds_registered_witness :
  Shortcuts.isEnabled (Shortcuts.mkState [] true) = true /\
  Shortcuts.event_parts ascii_lower (Shortcuts.mkKey true true false false (js "T"))
    ≡ₚ split_on 43 (Shortcuts.remove_ws (ascii_lower (js "Shift + Ctrl + T"))) /\
  option_map Shortcuts.handler
    (Shortcuts._handleKeyDown ascii_lower true (Shortcuts.mkKey true true false false (js "T"))
       (Shortcuts.register ascii_lower (js "Shift + Ctrl + T") Shortcuts.ToggleTheme Shortcuts.no_options
          (Shortcuts.mkState [] true))) = Some Shortcuts.ToggleTheme.
Proof.
  assert (Hp : Shortcuts.event_parts ascii_lower (Shortcuts.mkKey true true false false (js "T"))
    ≡ₚ split_on 43 (Shortcuts.remove_ws (ascii_lower (js "Shift + Ctrl + T")))).
  { vm_compute. apply Permutation_swap. }
  split; [reflexivity|]. split; [exact Hp|].
  exact (Shortcuts.keydown_finds_registered ascii_lower (js "Shift + Ctrl + T") Shortcuts.ToggleTheme
           Shortcuts.no_options (Shortcuts.mkState [] true) _ eq_refl Hp).
Defined.

(** ** [DragDropManager] *)

Module DragDrop.

(** ['请拖拽图片文件'] (drop image files). *)
Definition zh_drop_images : jsstring := [35831; 25302; 25341; 22270; 29255; 25991; 20214]%Z.

Record file := mkFile { file_name : jsstring; file_type : jsstring }.

(** The document listeners of [_bindEvents()] on the drag counter and
  the application state. *)
Definition ondragenter (counter : Z) (app : AppState.state) : Z * AppState.state :=
  let c := (counter + 1)%Z in
  (c, if (c =? 1)%Z then AppState.setState (AppState.One (js "dragDropActive") (VBool true)) app else app).

Definition ondragleave (counter : Z) (app : AppState.state) : Z * AppState.state :=
  let c := (counter - 1)%Z in
  (c, if (c =? 0)%Z then AppState.setState (AppState.One (js "dragDropActive") (VBool false)) app else app).

Definition ondrop (counter : Z) (app : AppState.state) : Z * AppState.state :=
  (0%Z, AppState.setState (AppState.One (js "dragDropActive") (VBool false)) app).

(** [_handleFiles(files)]: with no image it shows a warning; otherwise
  its next statement calls [uiManager.progressManager.show], a method
  [ProgressManager] does not have, and the call throws before any file
  is read. *)
Definition _handleFiles (files : list file) (random36 : jsstring) (tips : Tooltip.state) : (js_error + unit) * Tooltip.state :=
  let imageFiles := List.filter (fun f => prefixb (js "image/") (file_type f)) files in
  if bool_decide (imageFiles = []) then (inr tt, (Tooltip.warning zh_drop_images Tooltip.no_options random36 tips).2)
  else (inl (TypeError (js "uiManager.progressManager.show is not a function")), tips).

(** The [drop] listener of the drop zone ([_bindDropZoneEvents]). *)
Definition onZoneDrop (files : list file) (random36 : jsstring) (tips : Tooltip.state) : (js_error + unit) * Tooltip.state :=
  if (0 <? length files)%nat then _handleFiles files random36 tips else (inr tt, tips).

(** The drag events. *)
Inductive step : Z * AppState.state -> Z * AppState.state -> Prop :=
  | step_enter c a : step (c, a) (ondragenter c a)
  | step_leave c a : step (c, a) (ondragleave c a)
  | step_drop c a : step (c, a) (ondrop c a).

(** [dragDropActive] is on exactly while more [dragenter] than
  [dragleave] events have arrived since the last [drop]. *)
Definition inv (s : Z * AppState.state) : Prop :=
  AppState.getState (js "dragDropActive") s.2 = Some (VBool (1 <=? s.1)%Z).

Lemma getState_setState_eq (k : jsstring) (v : value) (a : AppState.state) :
  AppState.getState k (AppState.setState (AppState.One k v) a) = Some v.
Proof. apply JsMap.get_set_eq. Qed.

Lemma dragdrop_step_inv (s s' : Z * AppState.state) : inv s -> step s s' -> inv s'.
Proof.
  unfold inv. intros H Hs. destruct Hs as [c a|c a|c a]; unfold ondragenter, ondragleave, ondrop; cbn [fst snd] in H |- *.
  - destruct (Z.eqb_spec (c + 1) 1) as [E|E]; [rewrite getState_setState_eq; do 2 f_equal; lia|].
    rewrite H. do 2 f_equal. destruct (Z.leb_spec 1 c), (Z.leb_spec 1 (c + 1)); lia.
  - destruct (Z.eqb_spec (c - 1) 0) as [E|E]; [rewrite getState_setState_eq; do 2 f_equal; lia|].
    rewrite H. do 2 f_equal. destruct (Z.leb_spec 1 c), (Z.leb_spec 1 (c - 1)); lia.
  - by rewrite getState_setState_eq.
Qed.

(** after any sequence of [dragenter], [dragleave] and [drop] events
  from a fresh application, [dragDropActive] is [true] exactly when the
  drag counter is at least 1 (also when more [dragleave] than
  [dragenter] events arrive and the counter goes negative). *)
Theorem dragDropActive_tracks_counter (s : Z * AppState.state) :
  rtc step (0%Z, AppState.init) s -> AppState.getState (js "dragDropActive") s.2 = Some (VBool (1 <=? s.1)%Z).
Proof.
  intros Hr. change (inv s). cut (forall s0 s1, rtc step s0 s1 -> inv s0 -> inv s1).
  { intros Hc. apply (Hc _ _ Hr). reflexivity. }
  induction 1; eauto using dragdrop_step_inv.
Qed.

Lemma dragDropActive_tracks_counter_witness :
  rtc step (0%Z, AppState.init) (ondragleave (ondragenter 0 AppState.init).1 (ondragenter 0 AppState.init).2) /\
  AppState.getState (js "dragDropActive") (ondragleave (ondragenter 0 AppState.init).1 (ondragenter 0 AppState.init).2).2
    = Some (VBool (1 <=? (ondragleave (ondragenter 0 AppState.init).1 (ondragenter 0 AppState.init).2).1)%Z).
Proof.
  assert (Hr : rtc step (0%Z, AppState.init) (ondragleave (ondragenter 0 AppState.init).1 (ondragenter 0 AppState.init).2)).
  { eapply rtc_l; [apply step_enter|]. eapply rtc_l; [apply step_leave|]. apply rtc_refl. }
  split; [exact Hr|]. exact (dragDropActive_tracks_counter _ Hr).
Defined.

(** dropping files that hold an image never uploads it: [_handleFiles]
  throws a [TypeError] before reading any file, and the tooltips are
  left as they were; only a drop without images has an effect (a
  warning). *)
Theorem handleFiles_throws (files : list file) (r : jsstring) (tips : Tooltip.state) (f : file) :
  f ∈ files -> prefixb (js "image/") (file_type f) = true ->
  _handleFiles files r tips = (inl (TypeError (js "uiManager.progressManager.show is not a function")), tips).
Proof.
  intros Hin Hf. unfold _handleFiles. rewrite bool_decide_eq_false_2; [done|].
  intros E. assert (Hf' : f ∈ List.filter (fun f => prefixb (js "image/") (file_type f)) files).
  { apply elem_of_List_filter. by split. }
  rewrite E in Hf'. by apply not_elem_of_nil in Hf'.
Qed.

Lemma handleFiles_throws_witness :
  mkFile (js "cat.png") (js "image/png") ∈ [mkFile (js "cat.png") (js "image/png")] /\
  prefixb (js "image/") (file_type (mkFile (js "cat.png") (js "image/png"))) = true /\
  _handleFiles [mkFile (js "cat.png") (js "image/png")] (js "0.x") (Tooltip.init 0) =
    (inl (TypeError (js "uiManager.progressManager.show is not a function")), Tooltip.init 0).
Proof.
  assert (Hin : mkFile (js "cat.png") (js "image/png") ∈ [mkFile (js "cat.png") (js "image/png")]) by by left.
  split; [exact Hin|]. split; [reflexivity|].
  exact (handleFiles_throws _ _ _ _ Hin eq_refl).
Defined.

End DragDrop.

(** ** [PerformanceMonitor] *)

Module Performance.
Local Open Scope Q_scope.

(** A metric: a number, or the samples [{value, timestamp}] of an array
  metric (the only metadata passed, by the long-task observer, goes to
  the number metric [longTasks]). *)
Inductive metric := MNum (v : Q) | MSamples (xs : list (Q * Z)).

Inductive event := MetricRecorded (name : jsstring) (v : Q).   (** ['performance:metric-recorded'] *)

Record state := mkState { metrics : JsMap.t jsstring metric; observers : list jsstring; emitted : list event }.

Definition initial_metrics : JsMap.t jsstring metric :=
  [(js "loadTime", MNum 0); (js "renderTime", MNum 0); (js "memoryUsage", MNum 0);
   (js "imageLoadTimes", MSamples []); (js "searchTimes", MSamples []); (js "filterTimes", MSamples [])].

(** [new PerformanceMonitor()]: the long-task observer is kept when the
  browser supports it. *)
Definition new (longTaskSupported : bool) : state :=
  mkState initial_metrics (if longTaskSupported then [js "longtask"] else []) [].

(** [recordMetric(metric, value)] at time [now]: an array metric keeps
  its last 100 samples. *)
Definition recordMetric (m : jsstring) (v : Q) (now : Z) (st : state) : state :=
  let ms := match JsMap.get m (metrics st) with
            | Some (MSamples xs) =>
                let xs' := xs ++ [(v, now)] in
                JsMap.set m (MSamples (if (100 <? length xs')%nat then tail xs' else xs')) (metrics st)
            | _ => JsMap.set m (MNum v) (metrics st)
            end in
  mkState ms (observers st) (emitted st ++ [MetricRecorded m v]).

(** [endMeasure(name)] with the measured [duration]. *)
Definition endMeasure (name : jsstring) (duration : Q) (now : Z) (st : state) : Q * state :=
  (duration, recordMetric (name ++ js "Times") duration now st).

(** [values.reduce((a, b) => a + b, 0) / values.length]. *)
Definition average (xs : list (Q * Z)) : Q := fold_left Qplus (map fst xs) 0 / inject_Z (Z.of_nat (length xs)).

(** The averages [getPerformanceReport()] adds to the metrics. *)
Definition report_averages (st : state) : list (jsstring * Q) :=
  flat_map (fun m => match JsMap.get m (metrics st) with
                     | Some (MSamples (_ :: _ as xs)) => [(m ++ js "Average", average xs)]
                     | _ => []
                     end) [js "imageLoadTimes"; js "searchTimes"; js "filterTimes"].

(** [cleanup()]. *)
Definition cleanup (st : state) : state := mkState (metrics st) [] (emitted st).

(** Every array metric holds at most 100 samples. *)
Definition bounded (st : state) : Prop :=
  forall m xs, JsMap.get m (metrics st) = Some (MSamples xs) -> (length xs <= 100)%nat.

(** [recordMetric] keeps every array metric within 100 samples, the
  newest last: an array metric at the bound drops its oldest sample. *)
Theorem recordMetric_bounded (m : jsstring) (v : Q) (now : Z) (st : state) :
  bounded st -> bounded (recordMetric m v now st).
Proof.
  intros Hb m' xs. unfold recordMetric. cbn [metrics].
  destruct (JsMap.get m (metrics st)) as [[w|ys]|] eqn:E.
  - destruct (decide (m' = m)) as [->|Hne]; [by rewrite JsMap.get_set_eq|].
    rewrite JsMap.get_set_ne by done. apply Hb.
  - destruct (decide (m' = m)) as [->|Hne].
    + rewrite JsMap.get_set_eq. intros [= <-]. specialize (Hb m ys E).
      destruct (Nat.ltb_spec 100 (length (ys ++ [(v, now)]))) as [Hl|Hl]; [|done].
      rewrite length_app in Hl. destruct ys as [|y ys]; cbn in *; [lia|]. rewrite length_app. cbn. lia.
    + rewrite JsMap.get_set_ne by done. apply Hb.
  - destruct (decide (m' = m)) as [->|Hne]; [by rewrite JsMap.get_set_eq|].
    rewrite JsMap.get_set_ne by done. apply Hb.
Qed.

Definition sample_ok (p : jsstring * metric) : bool :=
  match p.2 with MSamples xs => (length xs <=? 100)%nat | MNum _ => true end.

Lemma bounded_forallb (st : state) : forallb sample_ok (metrics st) = true -> bounded st.
Proof.
  intros Hf m xs Hg. apply JsMap.get_Some_elem_of in Hg.
  rewrite forallb_forall in Hf. apply list_elem_of_In, Hf in Hg. cbn in Hg. by apply Nat.leb_le.
Qed.

Lemma recordMetric_bounded_witness :
  bounded (new true) /\ bounded (recordMetric (js "searchTimes") 12 5 (new true)).
Proof.
  assert (Hb : bounded (new true)) by (apply bounded_forallb; reflexivity).
  split; [exact Hb|]. exact (recordMetric_bounded _ _ _ _ Hb).
Defined.

End Performance.

(** ** [App] *)

Module AppMain.
Local Open Scope Q_scope.

Inductive event := Initialized (initTime : Q).   (** ['app:initialized'] *)

(** What the awaited calls of [_performInitialization] give: the other
  managers' initialization ([inl] when it throws), [aiEngine.initialize()]
  ([None] when the 10 s timeout wins the race), the saved application
  state, the measured time and the random digits of the tooltip ids. *)
Record env := mkEnv {
  storage_init : js_error + unit;
  ui_init : js_error + unit;
  image_init : js_error + unit;
  ai_init : option (js_error + bool);
  gallery_refresh : js_error + unit;
  savedState : option (jsstring * option bool);
  init_duration : Q;
  random36 : jsstring }.

Record state := mkState {
  appState : AppState.state;
  keyboard : Shortcuts.state;
  dragCounter : Z;
  dropZone : option jsstring;
  perf : Performance.state;
  loading : Loading.state;                (** [uiManager.loadingManager] *)
  tooltips : Tooltip.state;               (** [uiManager.tooltipManager] *)
  isInitialized : bool;
  initializationPromise : option (js_error + unit);   (** the settled promise *)
  listeners : list jsstring;
  delegated : list Shortcuts.action;      (** shortcut handlers run by other managers *)
  emitted : list event }.

(** ['正在初始化...'], ['AI智能相册系统已就绪'] and
  ['系统初始化失败，请刷新页面重试']. *)
Definition zh_initializing : jsstring := [27491; 22312; 21021; 22987; 21270; 46; 46; 46]%Z.
Definition zh_ready : jsstring := [65; 73; 26234; 33021; 30456; 20876; 31995; 32479; 24050; 23601; 32490]%Z.
Definition zh_init_failed : jsstring :=
  [31995; 32479; 21021; 22987; 21270; 22833; 36133; 65292; 35831; 21047; 26032; 39029; 38754; 37325; 35797]%Z.

(** A truthy state value. *)
Definition truthy (v : value) : bool :=
  match v with VUndefined => false | VBool b => b | VStr s => negb (bool_decide (s = [])) | VSet _ => true end.

(** [_saveAppState()]: the write to the preferences throws and is
  caught. *)
Definition _saveAppState : js_error + unit :=
  match userPreferences with inl e => inl e | inr _ => inr tt end.

(** The ['app:state-changed'] listener of [_bindGlobalEvents()]: it saves
  the state, then shows or hides the global loading ['app-loading'] when
  [isLoading] changed. *)
Definition onStateChanged (e : AppState.event) (ld : Loading.state) : Loading.state :=
  match e with
  | AppState.StateChanged keys newState =>
      if bool_decide (js "isLoading" ∈ keys) then
        if truthy (default VUndefined (JsMap.get (js "isLoading") newState))
        then Loading.show (js "app-loading") (Loading.mkOptions (Some zh_initializing) (Some true) None None) ld
        else Loading.hide (js "app-loading") ld
      else ld
  | AppState.StateRestored _ => ld
  end.

(** [eventManager.emit] runs the listener on each event [AppStateManager]
  emitted since [a0]. *)
Definition dispatch (a0 a1 : AppState.state) (ld : Loading.state) : Loading.state :=
  fold_left (fun l e => onStateChanged e l) (drop (length (AppState.emitted a0)) (AppState.emitted a1)) ld.

Definition with_app (a : AppState.state) (st : state) : state :=
  mkState a (keyboard st) (dragCounter st) (dropZone st) (perf st) (dispatch (appState st) a (loading st))
    (tooltips st) (isInitialized st) (initializationPromise st) (listeners st) (delegated st) (emitted st).

(** [setState(key, value)] of [App], with the listener. *)
Definition setState (u : AppState.update) (st : state) : state := with_app (AppState.setState u (appState st)) st.

(** [new App()] on the overlays of [uiManager]. *)
Definition new (toLowerCase : jsstring -> jsstring) (now : Z) (longTaskSupported : bool) : state :=
  mkState AppState.init (Shortcuts.new toLowerCase) 0 None (Performance.new longTaskSupported)
    (Loading.init now) (Tooltip.init now) false None
    [js "visibilitychange"; js "online"; js "offline"; js "keydown"; js "dragenter"; js "dragover";
     js "dragleave"; js "drop"; js "app:state-changed"; js "beforeunload"; js "error"; js "unhandledrejection"]
    [] [].

(** [_restoreAppState()]: reading the preferences throws and is caught. *)
Definition _restoreAppState (e : env) (st : state) : state :=
  match userPreferences with
  | inl _ => st
  | inr _ =>
      match savedState e with
      | Some (view, kse) =>
          setState (AppState.Many [(js "currentView", VStr (if bool_decide (view = []) then js "gallery" else view));
                                   (js "keyboardShortcutsEnabled", VBool (negb (bool_decide (kse = Some false))))]) st
      | None => st
      end
  end.

(** The catch block of [_performInitialization()]. *)
Definition fail (err : js_error) (e : env) (st : state) : (js_error + unit) * state :=
  let st1 := setState (AppState.Many [(js "isLoading", VBool false); (js "initializationError", VStr (message err))]) st in
  (inl err,
   mkState (appState st1) (keyboard st1) (dragCounter st1) (dropZone st1) (perf st1) (loading st1)
     (Tooltip.error zh_init_failed Tooltip.no_options (random36 e) (tooltips st1)).2
     (isInitialized st1) (initializationPromise st1) (listeners st1) (delegated st1) (emitted st1)).

(** [_performInitialization()]: the AI engine's failure or timeout is
  caught and the application goes on without it. *)
Definition _performInitialization (e : env) (st : state) : (js_error + unit) * state :=
  let st1 := setState (AppState.One (js "isLoading") (VBool true)) st in
  match storage_init e, ui_init e, image_init e, gallery_refresh e with
  | inl err, _, _, _ | inr _, inl err, _, _ | inr _, inr _, inl err, _ | inr _, inr _, inr _, inl err => fail err e st1
  | inr _, inr _, inr _, inr _ =>
      let st2 := mkState (appState st1) (keyboard st1) (dragCounter st1) (Some (js "body")) (perf st1) (loading st1)
                   (tooltips st1) (isInitialized st1) (initializationPromise st1)
                   (listeners st1 ++ [js "search-input"; js "upload-button"; js "admin-button"; js "theme-toggle"])
                   (delegated st1) (emitted st1) in
      let st3 := _restoreAppState e st2 in
      let st4 := mkState (appState st3) (keyboard st3) (dragCounter st3) (dropZone st3) (perf st3) (loading st3)
                   (tooltips st3) true (initializationPromise st3) (listeners st3) (delegated st3) (emitted st3) in
      let st5 := setState (AppState.Many [(js "isInitialized", VBool true); (js "isLoading", VBool false)]) st4 in
      let '(initTime, pf) := Performance.endMeasure (js "app-initialization") (init_duration e)
                               (Timers.clock (Tooltip.timers (tooltips st5))) (perf st5) in
      (inr tt,
       mkState (appState st5) (keyboard st5) (dragCounter st5) (dropZone st5) pf (loading st5)
         (Tooltip.success zh_ready (Tooltip.mkOptions None (Some 3000%Z) None None) (random36 e) (tooltips st5)).2
         (isInitialized st5) (initializationPromise st5) (listeners st5) (delegated st5)
         (emitted st5 ++ [Initialized initTime]))
  end.

(** [initialize()]: the promise of the first call is returned to every
  later call. *)
Definition initialize (e : env) (st : state) : (js_error + unit) * state :=
  if isInitialized st then (default (inr tt) (initializationPromise st), st) else
  match initializationPromise st with
  | Some p => (p, st)
  | None =>
      let '(r, st') := _performInitialization e st in
      (r, mkState (appState st') (keyboard st') (dragCounter st') (dropZone st') (perf st') (loading st')
            (tooltips st') (isInitialized st') (Some r) (listeners st') (delegated st') (emitted st'))
  end.

(** [destroy()]. *)
Definition destroy (st : state) : state :=
  let st1 := with_app (AppState.resetState (appState st)) st in
  mkState (appState st1) (keyboard st1) (dragCounter st1) (dropZone st1) (Performance.cleanup (perf st1))
    (loading st1) (tooltips st1) false None (listeners st1) (delegated st1) (emitted st1).

Definition delegate (a : Shortcuts.action) (st : state) : state :=
  mkState (appState st) (keyboard st) (dragCounter st) (dropZone st) (perf st) (loading st) (tooltips st)
    (isInitialized st) (initializationPromise st) (listeners st) (delegated st ++ [a]) (emitted st).

(** The handlers of the default shortcuts: [escape] leaves the
  fullscreen mode, or calls [uiManager.modalManager.closeAll], which
  [ModalManager] does not have (the [TypeError] is caught and logged);
  [f11] toggles [fullscreenMode]; the others call into the gallery, the
  admin panel and the theme manager. *)
Definition run_action (a : Shortcuts.action) (st : state) : state :=
  match a with
  | Shortcuts.CloseModalOrExitFullscreen =>
      if truthy (default VUndefined (AppState.getState (js "fullscreenMode") (appState st)))
      then setState (AppState.One (js "fullscreenMode") (VBool false)) st
      else st
  | Shortcuts.ToggleFullscreenMode => with_app (AppState.toggleState (js "fullscreenMode") (appState st)) st
  | _ => delegate a st
  end.

(** The [keydown] listener of [KeyboardShortcutManager]. *)
Definition onKeyDown (toLowerCase : jsstring -> jsstring) (ev : Shortcuts.keyevent) (st : state) : state :=
  let enabled := truthy (default VUndefined (AppState.getState (js "keyboardShortcutsEnabled") (appState st))) in
  match Shortcuts._handleKeyDown toLowerCase enabled ev (keyboard st) with
  | Some sc => run_action (Shortcuts.handler sc) st
  | None => st
  end.

(** C10: [initialize()] runs the initialization once: any later call
  returns the first call's outcome and changes nothing, also when that
  outcome was a failure (a failed start is never retried). *)
Theorem initialize_single_flight (e e' : env) (st : state) :
  let '(r, st1) := initialize e st in initialize e' st1 = (r, st1).
Proof.
  unfold initialize at 1. destruct (isInitialized st) eqn:Hi.
  - unfold initialize. by rewrite Hi.
  - destruct (initializationPromise st) as [p|] eqn:Hp0.
    + unfold initialize. by rewrite Hi, Hp0.
    + destruct (_performInitialization e st) as [r st'] eqn:Hp.
      unfold initialize. cbn [isInitialized initializationPromise].
      destruct (isInitialized st'); reflexivity.
Qed.

Lemma dispatch_nil (a : AppState.state) (ld : Loading.state) : dispatch a a ld = ld.
Proof. unfold dispatch. by rewrite drop_all. Qed.

(** a start whose storage, UI, image and gallery steps succeed leaves
  the application initialized and no longer loading, and the global
  loading overlay the first [setState] raised is hidden again, whatever
  the AI engine did (failed, timed out or succeeded). *)
Theorem initialize_success (tl : jsstring -> jsstring) (now : Z) (b : bool) (e : env) :
  storage_init e = inr tt -> ui_init e = inr tt -> image_init e = inr tt -> gallery_refresh e = inr tt ->
  let '(r, st) := initialize e (new tl now b) in
  r = inr tt /\ isInitialized st = true /\
  AppState.getState (js "isLoading") (appState st) = Some (VBool false) /\
  Loading.globalLoading (loading st) = false /\ JsMap.get (js "app-loading") (Loading.loadingStates (loading st)) = None.
Proof.
  intros H1 H2 H3 H4. unfold initialize, _performInitialization. rewrite H1, H2, H3, H4.
  vm_compute. auto.
Qed.

(** when the storage manager's initialization throws, the start
  fails with that error: the application is not initialized, its state
  records [initializationError] and [isLoading = false], the loading
  overlay is hidden, and the failure tooltip is shown. *)
Theorem initialize_storage_failure (tl : jsstring -> jsstring) (now : Z) (b : bool) (e : env) (err : js_error) :
  storage_init e = inl err ->
  let '(r, st) := initialize e (new tl now b) in
  r = inl err /\ isInitialized st = false /\ initializationPromise st = Some (inl err) /\
  AppState.getState (js "initializationError") (appState st) = Some (VStr (message err)) /\
  AppState.getState (js "isLoading") (appState st) = Some (VBool false) /\
  Loading.globalLoading (loading st) = false /\
  Tooltip.activeTooltips (tooltips st) =
    [(StringUtils.generateId now (random36 e), Tooltip.mkTooltip (js "error") zh_init_failed false true false)].
Proof.
  intros H1. unfold initialize, _performInitialization. rewrite H1.
  vm_compute. split_and!; reflexivity.
Qed.

Definition ok_env : env :=
  mkEnv (inr tt) (inr tt) (inr tt) None (inr tt) None (1500 # 1) (js "0.k3j9").

Lemma initialize_success_witness :
  storage_init ok_env = inr tt /\ ui_init ok_env = inr tt /\ image_init ok_env = inr tt /\ gallery_refresh ok_env = inr tt /\
  (let '(r, st) := initialize ok_env (new ascii_lower 1000 true) in
   r = inr tt /\ isInitialized st = true /\
   AppState.getState (js "isLoading") (appState st) = Some (VBool false) /\
   Loading.globalLoading (loading st) = false /\ JsMap.get (js "app-loading") (Loading.loadingStates (loading st)) = None).
Proof.
  split; [reflexivity|]. split; [reflexivity|]. split; [reflexivity|]. split; [reflexivity|].
  exact (initialize_success ascii_lower 1000 true ok_env eq_refl eq_refl eq_refl eq_refl).
Defined.

Definition storage_failure_env : env :=
  mkEnv (inl (Error (js "QuotaExceededError"))) (inr tt) (inr tt) None (inr tt) None 0 (js "0.k3j9").

Lemma initialize_storage_failure_witness :
  storage_init storage_failure_env = inl (Error (js "QuotaExceededError")) /\
  (let '(r, st) := initialize storage_failure_env (new ascii_lower 1000 true) in
   r = inl (Error (js "QuotaExceededError")) /\ isInitialized st = false /\
   initializationPromise st = Some (inl (Error (js "QuotaExceededError"))) /\
   AppState.getState (js "initializationError") (appState st) = Some (VStr (message (Error (js "QuotaExceededError")))) /\
   AppState.getState (js "isLoading") (appState st) = Some (VBool false) /\
   Loading.globalLoading (loading st) = false /\
   Tooltip.activeTooltips (tooltips st) =
     [(StringUtils.generateId 1000 (random36 storage_failure_env), Tooltip.mkTooltip (js "error") zh_init_failed false true false)]).
Proof.
  split; [reflexivity|].
  exact (initialize_storage_failure ascii_lower 1000 true storage_failure_env _ eq_refl).
Defined.

End AppMain.
