(* ===== verification/ArrayUtils.v ===== *)
(** * [ArrayUtils] of [src/src/js/utils.js]: [unique], [chunk] and [shuffle]

    Arrays are lists over any type with decidable equality (the
    [SameValueZero] of a [Set] on the values the callers pass).
    [chunk] is the [for] loop of the code with fuel: it terminates for a
    positive integer [size] and runs forever otherwise.  [shuffle] takes
    the sequence of [Math.random()] draws, numbers of [[0, 1)], as a
    function of the loop index; with them [j <= i], so the swap never
    leaves the array.
    [sortBy] (a comparator over arbitrary JS values) is not modelled. *)

From Stdlib Require Import QArith Qround Lqa Psatz.
From S2P Require Import Prelude.

Module ArrayUtils.
Section ArrayUtils.
Context {A : Type} `{EqDecision A}.

(** [[...new Set(arr)]]: the first occurrence of each value, in order. *)
Definition unique (arr : list A) : list A :=
  fold_left (fun seen x => if bool_decide (x ∈ seen) then seen else seen ++ [x]) arr [].

(** [unique(arr, key)]: the items whose [item[key]] was not seen before. *)
Definition unique_by {B} `{EqDecision B} (f : A -> B) (arr : list A) : list A :=
  (fold_left (fun '(seen, out) x =>
     if bool_decide (f x ∈ seen) then (seen, out) else (seen ++ [f x], out ++ [x])) arr ([], [])).2.

(** [arr.slice(b, e)] with JS's relative indices. *)
Definition rel_index (len k : Z) : Z := if (k <? 0)%Z then Z.max (len + k) 0 else Z.min k len.

Definition slice (arr : list A) (b e : Z) : list A :=
  let len := Z.of_nat (length arr) in
  let b' := rel_index len b in
  let e' := rel_index len e in
  take (Z.to_nat (e' - b')) (drop (Z.to_nat b') arr).

(** The loop of [chunk(arr, size)] from index [i], with [fuel] rounds;
  [None] when the fuel runs out. *)
Fixpoint chunk_go (fuel : nat) (arr : list A) (size i : Z) : option (list (list A)) :=
  match fuel with
  | O => None
  | S f =>
      if (i <? Z.of_nat (length arr))%Z then
        match chunk_go f arr size (i + size) with
        | Some cs => Some (slice arr i (i + size) :: cs)
        | None => None
        end
      else Some []
  end.

(** [chunk(arr, size)], given enough rounds. *)
Definition chunk (fuel : nat) (arr : list A) (size : Z) : option (list (list A)) := chunk_go fuel arr size 0.

(** [[result[i], result[j]] = [result[j], result[i]]]. *)
Definition swap (i j : nat) (l : list A) : list A :=
  match l !! i, l !! j with
  | Some x, Some y => <[j := x]> (<[i := y]> l)
  | _, _ => l
  end.

(** A value of [Math.random()]: a number of [[0, 1)]. *)
Definition draw := {q : Q | (0 <= q < 1)%Q}.

(** [Math.floor(Math.random() * (i + 1))]. *)
Definition pick (r : draw) (i : nat) : nat := Z.to_nat (Qfloor (proj1_sig r * inject_Z (Z.of_nat (S i)))%Q).

(** The loop of [shuffle(arr)] for [i = k, ..., 1] with the draws [rand i]. *)
Fixpoint shuffle_go (rand : nat -> draw) (k : nat) (l : list A) : list A :=
  match k with
  | O => l
  | S k' => shuffle_go rand k' (swap k (pick (rand k) k) l)
  end.

Definition shuffle (rand : nat -> draw) (arr : list A) : list A := shuffle_go rand (pred (length arr)) arr.

(** ** [unique] *)

Lemma unique_snoc (l : list A) (x : A) :
  unique (l ++ [x]) = if bool_decide (x ∈ unique l) then unique l else unique l ++ [x].
Proof. unfold unique. by rewrite fold_left_app. Qed.

Lemma elem_of_unique (l : list A) (x : A) : x ∈ unique l <-> x ∈ l.
Proof.
  induction l as [|y l IH] using rev_ind; [done|].
  rewrite unique_snoc, elem_of_app, list_elem_of_singleton, <- IH.
  case_bool_decide; rewrite ?elem_of_app, ?list_elem_of_singleton; naive_solver.
Qed.

(** [[...new Set(arr)]] is stdpp's [remove_dups] kept at the first
  occurrences: the values of [arr], each once, in the order they first
  appear. *)
Theorem unique_remove_dups (l : list A) : unique l = reverse (remove_dups (reverse l)).
Proof.
  induction l as [|x l IH] using rev_ind; [done|].
  rewrite unique_snoc, reverse_snoc. cbn [remove_dups].
  destruct (decide_rel elem_of x (reverse l)) as [Hin|Hin]; rewrite elem_of_reverse in Hin.
  - rewrite bool_decide_eq_true_2 by (by apply elem_of_unique). done.
  - rewrite bool_decide_eq_false_2 by (by rewrite elem_of_unique). by rewrite reverse_cons, IH.
Qed.

Lemma NoDup_unique (l : list A) : NoDup (unique l).
Proof. rewrite unique_remove_dups, reverse_Permutation. apply NoDup_remove_dups. Qed.

(** [[...new Set(arr)]] is a set of the values of [arr]: no value
  twice, and exactly the values of [arr]. *)
Theorem unique_wellformed (l : list A) : NoDup (unique l) /\ (forall x, x ∈ unique l <-> x ∈ l).
Proof. split; [apply NoDup_unique|apply elem_of_unique]. Qed.

(** ** [chunk] *)

Lemma slice_in (arr : list A) (i size : Z) :
  (0 <= i)%Z -> (0 < size)%Z -> slice arr i (i + size) = take (Z.to_nat size) (drop (Z.to_nat i) arr).
Proof.
  intros Hi Hs. unfold slice, rel_index.
  rewrite (proj2 (Z.ltb_ge i 0)), (proj2 (Z.ltb_ge (i + size) 0)) by lia.
  destruct (Z.min_spec i (Z.of_nat (length arr))) as [[Hl ->]|[Hl ->]];
  destruct (Z.min_spec (i + size) (Z.of_nat (length arr))) as [[Hl' ->]|[Hl' ->]].
  - by replace (i + size - i)%Z with size by lia.
  - rewrite (take_ge (drop _ arr) (Z.to_nat size)), take_ge; [done|rewrite length_drop; lia..].
  - lia.
  - rewrite !drop_ge by lia. by rewrite !take_nil.
Qed.

Lemma chunk_go_spec (arr : list A) (size : Z) (fuel : nat) (i : Z) :
  (0 < size)%Z -> (0 <= i)%Z -> (Z.to_nat (Z.of_nat (length arr) - i) < fuel)%nat ->
  exists cs, chunk_go fuel arr size i = Some cs /\ concat cs = drop (Z.to_nat i) arr /\
    Forall (fun c => 0 < length c <= Z.to_nat size)%nat cs.
Proof.
  intros Hs. revert i. induction fuel as [|fuel IH]; intros i Hi Hf; [lia|]. cbn [chunk_go].
  destruct (Z.ltb_spec i (Z.of_nat (length arr))) as [Hlt|Hge].
  - destruct (IH (i + size)%Z) as (cs & -> & Hc & Hall); [lia|lia|].
    eexists. split; [done|]. rewrite slice_in by done. split.
    + cbn. rewrite Hc, Z2Nat.inj_add, <- drop_drop by lia. apply take_drop.
    + constructor; [|done]. rewrite length_take, length_drop. lia.
  - exists []. split; [done|]. rewrite drop_ge by lia. split; [done|constructor].
Qed.

(** [chunk(arr, size)] with a positive integer [size] terminates
  within [arr.length + 1] rounds and splits [arr] into pieces of at most
  [size] items, none empty, that concatenate back to [arr]. *)
Theorem chunk_terminates (arr : list A) (size : Z) :
  (0 < size)%Z ->
  exists cs, chunk (S (length arr)) arr size = Some cs /\ concat cs = arr /\
    Forall (fun c => 0 < length c <= Z.to_nat size)%nat cs.
Proof.
  intros Hs. destruct (chunk_go_spec arr size (S (length arr)) 0 Hs ltac:(lia) ltac:(lia)) as (cs & H1 & H2 & H3).
  exists cs. split; [done|]. by rewrite H2, drop_0.
Qed.

(** with a [size] of [0] or less and a non-empty array the loop of
  [chunk] never ends: no number of rounds is enough. *)
Theorem chunk_diverges (arr : list A) (size : Z) (fuel : nat) :
  (size <= 0)%Z -> arr <> [] -> chunk fuel arr size = None.
Proof.
  intros Hs Hne. unfold chunk.
  assert (Hlen : (0 < Z.of_nat (length arr))%Z) by (destruct arr; [done|cbn; lia]).
  cut (forall i, (i <= 0)%Z -> chunk_go fuel arr size i = None); [intros H; by apply H|].
  induction fuel as [|fuel IH]; intros i Hi; cbn; [done|].
  rewrite (proj2 (Z.ltb_lt _ _)) by lia. by rewrite IH by lia.
Qed.

(** ** [shuffle] *)

Lemma pick_le (r : draw) (i : nat) : (pick r i <= i)%nat.
Proof.
  destruct r as [q [H0 H1]]. unfold pick. cbn [proj1_sig].
  assert (Hlt : (q * inject_Z (Z.of_nat (S i)) < inject_Z (Z.of_nat (S i)))%Q).
  { assert (0 < inject_Z (Z.of_nat (S i)))%Q by (change 0%Q with (inject_Z 0); rewrite <- Zlt_Qlt; lia). nra. }
  assert (Hf : (inject_Z (Qfloor (q * inject_Z (Z.of_nat (S i)))) < inject_Z (Z.of_nat (S i)))%Q)
    by (eapply Qle_lt_trans; [apply Qfloor_le|exact Hlt]).
  rewrite <- Zlt_Qlt in Hf. lia.
Qed.

Lemma shuffle_go_perm (rand : nat -> draw) (k : nat) (l : list A) :
  (k < length l)%nat -> shuffle_go rand k l ≡ₚ l.
Proof.
  revert l. induction k as [|k IH]; intros l Hk; cbn [shuffle_go]; [done|].
  unfold swap. pose proof (pick_le (rand (S k)) (S k)).
  destruct (lookup_lt_is_Some_2 l (S k)) as [x Hx]; [lia|].
  destruct (lookup_lt_is_Some_2 l (pick (rand (S k)) (S k))) as [y Hy]; [lia|].
  rewrite Hx, Hy. rewrite IH by (rewrite !length_insert; lia).
  by apply Permutation_insert_swap.
Qed.

(** [shuffle(arr)] returns a permutation of [arr] for every sequence
  of [Math.random()] draws. *)
Theorem shuffle_perm (rand : nat -> draw) (arr : list A) : shuffle rand arr ≡ₚ arr.
Proof.
  unfold shuffle. destruct arr as [|x l]; [done|]. apply shuffle_go_perm. cbn. lia.
Qed.

End ArrayUtils.

Section UniqueBy.
Context {A B : Type} `{EqDecision A} `{EqDecision B} (f : A -> B).

Lemma unique_by_fold (l : list A) :
  let '(seen, out) := fold_left (fun '(seen, out) x =>
     if bool_decide (f x ∈ seen) then (seen, out) else (seen ++ [f x], out ++ [x])) l ([], []) in
  seen = map f out /\ seen = unique (map f l).
Proof.
  induction l as [|x l IH] using rev_ind; [done|].
  rewrite fold_left_app. destruct (fold_left _ l ([], [])) as [seen out]. destruct IH as [H1 H2].
  cbn. rewrite map_app. cbn. rewrite unique_snoc, <- H2.
  case_bool_decide; [done|]. rewrite map_app. cbn. by rewrite H1.
Qed.

(** [unique(arr, key)] keeps the first item of each [item[key]]
  value: the keys of its result are [[...new Set(arr.map(k))]]. *)
Theorem unique_by_keys (l : list A) : map f (unique_by f l) = unique (map f l).
Proof.
  unfold unique_by. pose proof (unique_by_fold l) as H.
  destruct (fold_left _ l ([], [])) as [seen out]. destruct H as [H1 H2]. cbn. congruence.
Qed.
End UniqueBy.
Lemma chunk_terminates_witness :
  chunk 6 [1; 2; 3; 4; 5]%Z 2 = Some [[1; 2]; [3; 4]; [5]]%Z /\
  exists cs, chunk (S (length [1; 2; 3; 4; 5]%Z)) [1; 2; 3; 4; 5]%Z 2 = Some cs /\
    concat cs = [1; 2; 3; 4; 5]%Z /\ Forall (fun c => 0 < length c <= Z.to_nat 2)%nat cs.
Proof. split; [reflexivity|]. apply (chunk_terminates [1; 2; 3; 4; 5]%Z 2). lia. Defined.

Lemma chunk_diverges_witness : chunk 1000 [7%Z] 0 = None.
Proof. apply (chunk_diverges [7%Z] 0 1000); [lia|discriminate]. Defined.

End ArrayUtils.
