(* ===== verification/JsNumber.v ===== *)
(** * JavaScript numbers for the arithmetic of [src/src/js/imageManager.js]

    A number is a finite rational, [+Infinity], [-Infinity] or [NaN]: the
    values the size computations of the image code reach, with division by
    zero giving an infinity or [NaN] and [NaN] comparing false with every
    number, as IEEE doubles do.  The finite values are exact rationals, not
    doubles: for the integer dimensions and byte counts the code divides and
    compares (below 2^26) the exact and the rounded results fall on the same
    side of each threshold the code tests.  [-0] is not distinguished from
    [0]; no comparison or branch of the modelled code depends on it. *)

From Stdlib Require Import QArith Qround Lqa.
From S2P Require Import Prelude.

Module JsNumber.

Inductive number := Fin (q : Q) | PInf | NInf | NaN.

Definition of_Z (z : Z) : number := Fin (inject_Z z).

(** [ToNumber(undefined)]. *)
Definition undefined : number := NaN.

Definition Qsign_inf (x : Q) (pos neg : number) : number :=
  if Qeq_bool x 0 then NaN else if Qle_bool 0 x then pos else neg.

(** [a / b]. *)
Definition div (a b : number) : number :=
  match a, b with
  | NaN, _ | _, NaN => NaN
  | Fin x, Fin y => if Qeq_bool y 0 then Qsign_inf x PInf NInf else Fin (x / y)
  | Fin _, (PInf | NInf) => Fin 0
  | PInf, Fin y => if Qle_bool 0 y then PInf else NInf
  | NInf, Fin y => if Qle_bool 0 y then NInf else PInf
  | _, _ => NaN
  end.

(** [a * b]. *)
Definition mul (a b : number) : number :=
  match a, b with
  | NaN, _ | _, NaN => NaN
  | Fin x, Fin y => Fin (x * y)
  | Fin x, PInf | PInf, Fin x => Qsign_inf x PInf NInf
  | Fin x, NInf | NInf, Fin x => Qsign_inf x NInf PInf
  | PInf, PInf | NInf, NInf => PInf
  | _, _ => NInf
  end.

(** [a < b]: false when either side is [NaN]. *)
Definition lt (a b : number) : bool :=
  match a, b with
  | Fin x, Fin y => negb (Qle_bool y x)
  | NInf, (Fin _ | PInf) | Fin _, PInf => true
  | _, _ => false
  end.

Definition is_nan (a : number) : bool := match a with NaN => true | _ => false end.

(** [a > b], [a >= b], [a <= b]. *)
Definition gt (a b : number) : bool := lt b a.
Definition ge (a b : number) : bool := negb (is_nan a || is_nan b) && negb (lt a b).

(** [Math.min(a, b)], [Math.max(a, b)]. *)
Definition min (a b : number) : number :=
  if is_nan a || is_nan b then NaN else if lt b a then b else a.
Definition max (a b : number) : number :=
  if is_nan a || is_nan b then NaN else if lt a b then b else a.

(** [Math.round(a)]: the nearest integer, halves rounded up. *)
Definition round (a : number) : number :=
  match a with Fin x => Fin (inject_Z (Qfloor (x + (1 # 2)))) | _ => a end.

(** ** Lemmas on finite values *)

Lemma lt_Fin (x y : Q) : lt (Fin x) (Fin y) = true <-> (x < y)%Q.
Proof.
  cbn. destruct (Qle_bool y x) eqn:E; cbn.
  - apply Qle_bool_iff in E. split; [done|lra].
  - split; [intros _|done]. apply Qnot_le_lt. intros H. apply Qle_bool_iff in H. congruence.
Qed.

Lemma lt_Fin_false (x y : Q) : lt (Fin x) (Fin y) = false <-> (y <= x)%Q.
Proof.
  cbn. destruct (Qle_bool y x) eqn:E; cbn; [apply Qle_bool_iff in E; done|].
  split; [done|]. intros H. apply Qle_bool_iff in H. congruence.
Qed.

Lemma ge_Fin (x y : Q) : ge (Fin x) (Fin y) = true <-> (y <= x)%Q.
Proof. unfold ge. cbn [is_nan orb negb andb]. rewrite negb_true_iff. apply lt_Fin_false. Qed.

Lemma div_Fin (x y : Q) : ~ (y == 0)%Q -> div (Fin x) (Fin y) = Fin (x / y).
Proof.
  intros Hy. cbn. destruct (Qeq_bool y 0) eqn:E; [|done].
  apply Qeq_bool_iff in E. contradiction.
Qed.

Lemma min_Fin (x y : Q) : min (Fin x) (Fin y) = Fin (if Qle_bool x y then x else y).
Proof.
  unfold min. cbn [is_nan orb]. destruct (lt (Fin y) (Fin x)) eqn:E.
  - apply lt_Fin in E. destruct (Qle_bool x y) eqn:E'; [|done]. apply Qle_bool_iff in E'. lra.
  - apply lt_Fin_false in E. by rewrite (proj2 (Qle_bool_iff x y) E).
Qed.

Lemma floor_lt (x : Q) (k : Z) : (x < inject_Z k)%Q -> (Qfloor x < k)%Z.
Proof. intros H. pose proof (Qfloor_le x). rewrite Zlt_Qlt. lra. Qed.

Lemma round_Z (z : Z) : round (of_Z z) = of_Z z.
Proof.
  unfold round, of_Z. f_equal. f_equal.
  apply Z.le_antisymm.
  - assert (H : (Qfloor (inject_Z z + (1 # 2)) < z + 1)%Z); [|lia].
    apply floor_lt. rewrite inject_Z_plus. change (inject_Z 1) with (1 # 1). lra.
  - pose proof (Qfloor_resp_le (inject_Z z) (inject_Z z + (1 # 2)) ltac:(lra)) as H.
    by rewrite Qfloor_Z in H.
Qed.

(** Rounding a finite value below an integer bound [m] (or within half of
  it) gives a value at most [m]. *)
Lemma round_le (x : Q) (m : Z) :
  (x < inject_Z m + (1 # 2))%Q -> (Qfloor (x + (1 # 2)) <= m)%Z.
Proof.
  intros H. assert (Hf : (Qfloor (x + (1 # 2)) < m + 1)%Z); [|lia].
  apply floor_lt. rewrite inject_Z_plus. change (inject_Z 1) with (1 # 1). lra.
Qed.

Lemma round_nonneg (x : Q) : (0 <= x)%Q -> (0 <= Qfloor (x + (1 # 2)))%Z.
Proof.
  intros H. pose proof (Qfloor_resp_le 0 (x + (1 # 2)) ltac:(lra)) as H'. exact H'.
Qed.

(** ** The integer cases, as rewriting rules *)

Lemma lt_of_Z (a b : Z) : lt (of_Z a) (of_Z b) = (a <? b)%Z.
Proof.
  destruct (Z.ltb_spec a b) as [H|H].
  - apply lt_Fin. by rewrite <- Zlt_Qlt.
  - apply lt_Fin_false. by rewrite <- Zle_Qle.
Qed.

Lemma gt_of_Z (a b : Z) : gt (of_Z a) (of_Z b) = (b <? a)%Z.
Proof. apply lt_of_Z. Qed.

Lemma ge_of_Z (a b : Z) : ge (of_Z a) (of_Z b) = (b <=? a)%Z.
Proof.
  unfold ge. cbn [is_nan orb negb andb]. rewrite lt_of_Z.
  destruct (Z.ltb_spec a b), (Z.leb_spec b a); cbn; done || lia.
Qed.

Lemma min_of_Z (a b : Z) : min (of_Z a) (of_Z b) = of_Z (Z.min a b).
Proof.
  unfold of_Z. rewrite min_Fin. destruct (Qle_bool _ _) eqn:E.
  - apply Qle_bool_iff in E. rewrite <- Zle_Qle in E. by rewrite Z.min_l.
  - assert (~ (a <= b)%Z) by (rewrite Zle_Qle, <- Qle_bool_iff; congruence). by rewrite Z.min_r by lia.
Qed.

Lemma max_of_Z (a b : Z) : max (of_Z a) (of_Z b) = of_Z (Z.max a b).
Proof.
  unfold max. cbn [is_nan orb]. rewrite lt_of_Z. destruct (Z.ltb_spec a b).
  - by rewrite Z.max_r by lia.
  - by rewrite Z.max_l by lia.
Qed.

Lemma mul_of_Z (a b : Z) : mul (of_Z a) (of_Z b) = of_Z (a * b).
Proof. unfold of_Z. cbn. by rewrite inject_Z_mult. Qed.

Lemma div_of_Z (a b : Z) : b <> 0%Z -> div (of_Z a) (of_Z b) = Fin (inject_Z a / inject_Z b).
Proof. intros Hb. apply div_Fin. rewrite <- (inject_Z_injective b 0) in Hb. done. Qed.

Create Rewrite HintDb jsnum.
#[export] Hint Rewrite lt_of_Z gt_of_Z ge_of_Z min_of_Z max_of_Z mul_of_Z round_Z : jsnum.

End JsNumber.
