(* ===== verification/ImageMetadata.v ===== *)
(** * [ImageMetadataManager] and [ImageProcessor] of [src/src/js/imageManager.js]

    [Metadata] models [ImageMetadataManager]: [extractMetadata(file)]
    builds the metadata object of a [File] from the browser's decoding of
    it ([_extractBasicMetadata], whose [Image] element either loads with
    its natural size or fails), the constant EXIF stub
    ([_extractExifData]) and the derived properties
    ([_computeDerivedProperties] and the five classifiers it calls).
    [Processor] models the size computations of [ImageProcessor] and
    [ImageCacheManager.generateThumbnail]: [_calculateThumbnailSize],
    [_calculateCompressedSize], the dimension part of [compressImage] and
    [generateThumbnail], and [_getFilterCSS].  Numbers are [JsNumber]'s;
    dates are their time values; the canvas drawing and blob encoding are
    inputs (whether [toBlob] produced a blob and its URL). *)

From Stdlib Require Import QArith Qround Lqa.
From S2P Require Import Prelude JsValue JsNumber Utils JsArray PostProcess.
Import JsValue JsNumber.

Module Metadata.

(** The fields of a [File] the code reads. *)
Record File := mkFile { name : jsstring; size : Z; type : jsstring; lastModified : Z }.

(** The end of the [Image] element of [_extractBasicMetadata]: [onload]
  with [naturalWidth] and [naturalHeight], or [onerror]. *)
Inductive image_load := Loaded (naturalWidth naturalHeight : Z) | LoadError.

Record basic := mkBasic {
  width : number; height : number; aspectRatio : number; megapixels : number;
  basic_error : option jsstring
}.

Record computed := mkComputed {
  orientation : jsstring; quality : jsstring; category : jsstring;
  sizeCategory : jsstring; displayName : jsstring
}.

(** The metadata object; [error] is the [error: true] of the fallback
  object, [false] where the key is absent. *)
Record metadata := mkMetadata {
  fileName : jsstring; fileSize : Z; fileType : jsstring;
  md_lastModified : Z; extractedAt : Z;
  md_basic : basic; exif : jsval; md_computed : computed; error : bool
}.

(** [_extractBasicMetadata(file)]: the promise resolves in both handlers. *)
Definition _extractBasicMetadata (img : image_load) : basic :=
  match img with
  | Loaded w h =>
      mkBasic (of_Z w) (of_Z h) (div (of_Z w) (of_Z h)) (div (mul (of_Z w) (of_Z h)) (of_Z 1000000)) None
  | LoadError => mkBasic (of_Z 0) (of_Z 0) (of_Z 1) (of_Z 0) (Some (js "Image load failed"))
  end.

(** [_extractExifData(file)]: a constant object. *)
Definition _extractExifData : jsval :=
  JObj [(js "camera", JNull); (js "lens", JNull);
        (js "settings", JObj [(js "iso", JNull); (js "aperture", JNull);
                              (js "shutterSpeed", JNull); (js "focalLength", JNull)]);
        (js "location", JObj [(js "latitude", JNull); (js "longitude", JNull); (js "altitude", JNull)]);
        (js "datetime", JObj [(js "taken", JNull); (js "digitized", JNull); (js "modified", JNull)]);
        (js "orientation", JNum 1)].

Definition _determineOrientation (aspectRatio : number) : jsstring :=
  if gt aspectRatio (Fin (6 # 5)) then js "landscape"
  else if lt aspectRatio (Fin (4 # 5)) then js "portrait"
  else js "square".

Definition _assessImageQuality (b : basic) (fileSize : Z) : jsstring :=
  let compressionRatio := div (of_Z fileSize) (mul (mul (width b) (height b)) (of_Z 3)) in
  if ge (megapixels b) (of_Z 12) && gt compressionRatio (Fin (1 # 10)) then js "high"
  else if ge (megapixels b) (of_Z 6) && gt compressionRatio (Fin (1 # 20)) then js "medium"
  else js "low".

Definition _categorizeByDimensions (b : basic) : jsstring :=
  let maxDimension := JsNumber.max (width b) (height b) in
  if ge maxDimension (of_Z 4000) then js "ultra-high"
  else if ge maxDimension (of_Z 2000) then js "high"
  else if ge maxDimension (of_Z 1000) then js "medium"
  else js "low".

Definition _categorizeBySizeCategory (fileSize : Z) : jsstring :=
  let sizeMB := div (of_Z fileSize) (of_Z (1024 * 1024)) in
  if ge sizeMB (of_Z 10) then js "large"
  else if ge sizeMB (of_Z 5) then js "medium"
  else if ge sizeMB (of_Z 1) then js "small"
  else js "tiny".

(** The match of [/\.[^/.]+$/] on the reversed name: the text before its
  last ['.'] when the characters after it are neither ['/'] nor ['.'] and
  there is at least one. *)
Fixpoint ext_match_rev (r : jsstring) (nonempty : bool) : option jsstring :=
  match r with
  | [] => None
  | c :: r' =>
      if (c =? 46)%Z then (if nonempty then Some r' else None)
      else if (c =? 47)%Z then None
      else ext_match_rev r' true
  end.

(** [fileName.replace(/\.[^/.]+$/, '')]. *)
Definition strip_extension (fileName : jsstring) : jsstring :=
  match ext_match_rev (rev fileName) false with Some p => rev p | None => fileName end.

Definition _generateDisplayName (fileName : jsstring) : jsstring :=
  StringUtils.truncate (strip_extension fileName) 30 (js "...").

Definition _computeDerivedProperties (md : metadata) : computed :=
  let b := md_basic md in
  mkComputed (_determineOrientation (aspectRatio b)) (_assessImageQuality b (fileSize md))
    (_categorizeByDimensions b) (_categorizeBySizeCategory (fileSize md))
    (_generateDisplayName (fileName md)).

(** [extractMetadata(file)] at time [now], the file's image decoding
  ending as [img].  For a [File] none of the calls in its [try] throws
  (the two helpers resolve in every case, the classifiers read numbers
  and a string), so the [catch] with [_createFallbackMetadata] is not
  reached. *)
Definition extractMetadata (f : File) (img : image_load) (now : Z) : metadata :=
  let md := mkMetadata (name f) (size f) (type f) (lastModified f) now
              (_extractBasicMetadata img) _extractExifData (mkComputed [] [] [] [] []) false in
  mkMetadata (fileName md) (fileSize md) (fileType md) (md_lastModified md) (extractedAt md)
    (md_basic md) (exif md) (_computeDerivedProperties md) (error md).

Definition _createFallbackMetadata (f : File) (now : Z) : metadata :=
  mkMetadata (name f) (size f) (type f) (lastModified f) now
    (mkBasic (of_Z 0) (of_Z 0) (of_Z 1) (of_Z 0) None) (JObj [])
    (mkComputed (js "unknown") (js "unknown") (js "unknown") (js "unknown") (name f)) true.

(** ** Theorems *)

Definition ext_char (c : Z) : bool := negb ((c =? 46) || (c =? 47))%Z.

Lemma ext_match_rev_dot (e r : jsstring) (nonempty : bool) :
  forallb ext_char e = true ->
  ext_match_rev (e ++ 46%Z :: r) nonempty = if nonempty || negb (bool_decide (e = [])) then Some r else None.
Proof.
  revert nonempty. induction e as [|c e IH]; intros ne He; cbn [app ext_match_rev]; [by destruct ne|].
  cbn in He. apply andb_prop in He as [Hc He]. unfold ext_char in Hc.
  destruct (Z.eqb_spec c 46), (Z.eqb_spec c 47); cbn in Hc; try done.
  rewrite IH by done. by destruct ne.
Qed.

Lemma ext_match_rev_nodot (r : jsstring) (nonempty : bool) : 46%Z ∉ r -> ext_match_rev r nonempty = None.
Proof.
  revert nonempty. induction r as [|c r IH]; intros ne Hr; cbn; [done|].
  rewrite elem_of_cons in Hr. destruct (Z.eqb_spec c 46); [exfalso; auto|].
  destruct (c =? 47)%Z; [done|]. apply IH. auto.
Qed.

(** [fileName.replace(/\.[^/.]+$/, '')] removes exactly the last
  extension: a name ending in ['.'] and one or more characters other
  than ['.'] and ['/'] loses that suffix, a name without a dot is kept. *)
Theorem strip_extension_spec (base ext name : jsstring) :
  (ext <> [] -> forallb ext_char ext = true -> strip_extension (base ++ 46%Z :: ext) = base) /\
  (46%Z ∉ name -> strip_extension name = name).
Proof.
  split.
  - intros Hne He. unfold strip_extension. rewrite rev_app_distr. cbn [rev]. rewrite <- app_assoc.
    cbn [app]. rewrite ext_match_rev_dot.
    + rewrite bool_decide_eq_false_2 by (intros H; apply Hne; by apply (f_equal (@rev Z)) in H; rewrite rev_involutive in H).
      cbn. by rewrite rev_involutive.
    + rewrite forallb_forall in He |- *. intros c Hc. apply He. by apply in_rev.
  - intros Hn. unfold strip_extension. rewrite ext_match_rev_nodot; [done|].
    rewrite list_elem_of_In, <- in_rev, <- list_elem_of_In. done.
Qed.

(** the display name of every file has at most 30 code units. *)
Theorem displayName_fits (fileName : jsstring) : (length (_generateDisplayName fileName) <= 30)%nat.
Proof.
  unfold _generateDisplayName. destruct (StringUtils.truncate_fits (strip_extension fileName) (js "...") 30)
    as [H _]; [cbn; lia|]. lia.
Qed.

(** a file the browser cannot decode gets the metadata of a valid
  square low-quality image: [basic.error] is set, but the object has no
  [error] flag and its orientation, quality and category are
  ['square'], ['low'] and ['low'], not the ['unknown'] of the fallback. *)
Theorem load_error_not_flagged (f : File) (now : Z) :
  let md := extractMetadata f LoadError now in
  error md = false /\ basic_error (md_basic md) = Some (js "Image load failed") /\
  orientation (md_computed md) = js "square" /\ quality (md_computed md) = js "low" /\
  category (md_computed md) = js "low".
Proof. cbn. repeat split. Qed.

(** [ImageMetadataManager] and the AI engine's feature extraction
  ([_analyzeImageFeatures]) classify every size alike: the orientation of
  the metadata equals [PostProcess.orientationOf] of the same natural
  width and height, zero sizes included. *)
Theorem orientation_agrees (w h : nat) :
  _determineOrientation (aspectRatio (_extractBasicMetadata (Loaded (Z.of_nat w) (Z.of_nat h)))) =
  PostProcess.orientationOf (PostProcess.divide w h).
Proof.
  cbn [_extractBasicMetadata aspectRatio]. unfold PostProcess.divide.
  destruct h as [|h]; [destruct w; reflexivity|]. cbn [Nat.eqb].
  rewrite div_of_Z by lia. reflexivity.
Qed.

Lemma div_mb (s : Z) (k : Z) :
  ge (div (of_Z s) (of_Z (1024 * 1024))) (of_Z k) = (k * 1048576 <=? s)%Z.
Proof.
  change (1024 * 1024)%Z with 1048576%Z. rewrite div_of_Z by lia. unfold of_Z. apply Bool.eq_iff_eq_true. rewrite ge_Fin, Z.leb_le.
  unfold Qle, Qdiv, Qinv, Qmult, inject_Z. cbn. lia.
Qed.

(** the size category is a comparison of the byte count with 10, 5
  and 1 MiB. *)
Theorem sizeCategory_thresholds (fileSize : Z) :
  _categorizeBySizeCategory fileSize =
    if (10485760 <=? fileSize)%Z then js "large"
    else if (5242880 <=? fileSize)%Z then js "medium"
    else if (1048576 <=? fileSize)%Z then js "small" else js "tiny".
Proof. unfold _categorizeBySizeCategory. by rewrite !div_mb. Qed.

Lemma strip_extension_spec_witness :
  strip_extension (js "holiday.jpg") = js "holiday" /\ strip_extension (js "README") = js "README".
Proof.
  split.
  - apply (proj1 (strip_extension_spec (js "holiday") (js "jpg") [])); [discriminate|reflexivity].
  - apply (proj2 (strip_extension_spec [] [] (js "README"))). apply (bool_decide_unpack _); by vm_compute.
Defined.

End Metadata.

Module Processor.

Definition zh_load_failed : jsstring := [22270; 20687; 21152; 36733; 22833; 36133]%Z.
Definition zh_thumbnail_failed : jsstring := [32553; 30053; 22270; 29983; 25104; 22833; 36133]%Z.
Definition zh_compress_failed : jsstring := [22270; 20687; 21387; 32553; 22833; 36133]%Z.

(** [CONFIG.IMAGE.THUMBNAIL_SIZE]; [CONFIG.IMAGE] has no [MAX_WIDTH] nor
  [MAX_HEIGHT], so those defaults read [undefined]. *)
Definition THUMBNAIL_SIZE : number := of_Z 240.
Definition MAX_WIDTH : number := undefined.
Definition MAX_HEIGHT : number := undefined.

Definition _calculateThumbnailSize (originalWidth originalHeight maxSize : number) : number * number :=
  let aspectRatio := div originalWidth originalHeight in
  let '(width, height) :=
    if gt originalWidth originalHeight then
      let width := JsNumber.min originalWidth maxSize in (width, div width aspectRatio)
    else
      let height := JsNumber.min originalHeight maxSize in (mul height aspectRatio, height) in
  (round width, round height).

Definition _calculateCompressedSize (originalWidth originalHeight maxWidth maxHeight : number) : number * number :=
  let '(width, height) := (originalWidth, originalHeight) in
  let '(width, height) :=
    if gt width maxWidth then (maxWidth, div (mul height maxWidth) width) else (width, height) in
  let '(width, height) :=
    if gt height maxHeight then (div (mul width maxHeight) height, maxHeight) else (width, height) in
  (round width, round height).

(** How [canvas.toBlob] ends: a blob (and the object URL made of it) or
  [null]. *)
Inductive blob := BlobURL (url : jsstring) | NoBlob.

(** [generateThumbnail(source, maxSize)]: the canvas size it draws at
  and the URL it resolves with. *)
Definition generateThumbnail (img : Metadata.image_load) (maxSize : option number) (b : blob)
    : js_error + (number * number * jsstring) :=
  match img with
  | Metadata.LoadError => inl (Error zh_load_failed)
  | Metadata.Loaded w h =>
      let dims := _calculateThumbnailSize (of_Z w) (of_Z h) (default THUMBNAIL_SIZE maxSize) in
      match b with
      | BlobURL u => inr (dims.1, dims.2, u)
      | NoBlob => inl (Error zh_thumbnail_failed)
      end
  end.

Record compress_options := mkCompressOptions { maxWidth : option number; maxHeight : option number }.

(** [compressImage(file, options)]: the canvas size of the compressed
  image, or the rejection. *)
Definition compressImage (img : Metadata.image_load) (o : compress_options) (b : blob)
    : js_error + (number * number) :=
  match img with
  | Metadata.LoadError => inl (Error zh_load_failed)
  | Metadata.Loaded w h =>
      let dims := _calculateCompressedSize (of_Z w) (of_Z h)
                    (default MAX_WIDTH (maxWidth o)) (default MAX_HEIGHT (maxHeight o)) in
      match b with
      | BlobURL _ => inr dims
      | NoBlob => inl (Error zh_compress_failed)
      end
  end.

(** The value of [filters[filter]]: an own key's CSS text, or a member
  every object inherits from [Object.prototype]. *)
Inductive filter_value := CSS (s : jsstring) | Inherited (member : jsstring).

Definition filters : list (jsstring * jsstring) :=
  [(js "grayscale", js "grayscale(100%)"); (js "sepia", js "sepia(100%)");
   (js "blur", js "blur(2px)"); (js "brightness", js "brightness(120%)");
   (js "contrast", js "contrast(120%)"); (js "saturate", js "saturate(150%)");
   (js "vintage", js "sepia(50%) contrast(120%) brightness(110%)")].

Definition object_prototype_members : list jsstring :=
  [js "constructor"; js "hasOwnProperty"; js "isPrototypeOf"; js "propertyIsEnumerable";
   js "toLocaleString"; js "toString"; js "valueOf"; js "__defineGetter__"; js "__defineSetter__";
   js "__lookupGetter__"; js "__lookupSetter__"; js "__proto__"].

(** [filters[filter] || 'none']: every own value and every inherited
  member is truthy. *)
Definition _getFilterCSS (filter : jsstring) : filter_value :=
  match List.find (fun kv => bool_decide (kv.1 = filter)) filters with
  | Some kv => CSS kv.2
  | None => if bool_decide (filter ∈ object_prototype_members) then Inherited filter else CSS (js "none")
  end.

(** ** Theorems *)

Open Scope Q_scope.

(** [c] scaled by [b / a] stays within [b] when [c <= a], and within [c]
  when [b <= a]. *)
Lemma scaled_bounds (c a b : Q) :
  0 < a -> 0 <= b -> 0 <= c ->
  0 <= c * (b / a) /\ (c <= a -> c * (b / a) <= b) /\ (b <= a -> c * (b / a) <= c).
Proof.
  intros Ha Hb Hc. set (r := b / a).
  assert (Hr : r * a == b) by (unfold r; field; lra).
  assert (Hr0 : 0 <= r) by (unfold r; apply Qle_shift_div_l; lra).
  split; [nra|split; intros; nra].
Qed.

Lemma round_Qeq (x y : Q) : (x == y)%Q -> round (Fin x) = round (Fin y).
Proof. intros H. unfold round. do 2 f_equal. apply Qfloor_comp. by rewrite H. Qed.

Lemma Z_pos_Q (z : Z) : (0 < z)%Z -> 0 < inject_Z z.
Proof. intros H. change 0 with (inject_Z 0). by rewrite <- Zlt_Qlt. Qed.

Lemma Z_le_Q (a b : Z) : (a <= b)%Z -> inject_Z a <= inject_Z b.
Proof. intros H. unfold Qle. cbn. lia. Qed.

Close Scope Q_scope.

(** The rounding of [c * (b / a)] for integers: an integer within [b]
  when [c <= a] and within [c] when [b <= a]. *)
Lemma round_scaled (c a b : Z) :
  (0 < a)%Z -> (0 <= b)%Z -> (0 <= c)%Z ->
  exists k, round (Fin (inject_Z c * (inject_Z b / inject_Z a))) = of_Z k /\ (0 <= k)%Z /\
    ((c <= a)%Z -> (k <= b)%Z) /\ ((b <= a)%Z -> (k <= c)%Z).
Proof.
  intros Ha Hb Hc. pose proof (Z_pos_Q a Ha).
  apply Z_le_Q in Hb, Hc. change (inject_Z 0) with 0%Q in Hb, Hc.
  destruct (scaled_bounds (inject_Z c) (inject_Z a) (inject_Z b)) as (B0 & B1 & B2); [done..|].
  eexists. split; [reflexivity|]. split; [by apply round_nonneg|].
  split; intros Hle; apply round_le; apply Z_le_Q in Hle; [specialize (B1 Hle)|specialize (B2 Hle)]; lra.
Qed.

(** C21: a thumbnail keeps the longer side of the image, capped at
  [maxSize], and scales the other side by the aspect ratio: both sides
  are integers, the longer one is [min(max(w, h), maxSize)], and neither
  side exceeds the original's. *)
Theorem thumbnail_bounded (w h m : Z) :
  (0 < w)%Z -> (0 < h)%Z -> (0 < m)%Z ->
  exists W H, _calculateThumbnailSize (of_Z w) (of_Z h) (of_Z m) = (of_Z W, of_Z H) /\
    Z.max W H = Z.min (Z.max w h) m /\ (0 <= W <= w)%Z /\ (0 <= H <= h)%Z.
Proof.
  intros Hw Hh Hm. unfold _calculateThumbnailSize. rewrite div_of_Z by lia. rewrite gt_of_Z, !min_of_Z.
  pose proof (Z_pos_Q w Hw). pose proof (Z_pos_Q h Hh).
  destruct (Z.ltb_spec h w) as [Hlt|Hge]; cbv zeta.
  - replace (div (of_Z (Z.min w m)) _) with (Fin (inject_Z (Z.min w m) / (inject_Z w / inject_Z h)))
      by (symmetry; apply div_Fin; assert (0 < inject_Z w / inject_Z h)%Q
            by (apply Qlt_shift_div_l; lra); lra).
    rewrite (round_Qeq _ (inject_Z (Z.min w m) * (inject_Z h / inject_Z w))) by (field; lra).
    destruct (round_scaled (Z.min w m) w h) as (k & -> & Hk0 & Hk1 & Hk2); [lia..|].
    exists (Z.min w m), k. rewrite round_Z. split; [done|].
    specialize (Hk1 ltac:(lia)). specialize (Hk2 ltac:(lia)). lia.
  - replace (mul (of_Z (Z.min h m)) _) with (Fin (inject_Z (Z.min h m) * (inject_Z w / inject_Z h)))
      by reflexivity.
    destruct (round_scaled (Z.min h m) h w) as (k & -> & Hk0 & Hk1 & Hk2); [lia..|].
    exists k, (Z.min h m). rewrite round_Z. split; [done|].
    specialize (Hk1 ltac:(lia)). specialize (Hk2 ltac:(lia)). lia.
Qed.
Lemma round_between (x : Q) (k : Z) :
  (0 <= x)%Q -> (x <= inject_Z k)%Q -> exists k', round (Fin x) = of_Z k' /\ (0 <= k' <= k)%Z.
Proof.
  intros H0 H1. eexists. split; [reflexivity|].
  split; [by apply round_nonneg|apply round_le; lra].
Qed.

Lemma Q_le_min (x : Q) (a b : Z) :
  (x <= inject_Z a)%Q -> (x <= inject_Z b)%Q -> (x <= inject_Z (Z.min a b))%Q.
Proof. intros Ha Hb. by destruct (Z.min_spec a b) as [[_ ->]|[_ ->]]. Qed.

Lemma find_none_intro {A} (f : A -> bool) (l : list A) :
  (forall x, In x l -> f x = false) -> List.find f l = None.
Proof. induction l as [|x l IH]; intros H; cbn; [done|]. rewrite H by by left. apply IH. intros y Hy. apply H. by right. Qed.

Lemma div_of_Z_Fin (a : Z) (y : Q) : (0 < y)%Q -> div (of_Z a) (Fin y) = Fin (inject_Z a / y).
Proof. intros Hy. apply div_Fin. lra. Qed.

(** [_calculateCompressedSize] with positive integer limits returns
  integer sides within both the limits and the original sides, and leaves
  an image that already fits unchanged. *)
Theorem compressed_size_bounded (w h mw mh : Z) :
  (0 < w)%Z -> (0 < h)%Z -> (0 < mw)%Z -> (0 < mh)%Z ->
  (exists W H, _calculateCompressedSize (of_Z w) (of_Z h) (of_Z mw) (of_Z mh) = (of_Z W, of_Z H) /\
     (0 <= W <= Z.min w mw)%Z /\ (0 <= H <= Z.min h mh)%Z) /\
  ((w <= mw)%Z -> (h <= mh)%Z -> _calculateCompressedSize (of_Z w) (of_Z h) (of_Z mw) (of_Z mh) = (of_Z w, of_Z h)).
Proof.
  intros Hw Hh Hmw Hmh. pose proof (Z_pos_Q w Hw). pose proof (Z_pos_Q h Hh).
  pose proof (Z_pos_Q mw Hmw). pose proof (Z_pos_Q mh Hmh).
  unfold _calculateCompressedSize. rewrite gt_of_Z. split.
  2:{ intros Hw' Hh'. rewrite (proj2 (Z.ltb_ge mw w) Hw'), gt_of_Z, (proj2 (Z.ltb_ge mh h) Hh').
      by autorewrite with jsnum. }
  destruct (Z.ltb_spec mw w) as [Hlt|Hge]; rewrite mul_of_Z.
  - rewrite div_of_Z by lia. set (h1 := (inject_Z (h * mw) / inject_Z w)%Q).
    destruct (scaled_bounds (inject_Z h) (inject_Z w) (inject_Z mw)) as (B0 & _ & B2); [lra..|].
    assert (Eh1 : (h1 == inject_Z h * (inject_Z mw / inject_Z w))%Q) by (unfold h1; rewrite inject_Z_mult; field; lra).
    assert (Hw1 : (inject_Z mw <= inject_Z w)%Q) by (apply Z_le_Q; lia).
    specialize (B2 Hw1). unfold gt. destruct (lt (of_Z mh) (Fin h1)) eqn:E; cbv zeta.
    + apply lt_Fin in E. rewrite mul_of_Z, div_of_Z_Fin by lra.
      destruct (scaled_bounds (inject_Z mw) h1 (inject_Z mh)) as (C0 & _ & C2); [lra..|].
      destruct (round_between (inject_Z (mw * mh) / h1) (Z.min w mw)) as (W & -> & HW).
      { rewrite inject_Z_mult. assert (E' : (inject_Z mw * inject_Z mh / h1 == inject_Z mw * (inject_Z mh / h1))%Q)
          by (field; lra). rewrite E'. lra. }
      { apply Q_le_min; rewrite inject_Z_mult;
          (assert (E' : (inject_Z mw * inject_Z mh / h1 == inject_Z mw * (inject_Z mh / h1))%Q)
             by (field; lra)); rewrite E'; specialize (C2 ltac:(lra)); [|lra].
        enough (inject_Z mw <= inject_Z w)%Q by lra. apply Z_le_Q. lia. }
      exists W, mh. rewrite round_Z. split; [done|]. split; [done|].
      assert (inject_Z mh <= inject_Z h)%Q by lra. rewrite <- Zle_Qle in *. lia.
    + apply lt_Fin_false in E.
      destruct (round_between h1 (Z.min h mh)) as (Hk & -> & HH); [lra|apply Q_le_min; lra|].
      exists mw, Hk. rewrite round_Z. split; [done|]. split; [lia|done].
  - rewrite gt_of_Z. destruct (Z.ltb_spec mh h) as [Hlt'|Hge']; cbv zeta.
    + rewrite div_of_Z by lia.
      destruct (scaled_bounds (inject_Z w) (inject_Z h) (inject_Z mh)) as (C0 & _ & C2); [lra..|].
      specialize (C2 ltac:(apply Z_le_Q; lia)).
      assert (E' : (inject_Z (w * mh) / inject_Z h == inject_Z w * (inject_Z mh / inject_Z h))%Q)
        by (rewrite inject_Z_mult; field; lra).
      destruct (round_between (inject_Z (w * mh) / inject_Z h) (Z.min w mw)) as (W & -> & HW);
        [lra|apply Q_le_min; [lra|]|].
      { enough (inject_Z w <= inject_Z mw)%Q by lra. by apply Z_le_Q. }
      exists W, mh. rewrite round_Z. split; [done|]. lia.
    + exists w, h. rewrite !round_Z. split; [done|]. lia.
Qed.

(** [compressImage(file)] without size options reads the missing
  [CONFIG.IMAGE.MAX_WIDTH] and [MAX_HEIGHT]: every comparison with
  [undefined] is false, so the image is re-encoded at its full size. *)
Theorem compress_defaults_keep_size (w h : Z) (u : jsstring) :
  compressImage (Metadata.Loaded w h) (mkCompressOptions None None) (BlobURL u) = inr (of_Z w, of_Z h).
Proof. unfold compressImage, _calculateCompressedSize. cbn -[round of_Z]. by autorewrite with jsnum. Qed.

(** [_getFilterCSS] returns the CSS of the seven named filters,
  ['none'] for other names, and an inherited member of
  [Object.prototype] (a function or the prototype itself, not CSS) for
  the names [filters] inherits, such as ['constructor']. *)
Theorem getFilterCSS_spec (filter : jsstring) :
  (forall css, (filter, css) ∈ filters -> _getFilterCSS filter = CSS css) /\
  (filter ∉ (map fst filters) -> filter ∈ object_prototype_members -> _getFilterCSS filter = Inherited filter) /\
  (filter ∉ (map fst filters) -> filter ∉ object_prototype_members -> _getFilterCSS filter = CSS (js "none")).
Proof.
  unfold _getFilterCSS. split; [|split].
  - intros css Hin. unfold filters in Hin.
    repeat (apply elem_of_cons in Hin as [Hin|Hin]; [injection Hin as -> ->; vm_compute; reflexivity|]).
    by apply not_elem_of_nil in Hin.
  - intros Hn Hp. rewrite find_none_intro; [by rewrite bool_decide_eq_true_2|].
    intros [k v] Hkv. apply bool_decide_eq_false_2. intros <-. apply Hn.
    apply list_elem_of_In. apply in_map_iff. by exists (k, v).
  - intros Hn Hp. rewrite find_none_intro; [by rewrite bool_decide_eq_false_2|].
    intros [k v] Hkv. apply bool_decide_eq_false_2. intros <-. apply Hn.
    apply list_elem_of_In. apply in_map_iff. by exists (k, v).
Qed.

Lemma thumbnail_bounded_witness :
  _calculateThumbnailSize (of_Z 4000) (of_Z 3000) (of_Z 240) = (of_Z 240, of_Z 180) /\
  exists W H, _calculateThumbnailSize (of_Z 4000) (of_Z 3000) (of_Z 240) = (of_Z W, of_Z H) /\
    Z.max W H = Z.min (Z.max 4000 3000) 240 /\ (0 <= W <= 4000)%Z /\ (0 <= H <= 3000)%Z.
Proof. split; [vm_compute; reflexivity|]. apply (thumbnail_bounded 4000 3000 240); lia. Defined.

Lemma compressed_size_bounded_witness :
  _calculateCompressedSize (of_Z 4000) (of_Z 3000) (of_Z 1920) (of_Z 1080) = (of_Z 1440, of_Z 1080) /\
  (exists W H, _calculateCompressedSize (of_Z 4000) (of_Z 3000) (of_Z 1920) (of_Z 1080) = (of_Z W, of_Z H) /\
     (0 <= W <= Z.min 4000 1920)%Z /\ (0 <= H <= Z.min 3000 1080)%Z).
Proof.
  split; [vm_compute; reflexivity|].
  apply (proj1 (compressed_size_bounded 4000 3000 1920 1080 ltac:(lia) ltac:(lia) ltac:(lia) ltac:(lia))).
Defined.

Lemma getFilterCSS_spec_witness : _getFilterCSS (js "constructor") = Inherited (js "constructor").
Proof. apply (proj1 (proj2 (getFilterCSS_spec (js "constructor")))); apply (bool_decide_unpack _); by vm_compute. Defined.

End Processor.
