(* ===== verification/ImageManager.v ===== *)
(** * The query and clean-up methods of [ImageManager] ([src/src/js/imageManager.js])

    [validateImageFile(file)] checks a [File] against
    [CONFIG.IMAGE.SUPPORTED_FORMATS] and [MAX_FILE_SIZE];
    [getImageInfo], [getAllImages] and [getStats] read the state of
    [ImageLoader]; [removeImage] and [clear] change it and return the
    object URLs they revoke with [URL.revokeObjectURL], in call order. *)

From Stdlib Require Import QArith.
From S2P Require Import Prelude JsMap JsValue ImageCache ImageLoader Utils ImageMetadata.

Module ImageManager.
Import ImageLoader.

Definition supportedFormats : list jsstring := ValidationUtils.SUPPORTED_FORMATS.

Definition zh_unsupported_format : jsstring := [19981; 25903; 25345; 30340; 25991; 20214; 26684; 24335; 58; 32]%Z.
Definition zh_file_too_large : jsstring := [25991; 20214; 36807; 22823; 58; 32]%Z.
Definition zh_file_empty : jsstring := [25991; 20214; 20026; 31354]%Z.

Record validation := mkValidation { valid : bool; errors : list jsstring }.

(** [validateImageFile(file)]: [supportedFormats.includes(file.type)]. *)
Definition validateImageFile (f : Metadata.File) : validation :=
  let errors :=
    (if bool_decide (Metadata.type f ∈ supportedFormats) then []
     else [zh_unsupported_format ++ Metadata.type f]) ++
    (if (ValidationUtils.MAX_FILE_SIZE <? Metadata.size f)%Z then
       [zh_file_too_large ++ FileUtils.formatSize (Metadata.size f) ++ js " > " ++
        FileUtils.formatSize ValidationUtils.MAX_FILE_SIZE]
     else []) ++
    (if (Metadata.size f =? 0)%Z then [zh_file_empty] else []) in
  mkValidation (length errors =? 0)%nat errors.

(** [getImageInfo(cacheKey)]: [loadedImages.get(cacheKey) || null]. *)
Definition getImageInfo (cacheKey : jsstring) (st : state) : option ImageObj :=
  JsMap.get cacheKey (loadedImages st).

Definition is_file (s : Source) : bool := match s with SFile _ _ _ => true | SUrl _ => false end.

(** The URLs one image releases: its object URL when it came from a
  [File], and its thumbnail URL, each when non-empty. *)
Definition revoked_urls (o : ImageObj) : list jsstring :=
  (if negb (bool_decide (io_url o = [])) && is_file (io_source o) then [io_url o] else []) ++
  (match io_thumbnailUrl o with
   | Some t => if bool_decide (t = []) then [] else [t]
   | None => []
   end).

(** [removeImage(cacheKey)]. *)
Definition removeImage (cacheKey : jsstring) (st : state) : state * list jsstring :=
  match JsMap.get cacheKey (loadedImages st) with
  | Some o =>
      (mkState (JsMap.delete cacheKey (loadedImages st)) (loadingPromises st) (loads st) (waiters st)
         (results st) (cacheManager st), revoked_urls o)
  | None => (st, [])
  end.

(** [clear()]: the loads in flight are not cancelled. *)
Definition clear (st : state) : state * list jsstring :=
  (mkState JsMap.empty JsMap.empty (loads st) (waiters st) (results st) (ImageCache.clear (cacheManager st)),
   concat (map (fun e => revoked_urls (snd e)) (loadedImages st))).

(** [getAllImages()]: [Array.from(loadedImages.values())]. *)
Definition getAllImages (st : state) : list ImageObj := map snd (loadedImages st).

Record Stats := mkStats {
  loadedImagesCount : nat; loadingImages : nat; cacheStats : ImageCache.Stats;
  stats_supportedFormats : list jsstring
}.

Definition getStats (st : state) : Stats :=
  mkStats (JsMap.size (loadedImages st)) (JsMap.size (loadingPromises st))
    (ImageCache.getStats (cacheManager st)) supportedFormats.

(** ** Theorems *)

Lemma slash_not_supported (t : jsstring) : 47%Z ∈ t -> t ∉ supportedFormats.
Proof.
  intros H47 Hin. unfold supportedFormats, ValidationUtils.SUPPORTED_FORMATS in Hin.
  apply list_elem_of_In in H47.
  repeat (apply elem_of_cons in Hin as [->|Hin]; [vm_compute in H47; intuition discriminate|]).
  by apply not_elem_of_nil in Hin.
Qed.

(** C18: [validateImageFile] compares [file.type], a MIME type such as
  ['image/jpeg'], with the extensions of [SUPPORTED_FORMATS]: every file
  whose type contains a ['/'] is rejected, its first error the
  unsupported-format message. *)
Theorem validate_rejects_mime_types (f : Metadata.File) :
  47%Z ∈ Metadata.type f ->
  valid (validateImageFile f) = false /\
  head (errors (validateImageFile f)) = Some (zh_unsupported_format ++ Metadata.type f).
Proof.
  intros H. unfold validateImageFile. cbn [valid errors].
  rewrite bool_decide_eq_false_2 by (by apply slash_not_supported). by split.
Qed.

(** a file of [size >= 0] is valid exactly when its type is one of
  the listed extensions and its size is in [1 .. MAX_FILE_SIZE]. *)
Theorem validate_spec (f : Metadata.File) :
  (0 <= Metadata.size f)%Z ->
  valid (validateImageFile f) = true <->
  Metadata.type f ∈ supportedFormats /\ (0 < Metadata.size f <= ValidationUtils.MAX_FILE_SIZE)%Z.
Proof.
  intros Hs. unfold validateImageFile. cbn [valid].
  destruct (bool_decide_reflect (Metadata.type f ∈ supportedFormats)) as [Ht|Ht];
  destruct (Z.ltb_spec ValidationUtils.MAX_FILE_SIZE (Metadata.size f));
  destruct (Z.eqb_spec (Metadata.size f) 0); cbn; split; intros; try lia; try done;
  destruct_and?; try lia; try done. split; [done|lia].
Qed.

(** [removeImage(key)] forgets exactly [key] and revokes the URLs of
  its image. *)
Theorem removeImage_spec (key : jsstring) (st : state) :
  JsMap.wf (loadedImages st) ->
  let '(st', revoked) := removeImage key st in
  getImageInfo key st' = None /\
  (forall j, j <> key -> getImageInfo j st' = getImageInfo j st) /\
  revoked = match getImageInfo key st with Some o => revoked_urls o | None => [] end.
Proof.
  intros Hwf. unfold removeImage, getImageInfo.
  destruct (JsMap.get key (loadedImages st)) as [o|] eqn:E; cbn [loadedImages].
  - split; [by apply JsMap.get_delete_eq|]. split; [|done].
    intros j Hj. by apply JsMap.get_delete_ne.
  - by split.
Qed.

(** [clear()] empties [loadedImages] and [loadingPromises] but does
  not stop a load in flight: when it completes, the caller that started
  it stores its image again (with [eventManager.emitImageLoading]
  defined, the only case where a load gets that far). *)
Theorem clear_keeps_loads_in_flight (cm : ImageCache.state) (n : jsstring) (sz lm : nat)
    (u : jsstring) (thumb : option jsstring) (md : JsValue.jsval) (now : Z) :
  let src := SFile n sz lm in
  let key := js "file:" ++ n ++ js ":" ++ nat_to_jsstring sz ++ js ":" ++ nat_to_jsstring lm in
  let st := (clear (loadImage true 0 src true (init cm))).1 in
  getAllImages st = [] /\
  exists st', loadOk 0 u thumb md now st = Some st' /\
    getImageInfo key st' = Some (mkImageObj 0 key src u thumb).
Proof.
  cbn zeta. split; [done|]. eexists. split; [reflexivity|].
  unfold getImageInfo. cbn -[JsMap.get JsMap.set JsMap.delete js nat_to_jsstring].
  apply JsMap.get_set_eq.
Qed.

Lemma validate_rejects_mime_types_witness :
  valid (validateImageFile (Metadata.mkFile (js "cat.jpg") 2048 (js "image/jpeg") 0)) = false /\
  head (errors (validateImageFile (Metadata.mkFile (js "cat.jpg") 2048 (js "image/jpeg") 0))) =
    Some (zh_unsupported_format ++ js "image/jpeg").
Proof. apply validate_rejects_mime_types. cbn. apply list_elem_of_lookup_2 with 5. reflexivity. Defined.

Lemma validate_spec_witness :
  valid (validateImageFile (Metadata.mkFile (js "cat.jpg") 2048 (js "jpg") 0)) = true.
Proof.
  apply (validate_spec (Metadata.mkFile (js "cat.jpg") 2048 (js "jpg") 0)); cbn; [lia|].
  split; [apply list_elem_of_lookup_2 with 0; reflexivity|unfold ValidationUtils.MAX_FILE_SIZE; lia].
Defined.

Lemma removeImage_spec_witness :
  let o := mkImageObj 0 (js "k") (SFile (js "cat.jpg") 2048 0) (js "blob:1") (Some (js "blob:2")) in
  let st := mkState [(js "k", o)] [] [] [] [] ImageCache.repository_init in
  (removeImage (js "k") st).2 = [js "blob:1"; js "blob:2"] /\
  let '(st', revoked) := removeImage (js "k") st in
  getImageInfo (js "k") st' = None /\
  (forall j, j <> js "k" -> getImageInfo j st' = getImageInfo j st) /\
  revoked = match getImageInfo (js "k") st with Some o => revoked_urls o | None => [] end.
Proof.
  cbv zeta. split; [reflexivity|].
  apply removeImage_spec. unfold JsMap.wf, JsMap.keys. cbn. apply NoDup_singleton.
Defined.

End ImageManager.
