(* ===== verification/Timing.v ===== *)
(** * [ThrottleUtils.throttle] and [AsyncUtils.delay]/[retry] of [src/src/js/utils.js]

    [throttle(func, delay)] returns a wrapper with its own [lastCall]
    (initially [0]): a call at time [now] runs [func] when
    [now - lastCall >= delay] and is dropped otherwise; nothing is
    scheduled for later.  [Throttle.run] is the wrapper applied to a
    sequence of call times; the [ResponsiveManager] of
    [src/src/js/uiManager.js] wraps [_handleResize] with a delay of 250 ms.

    [retry(fn, retries, delay)] awaits [fn()]; on a rejection it waits
    [delay] ms ([AsyncUtils.delay], a [setTimeout]) and calls itself with
    [retries - 1] while [retries > 0], and rethrows the last error
    otherwise.  The outcomes of the successive calls of [fn] are an input
    (a function of the call number); [Retry.retry] returns the result, the
    number of calls and the time spent waiting, with fuel on the recursion
    and [None] when the fuel runs out.  [debounce] and [timeout] have no
    caller in the repository and are not modelled. *)

From S2P Require Import Prelude.

Module Throttle.

(** One call of the wrapper at time [now] with [lastCall]: the new
  [lastCall] and whether [func] ran. *)
Definition call (delay now lastCall : Z) : Z * bool :=
  if (delay <=? now - lastCall)%Z then (now, true) else (lastCall, false).

(** The times at which [func] runs, for calls at [times]. *)
Fixpoint run (delay lastCall : Z) (times : list Z) : list Z :=
  match times with
  | [] => []
  | now :: ts =>
      let '(lastCall', ran) := call delay now lastCall in
      if ran then now :: run delay lastCall' ts else run delay lastCall' ts
  end.

(** Every run is at least [delay] after the previous one, the first at
  least [delay] after [last]. *)
Fixpoint spaced (delay last : Z) (runs : list Z) : Prop :=
  match runs with
  | [] => True
  | r :: rs => (delay <= r - last)%Z /\ spaced delay r rs
  end.

(** C35: the runs of a throttled function are [delay] apart: whatever the
  call times, two consecutive runs are at least [delay] ms apart, and the
  first is [delay] after the initial [lastCall]. *)
Theorem throttle_spaced (delay lastCall : Z) (times : list Z) :
  spaced delay lastCall (run delay lastCall times).
Proof.
  revert lastCall. induction times as [|now ts IH]; intros last; cbn; [done|].
  unfold call. destruct (Z.leb_spec delay (now - last)); cbn; [split; [lia|]|]; apply IH.
Qed.

(** the throttle keeps the leading call of a burst and drops the
  rest for good: three resize events 100 ms apart, wrapped with the 250 ms
  of [ResponsiveManager], run the handler once, at the first event, and
  the last size is never handled. *)
Theorem throttle_drops_trailing (t : Z) :
  (250 <= t)%Z -> run 250 0 [t; t + 100; t + 200]%Z = [t].
Proof.
  intros Ht. cbn. unfold call.
  rewrite (proj2 (Z.leb_le 250 (t - 0)) ltac:(lia)).
  rewrite (proj2 (Z.leb_gt 250 (t + 100 - t)) ltac:(lia)).
  by rewrite (proj2 (Z.leb_gt 250 (t + 200 - t)) ltac:(lia)).
Qed.

Lemma throttle_drops_trailing_witness : run 250 0 [1000; 1100; 1200]%Z = [1000%Z].
Proof. apply (throttle_drops_trailing 1000). lia. Defined.

End Throttle.

Module Retry.

Section Retry.
Context {A : Type}.

(** [AsyncUtils.delay(ms)] resolves after [ms] (at least [0]). *)
Definition delay (ms : Z) : Z := Z.max 0 ms.

(** [retry(fn, retries, delay)] from call number [k] of [fn]: the result,
  the number of calls of [fn] and the total waiting time. *)
Fixpoint retry (fuel : nat) (fn : nat -> js_error + A) (k : nat) (retries ms : Z)
    : option ((js_error + A) * nat * Z) :=
  match fuel with
  | O => None
  | S fuel' =>
      match fn k with
      | inr v => Some (inr v, 1%nat, 0%Z)
      | inl e =>
          if (0 <? retries)%Z then
            match retry fuel' fn (S k) (retries - 1) ms with
            | Some (r, calls, waited) => Some (r, S calls, (delay ms + waited)%Z)
            | None => None
            end
          else Some (inl e, 1%nat, 0%Z)
      end
  end.

Lemma retry_S (fuel : nat) (fn : nat -> js_error + A) (k : nat) (retries ms : Z) :
  retry (S fuel) fn k retries ms =
  match fn k with
  | inr v => Some (inr v, 1%nat, 0%Z)
  | inl e =>
      if (0 <? retries)%Z then
        match retry fuel fn (S k) (retries - 1) ms with
        | Some (r, calls, waited) => Some (r, S calls, (delay ms + waited)%Z)
        | None => None
        end
      else Some (inl e, 1%nat, 0%Z)
  end.
Proof. reflexivity. Qed.

(** C24: [retry] with an integer [retries >= 0] terminates within
  [retries + 1] calls of [fn]: it returns the first success among them,
  having waited [delay] after each earlier failure, or, when all fail,
  rethrows the error of the last one after [retries] waits. *)
Theorem retry_terminates (fn : nat -> js_error + A) (k : nat) (retries ms : Z) :
  (0 <= retries)%Z ->
  exists r calls, retry (S (Z.to_nat retries)) fn k retries ms = Some (r, calls, (Z.of_nat (pred calls) * delay ms)%Z) /\
    (1 <= calls <= S (Z.to_nat retries))%nat /\
    (forall i, (i < pred calls)%nat -> exists e, fn (k + i)%nat = inl e) /\
    r = fn (k + pred calls)%nat /\
    ((exists e, r = inl e) -> calls = S (Z.to_nat retries)).
Proof.
  remember (Z.to_nat retries) as n eqn:En. revert k retries En.
  induction n as [|n IH]; intros k retries En Hr; rewrite retry_S.
  - assert (retries = 0%Z) as -> by lia. cbn [Z.ltb Z.compare].
    destruct (fn k) as [e|v] eqn:Ef; (eexists _, 1%nat; split; [reflexivity|]);
      rewrite Nat.add_0_r; (split; [lia|]); (split; [intros; lia|]); (split; [done|]); intros; lia.
  - destruct (fn k) as [e|v] eqn:Ef.
    + rewrite (proj2 (Z.ltb_lt 0 retries)) by lia.
      destruct (IH (S k) (retries - 1)%Z ltac:(lia) ltac:(lia)) as (r & calls & Hrun & Hc & Hf & Hl & He).
      rewrite Hrun. exists r, (S calls). split.
      { do 2 f_equal. destruct calls as [|c]; [lia|]. cbn [pred]. lia. }
      split; [lia|]. split; [|split].
      * intros [|i] Hi; [by exists e; rewrite Nat.add_0_r|].
        destruct (Hf i ltac:(lia)) as [e' He']. exists e'. by rewrite <- Nat.add_succ_comm.
      * rewrite Hl. f_equal. destruct calls; cbn; lia.
      * intros Hin. specialize (He Hin). lia.
    + eexists _, 1%nat. split; [reflexivity|]. rewrite Nat.add_0_r.
      split; [lia|]. split; [intros; lia|]. split; [done|]. intros [? ?]; discriminate.
Qed.

End Retry.

Lemma retry_terminates_witness :
  retry 4 (fun k => if (k <? 2)%nat then inl (Error (js "busy")) else inr 7%Z) 0 3 1000 =
    Some (inr 7%Z, 3%nat, 2000%Z) /\
  exists r calls, retry (S (Z.to_nat 3)) (fun k => if (k <? 2)%nat then inl (Error (js "busy")) else inr 7%Z) 0 3 1000
      = Some (r, calls, (Z.of_nat (pred calls) * delay 1000)%Z) /\
    (1 <= calls <= S (Z.to_nat 3))%nat /\
    (forall i, (i < pred calls)%nat -> exists e, (fun k => if (k <? 2)%nat then inl (Error (js "busy")) else inr 7%Z) (0 + i)%nat = inl e) /\
    r = (fun k => if (k <? 2)%nat then inl (Error (js "busy")) else inr 7%Z) (0 + pred calls)%nat /\
    ((exists e, r = inl e) -> calls = S (Z.to_nat 3)).
Proof. split; [reflexivity|]. apply retry_terminates. lia. Defined.

End Retry.
