(* ===== verification/EventBus.v ===== *)
(** * The rest of [src/src/js/eventManager.js]: [emitAsync], [waitFor],
    [namespace], the queries, and the typed wrappers of [TypedEventManager]

    Over the registry of [EventManager]:
    - [emitAsync(eventName, ...args)] copies the listener array and awaits
      each listener in turn; a [once] listener is removed only after its
      promise settled.  While a listener is awaited, any other code may
      run: [emitAsync] is a run ([async_run]: the event, the wrappers not
      yet settled, the result so far) advanced by [settle] once the
      awaited listener settled, with any operations of the registry in
      between.  A listener's call returns, throws, or returns a promise
      that rejects ([outcome]): [emit] catches only the throw, [emitAsync]
      also the rejection.
    - [waitFor(eventName, timeout)] registers a [once] listener and, for a
      positive [timeout], a timer that unsubscribes it and rejects.
    - [namespace(ns)] forwards to the manager with [`${ns}:${eventName}`].
    - [TypedEventManager] fixes the event names to [EVENT_TYPES] of
      [src/src/js/config.js]. *)

From S2P Require Import Prelude JsMap EventManager.
Import EventManager.

Module EventBus.

(** [EVENT_TYPES]. *)
Definition IMAGE_LOADED : jsstring := js "image:loaded".
Definition IMAGE_ANALYZED : jsstring := js "image:analyzed".
Definition ADMIN_LOGIN : jsstring := js "admin:login".
Definition ADMIN_LOGOUT : jsstring := js "admin:logout".
Definition SESSION_TIMEOUT : jsstring := js "session:timeout".
Definition UPLOAD_PROGRESS : jsstring := js "upload:progress".
Definition UPLOAD_COMPLETE : jsstring := js "upload:complete".
Definition THEME_CHANGED : jsstring := js "theme:changed".

(** ** [emitAsync] *)

Record async_run := mkRun { run_event : jsstring; run_rest : list ListenerWrapper; run_has : bool }.

(** [emitAsync(eventName)] up to the first [await]: [None] when the event
  has no listener array (the promise resolves to [false]); otherwise the
  run over the copy of the array, its first listener called. *)
Definition emitAsync (eventName : jsstring) (st : state) : option async_run :=
  (fun ls => mkRun eventName ls false) <$> JsMap.get eventName (events st).

(** The listener being awaited. *)
Definition awaited (r : async_run) : option ListenerWrapper := head (run_rest r).

(** The awaited listener settled ([rejected]: it threw or its promise
  rejected): the [once] wrapper of a fulfilled listener is removed from
  the registry as it is now, and the next listener is called. *)
Definition settle (rejected : bool) (r : async_run) (st : state) : option (async_run * state) :=
  match run_rest r with
  | [] => None
  | w :: rest =>
      let st' := if rejected then st else if once w then off (run_event r) (ById (id w)) st else st in
      Some (mkRun (run_event r) rest (run_has r || negb rejected), st')
  end.

(** The promise's value once no listener is left. *)
Definition result (r : async_run) : option bool :=
  match run_rest r with [] => Some (run_has r) | _ => None end.

(** What a call of a listener does: return (a value, or a promise that
  fulfils), throw synchronously, or return a promise that rejects. *)
Inductive outcome := Returns | Throws | Rejects.

(** The listeners [emit] sees fail: its [try] only catches a synchronous
  throw; a rejected promise is not awaited. *)
Definition emit_throws (o : nat -> outcome) (f : nat) : bool :=
  match o f with Throws => true | _ => false end.

(** The listeners [emitAsync] sees fail: [await listener(...)] rethrows a
  rejection inside its [try]. *)
Definition async_rejected (o : nat -> outcome) (f : nat) : bool :=
  match o f with Returns => false | _ => true end.

(** [emitAsync] when nothing else runs while its listeners are awaited. *)
Fixpoint settle_all (o : nat -> outcome) (fuel : nat) (r : async_run) (st : state) : option (bool * state) :=
  match fuel with
  | O => None
  | S f =>
      match awaited r with
      | None => (fun b => (b, st)) <$> result r
      | Some w =>
          match settle (async_rejected o (listener w)) r st with
          | Some (r', st') => settle_all o f r' st'
          | None => None
          end
      end
  end.

(** ** [waitFor] *)

(** [waitFor(eventName, timeout)] with the resolver [waiter] as its
  listener: the registry with the [once] wrapper, its id, and whether a
  timeout is armed. *)
Definition waitFor (eventName : jsstring) (waiter : nat) (timeout : Z) (st : state) : state * nat * bool :=
  let '(st', i) := once_ eventName waiter default_options st in (st', i, (0 <? timeout)%Z).

(** The timeout fired first: [cleanup()] unsubscribes the wrapper. *)
Definition waitFor_timeout (eventName : jsstring) (i : nat) (st : state) : state := off eventName (ById i) st.

(** ** Queries and settings *)

Definition eventNames (st : state) : list jsstring := JsMap.keys (events st).

Definition setMaxListeners (max : nat) (st : state) : state :=
  mkState (events st) max (next_id st) (warnings st).

Record listener_info := mkInfo { info_id : nat; info_priority : Z; info_once : bool }.

Record debug_info := mkDebugInfo {
  totalEvents : nat; totalListeners : nat; per_event : list (jsstring * (nat * list listener_info))
}.

Definition getDebugInfo (st : state) : debug_info :=
  mkDebugInfo (JsMap.size (events st))
    (fold_left (fun n e => n + length (snd e)) (events st) 0)
    (map (fun e => (fst e, (length (snd e), map (fun l => mkInfo (id l) (priority l) (once l)) (snd e))))
       (events st)).

(** ** [namespace(ns)] *)

Definition ns_on (ns eventName : jsstring) (f : nat) (o : Options) (st : state) : state * nat :=
  on (prefixEvent ns eventName) f o st.
Definition ns_once (ns eventName : jsstring) (f : nat) (o : Options) (st : state) : state * nat :=
  once_ (prefixEvent ns eventName) f o st.
Definition ns_off (ns eventName : jsstring) (x : listenerOrId) (st : state) : state :=
  off (prefixEvent ns eventName) x st.
Definition ns_emit (ns eventName : jsstring) (throws : nat -> bool) (st : state) : state * bool * list nat :=
  emit (prefixEvent ns eventName) throws st.
Definition ns_emitAsync (ns eventName : jsstring) (st : state) : option async_run :=
  emitAsync (prefixEvent ns eventName) st.
Definition ns_listenerCount (ns eventName : jsstring) (st : state) : nat :=
  listenerCount (prefixEvent ns eventName) st.

(** ** [TypedEventManager] *)

Definition onImageLoaded (f : nat) (o : Options) (st : state) : state * nat := on IMAGE_LOADED f o st.
Definition onImageAnalyzed (f : nat) (o : Options) (st : state) : state * nat := on IMAGE_ANALYZED f o st.
Definition onAdminLogin (f : nat) (o : Options) (st : state) : state * nat := on ADMIN_LOGIN f o st.
Definition onAdminLogout (f : nat) (o : Options) (st : state) : state * nat := on ADMIN_LOGOUT f o st.
Definition onSessionTimeout (f : nat) (o : Options) (st : state) : state * nat := on SESSION_TIMEOUT f o st.
Definition onUploadProgress (f : nat) (o : Options) (st : state) : state * nat := on UPLOAD_PROGRESS f o st.
Definition onUploadComplete (f : nat) (o : Options) (st : state) : state * nat := on UPLOAD_COMPLETE f o st.
Definition onThemeChanged (f : nat) (o : Options) (st : state) : state * nat := on THEME_CHANGED f o st.

(** ** Theorems *)

Lemma settle_all_fold (o : nat -> outcome) (e : jsstring) (ls : list ListenerWrapper)
    (has : bool) (called : list nat) (st : state) :
  settle_all o (S (length ls)) (mkRun e ls has) st =
  Some (let '(st', h, _) := fold_left (fun acc w =>
          let '(st, hasListeners, called) := acc in
          if async_rejected o (listener w) then (st, hasListeners, called ++ [listener w])
          else ((if once w then off e (ById (id w)) st else st), true, called ++ [listener w]))
          ls (st, has, called) in (h, st')).
Proof.
  revert has called st. induction ls as [|w ls IH]; intros has called st; [done|].
  cbn [settle_all awaited head run_rest settle run_event run_has fold_left length].
  destruct (async_rejected o (listener w)); cbn [orb negb].
  - rewrite Bool.orb_false_r. apply IH.
  - rewrite Bool.orb_true_r. apply IH.
Qed.

Lemma fold_left_ext_in {A B} (f g : A -> B -> A) (l : list B) (a : A) :
  (forall acc x, x ∈ l -> f acc x = g acc x) -> fold_left f l a = fold_left g l a.
Proof.
  revert a. induction l as [|x l IH]; intros a Hfg; [done|]. cbn [fold_left].
  rewrite Hfg by constructor. apply IH. intros acc y Hy. apply Hfg. by constructor.
Qed.

(** A listener that does not reject asynchronously fails for [emit] and
  for [emitAsync] alike. *)
Lemma async_rejected_emit_throws (o : nat -> outcome) (f : nat) :
  o f <> Rejects -> async_rejected o f = emit_throws o f.
Proof. unfold async_rejected, emit_throws. by destruct (o f). Qed.

(** C37: when no other code runs while its listeners are awaited and no
  listener of the event returns a promise that rejects, [emitAsync]
  settles with the result and the registry of [emit]: the same listeners
  succeed and the same [once] wrappers are removed.  A rejecting listener
  breaks it: [emit] counts it as handled and removes its [once] wrapper,
  [emitAsync] catches the rejection and does neither
  ([emitAsync_rejection_differs]). *)
Theorem emitAsync_sequential_eq_emit (eventName : jsstring) (o : nat -> outcome) (st : state) :
  Forall (fun w => o (listener w) <> Rejects) (default [] (JsMap.get eventName (events st))) ->
  match emitAsync eventName st with
  | None => emit eventName (emit_throws o) st = (st, false, [])
  | Some r => settle_all o (S (length (run_rest r))) r st =
                Some ((emit eventName (emit_throws o) st).1.2, (emit eventName (emit_throws o) st).1.1)
  end.
Proof.
  intros Hno. unfold emitAsync, emit. destruct (JsMap.get eventName (events st)) as [ls|]; cbn [fmap option_fmap option_map]; [|done].
  rewrite (settle_all_fold o eventName ls false []). cbn [default] in Hno.
  rewrite (fold_left_ext_in _ (fun acc w =>
          let '(st, hasListeners, called) := acc in
          if emit_throws o (listener w) then (st, hasListeners, called ++ [listener w])
          else ((if once w then off eventName (ById (id w)) st else st), true, called ++ [listener w]))).
  - by destruct (fold_left _ ls _) as [[st' h] c].
  - intros [[st1 h] c] w Hw. rewrite async_rejected_emit_throws; [done|].
    by apply (proj1 (Forall_forall _ _) Hno).
Qed.

Lemma emitAsync_sequential_eq_emit_witness :
  let st0 := (once_ IMAGE_LOADED 7 default_options (on IMAGE_LOADED 8 default_options init).1).1 in
  let o := fun f : nat => if (f =? 8)%nat then Throws else Returns in
  Forall (fun w => o (listener w) <> Rejects) (default [] (JsMap.get IMAGE_LOADED (events st0))) /\
  match emitAsync IMAGE_LOADED st0 with
  | None => emit IMAGE_LOADED (emit_throws o) st0 = (st0, false, [])
  | Some r => settle_all o (S (length (run_rest r))) r st0 =
                Some ((emit IMAGE_LOADED (emit_throws o) st0).1.2, (emit IMAGE_LOADED (emit_throws o) st0).1.1)
  end.
Proof.
  cbv zeta. assert (H : Forall (fun w => (if (listener w =? 8)%nat then Throws else Returns) <> Rejects)
    (default [] (JsMap.get IMAGE_LOADED (events (once_ IMAGE_LOADED 7 default_options
       (on IMAGE_LOADED 8 default_options init).1).1)))).
  { vm_compute. repeat constructor; discriminate. }
  split; [exact H|]. exact (emitAsync_sequential_eq_emit _ _ _ H).
Defined.

(** A [once] listener whose promise rejects: [emit] reports the event
  handled and unsubscribes it, [emitAsync] reports it unhandled and keeps
  it. *)
Theorem emitAsync_rejection_differs :
  let st0 := (once_ IMAGE_LOADED 7 default_options init).1 in
  let o := fun _ : nat => Rejects in
  (emit IMAGE_LOADED (emit_throws o) st0).1.2 = true /\
  listenerCount IMAGE_LOADED (emit IMAGE_LOADED (emit_throws o) st0).1.1 = 0 /\
  exists r, emitAsync IMAGE_LOADED st0 = Some r /\
    settle_all o (S (length (run_rest r))) r st0 = Some (false, st0) /\
    listenerCount IMAGE_LOADED st0 = 1.
Proof. cbv zeta. split_and!; [vm_compute; reflexivity..|]. eexists. split_and!; vm_compute; reflexivity. Qed.

(** a [once] listener awaited by [emitAsync] is still registered
  while it runs: an [emit] of the same event in that time calls it a
  second time, and the registry ends without it; the listener runs twice
  for one registration. *)
Theorem once_listener_runs_twice :
  let st0 := (once_ IMAGE_LOADED 7 default_options init).1 in
  exists r r' st2,
    emitAsync IMAGE_LOADED st0 = Some r /\ option_map listener (awaited r) = Some 7 /\
    (emit IMAGE_LOADED (fun _ => false) st0).2 = [7] /\
    settle false r (emit IMAGE_LOADED (fun _ => false) st0).1.1 = Some (r', st2) /\
    result r' = Some true /\ listenerCount IMAGE_LOADED st2 = 0.
Proof. cbv zeta. do 3 eexists. split_and!; vm_compute; reflexivity. Qed.

(** the namespaces of [namespace(ns)] are not separate: event
  [b:c] of namespace [a] and event [c] of namespace [a:b] are the same
  event, so each one's [emit] calls the other's listeners. *)
Theorem namespaces_overlap (a b c : jsstring) (rejected : nat -> bool) (f : nat) (o : Options) (st : state) :
  ns_emit a (b ++ js ":" ++ c) rejected st = ns_emit (a ++ js ":" ++ b) c rejected st /\
  ns_on a (b ++ js ":" ++ c) f o st = ns_on (a ++ js ":" ++ b) c f o st.
Proof. unfold ns_emit, ns_on, prefixEvent. by rewrite <- !app_assoc. Qed.

(** [waitFor] on an event without listeners, once its timeout fired,
  leaves the registry's events as they were: the waiter is unsubscribed
  and the event's empty array deleted. *)
Theorem waitFor_timeout_restores (eventName : jsstring) (waiter : nat) (timeout : Z) (st : state) :
  eventName ∉ JsMap.keys (events st) ->
  let '(st', i, armed) := waitFor eventName waiter timeout st in
  armed = (0 <? timeout)%Z /\ events (waitFor_timeout eventName i st') = events st.
Proof.
  intros Hn. unfold waitFor, once_, on, waitFor_timeout, off. cbn [events fst snd].
  rewrite (JsMap.get_None_notin _ _ Hn). cbn [default insertByPriority findLower app].
  split; [done|]. rewrite JsMap.get_set_eq. cbn [removeFirst matches id]. rewrite Nat.eqb_refl.
  by apply JsMap.delete_set_notin.
Qed.

Lemma waitFor_timeout_restores_witness :
  let '(st', i, armed) := waitFor IMAGE_LOADED 3 5000 init in
  armed = true /\ events (waitFor_timeout IMAGE_LOADED i st') = events init.
Proof.
  pose proof (waitFor_timeout_restores IMAGE_LOADED 3 5000 init ltac:(apply not_elem_of_nil)) as H.
  destruct (waitFor IMAGE_LOADED 3 5000 init) as [[st' i] armed]. exact H.
Defined.

End EventBus.
