(* ===== verification/AIEngine.v ===== *)
(** * The [EnhancedAIEngine] object of [src/src/js/aiEngine.js] as a whole

    The engine's fields are modelled by the components that use them:
    [analysisCache] and [maxCacheSize] by [AnalysisCache], [analysisQueue]
    and [isProcessing] by [Scheduler], [tensorflowManager] by
    [ModelLoader]; [Engine] puts them together with
    [confidenceThreshold] and the [beforeunload] listener [_bindEvents]
    adds to [window].  The operations here are those of the whole object:
    [getStats], [clearCache], [setConfidenceThreshold], [dispose] and the
    [beforeunload] handler.  [env_of] is the [Pipeline.ModelEnv] that
    [_performAnalysis] sees when it calls [classifyImage] and
    [detectObjects] of the manager: the refinement theorem shows the
    abstract environment of [Pipeline] is what the manager provides. *)

From Stdlib Require Import QArith Qminmax Lqa.
From S2P Require Import Prelude JsMap AnalysisCache Scheduler PostProcess Pipeline ModelLoader Utils.
Import PostProcess.

Module AIEngine.

Record Engine := mkEngine {
  cache : AnalysisCache.state AnalysisResult;
  sched : Scheduler.SchedState;
  tensorflowManager : ModelLoader.TFManager;
  confidenceThreshold : Q;
  unloadBound : bool        (** the [beforeunload] listener of [_bindEvents] *)
}.

(** [CONFIG.AI.CONFIDENCE_THRESHOLD]. *)
Definition CONFIDENCE_THRESHOLD : Q := 3 # 10.

(** [constructor()], which ends with [_bindEvents()]. *)
Definition init : Engine :=
  mkEngine (AnalysisCache.init 100) Scheduler.init ModelLoader.tf_init CONFIDENCE_THRESHOLD true.

Record Stats := mkStats {
  cacheSize : nat;
  queueLength : nat;
  stats_isProcessing : bool;
  modelInfo : ModelLoader.ModelInfo;
  stats_confidenceThreshold : Q
}.

(** [getStats()]. *)
Definition getStats (e : Engine) : Stats :=
  mkStats (JsMap.size (AnalysisCache.analysisCache (cache e))) (length (Scheduler.analysisQueue (sched e)))
    (Scheduler.isProcessing (sched e)) (ModelLoader.getModelInfo (tensorflowManager e)) (confidenceThreshold e).

(** [clearCache()]: the in-memory cache is cleared, then the durable
  tier's [clear()] runs and may throw. *)
Definition clearCache (tier : AnalysisCache.durable_tier) (e : Engine) : Engine * option js_error :=
  let '(c, err) := AnalysisCache.clearCache tier (cache e) in
  (mkEngine c (sched e) (tensorflowManager e) (confidenceThreshold e) (unloadBound e), err).

(** [setConfidenceThreshold(threshold)]: [MathUtils.clamp(threshold, 0, 1)]. *)
Definition setConfidenceThreshold (threshold : Q) (e : Engine) : Engine :=
  mkEngine (cache e) (sched e) (tensorflowManager e) (MathUtils.clamp threshold 0 1) (unloadBound e).

(** [dispose()]: the manager's [dispose], the cache cleared, the queue
  emptied and [isProcessing] reset. *)
Definition dispose (e : Engine) : Engine :=
  mkEngine (AnalysisCache.dispose (cache e)) (Scheduler.dispose (sched e))
    (ModelLoader.dispose (tensorflowManager e)) (confidenceThreshold e) (unloadBound e).

(** The [beforeunload] event of [window]. *)
Definition beforeunload (e : Engine) : Engine := if unloadBound e then dispose e else e.

(** What [_performAnalysis] sees of the manager: which models are
  present, and the outcome of [classifyImage] / [detectObjects] for the
  outcomes of the libraries' [classify] and [detect]. *)
Definition env_of (tf : ModelLoader.TFManager) (classify : js_error + list ModelLoader.MobileNetPrediction)
    (detect : js_error + list ModelLoader.CocoPrediction) : Pipeline.ModelEnv :=
  Pipeline.mkModelEnv (bool_decide (js "mobilenet" ∈ ModelLoader.models tf))
    (bool_decide (js "cocoSsd" ∈ ModelLoader.models tf))
    (ModelLoader.classifyImage tf classify) (ModelLoader.detectObjects tf detect).

(** The predictions a library call contributes when its model is present. *)
Definition contribution {A} (present : bool) (f : A -> Prediction) (outcome : js_error + list A) : list Prediction :=
  if present then match outcome with inr ps => map f ps | inl _ => [] end else [].

(** ** Theorems *)

(** the environment of [Pipeline] is what the manager provides:
  [_performAnalysis] over the manager's [classifyImage] and
  [detectObjects] takes from each present model the library's predictions,
  mapped with their source, and nothing from a call that rejects; the
  guard "model not loaded" of [classifyImage] and [detectObjects] is never
  reached from it. *)
Theorem performAnalysis_env_of (tf : ModelLoader.TFManager) classify detect (w h : nat) (now : Z) :
  Pipeline._performAnalysis (env_of tf classify detect) (Some (w, h)) now =
  inr (mkRaw (contribution (bool_decide (js "mobilenet" ∈ ModelLoader.models tf)) ModelLoader.mobilenet_prediction classify)
             (contribution (bool_decide (js "cocoSsd" ∈ ModelLoader.models tf)) ModelLoader.coco_prediction detect)
             now w h).
Proof.
  unfold Pipeline._performAnalysis, env_of, Pipeline.modelContribution, contribution,
    ModelLoader.classifyImage, ModelLoader.detectObjects. cbn [Pipeline.mobilenetLoaded Pipeline.cocoSsdLoaded
    Pipeline.classifyOutcome Pipeline.detectOutcome].
  by case_bool_decide; case_bool_decide; destruct classify, detect.
Qed.

(** [setConfidenceThreshold] keeps the threshold in [[0, 1]] and stores
  a value already in that range as it is. *)
Theorem setConfidenceThreshold_clamps (t : Q) (e : Engine) :
  (0 <= confidenceThreshold (setConfidenceThreshold t e) <= 1 /\
   (0 <= t <= 1 -> confidenceThreshold (setConfidenceThreshold t e) == t))%Q.
Proof.
  cbn [confidenceThreshold setConfidenceThreshold]. unfold MathUtils.clamp.
  destruct (Q.max_spec t 0) as [[H1 E1]|[H1 E1]]; rewrite E1;
    [destruct (Q.min_spec 0 1) as [[H2 E2]|[H2 E2]]|destruct (Q.min_spec t 1) as [[H2 E2]|[H2 E2]]];
    rewrite E2; lra.
Qed.

(** after [dispose()] the statistics show an empty cache, an
  empty queue, no processing and no model, with the threshold kept; a
  later [classifyImage] or [detectObjects] throws "model not loaded"
  until the models are loaded again. *)
Theorem dispose_resets (e : Engine) classify detect :
  getStats (dispose e) =
    mkStats 0 0 false
      (ModelLoader.mkInfo false (ModelLoader.loadingProgress (tensorflowManager e)) []
         (ModelLoader.retryCount (tensorflowManager e)) (ModelLoader.maxRetries (tensorflowManager e)))
      (confidenceThreshold e) /\
  ModelLoader.classifyImage (tensorflowManager (dispose e)) classify = inl (Error ModelLoader.zh_mobilenet_missing) /\
  ModelLoader.detectObjects (tensorflowManager (dispose e)) detect = inl (Error ModelLoader.zh_coco_missing).
Proof. done. Qed.

End AIEngine.
