(* ===== verification/GalleryStats.v ===== *)
(** * The statistics of the gallery: [FilterManager.getFilterStats] and
    [GalleryManager.getGalleryStats] ([src/src/js/galleryManager.js])

    [getFilterStats(images)] walks the images once ([forEach]) and counts
    file types (in a plain object, in first-seen order), orientations,
    images with AI tags, custom tags and notes; it averages the mean tag
    confidence of the images that have tags, and tracks the range of the
    truthy sizes and dates, starting from [Infinity] and [0] and replacing a
    minimum still [Infinity] by [0] at the end.  The ranges are
    [JsNumber.number]s so that [Infinity] and [Math.min]/[Math.max] are
    those of JS.  [getGalleryStats()] reads the gallery's lists and its
    managers.

    The theorems: every count of [getFilterStats] is the number of images
    the corresponding filter of [FilterManager] keeps (orientation, AI
    tags, custom tags, notes), the orientation counts add up to the total,
    the [fileTypes] property of a type is what [stats.fileTypes[type] =
    (stats.fileTypes[type] || 0) + 1] leaves on a plain object (so a type
    named like an [Object.prototype] member, e.g. [constructor], ends as a
    string, see [JsMap.obj_count]), and an image without dimensions is
    counted as square; the mean confidence stays in [[0, 1]] when the tag
    confidences do. *)

From Stdlib Require Import QArith Qminmax Lqa.
From S2P Require Import Prelude JsMap JsArray GallerySearch GalleryPaging Gallery JsNumber.

Module GalleryStats.
Import GallerySearch GalleryPaging Gallery.

Record FilterStats := mkFilterStats {
  total : nat;
  fileTypes : JsMap.t jsstring JsMap.counter;
  landscape : nat; portrait : nat; square : nat;
  withAITags : nat; withCustomTags : nat; withNotes : nat;
  avgConfidence_ : Q;
  sizeMin : JsNumber.number; sizeMax : JsNumber.number;
  earliest : JsNumber.number; latest : JsNumber.number
}.

(** The [stats] object before the loop. *)
Definition stats_init (n : nat) : FilterStats :=
  mkFilterStats n JsMap.empty 0 0 0 0 0 0 0 JsNumber.PInf (JsNumber.of_Z 0) JsNumber.PInf (JsNumber.of_Z 0).

(** [image.type || 'unknown']. *)
Definition fileTypeOf (image : Image) : jsstring :=
  match type_ image with Some (_ :: _ as t) => t | _ => js "unknown" end.

(** [image.uploadTime || image.lastModified], when truthy. *)
Definition imageDate (image : Image) : option Q :=
  match truthyQ (uploadTime image) with Some d => Some d | None => truthyQ (lastModified image) end.

(** The loop's state: [stats], [totalConfidence], [confidenceCount]. *)
Record StatsAcc := mkAcc { acc_stats : FilterStats; totalConfidence : Q; confidenceCount : nat }.

(** The body of [images.forEach(image => ...)]. *)
Definition stats_step (a : StatsAcc) (image : Image) : StatsAcc :=
  let s := acc_stats a in
  let '(l, p, q) :=
    if lt_opt (height image) (width image) then (S (landscape s), portrait s, square s)
    else if lt_opt (width image) (height image) then (landscape s, S (portrait s), square s)
    else (landscape s, portrait s, S (square s)) in
  let '(wa, tc, cc) :=
    match aiTags image with
    | Some ((_ :: _) as tags) => (S (withAITags s), (totalConfidence a + avgConfidence tags)%Q, S (confidenceCount a))
    | _ => (withAITags s, totalConfidence a, confidenceCount a)
    end in
  let '(smin, smax) :=
    match truthyQ (size image) with
    | Some x => (JsNumber.min (sizeMin s) (JsNumber.Fin x), JsNumber.max (sizeMax s) (JsNumber.Fin x))
    | None => (sizeMin s, sizeMax s)
    end in
  let '(de, dl) :=
    match imageDate image with
    | Some d => (JsNumber.min (earliest s) (JsNumber.Fin d), JsNumber.max (latest s) (JsNumber.Fin d))
    | None => (earliest s, latest s)
    end in
  mkAcc (mkFilterStats (total s) (JsMap.obj_incr (fileTypeOf image) (fileTypes s)) l p q wa
           (if has_items (customTags image) then S (withCustomTags s) else withCustomTags s)
           (if hasNote image then S (withNotes s) else withNotes s)
           (avgConfidence_ s) smin smax de dl)
    tc cc.

(** [stats.x === Infinity ? 0 : stats.x]. *)
Definition infinity_to_0 (x : JsNumber.number) : JsNumber.number :=
  match x with JsNumber.PInf => JsNumber.of_Z 0 | _ => x end.

(** [getFilterStats(images)]. *)
Definition getFilterStats (images : list Image) : FilterStats :=
  let a := fold_left stats_step images (mkAcc (stats_init (length images)) 0 0) in
  let s := acc_stats a in
  mkFilterStats (total s) (fileTypes s) (landscape s) (portrait s) (square s) (withAITags s)
    (withCustomTags s) (withNotes s)
    (if 0 <? confidenceCount a then totalConfidence a / inject_Z (Z.of_nat (confidenceCount a)) else avgConfidence_ s)%Q
    (infinity_to_0 (sizeMin s)) (sizeMax s) (infinity_to_0 (earliest s)) (latest s).

(** ** [getGalleryStats()] *)

Record GalleryStats := mkGalleryStats {
  totalImages : nat; gs_filteredImages : nat; gs_displayedImages : nat;
  gs_currentPage : Z; gs_totalPages : Z; viewMode : jsstring;
  sortField : option jsstring; sortDirection : option jsstring;
  gs_activeFilters : JsMap.t jsstring filter_value; gs_lastRefreshTime : Z
}.

(** [Object.fromEntries(this.filterManager.activeFilters)] keeps the
  entries of the map, in order (the filter types are not array indices). *)
Definition getGalleryStats (g : Gallery) : GalleryStats :=
  mkGalleryStats (length (images g)) (length (filteredImages g)) (length (displayedImages g))
    (currentPage (paginationManager g)) (getTotalPages (paginationManager g)) (currentView (viewManager g))
    (field (sortManager g)) (direction (sortManager g)) (activeFilters (filterManager g)) (lastRefreshTime g).

(** ** Counting *)

Definition ind (b : bool) : nat := if b then 1 else 0.

Definition count (p : Image -> bool) (l : list Image) : nat := length (List.filter p l).

Definition orient_is (o : jsstring) (image : Image) : bool := bool_decide (imageOrientation image = o).

(** ** Lemmas *)

Lemma count_cons (p : Image -> bool) (i : Image) (l : list Image) : count p (i :: l) = ind (p i) + count p l.
Proof. unfold count, ind. cbn. by destruct (p i). Qed.

Lemma orientation_spec (i : Image) :
  orient_is (js "landscape") i = lt_opt (height i) (width i) /\
  orient_is (js "portrait") i = negb (lt_opt (height i) (width i)) && lt_opt (width i) (height i) /\
  orient_is (js "square") i = negb (lt_opt (height i) (width i)) && negb (lt_opt (width i) (height i)).
Proof.
  unfold orient_is, imageOrientation.
  destruct (lt_opt (height i) (width i)), (lt_opt (width i) (height i)); split_and!; reflexivity.
Qed.

(** Case on every test of [stats_step] for image [i]. *)
Local Ltac step_cases i :=
  unfold stats_step;
  destruct (lt_opt (height i) (width i)), (lt_opt (width i) (height i)), (aiTags i) as [[|]|],
    (truthyQ (size i)), (imageDate i), (has_items (customTags i)), (hasNote i).

(** What one image adds to the counters. *)
Lemma stats_step_counts (a : StatsAcc) (i : Image) :
  let s := acc_stats a in let s' := acc_stats (stats_step a i) in
  total s' = total s /\
  landscape s' = landscape s + ind (orient_is (js "landscape") i) /\
  portrait s' = portrait s + ind (orient_is (js "portrait") i) /\
  square s' = square s + ind (orient_is (js "square") i) /\
  withAITags s' = withAITags s + ind (has_items (aiTags i)) /\
  withCustomTags s' = withCustomTags s + ind (has_items (customTags i)) /\
  withNotes s' = withNotes s + ind (hasNote i) /\
  confidenceCount (stats_step a i) = confidenceCount a + ind (has_items (aiTags i)) /\
  fileTypes s' = JsMap.obj_incr (fileTypeOf i) (fileTypes s).
Proof.
  destruct (orientation_spec i) as (-> & -> & ->). step_cases i;
    cbn [acc_stats confidenceCount total landscape portrait square withAITags withCustomTags withNotes
         fileTypes has_items ind negb andb];
    split_and!; (lia || reflexivity).
Qed.

Lemma fold_stats_counts (l : list Image) (a : StatsAcc) :
  let s := acc_stats a in let a' := fold_left stats_step l a in let s' := acc_stats a' in
  total s' = total s /\
  landscape s' = landscape s + count (orient_is (js "landscape")) l /\
  portrait s' = portrait s + count (orient_is (js "portrait")) l /\
  square s' = square s + count (orient_is (js "square")) l /\
  withAITags s' = withAITags s + count (fun i => has_items (aiTags i)) l /\
  withCustomTags s' = withCustomTags s + count (fun i => has_items (customTags i)) l /\
  withNotes s' = withNotes s + count hasNote l /\
  confidenceCount a' = confidenceCount a + count (fun i => has_items (aiTags i)) l /\
  fileTypes s' = fold_left (fun m x => JsMap.obj_incr (fileTypeOf x) m) l (fileTypes s).
Proof.
  revert a. induction l as [|i l IH]; intros a; cbn zeta.
  - cbn [fold_left count List.filter length]. split_and!; (lia || reflexivity).
  - cbn [fold_left]. destruct (IH (stats_step a i)) as (H1 & H2 & H3 & H4 & H5 & H6 & H7 & H8 & H9).
    destruct (stats_step_counts a i) as (G1 & G2 & G3 & G4 & G5 & G6 & G7 & G8 & G9).
    rewrite !count_cons. cbn [length]. split_and!; try lia. by rewrite H9, G9.
Qed.

Lemma count_ext (p q : Image -> bool) (l : list Image) : (forall i, p i = q i) -> count p l = count q l.
Proof. intros H. induction l as [|i l IH]; [done|]. rewrite !count_cons, H, IH. done. Qed.

Lemma count_orientations (l : list Image) :
  count (orient_is (js "landscape")) l + count (orient_is (js "portrait")) l + count (orient_is (js "square")) l = length l.
Proof.
  induction l as [|i l IH]; [done|]. rewrite !count_cons. cbn [length].
  destruct (orientation_spec i) as (-> & -> & ->).
  destruct (lt_opt (height i) (width i)), (lt_opt (width i) (height i)); cbn [ind negb andb]; lia.
Qed.

Lemma filterByOrientation_named (o : jsstring) (i : Image) :
  o <> js "all" -> _filterByOrientation i (VStr o) = orient_is o i.
Proof. intros Ho. unfold _filterByOrientation, orient_is. by rewrite bool_decide_eq_false_2. Qed.

(** The sum of the confidences of a tag list, from [s0]. *)
Lemma tag_sum_bounds (tags : list AITag) (s0 : Q) :
  Forall (fun t => 0 <= confidence t <= 1)%Q tags ->
  (s0 <= fold_left (fun s tag => s + confidence tag) tags s0 <= s0 + inject_Z (Z.of_nat (length tags)))%Q.
Proof.
  revert s0. induction tags as [|t tags IH]; intros s0 Hf; cbn [fold_left length].
  - rewrite Qplus_0_r. lra.
  - apply Forall_cons in Hf as [Ht Hf]. destruct (IH (s0 + confidence t)%Q Hf) as [H1 H2].
    rewrite Nat2Z.inj_succ, <- Z.add_1_r, inject_Z_plus. change (inject_Z 1) with (1 # 1). lra.
Qed.

Lemma div_unit (x n : Q) : (0 < n)%Q -> (0 <= x <= n)%Q -> (0 <= x / n <= 1)%Q.
Proof.
  intros Hn [H0 H1]. split.
  - apply Qle_shift_div_l; [done|lra].
  - apply Qle_shift_div_r; [done|lra].
Qed.

Lemma pos_length_Q {A} (x : A) (l : list A) : (0 < inject_Z (Z.of_nat (length (x :: l))))%Q.
Proof. change 0%Q with (inject_Z 0). rewrite <- Zlt_Qlt. cbn [length]. lia. Qed.

Lemma avgConfidence_unit (tags : list AITag) :
  tags <> [] -> Forall (fun t => 0 <= confidence t <= 1)%Q tags -> (0 <= avgConfidence tags <= 1)%Q.
Proof.
  intros Hne Hf. destruct tags as [|t ts]; [done|]. unfold avgConfidence.
  apply div_unit; [apply pos_length_Q|]. pose proof (tag_sum_bounds (t :: ts) 0 Hf). lra.
Qed.

(** What one image adds to the confidence sum. *)
Lemma stats_step_confidence (a : StatsAcc) (i : Image) :
  avgConfidence_ (acc_stats (stats_step a i)) = avgConfidence_ (acc_stats a) /\
  totalConfidence (stats_step a i) =
    match aiTags i with Some ((_ :: _) as tags) => (totalConfidence a + avgConfidence tags)%Q | _ => totalConfidence a end.
Proof. step_cases i; done. Qed.

(** The images whose tag confidences are in [[0, 1]]. *)
Definition tags_unit (i : Image) : Prop :=
  forall tags, aiTags i = Some tags -> Forall (fun t => 0 <= confidence t <= 1)%Q tags.

Lemma fold_stats_confidence (l : list Image) (a : StatsAcc) :
  Forall tags_unit l -> (0 <= totalConfidence a <= inject_Z (Z.of_nat (confidenceCount a)))%Q ->
  let a' := fold_left stats_step l a in
  avgConfidence_ (acc_stats a') = avgConfidence_ (acc_stats a) /\
  (0 <= totalConfidence a' <= inject_Z (Z.of_nat (confidenceCount a')))%Q.
Proof.
  revert a. induction l as [|i l IH]; intros a Hf Ha; [done|]. apply Forall_cons in Hf as [Hi Hf].
  cbn [fold_left]. destruct (stats_step_confidence a i) as [E1 E2].
  destruct (stats_step_counts a i) as (_ & _ & _ & _ & _ & _ & _ & E3 & _).
  destruct (IH (stats_step a i) Hf) as [IH1 IH2]; [|split; [congruence|exact IH2]].
  rewrite E2, E3. unfold tags_unit in Hi. destruct (aiTags i) as [[|t ts]|] eqn:Et; cbn [has_items ind]; rewrite ?Nat.add_0_r; [done| |done].
  pose proof (avgConfidence_unit (t :: ts) ltac:(done) (Hi _ eq_refl)).
  rewrite Nat2Z.inj_add, inject_Z_plus. change (inject_Z (Z.of_nat 1)) with (1 # 1). lra.
Qed.

(** ** Properties *)

(** C29: the counts of [getFilterStats(images)] agree with the
  filters of [FilterManager]: each orientation count is the number of
  images [_filterByOrientation] keeps for that orientation, the counts of
  images with AI tags, custom tags and notes are the numbers the
  [aiTags], [customTags] and [notes] filters keep for [true]; the three
  orientations add up to [total], the number of images; and the
  [fileTypes] entry of each type is the plain-object counter of the
  number of images of that type. *)
Theorem filterStats_match_filters (images : list Image) :
  let s := getFilterStats images in
  total s = length images /\
  landscape s + portrait s + square s = total s /\
  (forall t, JsMap.get t (fileTypes s) = JsMap.obj_count t (count (fun i => bool_decide (fileTypeOf i = t)) images)) /\
  landscape s = count (fun i => _filterByOrientation i (VStr (js "landscape"))) images /\
  portrait s = count (fun i => _filterByOrientation i (VStr (js "portrait"))) images /\
  square s = count (fun i => _filterByOrientation i (VStr (js "square"))) images /\
  withAITags s = count (fun i => _filterByAITags i (VBool true)) images /\
  withCustomTags s = count (fun i => _filterByCustomTags i (VBool true)) images /\
  withNotes s = count (fun i => _filterByNotes i (VBool true)) images.
Proof.
  cbv zeta. unfold getFilterStats.
  destruct (fold_stats_counts images (mkAcc (stats_init (length images)) 0 0)) as (H1 & H2 & H3 & H4 & H5 & H6 & H7 & _ & H9).
  cbn [acc_stats stats_init total landscape portrait square withAITags withCustomTags withNotes fileTypes] in *.
  pose proof (count_orientations images).
  rewrite !(count_ext (fun i => _filterByOrientation i (VStr _)) (orient_is _))
    by (intros i; apply filterByOrientation_named; discriminate).
  split_and!; [lia|lia|intros t; rewrite H9; apply (JsMap.get_fold_obj_incr _ _ _ _ 0); unfold JsMap.obj_count; by case_bool_decide|lia..|rewrite H5; reflexivity|rewrite H6; reflexivity|rewrite H7; reflexivity].
Qed.

(** C30: when every AI tag's confidence is in [[0, 1]], so is the
  [avgConfidence] of [getFilterStats]: it is [0] without tagged images
  and the mean of the images' mean confidences otherwise. *)
Theorem filterStats_confidence_unit (images : list Image) :
  Forall tags_unit images -> (0 <= avgConfidence_ (getFilterStats images) <= 1)%Q.
Proof.
  intros Hf. unfold getFilterStats. cbn [avgConfidence_].
  destruct (fold_stats_confidence images (mkAcc (stats_init (length images)) 0 0) Hf) as [E H];
    [split; apply Qle_refl|].
  destruct (Nat.ltb_spec 0 (confidenceCount (fold_left stats_step images (mkAcc (stats_init (length images)) 0 0)))) as [Hc|Hc].
  - apply div_unit; [|exact H]. rewrite <- (Zlt_Qlt 0). exact (proj1 (Nat2Z.inj_lt 0 _) Hc).
  - rewrite E. cbn [acc_stats avgConfidence_ stats_init]. lra.
Qed.

(** An image without dimensions is counted as square ([undefined > x]
  and [undefined < x] are both false), and the [orientation] filter
  keeps it for ['square']. *)
Theorem no_dimensions_square (i : Image) :
  width i = None ->
  square (getFilterStats [i]) = 1 /\ _filterByOrientation i (VStr (js "square")) = true.
Proof.
  intros Hw. assert (E : _filterByOrientation i (VStr (js "square")) = true).
  { rewrite filterByOrientation_named by discriminate. unfold orient_is, imageOrientation, lt_opt.
    rewrite Hw. destruct (height i); by apply bool_decide_eq_true_2. }
  split; [|done]. destruct (fold_stats_counts [i] (mkAcc (stats_init 1) 0 0)) as (_ & _ & _ & H & _).
  unfold getFilterStats. cbn [length square]. rewrite H.
  rewrite filterByOrientation_named in E by discriminate. unfold count. cbn [List.filter]. by rewrite E.
Qed.

Definition sample_image : Image :=
  mkImage (js "img-1") (Some (js "cat.jpg")) (Some (js "image/jpeg")) (Some (2048 # 1)) None None
    (Some [mkAITag (js "cat") (9 # 10); mkAITag (js "pet") (1 # 2)]) None None None None (Some (1000 # 1)) None.

Lemma filterStats_confidence_unit_witness :
  (0 <= avgConfidence_ (getFilterStats [sample_image]) <= 1)%Q.
Proof.
  apply filterStats_confidence_unit. repeat constructor. intros tags [= <-].
  repeat constructor; cbn [confidence]; lra.
Defined.

Lemma no_dimensions_square_witness :
  square (getFilterStats [sample_image]) = 1 /\ _filterByOrientation sample_image (VStr (js "square")) = true.
Proof. apply no_dimensions_square. reflexivity. Defined.

End GalleryStats.
