(* ===== verification/SearchDebounce.v ===== *)
(** * The debounced search box of [AIGalleryApp._bindUIEvents]
    ([src/src/js/app.js])

    The [input] listener of [#search-input] clears the pending timer and
    arms a new one for 300 ms, whose callback searches for
    [e.target.value], the box's value when the timer fires.  [run] gives
    the searches for a sequence of input events (time, value): a pending
    timer due no later than the next input fires before it (timers due at
    the same millisecond were queued first), with the value of the input
    that armed it, which is still the box's value since no input came in
    between; after the last input its timer fires.

    The theorems: the searches are exactly the inputs followed by 300 ms of
    quiet (or by nothing), each 300 ms after its input; for inputs in time
    order they are at least 300 ms apart and never more numerous than the
    inputs. *)

From S2P Require Import Prelude.

Module SearchDebounce.

Definition SEARCH_DELAY : Z := 300.

(** The pending [searchTimeout]: when it fires and the value it reads. *)
Record timer := mkTimer { due : Z; value : jsstring }.

(** The [input] listener: [clearTimeout(searchTimeout); searchTimeout =
  setTimeout(..., 300)]. *)
Definition onInput (t : Z) (v : jsstring) (pending : option timer) : option timer :=
  Some (mkTimer (t + SEARCH_DELAY) v).

(** The searches ([galleryManager.searchImages(value)] at time [due]) for
  the input events [evs], from the pending timer. *)
Fixpoint run (pending : option timer) (evs : list (Z * jsstring)) : list (Z * jsstring) :=
  match evs with
  | [] => match pending with Some tm => [(due tm, value tm)] | None => [] end
  | (t, v) :: rest =>
      (match pending with Some tm => if (due tm <=? t)%Z then [(due tm, value tm)] else [] | None => [] end) ++
      run (onInput t v pending) rest
  end.

(** The specification: the inputs followed by [SEARCH_DELAY] of quiet. *)
Fixpoint quiet (evs : list (Z * jsstring)) : list (Z * jsstring) :=
  match evs with
  | [] => []
  | [(t, v)] => [(t + SEARCH_DELAY, v)]%Z
  | (t, v) :: (((t', _) :: _) as rest) =>
      (if (t + SEARCH_DELAY <=? t')%Z then [(t + SEARCH_DELAY, v)]%Z else []) ++ quiet rest
  end.

(** Times in order, as the browser dispatches events. *)
Fixpoint ordered (evs : list (Z * jsstring)) : Prop :=
  match evs with
  | (t, _) :: (((t', _) :: _) as rest) => (t <= t')%Z /\ ordered rest
  | _ => True
  end.

(** Consecutive searches at least [SEARCH_DELAY] apart. *)
Fixpoint spaced (l : list (Z * jsstring)) : Prop :=
  match l with
  | (s, _) :: (((s', _) :: _) as rest) => (s + SEARCH_DELAY <= s')%Z /\ spaced rest
  | _ => True
  end.

(** ** Lemmas *)

Lemma run_pending (t : Z) (v : jsstring) (evs : list (Z * jsstring)) :
  run (Some (mkTimer (t + SEARCH_DELAY) v)) evs = quiet ((t, v) :: evs).
Proof.
  revert t v. induction evs as [|[t' v'] evs IH]; intros t v; [done|].
  cbn [run due value]. unfold onInput. rewrite IH. done.
Qed.

(** Every search of [quiet] comes [SEARCH_DELAY] after an input at or
  after the first one. *)
Lemma quiet_first (t : Z) (v : jsstring) (evs : list (Z * jsstring)) (s : Z) (w : jsstring) (rest : list (Z * jsstring)) :
  ordered ((t, v) :: evs) -> quiet ((t, v) :: evs) = (s, w) :: rest -> (t + SEARCH_DELAY <= s)%Z.
Proof.
  revert t v s w rest. induction evs as [|[t' v'] evs IH]; intros t v s w rest Ho Hq.
  - cbn in Hq. injection Hq as <- _ _. lia.
  - cbn [ordered] in Ho. destruct Ho as [Ht Ho]. change (quiet ((t, v) :: (t', v') :: evs)) with
      ((if (t + SEARCH_DELAY <=? t')%Z then [(t + SEARCH_DELAY, v)]%Z else []) ++ quiet ((t', v') :: evs)) in Hq.
    destruct (Z.leb_spec (t + SEARCH_DELAY) t'); cbn [app] in Hq.
    + injection Hq as <- _ _. lia.
    + pose proof (IH t' v' s w rest Ho Hq). lia.
Qed.

(** ** Theorems *)

(** C34: the debounce is the quiet-period specification: from no pending
  timer, the searches of a sequence of inputs are exactly the inputs not
  followed by another within 300 ms, each searched 300 ms after it with
  its value. *)
Theorem debounce_spec (evs : list (Z * jsstring)) : run None evs = quiet evs.
Proof. destruct evs as [|[t v] evs]; [done|]. cbn [run onInput app]. apply run_pending. Qed.

(** For inputs in time order the searches are at least 300 ms apart and
  at most as many as the inputs. *)
Theorem debounce_spaced (evs : list (Z * jsstring)) :
  ordered evs -> spaced (run None evs) /\ length (run None evs) <= length evs.
Proof.
  rewrite debounce_spec. induction evs as [|[t v] evs IH]; intros Ho; [done|].
  destruct evs as [|[t' v'] evs]; [cbn; split; [done|lia]|].
  cbn [ordered] in Ho. destruct Ho as [Ht Ho]. destruct (IH Ho) as [Hs Hl].
  change (quiet ((t, v) :: (t', v') :: evs)) with
    ((if (t + SEARCH_DELAY <=? t')%Z then [(t + SEARCH_DELAY, v)]%Z else []) ++ quiet ((t', v') :: evs)).
  destruct (Z.leb_spec (t + SEARCH_DELAY) t'); cbn [app length] in *; [|split; [done|lia]].
  split; [|lia]. destruct (quiet ((t', v') :: evs)) as [|[s w] rest] eqn:Eq; [done|].
  split; [|done]. pose proof (quiet_first t' v' evs s w rest Ho Eq). lia.
Qed.

Lemma debounce_spaced_witness :
  spaced (run None [(0, js "c"); (100, js "ca"); (200, js "cat"); (900, js "cats")]%Z) /\
  length (run None [(0, js "c"); (100, js "ca"); (200, js "cat"); (900, js "cats")]%Z) <= 4.
Proof. apply debounce_spaced. cbn. lia. Defined.

End SearchDebounce.
